(* ===== verification/_CoqProject ===== *)
-Q . S2P
Prelude.v
PyStr.v
Matching.v
Json.v
Presidio.v
Http.v
Tracing.v
Contracts.v
Wire.v
Redis.v
Quota.v
QuotaLedger.v
JobsDb.v
Gateway.v
GatewayProps.v
GatewayRace.v
Sweeper.v
Authz.v
AuthzProps.v
Clients.v
Executor.v
ExecutorProps.v
Guardrails.v
PiiProps.v
EvalGate.v
MaskProps.v
GuardrailsProps.v
SemCache.v
Graph.v
GraphProps.v
HarnessDb.v
Approvals.v
ApprovalsProps.v
Runner.v
RunnerProps.v
AsyncWorker.v
AsyncWorkerProps.v
JobRows.v
WorkerBoot.v
Catalog.v
Ingestion.v
IngestionProps.v
Retrieval.v
RetrievalProps.v
MockIdp.v
BusinessApi.v
BusinessProps.v
IdentityProps.v
EvalDb.v
EvalRun.v
EvalNightly.v
EvalExample.v
EvalGateProps.v
EvalFrames.v
EvalProps.v
RegateProps.v
TraceReview.v
Boot.v
BootProps.v
Postgres.v
Migrations.v
MigrationsProps.v
SchemaProps.v
Platform.v
PlatformProps.v
PlatformJobs.v
