(* ===== verification/Prelude.v ===== *)
(** A verification library for the agent platform: the services under
    src/services and the contracts they share (src/packages/contracts).

    * The program

    A tenant's client calls agent-gateway, which authenticates it, takes a place
    in the tenant's token quota and posts the run to agent-harness (or queues a
    job for async-worker, which posts the same run). agent-harness runs a graph of
    nodes around a language model: it decides which tools the run may use, guards
    the input, looks in a semantic cache, retrieves documents, lets the model
    answer or call tools, guards the output, caches it, and records everything in
    one transaction. Readonly tools query the business API; mutations are previewed,
    wait for a human approval when they are risky, and are executed once.
    mock-idp exchanges the user's token for one that is good for a single action.
    ingestion keeps the catalog of documents that retrieval searches. eval runs a
    golden set through the public gateway and gates releases on the scores.

    * How it is modelled

    A handler, statement or client call is a function [py S A = S -> S * (exn + A)]:
    the state it reaches is kept when it raises, as in Python, and a database
    transaction (a session) is what undoes it. Everything is executable. Tables
    are finite maps under the keys, CHECKs, foreign keys and row-level security of
    the migrations; each SQL statement is a definition that says what it does to
    them. Code outside the repository is a type class — Redis, RediSearch,
    RabbitMQ, HTTP, PyJWT, LangGraph's checkpointer, Langfuse, Presidio's engines,
    Alembic, pydantic's coercions, YAML, numpy, Ragas — whose laws, where a theorem needs any, are a
    second class with a concrete instance. A comment [@ path:first-last symbol]
    above a definition names the lines it translates.

    Floats are IEEE binary64 by Rocq's SpecFloat; integers are unbounded as
    Python's, with the column's or Lua's width written where one applies. Strings
    are byte strings. Dictionaries whose order matters are association lists.

    * The files

    Foundations.
    - Prelude: record updates, binary64, the effect monad and its two logics
      ([hoare], [frames] with its hint database), sorting, shared list lemmas.
    - PyStr: Python's string operations and a backtracking matcher for [re].
      Matching: the matcher is sound and complete for a relational semantics.
    - Json: JSON values, dictionaries, printing, the exceptions, JSONB's domain.
    - Presidio: recognizers, analyzer and anonymizer, and what they promise.
    - Http: HTTP clients, uuids, clocks, digests, YAML, as classes.
    - Contracts, Wire: packages/contracts — enums, models, their strict decoding
      and dumping with the round trips.

    agent-gateway (services/gateway).
    - Redis, Quota: the server's interface and a store that satisfies it; quota.py.
    - QuotaLedger: the ledger of spent and outstanding tokens quota.py refines.
    - JobsDb: persistence/, migration 0004. Gateway: auth.py, clients/, api/routes.py.
    - GatewayProps: replay, exact settlement, tenant isolation, what an accepted
      job leaves, and where a failed request poisons its key. GatewayRace: requests
      in flight, step by step; a key is served once.
    - Sweeper: config.py, main.py, the sweeper's loop; a pass returns what expired.

    agent-harness (services/harness).
    - Authz, AuthzProps: authz/; the resolver is the intersection of five sets, a
      kill switch is obeyed within its cache lifetime.
    - Clients: clients/. Executor, ExecutorProps: tools/; a tool call stays within
      its tenant, actor and scope, and its records agree.
    - Guardrails, PiiProps, MaskProps, GuardrailsProps: guardrails/; the pipelines'
      verdicts, that they fail closed, the redaction round trip, and that no
      recognized number survives the mask.
    - SemCache: cache/. Graph, GraphProps: graph/build.py; confinement, termination,
      no caching of runs that touched personal data.
    - HarnessDb: persistence/, migrations 0002, 0003, 0007.
    - Approvals, ApprovalsProps: approvals.py; at most one execution per approval.
    - Runner, RunnerProps: graph/runner.py, eval_bundle.py, api/routes.py; a run's
      records, all or none. Tracing: observability/tracing.py; TraceReview: what
      eval's nightly review reads of a run.
    - Boot, BootProps: config.py, main.py; what the process that start-up leaves
      lets a run do.
    - Platform, PlatformProps: the harness's routes behind the gateway's client,
      over a network that may lose either message. PlatformJobs: async-worker on
      the same network, a job from its acceptance to its end.

    async-worker, shared job rows.
    - AsyncWorker, AsyncWorkerProps: one delivery, exclusive attempts, retries that end.
    - WorkerBoot: config.py, main.py, and where the topology sends a message.
    - JobRows: the typing invariant of the rows gateway and worker share.

    Documents.
    - Catalog: migrations 0005, 0010 and ingestion's statements. Ingestion,
      IngestionProps: connectors/, chunking.py, pipeline.py; the catalog mirrors the
      source. Retrieval, RetrievalProps: confinement, and search after ingestion.

    The mocks.
    - MockIdp: mock-idp. BusinessApi: mock-business-api. BusinessProps: the leave
      ledger, previewed records, replay. IdentityProps: tokens across both services.

    The database (migrations).
    - Postgres: the statements, the catalogue, constraints and row security.
      Migrations: every revision both ways, env.py's transaction. MigrationsProps:
      what [upgrade head] and [downgrade base] leave. SchemaProps: the tables of
      HarnessDb are the migrated ones.

    eval (services/eval).
    - EvalGate: gate/statistics.py, gate/verdict.py, metrics/deterministic.py,
      metrics/pii_detector.py, datasets/sampler.py.
    - EvalDb: config.py, persistence/, datasets/loader.py, migrations 0006 and 0011.
    - EvalRun: clients/gateway.py, clients/mock_idp.py, metrics/judged.py, runner.py,
      run.py, gate/__main__.py. EvalNightly: report.py, clients/langfuse.py,
      metrics/citation_support.py, nightly_sample.py.
    - EvalExample: a concrete surrounding. EvalGateProps: the verdict's rules, the
      smoke sample, outages. EvalFrames, EvalProps: the baseline's invariant.
      RegateProps: gating a stored run again.

    * What the theorems show

    The properties are numbered C1, C2, ... in the doc comment of each; a theorem
    with hypotheses has a [..._witness] in its file's [Witness] module, where the
    hypotheses hold at concrete input. In groups:
    - state that must add up: the quota's ledger refinement, settlement of a run's
      reservation and the sweeper's return of an abandoned one, the leave ledger, a
      run's records, one baseline per agent, the migrated tables;
    - exclusivity: one run per idempotency key, one execution per approval, one
      running attempt per job;
    - confinement: to the tenant (gateway, search, the migrated tables), to the
      caller's groups (cache, search), to the allowed tools and their scope
      (resolver, executor, booted process), to the token's audience and action
      (identity);
    - composition: gateway and harness end to end, gateway, worker and harness end
      to end, a job's way through RabbitMQ, a run and its review, ingestion and search;
    - replay and round trips: an invocation or an execution repeated under its key,
      redaction and restoration, a token through exchange and verification, a
      stored run through the gate;
    - errors and ends: guardrails fail closed, a run ends, a job ends, an outage
      blocks the gate.
    Where the code does not do what it means to, a theorem or an [Example] states
    what it does (QuotaLedger, GatewayProps, RunnerProps, AsyncWorkerProps,
    IngestionProps, RegateProps).

    * Bounds and fuel

    - Graph.drive runs under LangGraph's own recursion limit, which raises when it
      is reached; C36 shows twelve steps suffice, two tool iterations being the
      program's bound.
    - PyStr.rmatch gives a repetition as many turns as the text has characters; a
      turn that consumes nothing is cut, as the matcher of [re] does.
    - AsyncWorkerProps.drive chains a job's deliveries: MAX_ATTEMPTS bounds them and
      C23 shows the chain ends within it.
    - Quota.sweep_batches is given the number of SCAN calls a pass may take;
      Sweeper's law [scan_ends] bounds what a full iteration needs.
    - EvalRun.gateway_attempts recurses on the retries left, max_retries of them.
    - EvalGateProps bounds a dataset by 300 items, the size the golden set is
      planned for, where a mean of zeros and ones is computed exactly.

    * Order and concurrency

    What the services do concurrently is modelled where it matters: the Lua scripts
    and single SQL statements are the atomic steps, and the exclusivity theorems
    quantify over their interleavings (Quota, idempotency gate, approvals, job
    claims); GatewayRace interleaves whole requests at their awaits. A business-API handler never yields between its reads and writes and
    is one step. The items of an eval run are run one after the other.

    * Not modelled

    - Closing clients at shutdown, health and metrics endpoints, the application
      factories of the services without start-up work, the parsing of environment
      variables and arguments, logging: wiring without decisions of the platform's own.
    - Prometheus counters, outside the quota manager's: they only observe.
    - The context scoring inside Presidio's engine: the recognizers, thresholds,
      overlap resolution and redaction around it are modelled.
    - Alembic's offline mode, and a colon in the password of 0008, which SQLAlchemy
      would take for a parameter; the range of NUMERIC(12,6).
    - The byte packing of vectors and the vector search itself, LangGraph's
      checkpointer, JWT cryptography, YAML and JSON text parsing, Ragas' metrics.
    - Unicode beyond one byte per character, and the text of pydantic's errors.
    - Deployment files, the web of docker-compose and the test suites.

    * What is left to do

    The interleaving of concurrent eval items and of concurrent graph runs of one
    conversation. *)
From stdpp Require Export base list strings gmap fin_maps option sorting.
From Stdlib Require Export ZArith Lia.
From Stdlib Require Import SpecFloat DecimalString DecimalZ DecimalPos Decimal.

(** ** Functional record update

    [r <| f := v |>] and [r <| f ::= g |>] for any record that declares the
    eta-expansion of its constructor as an instance of [EtaRec]. *)

Class EtaRec (R : Type) := eta_rec : R → R.

Class SetterOf {R A : Type} (f : R → A) := upd : (A → A) → R → R.
Arguments upd {R A} f {_} _ _ /.

Ltac make_setter f :=
  lazymatch type of f with
  | ?R → ?A =>
    let inst := constr:(_ : EtaRec R) in
    let body := eval hnf in (@eta_rec R inst) in
    let abs := eval pattern f in body in
    lazymatch abs with ?g _ => exact (fun (u : A → A) => g (fun r : R => u (f r))) end
  end.

#[export] Hint Extern 0 (SetterOf ?f) => make_setter f : typeclass_instances.

Declare Scope py_scope.
Delimit Scope py_scope with py.

Notation "s <| f ::= u |>" := (upd f u s)
  (at level 1, left associativity, f at next level, format "s <| f  ::=  u |>") : py_scope.
Notation "s <| f := v |>" := (upd f (fun _ => v) s)
  (at level 1, left associativity, f at next level, format "s <| f  :=  v |>") : py_scope.
#[export] Set Warnings "-postfix-notation-not-level-1".
Open Scope py_scope.

(** ** Binary64 floating point

    Python's [float] is IEEE 754 binary64; [SpecFloat] is its executable
    specification with round-to-nearest-even, free of axioms. *)

Abbreviation float64 := spec_float.

#[export] Instance spec_float_eq_dec : EqDecision spec_float.
Proof. solve_decision. Defined.

Definition f64_zero : float64 := S754_zero false.

Definition f64_of_Z (z : Z) : float64 := binary_normalize 53 1024 z 0 false.

Definition f64_add : float64 → float64 → float64 := SFadd 53 1024.

Definition f64_sub : float64 → float64 → float64 := SFsub 53 1024.

Definition f64_mul : float64 → float64 → float64 := SFmul 53 1024.

Definition f64_div : float64 → float64 → float64 := SFdiv 53 1024.

Definition f64_ltb (a b : float64) : bool := SFltb a b.

Definition f64_leb (a b : float64) : bool := SFleb a b.

(** The double nearest to the rational [num / den]: the value of a decimal
    literal, and of [float(s)] on a string of decimal digits. *)
Definition f64_ratio (num : Z) (den : positive) : float64 :=
  match num with
  | Z0 => S754_zero false
  | Zpos n => SFdiv 53 1024 (S754_finite false n 0) (S754_finite false den 0)
  | Zneg n => SFdiv 53 1024 (S754_finite true n 0) (S754_finite false den 0)
  end.

(** [int(x)] for a finite float: truncation towards zero. Python raises on an
    infinity or a NaN, which the settings that reach it never hold. *)
Definition f64_trunc (x : float64) : option Z :=
  match x with
  | S754_zero _ => Some 0%Z
  | S754_finite sgn m e =>
      let mag := if (0 <=? e)%Z then (Zpos m * 2 ^ e)%Z else (Zpos m / 2 ^ (- e))%Z in
      Some (if sgn then (- mag)%Z else mag)
  | S754_infinity _ | S754_nan => None
  end.

(** [max(a, b)] and [min(a, b)] as Python computes them on two arguments: the
    first one wins unless the comparison with the second says otherwise. *)
Definition f64_max (a b : float64) : float64 := if f64_ltb a b then b else a.

Definition f64_min (a b : float64) : float64 := if f64_ltb b a then b else a.

(** ** Decimal integers: [str(n)] and [int(s)] *)

Definition Z_to_string (z : Z) : string := NilZero.string_of_int (Z.to_int z).

Definition string_to_Z (s : string) : option Z := Z.of_int <$> NilZero.int_of_string s.

Lemma string_to_Z_to_string (z : Z) : string_to_Z (Z_to_string z) = Some z.
Proof.
  unfold string_to_Z, Z_to_string.
  rewrite NilZero.isi.
  - cbn. by rewrite DecimalZ.of_to.
  - destruct z as [|p|p]; cbn; [done| |done].
    pose proof (Unsigned.to_uint_nonnil p). congruence.
  - destruct z as [|p|p]; cbn; [done|done|].
    pose proof (Unsigned.to_uint_nonnil p). congruence.
Qed.

#[export] Instance Z_to_string_inj : Inj (=) (=) Z_to_string.
Proof.
  intros a b H. apply (f_equal string_to_Z) in H.
  rewrite !string_to_Z_to_string in H. congruence.
Qed.

(** ** Effects: state and exceptions

    An operation of a service runs in a state [S] (its own memory, its tables,
    the external services it talks to) and either returns a value or raises.
    The state it reached is kept on both outcomes, as in Python; only a
    database transaction ([atomically]) undoes it. *)

Definition M (E S A : Type) : Type := S → S * (E + A).

Section Effects.
  Context {E S : Type}.

Definition ret {A : Type} (a : A) : M E S A := fun s => (s, inr a).

Definition raise {A : Type} (e : E) : M E S A := fun s => (s, inl e).

Definition bind {A B : Type} (m : M E S A) (k : A → M E S B) : M E S B :=
  fun s =>
    match m s with
    | (s', inr a) => k a s'
    | (s', inl e) => (s', inl e)
    end.

(** [try: m / except ...]: the handler says which exceptions it takes. *)
Definition try_except {A : Type} (m : M E S A) (h : E → option (M E S A)) : M E S A :=
  fun s =>
    match m s with
    | (s', inr a) => (s', inr a)
    | (s', inl e) => match h e with
                     | Some k => k s'
                     | None => (s', inl e)
                     end
    end.

Definition get_state : M E S S := fun s => (s, inr s).

Definition gets {A : Type} (f : S → A) : M E S A := fun s => (s, inr (f s)).

Definition modify (f : S → S) : M E S unit := fun s => (f s, inr tt).

(** A transaction: committed when the block returns, rolled back when it raises. *)
Definition atomically {A : Type} (m : M E S A) : M E S A :=
  fun s =>
    match m s with
    | (s', inr a) => (s', inr a)
    | (_, inl e) => (s, inl e)
    end.

Fixpoint map_each {A B : Type} (f : A → M E S B) (l : list A) : M E S (list B) :=
  match l with
  | [] => ret []
  | x :: l' => bind (f x) (fun y => bind (map_each f l') (fun ys => ret (y :: ys)))
  end.

Fixpoint for_each {A : Type} (l : list A) (f : A → M E S unit) : M E S unit :=
  match l with
  | [] => ret tt
  | x :: l' => bind (f x) (fun _ => for_each l' f)
  end.

(** A loop that threads an accumulator, as a Python [for] that updates locals. *)
Fixpoint foldM {A B : Type} (f : B → A → M E S B) (b : B) (l : list A) : M E S B :=
  match l with
  | [] => ret b
  | x :: l' => bind (f b x) (fun b' => foldM f b' l')
  end.
End Effects.

(** Run an operation on a component of a larger state. *)
Definition zoom {E S T A : Type} (get : T → S) (put : S → T → T) (m : M E S A) : M E T A :=
  fun t => let '(s, r) := m (get t) in (put s t, r).

Notation "'let!' x := m 'in' k" := (bind m (fun x => k))
  (at level 10, x name, m at level 100, k at level 200) : py_scope.
Notation "'let!' ' p := m 'in' k" := (bind m (fun x => match x with p => k end))
  (at level 10, p strict pattern, m at level 100, k at level 200) : py_scope.
Notation "m ;! k" := (bind m (fun _ => k))
  (at level 199, right associativity) : py_scope.

(** ** Reasoning about effects

    [hoare P m Q]: from a state in [P], the state and the outcome of [m] are in
    [Q] — exceptions included, so a specification covers every branch.
    [frames R m]: whatever [m] does, its final state is related to the initial
    one by [R]; for a preorder this composes along every combinator, and the
    hint database [frames] does the composing. *)

Definition hoare {E S A : Type} (P : S → Prop) (m : M E S A) (Q : S → E + A → Prop) : Prop :=
  ∀ s, P s → Q (m s).1 (m s).2.

Definition frames {E S A : Type} (R : S → S → Prop) (m : M E S A) : Prop :=
  ∀ s, R s (m s).1.

Create HintDb frames discriminated.

Section Reasoning.
  Context {E S : Type}.
  Implicit Types (P : S → Prop).

Lemma bind_inr {A B} (m : M E S A) (k : A → M E S B) s s' a :
  m s = (s', inr a) → bind m k s = k a s'.
Proof. unfold bind. by intros ->. Qed.

Lemma bind_inl {A B} (m : M E S A) (k : A → M E S B) s s' e :
  m s = (s', inl e) → bind m k s = (s', inl e).
Proof. unfold bind. by intros ->. Qed.

Lemma bind_returns {A B} (m : M E S A) (k : A → M E S B) s s' b :
  bind m k s = (s', inr b) → ∃ s1 a, m s = (s1, inr a) ∧ k a s1 = (s', inr b).
Proof. unfold bind. destruct (m s) as [s1 [e|a]]; [done|]. intros Hk. by exists s1, a. Qed.

Lemma bind_assoc {A B C} (m : M E S A) (k : A → M E S B) (h : B → M E S C) s :
  bind (bind m k) h s = bind m (fun a => bind (k a) h) s.
Proof. unfold bind. by destruct (m s) as [? [?|?]]. Qed.

Lemma hoare_ret {A} P (a : A) (Q : S → E + A → Prop) :
  (∀ s, P s → Q s (inr a)) → hoare P (ret a) Q.
Proof. intros H s Hs. by apply H. Qed.

Lemma hoare_bind {A B} P (m : M E S A) (k : A → M E S B) (I : A → S → Prop) Q :
  hoare P m (fun s r => match r with inl e => Q s (inl e) | inr a => I a s end) →
  (∀ a, hoare (I a) (k a) Q) →
  hoare P (bind m k) Q.
Proof.
  intros Hm Hk s Hs. specialize (Hm s Hs). unfold bind.
  destruct (m s) as [s' [e|a]]; cbn in *; [done|]. by apply Hk.
Qed.

Lemma hoare_conseq {A} P P' (m : M E S A) (Q Q' : S → E + A → Prop) :
  hoare P' m Q' → (∀ s, P s → P' s) → (∀ s r, Q' s r → Q s r) → hoare P m Q.
Proof. intros H HP HQ s Hs. by apply HQ, H, HP. Qed.

Context (R : S → S → Prop) `{!PreOrder R}.

Lemma frames_ret {A} (a : A) : frames (E := E) R (ret a).
Proof. by intros s. Qed.

Lemma frames_raise {A} (e : E) : frames R (raise (A := A) e).
Proof. by intros s. Qed.

Lemma frames_gets {A} (f : S → A) : frames (E := E) R (gets f).
Proof. by intros s. Qed.

Lemma frames_bind {A B} (m : M E S A) (k : A → M E S B) :
  frames R m → (∀ a, frames R (k a)) → frames R (bind m k).
Proof.
  intros Hm Hk s. specialize (Hm s). unfold bind.
  destruct (m s) as [s' [e|a]]; cbn in *; [done|]. etrans; [done|apply Hk].
Qed.

Lemma frames_try {A} (m : M E S A) (h : E → option (M E S A)) :
  frames R m → (∀ e k, h e = Some k → frames R k) → frames R (try_except m h).
Proof.
  intros Hm Hh s. specialize (Hm s). unfold try_except.
  destruct (m s) as [s' [e|a]]; cbn in *; [|done].
  destruct (h e) as [k|] eqn:He; cbn; [|done]. etrans; [done|]. by apply (Hh e k).
Qed.

Lemma frames_atomically {A} (m : M E S A) : frames R m → frames R (atomically m).
Proof.
  intros Hm s. specialize (Hm s). unfold atomically.
  by destruct (m s) as [s' [e|a]]; cbn in *.
Qed.

Lemma frames_for_each {A} (l : list A) (f : A → M E S unit) :
  (∀ x, x ∈ l → frames R (f x)) → frames R (for_each l f).
Proof.
  induction l as [|x l IH]; intros Hf; cbn; [apply frames_ret|].
  apply frames_bind; [apply Hf; set_solver|]. intros _. apply IH. set_solver.
Qed.

Lemma frames_foldM {A B} (f : B → A → M E S B) (l : list A) (b : B) :
  (∀ b x, frames R (f b x)) → frames R (foldM f b l).
Proof.
  intros Hf. revert b. induction l as [|x l IH]; intros b; cbn; [apply frames_ret|].
  apply frames_bind; auto.
Qed.

Lemma frames_map_each {A B} (f : A → M E S B) (l : list A) :
  (∀ x, frames R (f x)) → frames R (map_each f l).
Proof.
  intros Hf. induction l as [|x l IH]; cbn; [apply frames_ret|].
  apply frames_bind; [auto|]. intros y. apply frames_bind; [auto|]. intros ys. apply frames_ret.
Qed.
End Reasoning.

(** A loop whose every turn succeeds and keeps an invariant is a pure fold. *)
Lemma foldM_pure {E S A B} (I : S → Prop) (f : B → A → M E S B) (g : B → A → B) (l : list A) b s :
  (∀ b x s, x ∈ l → I s → ∃ s', f b x s = (s', inr (g b x)) ∧ I s') →
  I s → ∃ s', foldM f b l s = (s', inr (fold_left g l b)) ∧ I s'.
Proof.
  revert b s. induction l as [|x l IH]; intros b s Hf Hs; cbn; [by eexists|].
  destruct (Hf b x s) as (s1 & Hx & Hs1); [constructor|done|].
  rewrite (bind_inr _ _ _ _ _ Hx). apply IH; [|done]. intros b' y s' Hy. apply Hf. by constructor.
Qed.

(** An invariant of the accumulator and the state of a loop, exceptions aside. *)
Lemma foldM_invariant {E S A B} (I : B → S → Prop) (f : B → A → M E S B) (l : list A) b s s' b' :
  (∀ b x s s' b', x ∈ l → I b s → f b x s = (s', inr b') → I b' s') →
  I b s → foldM f b l s = (s', inr b') → I b' s'.
Proof.
  revert b s. induction l as [|x l IH]; intros b s Hf Hs; cbn; [by intros [= <- <-]|].
  unfold bind. destruct (f b x s) as [s1 [e|b1]] eqn:Hx; [done|]. apply IH.
  - intros c y t t' c' Hy. apply Hf. by constructor.
  - eapply Hf; [constructor|done|done].
Qed.

#[export] Hint Resolve frames_ret frames_raise frames_gets frames_bind frames_try
  frames_atomically frames_for_each frames_foldM frames_map_each : frames.

Lemma frames_zoom {E S T A} (R : T → T → Prop) (get : T → S) put (m : M E S A) :
  (∀ t, R t (put (m (get t)).1 t)) → frames R (zoom get put m).
Proof.
  intros H t. specialize (H t). unfold zoom. by destruct (m (get t)) as [s r].
Qed.

(** ** Tactics *)

(** Case analysis on the innermost scrutinee of the goal or of a hypothesis. *)
Ltac case_scrut t :=
  lazymatch t with
  | context [match ?x with _ => _ end] =>
      first [case_scrut x | let H := fresh "Heq" in destruct x eqn:H]
  | _ => fail
  end.

Ltac case_goal := match goal with |- context [match ?x with _ => _ end] =>
  first [case_scrut x | let H := fresh "Heq" in destruct x eqn:H] end.

Ltac case_in H := match type of H with context [match ?x with _ => _ end] =>
  first [case_scrut x | let Hq := fresh "Heq" in destruct x eqn:Hq] end.

(** Invert a successful chain of option binds, naming nothing. *)
Ltac option_steps H := repeat (apply bind_Some in H as (? & ? & H)).

(** Run one step of a monadic definition whose next action is known. *)
Ltac step_with H := first [rewrite (bind_inr _ _ _ _ _ H) | rewrite (bind_inl _ _ _ _ _ H)].

(** ** Lists, options and booleans *)

(** [x in l] on a Python list of strings. *)
Definition str_in (x : string) (l : list string) : bool := existsb (String.eqb x) l.

Lemma str_in_spec x l : str_in x l = true ↔ x ∈ l.
Proof.
  unfold str_in. rewrite existsb_exists. split.
  - intros (y & Hy & ->%String.eqb_eq). by apply list_elem_of_In.
  - intros Hx. exists x. split; [by apply list_elem_of_In|apply String.eqb_refl].
Qed.

Lemma str_in_false x l : str_in x l = false ↔ x ∉ l.
Proof. rewrite <- str_in_spec. by destruct (str_in x l). Qed.

Lemma str_eqb_spec (x y : string) : reflect (x = y) (String.eqb x y).
Proof. apply String.eqb_spec. Qed.

(** The truth value of an optional string: [None] and [""] are false. *)
Definition opt_truthy (o : option string) : bool :=
  match o with Some s => negb (String.eqb s "") | None => false end.

(** [a or b] on an optional string and a default. *)
Definition str_or (o : option string) (d : string) : string :=
  match o with Some s => if String.eqb s "" then d else s | None => d end.

(** Sum of a list of integers. *)
Definition sumZ (l : list Z) : Z := foldr Z.add 0%Z l.

Lemma sumZ_app l k : sumZ (l ++ k) = (sumZ l + sumZ k)%Z.
Proof. induction l as [|x l IH]; cbn; [done|]. unfold sumZ in *. rewrite IH. lia. Qed.

(** ** Sorting *)

(** [sorted(l, key=...)]: stable insertion by a boolean order. *)
Fixpoint insert_by {A} (le : A → A → bool) (x : A) (l : list A) : list A :=
  match l with
  | [] => [x]
  | y :: l' => if le x y then x :: l else y :: insert_by le x l'
  end.

Definition sort_by {A} (le : A → A → bool) (l : list A) : list A := foldr (insert_by le) [] l.

Section Sort.
  Context {A : Type}.

(** Every element is related to the ones after it. *)
Fixpoint ordered (R : A → A → Prop) (l : list A) : Prop :=
  match l with [] => True | x :: l' => Forall (R x) l' ∧ ordered R l' end.

Lemma insert_by_elem (le : A → A → bool) x l : insert_by le x l ≡ₚ x :: l.
Proof.
  induction l as [|y l IH]; cbn; [done|]. destruct (le x y); [done|]. rewrite IH. constructor.
Qed.

Lemma sort_by_perm (le : A → A → bool) l : sort_by le l ≡ₚ l.
Proof. induction l as [|x l IH]; cbn; [done|]. by rewrite insert_by_elem, IH. Qed.

Lemma ordered_insert_sym R (le : A → A → bool) x l :
  (∀ a b, R a b → R b a) → Forall (R x) l → ordered R l → ordered R (insert_by le x l).
Proof.
  intros Hsym. induction l as [|y l IH]; cbn; [done|]. intros [Hxy Hx]%Forall_cons [Hy Hl].
  destruct (le x y); cbn; [by repeat split; try constructor|]. split; [|by apply IH].
  rewrite insert_by_elem. constructor; auto.
Qed.

Lemma ordered_sort_sym R (le : A → A → bool) l :
  (∀ a b, R a b → R b a) → ordered R l → ordered R (sort_by le l).
Proof.
  intros Hsym. induction l as [|x l IH]; cbn; [done|]. intros [Hx Hl].
  apply ordered_insert_sym; [done| |by apply IH]. by rewrite (sort_by_perm le l : foldr _ _ _ ≡ₚ _).
Qed.

Lemma ordered_sort (le : A → A → bool) l :
  (∀ a b, le a b = false → le b a = true) →
  (∀ a b c, le a b = true → le b c = true → le a c = true) →
  ordered (fun a b => le a b = true) (sort_by le l).
Proof.
  intros Htot Htrans. induction l as [|x l IH]; [done|].
  change (sort_by le (x :: l)) with (insert_by le x (sort_by le l)). revert IH.
  generalize (sort_by le l) as k. induction k as [|y k IHk]; cbn; [by repeat constructor|]. intros [Hy Hk].
  destruct (le x y) eqn:Hxy; cbn; [split; [|done]|split; [|by apply IHk]].
  - constructor; [done|]. eapply Forall_impl; [exact Hy|]. cbn. eauto.
  - rewrite insert_by_elem. constructor; [auto|done].
Qed.

Lemma ordered_impl (R Q : A → A → Prop) l :
  (∀ a b, a ∈ l → b ∈ l → R a b → Q a b) → ordered R l → ordered Q l.
Proof.
  induction l as [|x l IH]; cbn; [done|]. intros Himp [Hx Hl]. split.
  - apply Forall_forall. intros y Hy. apply Himp; [by constructor|by constructor|].
    by eapply Forall_forall in Hx.
  - apply IH; [|done]. intros a b Ha Hb. apply Himp; by constructor.
Qed.

Lemma ordered_and (R Q : A → A → Prop) l : ordered R l → ordered Q l → ordered (fun a b => R a b ∧ Q a b) l.
Proof.
  induction l as [|x l IH]; cbn; [done|]. intros [Hx Hl] [Hy Hq]. split; [|by apply IH].
  apply Forall_and. by split.
Qed.
End Sort.

Lemma ordered_snoc {A} (R : A → A → Prop) l x : ordered R l → Forall (fun y => R y x) l → ordered R (l ++ [x]).
Proof.
  induction l as [|y l IH]; cbn; [done|]. intros [Hy Hl] [Hyx Hx]%Forall_cons. split; [|by apply IH].
  apply Forall_app. by split; [|constructor].
Qed.
