(* ===== verification/PyStr.v ===== *)
(** Python strings and the part of [re] the services use.

    A [str] is a Rocq [string] whose characters are read as the code points
    0..255 (Latin-1): every predicate below (white space, word character, case,
    printability) agrees with CPython on that range. Code points above 255 are
    outside the model. The regular expressions are matched by backtracking in
    Python's order: leftmost match, greedy repetition, alternatives in order. *)
From S2P Require Import Prelude.
From Stdlib Require Import Ascii.
Export (notations) Stdlib.Strings.Ascii.

(** ** Characters *)

Definition code (c : ascii) : N := N_of_ascii c.

Definition in_range (lo hi : N) (c : ascii) : bool := ((lo <=? code c) && (code c <=? hi))%N.

Definition char_lower (c : ascii) : ascii :=
  if in_range 65 90 c || (in_range 192 222 c && negb (code c =? 215)%N)
  then ascii_of_N (code c + 32) else c.

Definition is_space (c : ascii) : bool :=
  in_range 9 13 c || in_range 28 32 c || (code c =? 133)%N || (code c =? 160)%N.

Definition is_digit (c : ascii) : bool := in_range 48 57 c.

Definition is_word (c : ascii) : bool :=
  is_digit c || in_range 65 90 c || in_range 97 122 c || (code c =? 95)%N
  || (code c =? 170)%N || (code c =? 178)%N || (code c =? 179)%N || (code c =? 181)%N
  || (code c =? 185)%N || (code c =? 186)%N || in_range 188 190 c
  || (in_range 192 255 c && negb (code c =? 215)%N && negb (code c =? 247)%N).

Definition is_printable (c : ascii) : bool :=
  in_range 32 126 c || (in_range 161 255 c && negb (code c =? 173)%N).

(** ** str methods *)

Definition slen (s : string) : Z := Z.of_nat (String.length s).

Fixpoint str_lower (s : string) : string :=
  match s with
  | "" => ""
  | String c s' => String (char_lower c) (str_lower s')
  end.

Fixpoint lstrip (s : string) : string :=
  match s with
  | "" => ""
  | String c s' => if is_space c then lstrip s' else s
  end.

Definition rstrip (s : string) : string := String.rev (lstrip (String.rev s)).

Definition str_strip (s : string) : string := rstrip (lstrip s).

(** [s.startswith(p)] and [s.removeprefix(p)]. *)
Fixpoint drop_prefix (p s : string) : option string :=
  match p, s with
  | "", _ => Some s
  | String a p', String b s' => if decide (a = b) then drop_prefix p' s' else None
  | String _ _, "" => None
  end.

Definition str_startswith (s p : string) : bool :=
  match drop_prefix p s with Some _ => true | None => false end.

Definition str_removeprefix (s p : string) : string :=
  match drop_prefix p s with Some r => r | None => s end.

(** [sub in s]. *)
Fixpoint str_contains (sub s : string) : bool :=
  str_startswith s sub || match s with "" => false | String _ s' => str_contains sub s' end.

(** [s.replace(old, new)] for a non-empty [old]: left to right, without
    overlaps. [skip] counts the characters of a match still to be dropped. *)
Fixpoint replace_go (old new : string) (skip : nat) (s : string) : string :=
  match s with
  | "" => ""
  | String c s' =>
      match skip with
      | S k => replace_go old new k s'
      | O => if str_startswith s old
             then new +:+ replace_go old new (String.length old - 1) s'
             else String c (replace_go old new 0 s')
      end
  end.

(** [s.replace("", new)]: [new] around every character. *)
Fixpoint replace_empty (new s : string) : string :=
  match s with
  | "" => new
  | String c s' => new +:+ String c (replace_empty new s')
  end.

Definition str_replace (s old new : string) : string :=
  if decide (old = "") then replace_empty new s else replace_go old new 0 s.

(** [sep.join(l)]. *)
Fixpoint str_join (sep : string) (l : list string) : string :=
  match l with
  | [] => ""
  | [x] => x
  | x :: l' => x +:+ sep +:+ str_join sep l'
  end.

(** [s.split()]: the maximal runs of non-space characters. *)
Fixpoint split_ws_go (cur : string) (s : string) : list string :=
  match s with
  | "" => if decide (cur = "") then [] else [cur]
  | String c s' =>
      if is_space c
      then (if decide (cur = "") then [] else [cur]) ++ split_ws_go "" s'
      else split_ws_go (cur +:+ String c "") s'
  end.

Definition str_split_ws (s : string) : list string := split_ws_go "" s.

(** [s.split(c)] for a one-character separator. *)
Fixpoint split_on_go (sep : ascii) (cur : string) (s : string) : list string :=
  match s with
  | "" => [cur]
  | String c s' => if decide (c = sep) then cur :: split_on_go sep "" s'
                   else split_on_go sep (cur +:+ String c "") s'
  end.

Definition str_split_on (sep : ascii) (s : string) : list string := split_on_go sep "" s.

(** [s.partition(sep)], when [sep] occurs. *)
Fixpoint str_partition (sep s : string) : option (string * string) :=
  match drop_prefix sep s with
  | Some rest => Some ("", rest)
  | None =>
      match s with
      | "" => None
      | String c s' => (fun p => (String c p.1, p.2)) <$> str_partition sep s'
      end
  end.

(** [s.splitlines()]: the line breaks of [str], [\r\n] counting once; no empty
    line after a final break. *)
Definition is_linebreak (c : ascii) : bool :=
  in_range 10 13 c || in_range 28 30 c || (code c =? 133)%N.

Fixpoint splitlines_go (cur : string) (s : string) : list string :=
  match s with
  | "" => if decide (cur = "") then [] else [cur]
  | String c s' =>
      if (code c =? 13)%N then
        match s' with
        | String d s'' => if (code d =? 10)%N then cur :: splitlines_go "" s''
                          else cur :: splitlines_go "" s'
        | "" => [cur]
        end
      else if is_linebreak c then cur :: splitlines_go "" s'
      else splitlines_go (cur +:+ String c "") s'
  end.

Definition str_splitlines (s : string) : list string := splitlines_go "" s.

Fixpoint str_take (n : nat) (s : string) : string :=
  match n, s with
  | S n', String c s' => String c (str_take n' s')
  | _, _ => ""
  end.

Fixpoint str_drop (n : nat) (s : string) : string :=
  match n, s with
  | S n', String _ s' => str_drop n' s'
  | _, _ => s
  end.

(** [s[i:j]] for non-negative bounds. *)
Definition str_slice (s : string) (i j : Z) : string :=
  str_take (Z.to_nat j - Z.to_nat i) (str_drop (Z.to_nat i) s).

(** [sorted(l)] on strings: by code points. *)
Definition sorted_str (l : list string) : list string := merge_sort String.le l.

(** [sorted(set(l))]: sorted, without repetitions. *)
Definition sorted_set (l : list string) : list string := sorted_str (remove_dups l).

(** ** Regular expressions *)

Inductive regex :=
  | RChar (p : ascii → bool)
  | REmpty
  | RSeq (r1 r2 : regex)
  | RAlt (r1 r2 : regex)
  | RStar (r : regex)
  | RBoundary.

Definition boundary (prev : option ascii) (s : string) : bool :=
  let before := match prev with Some c => is_word c | None => false end in
  let after := match s with String c _ => is_word c | "" => false end in
  xorb before after.

(** [k] is what remains to be matched; the result is the unmatched suffix. *)
Fixpoint rmatch (r : regex) (prev : option ascii) (s : string)
    (k : option ascii → string → option string) : option string :=
  match r with
  | RChar p => match s with
               | String c s' => if p c then k (Some c) s' else None
               | "" => None
               end
  | REmpty => k prev s
  | RSeq r1 r2 => rmatch r1 prev s (fun prev' s' => rmatch r2 prev' s' k)
  | RAlt r1 r2 => match rmatch r1 prev s k with
                  | Some x => Some x
                  | None => rmatch r2 prev s k
                  end
  | RStar r1 =>
      (fix loop (n : nat) (prev : option ascii) (s : string) : option string :=
         match n with
         | O => k prev s
         | S n' =>
             match rmatch r1 prev s (fun prev' s' =>
                     if decide (String.length s' < String.length s) then loop n' prev' s' else None) with
             | Some x => Some x
             | None => k prev s
             end
         end) (String.length s) prev s
  | RBoundary => if boundary prev s then k prev s else None
  end.

(** [p.search(s)]: the leftmost match, as the matched text. *)
Fixpoint re_search_from (r : regex) (prev : option ascii) (s : string) : option string :=
  match rmatch r prev s (fun _ rest => Some rest) with
  | Some rest => Some (str_take (String.length s - String.length rest) s)
  | None => match s with
            | "" => None
            | String c s' => re_search_from r (Some c) s'
            end
  end.

Definition re_search (r : regex) (s : string) : option string := re_search_from r None s.

Definition re_test (r : regex) (s : string) : bool :=
  match re_search r s with Some _ => true | None => false end.

(** Building blocks: a literal (case-insensitive under [re.IGNORECASE]), an
    optional group, an alternation of literals, a bounded repetition. *)
Definition RChr (c : ascii) : regex := RChar (fun x => bool_decide (x = c)).

Definition RChrI (c : ascii) : regex := RChar (fun x => bool_decide (char_lower x = char_lower c)).

Fixpoint RLit (s : string) : regex :=
  match s with
  | "" => REmpty
  | String c s' => RSeq (RChrI c) (RLit s')
  end.

Definition ROpt (r : regex) : regex := RAlt r REmpty.

Fixpoint RAlts (l : list regex) : regex :=
  match l with
  | [] => RChar (fun _ => false)
  | [r] => r
  | r :: l' => RAlt r (RAlts l')
  end.

Fixpoint RSeqs (l : list regex) : regex :=
  match l with
  | [] => REmpty
  | [r] => r
  | r :: l' => RSeq r (RSeqs l')
  end.

Fixpoint RUpTo (n : nat) (r : regex) : regex :=
  match n with
  | O => REmpty
  | S n' => ROpt (RSeq r (RUpTo n' r))
  end.

(** [r{n}]. *)
Fixpoint RTimes (n : nat) (r : regex) : regex :=
  match n with
  | O => REmpty
  | S n' => RSeq r (RTimes n' r)
  end.

Definition RPlus (r : regex) : regex := RSeq r (RStar r).

Definition RDot : regex := RChar (fun c => negb (code c =? 10)%N).

Definition RSpace : regex := RChar is_space.

Definition RDigit : regex := RChar is_digit.

(** [p.sub(" ", s)] for a one-character class [p]. *)
Fixpoint sub_class (p : ascii → bool) (new : ascii) (s : string) : string :=
  match s with
  | "" => ""
  | String c s' => String (if p c then new else c) (sub_class p new s')
  end.

(** [p.sub(r"\\\1", s)]: a backslash before every character of a class. *)
Fixpoint escape_class (p : ascii → bool) (s : string) : string :=
  match s with
  | "" => ""
  | String c s' => if p c then String "092" (String c (escape_class p s'))
                   else String c (escape_class p s')
  end.

(** ** repr *)

Definition hex_digit (n : N) : ascii :=
  ascii_of_N (if (n <? 10)%N then 48 + n else 87 + n)%N.

Definition hex2 (c : ascii) : string :=
  String (hex_digit (code c / 16)) (String (hex_digit (code c mod 16)) "").

Fixpoint repr_chars (quote : ascii) (s : string) : string :=
  match s with
  | "" => ""
  | String c s' =>
      (if decide (c = quote) then "\" +:+ String c ""
       else if (code c =? 92)%N then "\\"
       else if (code c =? 9)%N then "\t"
       else if (code c =? 10)%N then "\n"
       else if (code c =? 13)%N then "\r"
       else if is_printable c then String c ""
       else "\x" +:+ hex2 c) +:+ repr_chars quote s'
  end.

(** [repr(s)]: single quotes unless the string has some and no double quote. *)
Definition repr_str (s : string) : string :=
  let q := if str_contains "'" s && negb (str_contains (String "034" "") s)
           then "034"%char else "'"%char in
  String q (repr_chars q s +:+ String q "").

Arguments RChr c%_char_scope.
Arguments RChrI c%_char_scope.
Arguments str_split_on sep%_char_scope s.

(** ** Facts about strings *)

Lemma slen_nonneg s : (0 ≤ slen s)%Z.
Proof. unfold slen. lia. Qed.

Lemma str_app_assoc (a b c : string) : (a +:+ b) +:+ c = a +:+ (b +:+ c).
Proof.
  induction a as [|x a IH]; [done|].
  change (String x ((a +:+ b) +:+ c) = String x (a +:+ (b +:+ c))). by rewrite IH.
Qed.

Lemma str_app_nil_r (a : string) : a +:+ "" = a.
Proof. induction a as [|x a IH]; [done|]. change (String x (a +:+ "") = String x a). by rewrite IH. Qed.

Lemma str_length_app (a b : string) :
  String.length (a +:+ b) = String.length a + String.length b.
Proof.
  induction a as [|x a IH]; [done|].
  change (S (String.length (a +:+ b)) = S (String.length a + String.length b)). by rewrite IH.
Qed.

Lemma drop_prefix_app p s : drop_prefix p (p +:+ s) = Some s.
Proof.
  induction p as [|x p IH]; [by destruct s|].
  change (drop_prefix (String x p) (String x (p +:+ s)) = Some s). cbn. by rewrite decide_True.
Qed.

Lemma drop_prefix_spec p s r : drop_prefix p s = Some r → s = p +:+ r.
Proof.
  revert s. induction p as [|x p IH]; intros [|y s] H; cbn in H; try congruence; [by injection H as <-..|].
  destruct (decide (x = y)) as [<-|]; [|done].
  change (String x s = String x (p +:+ r)). by rewrite (IH _ H).
Qed.

Lemma startswith_app p s : str_startswith (p +:+ s) p = true.
Proof. unfold str_startswith. by rewrite drop_prefix_app. Qed.

Lemma removeprefix_app p s : str_removeprefix (p +:+ s) p = s.
Proof. unfold str_removeprefix. by rewrite drop_prefix_app. Qed.

Lemma startswith_spec p s : str_startswith s p = true ↔ ∃ r, s = p +:+ r.
Proof.
  unfold str_startswith. split.
  - destruct (drop_prefix p s) eqn:H; [|done]. intros _. eexists. by apply drop_prefix_spec.
  - intros [r ->]. by rewrite drop_prefix_app.
Qed.

Lemma sorted_str_perm l : sorted_str l ≡ₚ l.
Proof. apply merge_sort_Permutation. Qed.

Lemma sorted_str_proper l k : l ≡ₚ k → sorted_str l = sorted_str k.
Proof.
  intros H. unfold sorted_str. apply (StronglySorted_unique String.le).
  - apply (StronglySorted_merge_sort String.le).
  - apply (StronglySorted_merge_sort String.le).
  - by rewrite !merge_sort_Permutation.
Qed.

Lemma str_app_inj_l (p a b : string) : p +:+ a = p +:+ b → a = b.
Proof. induction p as [|c p IH]; [done|]. intros H. apply IH. by injection H. Qed.

(** Strings without a separator are determined by what precedes its first
    occurrence. *)
Fixpoint no_char (c : ascii) (s : string) : Prop :=
  match s with "" => True | String d s' => d ≠ c ∧ no_char c s' end.
Arguments no_char c%_char_scope s.

Lemma sep_app_inj c (a a' b b' : string) :
  no_char c a → no_char c a' → a +:+ String c b = a' +:+ String c b' → a = a' ∧ b = b'.
Proof.
  revert a'. induction a as [|x a IH]; intros [|y a'] Ha Ha' H.
  - split; [done|]. by injection H.
  - exfalso. injection H as Hc _. by destruct Ha'.
  - exfalso. injection H as Hc _. by destruct Ha.
  - injection H as -> H. destruct Ha as [_ Ha], Ha' as [_ Ha'].
    by destruct (IH a' Ha Ha' H) as [-> ->].
Qed.

(** ** Stripping white space *)

Lemma str_rev_app_acc (a acc : string) : String.rev_app a acc = String.rev a +:+ acc.
Proof.
  unfold String.rev. revert acc. induction a as [|c a IH]; intros acc; cbn; [done|].
  rewrite IH, (IH (String c "")), str_app_assoc. done.
Qed.

Lemma str_rev_cons (c : ascii) (a : string) : String.rev (String c a) = String.rev a +:+ String c "".
Proof. unfold String.rev at 1. cbn. apply str_rev_app_acc. Qed.

Lemma str_rev_app (a b : string) : String.rev (a +:+ b) = String.rev b +:+ String.rev a.
Proof.
  induction a as [|c a IH]; [by rewrite str_app_nil_r|].
  change (String c a +:+ b) with (String c (a +:+ b)). by rewrite !str_rev_cons, IH, str_app_assoc.
Qed.

Lemma str_rev_involutive (a : string) : String.rev (String.rev a) = a.
Proof. induction a as [|c a IH]; [done|]. by rewrite str_rev_cons, str_rev_app, IH. Qed.

Lemma str_rev_length (a : string) : String.length (String.rev a) = String.length a.
Proof. induction a as [|c a IH]; [done|]. rewrite str_rev_cons, str_length_app, IH. cbn. lia. Qed.

Lemma lstrip_idem (s : string) : lstrip (lstrip s) = lstrip s.
Proof.
  induction s as [|c s IH]; [done|]. cbn. destruct (is_space c) eqn:Hc; [done|]. cbn. by rewrite Hc.
Qed.

Lemma lstrip_suffix (s : string) : ∃ p, s = p +:+ lstrip s.
Proof.
  induction s as [|c s [p Hp]]; [by exists ""|]. cbn. destruct (is_space c); [|by exists ""].
  exists (String c p). change (String c s = String c (p +:+ lstrip s)). by rewrite <- Hp.
Qed.

Lemma lstrip_length (s : string) : (String.length (lstrip s) ≤ String.length s)%nat.
Proof. destruct (lstrip_suffix s) as [p Hp]. rewrite Hp at 2. rewrite str_length_app. lia. Qed.

Lemma str_strip_length (s : string) : (String.length (str_strip s) ≤ String.length s)%nat.
Proof.
  unfold str_strip, rstrip. rewrite str_rev_length.
  etrans; [apply lstrip_length|]. rewrite str_rev_length. apply lstrip_length.
Qed.

(** A text that starts and ends with a character that is not white space. *)
Record trimmed (s : string) : Prop := {
  trimmed_ne : s ≠ "";
  trimmed_l : lstrip s = s;
  trimmed_r : lstrip (String.rev s) = String.rev s
}.

(** [b] occurs in [s]. *)
Definition occurs (b s : string) : Prop := ∃ pre post, s = pre +:+ b +:+ post.

Lemma occurs_refl b : occurs b b.
Proof. exists "", "". by rewrite str_app_nil_r. Qed.

Lemma occurs_app_l b s p : occurs b s → occurs b (p +:+ s).
Proof. intros (pre & post & ->). exists (p +:+ pre), post. by rewrite str_app_assoc. Qed.

Lemma occurs_app_r b s p : occurs b s → occurs b (s +:+ p).
Proof. intros (pre & post & ->). exists pre, (post +:+ p). by rewrite !str_app_assoc. Qed.

Lemma occurs_rev b s : occurs b s → occurs (String.rev b) (String.rev s).
Proof.
  intros (pre & post & ->). exists (String.rev post), (String.rev pre).
  by rewrite !str_rev_app, str_app_assoc.
Qed.

Lemma lstrip_app (b post : string) : lstrip b = b → b ≠ "" → lstrip (b +:+ post) = b +:+ post.
Proof.
  intros Hb Hne. destruct b as [|c b]; [done|]. cbn in Hb |- *.
  change (String c b +:+ post) with (String c (b +:+ post)). cbn.
  destruct (is_space c); [|done]. pose proof (lstrip_length b) as Hl. rewrite Hb in Hl. cbn in Hl. lia.
Qed.

Lemma occurs_lstrip b s : lstrip b = b → b ≠ "" → occurs b s → occurs b (lstrip s).
Proof.
  intros Hb Hne (pre & post & ->). induction pre as [|c pre IH].
  - change ("" +:+ b +:+ post) with (b +:+ post). rewrite lstrip_app by done. by exists "", post.
  - change (String c pre +:+ b +:+ post) with (String c (pre +:+ b +:+ post)). cbn.
    destruct (is_space c); [done|]. by exists (String c pre), post.
Qed.

Lemma str_rev_ne (s : string) : s ≠ "" → String.rev s ≠ "".
Proof.
  intros Hs Hr. apply Hs. apply (f_equal String.length) in Hr. rewrite str_rev_length in Hr.
  by destruct s.
Qed.

Lemma occurs_strip b s : trimmed b → occurs b s → occurs b (str_strip s).
Proof.
  intros [Hne Hl Hr] Ho. unfold str_strip, rstrip.
  rewrite <- (str_rev_involutive b). apply occurs_rev, occurs_lstrip; [done|by apply str_rev_ne|].
  by apply occurs_rev, occurs_lstrip.
Qed.

Lemma strip_trimmed (s : string) : str_strip s ≠ "" → trimmed (str_strip s).
Proof.
  intros Hne. unfold str_strip, rstrip in *. split; [done| |].
  - destruct (lstrip_suffix (String.rev (lstrip s))) as [p Hp].
    set (u := String.rev (lstrip (String.rev (lstrip s)))) in *.
    assert (Hu : lstrip s = u +:+ String.rev p).
    { apply (f_equal String.rev) in Hp. rewrite str_rev_involutive, str_rev_app in Hp. exact Hp. }
    destruct u as [|c u]; [done|]. cbn. pose proof (lstrip_idem s) as Hi. rewrite Hu in Hi.
    change (String c u +:+ String.rev p) with (String c (u +:+ String.rev p)) in Hi. cbn in Hi.
    destruct (is_space c); [|done]. apply (f_equal String.length) in Hi.
    pose proof (lstrip_length (u +:+ String.rev p)). cbn in Hi. lia.
  - rewrite str_rev_involutive. apply lstrip_idem.
Qed.

(** Stripping keeps a trimmed text at the end of what precedes it. *)
Lemma strip_ends (p b : string) : trimmed b → ∃ q, str_strip (p +:+ b) = q +:+ b.
Proof.
  intros [Hne Hl Hr]. unfold str_strip, rstrip.
  assert (Hl' : ∃ q, lstrip (p +:+ b) = q +:+ b).
  { induction p as [|c p IH]; [by exists ""|].
    change (String c p +:+ b) with (String c (p +:+ b)). cbn. destruct (is_space c); [done|].
    by exists (String c p). }
  destruct Hl' as [q ->]. exists q. rewrite str_rev_app.
  rewrite lstrip_app by (done || by apply str_rev_ne).
  by rewrite <- str_rev_app, str_rev_involutive.
Qed.

Lemma str_app_split (a b s s' : string) :
  a +:+ s = b +:+ s' → String.length s = String.length s' → a = b ∧ s = s'.
Proof.
  revert b. induction a as [|x a IH]; intros [|y b] Heq Hlen.
  - done.
  - exfalso. change (s = String y (b +:+ s')) in Heq. apply (f_equal String.length) in Heq. cbn in Heq.
    rewrite str_length_app in Heq. lia.
  - exfalso. change (String x (a +:+ s) = s') in Heq. apply (f_equal String.length) in Heq. cbn in Heq.
    rewrite str_length_app in Heq. lia.
  - change (String x (a +:+ s) = String y (b +:+ s')) in Heq. injection Heq as -> Heq.
    destruct (IH b Heq Hlen) as [-> ->]. done.
Qed.

(** *** Splitting *)

Lemma split_on_app sep cur a b :
  split_on_go sep cur (a +:+ String sep b) = split_on_go sep cur a ++ split_on_go sep "" b.
Proof.
  revert cur. induction a as [|x a IH]; intros cur.
  - change (split_on_go sep cur (String sep b) = cur :: split_on_go sep "" b). cbn. by rewrite decide_True.
  - change (split_on_go sep cur (String x (a +:+ String sep b)) = split_on_go sep cur (String x a) ++ split_on_go sep "" b).
    cbn. destruct (decide (x = sep)); [by rewrite IH|apply IH].
Qed.

Lemma split_on_nonempty sep cur a : split_on_go sep cur a ≠ [].
Proof. revert cur. induction a as [|x a IH]; intros cur; cbn; [done|]. by destruct (decide _). Qed.
