(* ===== verification/Matching.v ===== *)
(** What the backtracking matcher of PyStr computes: a relational semantics of
    the patterns, the matcher's soundness and completeness for it, and the
    successive matches of [re.finditer]. *)
From S2P Require Import Prelude PyStr.
From Stdlib Require Import Ascii.

(** ** Matches as a relation *)

(** [matches r prev s prev' s']: with [prev] before and [s] ahead, [r] can consume
    a prefix of [s], after which [prev'] is before and [s'] ahead. *)
Inductive matches : regex → option ascii → string → option ascii → string → Prop :=
  | matches_char p c prev s : p c = true → matches (RChar p) prev (String c s) (Some c) s
  | matches_empty prev s : matches REmpty prev s prev s
  | matches_seq r1 r2 p0 s0 p1 s1 p2 s2 :
      matches r1 p0 s0 p1 s1 → matches r2 p1 s1 p2 s2 → matches (RSeq r1 r2) p0 s0 p2 s2
  | matches_alt_l r1 r2 p s p' s' : matches r1 p s p' s' → matches (RAlt r1 r2) p s p' s'
  | matches_alt_r r1 r2 p s p' s' : matches r2 p s p' s' → matches (RAlt r1 r2) p s p' s'
  | matches_star_nil r p s : matches (RStar r) p s p s
  | matches_star_cons r p0 s0 p1 s1 p2 s2 :
      matches r p0 s0 p1 s1 → matches (RStar r) p1 s1 p2 s2 → matches (RStar r) p0 s0 p2 s2
  | matches_boundary p s : boundary p s = true → matches RBoundary p s p s.

(** What is before the text once [m] has been read. *)
Fixpoint after (prev : option ascii) (m : string) : option ascii :=
  match m with "" => prev | String c m' => after (Some c) m' end.

Lemma after_app prev a b : after prev (a +:+ b) = after (after prev a) b.
Proof. revert prev. induction a as [|c a IH]; intros prev; [done|]. apply (IH (Some c)). Qed.

Lemma matches_consumes r p s p' s' :
  matches r p s p' s' → ∃ m, s = m +:+ s' ∧ p' = after p m.
Proof.
  induction 1; try done; try (by exists "").
  - by exists (String c "").
  - destruct IHmatches1 as (m1 & -> & ->), IHmatches2 as (m2 & -> & ->).
    exists (m1 +:+ m2). by rewrite after_app, str_app_assoc.
  - destruct IHmatches1 as (m1 & -> & ->), IHmatches2 as (m2 & -> & ->).
    exists (m1 +:+ m2). by rewrite after_app, str_app_assoc.
Qed.

Lemma matches_shorter r p s p' s' : matches r p s p' s' → String.length s' ≤ String.length s.
Proof. intros (m & -> & _)%matches_consumes. rewrite str_length_app. lia. Qed.

Lemma matches_stuck r p s p' s' :
  matches r p s p' s' → String.length s' = String.length s → p' = p ∧ s' = s.
Proof.
  intros (m & -> & ->)%matches_consumes Hl. rewrite str_length_app in Hl. by destruct m; [|cbn in Hl; lia].
Qed.

(** ** The matcher's loop for [RStar], by its own name *)

Section Loop.
  Context (r : regex) (k : option ascii → string → option string).

Fixpoint star_loop (n : nat) (prev : option ascii) (s : string) : option string :=
  match n with
  | O => k prev s
  | S n' =>
      match rmatch r prev s (fun prev' s' =>
              if decide (String.length s' < String.length s) then star_loop n' prev' s' else None) with
      | Some x => Some x
      | None => k prev s
      end
  end.

Lemma rmatch_star prev s : rmatch (RStar r) prev s k = star_loop (String.length s) prev s.
Proof.
  cbn. generalize (String.length s) as n. intros n. revert prev s.
  induction n as [|n IH]; intros prev s; [done|]. cbn. reflexivity.
Qed.
End Loop.

Lemma rmatch_sound r p s k x :
  rmatch r p s k = Some x → ∃ p' s', matches r p s p' s' ∧ k p' s' = Some x.
Proof.
  revert p s k. induction r as [q| |r1 IH1 r2 IH2|r1 IH1 r2 IH2|r IH|]; intros p s k.
  - destruct s as [|c s]; [done|]. cbn. destruct (q c) eqn:Hq; [|done]. eauto using matches.
  - cbn. eauto using matches.
  - cbn. intros (p1 & s1 & H1 & (p2 & s2 & H2 & Hk)%IH2)%IH1. eauto using matches.
  - cbn. destruct (rmatch r1 p s k) eqn:E.
    + intros [= ->]. apply IH1 in E as (p' & s' & ? & ?). eauto using matches.
    + intros (p' & s' & ? & ?)%IH2. eauto using matches.
  - rewrite rmatch_star. generalize (String.length s) as n. intros n. revert p s.
    induction n as [|n IHn]; intros p s; cbn; [eauto using matches|].
    destruct (rmatch r p s _) eqn:E; [|eauto using matches].
    intros [= ->]. apply IH in E as (p1 & s1 & H1 & Hk). destruct (decide _); [|done].
    apply IHn in Hk as (p2 & s2 & H2 & Hk). eauto using matches.
  - cbn. destruct (boundary p s) eqn:E; [|done]. eauto using matches.
Qed.

(** Iterations that consume nothing can be left out. *)
Inductive strides (r : regex) : option ascii → string → option ascii → string → Prop :=
  | strides_nil p s : strides r p s p s
  | strides_cons p0 s0 p1 s1 p2 s2 :
      matches r p0 s0 p1 s1 → String.length s1 < String.length s0 →
      strides r p1 s1 p2 s2 → strides r p0 s0 p2 s2.

Lemma matches_strides r p s p' s' : matches (RStar r) p s p' s' → strides r p s p' s'.
Proof.
  remember (RStar r) as rs eqn:Hrs. induction 1; try discriminate; injection Hrs as ->.
  - constructor.
  - pose proof (matches_shorter _ _ _ _ _ H).
    destruct (decide (String.length s1 = String.length s0)) as [Hl|Hl].
    + destruct (matches_stuck _ _ _ _ _ H Hl) as [-> ->]. by apply IHmatches2.
    + econstructor; [done|lia|]. by apply IHmatches2.
Qed.

Lemma rmatch_complete r p s p' s' k :
  matches r p s p' s' → is_Some (k p' s') → is_Some (rmatch r p s k).
Proof.
  revert p s p' s' k. induction r as [q| |r1 IH1 r2 IH2|r1 IH1 r2 IH2|r IH|]; intros p s p' s' k Hm Hk.
  - inversion Hm as [? c ? ? Hc| | | | | | |]; subst. cbn. by rewrite Hc.
  - by inversion Hm; subst.
  - inversion Hm; subst. cbn. eapply IH1; [done|]. by eapply IH2.
  - cbn. destruct (rmatch r1 p s k) eqn:E; [done|]. inversion Hm; subst.
    + destruct (IH1 p s p' s' k) as [x Hx]; [done..|]. congruence.
    + by eapply IH2.
  - rewrite rmatch_star. apply matches_strides in Hm.
    enough (∀ n, String.length s ≤ n → is_Some (star_loop r k n p s)) as Hn by (by apply Hn).
    revert Hk.
    induction Hm as [p s|p0 s0 p1 s1 p2 s2 H1 Hl H2 IHs]; intros Hk n Hn.
    + destruct n as [|n]; cbn; [done|]. by destruct (rmatch r p s _).
    + destruct n as [|n]; [lia|]. cbn. destruct (rmatch r p0 s0 _) eqn:E; [done|]. exfalso.
      eapply eq_None_not_Some; [exact E|]. eapply IH; [exact H1|].
      rewrite decide_True by done. apply IHs; [done|lia].
  - cbn. inversion Hm as [| | | | | | |? ? Hb]; subst. by rewrite Hb.
Qed.

(** ** Searching *)

Lemma re_search_from_complete r prev pre s p' s' :
  matches r (after prev pre) s p' s' → is_Some (re_search_from r prev (pre +:+ s)).
Proof.
  revert prev. induction pre as [|c pre IH]; intros prev Hm.
  - change ("" +:+ s) with s. cbn in Hm. destruct (rmatch_complete r prev s p' s' (fun _ rest => Some rest) Hm) as [x Hx];
      [by eexists|]. destruct s; cbn; rewrite Hx; by eexists.
  - change (String c pre +:+ s) with (String c (pre +:+ s)). cbn.
    destruct (rmatch r prev _ _); [by eexists|]. by apply IH.
Qed.

Lemma re_search_from_sound r prev s x :
  re_search_from r prev s = Some x →
  ∃ pre s1 p' s', s = pre +:+ s1 ∧ matches r (after prev pre) s1 p' s'.
Proof.
  revert prev. induction s as [|c s IH]; intros prev; cbn;
    (destruct (rmatch r prev _ _) as [y|] eqn:E; [intros _; apply rmatch_sound in E as (p' & s' & Hm & _)|]).
  - by exists "", "", p', s'.
  - done.
  - by exists "", (String c s), p', s'.
  - intros (pre & s1 & p' & s' & -> & Hm)%IH. by exists (String c pre), s1, p', s'.
Qed.

(** A pattern is found exactly when it matches somewhere. *)
Lemma re_test_spec r s :
  re_test r s = true ↔ ∃ pre m post p', s = pre +:+ m +:+ post ∧
    matches r (after None pre) (m +:+ post) p' post.
Proof.
  unfold re_test, re_search. split.
  - destruct (re_search_from r None s) eqn:E; [|done]. intros _.
    apply re_search_from_sound in E as (pre & s1 & p' & post & -> & Hm).
    destruct (matches_consumes _ _ _ _ _ Hm) as (m & -> & _). by exists pre, m, post, p'.
  - intros (pre & m & post & p' & -> & Hm).
    destruct (re_search_from_complete r None pre (m +:+ post) p' post Hm) as [x ->]. done.
Qed.

(** ** [re.finditer] *)

(** The spans of the successive non-overlapping matches, those that consume
    nothing left out; [skip] characters belong to the previous match. *)
Fixpoint finditer_from (r : regex) (prev : option ascii) (s : string) (pos skip : nat) : list (nat * nat) :=
  match s with
  | "" => []
  | String c s' =>
      match skip with
      | S skip' => finditer_from r (Some c) s' (S pos) skip'
      | O =>
          match rmatch r prev s (fun _ rest => Some rest) with
          | Some rest =>
              if decide (String.length rest < String.length s)
              then (pos, pos + (String.length s - String.length rest)) ::
                   finditer_from r (Some c) s' (S pos) (String.length s - String.length rest - 1)
              else finditer_from r (Some c) s' (S pos) 0
          | None => finditer_from r (Some c) s' (S pos) 0
          end
      end
  end.

Definition finditer (r : regex) (s : string) : list (nat * nat) := finditer_from r None s 0 0.

(** [r] matches the characters [i .. j) of [s]. *)
Definition matches_at (r : regex) (s : string) (i j : nat) : Prop :=
  ∃ pre m post p', s = pre +:+ m +:+ post ∧ String.length pre = i ∧ i + String.length m = j ∧
    matches r (after None pre) (m +:+ post) p' post.

Lemma finditer_from_sound r pre s pos skip i j :
  String.length pre = pos → (i, j) ∈ finditer_from r (after None pre) s pos skip →
  matches_at r (pre +:+ s) i j ∧ pos + skip ≤ i < j.
Proof.
  revert pre pos skip. induction s as [|c s IH]; intros pre pos skip Hp; cbn; [by intros ?%elem_of_nil|].
  assert (Hnext : ∀ k, (i, j) ∈ finditer_from r (Some c) s (S pos) k →
            matches_at r (pre +:+ String c s) i j ∧ S pos + k ≤ i < j).
  { intros k Hin. specialize (IH (pre +:+ String c "") (S pos) k). rewrite after_app in IH.
    rewrite str_app_assoc in IH. apply IH; [rewrite str_length_app; cbn; lia|done]. }
  destruct skip as [|skip]; [|intros Hin%Hnext; split; [tauto|lia]].
  destruct (rmatch _ _ _ _) as [rest|] eqn:E; [|intros Hin%Hnext; split; [tauto|lia]].
  destruct (decide _) as [Hl|]; [|intros Hin%Hnext; split; [tauto|lia]].
  intros [[= -> ->]|Hin%Hnext]%elem_of_cons; [|split; [tauto|cbn in *; lia]]. split; [|cbn in *; lia].
  apply rmatch_sound in E as (p' & s' & Hm & [= ->]).
  destruct (matches_consumes _ _ _ _ _ Hm) as (m & Heq & _). rewrite Heq in Hm |- *.
  exists pre, m, rest, p'. split_and!; [done|done| |done].
  apply (f_equal String.length) in Heq. rewrite str_length_app in Heq. cbn in Heq |- *. lia.
Qed.

Lemma finditer_sound r s i j : (i, j) ∈ finditer r s → matches_at r s i j ∧ i < j.
Proof.
  intros Hin. destruct (finditer_from_sound r "" s 0 0 i j eq_refl Hin) as [Hm Hl]. split; [exact Hm|lia].
Qed.

(** A pattern that always consumes something. *)
Definition consuming (r : regex) : Prop :=
  ∀ p s p' s', matches r p s p' s' → String.length s' < String.length s.

(** Where a match could start, one is reported that starts there or still runs. *)
Lemma finditer_from_complete r pre0 s0 pos skip a m post p' :
  consuming r → s0 = a +:+ m +:+ post → matches r (after None (pre0 +:+ a)) (m +:+ post) p' post →
  pos = String.length pre0 → skip ≤ String.length a →
  ∃ i j, (i, j) ∈ finditer_from r (after None pre0) s0 pos skip ∧ i ≤ pos + String.length a < j.
Proof.
  intros Hr. revert pre0 pos skip a. induction s0 as [|c s0 IH]; intros pre0 pos skip a Hs Hm Hp Hk.
  { apply Hr in Hm. rewrite str_length_app in Hm. apply (f_equal String.length) in Hs.
    rewrite !str_length_app in Hs. cbn in Hs. lia. }
  assert (Hnext : ∀ k a', a = String c a' → k ≤ String.length a' →
     ∃ i j, (i, j) ∈ finditer_from r (Some c) s0 (S pos) k ∧ i ≤ pos + String.length a < j).
  { intros k a' -> Hk'. destruct (IH (pre0 +:+ String c "") (S pos) k a') as (i & j & Hin & Hij).
    - injection Hs as Hs. exact Hs.
    - by rewrite str_app_assoc.
    - rewrite str_length_app. cbn. lia.
    - done.
    - rewrite after_app in Hin. cbn in Hin. exists i, j. split; [done|]. cbn. lia. }
  assert (Hhd : ∀ c' a', a = String c' a' → a = String c a').
  { intros c' a' ->. by injection Hs as ->. }
  destruct skip as [|skip]; cbn [finditer_from].
  2: { destruct a as [|c' a']; [cbn in Hk; lia|]. apply (Hnext skip a'); [by eapply Hhd|cbn in Hk; lia]. }
  destruct (rmatch r (after None pre0) (String c s0) (fun _ rest => Some rest)) as [rest|] eqn:E.
  - apply rmatch_sound in E as (q' & s' & Hq%Hr & [= ->]). rewrite decide_True by done.
    destruct (decide (String.length (String c s0) - String.length rest ≤ String.length a)) as [Hle|Hgt].
    + destruct a as [|c' a']; [cbn in Hle, Hq; lia|].
      destruct (Hnext (String.length (String c s0) - String.length rest - 1) a') as (i & j & Hin & Hij);
        [by eapply Hhd|cbn in *; lia|]. exists i, j. split; [by right|done].
    + eexists _, _. split; [left|]. cbn in *. lia.
  - destruct a as [|c' a'].
    + exfalso. change ("" +:+ m +:+ post) with (m +:+ post) in Hs. rewrite str_app_nil_r in Hm.
      rewrite <- Hs in Hm. eapply eq_None_not_Some; [exact E|]. eapply rmatch_complete; [exact Hm|by eexists].
    + apply (Hnext 0 a'); [by eapply Hhd|lia].
Qed.

Lemma finditer_complete r s i j :
  consuming r → matches_at r s i j → ∃ a b, (a, b) ∈ finditer r s ∧ a ≤ i < b.
Proof.
  intros Hr (pre & m & post & p' & -> & <- & <- & Hm).
  destruct (finditer_from_complete r "" (pre +:+ m +:+ post) 0 0 pre m post p' Hr eq_refl Hm eq_refl) as (a & b & H);
    [lia|by exists a, b].
Qed.

Lemma matches_at_bounds r s i j : matches_at r s i j → i ≤ j ≤ String.length s.
Proof.
  intros (pre & m & post & p' & -> & <- & <- & _). rewrite !str_length_app. lia.
Qed.
