(* ===== verification/Json.v ===== *)
(** JSON values (Python's [dict[str, Any]] and what [json.dumps] prints), the
    exceptions the services raise, and their effect monad. *)
From S2P Require Import Prelude PyStr.
From Stdlib Require Import Ascii.

(** ** Values

    An object keeps its keys in insertion order, as a Python [dict] does. *)

#[local] Unset Elimination Schemes.
Inductive json :=
  | JNull
  | JBool (b : bool)
  | JInt (z : Z)
  | JFloat (f : float64)
  | JStr (s : string)
  | JArr (l : list json)
  | JObj (kvs : list (string * json)).
#[local] Set Elimination Schemes.

Abbreviation pydict := (list (string * json)).

(** ** Python dict operations on insertion-ordered pairs *)

Section Dict.
  Context {A : Type}.

Fixpoint dict_get (k : string) (d : list (string * A)) : option A :=
  match d with
  | [] => None
  | (k', v) :: d' => if String.eqb k k' then Some v else dict_get k d'
  end.

(** [d[k] = v]: in place when the key is present, at the end otherwise. *)
Fixpoint dict_set (k : string) (v : A) (d : list (string * A)) : list (string * A) :=
  match d with
  | [] => [(k, v)]
  | (k', v') :: d' => if String.eqb k k' then (k', v) :: d' else (k', v') :: dict_set k v d'
  end.

Definition dict_mem (k : string) (d : list (string * A)) : bool :=
  match dict_get k d with Some _ => true | None => false end.

(** [{**d, **e}]. *)
Definition dict_merge (d e : list (string * A)) : list (string * A) :=
  fold_left (fun acc kv => dict_set kv.1 kv.2 acc) e d.

Lemma dict_get_set_eq k v d : dict_get k (dict_set k v d) = Some v.
Proof.
  induction d as [|[k' v'] d IH]; cbn; [by rewrite String.eqb_refl|].
  destruct (str_eqb_spec k k') as [->|Hne]; cbn; [by rewrite String.eqb_refl|].
  by rewrite (proj2 (String.eqb_neq k k') Hne).
Qed.

Lemma dict_get_set_ne k k' v d : k ≠ k' → dict_get k (dict_set k' v d) = dict_get k d.
Proof.
  intros Hne. induction d as [|[j w] d IH]; cbn.
  - by rewrite (proj2 (String.eqb_neq k k') Hne).
  - destruct (str_eqb_spec k' j) as [<-|Hj]; cbn.
    + by rewrite (proj2 (String.eqb_neq k k') Hne).
    + by rewrite IH.
Qed.

Lemma dict_get_In k v d : dict_get k d = Some v → (k, v) ∈ d.
Proof.
  induction d as [|[k' v'] d IH]; cbn; [done|].
  destruct (str_eqb_spec k k') as [->|]; [intros [= ->]; by constructor|].
  intros H. constructor. by apply IH.
Qed.
End Dict.

(** The truth value of an arbitrary value. *)
Definition truthy (j : json) : bool :=
  match j with
  | JNull => false
  | JBool b => b
  | JInt z => negb (z =? 0)%Z
  | JFloat f => negb (match f with SpecFloat.S754_zero _ => true | _ => false end)
  | JStr s => negb (String.eqb s "")
  | JArr l => match l with [] => false | _ => true end
  | JObj l => match l with [] => false | _ => true end
  end.

Definition opt_json (o : option json) : bool :=
  match o with Some j => truthy j | None => false end.

Definition j_opt_str (o : option string) : json :=
  match o with Some s => JStr s | None => JNull end.

Definition j_strs (l : list string) : json := JArr (JStr <$> l).

(** [v in l] for a value of any type and a list of strings. *)
Definition json_in_strs (v : json) (l : list string) : bool :=
  match v with JStr s => str_in s l | _ => false end.

(** ** Printing

    [json.dumps] and [repr] print a float by its shortest round-tripping
    decimal; that printer is a parameter, the rest is written out. *)
Class FloatRepr := float_repr : float64 → string.

Fixpoint json_escape (s : string) : string :=
  match s with
  | "" => ""
  | String c s' =>
      (if (code c =? 34)%N then "\" +:+ String c ""
       else if (code c =? 92)%N then "\\"
       else if (code c =? 8)%N then "\b"
       else if (code c =? 9)%N then "\t"
       else if (code c =? 10)%N then "\n"
       else if (code c =? 12)%N then "\f"
       else if (code c =? 13)%N then "\r"
       else if in_range 32 126 c then String c ""
       else "\u00" +:+ hex2 c) +:+ json_escape s'
  end.

Definition json_quote (s : string) : string :=
  String "034" (json_escape s +:+ String "034" "").

Section Print.
  Context `{FloatRepr}.

(** [json.dumps(v)] with the default separators. *)
Fixpoint json_dumps (j : json) : string :=
  match j with
  | JNull => "null"
  | JBool true => "true"
  | JBool false => "false"
  | JInt z => Z_to_string z
  | JFloat f => float_repr f
  | JStr s => json_quote s
  | JArr l => "[" +:+ str_join ", " (map json_dumps l) +:+ "]"
  | JObj kvs =>
      "{" +:+ str_join ", " (map (fun kv => json_quote kv.1 +:+ ": " +:+ json_dumps kv.2) kvs) +:+ "}"
  end.

(** [repr(v)]. *)
Fixpoint json_repr (j : json) : string :=
  match j with
  | JNull => "None"
  | JBool true => "True"
  | JBool false => "False"
  | JInt z => Z_to_string z
  | JFloat f => float_repr f
  | JStr s => repr_str s
  | JArr l => "[" +:+ str_join ", " (map json_repr l) +:+ "]"
  | JObj kvs =>
      "{" +:+ str_join ", " (map (fun kv => repr_str kv.1 +:+ ": " +:+ json_repr kv.2) kvs) +:+ "}"
  end.

(** [str(v)]. *)
Definition py_str (v : json) : string :=
  match v with JStr s => s | _ => json_repr v end.
End Print.

(** ** Exceptions *)

Inductive exn :=
  (* httpx: a timeout, or any other transport / status error *)
  | HttpxTimeout (msg : string)
  | HttpxError (msg : string)
  (* fastapi: becomes the HTTP response *)
  | HTTPException (status_code : Z) (detail : json) (headers : list (string * string))
  (* the services' own exceptions *)
  | GuardrailServiceError (msg : string)
  | BusinessApiError (status_code : Z) (detail : string)
  | TokenExchangeError (status_code : Z) (detail : string)
  | ApprovalError (status_code : Z) (detail : string)
  | HarnessError (status_code : Z) (detail : string) (retriable : bool)
  | GatewayError (status_code : Z) (detail : string)
  | TokenError (detail : string)
  | TokenVerificationError (detail : string)
  | ManifestLoadError (audience : string)
  (* pydantic, the database driver, redis *)
  | ValidationError (msg : string)
  | IntegrityError (constraint : string)
  | ResponseError (msg : string)
  | InvalidTokenError (msg : string)
  (* the language *)
  | AssertionError
  | KeyError (key : string)
  | ValueError (msg : string)
  | TypeError (msg : string)
  | OtherException (name : string) (msg : string).

(** The classes [except httpx.HTTPError] takes. *)
Definition is_httpx_error (e : exn) : bool :=
  match e with HttpxTimeout _ | HttpxError _ => true | _ => false end.

(** [str(exc)]. *)
Definition exn_str (e : exn) : string :=
  match e with
  | HttpxTimeout m | HttpxError m | GuardrailServiceError m | ValidationError m
  | ResponseError m | InvalidTokenError m | ValueError m | TypeError m
  | IntegrityError m | OtherException _ m => m
  | HTTPException s _ _ => Z_to_string s
  | BusinessApiError s d => "business-api " +:+ Z_to_string s +:+ ": " +:+ d
  | TokenExchangeError s d => "token-exchange " +:+ Z_to_string s +:+ ": " +:+ d
  | HarnessError s d _ => "harness " +:+ Z_to_string s +:+ ": " +:+ d
  | GatewayError s d => "HTTP " +:+ Z_to_string s +:+ ": " +:+ d
  | ApprovalError _ d | TokenError d | TokenVerificationError d => d
  | ManifestLoadError a => "no tool manifest declares audience=" +:+ a
  | AssertionError => ""
  | KeyError k => repr_str k
  end.

Abbreviation py := (M exn).

(** What JSON text can carry: finite floats, and objects without a repeated key. *)
Fixpoint json_plain (j : json) : bool :=
  match j with
  | JFloat (SpecFloat.S754_infinity _ | SpecFloat.S754_nan) => false
  | JArr l => forallb json_plain l
  | JObj kvs => forallb (fun kv => json_plain kv.2) kvs && bool_decide (NoDup (fst <$> kvs))
  | _ => true
  end.

(** ** JSONB columns *)

(** A value [CAST(... AS jsonb)] takes: [json.dumps] prints NUL as an escape and
    the non-finite floats as bare words, both of which the cast refuses. *)
Definition no_nul (s : string) : bool :=
  forallb (fun c => negb (code c =? 0)%N) (String.list_ascii_of_string s).

Fixpoint jsonb_ok (j : json) : bool :=
  match j with
  | JNull | JBool _ | JInt _ => true
  | JFloat f => match f with SpecFloat.S754_infinity _ | SpecFloat.S754_nan => false | _ => true end
  | JStr s => no_nul s
  | JArr l => forallb jsonb_ok l
  | JObj kvs => forallb (fun kv => no_nul kv.1 && jsonb_ok kv.2) kvs
  end.

Definition jsonb_refused : exn := OtherException "DataError" "unsupported Unicode escape or token in jsonb".

Definition cast_jsonb (j : json) : option exn := if jsonb_ok j then None else Some jsonb_refused.

(** A text parameter: PostgreSQL's texts hold no NUL. *)
Definition nul_refused : exn := OtherException "DBAPIError" "invalid byte sequence for encoding UTF8: 0x00".

(** A float for a column [NUMERIC(precision, scale)]: its exact value is rounded to
    the scale, half away from zero, and must then fit the precision. NaN is a
    numeric value, an infinity does not fit. *)
Definition numeric_ok (precision scale : Z) (f : float64) : bool :=
  match f with
  | SpecFloat.S754_infinity _ => false
  | SpecFloat.S754_nan | SpecFloat.S754_zero _ => true
  | SpecFloat.S754_finite _ m e =>
      let num := (Zpos m * 2 ^ Z.max e 0 * 10 ^ scale)%Z in
      let den := (2 ^ Z.max (- e) 0)%Z in
      ((2 * num + den) / (2 * den) <? 10 ^ precision)%Z
  end.

(** The ends of NUMERIC(12,6): 999999.9999994 fits, 999999.9999996 rounds up to a million. *)
Example numeric_12_6_ends :
  numeric_ok 12 6 (f64_ratio 9999999999994 10000000) = true ∧ numeric_ok 12 6 (f64_ratio 9999999999996 10000000) = false ∧
  numeric_ok 12 6 (f64_of_Z (- 1000000)) = false ∧ numeric_ok 12 6 (SpecFloat.S754_infinity true) = false.
Proof. repeat split; vm_compute; reflexivity. Qed.

(** A statement's parameter [CAST(:v AS jsonb)]: it is converted before the
    statement looks at any row. *)
Definition jsonb_param {S} (j : json) : py S unit := if jsonb_ok j then ret tt else raise jsonb_refused.

Lemma no_nul_app a b : no_nul (a +:+ b) = no_nul a && no_nul b.
Proof.
  unfold no_nul. induction a as [|c a IH]; [done|].
  change (String c a +:+ b) with (String c (a +:+ b)). cbn -[code N.eqb]. by rewrite IH, andb_assoc.
Qed.

Lemma no_nul_Z z : no_nul (Z_to_string z) = true.
Proof.
  assert (Hu : ∀ d, no_nul (DecimalString.NilEmpty.string_of_uint d) = true) by (induction d; done).
  assert (Hz : ∀ d, no_nul (DecimalString.NilZero.string_of_uint d) = true) by (intros []; [done|apply Hu..]).
  unfold Z_to_string, DecimalString.NilZero.string_of_int. destruct (Z.to_int z) as [d|d]; [apply Hz|]. exact (Hz d).
Qed.

Lemma no_nul_slice s i j : no_nul s = true → no_nul (str_slice s i j) = true.
Proof.
  assert (Hdrop : ∀ s n, no_nul s = true → no_nul (str_drop n s) = true).
  { clear. induction s as [|c s IH]; intros [|n]; try done. unfold no_nul in *. cbn. intros [_ Hs]%andb_prop. by apply IH. }
  assert (Htake : ∀ s n, no_nul s = true → no_nul (str_take n s) = true).
  { clear. induction s as [|c s IH]; intros [|n]; try done. unfold no_nul in *. cbn. intros [-> Hs]%andb_prop. by apply IH. }
  intros Hs. unfold str_slice. by apply Htake, Hdrop.
Qed.

(** ** Documents are countable

    The induction principle over nested documents, and an injective coding of
    documents: what a concrete JSON text instance is built from. *)

Definition json_rect' (P : json → Prop)
    (Hnull : P JNull) (Hbool : ∀ b, P (JBool b)) (Hint : ∀ z, P (JInt z)) (Hfloat : ∀ f, P (JFloat f))
    (Hstr : ∀ s, P (JStr s)) (Harr : ∀ l, Forall P l → P (JArr l))
    (Hobj : ∀ kvs, Forall (fun kv => P kv.2) kvs → P (JObj kvs)) : ∀ j, P j :=
  fix go j :=
    match j with
    | JNull => Hnull
    | JBool b => Hbool b
    | JInt z => Hint z
    | JFloat f => Hfloat f
    | JStr s => Hstr s
    | JArr l => Harr l ((fix all l := match l return Forall P l with
                         | [] => @List.Forall_nil _ _
                         | x :: l => @List.Forall_cons _ _ x l (go x) (all l) end) l)
    | JObj kvs => Hobj kvs ((fix all l := match l return Forall (fun kv => P kv.2) l with
                         | [] => @List.Forall_nil _ _
                         | x :: l => @List.Forall_cons _ _ x l (go x.2) (all l) end) kvs)
    end.

Abbreviation float_code := (bool + bool + unit + (bool * positive * Z))%type.

Definition float_encode (f : float64) : float_code :=
  match f with
  | SpecFloat.S754_zero b => inl (inl (inl b))
  | SpecFloat.S754_infinity b => inl (inl (inr b))
  | SpecFloat.S754_nan => inl (inr tt)
  | SpecFloat.S754_finite b m e => inr (b, m, e)
  end.

Definition float_decode (c : float_code) : float64 :=
  match c with
  | inl (inl (inl b)) => SpecFloat.S754_zero b
  | inl (inl (inr b)) => SpecFloat.S754_infinity b
  | inl (inr _) => SpecFloat.S754_nan
  | inr (b, m, e) => SpecFloat.S754_finite b m e
  end.

#[export] Instance float64_countable : Countable float64.
Proof. apply (inj_countable' float_encode float_decode). by intros []. Defined.

Abbreviation json_leaf := (unit + bool + Z + float64 + string + string)%type.

Fixpoint json_tree (j : json) : gen_tree json_leaf :=
  match j with
  | JNull => GenLeaf (inl (inl (inl (inl (inl tt)))))
  | JBool b => GenLeaf (inl (inl (inl (inl (inr b)))))
  | JInt z => GenLeaf (inl (inl (inl (inr z))))
  | JFloat f => GenLeaf (inl (inl (inr f)))
  | JStr s => GenLeaf (inl (inr s))
  | JArr l => GenNode 0 (map json_tree l)
  | JObj kvs => GenNode 1 (map (fun kv => GenNode 2 [GenLeaf (inr kv.1); json_tree kv.2]) kvs)
  end.

Fixpoint tree_json (t : gen_tree json_leaf) : json :=
  match t with
  | GenLeaf (inl (inl (inl (inl (inl _))))) => JNull
  | GenLeaf (inl (inl (inl (inl (inr b))))) => JBool b
  | GenLeaf (inl (inl (inl (inr z)))) => JInt z
  | GenLeaf (inl (inl (inr f))) => JFloat f
  | GenLeaf (inl (inr s)) => JStr s
  | GenLeaf (inr s) => JStr s
  | GenNode 0 l => JArr (map tree_json l)
  | GenNode _ l =>
      JObj (map (fun t => match t with
                          | GenNode _ [GenLeaf (inr k); v] => (k, tree_json v)
                          | _ => ("", JNull)
                          end) l)
  end.

Lemma tree_json_tree j : tree_json (json_tree j) = j.
Proof.
  induction j as [| | | | |l IH|kvs IH] using json_rect'; [done..| |]; cbn; f_equal.
  - induction IH as [|x l Hx _ IH]; [done|]. cbn. by rewrite Hx, IH.
  - induction IH as [|[k x] l Hx _ IH]; [done|]. cbn in *. by rewrite Hx, IH.
Qed.

#[export] Instance json_eq_dec : EqDecision json.
Proof.
  intros x y. destruct (decide (json_tree x = json_tree y)) as [H|H]; [left|right; congruence].
  by rewrite <- (tree_json_tree x), H, tree_json_tree.
Defined.

#[export] Instance json_countable : Countable json.
Proof. apply (inj_countable' json_tree tree_json tree_json_tree). Defined.
