(* ===== verification/Presidio.v ===== *)
(** Presidio as the services configure it: pattern recognizers, the analyzer
    engine built from them, the anonymizer, and what their documentation
    promises — with a plain implementation that keeps the promise. *)
From S2P Require Import Prelude PyStr Json Matching.

(** [RecognizerResult]: a span of the text. *)
Record RecognizerResult := MkRecognizerResult {
  rec_entity_type : string;
  rec_start : Z;
  rec_end : Z;
  rec_score : float64
}.

#[export] Instance RecognizerResult_eq : EqDecision RecognizerResult.
Proof. solve_decision. Defined.

(** [Pattern] and [PatternRecognizer]. *)
Record Pattern := MkPattern {
  pat_name : string;
  pat_regex : regex;
  pat_score : float64
}.

Record PatternRecognizer := MkPatternRecognizer {
  prc_supported_entity : string;
  prc_patterns : list Pattern;
  prc_supported_language : string;
  prc_context : list string
}.

(** A token of a text spaCy has split, with its lemma. *)
Record Token := MkToken {
  tok_text : string;
  tok_lemma : string
}.

(** [AnalyzerEngine(nlp_engine=..., registry=..., context_aware_enhancer=...)]:
    the pipeline of each language, the recognizers, and the settings of
    [LemmaContextAwareEnhancer]. *)
Record AnalyzerEngine := MkAnalyzerEngine {
  eng_nlp : list (string * (list Token → list Token));
  eng_registry : list PatternRecognizer;
  eng_context_matching_mode : string;
  eng_min_score_with_context_similarity : float64
}.

(** [analyzer.analyze(text=..., language=...)] and [anonymizer.anonymize(text=...,
    analyzer_results=..., operators=...)], the operators being replacements. *)
Class Presidio := {
  analyze : AnalyzerEngine → string → string → exn + list RecognizerResult;
  anonymize : string → list RecognizerResult → list (string * string) → exn + string
}.

(** ** Texts with holes *)

(** Pieces of a text, with replacement values between them. *)
Definition Splice : Type := (nat * nat) * list (string * (nat * nat)).

Definition piece (text : string) (ab : nat * nat) : string := str_take (ab.2 - ab.1) (str_drop ab.1 text).

Fixpoint render_rest (text : string) (l : list (string * (nat * nat))) : string :=
  match l with
  | [] => ""
  | (value, ab) :: l' => value +:+ piece text ab +:+ render_rest text l'
  end.

Definition render_splice (text : string) (sp : Splice) : string :=
  piece text sp.1 +:+ render_rest text sp.2.

(** A piece of the text outside the spans, from the end of one (or of nothing) to
    the start of another. *)
Record gap (text : string) (spans : list RecognizerResult) (ab : nat * nat) : Prop := {
  gap_le : ab.1 ≤ ab.2 ≤ String.length text;
  gap_from : ab.1 = 0 ∨ ∃ r, r ∈ spans ∧ rec_end r = Z.of_nat ab.1;
  gap_to : ab.2 = String.length text ∨ ∃ r, r ∈ spans ∧ rec_start r = Z.of_nat ab.2;
  gap_apart r : r ∈ spans → (rec_end r ≤ Z.of_nat ab.1)%Z ∨ (Z.of_nat ab.2 ≤ rec_start r)%Z
}.

(** The text with the spans replaced by values. *)
Record spliced (text : string) (spans : list RecognizerResult) (value : string → Prop) (sp : Splice) : Prop := {
  spl_first : gap text spans sp.1;
  spl_rest : Forall (fun h => value h.1 ∧ gap text spans h.2) sp.2
}.

Definition in_text (text : string) (r : RecognizerResult) : Prop :=
  (0 ≤ rec_start r < rec_end r)%Z ∧ (rec_end r ≤ slen text)%Z.

Definition in_order (a b : RecognizerResult) : Prop := (rec_end a ≤ rec_start b)%Z.

(** ** What Presidio documents *)

(** A result is a match of a pattern of a recognizer of the language; every such
    match is covered by a result of the recognizer's entity (Presidio drops a
    result inside another of the same entity that scores no less), and the
    context can only raise a pattern's score. Anonymizing replaces the results'
    spans, no two of which touch, by their operators' values. *)
Class PresidioLaws `{Presidio} : Prop := {
  analyze_sound eng text language l r :
    analyze eng text language = inr l → r ∈ l →
    ∃ rc p i j, rc ∈ eng_registry eng ∧ p ∈ prc_patterns rc ∧
      rec_entity_type r = prc_supported_entity rc ∧
      rec_start r = Z.of_nat i ∧ rec_end r = Z.of_nat j ∧ (i, j) ∈ finditer (pat_regex p) text;
  analyze_complete eng text language l rc p i j :
    analyze eng text language = inr l → rc ∈ eng_registry eng → p ∈ prc_patterns rc →
    prc_supported_language rc = language → f64_ltb f64_zero (pat_score p) = true →
    (i, j) ∈ finditer (pat_regex p) text →
    ∃ r, r ∈ l ∧ rec_entity_type r = prc_supported_entity rc ∧
      (rec_start r ≤ Z.of_nat i)%Z ∧ (Z.of_nat j ≤ rec_end r)%Z ∧
      ∀ t, f64_leb t (pat_score p) = true → f64_leb t (rec_score r) = true;
  anonymize_splices text results operators out :
    anonymize text results operators = inr out →
    Forall (in_text text) results → ordered in_order results →
    ∃ sp, out = render_splice text sp ∧
      spliced text results (fun h => ∃ r, r ∈ results ∧ dict_get (rec_entity_type r) operators = Some h) sp
}.

(** ** A plain Presidio: every match with its pattern's score *)

Definition plain_results (rc : PatternRecognizer) (text : string) : list RecognizerResult :=
  prc_patterns rc ≫= fun p =>
    (fun ij => MkRecognizerResult (prc_supported_entity rc) (Z.of_nat ij.1) (Z.of_nat ij.2) (pat_score p))
    <$> finditer (pat_regex p) text.

Definition speaks (language : string) (rc : PatternRecognizer) : bool :=
  String.eqb (prc_supported_language rc) language.

(** The holes left by spans in order, each with its value, and the text behind it. *)
Fixpoint holes_of (text : string) (l : list (string * RecognizerResult)) : list (string * (nat * nat)) :=
  match l with
  | [] => []
  | (value, r) :: l' =>
      let stop := match l' with [] => String.length text | (_, r') :: _ => Z.to_nat (rec_start r') end in
      (value, (Z.to_nat (rec_end r), stop)) :: holes_of text l'
  end.

Definition plain_values (operators : list (string * string)) (results : list RecognizerResult)
    : list (string * RecognizerResult) :=
  (fun r => (from_option id "" (dict_get (rec_entity_type r) operators), r)) <$> results.

Definition plain_splice (text : string) (operators : list (string * string)) (results : list RecognizerResult)
    : Splice :=
  ((0, match results with [] => String.length text | r :: _ => Z.to_nat (rec_start r) end),
   holes_of text (plain_values operators results)).

Definition plain_presidio : Presidio := {|
  analyze eng text language :=
    inr (List.filter (speaks language) (eng_registry eng) ≫= fun rc => plain_results rc text);
  anonymize text results operators :=
    if forallb (fun r => match dict_get (rec_entity_type r) operators with Some _ => true | None => false end) results
    then inr (render_splice text (plain_splice text operators results))
    else inl (ValueError "no operator")
|}.

Lemma elem_of_plain_results rc text r :
  r ∈ plain_results rc text ↔ ∃ p i j, p ∈ prc_patterns rc ∧ (i, j) ∈ finditer (pat_regex p) text ∧
    r = MkRecognizerResult (prc_supported_entity rc) (Z.of_nat i) (Z.of_nat j) (pat_score p).
Proof.
  unfold plain_results. rewrite list_elem_of_bind. split.
  - intros (p & ([i j] & -> & Hin)%list_elem_of_fmap & Hp). by exists p, i, j.
  - intros (p & i & j & Hp & Hin & ->). exists p. split; [|done]. apply list_elem_of_fmap. by exists (i, j).
Qed.

Lemma ordered_app {A} (R : A → A → Prop) l k :
  ordered R (l ++ k) ↔ ordered R l ∧ ordered R k ∧ ∀ x y, x ∈ l → y ∈ k → R x y.
Proof.
  induction l as [|a l IH]; cbn.
  - split; [intros H; split_and!; [done|done|]; intros x y []%elem_of_nil|tauto].
  - rewrite IH, Forall_app, !Forall_forall. split.
    + intros ((Ha & Hk) & Hl & Hk' & Hx). split_and!; [done|done|done|].
      intros x y [ -> |Hin]%elem_of_cons Hy; auto.
    + intros ((Ha & Hl) & Hk & Hx). split_and!; [done| |done|done|]; intros; apply Hx; [left|done|by right|done].
Qed.

(** A gap between spans in order is a gap. *)
Lemma gap_between text before behind a b :
  Forall (in_text text) (before ++ behind) → ordered in_order (before ++ behind) →
  (match last before with Some r => rec_end r = Z.of_nat a | None => a = 0 end) →
  (match behind with r :: _ => rec_start r = Z.of_nat b | [] => b = String.length text end) →
  gap text (before ++ behind) (a, b).
Proof.
  intros Hin Hord Ha Hb. rewrite Forall_app in Hin. destruct Hin as [Hl Hr].
  apply ordered_app in Hord as (Hol & Hor & Hlr). rewrite Forall_forall in Hl, Hr. unfold in_text, slen, in_order in *.
  assert (Hbefore : ∀ r, r ∈ before → (rec_end r ≤ Z.of_nat a)%Z).
  { intros r. destruct before as [|x before _] using rev_ind; [by intros []%elem_of_nil|].
    rewrite last_snoc in Ha. intros [Hx| ->%list_elem_of_singleton]%elem_of_app; [|lia].
    apply ordered_app in Hol as (_ & _ & Hx').
    specialize (Hx' r x Hx ltac:(by left)). specialize (Hl x ltac:(apply elem_of_app; right; by left)). lia. }
  assert (Hbehind : ∀ r, r ∈ behind → (Z.of_nat b ≤ rec_start r)%Z).
  { intros r. destruct behind as [|x behind]; [by intros []%elem_of_nil|]. cbn in Hor. destruct Hor as [Hx _].
    rewrite Forall_forall in Hx. intros [ -> |Hin]%elem_of_cons; [lia|]. specialize (Hx r Hin).
    specialize (Hr x ltac:(by left)). lia. }
  split; cbn.
  - destruct behind as [|y behind], (last before) as [x|] eqn:Hx; try lia;
      try (apply last_Some in Hx as [b' ->]; specialize (Hl x ltac:(apply elem_of_app; right; by left))).
    + lia.
    + specialize (Hr y ltac:(by left)).
      specialize (Hlr x y ltac:(apply elem_of_app; right; by left) ltac:(by left)). lia.
    + specialize (Hr y ltac:(by left)). lia.
  - destruct (last before) as [x|] eqn:Hx; [right|by left].
    exists x. split; [|done]. apply elem_of_app. left. by apply last_Some_elem_of.
  - destruct behind as [|y behind]; [by left|right]. exists y. split; [|done]. apply elem_of_app. right. by left.
  - intros r [Hr'|Hr']%elem_of_app; [left; auto|right; auto].
Qed.

Lemma holes_of_gaps text before l :
  Forall (in_text text) (before ++ l.*2) → ordered in_order (before ++ l.*2) →
  Forall (fun h => gap text (before ++ l.*2) h.2) (holes_of text l).
Proof.
  revert before. induction l as [|[v r] l IH]; intros before Hin Hord; cbn; [constructor|]. cbn in Hin, Hord.
  rewrite (cons_middle r before l.*2), app_assoc in *. constructor; [|by apply IH].
  cbn. apply gap_between; [done|done|rewrite last_snoc|].
  - rewrite Forall_forall in Hin. specialize (Hin r ltac:(apply elem_of_app; left; apply elem_of_app; right; by left)).
    unfold in_text in Hin. lia.
  - destruct l as [|[w y] l]; [done|]. cbn in *. rewrite Forall_forall in Hin.
    specialize (Hin y ltac:(apply elem_of_app; right; by left)). unfold in_text in Hin. lia.
Qed.

Lemma holes_of_values text (P : string → Prop) l :
  Forall (fun vr => P vr.1) l → Forall (fun h => P h.1) (holes_of text l).
Proof. induction 1 as [|[v r] l Hv Hl IH]; cbn; constructor; done. Qed.

(** Spans in order, each replaced by its value. *)
Lemma holes_of_spliced text (value : string → Prop) l :
  Forall (in_text text) l.*2 → ordered in_order l.*2 → Forall (fun vr => value vr.1) l →
  spliced text l.*2 value
    ((0, match l with [] => String.length text | (_, r) :: _ => Z.to_nat (rec_start r) end), holes_of text l).
Proof.
  intros Hin Hord Hv. split.
  - refine (gap_between text [] l.*2 0 _ Hin Hord eq_refl _). destruct l as [|[v r] l]; [done|]. cbn in *.
    apply Forall_cons in Hin as [Hr _]. unfold in_text in Hr. lia.
  - apply Forall_and. split; [by apply holes_of_values|by apply (holes_of_gaps text [])].
Qed.

Lemma plain_values_results operators results : (plain_values operators results).*2 = results.
Proof. unfold plain_values. rewrite <- list_fmap_compose. apply list_fmap_id. Qed.

#[export] Instance plain_presidio_laws : @PresidioLaws plain_presidio.
Proof.
  split.
  - intros eng text language l r [= <-] (rc & Hr & Hrc)%list_elem_of_bind.
    apply elem_of_plain_results in Hr as (p & i & j & Hp & Hin & ->).
    apply list_elem_of_In, filter_In in Hrc as [Hrc%list_elem_of_In _]. by exists rc, p, i, j.
  - intros eng text language l rc p i j [= <-] Hrc Hp Hl _ Hin.
    exists (MkRecognizerResult (prc_supported_entity rc) (Z.of_nat i) (Z.of_nat j) (pat_score p)).
    split_and!; try done. apply list_elem_of_bind. exists rc. split.
    + apply elem_of_plain_results. by exists p, i, j.
    + apply list_elem_of_In, filter_In. split; [by apply list_elem_of_In|]. unfold speaks. by apply String.eqb_eq.
  - intros text results operators out. cbn. destruct (forallb _ _) eqn:Hops; [|done]. intros [= <-] Hin Hord.
    exists (plain_splice text operators results). split; [done|].
    pose proof (holes_of_spliced text
      (fun h => ∃ r, r ∈ results ∧ dict_get (rec_entity_type r) operators = Some h)
      (plain_values operators results)) as Hs. rewrite plain_values_results in Hs.
    unfold plain_splice. replace (match results with [] => String.length text | r :: _ => Z.to_nat (rec_start r) end)
      with (match plain_values operators results with
            | [] => String.length text | (_, r) :: _ => Z.to_nat (rec_start r) end) by (by destruct results).
    apply Hs; [done|done|]. apply Forall_fmap, Forall_forall. intros r Hr. cbn.
    rewrite forallb_forall in Hops. specialize (Hops r ltac:(by apply list_elem_of_In)).
    destruct (dict_get _ operators) as [h|] eqn:Hh; [|done]. by exists r.
Qed.
