(* ===== verification/Http.v ===== *)
(** The surroundings every service shares: HTTP calls and their responses,
    fresh ids, and digests. *)
From S2P Require Import Prelude PyStr Json.

(** What an HTTP client gets back. *)
Record HttpResponse := MkHttpResponse {
  hr_status_code : Z;
  hr_text : string;
  hr_json : json;
  hr_headers : list (string * string)
}.
#[export] Instance eta_HttpResponse : EtaRec HttpResponse := fun x =>
  MkHttpResponse (hr_status_code x) (hr_text x) (hr_json x) (hr_headers x).

(** [response.raise_for_status()]: anything but 2xx is an [HTTPStatusError]. *)
Definition raise_for_status {S} (r : HttpResponse) : py S unit :=
  if (200 <=? hr_status_code r)%Z && (hr_status_code r <? 300)%Z then ret tt
  else raise (HttpxError ("HTTP status " +:+ Z_to_string (hr_status_code r))).

(** The services the clients post to. *)
Inductive Service :=
  | BusinessApi | ModelRouter | RetrievalService | TokenExchange | AgentHarness | Callback | Infinity
  | PublicGateway | IdentityProvider.

#[export] Instance Service_eq : EqDecision Service. Proof. solve_decision. Defined.

(** [client.post(path, json=..., headers=...)]. *)
Class HttpPost (X : Type) :=
  http_post : Service → string → list (string * string) → json → py X HttpResponse.

(** [uuid.uuid4().hex]. *)
Class Uuid (X : Type) := uuid4_hex : py X string.

(** [f"{prefix}{uuid.uuid4().hex[:20]}"]. *)
Definition uuid_id {X} `{Uuid X} (prefix : string) : py X string :=
  let! h := uuid4_hex in ret (prefix +:+ str_slice h 0 20).

(** ** Reading a response's JSON: [d[k]], [d.get(k)], [l[0]] *)

Definition jget {S} (k : string) (j : json) : py S json :=
  match j with
  | JObj kvs => match dict_get k kvs with Some v => ret v | None => raise (KeyError k) end
  | _ => raise (TypeError "indices must be integers or slices, not str")
  end.

Definition jget_opt {S} (k : string) (j : json) : py S json :=
  match j with
  | JObj kvs => ret (from_option id JNull (dict_get k kvs))
  | _ => raise (OtherException "AttributeError" "object has no attribute 'get'")
  end.

Definition jhead {S} (j : json) : py S json :=
  match j with
  | JArr (v :: _) => ret v
  | JArr [] => raise (OtherException "IndexError" "list index out of range")
  | JObj _ => raise (KeyError "0")
  | _ => raise (TypeError "object is not subscriptable")
  end.

Fixpoint str_chars (s : string) : list string :=
  match s with "" => [] | String c s' => String c "" :: str_chars s' end.

(** [for g in v]. *)
Definition py_iter {S} (v : json) : py S (list json) :=
  match v with
  | JArr l => ret l
  | JStr s => ret (JStr <$> str_chars s)
  | JObj kvs => ret ((fun kv => JStr kv.1) <$> kvs)
  | _ => raise (TypeError "object is not iterable")
  end.

(** [meta.get(k, default)]. *)
Definition jget_default {S} (k : string) (d : json) (j : json) : py S json :=
  match j with
  | JObj kvs => ret (from_option id d (dict_get k kvs))
  | _ => raise (OtherException "AttributeError" "object has no attribute 'get'")
  end.

(** [int((time.perf_counter() - started) * 1000)]. *)
Class PerfCounter (X : Type) := elapsed_ms : py X Z.

(** [time.time()], and [datetime.now(UTC)] in ISO form. *)
Class WallClock (X : Type) := {
  time_time : py X float64;
  now_utc : py X string
}.

(** [request.headers.get(name)]: names are case-insensitive. *)
Definition request_header (hs : list (string * string)) (name : string) : option string :=
  snd <$> List.find (fun kv => String.eqb (str_lower kv.1) (str_lower name)) hs.

(** [json.loads] on a string ([None]: [JSONDecodeError]), and [float(s)]. *)
Class JsonLoads := json_loads : string → option json.
Class FloatParse := float_parse : string → option float64.

(** [yaml.safe_load(text)] ([None]: a [YAMLError]). *)
Class YamlLoad := yaml_load : string → option json.

(** [hashlib.sha256(s.encode()).hexdigest()]. *)
Class Sha256 := sha256 : string → string.

(** pydantic's [model_dump_json()] and [model_validate_json(...)]: the JSON text
    of a document, and back ([None]: not a JSON text). *)
Class JsonText := {
  json_text : json → string;
  json_parse : string → option json
}.

Class JsonTextLaws `{JsonText} : Prop :=
  json_parse_text j : json_plain j = true → json_parse (json_text j) = Some j.

(** A concrete text: the code of the document, in decimal. *)
Definition coded_text : JsonText := {|
  json_text j := Z_to_string (Zpos (encode j));
  json_parse s := match string_to_Z s with Some (Zpos p) => decode p | _ => None end
|}.

#[export] Instance coded_text_laws : @JsonTextLaws coded_text.
Proof.
  intros j _.
  change (match string_to_Z (Z_to_string (Zpos (encode j))) with
          | Some (Zpos p) => decode p | _ => None end = Some j).
  by rewrite string_to_Z_to_string, decode_encode.
Qed.
