(* ===== verification/Tracing.v ===== *)
(** agent-harness: the trace of a run (observability/tracing.py), over an interface
    to Langfuse's SDK, and what its documentation says of the server.

    The SDK queues what it is given, sends it on [flush], and swallows its own
    failures, so its calls never raise. *)
From S2P Require Import Prelude PyStr Json Http.

(** ** The SDK *)

(** [Langfuse(public_key=..., secret_key=..., host=...)]. *)
Record LangfuseOptions := MkLangfuseOptions {
  lfo_public_key : string;
  lfo_secret_key : string;
  lfo_host : string
}.

(** The arguments of [langfuse.trace], [trace.span] and [trace.generation]. *)
Record TraceBody := MkTraceBody {
  trb_id : string;
  trb_name : string;
  trb_user_id : string;
  trb_input : json;
  trb_output : json;
  trb_tags : list string;
  trb_metadata : json
}.

Record SpanBody := MkSpanBody {
  spb_name : string;
  spb_input : json;
  spb_output : json;
  spb_metadata : json
}.

Record GenerationBody := MkGenerationBody {
  gnb_name : string;
  gnb_model : string;
  gnb_input : json;
  gnb_output : json;
  gnb_usage : json
}.

(** The two observations are of the trace with the id given. *)
Class LangfuseSdk (X : Type) := {
  lf_trace : TraceBody → X → X;
  lf_span : string → SpanBody → X → X;
  lf_generation : string → GenerationBody → X → X;
  lf_flush : X → X
}.

(** ** observability/tracing.py *)

(** The settings of the harness that name a Langfuse project. *)
(* @ harness/config.py:60-62 Settings: langfuse *)
Record LangfuseSettings := MkLangfuseSettings {
  lfs_public_key : string;
  lfs_secret_key : string;
  lfs_host : string
}.

(* @ harness/observability/tracing.py:13-18 get_langfuse_client *)
Definition get_langfuse_client (settings : LangfuseSettings) : LangfuseOptions :=
  MkLangfuseOptions (lfs_public_key settings) (lfs_secret_key settings) (lfs_host settings).

(* @ harness/observability/tracing.py:45-72 record_run: the trace *)
Definition run_trace (trace_id tenant_id user_id agent_id execution_mode : string) (input_text output_text : json)
    (cache_hit : bool) (cited_chunks : list json) : TraceBody :=
  {| trb_id := trace_id; trb_name := "agent_run"; trb_user_id := user_id;
     trb_input := input_text; trb_output := output_text;
     trb_tags := ["agent:" +:+ agent_id; "tenant:" +:+ tenant_id];
     trb_metadata := JObj [("tenant_id", JStr tenant_id); ("agent_id", JStr agent_id);
                           ("execution_mode", JStr execution_mode); ("cache_hit", JBool cache_hit);
                           ("cited_chunks", JArr cited_chunks)] |}.

(* @ harness/observability/tracing.py:21-87 record_run *)
Definition record_run {X} `{LangfuseSdk X} (trace_id tenant_id user_id agent_id execution_mode model_alias : string)
    (input_text output_text : json) (input_tokens output_tokens : Z) (cache_hit : bool) (cited_chunks : list json)
    (x : X) : X :=
  let x := lf_trace (run_trace trace_id tenant_id user_id agent_id execution_mode input_text output_text cache_hit
                       cited_chunks) x in
  let x := if cache_hit
           then lf_span trace_id (MkSpanBody "cache_lookup" input_text output_text (JObj [("hit", JBool true)])) x
           else lf_generation trace_id
                  (MkGenerationBody "llm_call_1" model_alias input_text output_text
                     (JObj [("input", JInt input_tokens); ("output", JInt output_tokens); ("unit", JStr "TOKENS")])) x in
  lf_flush x.

(** ** The server *)

(** A trace as the server keeps it: the body last sent under the id, and when. *)
Record StoredTrace := MkStoredTrace {
  stt_body : TraceBody;
  stt_timestamp : string
}.

(** Traces by id. What is queued is sent by [flush], in order, each replacing what
    the server had under its id; observations leave the traces themselves alone. *)
Class LangfuseServer (X : Type) `{LangfuseSdk X} := {
  server_traces : X → list (string * StoredTrace);
  sdk_queue : X → list (string * StoredTrace);
  lf_trace_queues body x :
    server_traces (lf_trace body x) = server_traces x ∧
    ∃ timestamp, sdk_queue (lf_trace body x) = sdk_queue x ++ [(trb_id body, MkStoredTrace body timestamp)];
  lf_span_queues id body x :
    server_traces (lf_span id body x) = server_traces x ∧ sdk_queue (lf_span id body x) = sdk_queue x;
  lf_generation_queues id body x :
    server_traces (lf_generation id body x) = server_traces x ∧ sdk_queue (lf_generation id body x) = sdk_queue x;
  lf_flush_sends x :
    server_traces (lf_flush x) = fold_left (fun d kv => dict_set kv.1 kv.2 d) (sdk_queue x) (server_traces x) ∧
    sdk_queue (lf_flush x) = []
}.

(** A recorded run is the server's trace under its id; the other traces, once the
    queue was empty, are what they were. *)
Lemma record_run_stored {X} `{LangfuseServer X} trace_id tenant_id user_id agent_id execution_mode model_alias
    input_text output_text input_tokens output_tokens cache_hit cited_chunks (x : X) :
  let x' := record_run trace_id tenant_id user_id agent_id execution_mode model_alias input_text output_text
              input_tokens output_tokens cache_hit cited_chunks x in
  (∃ timestamp, dict_get trace_id (server_traces x') =
     Some (MkStoredTrace (run_trace trace_id tenant_id user_id agent_id execution_mode input_text output_text
                            cache_hit cited_chunks) timestamp)) ∧
  sdk_queue x' = [] ∧
  (sdk_queue x = [] → ∀ id, id ≠ trace_id → dict_get id (server_traces x') = dict_get id (server_traces x)).
Proof.
  intros x'. unfold record_run in x'. set (body := run_trace _ _ _ _ _ _ _ _ _) in *.
  destruct (lf_trace_queues body x) as (Hs & timestamp & Hq). set (x1 := lf_trace body x) in *.
  set (x2 := if cache_hit then _ else _) in x'.
  assert (server_traces x2 = server_traces x1 ∧ sdk_queue x2 = sdk_queue x1) as [Hs2 Hq2].
  { unfold x2. destruct cache_hit; [apply lf_span_queues|apply lf_generation_queues]. }
  destruct (lf_flush_sends x2) as [Hs' Hq']. rewrite Hs2, Hq2, Hs, Hq, fold_left_app in Hs'. cbn in Hs'.
  subst x'. rewrite Hs'. split_and!; [exists timestamp; apply dict_get_set_eq|exact Hq'|].
  intros -> id Hid. cbn. by rewrite dict_get_set_ne.
Qed.

(** ** A plain server: one process that keeps its traces in a dictionary *)

Record LangfuseStore := MkLangfuseStore {
  lst_clock : list string;
  lst_queue : list (string * StoredTrace);
  lst_traces : list (string * StoredTrace)
}.

(** Every trace gets the next reading of the clock. *)
#[export] Instance store_sdk : LangfuseSdk LangfuseStore := {|
  lf_trace body x :=
    MkLangfuseStore (tail (lst_clock x))
      (lst_queue x ++ [(trb_id body, MkStoredTrace body (from_option id "" (head (lst_clock x))))]) (lst_traces x);
  lf_span _ _ x := x;
  lf_generation _ _ x := x;
  lf_flush x :=
    MkLangfuseStore (lst_clock x) [] (fold_left (fun d kv => dict_set kv.1 kv.2 d) (lst_queue x) (lst_traces x))
|}.

#[export, refine] Instance store_server : LangfuseServer LangfuseStore := {|
  server_traces := lst_traces;
  sdk_queue := lst_queue
|}.
Proof.
  - intros body x. split; [done|]. by eexists.
  - done.
  - done.
  - done.
Defined.
