(* ===== verification/Contracts.v ===== *)
(** The shared wire contracts ([packages/contracts]): enums, requests,
    responses, and how pydantic validates and dumps the ones the services
    store and read back.

    Every model is a [StrictModel]: an unknown key is rejected, a missing
    required key is rejected, a missing optional key takes its default. The
    scalar coercions of pydantic's lax mode are a parameter ([Pydantic]). *)
From S2P Require Import Prelude PyStr Json.

(** ** common.py: enums *)

(* @ contracts/common.py:20-22 ExecutionMode *)
Inductive ExecutionMode := SYNC | ASYNC.

(* @ contracts/common.py:25-30 RiskLevel *)
Inductive RiskLevel := LOW | MEDIUM | HIGH.

(* @ contracts/common.py:33-35 ToolKind *)
Inductive ToolKind := READONLY | MUTATION.

(* @ contracts/common.py:38-44 DataScope *)
Inductive DataScope := SELF | TEAM | DEPARTMENT | TENANT.

(* @ contracts/common.py:47-51 Audience *)
Inductive Audience := INTERNAL | EXTERNAL.

(* @ contracts/common.py:54-56 JobPriority *)
Inductive JobPriority := STANDARD | BULK.

(* @ contracts/common.py:59-64 JobStatus *)
Inductive JobStatus := QUEUED | RUNNING | SUCCEEDED | FAILED | DEAD_LETTERED.

(* @ contracts/common.py:67-76 MutationRequestStatus *)
Inductive MutationRequestStatus :=
  | PREVIEWED | AWAITING_APPROVAL | APPROVED | REJECTED | EXECUTED | MFAILED | EXPIRED.

(* @ contracts/common.py:79-81 ApprovalDecision *)
Inductive ApprovalDecision := APPROVE | REJECT.

(* @ contracts/common.py:84-86 GuardrailStage *)
Inductive GuardrailStage := INPUT | OUTPUT.

(* @ contracts/common.py:89-93 GuardrailAction *)
Inductive GuardrailAction := ALLOW | REDACT | BLOCK | FLAG.

(* @ contracts/common.py:101-103 ToolInvocationStatus *)
Inductive ToolInvocationStatus := OK | ERROR.

#[export] Instance ExecutionMode_eq : EqDecision ExecutionMode. Proof. solve_decision. Defined.
#[export] Instance RiskLevel_eq : EqDecision RiskLevel. Proof. solve_decision. Defined.
#[export] Instance ToolKind_eq : EqDecision ToolKind. Proof. solve_decision. Defined.
#[export] Instance DataScope_eq : EqDecision DataScope. Proof. solve_decision. Defined.
#[export] Instance Audience_eq : EqDecision Audience. Proof. solve_decision. Defined.
#[export] Instance JobPriority_eq : EqDecision JobPriority. Proof. solve_decision. Defined.
#[export] Instance JobStatus_eq : EqDecision JobStatus. Proof. solve_decision. Defined.
#[export] Instance MutationRequestStatus_eq : EqDecision MutationRequestStatus.
Proof. solve_decision. Defined.
#[export] Instance ApprovalDecision_eq : EqDecision ApprovalDecision. Proof. solve_decision. Defined.
#[export] Instance GuardrailStage_eq : EqDecision GuardrailStage. Proof. solve_decision. Defined.
#[export] Instance GuardrailAction_eq : EqDecision GuardrailAction. Proof. solve_decision. Defined.
#[export] Instance ToolInvocationStatus_eq : EqDecision ToolInvocationStatus.
Proof. solve_decision. Defined.

(** A [StrEnum] and the strings of its members. *)
Class StrEnum (A : Type) := { enum_value : A → string; enum_members : list A }.

Definition enum_of_string {A} `{StrEnum A} (s : string) : option A :=
  list_find (fun a => enum_value a = s) enum_members ≫= fun p => Some p.2.

#[export] Instance ExecutionMode_enum : StrEnum ExecutionMode := {
  enum_value m := match m with SYNC => "sync" | ASYNC => "async" end;
  enum_members := [SYNC; ASYNC] }.
#[export] Instance RiskLevel_enum : StrEnum RiskLevel := {
  enum_value r := match r with LOW => "low" | MEDIUM => "medium" | HIGH => "high" end;
  enum_members := [LOW; MEDIUM; HIGH] }.
#[export] Instance ToolKind_enum : StrEnum ToolKind := {
  enum_value k := match k with READONLY => "readonly" | MUTATION => "mutation" end;
  enum_members := [READONLY; MUTATION] }.
#[export] Instance DataScope_enum : StrEnum DataScope := {
  enum_value d := match d with
                  | SELF => "self" | TEAM => "team" | DEPARTMENT => "department"
                  | TENANT => "tenant" end;
  enum_members := [SELF; TEAM; DEPARTMENT; TENANT] }.
#[export] Instance Audience_enum : StrEnum Audience := {
  enum_value a := match a with INTERNAL => "internal" | EXTERNAL => "external" end;
  enum_members := [INTERNAL; EXTERNAL] }.
#[export] Instance JobPriority_enum : StrEnum JobPriority := {
  enum_value p := match p with STANDARD => "standard" | BULK => "bulk" end;
  enum_members := [STANDARD; BULK] }.
#[export] Instance JobStatus_enum : StrEnum JobStatus := {
  enum_value s := match s with
                  | QUEUED => "queued" | RUNNING => "running" | SUCCEEDED => "succeeded"
                  | FAILED => "failed" | DEAD_LETTERED => "dead_lettered" end;
  enum_members := [QUEUED; RUNNING; SUCCEEDED; FAILED; DEAD_LETTERED] }.
#[export] Instance MutationRequestStatus_enum : StrEnum MutationRequestStatus := {
  enum_value s := match s with
                  | PREVIEWED => "previewed" | AWAITING_APPROVAL => "awaiting_approval"
                  | APPROVED => "approved" | REJECTED => "rejected" | EXECUTED => "executed"
                  | MFAILED => "failed" | EXPIRED => "expired" end;
  enum_members :=
    [PREVIEWED; AWAITING_APPROVAL; APPROVED; REJECTED; EXECUTED; MFAILED; EXPIRED] }.
#[export] Instance ApprovalDecision_enum : StrEnum ApprovalDecision := {
  enum_value d := match d with APPROVE => "approve" | REJECT => "reject" end;
  enum_members := [APPROVE; REJECT] }.
#[export] Instance GuardrailStage_enum : StrEnum GuardrailStage := {
  enum_value s := match s with INPUT => "input" | OUTPUT => "output" end;
  enum_members := [INPUT; OUTPUT] }.
#[export] Instance GuardrailAction_enum : StrEnum GuardrailAction := {
  enum_value a := match a with
                  | ALLOW => "allow" | REDACT => "redact" | BLOCK => "block" | FLAG => "flag" end;
  enum_members := [ALLOW; REDACT; BLOCK; FLAG] }.
#[export] Instance ToolInvocationStatus_enum : StrEnum ToolInvocationStatus := {
  enum_value s := match s with OK => "ok" | ERROR => "error" end;
  enum_members := [OK; ERROR] }.

Class StrEnumLaws (A : Type) `{StrEnum A} := enum_round : ∀ a : A, enum_of_string (enum_value a) = Some a.

#[export] Instance GuardrailStage_round : StrEnumLaws GuardrailStage. Proof. by intros []. Qed.
#[export] Instance GuardrailAction_round : StrEnumLaws GuardrailAction. Proof. by intros []. Qed.
#[export] Instance ToolInvocationStatus_round : StrEnumLaws ToolInvocationStatus.
Proof. by intros []. Qed.
#[export] Instance JobStatus_round : StrEnumLaws JobStatus. Proof. by intros []. Qed.
#[export] Instance JobPriority_round : StrEnumLaws JobPriority. Proof. by intros []. Qed.
#[export] Instance ExecutionMode_round : StrEnumLaws ExecutionMode. Proof. by intros []. Qed.
#[export] Instance RiskLevel_round : StrEnumLaws RiskLevel. Proof. by intros []. Qed.

(** ** common.py: header names *)

Inductive Header :=
  | AUTHORIZATION | IDEMPOTENCY_KEY | TRACE_ID | TENANT_ID | ACTOR_ID | ACTOR_TYPE
  | INTERNAL_TOKEN | EVAL_MODE | SIMULATE.

(* @ contracts/common.py:106-122 Headers *)
Definition header_name (h : Header) : string :=
  match h with
  | AUTHORIZATION => "Authorization"
  | IDEMPOTENCY_KEY => "Idempotency-Key"
  | TRACE_ID => "X-Trace-Id"
  | TENANT_ID => "X-Tenant-Id"
  | ACTOR_ID => "X-Actor-Id"
  | ACTOR_TYPE => "X-Actor-Type"
  | INTERNAL_TOKEN => "X-Internal-Token"
  | EVAL_MODE => "X-Eval-Mode"
  | SIMULATE => "X-Simulate"
  end.

(** ** agent.py *)

(* @ contracts/agent.py:14-18 AgentInput *)
Record AgentInput := MkAgentInput {
  ain_content : string
}.
#[export] Instance eta_AgentInput : EtaRec AgentInput := fun x =>
  MkAgentInput (ain_content x).

(* @ contracts/agent.py:21-26 RunOptions *)
Record RunOptions := MkRunOptions {
  opt_stream : bool;
  opt_max_output_tokens : Z;
  opt_allow_mutations : bool
}.
#[export] Instance eta_RunOptions : EtaRec RunOptions := fun x =>
  MkRunOptions (opt_stream x) (opt_max_output_tokens x) (opt_allow_mutations x).

(* @ contracts/agent.py:29-37 TokenBudget *)
Record TokenBudget := MkTokenBudget {
  bud_pool : string;
  bud_reserved_tokens : Z
}.
#[export] Instance eta_TokenBudget : EtaRec TokenBudget := fun x =>
  MkTokenBudget (bud_pool x) (bud_reserved_tokens x).

(* @ contracts/agent.py:40-44 Citation *)
Record Citation := MkCitation {
  cit_document_id : string;
  cit_chunk_id : string;
  cit_source_uri : string;
  cit_score : float64
}.
#[export] Instance eta_Citation : EtaRec Citation := fun x =>
  MkCitation (cit_document_id x) (cit_chunk_id x) (cit_source_uri x) (cit_score x).

(* @ contracts/agent.py:47-50 AgentOutput *)
Record AgentOutput := MkAgentOutput {
  out_content : string;
  out_citations : list Citation
}.
#[export] Instance eta_AgentOutput : EtaRec AgentOutput := fun x =>
  MkAgentOutput (out_content x) (out_citations x).

(* @ contracts/agent.py:53-56 Usage *)
Record Usage := MkUsage {
  usg_input_tokens : Z;
  usg_output_tokens : Z;
  usg_cost_usd : float64
}.
#[export] Instance eta_Usage : EtaRec Usage := fun x =>
  MkUsage (usg_input_tokens x) (usg_output_tokens x) (usg_cost_usd x).

(* @ contracts/agent.py:59-64 PendingApproval *)
Record PendingApproval := MkPendingApproval {
  pap_approval_id : string;
  pap_action_name : string
}.
#[export] Instance eta_PendingApproval : EtaRec PendingApproval := fun x =>
  MkPendingApproval (pap_approval_id x) (pap_action_name x).

(** ** authz.py *)

(* @ contracts/authz.py:24-32 ScopeConstraint *)
Record ScopeConstraint := MkScopeConstraint {
  sc_data_scope : DataScope;
  sc_scope_param : string;
  sc_allowed_ids : option (list string)
}.
#[export] Instance eta_ScopeConstraint : EtaRec ScopeConstraint := fun x =>
  MkScopeConstraint (sc_data_scope x) (sc_scope_param x) (sc_allowed_ids x).

(* @ contracts/authz.py:35-41 Denial *)
Record Denial := MkDenial {
  den_tool_name : string;
  den_reason : string;
  den_missing_permissions : list string
}.
#[export] Instance eta_Denial : EtaRec Denial := fun x =>
  MkDenial (den_tool_name x) (den_reason x) (den_missing_permissions x).

(* @ contracts/authz.py:44-47 PolicyDecision *)
Record PolicyDecision := MkPolicyDecision {
  pd_allowed_tools : list string;
  pd_denials : list Denial;
  pd_scope_constraints : list (string * ScopeConstraint)
}.
#[export] Instance eta_PolicyDecision : EtaRec PolicyDecision := fun x =>
  MkPolicyDecision (pd_allowed_tools x) (pd_denials x) (pd_scope_constraints x).

(* @ contracts/authz.py:50-63 AuthorizationContext *)
Record AuthorizationContext := MkAuthorizationContext {
  ctx_tenant_id : string;
  ctx_user_id : string;
  ctx_employee_id : option string;
  ctx_roles : list string;
  ctx_permissions : list string;
  ctx_scope_context : pydict;
  ctx_agent_id : string;
  ctx_allow_mutations : bool
}.
#[export] Instance eta_AuthorizationContext : EtaRec AuthorizationContext := fun x =>
  MkAuthorizationContext (ctx_tenant_id x) (ctx_user_id x) (ctx_employee_id x) (ctx_roles x)
    (ctx_permissions x) (ctx_scope_context x) (ctx_agent_id x) (ctx_allow_mutations x).

(* @ contracts/authz.py:66-68 PolicyResolver *)
Class PolicyResolver (X : Type) := resolve_policy : AuthorizationContext → py X PolicyDecision.

(* @ contracts/authz.py:71-78 KillswitchRequest *)
Record KillswitchRequest := MkKillswitchRequest {
  ksq_disabled : bool;
  ksq_reason : option string
}.
#[export] Instance eta_KillswitchRequest : EtaRec KillswitchRequest := fun x =>
  MkKillswitchRequest (ksq_disabled x) (ksq_reason x).

(* @ contracts/authz.py:81-84 KillswitchResponse *)
Record KillswitchResponse := MkKillswitchResponse {
  ksr_name : string;
  ksr_kind : string;
  ksr_disabled : bool
}.
#[export] Instance eta_KillswitchResponse : EtaRec KillswitchResponse := fun x =>
  MkKillswitchResponse (ksr_name x) (ksr_kind x) (ksr_disabled x).

(** ** business_api.py *)

(* @ contracts/business_api.py:17-24 MutationEffect *)
Record MutationEffect := MkMutationEffect {
  eff_resource : string;
  eff_id : option string;
  eff_operation : option string;
  eff_from : json;
  eff_to : json
}.
#[export] Instance eta_MutationEffect : EtaRec MutationEffect := fun x =>
  MkMutationEffect (eff_resource x) (eff_id x) (eff_operation x) (eff_from x) (eff_to x).

(* @ contracts/business_api.py:31-38 PreviewResponse *)
Record PreviewResponse := MkPreviewResponse {
  pvw_action : string;
  pvw_risk_level : RiskLevel;
  pvw_requires_approval : bool;
  pvw_effects : list MutationEffect;
  pvw_reversible : bool;
  pvw_preview_token : string;
  pvw_validation_errors : list string
}.
#[export] Instance eta_PreviewResponse : EtaRec PreviewResponse := fun x =>
  MkPreviewResponse (pvw_action x) (pvw_risk_level x) (pvw_requires_approval x) (pvw_effects x)
    (pvw_reversible x) (pvw_preview_token x) (pvw_validation_errors x).

(* @ contracts/business_api.py:46-50 ExecuteResponse *)
Record ExecuteResponse := MkExecuteResponse {
  exr_action : string;
  exr_status : string;
  exr_business_ref : option string;
  exr_executed_at : option string
}.
#[export] Instance eta_ExecuteResponse : EtaRec ExecuteResponse := fun x =>
  MkExecuteResponse (exr_action x) (exr_status x) (exr_business_ref x) (exr_executed_at x).

(** ** eval.py *)

(* @ contracts/eval.py:18-21 ToolCallRecord *)
Record ToolCallRecord := MkToolCallRecord {
  tcr_name : string;
  tcr_args_hash : string;
  tcr_status : ToolInvocationStatus
}.
#[export] Instance eta_ToolCallRecord : EtaRec ToolCallRecord := fun x =>
  MkToolCallRecord (tcr_name x) (tcr_args_hash x) (tcr_status x).

(* @ contracts/eval.py:24-27 GuardrailEventRecord *)
Record GuardrailEventRecord := MkGuardrailEventRecord {
  ger_stage : GuardrailStage;
  ger_rule_id : string;
  ger_action : GuardrailAction
}.
#[export] Instance eta_GuardrailEventRecord : EtaRec GuardrailEventRecord := fun x =>
  MkGuardrailEventRecord (ger_stage x) (ger_rule_id x) (ger_action x).

(* @ contracts/eval.py:30-51 EvalDebugBundle *)
Record EvalDebugBundle := MkEvalDebugBundle {
  evb_tools_offered : list string;
  evb_tools_called : list ToolCallRecord;
  evb_mutations_executed : list string;
  evb_mutations_previewed : list string;
  evb_retrieved_chunk_ids : list string;
  evb_chunks_in_prompt : list string;
  evb_retrieved_chunk_contents : list (string * string);
  evb_refused : bool;
  evb_refusal_reason : option string;
  evb_guardrail_events : list GuardrailEventRecord;
  evb_prompt_version : string;
  evb_model_alias : string;
  evb_iterations : Z
}.
#[export] Instance eta_EvalDebugBundle : EtaRec EvalDebugBundle := fun x =>
  MkEvalDebugBundle (evb_tools_offered x) (evb_tools_called x) (evb_mutations_executed x)
    (evb_mutations_previewed x) (evb_retrieved_chunk_ids x) (evb_chunks_in_prompt x)
    (evb_retrieved_chunk_contents x) (evb_refused x) (evb_refusal_reason x)
    (evb_guardrail_events x) (evb_prompt_version x) (evb_model_alias x) (evb_iterations x).

(** ** gateway.py *)

(* @ contracts/gateway.py:15-19 InvokeContext *)
Record InvokeContext := MkInvokeContext {
  ivc_locale : option string;
  ivc_channel : option string
}.
#[export] Instance eta_InvokeContext : EtaRec InvokeContext := fun x =>
  MkInvokeContext (ivc_locale x) (ivc_channel x).

(* @ contracts/gateway.py:22-29 AgentInvokeRequest *)
Record AgentInvokeRequest := MkAgentInvokeRequest {
  req_conversation_id : option string;
  req_agent_id : string;
  req_input : AgentInput;
  req_context : InvokeContext;
  req_options : RunOptions
}.
#[export] Instance eta_AgentInvokeRequest : EtaRec AgentInvokeRequest := fun x =>
  MkAgentInvokeRequest (req_conversation_id x) (req_agent_id x) (req_input x) (req_context x)
    (req_options x).

(* @ contracts/gateway.py:32-48 AgentInvokeResponse *)
Record AgentInvokeResponse := MkAgentInvokeResponse {
  res_run_id : string;
  res_conversation_id : string;
  res_trace_id : string;
  res_output : AgentOutput;
  res_usage : Usage;
  res_degraded : list string;
  res_pending_approvals : list PendingApproval;
  res_cache_hit : bool;
  res_eval : option EvalDebugBundle
}.
#[export] Instance eta_AgentInvokeResponse : EtaRec AgentInvokeResponse := fun x =>
  MkAgentInvokeResponse (res_run_id x) (res_conversation_id x) (res_trace_id x) (res_output x)
    (res_usage x) (res_degraded x) (res_pending_approvals x) (res_cache_hit x) (res_eval x).

(* @ contracts/gateway.py:51-56 AgentJobRequest *)
Record AgentJobRequest := MkAgentJobRequest {
  jrq_base : AgentInvokeRequest;
  jrq_priority : JobPriority;
  jrq_callback_url : option string;
  jrq_callback_secret_ref : option string
}.
#[export] Instance eta_AgentJobRequest : EtaRec AgentJobRequest := fun x =>
  MkAgentJobRequest (jrq_base x) (jrq_priority x) (jrq_callback_url x) (jrq_callback_secret_ref x).

(* @ contracts/gateway.py:59-63 AgentJobAcceptedResponse *)
Record AgentJobAcceptedResponse := MkAgentJobAcceptedResponse {
  acc_job_id : string;
  acc_trace_id : string;
  acc_poll_url : string
}.
#[export] Instance eta_AgentJobAcceptedResponse : EtaRec AgentJobAcceptedResponse := fun x =>
  MkAgentJobAcceptedResponse (acc_job_id x) (acc_trace_id x) (acc_poll_url x).

(* @ contracts/gateway.py:66-69 JobError *)
Record JobError := MkJobError {
  jer_code : string;
  jer_message : string;
  jer_retriable : bool
}.
#[export] Instance eta_JobError : EtaRec JobError := fun x =>
  MkJobError (jer_code x) (jer_message x) (jer_retriable x).

(* @ contracts/gateway.py:72-81 AgentJobStatusResponse *)
Record AgentJobStatusResponse := MkAgentJobStatusResponse {
  jst_job_id : string;
  jst_status : JobStatus;
  jst_attempts : Z;
  jst_result : option AgentInvokeResponse;
  jst_error : option JobError;
  jst_created_at : string;
  jst_completed_at : option string
}.
#[export] Instance eta_AgentJobStatusResponse : EtaRec AgentJobStatusResponse := fun x =>
  MkAgentJobStatusResponse (jst_job_id x) (jst_status x) (jst_attempts x) (jst_result x)
    (jst_error x) (jst_created_at x) (jst_completed_at x).

(* @ contracts/gateway.py:90-95 ApprovalDecisionResponse *)
Record ApprovalDecisionResponse := MkApprovalDecisionResponse {
  apd_approval_id : string;
  apd_status : string;
  apd_mutation_status : string;
  apd_business_ref : option string
}.
#[export] Instance eta_ApprovalDecisionResponse : EtaRec ApprovalDecisionResponse := fun x =>
  MkApprovalDecisionResponse (apd_approval_id x) (apd_status x) (apd_mutation_status x)
    (apd_business_ref x).

(** ** harness.py *)

(* @ contracts/harness.py:15-56 AgentRunRequest *)
Record AgentRunRequest := MkAgentRunRequest {
  run_run_id : string;
  run_trace_id : string;
  run_tenant_id : string;
  run_user_id : string;
  run_acl_group_ids : list string;
  run_employee_id : option string;
  run_permissions : list string;
  run_roles : list string;
  run_scope_context : pydict;
  run_subject_token : option string;
  run_agent_id : string;
  run_conversation_id : option string;
  run_input : AgentInput;
  run_context : pydict;
  run_options : RunOptions;
  run_execution_mode : ExecutionMode;
  run_budget : TokenBudget;
  run_model_router_key_override : option string;
  run_eval_mode_requested : bool
}.
#[export] Instance eta_AgentRunRequest : EtaRec AgentRunRequest := fun x =>
  MkAgentRunRequest (run_run_id x) (run_trace_id x) (run_tenant_id x) (run_user_id x)
    (run_acl_group_ids x) (run_employee_id x) (run_permissions x) (run_roles x)
    (run_scope_context x) (run_subject_token x) (run_agent_id x) (run_conversation_id x)
    (run_input x) (run_context x) (run_options x) (run_execution_mode x) (run_budget x)
    (run_model_router_key_override x) (run_eval_mode_requested x).

(* @ contracts/harness.py:59-69 ApprovalDecisionInternalRequest *)
Record ApprovalDecisionInternalRequest := MkApprovalDecisionInternalRequest {
  adq_trace_id : string;
  adq_tenant_id : string;
  adq_approver_user_id : string;
  adq_approver_permissions : list string;
  adq_decision : ApprovalDecision
}.
#[export] Instance eta_ApprovalDecisionInternalRequest : EtaRec ApprovalDecisionInternalRequest := fun x =>
  MkApprovalDecisionInternalRequest (adq_trace_id x) (adq_tenant_id x) (adq_approver_user_id x)
    (adq_approver_permissions x) (adq_decision x).

(* @ contracts/harness.py:79-86 KillswitchInternalRequest *)
Record KillswitchInternalRequest := MkKillswitchInternalRequest {
  kir_disabled : bool;
  kir_reason : option string;
  kir_changed_by : string
}.
#[export] Instance eta_KillswitchInternalRequest : EtaRec KillswitchInternalRequest := fun x =>
  MkKillswitchInternalRequest (kir_disabled x) (kir_reason x) (kir_changed_by x).

(* @ contracts/harness.py:89-96 CacheInvalidateRequest *)
Record CacheInvalidateRequest := MkCacheInvalidateRequest {
  civ_tenant_id : string;
  civ_document_ids : list string
}.
#[export] Instance eta_CacheInvalidateRequest : EtaRec CacheInvalidateRequest := fun x =>
  MkCacheInvalidateRequest (civ_tenant_id x) (civ_document_ids x).

(** ** jobs.py *)

(* @ contracts/jobs.py:27-27 JOBS_EXCHANGE *)
Definition JOBS_EXCHANGE := "agent.jobs".
(* @ contracts/jobs.py:28-28 STANDARD_QUEUE *)
Definition STANDARD_QUEUE := "agent.jobs.standard".
(* @ contracts/jobs.py:29-29 BULK_QUEUE *)
Definition BULK_QUEUE := "agent.jobs.bulk".
(* @ contracts/jobs.py:35-35 RETRY_EXCHANGE *)
Definition RETRY_EXCHANGE := "agent.jobs.retry".
(* @ contracts/jobs.py:36-36 RETRY_QUEUE *)
Definition RETRY_QUEUE := "agent.jobs.retry.holding".
(* @ contracts/jobs.py:37-37 DLQ_QUEUE *)
Definition DLQ_QUEUE := "agent.jobs.dlq".
(* @ contracts/jobs.py:40-40 MAX_ATTEMPTS *)
Definition MAX_ATTEMPTS : Z := 3.
(* @ contracts/jobs.py:41-42 RETRY_BACKOFF_SECONDS *)
Definition RETRY_BACKOFF_SECONDS : list Z := [10; 60; 300]%Z.

(* @ contracts/jobs.py:45-46 routing_key *)
Definition routing_key (priority : JobPriority) (tenant_id : string) : string :=
  "job." +:+ enum_value priority +:+ "." +:+ tenant_id.

(* @ contracts/jobs.py:49-67 AsyncJobMessage *)
Record AsyncJobMessage := MkAsyncJobMessage {
  job_job_id : string;
  job_tenant_id : string;
  job_priority : JobPriority;
  job_run_request : AgentRunRequest;
  job_callback_url : option string;
  job_callback_secret_ref : option string;
  job_attempts : Z;
  job_quota_reservation_key : option string
}.
#[export] Instance eta_AsyncJobMessage : EtaRec AsyncJobMessage := fun x =>
  MkAsyncJobMessage (job_job_id x) (job_tenant_id x) (job_priority x) (job_run_request x)
    (job_callback_url x) (job_callback_secret_ref x) (job_attempts x)
    (job_quota_reservation_key x).

(* @ contracts/jobs.py:70-81 WebhookPayload *)
Record WebhookPayload := MkWebhookPayload {
  whk_job_id : string;
  whk_trace_id : string;
  whk_status : string;
  whk_result : option AgentInvokeResponse;
  whk_error : option JobError;
  whk_completed_at : string
}.
#[export] Instance eta_WebhookPayload : EtaRec WebhookPayload := fun x =>
  MkWebhookPayload (whk_job_id x) (whk_trace_id x) (whk_status x) (whk_result x) (whk_error x)
    (whk_completed_at x).

(** ** retrieval.py *)

(* @ contracts/retrieval.py:12-20 SearchRequest *)
Record SearchRequest := MkSearchRequest {
  srq_trace_id : string;
  srq_tenant_id : string;
  srq_acl_group_ids : list string;
  srq_query : string;
  srq_top_k : Z;
  srq_filters : pydict;
  srq_rerank : bool;
  srq_max_context_tokens : Z
}.
#[export] Instance eta_SearchRequest : EtaRec SearchRequest := fun x =>
  MkSearchRequest (srq_trace_id x) (srq_tenant_id x) (srq_acl_group_ids x) (srq_query x)
    (srq_top_k x) (srq_filters x) (srq_rerank x) (srq_max_context_tokens x).

(* @ contracts/retrieval.py:23-29 RetrievedChunk *)
Record RetrievedChunk := MkRetrievedChunk {
  rch_chunk_id : string;
  rch_document_id : string;
  rch_content : string;
  rch_score : float64;
  rch_source_uri : string;
  rch_metadata : pydict
}.
#[export] Instance eta_RetrievedChunk : EtaRec RetrievedChunk := fun x =>
  MkRetrievedChunk (rch_chunk_id x) (rch_document_id x) (rch_content x) (rch_score x)
    (rch_source_uri x) (rch_metadata x).

(* @ contracts/retrieval.py:32-35 SearchResult *)
Record SearchResult := MkSearchResult {
  srs_chunks : list RetrievedChunk;
  srs_degraded : list string;
  srs_latency_ms : Z
}.
#[export] Instance eta_SearchResult : EtaRec SearchResult := fun x =>
  MkSearchResult (srs_chunks x) (srs_degraded x) (srs_latency_ms x).
