(* ===== verification/Wire.v ===== *)
(** Serialisation of the contracts the services persist: [model_dump(mode="json")]
    and [model_validate], and the round trip between them. *)
From S2P Require Import Prelude PyStr Json Contracts.

(** ** pydantic's scalar coercions

    A parameter: how pydantic's lax mode reads an [int], a [float], a [bool],
    a [date] and a [datetime] (kept in ISO form), and the text of its error. The laws are
    the documented ones: a value that already has the type is kept. *)
Class Pydantic := {
  lax_int : json → option Z;
  lax_float : json → option float64;
  lax_bool : json → option bool;
  lax_date : json → option string;
  lax_datetime : json → option string;
  validation_text : string → json → string
}.

Class PydanticLaws `{Pydantic} : Prop := {
  lax_int_int z : lax_int (JInt z) = Some z;
  lax_float_float f : lax_float (JFloat f) = Some f;
  lax_bool_bool b : lax_bool (JBool b) = Some b
}.

(** The strict reading of every scalar: one concrete instance. *)
Definition strict_pydantic : Pydantic := {|
  lax_int j := match j with JInt z => Some z | _ => None end;
  lax_float j := match j with
                 | JFloat f => Some f | JInt z => Some (f64_of_Z z) | _ => None end;
  lax_bool j := match j with JBool b => Some b | _ => None end;
  lax_date j := match j with JStr s => Some s | _ => None end;
  lax_datetime j := match j with JStr s => Some s | _ => None end;
  validation_text m _ := "1 validation error for " +:+ m
|}.

#[export] Instance strict_pydantic_laws : @PydanticLaws strict_pydantic.
Proof. by split. Qed.

(** ** Field decoders *)

Definition d_str (j : json) : option string :=
  match j with JStr s => Some s | _ => None end.

Definition d_enum {A} `{StrEnum A} (j : json) : option A :=
  match j with JStr s => enum_of_string s | _ => None end.

Definition d_opt {A} (dec : json → option A) (j : json) : option (option A) :=
  match j with JNull => Some None | _ => Some <$> dec j end.

Definition d_list {A} (dec : json → option A) (j : json) : option (list A) :=
  match j with JArr l => mapM dec l | _ => None end.

Definition d_map {A} (dec : json → option A) (j : json) : option (list (string * A)) :=
  match j with
  | JObj kvs => mapM (fun kv => pair kv.1 <$> dec kv.2) kvs
  | _ => None
  end.

(** [extra="forbid"]. *)
Definition only_keys (names : list string) (kvs : pydict) : bool :=
  forallb (fun kv => str_in kv.1 names) kvs.

Definition d_obj {A} (names : list string) (dec : pydict → option A) (j : json) : option A :=
  match j with
  | JObj kvs => if only_keys names kvs then dec kvs else None
  | _ => None
  end.

Definition required {A} (k : string) (dec : json → option A) (kvs : pydict) : option A :=
  dict_get k kvs ≫= dec.

Definition default {A} (k : string) (dec : json → option A) (d : A) (kvs : pydict) : option A :=
  match dict_get k kvs with Some v => dec v | None => Some d end.

(** A [Literal["text"]] discriminator that defaults to its only value. *)
Definition literal (k v : string) (kvs : pydict) : option unit :=
  default k (fun j => match j with JStr s => if String.eqb s v then Some tt else None
                              | _ => None end) tt kvs.

Definition ge0 (z : Z) : option Z := if (0 <=? z)%Z then Some z else None.

Section Wire.
  Context `{Pydantic}.

Definition dump_citation (c : Citation) : json :=
  JObj [("document_id", JStr (cit_document_id c)); ("chunk_id", JStr (cit_chunk_id c));
        ("source_uri", JStr (cit_source_uri c)); ("score", JFloat (cit_score c))].

Definition validate_citation : json → option Citation :=
  d_obj ["document_id"; "chunk_id"; "source_uri"; "score"] (fun kvs =>
    d ← required "document_id" d_str kvs; c ← required "chunk_id" d_str kvs;
    u ← required "source_uri" d_str kvs; s ← required "score" lax_float kvs;
    Some (MkCitation d c u s)).

Definition dump_output (o : AgentOutput) : json :=
  JObj [("type", JStr "text"); ("content", JStr (out_content o));
        ("citations", JArr (dump_citation <$> out_citations o))].

Definition validate_output : json → option AgentOutput :=
  d_obj ["type"; "content"; "citations"] (fun kvs =>
    _ ← literal "type" "text" kvs; c ← required "content" d_str kvs;
    l ← default "citations" (d_list validate_citation) [] kvs;
    Some (MkAgentOutput c l)).

Definition dump_usage (u : Usage) : json :=
  JObj [("input_tokens", JInt (usg_input_tokens u)); ("output_tokens", JInt (usg_output_tokens u));
        ("cost_usd", JFloat (usg_cost_usd u))].

Definition f_ge0 (f : float64) : option float64 := if f64_leb f64_zero f then Some f else None.

Definition validate_usage : json → option Usage :=
  d_obj ["input_tokens"; "output_tokens"; "cost_usd"] (fun kvs =>
    i ← required "input_tokens" (fun j => lax_int j ≫= ge0) kvs;
    o ← required "output_tokens" (fun j => lax_int j ≫= ge0) kvs;
    c ← required "cost_usd" (fun j => lax_float j ≫= f_ge0) kvs;
    Some (MkUsage i o c)).

Definition dump_approval (p : PendingApproval) : json :=
  JObj [("approval_id", JStr (pap_approval_id p)); ("action_name", JStr (pap_action_name p));
        ("risk_level", JStr "high")].

Definition validate_approval : json → option PendingApproval :=
  d_obj ["approval_id"; "action_name"; "risk_level"] (fun kvs =>
    i ← required "approval_id" d_str kvs; a ← required "action_name" d_str kvs;
    _ ← literal "risk_level" "high" kvs; Some (MkPendingApproval i a)).

Definition dump_tool_call (t : ToolCallRecord) : json :=
  JObj [("name", JStr (tcr_name t)); ("args_hash", JStr (tcr_args_hash t));
        ("status", JStr (enum_value (tcr_status t)))].

Definition validate_tool_call : json → option ToolCallRecord :=
  d_obj ["name"; "args_hash"; "status"] (fun kvs =>
    n ← required "name" d_str kvs; h ← required "args_hash" d_str kvs;
    s ← required "status" d_enum kvs; Some (MkToolCallRecord n h s)).

Definition dump_event_record (e : GuardrailEventRecord) : json :=
  JObj [("stage", JStr (enum_value (ger_stage e))); ("rule_id", JStr (ger_rule_id e));
        ("action", JStr (enum_value (ger_action e)))].

Definition validate_event_record : json → option GuardrailEventRecord :=
  d_obj ["stage"; "rule_id"; "action"] (fun kvs =>
    s ← required "stage" d_enum kvs; r ← required "rule_id" d_str kvs;
    a ← required "action" d_enum kvs; Some (MkGuardrailEventRecord s r a)).

Definition dump_bundle (b : EvalDebugBundle) : json :=
  JObj [("tools_offered", j_strs (evb_tools_offered b));
        ("tools_called", JArr (dump_tool_call <$> evb_tools_called b));
        ("mutations_executed", j_strs (evb_mutations_executed b));
        ("mutations_previewed", j_strs (evb_mutations_previewed b));
        ("retrieved_chunk_ids", j_strs (evb_retrieved_chunk_ids b));
        ("chunks_in_prompt", j_strs (evb_chunks_in_prompt b));
        ("retrieved_chunk_contents",
          JObj ((fun kv => (kv.1, JStr kv.2)) <$> evb_retrieved_chunk_contents b));
        ("refused", JBool (evb_refused b));
        ("refusal_reason", j_opt_str (evb_refusal_reason b));
        ("guardrail_events", JArr (dump_event_record <$> evb_guardrail_events b));
        ("prompt_version", JStr (evb_prompt_version b));
        ("model_alias", JStr (evb_model_alias b));
        ("iterations", JInt (evb_iterations b))].

Definition validate_bundle : json → option EvalDebugBundle :=
  d_obj ["tools_offered"; "tools_called"; "mutations_executed"; "mutations_previewed";
         "retrieved_chunk_ids"; "chunks_in_prompt"; "retrieved_chunk_contents"; "refused";
         "refusal_reason"; "guardrail_events"; "prompt_version"; "model_alias"; "iterations"]
    (fun kvs =>
    offered ← default "tools_offered" (d_list d_str) [] kvs;
    called ← default "tools_called" (d_list validate_tool_call) [] kvs;
    executed ← default "mutations_executed" (d_list d_str) [] kvs;
    previewed ← default "mutations_previewed" (d_list d_str) [] kvs;
    ids ← default "retrieved_chunk_ids" (d_list d_str) [] kvs;
    prompt ← default "chunks_in_prompt" (d_list d_str) [] kvs;
    contents ← default "retrieved_chunk_contents" (d_map d_str) [] kvs;
    refused ← required "refused" lax_bool kvs;
    reason ← default "refusal_reason" (d_opt d_str) None kvs;
    events ← default "guardrail_events" (d_list validate_event_record) [] kvs;
    version ← required "prompt_version" d_str kvs;
    alias ← required "model_alias" d_str kvs;
    iterations ← required "iterations" (fun j => lax_int j ≫= ge0) kvs;
    Some (MkEvalDebugBundle offered called executed previewed ids prompt contents refused reason
            events version alias iterations)).

(** [populate_by_name=True]: the alias [_eval] or the field name. *)
Definition eval_field (kvs : pydict) : option (option EvalDebugBundle) :=
  match dict_get "_eval" kvs with
  | Some v => d_opt validate_bundle v
  | None => default "eval" (d_opt validate_bundle) None kvs
  end.

Definition dump_response (r : AgentInvokeResponse) : json :=
  JObj [("run_id", JStr (res_run_id r)); ("conversation_id", JStr (res_conversation_id r));
        ("trace_id", JStr (res_trace_id r)); ("output", dump_output (res_output r));
        ("usage", dump_usage (res_usage r)); ("degraded", j_strs (res_degraded r));
        ("pending_approvals", JArr (dump_approval <$> res_pending_approvals r));
        ("cache_hit", JBool (res_cache_hit r));
        ("eval", match res_eval r with Some b => dump_bundle b | None => JNull end)].

Definition validate_response : json → option AgentInvokeResponse :=
  d_obj ["run_id"; "conversation_id"; "trace_id"; "output"; "usage"; "degraded";
         "pending_approvals"; "cache_hit"; "_eval"; "eval"] (fun kvs =>
    run_id ← required "run_id" d_str kvs;
    conv ← required "conversation_id" d_str kvs;
    trace ← required "trace_id" d_str kvs;
    output ← required "output" validate_output kvs;
    usage ← required "usage" validate_usage kvs;
    degraded ← default "degraded" (d_list d_str) [] kvs;
    approvals ← default "pending_approvals" (d_list validate_approval) [] kvs;
    hit ← default "cache_hit" lax_bool false kvs;
    eval ← eval_field kvs;
    Some (MkAgentInvokeResponse run_id conv trace output usage degraded approvals hit eval)).

Definition dump_accepted (a : AgentJobAcceptedResponse) : json :=
  JObj [("job_id", JStr (acc_job_id a)); ("status", JStr "queued");
        ("trace_id", JStr (acc_trace_id a)); ("poll_url", JStr (acc_poll_url a))].

Definition validate_accepted : json → option AgentJobAcceptedResponse :=
  d_obj ["job_id"; "status"; "trace_id"; "poll_url"] (fun kvs =>
    i ← required "job_id" d_str kvs; _ ← literal "status" "queued" kvs;
    t ← required "trace_id" d_str kvs; u ← required "poll_url" d_str kvs;
    Some (MkAgentJobAcceptedResponse i t u)).

Definition dump_job_error (e : JobError) : json :=
  JObj [("code", JStr (jer_code e)); ("message", JStr (jer_message e));
        ("retriable", JBool (jer_retriable e))].

Definition validate_job_error : json → option JobError :=
  d_obj ["code"; "message"; "retriable"] (fun kvs =>
    c ← required "code" d_str kvs; m ← required "message" d_str kvs;
    r ← required "retriable" lax_bool kvs; Some (MkJobError c m r)).

(** ** The queue's messages and the webhook's payload *)

Definition d_dict (j : json) : option pydict := match j with JObj kvs => Some kvs | _ => None end.

Definition dump_input (i : AgentInput) : json :=
  JObj [("type", JStr "text"); ("content", JStr (ain_content i))].

Definition validate_input : json → option AgentInput :=
  d_obj ["type"; "content"] (fun kvs =>
    _ ← literal "type" "text" kvs; c ← required "content" d_str kvs; Some (MkAgentInput c)).

Definition dump_options (o : RunOptions) : json :=
  JObj [("stream", JBool (opt_stream o)); ("max_output_tokens", JInt (opt_max_output_tokens o));
        ("allow_mutations", JBool (opt_allow_mutations o))].

Definition validate_options : json → option RunOptions :=
  d_obj ["stream"; "max_output_tokens"; "allow_mutations"] (fun kvs =>
    s ← default "stream" lax_bool false kvs;
    m ← default "max_output_tokens" lax_int 1024%Z kvs;
    a ← default "allow_mutations" lax_bool false kvs; Some (MkRunOptions s m a)).

Definition dump_budget (b : TokenBudget) : json :=
  JObj [("pool", JStr (bud_pool b)); ("reserved_tokens", JInt (bud_reserved_tokens b))].

Definition d_pool (j : json) : option string :=
  s ← d_str j; if String.eqb s "sync" || String.eqb s "async" then Some s else None.

Definition validate_budget : json → option TokenBudget :=
  d_obj ["pool"; "reserved_tokens"] (fun kvs =>
    p ← required "pool" d_pool kvs; r ← required "reserved_tokens" (fun j => lax_int j ≫= ge0) kvs;
    Some (MkTokenBudget p r)).

Definition run_request_keys : list string :=
  ["run_id"; "trace_id"; "tenant_id"; "user_id"; "acl_group_ids"; "employee_id"; "permissions";
   "roles"; "scope_context"; "subject_token"; "agent_id"; "conversation_id"; "input"; "context";
   "options"; "execution_mode"; "budget"; "model_router_key_override"; "eval_mode_requested"].

Definition dump_run_request (r : AgentRunRequest) : json :=
  JObj [("run_id", JStr (run_run_id r)); ("trace_id", JStr (run_trace_id r));
        ("tenant_id", JStr (run_tenant_id r)); ("user_id", JStr (run_user_id r));
        ("acl_group_ids", j_strs (run_acl_group_ids r));
        ("employee_id", j_opt_str (run_employee_id r));
        ("permissions", j_strs (run_permissions r)); ("roles", j_strs (run_roles r));
        ("scope_context", JObj (run_scope_context r));
        ("subject_token", j_opt_str (run_subject_token r)); ("agent_id", JStr (run_agent_id r));
        ("conversation_id", j_opt_str (run_conversation_id r)); ("input", dump_input (run_input r));
        ("context", JObj (run_context r)); ("options", dump_options (run_options r));
        ("execution_mode", JStr (enum_value (run_execution_mode r)));
        ("budget", dump_budget (run_budget r));
        ("model_router_key_override", j_opt_str (run_model_router_key_override r));
        ("eval_mode_requested", JBool (run_eval_mode_requested r))].

Definition validate_run_request : json → option AgentRunRequest :=
  d_obj run_request_keys (fun kvs =>
    run_id ← required "run_id" d_str kvs; trace ← required "trace_id" d_str kvs;
    tenant ← required "tenant_id" d_str kvs; user ← required "user_id" d_str kvs;
    acl ← default "acl_group_ids" (d_list d_str) [] kvs;
    employee ← default "employee_id" (d_opt d_str) None kvs;
    perms ← default "permissions" (d_list d_str) [] kvs;
    roles ← default "roles" (d_list d_str) [] kvs;
    scope ← default "scope_context" d_dict [] kvs;
    token ← default "subject_token" (d_opt d_str) None kvs;
    agent ← required "agent_id" d_str kvs;
    conv ← default "conversation_id" (d_opt d_str) None kvs;
    input ← required "input" validate_input kvs;
    context ← default "context" d_dict [] kvs;
    options ← required "options" validate_options kvs;
    mode ← required "execution_mode" d_enum kvs;
    budget ← required "budget" validate_budget kvs;
    override ← default "model_router_key_override" (d_opt d_str) None kvs;
    eval ← default "eval_mode_requested" lax_bool false kvs;
    Some (MkAgentRunRequest run_id trace tenant user acl employee perms roles scope token agent conv
            input context options mode budget override eval)).

Definition dump_job_message (m : AsyncJobMessage) : json :=
  JObj [("job_id", JStr (job_job_id m)); ("tenant_id", JStr (job_tenant_id m));
        ("priority", JStr (enum_value (job_priority m)));
        ("run_request", dump_run_request (job_run_request m));
        ("callback_url", j_opt_str (job_callback_url m));
        ("callback_secret_ref", j_opt_str (job_callback_secret_ref m));
        ("attempts", JInt (job_attempts m));
        ("quota_reservation_key", j_opt_str (job_quota_reservation_key m))].

Definition validate_job_message : json → option AsyncJobMessage :=
  d_obj ["job_id"; "tenant_id"; "priority"; "run_request"; "callback_url"; "callback_secret_ref";
         "attempts"; "quota_reservation_key"] (fun kvs =>
    job ← required "job_id" d_str kvs; tenant ← required "tenant_id" d_str kvs;
    priority ← required "priority" d_enum kvs;
    request ← required "run_request" validate_run_request kvs;
    url ← default "callback_url" (d_opt d_str) None kvs;
    ref ← default "callback_secret_ref" (d_opt d_str) None kvs;
    attempts ← default "attempts" (fun j => lax_int j ≫= ge0) 0%Z kvs;
    key ← default "quota_reservation_key" (d_opt d_str) None kvs;
    Some (MkAsyncJobMessage job tenant priority request url ref attempts key)).

Definition dump_webhook (p : WebhookPayload) : json :=
  JObj [("job_id", JStr (whk_job_id p)); ("trace_id", JStr (whk_trace_id p));
        ("status", JStr (whk_status p));
        ("result", match whk_result p with Some r => dump_response r | None => JNull end);
        ("error", match whk_error p with Some e => dump_job_error e | None => JNull end);
        ("completed_at", JStr (whk_completed_at p))].

(** [Model.model_validate(v)]: the model or a [ValidationError]. *)
Definition model_validate {A S} (name : string) (dec : json → option A) (j : json) : py S A :=
  match dec j with
  | Some a => ret a
  | None => raise (ValidationError (validation_text name j))
  end.
End Wire.

(** ** Round trips *)

Lemma mapM_dump {A B} (dec : B → option A) (enc : A → B) (l : list A) :
  (∀ x, dec (enc x) = Some x) → mapM dec (enc <$> l) = Some l.
Proof.
  intros H. apply mapM_Some. induction l as [|x l IH]; cbn; constructor; [apply H|done].
Qed.

Lemma mapM_str_dump (l : list string) : mapM d_str (JStr <$> l) = Some l.
Proof. by apply mapM_dump. Qed.

Lemma mapM_pair_dump (l : list (string * string)) :
  mapM (fun kv : string * json => pair kv.1 <$> d_str kv.2) ((fun kv => (kv.1, JStr kv.2)) <$> l)
  = Some l.
Proof. apply mapM_dump. by intros []. Qed.

Lemma d_opt_str_dump (o : option string) : d_opt d_str (j_opt_str o) = Some o.
Proof. by destruct o. Qed.

Section RoundTrip.
  Context `{PydanticLaws}.

(** What pydantic's own field constraints guarantee of a constructed model. *)
Definition wf_usage (u : Usage) : Prop :=
  (0 ≤ usg_input_tokens u)%Z ∧ (0 ≤ usg_output_tokens u)%Z ∧ f64_leb f64_zero (usg_cost_usd u) = true.

Definition wf_response (r : AgentInvokeResponse) : Prop :=
  wf_usage (res_usage r) ∧ from_option (fun b => 0 ≤ evb_iterations b)%Z True (res_eval r).

Lemma ge0_id z : (0 ≤ z)%Z → ge0 z = Some z.
Proof. intros Hz. unfold ge0. by rewrite (proj2 (Z.leb_le 0 z) Hz). Qed.

Lemma citation_round c : validate_citation (dump_citation c) = Some c.
Proof. destruct c. cbn. by rewrite lax_float_float. Qed.

Lemma output_round o : validate_output (dump_output o) = Some o.
Proof. destruct o as [c l]. cbn. by rewrite (mapM_dump _ _ l citation_round). Qed.

Lemma usage_round u : wf_usage u → validate_usage (dump_usage u) = Some u.
Proof.
  intros (Hi & Ho & Hc). destruct u as [i o c]; cbn in *.
  rewrite !lax_int_int, lax_float_float; cbn.
  rewrite (ge0_id i), (ge0_id o) by done; cbn. unfold f_ge0. by rewrite Hc.
Qed.

Lemma approval_round p : validate_approval (dump_approval p) = Some p.
Proof. by destruct p. Qed.

Lemma tool_call_round t : validate_tool_call (dump_tool_call t) = Some t.
Proof. by destruct t as [n h []]. Qed.

Lemma event_record_round e : validate_event_record (dump_event_record e) = Some e.
Proof. by destruct e as [[] r []]. Qed.

Lemma bundle_round b : (0 ≤ evb_iterations b)%Z → validate_bundle (dump_bundle b) = Some b.
Proof.
  intros Hit. destruct b as [offered called ex pv ids pr contents rf rs evs ver al it]; cbn in *.
  rewrite (mapM_str_dump offered); cbn. rewrite (mapM_dump _ _ called tool_call_round); cbn.
  rewrite (mapM_str_dump ex); cbn. rewrite (mapM_str_dump pv); cbn.
  rewrite (mapM_str_dump ids); cbn. rewrite (mapM_str_dump pr); cbn.
  rewrite (mapM_pair_dump contents); cbn. rewrite lax_bool_bool; cbn.
  rewrite d_opt_str_dump; cbn. rewrite (mapM_dump _ _ evs event_record_round); cbn.
  rewrite lax_int_int; cbn. by rewrite ge0_id.
Qed.

Lemma response_round r : wf_response r → validate_response (dump_response r) = Some r.
Proof.
  intros [Hu He]. destruct r as [rid conv trace o u deg aps hit ev]; cbn in *.
  rewrite (mapM_dump _ _ (out_citations o) citation_round); cbn.
  destruct Hu as (Hi & Ho & Hc).
  rewrite !lax_int_int, lax_float_float; cbn. rewrite (ge0_id _ Hi); cbn. rewrite (ge0_id _ Ho); cbn.
  unfold f_ge0. rewrite Hc; cbn. rewrite (mapM_str_dump deg); cbn.
  rewrite (mapM_dump _ _ aps approval_round); cbn. rewrite lax_bool_bool; cbn.
  destruct o, u. destruct ev as [b|]; [|done].
  transitivity (opt ← Some <$> validate_bundle (dump_bundle b);
                Some (MkAgentInvokeResponse rid conv trace (MkAgentOutput out_content out_citations)
                        (MkUsage usg_input_tokens usg_output_tokens usg_cost_usd) deg aps hit opt));
    [done|]. by rewrite bundle_round.
Qed.

Lemma accepted_round a : validate_accepted (dump_accepted a) = Some a.
Proof. by destruct a. Qed.
Lemma job_error_round e : validate_job_error (dump_job_error e) = Some e.
Proof. destruct e. cbn. by rewrite lax_bool_bool. Qed.

(** The constraints of [TokenBudget] and of [AsyncJobMessage.attempts]. *)
Definition wf_budget (b : TokenBudget) : Prop :=
  (bud_pool b = "sync" ∨ bud_pool b = "async") ∧ (0 ≤ bud_reserved_tokens b)%Z.

Definition wf_job_message (m : AsyncJobMessage) : Prop :=
  wf_budget (run_budget (job_run_request m)) ∧ (0 ≤ job_attempts m)%Z.

Lemma options_round o : validate_options (dump_options o) = Some o.
Proof. destruct o. cbn. by rewrite !lax_bool_bool, lax_int_int. Qed.

Lemma budget_round b : wf_budget b → validate_budget (dump_budget b) = Some b.
Proof.
  intros [Hp Hr]. destruct b as [p r]; cbn in *. unfold d_pool; cbn.
  assert (String.eqb p "sync" || String.eqb p "async" = true) as -> by (by destruct Hp as [->| ->]).
  cbn. rewrite lax_int_int; cbn. by rewrite ge0_id.
Qed.

Lemma input_round i : validate_input (dump_input i) = Some i.
Proof. by destruct i. Qed.

#[local] Arguments validate_budget : simpl never.
#[local] Arguments dump_budget : simpl never.
#[local] Arguments validate_options : simpl never.
#[local] Arguments dump_options : simpl never.
#[local] Arguments validate_input : simpl never.
#[local] Arguments dump_input : simpl never.
#[local] Arguments d_opt : simpl never.
#[local] Arguments j_opt_str : simpl never.
#[local] Arguments d_enum : simpl never.

Lemma d_enum_value {A} `{StrEnumLaws A} (a : A) : d_enum (JStr (enum_value a)) = Some a.
Proof. apply enum_round. Qed.

Lemma run_request_round r :
  wf_budget (run_budget r) → validate_run_request (dump_run_request r) = Some r.
Proof.
  intros Hb. destruct r as [? ? ? ? acl emp perms roles scope tok ag conv inp ctx opts mode b ov ev].
  cbn -[enum_value] in Hb |- *.
  rewrite (mapM_str_dump acl); cbn -[enum_value]. rewrite d_opt_str_dump; cbn -[enum_value].
  rewrite (mapM_str_dump perms); cbn -[enum_value]. rewrite (mapM_str_dump roles); cbn -[enum_value].
  rewrite !d_opt_str_dump; cbn -[enum_value]. rewrite input_round; cbn -[enum_value].
  rewrite options_round; cbn -[enum_value]. rewrite d_enum_value; cbn -[enum_value].
  rewrite (budget_round b Hb); cbn -[enum_value].
  by rewrite lax_bool_bool.
Qed.

#[local] Arguments validate_run_request : simpl never.
#[local] Arguments dump_run_request : simpl never.

(** What a publisher dumps is what the consumer validates. *)
Lemma job_message_round m :
  wf_job_message m → validate_job_message (dump_job_message m) = Some m.
Proof.
  intros [Hb Ha]. destruct m as [? ? p req url ref att key]. cbn -[enum_value] in Hb, Ha |- *.
  rewrite d_enum_value; cbn -[enum_value]. rewrite (run_request_round req Hb); cbn -[enum_value].
  rewrite !d_opt_str_dump; cbn -[enum_value]. rewrite lax_int_int; cbn -[enum_value].
  by rewrite ge0_id.
Qed.
End RoundTrip.

(** ** What a decoded model satisfies *)

Lemma ge0_Some z n : ge0 z = Some n → n = z ∧ (0 ≤ n)%Z.
Proof. unfold ge0. destruct (Z.leb_spec 0 z); [|done]. by intros [= <-]. Qed.

Section Decoded.
  Context `{Pydantic}.

Lemma d_obj_Some {A} names (dec : pydict → option A) j a :
  d_obj names dec j = Some a → ∃ kvs, j = JObj kvs ∧ dec kvs = Some a.
Proof. destruct j; cbn; try done. destruct (only_keys _ _); [|done]. by eexists. Qed.

Lemma required_Some {A} k (dec : json → option A) kvs a :
  required k dec kvs = Some a → ∃ v, dec v = Some a.
Proof. unfold required. intros Hk. apply bind_Some in Hk as (v & _ & Hv). by exists v. Qed.

Lemma lax_ge0_Some j z : lax_int j ≫= ge0 = Some z → (0 ≤ z)%Z.
Proof. intros Hz. apply bind_Some in Hz as (n & _ & Hn). by apply ge0_Some in Hn as []. Qed.

Lemma validate_usage_wf j u : validate_usage j = Some u → wf_usage u.
Proof.
  intros Hj. apply d_obj_Some in Hj as (kvs & -> & Hj). option_steps Hj. simplify_eq.
  repeat match goal with Hk : required _ _ _ = Some _ |- _ => apply required_Some in Hk as [? Hk] end.
  split; [by eapply lax_ge0_Some|]. split; [by eapply lax_ge0_Some|]. cbn.
  match goal with Hk : lax_float _ ≫= f_ge0 = Some _ |- _ => apply bind_Some in Hk as (f & _ & Hk) end.
  unfold f_ge0 in *. destruct (f64_leb f64_zero f) eqn:Hf; by simplify_eq.
Qed.

Lemma validate_bundle_wf j b : validate_bundle j = Some b → (0 ≤ evb_iterations b)%Z.
Proof.
  intros Hj. apply d_obj_Some in Hj as (kvs & -> & Hj). option_steps Hj. simplify_eq. cbn.
  match goal with Hk : required "iterations" _ _ = Some _ |- _ => apply required_Some in Hk as [? Hk] end.
  by eapply lax_ge0_Some.
Qed.

Lemma eval_field_wf kvs o : eval_field kvs = Some o → from_option (fun b => 0 ≤ evb_iterations b)%Z True o.
Proof.
  assert (Hopt : ∀ j, d_opt validate_bundle j = Some o →
                      from_option (fun b => 0 ≤ evb_iterations b)%Z True o).
  { intros j Hj. unfold d_opt in Hj.
    destruct j; simplify_eq; try done; apply fmap_Some in Hj as (b & Hb & ->); by eapply validate_bundle_wf. }
  unfold eval_field, default. destruct (dict_get "_eval" kvs); [apply Hopt|].
  destruct (dict_get "eval" kvs); [apply Hopt|]. by intros [= <-].
Qed.

Lemma validate_response_wf j r : validate_response j = Some r → wf_response r.
Proof.
  intros Hj. apply d_obj_Some in Hj as (kvs & -> & Hj). option_steps Hj. simplify_eq.
  match goal with Hk : required "usage" _ _ = Some _ |- _ => apply required_Some in Hk as [? Hk] end.
  split; cbn; [by eapply validate_usage_wf|by eapply eval_field_wf].
Qed.

Lemma validate_job_message_wf j m : validate_job_message j = Some m → wf_job_message m.
Proof.
  intros Hj. apply d_obj_Some in Hj as (kvs & -> & Hj). option_steps Hj. simplify_eq.
  match goal with Hk : required "run_request" _ _ = Some _ |- _ =>
    apply required_Some in Hk as [v Hk]; apply d_obj_Some in Hk as (rkvs & -> & Hk) end.
  match goal with Hk : _ ≫= _ = Some ?r |- context [?r] => option_steps Hk end. simplify_eq.
  match goal with Hk : required "budget" _ _ = Some _ |- _ =>
    apply required_Some in Hk as [v Hk]; apply d_obj_Some in Hk as (bkvs & -> & Hk) end.
  match goal with Hk : _ ≫= _ = Some ?b |- context [?b] => option_steps Hk end. simplify_eq.
  repeat match goal with Hk : required _ _ bkvs = Some _ |- _ => apply required_Some in Hk as [? Hk] end.
  split; cbn; [split; cbn; [|by eapply lax_ge0_Some]|].
  - match goal with Hk : d_pool _ = Some _ |- _ => unfold d_pool in Hk; apply bind_Some in Hk as (s & _ & Hk) end.
    destruct (str_eqb_spec s "sync"), (str_eqb_spec s "async"); naive_solver.
  - match goal with Hk : default "attempts" _ _ _ = Some _ |- _ => unfold default in Hk end.
    destruct (dict_get "attempts" kvs); [by eapply lax_ge0_Some|]. by simplify_eq.
Qed.
End Decoded.
