(* ===== verification/Redis.v ===== *)
(** The Redis server, as the interface the services rely on.

    Redis is not part of the program: its commands are the operations of the
    class [Redis], what the services rely on are the laws of [RedisLaws]
    (documented behaviour of GET, INCRBY, TTL, EXPIRE, SET EX, DEL), and
    [Store] is a reference implementation that satisfies them. A stored string
    is represented by what its readers decode it to. *)
From S2P Require Import Prelude PyStr Json.

Inductive rvalue :=
  | VInt (n : Z)        (* a decimal integer: what INCRBY maintains *)
  | VStr (s : string)   (* other text *)
  | VJson (j : json).   (* a document written by json.dumps *)

Class Redis (R : Type) := {
  GET : string → R → option rvalue;
  TTL : string → R → Z;
  INCRBY : string → Z → R → R;
  EXPIRE : string → Z → R → R;
  SET : string → rvalue → R → R;
  SETEX : string → rvalue → Z → R → R;
  DEL : string → R → Z * R;
  SCAN : Z → string → R → Z * list string;
  ELAPSE : Z → R → R
}.

(** What a key holds as a counter: an absent key counts as 0. *)
Definition counter {R} `{Redis R} (k : string) (r : R) : option Z :=
  match GET k r with
  | None => Some 0%Z
  | Some (VInt n) => Some n
  | Some _ => None
  end.

Class RedisLaws (R : Type) `{Redis R} : Prop := {
  ttl_absent k (r : R) : TTL k r = (-2)%Z ↔ GET k r = None;
  incrby_get k d n (r : R) : counter k r = Some n → GET k (INCRBY k d r) = Some (VInt (n + d));
  incrby_get_ne k j d (r : R) : k ≠ j → GET j (INCRBY k d r) = GET j r;
  incrby_ttl k d (r : R) : GET k r ≠ None → TTL k (INCRBY k d r) = TTL k r;
  incrby_ttl_new k d (r : R) : GET k r = None → TTL k (INCRBY k d r) = (-1)%Z;
  incrby_ttl_ne k j d (r : R) : k ≠ j → TTL j (INCRBY k d r) = TTL j r;
  expire_get k j t (r : R) : (0 < t)%Z → GET j (EXPIRE k t r) = GET j r;
  expire_ttl k t (r : R) : (0 < t)%Z → GET k r ≠ None → TTL k (EXPIRE k t r) = t;
  expire_ttl_ne k j t (r : R) : k ≠ j → TTL j (EXPIRE k t r) = TTL j r;
  set_get k v (r : R) : GET k (SET k v r) = Some v;
  set_get_ne k j v (r : R) : k ≠ j → GET j (SET k v r) = GET j r;
  setex_get k v t (r : R) : (0 < t)%Z → GET k (SETEX k v t r) = Some v;
  setex_get_ne k j v t (r : R) : k ≠ j → GET j (SETEX k v t r) = GET j r;
  setex_ttl_ne k j v t (r : R) : k ≠ j → TTL j (SETEX k v t r) = TTL j r;
  del_get k (r : R) : GET k (DEL k r).2 = None;
  del_get_ne k j (r : R) : k ≠ j → GET j (DEL k r).2 = GET j r;
  del_ttl_ne k j (r : R) : k ≠ j → TTL j (DEL k r).2 = TTL j r;
  del_count k (r : R) : (DEL k r).1 = match GET k r with Some _ => 1%Z | None => 0%Z end;
  elapse_get k d (r : R) : (0 ≤ d)%Z →
    GET k (ELAPSE d r) = if bool_decide (0 ≤ TTL k r ≤ d)%Z then None else GET k r
}.

(** ** The reference store: every key with its value and remaining seconds *)
Module Store.

Abbreviation store := (gmap string (rvalue * option Z)).

Definition get (k : string) (r : store) : option rvalue := fst <$> r !! k.

Definition ttl (k : string) (r : store) : Z :=
  match r !! k with
  | None => (-2)%Z
  | Some (_, None) => (-1)%Z
  | Some (_, Some t) => Z.max 0 t
  end.

Definition incrby (k : string) (d : Z) (r : store) : store :=
  match r !! k with
  | Some (VInt n, t) => <[k := (VInt (n + d), t)]> r
  | Some _ => r
  | None => <[k := (VInt d, None)]> r
  end.

Definition expire (k : string) (t : Z) (r : store) : store :=
  if (0 <? t)%Z then alter (fun v => (v.1, Some t)) k r else delete k r.

Definition setex (k : string) (v : rvalue) (t : Z) (r : store) : store :=
  if (0 <? t)%Z then <[k := (v, Some t)]> r else r.

Definition del (k : string) (r : store) : Z * store :=
  (match r !! k with Some _ => 1%Z | None => 0%Z end, delete k r).

Definition scan (_ : Z) (prefix : string) (r : store) : Z * list string :=
  (0%Z, filter (fun k => str_startswith k prefix = true) (fst <$> map_to_list r)).

Definition elapse (d : Z) (r : store) : store :=
  omap (fun v => match v.2 with
                 | None => Some v
                 | Some t => if (t <=? d)%Z then None else Some (v.1, Some (t - d))%Z
                 end) r.

#[global] Instance store_redis : Redis store := {|
  GET := get; TTL := ttl; INCRBY := incrby; EXPIRE := expire;
  SET k v r := <[k := (v, None)]> r; SETEX := setex; DEL := del; SCAN := scan;
  ELAPSE := elapse |}.

#[global] Instance store_laws : RedisLaws store.
Proof.
  split; unfold counter; cbn; unfold get, ttl, incrby, expire, setex, del, elapse; intros.
  - destruct (r !! k) as [[v [t|]]|]; cbn; split; try done; lia.
  - destruct (r !! k) as [[[m|s|j] t]|]; cbn in *; by simplify_map_eq.
  - destruct (r !! k) as [[[m|s|j'] t]|]; by simplify_map_eq.
  - destruct (r !! k) as [[[m|s|j] [t|]]|] eqn:E; cbn in *; simplify_map_eq; congruence.
  - destruct (r !! k) as [[[m|s|j] [t|]]|] eqn:E; cbn in *; simplify_map_eq; congruence.
  - destruct (r !! k) as [[[m|s|j'] t]|]; by simplify_map_eq.
  - rewrite (proj2 (Z.ltb_lt 0 t)) by done. rewrite lookup_alter. case_decide; [subst|done].
    by destruct (r !! j) as [[]|].
  - rewrite (proj2 (Z.ltb_lt 0 t)) by done. rewrite lookup_alter, decide_True by done.
    destruct (r !! k) as [[]|]; cbn in *; [lia|done].
  - destruct (0 <? t)%Z; [by rewrite lookup_alter_ne|by rewrite lookup_delete_ne].
  - by simplify_map_eq.
  - by simplify_map_eq.
  - rewrite (proj2 (Z.ltb_lt 0 t)) by done. by simplify_map_eq.
  - destruct (0 <? t)%Z; by simplify_map_eq.
  - destruct (0 <? t)%Z; by simplify_map_eq.
  - by simplify_map_eq.
  - by simplify_map_eq.
  - by simplify_map_eq.
  - by destruct (r !! k) as [[]|].
  - rewrite lookup_omap. destruct (r !! k) as [[v [t|]]|]; cbn.
    + destruct (Z.leb_spec t d).
      * rewrite bool_decide_eq_true_2 by lia. done.
      * rewrite bool_decide_eq_false_2 by lia. done.
    + rewrite bool_decide_eq_false_2 by lia. done.
    + by case_bool_decide.
Qed.
End Store.
