(* ===== verification/Quota.v ===== *)
(** gateway/quota.py: the token bucket per tenant and pool, reserved before a
    run, reconciled after it, and swept when nobody reconciles. The three Lua
    scripts are the atomic steps; [QuotaManager] calls them. *)
From S2P Require Import Prelude PyStr Json Contracts Redis.
From Stdlib Require Import SpecFloat.

(* @ gateway/quota.py:34-34 WINDOW_SECONDS *)
Definition WINDOW_SECONDS (pool : string) : option Z :=
  if String.eqb pool "sync" then Some 3600%Z
  else if String.eqb pool "async" then Some 86400%Z else None.

(* @ gateway/quota.py:94-100 ReservationResult *)
Record ReservationResult := MkReservationResult {
  rr_accepted : bool;
  rr_reservation_key : option string;
  rr_tokens_after : Z;
  rr_limit : Z;
  rr_window_ttl_seconds : Z
}.

(* @ gateway/quota.py:102-104 ReservationResult.retry_after_seconds *)
Definition retry_after_seconds (r : ReservationResult) : Z := Z.max 1 (rr_window_ttl_seconds r).

(* @ gateway/quota.py:107-114 estimate_tokens *)
Definition estimate_tokens (input_text : string) (max_output_tokens : Z) : Z :=
  let estimated_input := Z.max 1 (slen input_text / 4) in
  (estimated_input + max_output_tokens)%Z.

(* @ gateway/quota.py:134-134 quota_key *)
Definition quota_key (tenant_id pool : string) : string := "quota:" +:+ tenant_id +:+ ":" +:+ pool.

(* @ gateway/quota.py:135-135 reservation_key *)
Definition reservation_key (tenant_id pool run_id : string) : string :=
  "quota:reservation:" +:+ tenant_id +:+ ":" +:+ pool +:+ ":" +:+ run_id.

(* @ gateway/quota.py:139-141 reservation_payload *)
Definition reservation_payload (estimated : Z) (deadline : float64) (qkey : string) : json :=
  JObj [("estimated", JInt estimated); ("deadline", JFloat deadline); ("quota_key", JStr qkey)].

(** [cjson.decode(raw)[k]] with Lua's [tonumber]: on a field of the payload. *)
Definition lua_field (k : string) (v : rvalue) : option json :=
  match v with VJson (JObj kvs) => dict_get k kvs | _ => None end.

Definition lua_int (k : string) (v : rvalue) : option Z :=
  match lua_field k v with Some (JInt z) => Some z | _ => None end.

Definition lua_float (k : string) (v : rvalue) : option float64 :=
  match lua_field k v with
  | Some (JFloat f) => Some f | Some (JInt z) => Some (f64_of_Z z) | _ => None end.

Definition lua_str (k : string) (v : rvalue) : option string :=
  match lua_field k v with Some (JStr s) => Some s | _ => None end.

(** A script error aborts with what it already wrote, as Redis does. *)
Definition script_error {S A} : py S A := raise (ResponseError "ERR user_script").

Definition need {S A} (o : option A) : py S A :=
  match o with Some a => ret a | None => script_error end.

Section Scripts.
  Context {R : Type} `{Redis R}.

(* @ gateway/quota.py:36-56 _RESERVE_SCRIPT *)
Definition reserve_script (k1 k2 : string) (estimated limit window_ttl reservation_ttl : Z)
    (payload : json) : py R (Z * Z * Z * Z) :=
  let! current := (let! c := gets (counter k1) in need c) in
  if (limit <? current + estimated)%Z then
    let! ttl := gets (TTL k1) in
    let ttl := if (ttl <? 0)%Z then window_ttl else ttl in
    ret (0%Z, current, limit, ttl)
  else
    modify (INCRBY k1 estimated) ;!
    let! ttl := gets (TTL k1) in
    let! ttl := (if (ttl <? 0)%Z
                 then modify (EXPIRE k1 window_ttl) ;! ret window_ttl
                 else ret ttl) in
    modify (SETEX k2 (VJson payload) reservation_ttl) ;!
    ret (1%Z, (current + estimated)%Z, limit, ttl).

(* @ gateway/quota.py:58-71 _RECONCILE_SCRIPT *)
Definition reconcile_script (k1 : string) (actual : Z) : py R Z :=
  let! raw := gets (GET k1) in
  match raw with
  | None => ret (-1)%Z
  | Some data =>
      let! estimated := need (lua_int "estimated" data) in
      let delta := (actual - estimated)%Z in
      let! qkey := need (lua_str "quota_key" data) in
      modify (INCRBY qkey delta) ;!
      modify (fun r => (DEL k1 r).2) ;!
      ret delta
  end.

(* @ gateway/quota.py:73-91 _SWEEP_ONE_SCRIPT *)
Definition sweep_one_script (k1 : string) (now : float64) : py R Z :=
  let! raw := gets (GET k1) in
  match raw with
  | None => ret 0%Z
  | Some data =>
      let! deadline := need (lua_float "deadline" data) in
      if f64_leb now deadline then ret 0%Z
      else
        let! removed := (fun r => let '(n, r') := DEL k1 r in (r', inr n)) in
        if (removed =? 1)%Z then
          let! qkey := need (lua_str "quota_key" data) in
          let! estimated := need (lua_int "estimated" data) in
          modify (INCRBY qkey (- estimated)) ;!
          ret 1%Z
        else ret 0%Z
  end.
End Scripts.

(** ** QuotaManager

    Its state: the Redis it holds, the wall clock ([time.time()]), and the
    increments of its Prometheus counters. *)
Record QuotaState (R : Type) := MkQuotaState {
  q_redis : R;
  q_now : float64;
  q_metrics : list (string * list string)
}.
Arguments MkQuotaState {R}. Arguments q_redis {R}. Arguments q_now {R}. Arguments q_metrics {R}.
#[export] Instance eta_QuotaState {R} : EtaRec (QuotaState R) := fun x =>
  MkQuotaState (q_redis x) (q_now x) (q_metrics x).

(* @ gateway/quota.py:117-123 QuotaManager.__init__ *)
Record QuotaManager := MkQuotaManager { qm_sync_limit : Z; qm_async_limit : Z }.

Definition qm_limits (m : QuotaManager) (pool : string) : option Z :=
  if String.eqb pool "sync" then Some (qm_sync_limit m)
  else if String.eqb pool "async" then Some (qm_async_limit m) else None.

Section Manager.
  Context {R : Type} `{Redis R}.

Definition on_redis {A} : py R A → py (QuotaState R) A :=
  zoom q_redis (fun r s => s <| q_redis := r |>).

Definition inc (name : string) (labels : list string) : py (QuotaState R) unit :=
  modify (fun s => s <| q_metrics ::= (fun l => l ++ [(name, labels)]) |>).

Definition key_of {S A} (o : option A) (k : string) : py S A :=
  match o with Some a => ret a | None => raise (KeyError k) end.

(* @ gateway/quota.py:125-162 QuotaManager.reserve *)
Definition reserve (m : QuotaManager) (tenant_id pool run_id : string) (estimated_tokens : Z)
    (deadline_seconds : float64) : py (QuotaState R) ReservationResult :=
  let qkey := quota_key tenant_id pool in
  let rkey := reservation_key tenant_id pool run_id in
  let! window_ttl := key_of (WINDOW_SECONDS pool) pool in
  let! whole := match f64_trunc deadline_seconds with
                | Some z => ret z
                | None => raise (ValueError "cannot convert float to integer")
                end in
  let reservation_ttl := (whole + 60)%Z in
  let! now := gets q_now in
  let deadline := f64_add now deadline_seconds in
  let payload := reservation_payload estimated_tokens deadline qkey in
  let! limit := key_of (qm_limits m pool) pool in
  let! '(accepted, tokens_after, limit, ttl) :=
    on_redis (reserve_script qkey rkey estimated_tokens limit window_ttl reservation_ttl payload) in
  (if (accepted =? 0)%Z then inc "quota_rejections_total" [tenant_id; pool] else ret tt) ;!
  ret {| rr_accepted := negb (accepted =? 0)%Z;
         rr_reservation_key := if (accepted =? 0)%Z then None else Some rkey;
         rr_tokens_after := tokens_after;
         rr_limit := limit;
         rr_window_ttl_seconds := ttl |}.

(* @ gateway/quota.py:164-168 QuotaManager.reconcile *)
Definition reconcile (rkey : string) (actual_tokens : Z) : py (QuotaState R) unit :=
  on_redis (reconcile_script rkey actual_tokens) ;! ret tt.

Definition sweep_key (now : float64) (swept : Z) (key : string) : py (QuotaState R) Z :=
  let! result := on_redis (sweep_one_script key now) in
  if (result =? 0)%Z then ret swept
  else
    let! pool := match str_split_on ":" key !! 3 with
                 | Some p => ret p
                 | None => raise (OtherException "IndexError" "list index out of range")
                 end in
    inc "quota_reservations_expired_total" [pool] ;!
    ret (swept + 1)%Z.

(** The [while True] over SCAN batches; [fuel] bounds the number of batches. *)
Fixpoint sweep_batches (fuel : nat) (now : float64) (cursor swept : Z) : py (QuotaState R) Z :=
  match fuel with
  | O => raise (OtherException "Timeout" "SCAN did not terminate")
  | S fuel' =>
      let! '(cursor, keys) := gets (fun s => SCAN cursor "quota:reservation:" (q_redis s)) in
      let! swept := foldM (sweep_key now) swept keys in
      if (cursor =? 0)%Z then ret swept else sweep_batches fuel' now cursor swept
  end.

(* @ gateway/quota.py:170-188 QuotaManager.sweep_once *)
Definition sweep_once (fuel : nat) : py (QuotaState R) Z :=
  let! now := gets q_now in
  sweep_batches fuel now 0 0.
End Manager.
