(* ===== verification/QuotaLedger.v ===== *)
(** What gateway/quota.py promises: a ledger per tenant and pool. The bucket is
    the tokens already spent plus the estimates still outstanding; a reservation
    is taken only within the limit, and settled at most once. The refinement
    holds for any interleaving of the atomic scripts within one window; the last
    section shows what happens when a reservation outlives its window. *)
From S2P Require Import Prelude PyStr Json Contracts Redis Quota.
From Stdlib Require Import SpecFloat.

(** ** The abstract ledger *)

Record ledger := MkLedger { lg_spent : Z; lg_open : gmap string (Z * float64) }.

Definition open_total (m : gmap string (Z * float64)) : Z :=
  sumZ ((fun p => p.2.1) <$> map_to_list m).

Definition bucket (l : ledger) : Z := (lg_spent l + open_total (lg_open l))%Z.

(** One atomic script against one tenant's pool. *)
Inductive quota_op :=
  | OpReserve (run_id : string) (estimated : Z) (deadline : float64)
  | OpReconcile (run_id : string) (actual : Z)
  | OpSweep (run_id : string) (now : float64).

Definition ledger_step (limit : Z) (op : quota_op) (l : ledger) : ledger :=
  match op with
  | OpReserve run est dl =>
      if (bucket l + est <=? limit)%Z
      then MkLedger (lg_spent l) (<[run := (est, dl)]> (lg_open l)) else l
  | OpReconcile run actual =>
      match lg_open l !! run with
      | Some _ => MkLedger (lg_spent l + actual) (delete run (lg_open l))
      | None => l
      end
  | OpSweep run now =>
      match lg_open l !! run with
      | Some (_, dl) => if f64_leb now dl then l
                        else MkLedger (lg_spent l) (delete run (lg_open l))
      | None => l
      end
  end.

(** Run ids are fresh ([uuid4]): a trace never reserves one twice. *)
Fixpoint fresh_ops (used : gset string) (ops : list quota_op) : Prop :=
  match ops with
  | [] => True
  | OpReserve run _ _ :: ops' => run ∉ used ∧ fresh_ops (used ∪ {[run]}) ops'
  | _ :: ops' => fresh_ops used ops'
  end.

(** ** The implementation: the scripts over Redis *)

Section Implementation.
  Context {R : Type} `{RedisLaws R}.
  Variables (tenant pool : string) (limit window reservation_ttl : Z).

Definition op_script (op : quota_op) (r : R) : R :=
  match op with
  | OpReserve run est dl =>
      (reserve_script (quota_key tenant pool) (reservation_key tenant pool run) est limit window
         reservation_ttl (reservation_payload est dl (quota_key tenant pool)) r).1
  | OpReconcile run actual => (reconcile_script (reservation_key tenant pool run) actual r).1
  | OpSweep run now => (sweep_one_script (reservation_key tenant pool run) now r).1
  end.

(** The refinement relation. *)
Definition represents (r : R) (l : ledger) : Prop :=
  counter (quota_key tenant pool) r = Some (bucket l) ∧
  ∀ run, GET (reservation_key tenant pool run) r =
         (fun p => VJson (reservation_payload p.1 p.2 (quota_key tenant pool))) <$> lg_open l !! run.
End Implementation.

(** ** Keys *)

Lemma reservation_key_inj t p : Inj (=) (=) (reservation_key t p).
Proof.
  intros a b Hab. unfold reservation_key in Hab.
  by repeat (apply str_app_inj_l in Hab).
Qed.

Lemma quota_key_not_reservation t p run : quota_key t p ≠ reservation_key t p run.
Proof.
  unfold quota_key, reservation_key. intros Heq.
  apply (f_equal String.length) in Heq. rewrite !str_length_app in Heq. cbn in Heq. lia.
Qed.

(** ** Arithmetic of the open reservations *)

Lemma open_total_insert m run est dl :
  m !! run = None → open_total (<[run := (est, dl)]> m) = (est + open_total m)%Z.
Proof.
  intros Hm. unfold open_total.
  assert (Hp : ∀ l k : list Z, l ≡ₚ k → sumZ l = sumZ k).
  { induction 1; cbn in *; unfold sumZ in *; cbn; lia. }
  rewrite (Hp _ ((λ p : string * (Z * float64), p.2.1) <$> (run, (est, dl)) :: map_to_list m)).
  - done.
  - by rewrite map_to_list_insert.
Qed.

Lemma open_total_delete m run est dl :
  m !! run = Some (est, dl) → open_total (delete run m) = (open_total m - est)%Z.
Proof.
  intros Hm. rewrite <- (insert_delete_id m run (est, dl) Hm) at 2.
  rewrite (open_total_insert (delete run m)) by (by rewrite lookup_delete_eq). lia.
Qed.

(** ** The scripts, branch by branch *)

Section Scripts.
  Context {R : Type} `{RedisLaws R}.

Lemma reserve_script_reject k1 k2 est limit window rttl payload (r : R) c :
  counter k1 r = Some c → (limit < c + est)%Z →
  reserve_script k1 k2 est limit window rttl payload r =
    (r, inr (0, c, limit, if (TTL k1 r <? 0)%Z then window else TTL k1 r)%Z).
Proof.
  intros Hc Hlt. unfold reserve_script, bind, gets, need. rewrite Hc. cbn.
  by rewrite (proj2 (Z.ltb_lt _ _) Hlt).
Qed.

Lemma reserve_script_accept k1 k2 est limit window rttl payload (r : R) c :
  k1 ≠ k2 → (0 < window)%Z → (0 < rttl)%Z →
  counter k1 r = Some c → (c + est ≤ limit)%Z →
  ∃ r' ttl, reserve_script k1 k2 est limit window rttl payload r
              = (r', inr (1, c + est, limit, ttl)%Z) ∧
    GET k1 r' = Some (VInt (c + est)) ∧ GET k2 r' = Some (VJson payload) ∧
    TTL k1 r' = ttl ∧ (0 ≤ ttl)%Z ∧
    (∀ j, j ≠ k1 → j ≠ k2 → GET j r' = GET j r).
Proof.
  intros Hne Hw Hr Hc Hle. unfold reserve_script, bind, gets, modify, need. rewrite Hc. cbn.
  rewrite (proj2 (Z.ltb_ge _ _) Hle).
  assert (Hlive : GET k1 (INCRBY k1 est r) ≠ None) by (by rewrite (incrby_get _ _ _ _ Hc)).
  destruct (Z.ltb_spec (TTL k1 (INCRBY k1 est r)) 0) as [Hneg|Hpos];
    cbn; unfold modify, ret; eexists _, _; (split; [reflexivity|]).
  - split; [by rewrite setex_get_ne, expire_get, (incrby_get _ _ _ _ Hc)|].
    split; [by apply setex_get|].
    split; [by rewrite setex_ttl_ne, expire_ttl|]. split; [lia|].
    intros j Hj1 Hj2. by rewrite setex_get_ne, expire_get, incrby_get_ne.
  - split; [by rewrite setex_get_ne, (incrby_get _ _ _ _ Hc)|].
    split; [by apply setex_get|].
    split; [by rewrite setex_ttl_ne|]. split; [lia|].
    intros j Hj1 Hj2. by rewrite setex_get_ne, incrby_get_ne.
Qed.

Lemma reconcile_script_absent k actual (r : R) :
  GET k r = None → reconcile_script k actual r = (r, inr (-1)%Z).
Proof. intros Hk. unfold reconcile_script, bind, gets. by rewrite Hk. Qed.

Lemma reconcile_script_present k actual (r : R) est dl qk c :
  k ≠ qk → GET k r = Some (VJson (reservation_payload est dl qk)) → counter qk r = Some c →
  ∃ r', reconcile_script k actual r = (r', inr (actual - est)%Z) ∧
    GET qk r' = Some (VInt (c + (actual - est))) ∧ GET k r' = None ∧
    (∀ j, j ≠ k → j ≠ qk → GET j r' = GET j r).
Proof.
  intros Hne Hk Hc. unfold reconcile_script, bind, gets, modify. rewrite Hk. cbn.
  unfold ret. eexists. split; [reflexivity|].
  split; [by rewrite del_get_ne, (incrby_get _ _ _ _ Hc)|]. split; [apply del_get|].
  intros j Hj1 Hj2. by rewrite del_get_ne, incrby_get_ne.
Qed.

Lemma sweep_script_absent k now (r : R) :
  GET k r = None → sweep_one_script k now r = (r, inr 0%Z).
Proof. intros Hk. unfold sweep_one_script, bind, gets. by rewrite Hk. Qed.

Lemma sweep_script_live k now (r : R) est dl qk :
  GET k r = Some (VJson (reservation_payload est dl qk)) → f64_leb now dl = true →
  sweep_one_script k now r = (r, inr 0%Z).
Proof. intros Hk Hd. unfold sweep_one_script, bind, gets. rewrite Hk. cbn. by rewrite Hd. Qed.

Lemma sweep_script_expired k now (r : R) est dl qk c :
  k ≠ qk → GET k r = Some (VJson (reservation_payload est dl qk)) → f64_leb now dl = false →
  counter qk r = Some c →
  ∃ r', sweep_one_script k now r = (r', inr 1%Z) ∧
    GET qk r' = Some (VInt (c - est)) ∧ GET k r' = None ∧
    (∀ j, j ≠ k → j ≠ qk → GET j r' = GET j r).
Proof.
  intros Hne Hk Hd Hc. unfold sweep_one_script, bind, gets, modify. rewrite Hk. cbn. rewrite Hd.
  pose proof (del_count k r) as Hn. destruct (DEL k r) as [n r1] eqn:Hdel. rewrite Hk in Hn.
  cbn in Hn. subst n. cbn. unfold ret.
  assert (Hr1 : ∀ j, k ≠ j → GET j r1 = GET j r) by (intros j; pose proof (del_get_ne k j r); by rewrite Hdel in *).
  assert (Hk1 : GET k r1 = None) by (pose proof (del_get k r); by rewrite Hdel in *).
  assert (Hc1 : counter qk r1 = Some c) by (unfold counter in *; by rewrite Hr1).
  eexists. split; [reflexivity|].
  split; [by rewrite (incrby_get _ _ _ _ Hc1)|].
  split; [by rewrite incrby_get_ne|].
  intros j Hj1 Hj2. by rewrite incrby_get_ne, Hr1.
Qed.
End Scripts.

Lemma ledger_step_dom limit op l used :
  dom (lg_open l) ⊆ used →
  dom (lg_open (ledger_step limit op l)) ⊆
    match op with OpReserve run _ _ => used ∪ {[run]} | _ => used end.
Proof.
  intros Hd. destruct op as [run est dl|run actual|run now]; cbn.
  - destruct (_ <=? _)%Z; cbn; set_solver.
  - destruct (lg_open l !! run); cbn; set_solver.
  - destruct (lg_open l !! run) as [[]|]; [|done]. destruct (f64_leb _ _); cbn; set_solver.
Qed.

(** ** Refinement *)

Section Refinement.
  Context {R : Type} `{RedisLaws R}.
  Variables (tenant pool : string) (limit window reservation_ttl : Z).
  Hypotheses (Hwindow : (0 < window)%Z) (Hrttl : (0 < reservation_ttl)%Z).

#[local] Abbreviation qk := (quota_key tenant pool).
#[local] Abbreviation rk := (reservation_key tenant pool).
#[local] Abbreviation exec := (op_script tenant pool limit window reservation_ttl).
#[local] Abbreviation reps := (represents tenant pool).

Lemma rk_ne_qk run : rk run ≠ qk.
Proof. intros E. by apply (quota_key_not_reservation tenant pool run). Qed.

Lemma rk_ne run run' : run ≠ run' → rk run ≠ rk run'.
Proof. intros Hne E. by apply (reservation_key_inj tenant pool) in E. Qed.

Lemma counter_of_GET k (r : R) n : GET k r = Some (VInt n) → counter k r = Some n.
Proof. unfold counter. by intros ->. Qed.

(** Settling [run] (the new bucket is [n]) re-establishes the relation. *)
Lemma represents_settle (r r' : R) l run spent n :
  reps r l → GET qk r' = Some (VInt n) → GET (rk run) r' = None →
  (∀ j, j ≠ rk run → j ≠ qk → GET j r' = GET j r) →
  n = (spent + open_total (delete run (lg_open l)))%Z →
  reps r' (MkLedger spent (delete run (lg_open l))).
Proof.
  intros [_ Hopen] Hq Hrun Hframe ->. split; cbn.
  - by apply counter_of_GET.
  - intros run'. destruct (decide (run' = run)) as [->|Hne].
    + by rewrite lookup_delete_eq.
    + rewrite lookup_delete_ne by done.
      rewrite Hframe by (apply rk_ne_qk || by apply rk_ne). apply Hopen.
Qed.

Lemma op_refines op (r : R) l :
  reps r l →
  match op with OpReserve run _ _ => lg_open l !! run = None | _ => True end →
  reps (exec op r) (ledger_step limit op l).
Proof.
  intros Hrep Hfresh. pose proof Hrep as [Hcnt Hopen].
  destruct op as [run est dl|run actual|run now]; cbn [op_script ledger_step].
  - destruct (Z.leb_spec (bucket l + est) limit) as [Hle|Hgt].
    + destruct (reserve_script_accept qk (rk run) est limit window reservation_ttl
                  (reservation_payload est dl qk) r (bucket l)) as (r' & ttl & -> & Hq & Hr & _ & _ & Hf);
        [by apply not_eq_sym, rk_ne_qk|done..|]. cbn. split; cbn.
      * rewrite (counter_of_GET _ _ _ Hq). unfold bucket. cbn.
        rewrite open_total_insert by done. f_equal. lia.
      * intros run'. destruct (decide (run' = run)) as [->|Hne].
        -- by rewrite lookup_insert_eq.
        -- rewrite lookup_insert_ne by done.
           rewrite Hf by (apply rk_ne_qk || by apply rk_ne). apply Hopen.
    + by rewrite (reserve_script_reject _ _ _ _ _ _ _ _ (bucket l)).
  - pose proof (Hopen run) as Hrun. destruct (lg_open l !! run) as [[est dl]|] eqn:El; cbn in Hrun.
    + destruct (reconcile_script_present (rk run) actual r est dl qk (bucket l))
        as (r' & -> & Hq & Hn & Hf); [apply rk_ne_qk|done..|]. cbn.
      eapply represents_settle; eauto. unfold bucket.
      rewrite (open_total_delete _ _ _ _ El). lia.
    + by rewrite reconcile_script_absent.
  - pose proof (Hopen run) as Hrun. destruct (lg_open l !! run) as [[est dl]|] eqn:El; cbn in Hrun.
    + destruct (f64_leb now dl) eqn:Hd; [by rewrite (sweep_script_live _ _ _ est dl qk)|].
      destruct (sweep_script_expired (rk run) now r est dl qk (bucket l))
        as (r' & -> & Hq & Hn & Hf); [apply rk_ne_qk|done..|]. cbn.
      eapply represents_settle; eauto. unfold bucket.
      rewrite (open_total_delete _ _ _ _ El). lia.
    + by rewrite sweep_script_absent.
Qed.
End Refinement.

(** C1: the bucket of a tenant's pool refines the ledger, whatever the
    interleaving: for every sequence of atomic reserve / reconcile / sweep
    scripts with fresh run ids, Redis ends up representing the ledger the same
    operations produce — the counter is the tokens spent plus the estimates
    still outstanding, an estimate is taken only within the limit, and every
    reservation is settled exactly once. *)
Theorem quota_refines_ledger {R} `{RedisLaws R} (tenant pool : string)
    (limit window reservation_ttl : Z) (ops : list quota_op) (used : gset string) (r : R) (l : ledger) :
  (0 < window)%Z → (0 < reservation_ttl)%Z →
  represents tenant pool r l → dom (lg_open l) ⊆ used → fresh_ops used ops →
  represents tenant pool
    (fold_left (fun r op => op_script tenant pool limit window reservation_ttl op r) ops r)
    (fold_left (fun l op => ledger_step limit op l) ops l).
Proof.
  intros Hw Hr. revert used r l. induction ops as [|op ops IH]; intros used r l Hrep Hd Hf; [done|].
  cbn [fold_left].
  apply (IH match op with OpReserve run _ _ => used ∪ {[run]} | _ => used end).
  - apply (op_refines tenant pool limit window reservation_ttl Hw Hr _ _ _ Hrep).
    destruct op as [run est dl| |]; [|done..]. apply not_elem_of_dom. cbn in Hf. set_solver.
  - by apply ledger_step_dom.
  - destruct op; cbn in Hf; [by destruct Hf|done..].
Qed.

(** The empty store represents the empty ledger; a trace with an accepted and a
    rejected reservation, a reconcile, its replay, and a sweep. *)
Definition sample_ops : list quota_op :=
  [OpReserve "r1" 60 (f64_of_Z 100); OpReserve "r2" 30 (f64_of_Z 100);
   OpReserve "r3" 20 (f64_of_Z 100); OpReconcile "r1" 45; OpReconcile "r1" 45;
   OpSweep "r2" (f64_of_Z 99); OpSweep "r2" (f64_of_Z 101); OpReconcile "r2" 7]%Z.

Lemma quota_refines_ledger_witness :
  represents "tnt" "sync"
    (fold_left (fun r op => op_script "tnt" "sync" 100 3600 90 op r) sample_ops (∅ : Store.store))
    (fold_left (fun l op => ledger_step 100 op l) sample_ops (MkLedger 0 ∅)) ∧
  bucket (fold_left (fun l op => ledger_step 100 op l) sample_ops (MkLedger 0 ∅)) = 45%Z.
Proof.
  split; [|reflexivity].
  apply (quota_refines_ledger "tnt" "sync" 100 3600 90 sample_ops ∅ ∅ (MkLedger 0 ∅)).
  - lia.
  - lia.
  - split; [reflexivity|]. intros run. cbn. rewrite lookup_empty. unfold Store.get.
    by rewrite lookup_empty.
  - set_solver.
  - cbn. set_solver.
Defined.

(** A reservation that outlives its window is settled against the next
    window's bucket: when the counter has expired but the reservation has not,
    reconciling with fewer tokens than estimated leaves a negative counter
    without expiry, and the tenant can then reserve past the limit by the
    difference. *)
Theorem reconcile_after_window_rollover {R} `{RedisLaws R} (tenant pool run run' : string)
    (est actual extra limit window rttl : Z) (dl dl' : float64) (r : R) :
  GET (quota_key tenant pool) r = None →
  GET (reservation_key tenant pool run) r
    = Some (VJson (reservation_payload est dl (quota_key tenant pool))) →
  (actual < est)%Z → (extra ≤ limit + (est - actual))%Z → (0 < window)%Z → (0 < rttl)%Z →
  let r1 := (reconcile_script (reservation_key tenant pool run) actual r).1 in
  counter (quota_key tenant pool) r1 = Some (actual - est)%Z ∧
  ∃ r2 ttl,
    reserve_script (quota_key tenant pool) (reservation_key tenant pool run') extra limit window rttl
      (reservation_payload extra dl' (quota_key tenant pool)) r1
      = (r2, inr (1, actual - est + extra, limit, ttl)%Z).
Proof.
  intros Hq Hk Hlt Hex Hw Hr. cbn zeta.
  destruct (reconcile_script_present (reservation_key tenant pool run) actual r est dl
              (quota_key tenant pool) 0) as (r1 & -> & Hq1 & _ & _);
    [apply rk_ne_qk|done|unfold counter; by rewrite Hq|].
  apply counter_of_GET in Hq1. cbn [fst]. split; [by rewrite Hq1|].
  edestruct (reserve_script_accept (R := R)) as (r2 & ttl & E & _);
    [| | |exact Hq1| |exists r2, ttl; rewrite E; reflexivity];
    [by apply not_eq_sym, rk_ne_qk|done|done|lia].
Qed.

(** A run reserved 10 s before the hour ends, reconciled after it: the bucket
    starts the new hour at -900 and admits 1900 tokens under a limit of 1000. *)
Lemma reconcile_after_window_rollover_witness :
  let qk := quota_key "tnt" "sync" in
  let r0 : Store.store := (reserve_script qk (reservation_key "tnt" "sync" "r1") 1000 1000 3600 90
                             (reservation_payload 1000 (f64_of_Z 30) qk) ∅).1 in
  let r : Store.store := <[reservation_key "tnt" "sync" "r1" := (VJson (reservation_payload 1000 (f64_of_Z 30) qk), Some 80%Z)]>
             (ELAPSE 3600 r0) in
  counter qk (reconcile_script (reservation_key "tnt" "sync" "r1") 100 r).1 = Some (-900)%Z ∧
  ∃ r2 ttl, reserve_script qk (reservation_key "tnt" "sync" "r2") 1900 1000 3600 90
      (reservation_payload 1900 (f64_of_Z 30) qk)
      (reconcile_script (reservation_key "tnt" "sync" "r1") 100 r).1
      = (r2, inr (1, 1000, 1000, ttl)%Z).
Proof.
  cbn zeta.
  apply (reconcile_after_window_rollover "tnt" "sync" "r1" "r2" 1000 100 1900 1000 3600 90
           (f64_of_Z 30) (f64_of_Z 30)); try lia; vm_compute; reflexivity.
Defined.
