(* ===== verification/JobsDb.v ===== *)
(** The [jobs] schema shared by agent-gateway and async-worker (migration 0004):
    [jobs.idempotency_keys] and [jobs.async_jobs], the tenant-scoped session
    every statement runs in, and the gateway's statements on them. Each
    statement is what its SQL text does to the tables under the row-level
    security policy [tenant_id = current_setting('app.tenant_id')]. *)
From S2P Require Import Prelude PyStr Json Contracts.

(** ** Tables *)

(* @ gateway/persistence/idempotency.py:18-22 ExistingRecord *)
Record ExistingRecord := MkExistingRecord {
  idem_request_hash : string;
  idem_response_body : option json;
  idem_status_code : option Z
}.
#[export] Instance eta_ExistingRecord : EtaRec ExistingRecord := fun x =>
  MkExistingRecord (idem_request_hash x) (idem_response_body x) (idem_status_code x).

(* @ migrations/versions/0004_jobs.py:34-52 jobs.async_jobs *)
Record JobRow := MkJobRow {
  jrow_tenant_id : string;
  jrow_user_id : string;
  jrow_trace_id : string;
  jrow_priority : string;
  jrow_payload : json;
  jrow_status : string;
  jrow_attempts : Z;
  jrow_result : option json;
  jrow_error : option json;
  jrow_callback_url : option string;
  jrow_callback_status : option string;
  jrow_created_at : string;
  jrow_started_at : option string;
  jrow_completed_at : option string
}.
#[export] Instance eta_JobRow : EtaRec JobRow := fun x =>
  MkJobRow (jrow_tenant_id x) (jrow_user_id x) (jrow_trace_id x) (jrow_priority x)
    (jrow_payload x) (jrow_status x) (jrow_attempts x) (jrow_result x) (jrow_error x)
    (jrow_callback_url x) (jrow_callback_status x) (jrow_created_at x) (jrow_started_at x)
    (jrow_completed_at x).

(* @ migrations/versions/0004_jobs.py:56-67 jobs.idempotency_keys *)
Record JobsDb := MkJobsDb {
  jdb_idempotency_keys : gmap (string * string) ExistingRecord;
  jdb_async_jobs : gmap string JobRow;
  jdb_now : string
}.
#[export] Instance eta_JobsDb : EtaRec JobsDb := fun x =>
  MkJobsDb (jdb_idempotency_keys x) (jdb_async_jobs x) (jdb_now x).

(** A connection inside a transaction: the tables and [app.tenant_id]. *)
Record JobsConn := MkJobsConn {
  jc_tenant : string;
  jc_db : JobsDb
}.
#[export] Instance eta_JobsConn : EtaRec JobsConn := fun x =>
  MkJobsConn (jc_tenant x) (jc_db x).

(** [INSERT] under row-level security: a row of another tenant is refused. *)
Definition rls_check (tenant_id : string) : py JobsConn unit :=
  let! t := gets jc_tenant in
  if String.eqb t tenant_id then ret tt
  else raise (OtherException "InsufficientPrivilege" "new row violates row-level security policy").

(* @ gateway/persistence/db.py:13-22 tenant_session *)
Definition tenant_session {A} (tenant_id : string) (body : py JobsConn A) : py JobsDb A :=
  atomically (fun db =>
    let '(c, r) := body (MkJobsConn tenant_id db) in (jc_db c, r)).

(** ** idempotency.py *)

(* @ gateway/persistence/idempotency.py:25-39 try_begin *)
Definition try_begin (tenant_id idempotency_key request_hash : string) : py JobsConn bool :=
  rls_check tenant_id ;!
  let! existing := gets (fun c => jdb_idempotency_keys (jc_db c) !! (tenant_id, idempotency_key)) in
  match existing with
  | Some _ => ret false
  | None =>
      modify (fun c => c <| jc_db ::= (fun d => d <| jdb_idempotency_keys ::=
        <[(tenant_id, idempotency_key) := MkExistingRecord request_hash None None]> |>) |>) ;!
      ret true
  end.

(* @ gateway/persistence/idempotency.py:42-55 get_existing *)
Definition get_existing (tenant_id idempotency_key : string) : py JobsConn (option ExistingRecord) :=
  gets (fun c => if String.eqb (jc_tenant c) tenant_id
                 then jdb_idempotency_keys (jc_db c) !! (tenant_id, idempotency_key) else None).

(* @ gateway/persistence/idempotency.py:58-78 complete *)
Definition complete (tenant_id idempotency_key : string) (response_body : json) (status_code : Z)
    : py JobsConn unit :=
  jsonb_param response_body ;!
  modify (fun c =>
    if String.eqb (jc_tenant c) tenant_id
    then c <| jc_db ::= (fun d => d <| jdb_idempotency_keys ::=
           alter (fun row => row <| idem_response_body := Some response_body |>
                                 <| idem_status_code := Some status_code |>)
                 (tenant_id, idempotency_key) |>) |>
    else c).

(** ** jobs.py *)

(* @ gateway/persistence/jobs.py:16-43 insert_async_job *)
Definition insert_async_job (job_id tenant_id user_id trace_id priority : string) (payload : json)
    (callback_url : option string) : py JobsConn unit :=
  jsonb_param payload ;!
  rls_check tenant_id ;!
  let! existing := gets (fun c => jdb_async_jobs (jc_db c) !! job_id) in
  match existing with
  | Some _ => raise (IntegrityError "async_jobs_pkey")
  | None =>
      modify (fun c => c <| jc_db ::= (fun d => d <| jdb_async_jobs ::=
        <[job_id := MkJobRow tenant_id user_id trace_id priority payload "queued" 0 None None
                      callback_url None (jdb_now d) None None]> |>) |>)
  end.

(* @ gateway/persistence/jobs.py:46-57 get_async_job *)
Definition get_async_job (tenant_id job_id : string) : py JobsConn (option JobRow) :=
  gets (fun c => match jdb_async_jobs (jc_db c) !! job_id with
                 | Some row => if String.eqb (jrow_tenant_id row) tenant_id
                                  && String.eqb (jc_tenant c) tenant_id then Some row else None
                 | None => None
                 end).

(** ** Row-level isolation

    Two databases agree outside a tenant when they hold the same rows of every
    other tenant. *)
Definition agree_outside (t : string) (d d' : JobsDb) : Prop :=
  (∀ t' k, t' ≠ t → jdb_idempotency_keys d' !! (t', k) = jdb_idempotency_keys d !! (t', k)) ∧
  (∀ j row, jrow_tenant_id row ≠ t →
     jdb_async_jobs d !! j = Some row ↔ jdb_async_jobs d' !! j = Some row) ∧
  jdb_now d' = jdb_now d.

#[export] Instance agree_outside_preorder t : PreOrder (agree_outside t).
Proof.
  split.
  - intros d. unfold agree_outside. naive_solver.
  - intros a b c (H1 & H2 & H3) (K1 & K2 & K3). unfold agree_outside in *.
    split; [|split]; [|naive_solver|congruence]. intros t' k Ht. by rewrite K1, H1.
Qed.

(** A statement keeps the session's tenant and touches its rows only. *)
Definition conn_step (c c' : JobsConn) : Prop :=
  jc_tenant c' = jc_tenant c ∧ agree_outside (jc_tenant c) (jc_db c) (jc_db c').

#[export] Instance conn_step_preorder : PreOrder conn_step.
Proof.
  split.
  - by intros c.
  - intros a b c [E H] [E' H']. split; [congruence|]. rewrite E in H'. by etrans.
Qed.

Lemma rls_check_step t : frames conn_step (rls_check t).
Proof. intros c. unfold rls_check, bind, gets. by destruct (String.eqb _ _). Qed.

Lemma rls_check_ok t c : jc_tenant c = t → rls_check t c = (c, inr tt).
Proof. intros <-. unfold rls_check, bind, gets. by rewrite String.eqb_refl. Qed.

Lemma try_begin_step t k h : frames conn_step (try_begin t k h).
Proof.
  intros c. unfold try_begin, bind, rls_check, gets, bind.
  destruct (str_eqb_spec (jc_tenant c) t) as [<-|]; cbn; [|done].
  destruct (jdb_idempotency_keys (jc_db c) !! _) eqn:E; cbn; [done|].
  split; [done|]. cbn. split; [|done]. intros t' k' Ht. cbn. rewrite lookup_insert_ne; congruence.
Qed.

Lemma get_existing_step t k : frames conn_step (get_existing t k).
Proof. apply frames_gets, _. Qed.

Lemma jsonb_param_step j : frames conn_step (jsonb_param j).
Proof. intros c. unfold jsonb_param. by destruct (jsonb_ok j). Qed.

Lemma complete_step t k b s : frames conn_step (complete t k b s).
Proof.
  apply frames_bind; [apply _|apply jsonb_param_step|]. intros [] c. unfold modify. destruct (str_eqb_spec (jc_tenant c) t) as [<-|]; cbn; [|done].
  split; [done|]. cbn. split; [|done]. intros t' k' Ht. cbn. rewrite lookup_alter_ne; congruence.
Qed.

Lemma insert_async_job_step j t u tr p pl cb : frames conn_step (insert_async_job j t u tr p pl cb).
Proof.
  apply frames_bind; [apply _|apply jsonb_param_step|]. intros [] c. unfold bind, rls_check, gets, bind.
  destruct (str_eqb_spec (jc_tenant c) t) as [<-|]; cbn; [|done].
  destruct (jdb_async_jobs (jc_db c) !! j) eqn:E; cbn; [done|].
  split; [done|]. cbn. split; [done|split; [|done]]. intros j' row Hrow. cbn.
  destruct (decide (j = j')) as [<-|]; [|by rewrite lookup_insert_ne].
  rewrite lookup_insert_eq, E. split; [done|]. intros [= <-]. by destruct Hrow.
Qed.

Lemma get_async_job_step t j : frames conn_step (get_async_job t j).
Proof. apply frames_gets, _. Qed.

#[export] Hint Resolve rls_check_step try_begin_step get_existing_step complete_step
  insert_async_job_step get_async_job_step : frames.

(** A session only changes rows of its tenant, and nothing when it raises. *)
Lemma tenant_session_isolated {A} t (body : py JobsConn A) :
  frames conn_step body → frames (agree_outside t) (tenant_session t body).
Proof.
  intros Hb d. unfold tenant_session, atomically. specialize (Hb (MkJobsConn t d)).
  destruct (body (MkJobsConn t d)) as [c [e|a]]; cbn in *; [done|apply Hb].
Qed.
