(* ===== verification/Gateway.v ===== *)
(** agent-gateway: authentication (auth.py), the client of agent-harness and the
    publisher (clients/), and the public API (api/routes.py). *)
From S2P Require Import Prelude PyStr Json Http Contracts Wire Redis Quota JobsDb.

(** ** What the gateway talks to *)

(** The verified claims of a JWT ([jwt.decode] checks the signature and the
    claim set mock-idp issues). *)
Record Claims := MkClaims {
  cl_tenant_id : option string;
  cl_sub : option string;
  cl_acl_group_ids : option (list string);
  cl_employee_id : option string;
  cl_permissions : option (list string);
  cl_roles : option (list string);
  cl_scope_context : option pydict
}.
#[export] Instance eta_Claims : EtaRec Claims := fun x =>
  MkClaims (cl_tenant_id x) (cl_sub x) (cl_acl_group_ids x) (cl_employee_id x) (cl_permissions x)
    (cl_roles x) (cl_scope_context x).

Class Jwt := jwt_decode : string → string → exn + Claims.

(** The HTTP service of agent-harness: a request, a response, or an
    [httpx.HTTPError]. *)
Class HarnessHttp (X : Type) := {
  post_runs : AgentRunRequest → py X HttpResponse;
  post_decision : string → ApprovalDecisionInternalRequest → py X HttpResponse;
  post_killswitch_tool : string → KillswitchInternalRequest → py X HttpResponse;
  post_killswitch_agent : string → KillswitchInternalRequest → py X HttpResponse
}.

(** RabbitMQ: publish a persistent message on an exchange with a routing key. *)
Class Broker (X : Type) := basic_publish : string → string → AsyncJobMessage → py X unit.

(** sha256 over the model's JSON text, and the ISO form of a timestamp. *)
Class Hashing := {
  model_dump_json : json → string;
  sha256_hex : string → string;
  utc_isoformat : float64 → string
}.

Record GatewayState (R X : Type) := MkGatewayState {
  gw_quota : QuotaState R;
  gw_db : JobsDb;
  gw_ext : X
}.
Arguments MkGatewayState {R X}.
Arguments gw_quota {R X}.
Arguments gw_db {R X}.
Arguments gw_ext {R X}.
#[export] Instance eta_GatewayState {R X} : EtaRec (GatewayState R X) := fun x =>
  MkGatewayState (gw_quota x) (gw_db x) (gw_ext x).

(* @ gateway/config.py:6-49 Settings *)
Record GatewaySettings := MkGatewaySettings {
  gst_sync_timeout_seconds : float64;
  gst_jwt_signing_secret : string;
  gst_async_job_deadline_seconds : float64;
  gst_quota_manager : QuotaManager
}.
#[export] Instance eta_GatewaySettings : EtaRec GatewaySettings := fun x =>
  MkGatewaySettings (gst_sync_timeout_seconds x) (gst_jwt_signing_secret x)
    (gst_async_job_deadline_seconds x) (gst_quota_manager x).

(** ** auth.py *)

(* @ gateway/auth.py:25-46 AuthContext *)
Record AuthContext := MkAuthContext {
  au_tenant_id : string;
  au_user_id : string;
  au_acl_group_ids : list string;
  au_employee_id : option string;
  au_permissions : list string;
  au_roles : list string;
  au_scope_context : pydict;
  au_raw_token : string
}.
#[export] Instance eta_AuthContext : EtaRec AuthContext := fun x =>
  MkAuthContext (au_tenant_id x) (au_user_id x) (au_acl_group_ids x) (au_employee_id x)
    (au_permissions x) (au_roles x) (au_scope_context x) (au_raw_token x).

Definition headers := list (string * string).

(** [request.headers.get(name)]: names are case-insensitive. *)
Definition header_get (hs : headers) (h : Header) : option string :=
  snd <$> (list_find (fun kv => String.eqb (str_lower kv.1) (str_lower (header_name h)) = true) hs
           ≫= fun p => Some p.2).

Definition http_401 {S A} (detail : string) : py S A := raise (HTTPException 401 (JStr detail) []).

(* @ gateway/auth.py:49-55 _extract_bearer_token *)
Definition extract_bearer_token {S} (hs : headers) : py S string :=
  match header_get hs AUTHORIZATION with
  | Some h => if negb (String.eqb h "") && str_startswith h "Bearer "
              then ret (str_removeprefix h "Bearer ")
              else http_401 "Missing or malformed Authorization header"
  | None => http_401 "Missing or malformed Authorization header"
  end.

(* @ gateway/auth.py:58-80 authenticate *)
Definition authenticate {S} `{Jwt} (secret : string) (hs : headers) : py S AuthContext :=
  let! token := extract_bearer_token hs in
  match jwt_decode token secret with
  | inl (InvalidTokenError _) => http_401 "Invalid JWT"
  | inl e => raise e
  | inr claims =>
      if negb (opt_truthy (cl_tenant_id claims)) || negb (opt_truthy (cl_sub claims))
      then http_401 "JWT missing required tenant_id/sub claims"
      else ret {| au_tenant_id := str_or (cl_tenant_id claims) "";
                  au_user_id := str_or (cl_sub claims) "";
                  au_acl_group_ids := from_option id [] (cl_acl_group_ids claims);
                  au_employee_id := cl_employee_id claims;
                  au_permissions := from_option id [] (cl_permissions claims);
                  au_roles := from_option id [] (cl_roles claims);
                  au_scope_context := from_option id [] (cl_scope_context claims);
                  au_raw_token := token |}
  end.

(** ** clients *)

Section Clients.
  Context {X : Type} `{HarnessHttp X, Broker X, Pydantic}.

(* @ gateway/clients/harness.py:21-33 HarnessClient.run *)
Definition harness_run (request : AgentRunRequest) : py X AgentInvokeResponse :=
  let! response := post_runs request in
  raise_for_status response ;!
  model_validate "AgentInvokeResponse" validate_response (hr_json response).

(* @ gateway/clients/harness.py:35-45 HarnessClient.decide_approval *)
Definition harness_decide_approval (approval_id : string) (r : ApprovalDecisionInternalRequest)
  : py X HttpResponse := post_decision approval_id r.

(* @ gateway/clients/harness.py:47-54 HarnessClient.set_tool_killswitch *)
Definition set_tool_killswitch (tool_name : string) (r : KillswitchInternalRequest)
  : py X HttpResponse := post_killswitch_tool tool_name r.

(* @ gateway/clients/harness.py:56-63 HarnessClient.set_agent_killswitch *)
Definition set_agent_killswitch (agent_id : string) (r : KillswitchInternalRequest)
  : py X HttpResponse := post_killswitch_agent agent_id r.

(* @ gateway/clients/rabbitmq.py:29-39 RabbitMQPublisher.publish_job *)
Definition publish_job (message : AsyncJobMessage) : py X unit :=
  basic_publish JOBS_EXCHANGE (routing_key (job_priority message) (job_tenant_id message)) message.
End Clients.

(** ** api/routes.py *)

Definition dump_context (c : InvokeContext) : json :=
  JObj [("locale", j_opt_str (ivc_locale c)); ("channel", j_opt_str (ivc_channel c))].

Definition request_fields (b : AgentInvokeRequest) : pydict :=
  [("conversation_id", j_opt_str (req_conversation_id b)); ("agent_id", JStr (req_agent_id b));
   ("input", dump_input (req_input b)); ("context", dump_context (req_context b));
   ("options", dump_options (req_options b))].

Definition job_request_fields (b : AgentJobRequest) : pydict :=
  request_fields (jrq_base b) ++
  [("priority", JStr (enum_value (jrq_priority b))); ("callback_url", j_opt_str (jrq_callback_url b));
   ("callback_secret_ref", j_opt_str (jrq_callback_secret_ref b))].

(** What a handler answers with: the status it set and the model it returned. *)
Record Reply (A : Type) := MkReply {
  rp_status : Z;
  rp_trace_id : string;
  rp_body : A
}.
Arguments MkReply {A}.
Arguments rp_status {A}.
Arguments rp_trace_id {A}.
Arguments rp_body {A}.
#[export] Instance eta_Reply {A} : EtaRec (Reply A) := fun x =>
  MkReply (rp_status x) (rp_trace_id x) (rp_body x).

Section Routes.
  Context {R X : Type} `{Redis R, HarnessHttp X, Broker X, Uuid X, Jwt, Hashing, Pydantic}.
  Variable settings : GatewaySettings.

Abbreviation W := (GatewayState R X).

Definition in_quota {A} : py (QuotaState R) A → py W A := zoom gw_quota (fun q s => s <| gw_quota := q |>).
Definition in_db {A} : py JobsDb A → py W A := zoom gw_db (fun d s => s <| gw_db := d |>).
Definition in_ext {A} : py X A → py W A := zoom gw_ext (fun x s => s <| gw_ext := x |>).

Definition fresh_id (prefix : string) : py W string := in_ext (uuid_id prefix).

(* @ gateway/api/routes.py:54-61 invoke: Idempotency-Key and X-Trace-Id *)
Definition request_ids (hs : headers) : py W (string * string) :=
  let idempotency_key := str_or (header_get hs IDEMPOTENCY_KEY) "" in
  if String.eqb idempotency_key "" then
    raise (HTTPException 400 (JStr "Idempotency-Key header is required") [])
  else
    let trace := str_or (header_get hs TRACE_ID) "" in
    let! trace_id := (if String.eqb trace "" then fresh_id "trc_" else ret trace) in
    ret (idempotency_key, trace_id).

Definition conflict {A S} (detail : string) (hs : headers) : py S A :=
  raise (HTTPException 409 (JStr detail) hs).

(* @ gateway/api/routes.py:65-92 invoke: the idempotency race *)
Definition idempotency_gate {A} (dec : json → option A) (name : string)
    (tenant_id idempotency_key request_hash : string) : py JobsDb (option (option Z * A)) :=
  tenant_session tenant_id (
    let! won := try_begin tenant_id idempotency_key request_hash in
    if won : bool then ret None
    else
      let! existing := get_existing tenant_id idempotency_key in
      match existing with
      | None => raise (HTTPException 500 JNull [])
      | Some row =>
          if negb (String.eqb (idem_request_hash row) request_hash)
          then conflict "Idempotency-Key reused with a different request body" []
          else match idem_response_body row with
               | Some body =>
                   let! r := model_validate name dec body in
                   ret (Some (idem_status_code row, r))
               | None => conflict "A request with this Idempotency-Key is still in progress"
                           [("Retry-After", "2")]
               end
      end).

(** [existing.status_code or default]. *)
Definition status_or (o : option Z) (d : Z) : Z :=
  match o with Some z => if (z =? 0)%Z then d else z | None => d end.

(* @ gateway/api/routes.py:111-132 invoke: quota exceeded *)
Definition reject_over_quota {A} (tenant_id idempotency_key trace_id : string)
    (reservation : ReservationResult) : py W A :=
  let! now := in_quota (gets q_now) in
  let quota_reset_at := utc_isoformat (f64_add now (f64_of_Z (retry_after_seconds reservation))) in
  let error_body := JObj [("error", JStr "quota_exceeded"); ("trace_id", JStr trace_id);
                          ("quota_reset_at", JStr quota_reset_at)] in
  in_db (tenant_session tenant_id (complete tenant_id idempotency_key error_body 429)) ;!
  raise (HTTPException 429 error_body
           [("Retry-After", Z_to_string (retry_after_seconds reservation))]).

(* @ gateway/api/routes.py:139-164 invoke: the AgentRunRequest *)
Definition build_run_request (auth : AuthContext) (run_id trace_id pool : string) (mode : ExecutionMode)
    (estimated_tokens : Z) (eval_mode : bool) (b : AgentInvokeRequest) : AgentRunRequest :=
  {| run_run_id := run_id; run_trace_id := trace_id; run_tenant_id := au_tenant_id auth;
     run_user_id := au_user_id auth; run_acl_group_ids := au_acl_group_ids auth;
     run_employee_id := au_employee_id auth; run_permissions := au_permissions auth;
     run_roles := au_roles auth; run_scope_context := au_scope_context auth;
     run_subject_token := Some (au_raw_token auth); run_agent_id := req_agent_id b;
     run_conversation_id := req_conversation_id b; run_input := req_input b; run_context := [];
     run_options := req_options b; run_execution_mode := mode;
     run_budget := MkTokenBudget pool estimated_tokens; run_model_router_key_override := None;
     run_eval_mode_requested := eval_mode |}.

(** [TokenBudget(reserved_tokens=n)] is [Field(ge=0)]. *)
Definition check_budget (n : Z) : py W unit :=
  if (0 <=? n)%Z then ret tt else raise (ValidationError (validation_text "TokenBudget" (JInt n))).

(* @ gateway/api/routes.py:168-190 invoke: agent-harness unavailable *)
Definition harness_failed {A} (tenant_id idempotency_key trace_id rkey : string) (exc : exn) : py W A :=
  in_quota (reconcile rkey 0) ;!
  let status_code := match exc with HttpxTimeout _ => 504%Z | _ => 503%Z end in
  in_db (tenant_session tenant_id
    (complete tenant_id idempotency_key
       (JObj [("error", JStr (exn_str exc)); ("trace_id", JStr trace_id)]) status_code)) ;!
  raise (HTTPException status_code (JStr "agent-harness unavailable") []).

(** A run goes through three phases, between which other requests are served: it
    takes a reservation, waits for agent-harness, and settles. *)
(* @ gateway/api/routes.py:94-164 invoke: the reservation and the request *)
Definition reserve_run (auth : AuthContext) (hs : headers) (idempotency_key trace_id : string)
    (b : AgentInvokeRequest) : py W (AgentRunRequest * string) :=
  let! run_id := fresh_id "run_" in
  let estimated_tokens :=
    estimate_tokens (ain_content (req_input b)) (opt_max_output_tokens (req_options b)) in
  let! reservation := in_quota (reserve (gst_quota_manager settings) (au_tenant_id auth) "sync" run_id
                                  estimated_tokens (gst_sync_timeout_seconds settings)) in
  if negb (rr_accepted reservation)
  then reject_over_quota (au_tenant_id auth) idempotency_key trace_id reservation
  else
    match rr_reservation_key reservation with
    | None => raise AssertionError
    | Some rkey =>
        check_budget estimated_tokens ;!
        let eval_mode :=
          String.eqb (str_lower (from_option id "" (header_get hs EVAL_MODE))) "true" in
        ret (build_run_request auth run_id trace_id "sync" SYNC estimated_tokens eval_mode b, rkey)
    end.

(* @ gateway/api/routes.py:166-168 invoke: harness.run *)
Definition call_harness (request : AgentRunRequest) : py W (exn + AgentInvokeResponse) :=
  fun w => let '(w', r) := in_ext (harness_run request) w in (w', inr r).

(* @ gateway/api/routes.py:168-204 invoke: the settlement *)
Definition settle_run (auth : AuthContext) (idempotency_key trace_id rkey : string)
    (outcome : exn + AgentInvokeResponse) : py W (Reply AgentInvokeResponse) :=
  match outcome with
  | inl e => if is_httpx_error e then harness_failed (au_tenant_id auth) idempotency_key trace_id rkey e
             else raise e
  | inr result =>
      let actual_tokens := (usg_input_tokens (res_usage result) + usg_output_tokens (res_usage result))%Z in
      in_quota (reconcile rkey actual_tokens) ;!
      in_db (tenant_session (au_tenant_id auth)
        (complete (au_tenant_id auth) idempotency_key (dump_response result) 200)) ;!
      ret (MkReply 200 trace_id result)
  end.

(* @ gateway/api/routes.py:94-204 invoke: the run *)
Definition run_once (auth : AuthContext) (hs : headers) (idempotency_key trace_id : string)
    (b : AgentInvokeRequest) : py W (Reply AgentInvokeResponse) :=
  let! '(request, rkey) := reserve_run auth hs idempotency_key trace_id b in
  let! outcome := call_harness request in
  settle_run auth idempotency_key trace_id rkey outcome.

(* @ gateway/api/routes.py:48-92 invoke *)
Definition invoke (b : AgentInvokeRequest) (hs : headers) : py W (Reply AgentInvokeResponse) :=
  let! auth := authenticate (gst_jwt_signing_secret settings) hs in
  let! '(idempotency_key, trace_id) := request_ids hs in
  let request_hash := sha256_hex (model_dump_json (JObj (request_fields b))) in
  let! replay := in_db (idempotency_gate validate_response "AgentInvokeResponse"
                          (au_tenant_id auth) idempotency_key request_hash) in
  match replay with
  | Some (status, response) => ret (MkReply (status_or status 200) trace_id response)
  | None => run_once auth hs idempotency_key trace_id b
  end.

(** A job goes through four: the reservation, the row, the message, the acceptance. *)
(* @ gateway/api/routes.py:259-313 submit_job: the reservation and the request *)
Definition reserve_job (auth : AuthContext) (idempotency_key trace_id : string) (b : AgentJobRequest)
    : py W (AgentRunRequest * option string) :=
  let! job_id := fresh_id "job_" in
  let base := jrq_base b in
  let estimated_tokens :=
    estimate_tokens (ain_content (req_input base)) (opt_max_output_tokens (req_options base)) in
  let! reservation := in_quota (reserve (gst_quota_manager settings) (au_tenant_id auth) "async" job_id
                                  estimated_tokens (gst_async_job_deadline_seconds settings)) in
  if negb (rr_accepted reservation)
  then reject_over_quota (au_tenant_id auth) idempotency_key trace_id reservation
  else
    check_budget estimated_tokens ;!
    ret (build_run_request auth job_id trace_id "async" ASYNC estimated_tokens false base,
         rr_reservation_key reservation).

(* @ gateway/api/routes.py:315-325 submit_job: the row *)
Definition insert_job (auth : AuthContext) (trace_id : string) (b : AgentJobRequest) (job_id : string) : py W unit :=
  in_db (tenant_session (au_tenant_id auth)
    (insert_async_job job_id (au_tenant_id auth) (au_user_id auth) trace_id
       (enum_value (jrq_priority b)) (JObj (job_request_fields b)) (jrq_callback_url b))).

(** The job's id is its run's. *)
(* @ gateway/api/routes.py:327-337 submit_job: the message *)
Definition send_job (auth : AuthContext) (b : AgentJobRequest) (run_request : AgentRunRequest) (rkey : option string)
    : py W unit :=
  in_ext (publish_job
    {| job_job_id := run_run_id run_request; job_tenant_id := au_tenant_id auth; job_priority := jrq_priority b;
       job_run_request := run_request; job_callback_url := jrq_callback_url b;
       job_callback_secret_ref := jrq_callback_secret_ref b; job_attempts := 0;
       job_quota_reservation_key := rkey |}).

(* @ gateway/api/routes.py:339-350 submit_job: the acceptance *)
Definition accept_job (auth : AuthContext) (idempotency_key trace_id job_id : string)
    : py W (Reply AgentJobAcceptedResponse) :=
  let accepted := MkAgentJobAcceptedResponse job_id trace_id ("/v1/agent/jobs/" +:+ job_id) in
  in_db (tenant_session (au_tenant_id auth)
    (complete (au_tenant_id auth) idempotency_key (dump_accepted accepted) 202)) ;!
  ret (MkReply 202 trace_id accepted).

(* @ gateway/api/routes.py:259-350 submit_job: the job *)
Definition enqueue_once (auth : AuthContext) (idempotency_key trace_id : string) (b : AgentJobRequest)
    : py W (Reply AgentJobAcceptedResponse) :=
  let! '(run_request, rkey) := reserve_job auth idempotency_key trace_id b in
  insert_job auth trace_id b (run_run_id run_request) ;!
  send_job auth b run_request rkey ;!
  accept_job auth idempotency_key trace_id (run_run_id run_request).

(* @ gateway/api/routes.py:207-257 submit_job *)
Definition submit_job (b : AgentJobRequest) (hs : headers) : py W (Reply AgentJobAcceptedResponse) :=
  let! auth := authenticate (gst_jwt_signing_secret settings) hs in
  let! '(idempotency_key, trace_id) := request_ids hs in
  let request_hash := sha256_hex (model_dump_json (JObj (job_request_fields b))) in
  let! replay := in_db (idempotency_gate validate_accepted "AgentJobAcceptedResponse"
                          (au_tenant_id auth) idempotency_key request_hash) in
  match replay with
  | Some (status, response) => ret (MkReply (status_or status 202) trace_id response)
  | None => enqueue_once auth idempotency_key trace_id b
  end.

(** [M.model_validate(row[k]) if row[k] else None]. *)
Definition validate_if_truthy {A} (dec : json → option A) (name : string) (v : option json)
    : py W (option A) :=
  match v with
  | Some j => if truthy j then let! a := model_validate name dec j in ret (Some a) else ret None
  | None => ret None
  end.

(* @ gateway/api/routes.py:353-369 get_job *)
Definition get_job (job_id : string) (hs : headers) : py W AgentJobStatusResponse :=
  let! auth := authenticate (gst_jwt_signing_secret settings) hs in
  let! row := in_db (tenant_session (au_tenant_id auth) (get_async_job (au_tenant_id auth) job_id)) in
  match row with
  | None => raise (HTTPException 404 (JStr "unknown job_id for this tenant") [])
  | Some row =>
      let! status := match enum_of_string (jrow_status row) with
                     | Some s => ret s
                     | None => raise (ValueError (jrow_status row +:+ " is not a valid JobStatus"))
                     end in
      let! result := validate_if_truthy validate_response "AgentInvokeResponse" (jrow_result row) in
      let! error := validate_if_truthy validate_job_error "JobError" (jrow_error row) in
      if (jrow_attempts row <? 0)%Z
      then raise (ValidationError (validation_text "AgentJobStatusResponse" (JInt (jrow_attempts row))))
      else ret {| jst_job_id := job_id; jst_status := status; jst_attempts := jrow_attempts row;
                  jst_result := result; jst_error := error; jst_created_at := jrow_created_at row;
                  jst_completed_at := jrow_completed_at row |}
  end.

Definition unavailable {A} : py W A :=
  raise (HTTPException 503 (JStr "agent-harness unavailable") []).

(** [except httpx.HTTPError: 503]; then [status >= 400] is passed through. *)
Definition proxy {A} (call : py X HttpResponse) (dec : json → option A) (name : string) : py W A :=
  let! response := try_except (in_ext call) (fun e => if is_httpx_error e then Some unavailable else None) in
  if (400 <=? hr_status_code response)%Z
  then raise (HTTPException (hr_status_code response) (JStr (hr_text response)) [])
  else model_validate name dec (hr_json response).

Definition validate_approval_decision : json → option ApprovalDecisionResponse :=
  d_obj ["approval_id"; "status"; "mutation_status"; "business_ref"] (fun kvs =>
    i ← required "approval_id" d_str kvs; s ← required "status" d_str kvs;
    m ← required "mutation_status" d_str kvs; b ← default "business_ref" (d_opt d_str) None kvs;
    if String.eqb s "approved" || String.eqb s "rejected"
    then Some (MkApprovalDecisionResponse i s m b) else None).

Definition validate_killswitch : json → option KillswitchResponse :=
  d_obj ["name"; "kind"; "disabled"] (fun kvs =>
    n ← required "name" d_str kvs; k ← required "kind" d_str kvs;
    d ← required "disabled" lax_bool kvs; Some (MkKillswitchResponse n k d)).

(* @ gateway/api/routes.py:372-401 approval_decision *)
Definition approval_decision (approval_id : string) (decision : ApprovalDecision) (hs : headers)
    : py W ApprovalDecisionResponse :=
  let! auth := authenticate (gst_jwt_signing_secret settings) hs in
  let trace := str_or (header_get hs TRACE_ID) "" in
  let! trace_id := (if String.eqb trace "" then fresh_id "trc_" else ret trace) in
  proxy (harness_decide_approval approval_id
           (MkApprovalDecisionInternalRequest trace_id (au_tenant_id auth) (au_user_id auth)
              (au_permissions auth) decision))
        validate_approval_decision "ApprovalDecisionResponse".

(* @ gateway/api/routes.py:45-45 KILLSWITCH_MANAGE_PERMISSION *)
Definition KILLSWITCH_MANAGE_PERMISSION := "platform.killswitch.manage".

Definition require_killswitch_permission (auth : AuthContext) : py W unit :=
  if str_in KILLSWITCH_MANAGE_PERMISSION (au_permissions auth) then ret tt
  else raise (HTTPException 403
                (JStr ("missing required permission: " +:+ KILLSWITCH_MANAGE_PERMISSION)) []).

(* @ gateway/api/routes.py:404-429 admin_killswitch_tool *)
Definition admin_killswitch_tool (tool_name : string) (b : KillswitchRequest) (hs : headers)
    : py W KillswitchResponse :=
  let! auth := authenticate (gst_jwt_signing_secret settings) hs in
  require_killswitch_permission auth ;!
  proxy (set_tool_killswitch tool_name
           (MkKillswitchInternalRequest (ksq_disabled b) (ksq_reason b) (au_user_id auth)))
        validate_killswitch "KillswitchResponse".

(* @ gateway/api/routes.py:432-454 admin_killswitch_agent *)
Definition admin_killswitch_agent (agent_id : string) (b : KillswitchRequest) (hs : headers)
    : py W KillswitchResponse :=
  let! auth := authenticate (gst_jwt_signing_secret settings) hs in
  require_killswitch_permission auth ;!
  proxy (set_agent_killswitch agent_id
           (MkKillswitchInternalRequest (ksq_disabled b) (ksq_reason b) (au_user_id auth)))
        validate_killswitch "KillswitchResponse".
End Routes.
