(* ===== verification/GatewayProps.v ===== *)
(** What agent-gateway guarantees: idempotent replay, exact settlement of the
    quota, tenant isolation of every handler, and what an accepted job leaves
    behind — and where a failed request cannot be retried. *)
From S2P Require Import Prelude PyStr Json Http Contracts Wire Redis Quota QuotaLedger JobsDb Gateway.

(** ** A concrete environment, to evaluate the handlers

    Scripted answers of agent-harness, a log of published messages, a counter
    for ids; JWTs are their tenant id. *)
Module Demo.
Record env := MkEnv {
  e_answers : list (string + HttpResponse);
  e_calls : list string;
  e_published : list (string * string * AsyncJobMessage);
  e_ids : nat
}.
#[export] Instance eta_env : EtaRec env := fun x =>
  MkEnv (e_answers x) (e_calls x) (e_published x) (e_ids x).

Definition answer (call : string) : py env HttpResponse := fun e =>
  let e := e <| e_calls ::= cons call |> in
  match e_answers e with
  | inl _ :: rest => (e <| e_answers := rest |>, inl (HttpxTimeout "timed out"))
  | inr response :: rest => (e <| e_answers := rest |>, inr response)
  | [] => (e, inl (HttpxError "connection refused"))
  end.

#[global] Instance env_http : HarnessHttp env := {|
  post_runs r := answer ("run " +:+ run_run_id r);
  post_decision a _ := answer ("decide " +:+ a);
  post_killswitch_tool n _ := answer ("kill tool " +:+ n);
  post_killswitch_agent n _ := answer ("kill agent " +:+ n) |}.

#[global] Instance env_broker : Broker env := fun ex key msg e =>
  (e <| e_published ::= cons (ex, key, msg) |>, inr tt).

#[global] Instance env_uuid : Uuid env := fun e =>
  (e <| e_ids ::= S |>, inr (Z_to_string (10000000000000000000000 + Z.of_nat (e_ids e)))).

#[global] Instance demo_jwt : Jwt := fun token _ =>
  if String.eqb token "" then inl (InvalidTokenError "empty")
  else inr (MkClaims (Some token) (Some "usr_1") None None
              (Some ["leave.request.create"]) None None).

#[global] Instance demo_hashing : Hashing := {|
  model_dump_json j := json_dumps (H := fun _ => "0.0") j;
  sha256_hex s := s;
  utc_isoformat _ := "2026-01-01T00:00:00+00:00" |}.

#[global] Instance demo_pydantic : Pydantic := strict_pydantic.

Definition settings : GatewaySettings :=
  MkGatewaySettings (f64_of_Z 30) "secret" (f64_of_Z 600) (MkQuotaManager 5000 50000).

Definition request : AgentInvokeRequest :=
  MkAgentInvokeRequest None "hr-assistant" (MkAgentInput "berapa sisa cuti saya?")
    (MkInvokeContext None None) (MkRunOptions false 1024 false).

Definition hs : headers :=
  [("authorization", "Bearer tnt_a"); ("idempotency-key", "k1"); ("x-trace-id", "trc_1")].

Definition response : AgentInvokeResponse :=
  MkAgentInvokeResponse "run_1" "conv_1" "trc_1" (MkAgentOutput "12 hari" [])
    (MkUsage 40 10 f64_zero) [] [] false None.

Definition ok_response : HttpResponse := MkHttpResponse 200 "" (dump_response response) [].

Definition world (answers : list (string + HttpResponse)) : GatewayState Store.store env :=
  MkGatewayState (MkQuotaState (∅ : Store.store) (f64_of_Z 1000) []) (MkJobsDb ∅ ∅ "now")
    (MkEnv answers [] [] 0).
End Demo.

Section Facts.
  Context {R X : Type} `{RedisLaws R, HarnessHttp X, Broker X, Uuid X, Jwt, Hashing, PydanticLaws}.
  Implicit Types (w : GatewayState R X) (d : JobsDb).

(** ** The gate *)

Definition idem_row d (t k : string) : option ExistingRecord := jdb_idempotency_keys d !! (t, k).

Definition add_row d (t k h : string) : JobsDb :=
  d <| jdb_idempotency_keys ::= <[(t, k) := MkExistingRecord h None None]> |>.

Definition complete_row d (t k : string) (body : json) (status : Z) : JobsDb :=
  d <| jdb_idempotency_keys ::=
    alter (fun row => row <| idem_response_body := Some body |> <| idem_status_code := Some status |>)
      (t, k) |>.

Arguments idem_row : simpl never.
Arguments add_row : simpl never.
Arguments complete_row : simpl never.

Lemma try_begin_new d t k h :
  idem_row d t k = None →
  try_begin t k h (MkJobsConn t d) = (MkJobsConn t (add_row d t k h), inr true).
Proof.
  intros Hrow. unfold try_begin, bind. rewrite rls_check_ok by done. unfold gets, bind; cbn.
  unfold idem_row in Hrow. by rewrite Hrow.
Qed.

Lemma try_begin_taken d t k h row :
  idem_row d t k = Some row →
  try_begin t k h (MkJobsConn t d) = (MkJobsConn t d, inr false).
Proof.
  intros Hrow. unfold try_begin, bind. rewrite rls_check_ok by done. unfold gets, bind; cbn.
  unfold idem_row in Hrow. by rewrite Hrow.
Qed.

Lemma gate_new {A} (dec : json → option A) name d t k h :
  idem_row d t k = None →
  idempotency_gate dec name t k h d = (add_row d t k h, inr None).
Proof.
  intros Hrow. unfold idempotency_gate, tenant_session, atomically.
  by rewrite (bind_inr _ _ _ _ _ (try_begin_new d t k h Hrow)).
Qed.

(** Everything the gate does on a taken key, as a function of the row. *)
Definition gate_taken {A} (dec : json → option A) (name h : string) (row : ExistingRecord)
    : exn + option (option Z * A) :=
  if negb (String.eqb (idem_request_hash row) h)
  then inl (HTTPException 409 (JStr "Idempotency-Key reused with a different request body") [])
  else match idem_response_body row with
       | Some body => match dec body with
                      | Some r => inr (Some (idem_status_code row, r))
                      | None => inl (ValidationError (validation_text name body))
                      end
       | None => inl (HTTPException 409 (JStr "A request with this Idempotency-Key is still in progress")
                        [("Retry-After", "2")])
       end.

Lemma gate_old {A} (dec : json → option A) name d t k h row :
  idem_row d t k = Some row →
  idempotency_gate dec name t k h d = (d, gate_taken dec name h row).
Proof.
  intros Hrow. unfold idempotency_gate, tenant_session, atomically, gate_taken.
  rewrite (bind_inr _ _ _ _ _ (try_begin_taken d t k h row Hrow)). cbn.
  unfold bind, get_existing, gets. cbn. rewrite String.eqb_refl.
  unfold idem_row in Hrow. rewrite Hrow.
  destruct (negb _); [done|]. destruct (idem_response_body row) as [body|]; [|done].
  unfold model_validate. by destruct (dec body).
Qed.

Lemma complete_run d t k body status :
  tenant_session t (complete t k body status) d =
    if jsonb_ok body then (complete_row d t k body status, inr tt) else (d, inl jsonb_refused).
Proof.
  unfold tenant_session, atomically, complete, jsonb_param, bind, modify. destruct (jsonb_ok body); cbn; [|done].
  by rewrite String.eqb_refl.
Qed.

Lemma complete_row_lookup d t k body status row :
  idem_row d t k = Some row →
  idem_row (complete_row d t k body status) t k
    = Some (MkExistingRecord (idem_request_hash row) (Some body) (Some status)).
Proof.
  intros Hrow. unfold idem_row, complete_row in *. cbn.
  rewrite lookup_alter, decide_True by done. by rewrite Hrow.
Qed.

Lemma add_row_lookup d t k h :
  idem_row (add_row d t k h) t k = Some (MkExistingRecord h None None).
Proof. unfold idem_row, add_row. cbn. apply lookup_insert_eq. Qed.

(** ** The entry of a request *)

(** A request carries a key and a trace id - an HTTP header has no NUL in it - and
    its token is valid. *)
Definition admitted (settings : GatewaySettings) (hs : headers) (auth : AuthContext) (key trace : string)
    : Prop :=
  (∀ s : GatewayState R X, authenticate (gst_jwt_signing_secret settings) hs s = (s, inr auth)) ∧
  str_or (header_get hs IDEMPOTENCY_KEY) "" = key ∧ key ≠ "" ∧
  str_or (header_get hs TRACE_ID) "" = trace ∧ trace ≠ "" ∧ no_nul trace = true.

Lemma request_ids_admitted settings hs auth key trace w :
  admitted settings hs auth key trace → request_ids hs w = (w, inr (key, trace)).
Proof.
  intros (_ & Hk & Hk' & Ht & Ht' & _). unfold request_ids. rewrite Hk, Ht.
  rewrite (proj2 (String.eqb_neq _ _) Hk'), (proj2 (String.eqb_neq _ _) Ht').
  reflexivity.
Qed.

Lemma with_db_id w : w <| gw_db := gw_db w |> = w.
Proof. by destruct w. Qed.

Definition body_hash (b : AgentInvokeRequest) : string :=
  sha256_hex (model_dump_json (JObj (request_fields b))).

Lemma invoke_admitted settings b hs auth key trace w :
  admitted settings hs auth key trace →
  invoke settings b hs w =
    match idem_row (gw_db w) (au_tenant_id auth) key with
    | Some row =>
        (w, match gate_taken validate_response "AgentInvokeResponse" (body_hash b) row with
            | inl e => inl e
            | inr (Some (status, r)) => inr (MkReply (status_or status 200) trace r)
            | inr None => inl AssertionError
            end)
    | None =>
        run_once settings auth hs key trace b
          (w <| gw_db := add_row (gw_db w) (au_tenant_id auth) key (body_hash b) |>)
    end.
Proof.
  intros Hadm. unfold invoke.
  rewrite (bind_inr _ _ _ _ _ (proj1 Hadm w)).
  rewrite (bind_inr _ _ _ _ _ (request_ids_admitted _ _ _ _ _ w Hadm)).
  unfold bind, in_db, zoom. fold (body_hash b).
  destruct (idem_row (gw_db w) (au_tenant_id auth) key) as [row|] eqn:Hrow.
  - rewrite (gate_old _ _ _ _ _ _ _ Hrow). rewrite with_db_id.
    destruct (gate_taken _ _ _ _) as [e|[[st r]|]] eqn:Hg; [done|done|].
    exfalso. unfold gate_taken in Hg. by repeat case_match.
  - by rewrite (gate_new _ _ _ _ _ _ Hrow).
Qed.
End Facts.

(** ** Reservations at the manager *)

Section Manager.
  Context {R : Type} `{RedisLaws R}.
  Implicit Types (q : QuotaState R).

(** The configuration is sane: a known pool, a finite timeout, a live TTL. *)
Definition pool_ready (m : QuotaManager) (pool : string) (timeout : float64) (limit : Z) : Prop :=
  qm_limits m pool = Some limit ∧ ∃ whole, f64_trunc timeout = Some whole ∧ (0 ≤ whole)%Z.

Lemma pool_window m pool timeout limit :
  pool_ready m pool timeout limit → ∃ w, WINDOW_SECONDS pool = Some w ∧ (0 < w)%Z.
Proof.
  intros [Hl _]. unfold qm_limits, WINDOW_SECONDS in *.
  destruct (String.eqb pool "sync"); [by eexists|].
  destruct (String.eqb pool "async"); [by eexists|done].
Qed.

Definition reservation_of (q q' : QuotaState R) (t pool run : string) (est : Z) : Prop :=
  ∃ dl, GET (reservation_key t pool run) (q_redis q')
        = Some (VJson (reservation_payload est dl (quota_key t pool))) ∧
  (∀ j, j ≠ quota_key t pool → j ≠ reservation_key t pool run →
        GET j (q_redis q') = GET j (q_redis q)).

Lemma reserve_rejected m t pool run est timeout limit c q :
  pool_ready m pool timeout limit → counter (quota_key t pool) (q_redis q) = Some c →
  (limit < c + est)%Z →
  ∃ q' ttl, reserve m t pool run est timeout q
    = (q', inr (MkReservationResult false None c limit ttl)) ∧ q_redis q' = q_redis q.
Proof.
  intros Hready Hc Hlt. destruct (pool_window _ _ _ _ Hready) as (win & Hwin & _).
  destruct Hready as (Hl & whole & Htr & _).
  unfold reserve. rewrite Hwin, Htr, Hl. unfold bind, key_of, ret, gets, on_redis, zoom.
  rewrite (reserve_script_reject _ _ _ _ _ _ _ _ c) by done. cbn.
  eexists _, _. split; [reflexivity|]. by destruct q.
Qed.

Lemma reserve_accepted m t pool run est timeout limit c q :
  pool_ready m pool timeout limit → counter (quota_key t pool) (q_redis q) = Some c →
  (c + est ≤ limit)%Z →
  ∃ q' ttl, reserve m t pool run est timeout q
    = (q', inr (MkReservationResult true (Some (reservation_key t pool run)) (c + est) limit ttl)) ∧
    counter (quota_key t pool) (q_redis q') = Some (c + est)%Z ∧
    reservation_of q q' t pool run est.
Proof.
  intros Hready Hc Hle. destruct (pool_window _ _ _ _ Hready) as (win & Hwin & Hpos).
  destruct Hready as (Hl & whole & Htr & Hwhole).
  unfold reserve. rewrite Hwin, Htr, Hl. unfold bind at 1 2 3 4, key_of, ret at 1 2 3, gets at 1.
  unfold bind, on_redis, zoom.
  destruct (reserve_script_accept (quota_key t pool) (reservation_key t pool run) est limit win
              (whole + 60) (reservation_payload est (f64_add (q_now q) timeout) (quota_key t pool))
              (q_redis q) c) as (r' & ttl & -> & Hq & Hk & _ & _ & Hf);
    [apply quota_key_not_reservation|done|lia|done|done|]. cbn.
  eexists _, _. split; [reflexivity|]. cbn. split.
  - by apply counter_of_GET.
  - eexists. by split.
Qed.

Lemma reconcile_settles t pool run est actual dl c q :
  GET (reservation_key t pool run) (q_redis q)
    = Some (VJson (reservation_payload est dl (quota_key t pool))) →
  counter (quota_key t pool) (q_redis q) = Some c →
  ∃ q', reconcile (reservation_key t pool run) actual q = (q', inr tt) ∧
    counter (quota_key t pool) (q_redis q') = Some (c + (actual - est))%Z ∧
    GET (reservation_key t pool run) (q_redis q') = None.
Proof.
  intros Hk Hc. unfold reconcile, bind, on_redis, zoom.
  destruct (reconcile_script_present (reservation_key t pool run) actual (q_redis q) est dl
              (quota_key t pool) c) as (r' & -> & Hq & Hn & _); [apply rk_ne_qk|done..|].
  eexists. split; [reflexivity|]. cbn. split; [by apply counter_of_GET|done].
Qed.
End Manager.

(** ** The run *)

Section Run.
  Context {R X : Type} `{RedisLaws R, HarnessHttp X, Broker X, Uuid X, Jwt, Hashing, PydanticLaws}.
  Implicit Types (w : GatewayState R X).

(** [uuid4] always answers; an httpx client raises [httpx.HTTPError]s only; neither
    an id, nor a date, nor the text of such an error has a NUL in it. *)
Class ClientLaws : Prop := {
  uuid_total (x : X) : ∃ x' h, uuid4_hex x = (x', inr h) ∧ no_nul h = true;
  post_runs_raises (x x' : X) r e :
    post_runs r x = (x', inl e) → is_httpx_error e = true ∧ no_nul (exn_str e) = true;
  isoformat_text f : no_nul (utc_isoformat f) = true
}.
Context `{ClientLaws}.

Lemma fresh_id_run prefix w :
  no_nul prefix = true →
  ∃ x id, fresh_id (R := R) prefix w = (w <| gw_ext := x |>, inr id) ∧ no_nul id = true.
Proof.
  intros Hp. unfold fresh_id, uuid_id, bind, in_ext, zoom. destruct (uuid_total (gw_ext w)) as (x & h & -> & Hh).
  eexists _, _. split; [reflexivity|]. by rewrite no_nul_app, Hp, no_nul_slice.
Qed.

Lemma harness_run_cases r (x : X) :
  (∃ x' resp, harness_run r x = (x', inr resp) ∧ wf_response resp) ∨
  (∃ x' e, harness_run r x = (x', inl e) ∧ is_httpx_error e = true ∧ no_nul (exn_str e) = true) ∨
  (∃ x' m, harness_run r x = (x', inl (ValidationError m))).
Proof.
  unfold harness_run, bind. destruct (post_runs r x) as [x' [e|resp]] eqn:Hp.
  - right; left. apply post_runs_raises in Hp. eauto.
  - unfold raise_for_status. destruct (_ && _);
      [|right; left; eexists _, _; split_and!; [reflexivity|done|cbn [exn_str]; by rewrite no_nul_app, no_nul_Z]].
    unfold model_validate. cbn. destruct (validate_response (hr_json resp)) as [a|] eqn:Hv.
    + left. eexists _, _. split; [reflexivity|]. by eapply validate_response_wf.
    + right; right. by eexists _, _.
Qed.

(** ** The ways a first request can end *)

Inductive run_outcome (t key trace : string) (c est : Z) (w w' : GatewayState R X)
    : exn + Reply AgentInvokeResponse → Prop :=
  | RunAnswered r :
      wf_response r →
      counter (quota_key t "sync") (q_redis (gw_quota w'))
        = Some (c + (usg_input_tokens (res_usage r) + usg_output_tokens (res_usage r)))%Z →
      jsonb_ok (dump_response r) = true →
      gw_db w' = complete_row (gw_db w) t key (dump_response r) 200 →
      run_outcome t key trace c est w w' (inr (MkReply 200 trace r))
  | RunUnstored r :
      counter (quota_key t "sync") (q_redis (gw_quota w'))
        = Some (c + (usg_input_tokens (res_usage r) + usg_output_tokens (res_usage r)))%Z →
      jsonb_ok (dump_response r) = false →
      gw_db w' = gw_db w →
      run_outcome t key trace c est w w' (inl jsonb_refused)
  | RunRefused status body hs err rest :
      status = 429%Z ∨ status = 503%Z ∨ status = 504%Z →
      counter (quota_key t "sync") (q_redis (gw_quota w')) = Some c →
      gw_db w' = complete_row (gw_db w) t key (JObj (("error", JStr err) :: rest)) status →
      run_outcome t key trace c est w w' (inl (HTTPException status body hs))
  | RunLost m :
      (est < 0)%Z ∨ (∃ request (x x' : X), harness_run request x = (x', inl (ValidationError m))) →
      counter (quota_key t "sync") (q_redis (gw_quota w')) = Some (c + est)%Z →
      gw_db w' = gw_db w →
      run_outcome t key trace c est w w' (inl (ValidationError m)).

Lemma in_quota_run {A} (m : py (QuotaState R) A) w q r :
  m (gw_quota w) = (q, r) → in_quota m w = (w <| gw_quota := q |>, r).
Proof. intros Hm. unfold in_quota, zoom. by rewrite Hm. Qed.

Lemma in_ext_run {A} (m : py X A) w x r :
  m (gw_ext w) = (x, r) → in_ext m w = (w <| gw_ext := x |>, r).
Proof. intros Hm. unfold in_ext, zoom. by rewrite Hm. Qed.

Lemma in_db_complete t key body status w :
  jsonb_ok body = true →
  in_db (tenant_session t (complete t key body status)) w
  = (w <| gw_db := complete_row (gw_db w) t key body status |>, inr tt).
Proof. intros Hb. unfold in_db, zoom. by rewrite complete_run, Hb. Qed.

Lemma in_db_refused t key body status w :
  jsonb_ok body = false → in_db (tenant_session t (complete t key body status)) w = (w, inl jsonb_refused).
Proof. intros Hb. unfold in_db, zoom. rewrite complete_run, Hb. by rewrite with_db_id. Qed.

Lemma harness_failed_run {A} t key trace rkey exc w q :
  reconcile rkey 0 (gw_quota w) = (q, inr tt) → no_nul (exn_str exc) = true → no_nul trace = true →
  let status := match exc with HttpxTimeout _ => 504%Z | _ => 503%Z end in
  harness_failed (A := A) t key trace rkey exc w
  = (w <| gw_quota := q |>
       <| gw_db := complete_row (gw_db w) t key
            (JObj [("error", JStr (exn_str exc)); ("trace_id", JStr trace)]) status |>,
     inl (HTTPException status (JStr "agent-harness unavailable") [])).
Proof.
  intros Hq He Htr. unfold harness_failed. rewrite (bind_inr _ _ _ _ _ (in_quota_run _ _ _ _ Hq)).
  assert (Hb : jsonb_ok (JObj [("error", JStr (exn_str exc)); ("trace_id", JStr trace)]) = true)
    by (cbn -[no_nul]; by rewrite He, Htr).
  by rewrite (bind_inr _ _ _ _ _ (in_db_complete _ _ _ _ _ Hb)).
Qed.

Lemma reject_over_quota_run {A} t key trace reservation w :
  no_nul trace = true →
  ∃ rest hs,
    reject_over_quota (A := A) t key trace reservation w
    = (w <| gw_db := complete_row (gw_db w) t key (JObj (("error", JStr "quota_exceeded") :: rest)) 429 |>,
       inl (HTTPException 429 (JObj (("error", JStr "quota_exceeded") :: rest)) hs)).
Proof.
  intros Htr. unfold reject_over_quota.
  rewrite (bind_inr _ _ _ (w <| gw_quota := gw_quota w |>) (q_now (gw_quota w))) by done.
  match goal with |- context [complete t key ?body 429] => assert (Hb : jsonb_ok body = true) end.
  { cbn -[no_nul]. by rewrite Htr, isoformat_text. }
  rewrite (bind_inr _ _ _ _ _ (in_db_complete _ _ _ _ _ Hb)). by eexists _, _.
Qed.

Definition eval_mode_of (hs : headers) : bool :=
  String.eqb (str_lower (from_option id "" (header_get hs EVAL_MODE))) "true".

Definition unavailable_status (e : exn) : Z := match e with HttpxTimeout _ => 504 | _ => 503 end.

(** What the settlement of a call leaves: the reservation of [est] tokens is
    settled with what the call used, or kept when the answer is not a response; a
    response the jsonb column refuses is settled and not stored. *)
Definition settled (t key trace : string) (c est : Z) (w w' : GatewayState R X)
    (outcome : exn + AgentInvokeResponse) (r : exn + Reply AgentInvokeResponse) : Prop :=
  let charged n := counter (quota_key t "sync") (q_redis (gw_quota w')) = Some n in
  match outcome with
  | inr resp =>
      charged (c + (usg_input_tokens (res_usage resp) + usg_output_tokens (res_usage resp)))%Z ∧
      if jsonb_ok (dump_response resp)
      then r = inr (MkReply 200 trace resp) ∧ gw_db w' = complete_row (gw_db w) t key (dump_response resp) 200
      else r = inl jsonb_refused ∧ gw_db w' = gw_db w
  | inl e =>
      if is_httpx_error e
      then r = inl (HTTPException (unavailable_status e) (JStr "agent-harness unavailable") []) ∧ charged c ∧
        gw_db w' = complete_row (gw_db w) t key
          (JObj [("error", JStr (exn_str e)); ("trace_id", JStr trace)]) (unavailable_status e)
      else r = inl e ∧ charged (c + est)%Z ∧ gw_db w' = gw_db w
  end.

(** A request the quota admits calls agent-harness once, with the request built
    from the caller's identity, and settles with the outcome. *)
Lemma run_once_accepted settings auth hs key trace b limit c w :
  pool_ready (gst_quota_manager settings) "sync" (gst_sync_timeout_seconds settings) limit →
  counter (quota_key (au_tenant_id auth) "sync") (q_redis (gw_quota w)) = Some c →
  let est := estimate_tokens (ain_content (req_input b)) (opt_max_output_tokens (req_options b)) in
  (c + est ≤ limit)%Z → (0 ≤ est)%Z → no_nul trace = true →
  ∃ run x1, uuid_id "run_" (gw_ext w) = (x1, inr run) ∧
    let request := build_run_request auth run trace "sync" SYNC est (eval_mode_of hs) b in
    ∃ x2 outcome w' r, harness_run request x1 = (x2, outcome) ∧
      run_once settings auth hs key trace b w = (w', r) ∧ gw_ext w' = x2 ∧
      settled (au_tenant_id auth) key trace c est w w' outcome r.
Proof.
  intros Hready Hc. cbn zeta. set (est := estimate_tokens _ _). set (t := au_tenant_id auth) in *. intros Hle Hest Htr.
  assert (∃ x1 run, uuid_id "run_" (gw_ext w) = (x1, inr run)) as (x1 & run & Hu).
  { unfold uuid_id, bind. destruct (uuid_total (gw_ext w)) as (x & h & -> & _). by eexists _, _. }
  exists run, x1. split; [exact Hu|].
  assert (Hid : fresh_id (R := R) "run_" w = (w <| gw_ext := x1 |>, inr run)) by by apply in_ext_run.
  set (w1 := w <| gw_ext := x1 |>) in *.
  destruct (reserve_accepted (gst_quota_manager settings) t "sync" run est
              (gst_sync_timeout_seconds settings) limit c (gw_quota w1))
    as (q1 & ttl & Hres & Hc1 & dl & Hk1 & _); [done..|].
  set (w2 := w1 <| gw_quota := q1 |>).
  set (request := build_run_request auth run trace "sync" SYNC est (eval_mode_of hs) b).
  assert (Hreserve : reserve_run settings auth hs key trace b w = (w2, inr (request, reservation_key t "sync" run))).
  { unfold reserve_run. fold est t. rewrite (bind_inr _ _ _ _ _ Hid).
    rewrite (bind_inr _ _ _ _ _ (in_quota_run _ _ _ _ Hres)). cbn [negb rr_accepted rr_reservation_key].
    unfold check_budget. rewrite (proj2 (Z.leb_le 0 est) Hest). reflexivity. }
  destruct (harness_run request x1) as [x2 outcome] eqn:Hrun.
  set (w3 := w2 <| gw_ext := x2 |>).
  assert (Hcall : call_harness request w2 = (w3, inr outcome)).
  { unfold call_harness. change x1 with (gw_ext w2) in Hrun. by rewrite (in_ext_run _ _ _ _ Hrun). }
  exists x2, outcome. unfold run_once, settled. rewrite (bind_inr _ _ _ _ _ Hreserve), (bind_inr _ _ _ _ _ Hcall).
  fold t. destruct outcome as [e|resp]; cbn [settle_run].
  - destruct (is_httpx_error e) eqn:He; [|eexists _, _; split_and!; [done|reflexivity|done|done|exact Hc1|done]].
    assert (Hnul : no_nul (exn_str e) = true).
    { destruct (harness_run_cases request x1) as [(x' & resp & Hr & _)|[(x' & e' & Hr & _ & Hn)|(x' & m & Hr)]];
        rewrite Hrun in Hr; simplify_eq; done. }
    destruct (reconcile_settles t "sync" run est 0 dl (c + est) q1 Hk1 Hc1) as (q2 & Hrec & Hc2 & _).
    change q1 with (gw_quota w3) in Hrec. fold t. rewrite (harness_failed_run t key trace _ e _ _ Hrec Hnul Htr).
    eexists _, _. split_and!; [done|reflexivity|done|done| |done]. cbn. rewrite Hc2. f_equal. lia.
  - destruct (reconcile_settles t "sync" run est
      (usg_input_tokens (res_usage resp) + usg_output_tokens (res_usage resp)) dl (c + est) q1 Hk1 Hc1)
      as (q2 & Hrec & Hc2 & _).
    change q1 with (gw_quota w3) in Hrec. apply in_quota_run in Hrec. fold t. rewrite (bind_inr _ _ _ _ _ Hrec).
    assert (Hcharged : counter (quota_key t "sync") (q_redis q2)
      = Some (c + (usg_input_tokens (res_usage resp) + usg_output_tokens (res_usage resp)))%Z) by (rewrite Hc2; f_equal; lia).
    destruct (jsonb_ok (dump_response resp)) eqn:Hb.
    + rewrite (bind_inr _ _ _ _ _ (in_db_complete _ _ _ _ _ Hb)).
      eexists _, _. split_and!; [done|reflexivity|done|exact Hcharged|done|done].
    + rewrite (bind_inl _ _ _ _ _ (in_db_refused _ _ _ _ _ Hb)).
      eexists _, _. split_and!; [done|reflexivity|done|exact Hcharged|done|done].
Qed.

(** A request over the quota, or with a negative estimate, never gets there. *)
Lemma run_once_rejected settings auth hs key trace b limit c w :
  pool_ready (gst_quota_manager settings) "sync" (gst_sync_timeout_seconds settings) limit →
  counter (quota_key (au_tenant_id auth) "sync") (q_redis (gw_quota w)) = Some c →
  let est := estimate_tokens (ain_content (req_input b)) (opt_max_output_tokens (req_options b)) in
  (limit < c + est ∨ est < 0)%Z → no_nul trace = true →
  ∃ w' r, run_once settings auth hs key trace b w = (w', r) ∧ run_outcome (au_tenant_id auth) key trace c est w w' r.
Proof.
  intros Hready Hc. cbn zeta. set (est := estimate_tokens _ _). set (t := au_tenant_id auth) in *. intros Hout Htr.
  unfold run_once, reserve_run. fold est t.
  destruct (fresh_id_run "run_" w eq_refl) as (x1 & run & Hid & _). unfold bind at 1 2. rewrite Hid.
  set (w1 := w <| gw_ext := x1 |>).
  destruct (Z.ltb_spec limit (c + est)) as [Hlt|Hle].
  - destruct (reserve_rejected (gst_quota_manager settings) t "sync" run est
                (gst_sync_timeout_seconds settings) limit c (gw_quota w1)) as (q' & ttl & Hres & Hq'); try done.
    rewrite (bind_inr _ _ _ _ _ (in_quota_run _ _ _ _ Hres)). cbn [negb rr_accepted].
    edestruct @reject_over_quota_run as (rest & hs' & ->); [exact Htr|].
    eexists _, _. split; [reflexivity|].
    eapply RunRefused; [by left|cbn; by rewrite Hq'|reflexivity].
  - destruct (reserve_accepted (gst_quota_manager settings) t "sync" run est
              (gst_sync_timeout_seconds settings) limit c (gw_quota w1))
      as (q1 & ttl & Hres & Hc1 & _); try done.
    rewrite (bind_inr _ _ _ _ _ (in_quota_run _ _ _ _ Hres)). cbn [negb rr_accepted rr_reservation_key].
    unfold check_budget. destruct (Z.leb_spec 0 est); [lia|].
    eexists _, _. split; [reflexivity|]. apply RunLost; [by left|done..].
Qed.

Lemma run_once_outcome settings auth hs key trace b limit c w :
  pool_ready (gst_quota_manager settings) "sync" (gst_sync_timeout_seconds settings) limit →
  counter (quota_key (au_tenant_id auth) "sync") (q_redis (gw_quota w)) = Some c →
  no_nul trace = true →
  let est := estimate_tokens (ain_content (req_input b)) (opt_max_output_tokens (req_options b)) in
  ∃ w' r, run_once settings auth hs key trace b w = (w', r) ∧
    run_outcome (au_tenant_id auth) key trace c est w w' r.
Proof.
  intros Hready Hc Htr. cbn zeta. set (est := estimate_tokens _ _).
  destruct (Z.ltb_spec limit (c + est)); [by eapply run_once_rejected; [..|left|]|].
  destruct (Z.ltb_spec est 0); [by eapply run_once_rejected; [..|right|]|].
  destruct (run_once_accepted settings auth hs key trace b limit c w)
    as (run & x1 & _ & x2 & outcome & w' & r & Hrun & Honce & _ & Hsettled); [done..|].
  exists w', r. split; [done|]. unfold settled in Hsettled. fold est in Hsettled.
  match type of Hrun with harness_run ?q x1 = _ =>
    destruct (harness_run_cases q x1) as [(x' & resp & Hrun' & Hwf)|[(x' & e & Hrun' & He & _)|(x' & m & Hrun')]] end;
    pose proof Hrun as Hcall; rewrite Hrun in Hrun'; injection Hrun' as -> ->; cbn beta iota zeta in Hsettled.
  - destruct Hsettled as [Hcount Hdb]. destruct (jsonb_ok (dump_response resp)) eqn:Hb; destruct Hdb as [-> Hdb].
    + by apply RunAnswered.
    + by eapply RunUnstored.
  - rewrite He in Hsettled. destruct Hsettled as (-> & Hcount & Hdb). eapply RunRefused; [|done|exact Hdb].
    unfold unavailable_status. destruct e; auto.
  - destruct Hsettled as (-> & Hcount & Hdb). apply RunLost; [right; by eexists _, _, _|done..].
Qed.

#[local] Arguments idem_row : simpl never.
#[local] Arguments add_row : simpl never.
#[local] Arguments complete_row : simpl never.

Lemma validate_response_error err rest : validate_response (JObj (("error", err) :: rest)) = None.
Proof. reflexivity. Qed.

(** The second request with the key of a completed one. *)
Lemma invoke_replay settings b hs auth key trace w body status r :
  admitted (X := X) (R := R) settings hs auth key trace →
  idem_row (gw_db w) (au_tenant_id auth) key
    = Some (MkExistingRecord (body_hash b) (Some body) (Some status)) →
  validate_response body = Some r →
  invoke settings b hs w = (w, inr (MkReply (status_or (Some status) 200) trace r)).
Proof.
  intros Hadm Hrow Hv. rewrite (invoke_admitted _ _ _ _ _ _ _ Hadm), Hrow.
  unfold gate_taken; cbn [idem_request_hash idem_response_body idem_status_code].
  rewrite String.eqb_refl. cbn [negb]. by rewrite Hv.
Qed.

Definition request_tokens (b : AgentInvokeRequest) : Z :=
  estimate_tokens (ain_content (req_input b)) (opt_max_output_tokens (req_options b)).

Definition with_row w (auth : AuthContext) (key : string) (b : AgentInvokeRequest) : GatewayState R X :=
  w <| gw_db := add_row (gw_db w) (au_tenant_id auth) key (body_hash b) |>.

Lemma invoke_first settings b hs auth key trace limit c w :
  admitted (X := X) (R := R) settings hs auth key trace →
  idem_row (gw_db w) (au_tenant_id auth) key = None →
  pool_ready (gst_quota_manager settings) "sync" (gst_sync_timeout_seconds settings) limit →
  counter (quota_key (au_tenant_id auth) "sync") (q_redis (gw_quota w)) = Some c →
  ∃ w' r, invoke settings b hs w = (w', r) ∧
    run_outcome (au_tenant_id auth) key trace c (request_tokens b) (with_row w auth key b) w' r.
Proof.
  intros Hadm Hrow Hready Hc. rewrite (invoke_admitted _ _ _ _ _ _ _ Hadm), Hrow.
  apply (run_once_outcome settings auth hs key trace b limit c (with_row w auth key b)); [done..|]. apply Hadm.
Qed.


(** C18: Idempotent replay. Once an invocation succeeded, a retry with the same
    key and body is answered with the same status and response, and changes
    nothing: no run, no reservation, no row. *)
Theorem invoke_idempotent settings b hs hs2 auth key trace trace2 limit c w w' reply :
  admitted (X := X) (R := R) settings hs auth key trace →
  admitted (X := X) (R := R) settings hs2 auth key trace2 →
  pool_ready (gst_quota_manager settings) "sync" (gst_sync_timeout_seconds settings) limit →
  counter (quota_key (au_tenant_id auth) "sync") (q_redis (gw_quota w)) = Some c →
  invoke settings b hs w = (w', inr reply) →
  invoke settings b hs2 w' = (w', inr (reply <| rp_trace_id := trace2 |>)).
Proof.
  intros Hadm Hadm2 Hready Hc Hinv.
  destruct (idem_row (gw_db w) (au_tenant_id auth) key) as [row|] eqn:Hrow.
  - rewrite (invoke_admitted _ _ _ _ _ _ _ Hadm), Hrow in Hinv. injection Hinv as <- Hg.
    rewrite (invoke_admitted _ _ _ _ _ _ _ Hadm2), Hrow. f_equal.
    destruct (gate_taken _ _ _ _) as [|[[]|]]; try done. by injection Hg as <-.
  - destruct (invoke_first _ b _ _ _ _ _ _ _ Hadm Hrow Hready Hc) as (w1 & r & Hinv1 & Hout).
    rewrite Hinv in Hinv1. injection Hinv1 as <- <-. inversion Hout as [resp Hwf Hq Hb Hdb| | |]; subst.
    change (invoke settings b hs2 w' = (w', inr (MkReply (status_or (Some 200%Z) 200) trace2 resp))).
    eapply invoke_replay; [done| |by apply response_round].
    rewrite Hdb. by erewrite complete_row_lookup by apply add_row_lookup.
Qed.

(** A failed request cannot be re-attempted with its key. After a 429, 503
    or 504 the stored error body is not an AgentInvokeResponse, so every retry
    with the same key and body raises a ValidationError (an unhandled error, not
    the stored status) and leaves everything as it is. *)
Theorem invoke_failure_poisons_key settings b hs hs2 auth key trace trace2 limit c w w' status detail rh :
  admitted (X := X) (R := R) settings hs auth key trace →
  admitted (X := X) (R := R) settings hs2 auth key trace2 →
  idem_row (gw_db w) (au_tenant_id auth) key = None →
  pool_ready (gst_quota_manager settings) "sync" (gst_sync_timeout_seconds settings) limit →
  counter (quota_key (au_tenant_id auth) "sync") (q_redis (gw_quota w)) = Some c →
  invoke settings b hs w = (w', inl (HTTPException status detail rh)) →
  ∃ m, invoke settings b hs2 w' = (w', inl (ValidationError m)).
Proof.
  intros Hadm Hadm2 Hrow Hready Hc Hinv.
  destruct (invoke_first _ b _ _ _ _ _ _ _ Hadm Hrow Hready Hc) as (w1 & r & Hinv1 & Hout).
  rewrite Hinv in Hinv1. injection Hinv1 as <- <-.
  inversion Hout as [| |s' body hs' err rest Hst Hq Hdb Heq|]; subst.
  eexists. rewrite (invoke_admitted _ _ _ _ _ _ _ Hadm2), Hdb.
  erewrite complete_row_lookup by apply add_row_lookup. unfold gate_taken; cbn [idem_request_hash idem_response_body].
  rewrite String.eqb_refl. cbn [negb]. by rewrite validate_response_error.
Qed.

(** ** Jobs *)

Definition job_hash (b : AgentJobRequest) : string :=
  sha256_hex (model_dump_json (JObj (job_request_fields b))).

Lemma submit_admitted settings b hs auth key trace w :
  admitted (X := X) (R := R) settings hs auth key trace →
  idem_row (gw_db w) (au_tenant_id auth) key = None →
  submit_job settings b hs w =
    enqueue_once settings auth key trace b
      (w <| gw_db := add_row (gw_db w) (au_tenant_id auth) key (job_hash b) |>).
Proof.
  intros Hadm Hrow. unfold submit_job.
  rewrite (bind_inr _ _ _ _ _ (proj1 Hadm w)).
  rewrite (bind_inr _ _ _ _ _ (request_ids_admitted _ _ _ _ _ w Hadm)).
  unfold bind, in_db, zoom. fold (job_hash b). by rewrite (gate_new _ _ _ _ _ _ Hrow).
Qed.

(** The message of an accepted job. *)
Definition job_message (auth : AuthContext) (trace : string) (b : AgentJobRequest) (job_id : string) : AsyncJobMessage :=
  let t := au_tenant_id auth in
  {| job_job_id := job_id; job_tenant_id := t; job_priority := jrq_priority b;
     job_run_request := build_run_request auth job_id trace "async" ASYNC (request_tokens (jrq_base b)) false (jrq_base b);
     job_callback_url := jrq_callback_url b; job_callback_secret_ref := jrq_callback_secret_ref b; job_attempts := 0;
     job_quota_reservation_key := Some (reservation_key t "async" job_id) |}.

(** What an accepted job leaves behind: the queued row, the message the broker
    took, and the reservation it names, which the worker will settle. *)
Definition enqueued (auth : AuthContext) (trace : string) (b : AgentJobRequest) (job_id : string)
    (w w' : GatewayState R X) : Prop :=
  let t := au_tenant_id auth in
  jdb_async_jobs (gw_db w') !! job_id
    = Some (MkJobRow t (au_user_id auth) trace (enum_value (jrq_priority b))
              (JObj (job_request_fields b)) "queued" 0 None None (jrq_callback_url b) None
              (jdb_now (gw_db w)) None None) ∧
  (∃ x, basic_publish JOBS_EXCHANGE (routing_key (jrq_priority b) t) (job_message auth trace b job_id) x
        = (gw_ext w', inr tt)) ∧
  (0 ≤ request_tokens (jrq_base b))%Z ∧
  ∃ deadline, GET (reservation_key t "async" job_id) (q_redis (gw_quota w'))
              = Some (VJson (reservation_payload (request_tokens (jrq_base b)) deadline (quota_key t "async"))).

Lemma insert_job_run t j u tr p pl cb d :
  jsonb_ok pl = true → jdb_async_jobs d !! j = None →
  tenant_session t (insert_async_job j t u tr p pl cb) d
  = (d <| jdb_async_jobs ::= <[j := MkJobRow t u tr p pl "queued" 0 None None cb None (jdb_now d) None None]> |>,
     inr tt).
Proof.
  intros Hpl Hj. unfold tenant_session, atomically, insert_async_job, jsonb_param, bind. rewrite Hpl. cbn [ret].
  rewrite rls_check_ok by done. unfold gets. cbn. by rewrite Hj.
Qed.

Lemma insert_job_dup t j u tr p pl cb d row :
  jsonb_ok pl = true → jdb_async_jobs d !! j = Some row →
  tenant_session t (insert_async_job j t u tr p pl cb) d = (d, inl (IntegrityError "async_jobs_pkey")).
Proof.
  intros Hpl Hj. unfold tenant_session, atomically, insert_async_job, jsonb_param, bind. rewrite Hpl. cbn [ret].
  rewrite rls_check_ok by done. unfold gets. cbn. by rewrite Hj.
Qed.

Lemma insert_job_refused t j u tr p pl cb d :
  jsonb_ok pl = false → tenant_session t (insert_async_job j t u tr p pl cb) d = (d, inl jsonb_refused).
Proof. intros Hpl. unfold tenant_session, atomically, insert_async_job, jsonb_param, bind. by rewrite Hpl. Qed.

Lemma in_db_run {A} (m : py JobsDb A) w d r :
  m (gw_db w) = (d, r) → in_db m w = (w <| gw_db := d |>, r).
Proof. intros Hm. unfold in_db, zoom. by rewrite Hm. Qed.

(** What submitting a job with a new key leaves behind. A 202 means the job
    is a queued row of the caller, one message went to the jobs exchange under
    the tenant's routing key naming the job and its reservation, the async
    bucket holds the estimate, and the acceptance is stored for replay. A 429
    leaves the bucket as it was. Any other failure (the broker, the insert)
    keeps the reservation and leaves the key in progress. *)
Theorem submit_job_outcome settings b hs auth key trace limit c w :
  admitted (X := X) (R := R) settings hs auth key trace →
  idem_row (gw_db w) (au_tenant_id auth) key = None →
  pool_ready (gst_quota_manager settings) "async" (gst_async_job_deadline_seconds settings) limit →
  counter (quota_key (au_tenant_id auth) "async") (q_redis (gw_quota w)) = Some c →
  ∃ w' out, submit_job settings b hs w = (w', out) ∧
    let held n := counter (quota_key (au_tenant_id auth) "async") (q_redis (gw_quota w')) = Some n in
    let est := request_tokens (jrq_base b) in
    match out with
    | inr (MkReply status tr acc) =>
        status = 202%Z ∧ tr = trace ∧ acc_trace_id acc = trace ∧ held (c + est)%Z ∧ (c + est ≤ limit)%Z ∧
        enqueued auth trace b (acc_job_id acc) w w' ∧
        idem_row (gw_db w') (au_tenant_id auth) key
          = Some (MkExistingRecord (job_hash b) (Some (dump_accepted acc)) (Some 202%Z))
    | inl e =>
        (∃ detail rh, e = HTTPException 429 detail rh ∧ held c ∧ (limit < c + est)%Z ∧
           jdb_async_jobs (gw_db w') = jdb_async_jobs (gw_db w)) ∨
        held (c + est)%Z ∧
          idem_row (gw_db w') (au_tenant_id auth) key = Some (MkExistingRecord (job_hash b) None None)
    end.
Proof.
  intros Hadm Hrow Hready Hc. rewrite (submit_admitted _ _ _ _ _ _ _ Hadm Hrow).
  set (w0 := w <| gw_db := _ |>). set (t := au_tenant_id auth) in *. cbn zeta.
  set (est := request_tokens (jrq_base b)). unfold enqueue_once, reserve_job. fold t. fold (request_tokens (jrq_base b)) est.
  destruct (fresh_id_run "job_" w0 eq_refl) as (x1 & job & Hid & Hjobtext). rewrite bind_assoc, (bind_inr _ _ _ _ _ Hid), bind_assoc.
  set (w1 := w0 <| gw_ext := x1 |>).
  destruct (Z.ltb_spec limit (c + est)) as [Hlt|Hle].
  { (* over quota *)
    destruct (reserve_rejected (gst_quota_manager settings) t "async" job est
                (gst_async_job_deadline_seconds settings) limit c (gw_quota w1)) as (q' & ttl & Hres & Hq'); try done.
    rewrite (bind_inr _ _ _ _ _ (in_quota_run _ _ _ _ Hres)). cbn [negb rr_accepted].
    edestruct @reject_over_quota_run as (rest & hs' & Hrej); [apply Hadm|]. rewrite (bind_inl _ _ _ _ _ Hrej).
    eexists _, _. split; [reflexivity|]. left. eexists _, _. split; [reflexivity|].
    cbn. by rewrite Hq'. }
  destruct (reserve_accepted (gst_quota_manager settings) t "async" job est
              (gst_async_job_deadline_seconds settings) limit c (gw_quota w1))
    as (q1 & ttl & Hres & Hc1 & (dl & Hheld & _)); try done.
  rewrite (bind_inr _ _ _ _ _ (in_quota_run _ _ _ _ Hres)). cbn [negb rr_accepted rr_reservation_key].
  set (w2 := w1 <| gw_quota := q1 |>).
  assert (idem_row (gw_db w2) t key = Some (MkExistingRecord (job_hash b) None None)) as Hidem
    by apply add_row_lookup.
  unfold check_budget. destruct (Z.leb_spec 0 est) as [Hest|]; [|eexists _, _; split; [reflexivity|]; by right].
  rewrite bind_assoc, (bind_inr _ _ w2 w2 tt), (bind_inr (ret _) _ w2 w2 _) by done.
  cbn [build_run_request run_run_id]. unfold insert_job, send_job, accept_job. fold t. cbn zeta.
  destruct (jsonb_ok (JObj (job_request_fields b))) eqn:Hpayload.
  2:{ eapply insert_job_refused, in_db_run in Hpayload. rewrite (bind_inl _ _ _ _ _ Hpayload).
      eexists _, _. split; [reflexivity|]. by right. }
  destruct (jdb_async_jobs (gw_db w2) !! job) as [row|] eqn:Hjob.
  { eapply (insert_job_dup _ _ _ _ _ _ _ _ _ Hpayload), in_db_run in Hjob. rewrite (bind_inl _ _ _ _ _ Hjob).
    eexists _, _. split; [reflexivity|]. by right. }
  eapply (insert_job_run _ _ _ _ _ _ _ _ Hpayload), in_db_run in Hjob. rewrite (bind_inr _ _ _ _ _ Hjob). clear Hjob.
  match goal with |- context [in_ext (publish_job ?m)] => set (msg := m) end.
  match goal with |- context [bind (in_ext _) _ ?w] => set (w3 := w) end.
  destruct (publish_job msg (gw_ext w3)) as [x2 [e|[]]] eqn:Hpub;
    pose proof Hpub as Hext; apply in_ext_run in Hext.
  { rewrite (bind_inl _ _ _ _ _ Hext). eexists _, _. split; [reflexivity|]. by right. }
  rewrite (bind_inr _ _ _ _ _ Hext). match goal with |- context [complete t key ?acc 202] => assert (Hacc : jsonb_ok acc = true) end.
  { cbn -[no_nul String.append]. by rewrite no_nul_app, Hjobtext, (proj2 (proj2 (proj2 (proj2 (proj2 Hadm))))). }
  rewrite (bind_inr _ _ _ _ _ (in_db_complete _ _ _ _ _ Hacc)).
  eexists _, _. split; [reflexivity|]. cbn [ret].
  split; [done|]. split; [done|]. split; [done|]. split; [done|]. split; [done|]. split; [split_and!|].
  - unfold complete_row. cbn. by rewrite lookup_insert_eq.
  - by exists (gw_ext w3).
  - exact Hest.
  - by exists dl.
  - etrans; [apply complete_row_lookup; exact Hidem|done].
Qed.
End Run.

(** ** Rows stay *)

(** No row ever disappears: what every statement of the gateway does. *)
Definition keeps_rows (d d' : JobsDb) : Prop :=
  ∀ t k, is_Some (idem_row d t k) → is_Some (idem_row d' t k).

Lemma tenant_session_keeps {A} t (m : py JobsConn A) :
  (∀ c, keeps_rows (jc_db c) (jc_db (m c).1)) → frames keeps_rows (tenant_session t m).
Proof.
  intros Hm d. unfold tenant_session, atomically. specialize (Hm (MkJobsConn t d)).
  destruct (m (MkJobsConn t d)) as [c [e|a]]; cbn in *; [by intros ?|done].
Qed.

(** ** Tenant isolation *)

Section Isolation.
  Context {R X : Type} `{Redis R, HarnessHttp X, Broker X, Uuid X, Jwt, Hashing, Pydantic}.
  Implicit Types (w : GatewayState R X).

#[export] Instance keeps_rows_preorder : PreOrder keeps_rows.
Proof. split; [by intros d t k|]. intros a b c Hab Hbc t k Hr. by apply Hbc, Hab. Qed.

(** A relation between databases that every statement the handlers run keeps,
    in the sessions of tenant [t]. *)
Record statements_frame (t : string) (Q : JobsDb → JobsDb → Prop) : Prop := {
  sf_gate {A} (dec : json → option A) name k h : frames Q (idempotency_gate dec name t k h);
  sf_complete k body status : frames Q (tenant_session t (complete t k body status));
  sf_insert j u tr p pl cb : frames Q (tenant_session t (insert_async_job j t u tr p pl cb));
  sf_get j : frames Q (tenant_session t (get_async_job t j))
}.

Section Handlers.
  Variables (t : string) (Q : JobsDb → JobsDb → Prop).
  Context `{!PreOrder Q} (Hst : statements_frame t Q).

Definition db_step w w' : Prop := Q (gw_db w) (gw_db w').

#[local] Instance db_step_preorder : PreOrder db_step.
Proof. split; [by intros w; unfold db_step|]. intros a b c Hab Hbc. unfold db_step in *. by etrans. Qed.

Lemma quota_db_step {A} (m : py (QuotaState R) A) : frames db_step (in_quota m).
Proof. intros w. unfold in_quota, zoom, db_step. by destruct (m _). Qed.

Lemma ext_db_step {A} (m : py X A) : frames db_step (in_ext m).
Proof. intros w. unfold in_ext, zoom, db_step. by destruct (m _). Qed.

Lemma in_db_step {A} (m : py JobsDb A) : frames Q m → frames db_step (in_db m).
Proof. intros Hm w. specialize (Hm (gw_db w)). unfold in_db, zoom, db_step. by destruct (m _). Qed.

Lemma fresh_id_db_step prefix : frames db_step (fresh_id (R := R) (X := X) prefix).
Proof. apply ext_db_step. Qed.

#[local] Hint Resolve quota_db_step ext_db_step fresh_id_db_step : frames.
#[local] Hint Extern 2 (frames db_step (in_db _)) => apply in_db_step; apply Hst : frames.

(** Compose the frames of the actions of a handler, branch by branch. *)
#[local] Ltac framed :=
  repeat first
    [ progress intros
    | solve [eauto with frames typeclass_instances]
    | apply (frames_bind db_step); [solve [eauto with frames typeclass_instances]|]
    | apply (frames_try db_step)
    | apply (frames_ret db_step) | apply (frames_raise db_step)
    | apply (frames_bind db_step)
    | case_match; simplify_eq ].

Lemma reject_over_quota_step {A} k tr rr :
  frames db_step (reject_over_quota (A := A) (R := R) (X := X) t k tr rr).
Proof. unfold reject_over_quota. framed. Qed.

Lemma harness_failed_step {A} k tr rk e :
  frames db_step (harness_failed (A := A) (R := R) (X := X) t k tr rk e).
Proof. unfold harness_failed. framed. Qed.

Lemma request_ids_step hs : frames db_step (request_ids (R := R) (X := X) hs).
Proof. unfold request_ids. framed. Qed.

#[local] Hint Resolve reject_over_quota_step harness_failed_step request_ids_step : frames.

Lemma call_harness_step request : frames db_step (call_harness (R := R) (X := X) request).
Proof. intros w. unfold call_harness, in_ext, zoom, db_step. by destruct (harness_run _ _). Qed.

#[local] Hint Resolve call_harness_step : frames.

Definition of_tenant (auth : AuthContext) : Prop := au_tenant_id auth = t.

Lemma reserve_run_step settings auth hs k tr b :
  of_tenant auth → frames db_step (reserve_run (R := R) (X := X) settings auth hs k tr b).
Proof. intros Ht. unfold reserve_run, check_budget. rewrite Ht. clear Ht. framed. Qed.

Lemma settle_run_step auth k tr rkey outcome :
  of_tenant auth → frames db_step (settle_run (R := R) (X := X) auth k tr rkey outcome).
Proof. intros Ht. unfold settle_run. rewrite Ht. clear Ht. framed. Qed.

#[local] Hint Resolve reserve_run_step settle_run_step : frames.

Lemma run_once_step settings auth hs k tr b :
  of_tenant auth → frames db_step (run_once (R := R) (X := X) settings auth hs k tr b).
Proof.
  intros Ht. unfold run_once. framed.
Qed.

Lemma enqueue_once_step settings auth k tr b :
  of_tenant auth → frames db_step (enqueue_once (R := R) (X := X) settings auth k tr b).
Proof.
  intros Ht. unfold enqueue_once, reserve_job, insert_job, send_job, accept_job, check_budget.
  rewrite Ht. clear Ht. framed.
Qed.

Lemma validate_if_truthy_step {A} (dec : json → option A) name v :
  frames db_step (validate_if_truthy (R := R) (X := X) dec name v).
Proof. unfold validate_if_truthy, model_validate. framed. Qed.

Lemma proxy_step {A} (call : py X HttpResponse) (dec : json → option A) name :
  frames db_step (proxy (R := R) call dec name).
Proof. unfold proxy, unavailable, model_validate. framed. Qed.

#[local] Hint Resolve run_once_step enqueue_once_step validate_if_truthy_step proxy_step : frames.

(** Every handler of an authenticated request keeps [Q]. *)
Lemma handlers_step settings hs auth w :
  (∀ A (k : AuthContext → py (GatewayState R X) A), frames db_step (k auth) →
     db_step w (bind (authenticate (gst_jwt_signing_secret settings) hs) k w).1) →
  of_tenant auth →
  (∀ b, db_step w (invoke settings b hs w).1) ∧
  (∀ b, db_step w (submit_job settings b hs w).1) ∧
  (∀ j, db_step w (get_job settings j hs w).1) ∧
  (∀ i d, db_step w (approval_decision settings i d hs w).1) ∧
  (∀ n b, db_step w (admin_killswitch_tool settings n b hs w).1) ∧
  (∀ n b, db_step w (admin_killswitch_agent settings n b hs w).1).
Proof.
  intros Hk Ht. repeat split_and; intros; apply Hk; unfold require_killswitch_permission, model_validate;
    rewrite ?Ht; framed.
Qed.
End Handlers.

(** What a tenant's request may do to the [jobs] schema: its own rows, none of
    them deleted. *)
Definition tenant_only (t : string) (d d' : JobsDb) : Prop := agree_outside t d d' ∧ keeps_rows d d'.

Definition tenant_step (t : string) w w' : Prop := tenant_only t (gw_db w) (gw_db w').

#[local] Instance tenant_only_preorder t : PreOrder (tenant_only t).
Proof. split; [by intros d|]. intros a b c [Hab Kab] [Hbc Kbc]. split; by etrans. Qed.

Lemma session_tenant_only {A} t (m : py JobsConn A) :
  frames conn_step m → (∀ c, keeps_rows (jc_db c) (jc_db (m c).1)) →
  frames (tenant_only t) (tenant_session t m).
Proof.
  intros Hm Hk d. split; [by apply tenant_session_isolated|by apply tenant_session_keeps].
Qed.

Lemma tenant_only_statements t : statements_frame t (tenant_only t).
Proof.
  split.
  - intros A dec name k h d. destruct (idem_row d t k) as [row|] eqn:Hrow.
    + by rewrite (gate_old _ _ _ _ _ _ _ Hrow).
    + rewrite (gate_new _ _ _ _ _ _ Hrow). split; cbn.
      * split; [|done]. intros t' k' Ht. unfold add_row. cbn. rewrite lookup_insert_ne; congruence.
      * intros t' k' [row Hr]. unfold idem_row, add_row in *. cbn.
        destruct (decide ((t, k) = (t', k'))) as [<-|]; [by rewrite lookup_insert_eq; eexists|].
        rewrite lookup_insert_ne by done. by eexists.
  - intros k body status. apply session_tenant_only; [apply complete_step|]. intros c t' k' Hr.
    unfold complete, jsonb_param, bind, modify. destruct (jsonb_ok body); [|done]. cbn. destruct (String.eqb _ _); [|done].
    unfold idem_row in *. cbn. by rewrite lookup_alter_is_Some.
  - intros j u tr p pl cb. apply session_tenant_only; [apply insert_async_job_step|]. intros c t' k' Hr.
    unfold insert_async_job, jsonb_param, rls_check, bind, gets. destruct (jsonb_ok pl); [|done]. cbn.
    destruct (String.eqb _ _); [|done]. cbn. by destruct (jdb_async_jobs (jc_db c) !! j).
  - intros j. apply session_tenant_only; [apply get_async_job_step|]. by intros c.
Qed.

(** C17: Tenant isolation of the gateway. Whatever a request authenticated as a
    tenant does - invoke, submit a job, read a job, decide an approval, flip a
    kill switch, on every branch and error path - every row of every other
    tenant in jobs.idempotency_keys and jobs.async_jobs is as it was, and no
    idempotency row of anyone disappears. *)
Theorem requests_touch_own_rows settings hs auth w :
  authenticate (gst_jwt_signing_secret settings) hs w = (w, inr auth) →
  let t := au_tenant_id auth in
  (∀ b, tenant_step t w (invoke settings b hs w).1) ∧
  (∀ b, tenant_step t w (submit_job settings b hs w).1) ∧
  (∀ j, tenant_step t w (get_job settings j hs w).1) ∧
  (∀ i d, tenant_step t w (approval_decision settings i d hs w).1) ∧
  (∀ n b, tenant_step t w (admin_killswitch_tool settings n b hs w).1) ∧
  (∀ n b, tenant_step t w (admin_killswitch_agent settings n b hs w).1).
Proof.
  intros Hauth t. apply (handlers_step t _ (tenant_only_statements t) settings hs auth w); [|done].
  intros A k Hf. rewrite (bind_inr _ _ _ _ _ Hauth). apply Hf.
Qed.

(** The caller's row of a job. *)
Definition own_job w (t j : string) : option JobRow :=
  row ← jdb_async_jobs (gw_db w) !! j; if String.eqb (jrow_tenant_id row) t then Some row else None.

Lemma own_job_read w t j :
  in_db (tenant_session t (get_async_job t j)) w = (w, inr (own_job w t j)).
Proof.
  unfold in_db, zoom, tenant_session, atomically, get_async_job, gets, own_job.
  destruct w as [q d x]. cbn. rewrite String.eqb_refl. f_equal. f_equal.
  destruct (_ !! j) as [row|]; [cbn|done]. by rewrite andb_true_r.
Qed.

(** A stored document reads as an optional model. *)
Definition stored {A} (dec : json → option A) (v : option json) (a : option A) : Prop :=
  match v with
  | Some doc => truthy doc = true ∧ is_Some a ∧ dec doc = a
  | None => a = None
  end.

Lemma validate_stored {A} (dec : json → option A) name v a w :
  stored dec v a → validate_if_truthy dec name v w = (w, inr a).
Proof.
  unfold stored, validate_if_truthy, model_validate. destruct v as [doc|]; [|by intros ->].
  intros (-> & [x ->] & ->). reflexivity.
Qed.

(** A job is visible to its tenant only. A job of another tenant and one
    that does not exist give the same 404; the caller's own job reads back with
    the status, attempts, result, error and times of its row; and reading
    changes nothing. *)
Theorem get_job_tenant_scoped settings hs auth w j :
  authenticate (gst_jwt_signing_secret settings) hs w = (w, inr auth) →
  match own_job w (au_tenant_id auth) j with
  | None => get_job settings j hs w
            = (w, inl (HTTPException 404 (JStr "unknown job_id for this tenant") []))
  | Some row =>
      ∀ st res err, (0 ≤ jrow_attempts row)%Z →
        enum_of_string (jrow_status row) = Some st →
        stored validate_response (jrow_result row) res →
        stored validate_job_error (jrow_error row) err →
        get_job settings j hs w
        = (w, inr (MkAgentJobStatusResponse j st (jrow_attempts row) res err (jrow_created_at row)
                     (jrow_completed_at row)))
  end.
Proof.
  intros Hauth.
  pose proof (own_job_read w (au_tenant_id auth) j) as Hread.
  unfold get_job. rewrite (bind_inr _ _ _ _ _ Hauth), (bind_inr _ _ _ _ _ Hread).
  destruct (own_job _ _ _) as [row|]; [|done]. intros st res err Hn -> Hres Herr.
  rewrite (bind_inr _ _ w w st) by done.
  rewrite (bind_inr _ _ _ _ _ (validate_stored _ _ _ _ w Hres)).
  rewrite (bind_inr _ _ _ _ _ (validate_stored _ _ _ _ w Herr)). by destruct (Z.ltb_spec (jrow_attempts row) 0); [lia|].
Qed.

(** The kill switches need a permission. Without
    platform.killswitch.manage both admin endpoints answer 403 before anything
    is called or changed; with it, agent-harness is asked exactly the switch the
    caller named, in the caller's name. *)
Theorem killswitch_needs_permission settings hs auth w name b :
  authenticate (gst_jwt_signing_secret settings) hs w = (w, inr auth) →
  let refused := (w, inl (HTTPException 403
     (JStr "missing required permission: platform.killswitch.manage") [])) in
  let r := MkKillswitchInternalRequest (ksq_disabled b) (ksq_reason b) (au_user_id auth) in
  if str_in KILLSWITCH_MANAGE_PERMISSION (au_permissions auth) then
    admin_killswitch_tool settings name b hs w
      = proxy (post_killswitch_tool name r) validate_killswitch "KillswitchResponse" w ∧
    admin_killswitch_agent settings name b hs w
      = proxy (post_killswitch_agent name r) validate_killswitch "KillswitchResponse" w
  else admin_killswitch_tool settings name b hs w = refused ∧
       admin_killswitch_agent settings name b hs w = refused.
Proof.
  intros Hauth. cbn zeta. unfold admin_killswitch_tool, admin_killswitch_agent.
  rewrite !(bind_inr _ _ _ _ _ Hauth). unfold require_killswitch_permission.
  destruct (str_in _ _); by split.
Qed.
End Isolation.

(** ** The theorems at a concrete gateway *)

Module Witness.
Import Demo.

Lemma demo_client_laws : ClientLaws (X := env).
Proof.
  split; [| |done].
  - intros x. eexists _, _. split; [reflexivity|apply no_nul_Z].
  - intros x x' r e. unfold post_runs, env_http, answer. cbn.
    destruct (e_answers x) as [|[m|resp] rest]; intros Heq; try done; injection Heq as <- <-; done.
Qed.
#[local] Existing Instance demo_client_laws.

Definition auth : AuthContext :=
  MkAuthContext "tnt_a" "usr_1" [] None ["leave.request.create"] [] [] "tnt_a".

Lemma demo_admitted : admitted (R := Store.store) (X := env) settings hs auth "k1" "trc_1".
Proof. by repeat split. Qed.

Lemma demo_pool_ready pool :
  pool = "sync" ∨ pool = "async" →
  ∃ limit, pool_ready (gst_quota_manager settings) pool (f64_of_Z 30) limit.
Proof. intros [-> | ->]; (eexists; split; [reflexivity|]; eexists; split; [reflexivity|done]). Qed.

Definition charged_tokens (out : exn + Reply AgentInvokeResponse) : option Z :=
  match out with
  | inr r => Some (usg_input_tokens (res_usage (rp_body r)) + usg_output_tokens (res_usage (rp_body r)))%Z
  | inl _ => None
  end.

Definition invoked (answers : list (string + HttpResponse)) :=
  invoke settings request hs (world answers).

Lemma invoked_ok : charged_tokens (invoked [inr ok_response]).2 = Some 50%Z.
Proof. vm_compute. reflexivity. Qed.

Lemma demo_sync_ready : pool_ready (gst_quota_manager settings) "sync" (f64_of_Z 30) 5000.
Proof. split; [reflexivity|]. eexists. by split. Qed.

Lemma demo_async_ready : pool_ready (gst_quota_manager settings) "async" (f64_of_Z 600) 50000.
Proof. split; [reflexivity|]. eexists. by split. Qed.

Lemma demo_counter pool answers :
  counter (quota_key "tnt_a" pool) (q_redis (gw_quota (world answers))) = Some 0%Z.
Proof. reflexivity. Qed.


Lemma invoke_idempotent_witness :
  ∃ w' reply, invoked [inr ok_response] = (w', inr reply) ∧
    invoke settings request (hs ++ [("x-eval-mode", "true")]) w' = (w', inr reply).
Proof.
  pose proof invoked_ok as Hok. unfold invoked in *.
  destruct (invoke settings request hs (world [inr ok_response])) as [w' [e|reply]] eqn:Hinv;
    [discriminate Hok|].
  exists w', reply. split; [reflexivity|].
  assert (Htr : rp_trace_id reply = "trc_1").
  { destruct (invoke_first settings request hs auth "k1" "trc_1" 5000 0 (world [inr ok_response])
                demo_admitted eq_refl demo_sync_ready (demo_counter _ _)) as (w1 & r & Hinv1 & Hout).
    rewrite Hinv in Hinv1. injection Hinv1 as <- <-. by inversion Hout. }
  pose proof (invoke_idempotent settings request hs (hs ++ [("x-eval-mode", "true")]) auth "k1" "trc_1"
    "trc_1" 5000 0 (world [inr ok_response]) w' reply demo_admitted
    ltac:(by repeat split) demo_sync_ready (demo_counter _ _) Hinv) as Hrep.
  rewrite <- Htr in Hrep. by destruct reply.
Defined.

Lemma invoke_failure_poisons_key_witness :
  ∃ w' detail rh m, invoked [inl "timed out"] = (w', inl (HTTPException 504 detail rh)) ∧
    invoke settings request hs w' = (w', inl (ValidationError m)).
Proof.
  assert (Hst : match (invoked [inl "timed out"]).2 with
                | inl (HTTPException s _ _) => s | _ => 0%Z end = 504%Z)
    by (vm_compute; reflexivity).
  unfold invoked in *.
  destruct (invoke settings request hs (world [inl "timed out"])) as [w' [e|reply]] eqn:Hinv;
    [|discriminate Hst].
  destruct e; try discriminate Hst. cbn [fst snd] in Hst. subst.
  destruct (invoke_failure_poisons_key settings request hs hs auth "k1" "trc_1" "trc_1" 5000 0
    (world [inl "timed out"]) w' 504 detail headers demo_admitted demo_admitted eq_refl
    demo_sync_ready (demo_counter _ _) Hinv) as [m Hm].
  by exists w', detail, headers, m.
Defined.

Definition job_request : AgentJobRequest := MkAgentJobRequest request BULK None None.

Lemma submit_job_outcome_witness :
  ∃ w' out, submit_job settings job_request hs (world []) = (w', out) ∧
    match out with
    | inr (MkReply _ _ acc) => enqueued auth "trc_1" job_request (acc_job_id acc) (world []) w'
    | inl _ => False
    end.
Proof.
  destruct (submit_job_outcome settings job_request hs auth "k1" "trc_1" 50000 0 (world [])
              demo_admitted eq_refl demo_async_ready (demo_counter _ _)) as (w' & out & Hsub & Hout).
  assert (Hok : match (submit_job settings job_request hs (world [])).2 with inr _ => true | _ => false end
                = true) by (vm_compute; reflexivity).
  exists w', out. split; [exact Hsub|]. rewrite Hsub in Hok. cbn [snd] in Hok.
  destruct out as [e|[st tr acc]]; [discriminate Hok|].
  exact (proj1 (proj2 (proj2 (proj2 (proj2 (proj2 Hout)))))).
Defined.

Lemma requests_touch_own_rows_witness :
  tenant_step "tnt_a" (world [inr ok_response]) (invoked [inr ok_response]).1.
Proof.
  exact (proj1 (requests_touch_own_rows settings hs auth (world [inr ok_response]) eq_refl) request).
Defined.

Lemma get_job_tenant_scoped_witness :
  get_job settings "job_b" hs (world [])
  = (world [], inl (HTTPException 404 (JStr "unknown job_id for this tenant") [])).
Proof. exact (get_job_tenant_scoped settings hs auth (world []) "job_b" eq_refl). Defined.

Lemma killswitch_needs_permission_witness :
  (admin_killswitch_tool settings "create_leave_request" (MkKillswitchRequest true None) hs (world [])).2
  = inl (HTTPException 403 (JStr "missing required permission: platform.killswitch.manage") []).
Proof.
  exact (f_equal snd (proj1 (killswitch_needs_permission settings hs auth (world []) "create_leave_request"
    (MkKillswitchRequest true None) eq_refl))).
Defined.
End Witness.
