(* ===== verification/GatewayRace.v ===== *)
(** agent-gateway serving many requests at once: the invocations and job
    submissions in flight take their steps in any order, may be dropped between
    any two (a client that leaves, a process that dies), and still every
    Idempotency-Key is served once.

    The steps are those of Gateway.v: an arrival runs authentication and the
    idempotency gate, whose statements are one transaction; then the run takes its
    reservation, waits for agent-harness and settles, and the job takes its
    reservation, writes its row, sends its message and stores its acceptance. *)
From S2P Require Import Prelude PyStr Json Http Contracts Wire Redis Quota JobsDb Gateway GatewayProps.

Section System.
  Context {R X : Type} `{RedisLaws R, HarnessHttp X, Broker X, Uuid X, Jwt, Hashing, PydanticLaws, !ClientLaws (X := X)}.
  Variable settings : GatewaySettings.
  Implicit Types (w : GatewayState R X) (d : JobsDb).

(** ** Requests in flight *)

(** Where a request stands once the gate has let it through. *)
Inductive Work :=
  | RunAdmitted (hs : headers) (b : AgentInvokeRequest)
  | RunReserved (request : AgentRunRequest) (rkey : string)
  | RunCalled (rkey : string) (outcome : exn + AgentInvokeResponse)
  | JobAdmitted (b : AgentJobRequest)
  | JobReserved (b : AgentJobRequest) (request : AgentRunRequest) (rkey : option string)
  | JobInserted (b : AgentJobRequest) (request : AgentRunRequest) (rkey : option string)
  | JobSent (job_id : string).

Record Task := MkTask {
  tk_auth : AuthContext;
  tk_key : string;
  tk_trace_id : string;
  tk_work : Work
}.

(** The row of [jobs.idempotency_keys] a task holds. *)
Definition row_key : Type := string * string.
Definition task_row (k : Task) : row_key := (au_tenant_id (tk_auth k), tk_key k).

Inductive Answer :=
  | Invoked (response : AgentInvokeResponse)
  | Accepted (accepted : AgentJobAcceptedResponse).

(* @ gateway/api/routes.py:48-92 invoke *)
Definition arrive_run (b : AgentInvokeRequest) (hs : headers) : py (GatewayState R X) (Task + row_key * Answer) :=
  let! auth := authenticate (gst_jwt_signing_secret settings) hs in
  let! '(key, trace_id) := request_ids hs in
  let! replay := in_db (idempotency_gate validate_response "AgentInvokeResponse"
                          (au_tenant_id auth) key (body_hash b)) in
  ret (match replay with
       | Some (_, response) => inr ((au_tenant_id auth, key), Invoked response)
       | None => inl (MkTask auth key trace_id (RunAdmitted hs b))
       end).

(* @ gateway/api/routes.py:207-257 submit_job *)
Definition arrive_job (b : AgentJobRequest) (hs : headers) : py (GatewayState R X) (Task + row_key * Answer) :=
  let! auth := authenticate (gst_jwt_signing_secret settings) hs in
  let! '(key, trace_id) := request_ids hs in
  let! replay := in_db (idempotency_gate validate_accepted "AgentJobAcceptedResponse"
                          (au_tenant_id auth) key (job_hash b)) in
  ret (match replay with
       | Some (_, accepted) => inr ((au_tenant_id auth, key), Accepted accepted)
       | None => inl (MkTask auth key trace_id (JobAdmitted b))
       end).

(** The next step of a task: to its next stage, or to its answer. *)
Definition advance (k : Task) : py (GatewayState R X) (Work + Answer) :=
  let auth := tk_auth k in
  match tk_work k with
  | RunAdmitted hs b =>
      let! '(request, rkey) := reserve_run settings auth hs (tk_key k) (tk_trace_id k) b in
      ret (inl (RunReserved request rkey))
  | RunReserved request rkey => let! outcome := call_harness request in ret (inl (RunCalled rkey outcome))
  | RunCalled rkey outcome =>
      let! reply := settle_run auth (tk_key k) (tk_trace_id k) rkey outcome in ret (inr (Invoked (rp_body reply)))
  | JobAdmitted b =>
      let! '(request, rkey) := reserve_job settings auth (tk_key k) (tk_trace_id k) b in
      ret (inl (JobReserved b request rkey))
  | JobReserved b request rkey =>
      insert_job auth (tk_trace_id k) b (run_run_id request) ;! ret (inl (JobInserted b request rkey))
  | JobInserted b request rkey => send_job auth b request rkey ;! ret (inl (JobSent (run_run_id request)))
  | JobSent job_id =>
      let! reply := accept_job auth (tk_key k) (tk_trace_id k) job_id in ret (inr (Accepted (rp_body reply)))
  end.

(** The steps that reach outside: the call of agent-harness, the message to the
    workers. *)
Definition reaches_out (k : Work) : bool :=
  match k with RunReserved _ _ | JobInserted _ _ _ => true | _ => false end.

(** ... which are still ahead of a task. *)
Definition pending (k : Work) : bool :=
  match k with RunCalled _ _ | JobSent _ => false | _ => true end.

(** ** The system *)

(** [sy_effects]: the keys under which a run was called or a job sent, latest
    first; [sy_answers]: what was answered 2xx, under which key. *)
Record System := MkSystem {
  sy_state : GatewayState R X;
  sy_tasks : list Task;
  sy_effects : list row_key;
  sy_answers : list (row_key * Answer)
}.

(** What an arrival adds. *)
Definition received (y : System) (w' : GatewayState R X) (r : exn + (Task + row_key * Answer)) : System :=
  match r with
  | inl _ => MkSystem w' (sy_tasks y) (sy_effects y) (sy_answers y)
  | inr (inl k) => MkSystem w' (k :: sy_tasks y) (sy_effects y) (sy_answers y)
  | inr (inr a) => MkSystem w' (sy_tasks y) (sy_effects y) (a :: sy_answers y)
  end.

(** What a step of task [k], of the others [ks], leaves. *)
Definition advanced (y : System) (k : Task) (ks : list Task) (w' : GatewayState R X) (r : exn + (Work + Answer))
    : System :=
  let effects := if reaches_out (tk_work k) then task_row k :: sy_effects y else sy_effects y in
  match r with
  | inl _ => MkSystem w' ks effects (sy_answers y)
  | inr (inl next) =>
      MkSystem w' (MkTask (tk_auth k) (tk_key k) (tk_trace_id k) next :: ks) effects (sy_answers y)
  | inr (inr a) => MkSystem w' ks effects ((task_row k, a) :: sy_answers y)
  end.

(** One step: an arrival, a step of any task, a task dropped where it stands, or
    anything else that leaves the idempotency keys alone — the sweeper, the
    workers, agent-harness, the other handlers, time. *)
Inductive step (y : System) : System → Prop :=
  | ArriveRun b hs w' r : arrive_run b hs (sy_state y) = (w', r) → step y (received y w' r)
  | ArriveJob b hs w' r : arrive_job b hs (sy_state y) = (w', r) → step y (received y w' r)
  | Advance k ks w' r :
      sy_tasks y ≡ₚ k :: ks → advance k (sy_state y) = (w', r) → step y (advanced y k ks w' r)
  | Drop k ks :
      sy_tasks y ≡ₚ k :: ks → step y (MkSystem (sy_state y) ks (sy_effects y) (sy_answers y))
  | Other w' :
      jdb_idempotency_keys (gw_db w') = jdb_idempotency_keys (gw_db (sy_state y)) →
      step y (MkSystem w' (sy_tasks y) (sy_effects y) (sy_answers y)).

Definition start w : System := MkSystem w [] [] [].

(** ** A request on its own

    Without anything in between, the steps of a request are its handler. *)

Fixpoint drive_task (fuel : nat) (k : Task) : py (GatewayState R X) Answer :=
  match fuel with
  | O => raise AssertionError
  | S fuel =>
      let! r := advance k in
      match r with
      | inl next => drive_task fuel (MkTask (tk_auth k) (tk_key k) (tk_trace_id k) next)
      | inr a => ret a
      end
  end.

Definition drive_arrival (fuel : nat) (r : Task + row_key * Answer) : py (GatewayState R X) Answer :=
  match r with inl k => drive_task fuel k | inr (_, a) => ret a end.

Lemma drive_task_step fuel k w :
  drive_task (S fuel) k w
  = match advance k w with
    | (w', inl e) => (w', inl e)
    | (w', inr (inl next)) => drive_task fuel (MkTask (tk_auth k) (tk_key k) (tk_trace_id k) next) w'
    | (w', inr (inr a)) => (w', inr a)
    end.
Proof. cbn. unfold bind. by destruct (advance k w) as [w' [e|[next|a]]]. Qed.

#[local] Arguments drive_task : simpl never.
#[local] Arguments accept_job : simpl never.
#[local] Arguments send_job : simpl never.
#[local] Arguments insert_job : simpl never.
#[local] Arguments settle_run : simpl never.
#[local] Ltac next_step := rewrite drive_task_step; cbn [advance tk_work tk_auth tk_key tk_trace_id]; unfold bind.

Lemma invoke_is_its_steps b hs w :
  (let! reply := invoke settings b hs in ret (Invoked (rp_body reply))) w
  = (let! r := arrive_run b hs in drive_arrival 3 r) w.
Proof.
  unfold invoke, arrive_run, bind. destruct (authenticate _ _ w) as [w1 [e|auth]]; [done|].
  destruct (request_ids hs w1) as [w2 [e|[key tr]]]; [done|]. fold (body_hash b).
  destruct (in_db _ w2) as [w3 [e|[[st resp]|]]]; [done..|]. cbn. unfold run_once, bind.
  next_step. destruct (reserve_run _ _ _ _ _ _ w3) as [w4 [e|[q rk]]]; [done|]. cbn.
  next_step. destruct (call_harness q w4) as [w5 [e|o]]; [done|]. cbn.
  next_step. by destruct (settle_run _ _ _ _ _ w5) as [w6 [e|reply]].
Qed.

Lemma submit_job_is_its_steps b hs w :
  (let! reply := submit_job settings b hs in ret (Accepted (rp_body reply))) w
  = (let! r := arrive_job b hs in drive_arrival 4 r) w.
Proof.
  unfold submit_job, arrive_job, bind. destruct (authenticate _ _ w) as [w1 [e|auth]]; [done|].
  destruct (request_ids hs w1) as [w2 [e|[key tr]]]; [done|]. fold (job_hash b).
  destruct (in_db _ w2) as [w3 [e|[[st acc]|]]]; [done..|]. cbn. unfold enqueue_once, bind.
  next_step. destruct (reserve_job _ _ _ _ _ w3) as [w4 [e|[q rk]]]; [done|]. cbn.
  next_step. destruct (insert_job _ _ _ _ w4) as [w5 [e|[]]]; [done|]. cbn.
  next_step. destruct (send_job _ _ _ _ w5) as [w6 [e|[]]]; [done|]. cbn.
  next_step. by destruct (accept_job _ _ _ _ w6) as [w7 [e|reply]].
Qed.

(** ** What a step does to the keys *)

Definition keys w : gmap row_key ExistingRecord := jdb_idempotency_keys (gw_db w).

(** What a stored body reads as. *)
Definition reads (body : json) (a : Answer) : Prop :=
  match a with
  | Invoked r => validate_response body = Some r
  | Accepted c => validate_accepted body = Some c
  end.

(** A key that is taken and not yet answered; one that is answered with [a]. *)
Definition open_row (m : gmap row_key ExistingRecord) (rk : row_key) : Prop :=
  ∃ row, m !! rk = Some row ∧ idem_response_body row = None.
Definition answered_row (m : gmap row_key ExistingRecord) (rk : row_key) (a : Answer) : Prop :=
  ∃ row body, m !! rk = Some row ∧ idem_response_body row = Some body ∧ reads body a.

Definition at_gate (k : Work) : bool := match k with RunAdmitted _ _ | JobAdmitted _ => true | _ => false end.

Definition arrival (m m' : gmap row_key ExistingRecord) (r : exn + (Task + row_key * Answer)) : Prop :=
  match r with
  | inl _ => m' = m
  | inr (inl k) => m !! task_row k = None ∧ at_gate (tk_work k) = true ∧
      ∃ h, m' = <[task_row k := MkExistingRecord h None None]> m
  | inr (inr (rk, a)) => m' = m ∧ answered_row m rk a
  end.

Lemma authenticate_keeps hs w : (authenticate (gst_jwt_signing_secret settings) hs w).1 = w.
Proof.
  unfold authenticate, extract_bearer_token, bind, http_401, raise, ret. repeat (case_match; simplify_eq; try done).
Qed.

Lemma request_ids_keys hs w : keys (request_ids hs w).1 = keys w.
Proof.
  unfold request_ids, bind, raise, ret. destruct (String.eqb _ _); [done|]. destruct (String.eqb _ _); [|done].
  unfold fresh_id, in_ext, zoom. by destruct (uuid_id _ _) as [x [e|i]].
Qed.

(** Either handler up to its gate. *)
Lemma gate_arrival {A} (dec : json → option A) name (into : A → Answer) (k : AuthContext → string → string → Task) h hs w w' r :
  (∀ body a, dec body = Some a → reads body (into a)) →
  (∀ auth key tr, task_row (k auth key tr) = (au_tenant_id auth, key) ∧ at_gate (tk_work (k auth key tr)) = true) →
  (let! auth := authenticate (gst_jwt_signing_secret settings) hs in
   let! '(key, trace_id) := request_ids hs in
   let! replay := in_db (idempotency_gate dec name (au_tenant_id auth) key h) in
   ret (match replay with
        | Some (_, a) => inr ((au_tenant_id auth, key), into a)
        | None => inl (k auth key trace_id)
        end)) w = (w', r) →
  arrival (keys w) (keys w') r.
Proof.
  intros Hdec Hk. unfold bind at 1. pose proof (authenticate_keeps hs w) as Hauth.
  destruct (authenticate _ hs w) as [w1 [e|auth]]; cbn in Hauth; subst w1; [by intros [= <- <-]|].
  unfold bind at 1. pose proof (request_ids_keys hs w) as Hids.
  destruct (request_ids hs w) as [w1 [e|[key tr]]]; cbn in Hids; [by intros [= <- <-]|].
  unfold bind, in_db, zoom. destruct (Hk auth key tr) as [Hrow Hgate].
  destruct (idem_row (gw_db w1) (au_tenant_id auth) key) as [row|] eqn:Hr.
  - rewrite (gate_old _ _ _ _ _ _ _ Hr). unfold gate_taken.
    destruct (negb _); [by intros [= <- <-]|]. destruct (idem_response_body row) as [body|] eqn:Hbody; [|by intros [= <- <-]].
    destruct (dec body) as [a|] eqn:Hd; [|by intros [= <- <-]]. intros [= <- <-]. split; [done|].
    exists row, body. rewrite <- Hids. split_and!; [done|done|by apply Hdec].
  - rewrite (gate_new _ _ _ _ _ _ Hr). intros [= <- <-]. cbn. rewrite Hrow, <- Hids.
    split_and!; [done|done|]. exists h. reflexivity.
Qed.

Lemma arrive_run_keys b hs w w' r : arrive_run b hs w = (w', r) → arrival (keys w) (keys w') r.
Proof. by apply (gate_arrival _ _ Invoked (fun auth key tr => MkTask auth key tr (RunAdmitted hs b))). Qed.

Lemma arrive_job_keys b hs w w' r : arrive_job b hs w = (w', r) → arrival (keys w) (keys w') r.
Proof. by apply (gate_arrival _ _ Accepted (fun auth key tr => MkTask auth key tr (JobAdmitted b))). Qed.

(** At most the row [rk] changes, and it does not go. *)
Definition only_row (rk : row_key) (m m' : gmap row_key ExistingRecord) : Prop :=
  (∀ rk', rk' ≠ rk → m' !! rk' = m !! rk') ∧ (is_Some (m !! rk) → is_Some (m' !! rk)).

#[local] Instance only_row_preorder rk : PreOrder (only_row rk).
Proof.
  split; [by intros m|]. intros m1 m2 m3 [A1 B1] [A2 B2]. split; [|by auto].
  intros rk' Hne. by rewrite A2, A1.
Qed.

Definition only_row_w rk w w' : Prop := only_row rk (keys w) (keys w').
#[local] Instance only_row_w_preorder rk : PreOrder (only_row_w rk).
Proof. split; [by intros w; unfold only_row_w|]. intros a b c ??. unfold only_row_w in *. by etrans. Qed.

(** What leaves the keys as they are. *)
Definition quiet {A} (m : py (GatewayState R X) A) : Prop := ∀ w, keys (m w).1 = keys w.

Lemma in_quota_quiet {A} (m : py (QuotaState R) A) : quiet (in_quota m).
Proof. intros w. unfold in_quota, zoom. by destruct (m _). Qed.
Lemma in_ext_quiet {A} (m : py X A) : quiet (in_ext m).
Proof. intros w. unfold in_ext, zoom. by destruct (m _). Qed.
Lemma bind_quiet {A B} (m : py (GatewayState R X) A) (k : A → py _ B) :
  quiet m → (∀ a, quiet (k a)) → quiet (bind m k).
Proof.
  intros Hm Hk w. unfold bind. specialize (Hm w). destruct (m w) as [w1 [e|a]]; cbn in *; [done|].
  by rewrite (Hk a w1).
Qed.
Lemma quiet_only_row {A} rk (m : py (GatewayState R X) A) : quiet m → frames (only_row_w rk) m.
Proof. intros Hm w. unfold only_row_w. by rewrite Hm. Qed.

Lemma complete_keys t k body status w :
  keys (w <| gw_db := complete_row (gw_db w) t k body status |>)
  = alter (fun row => row <| idem_response_body := Some body |> <| idem_status_code := Some status |>) (t, k) (keys w).
Proof. reflexivity. Qed.

Lemma complete_only_row t k body status :
  frames (only_row_w (t, k)) (in_db (R := R) (X := X) (tenant_session t (complete t k body status))).
Proof.
  intros w. destruct (jsonb_ok body) eqn:Hb; [|by rewrite in_db_refused]. rewrite in_db_complete by done. cbn [fst]. unfold only_row_w. rewrite complete_keys. split.
  - intros rk' Hne. by rewrite lookup_alter_ne.
  - intros Hs. by rewrite lookup_alter_is_Some.
Qed.

#[local] Hint Resolve in_quota_quiet in_ext_quiet quiet_only_row complete_only_row : frames.

Lemma reject_only_row {A} t k tr rr : frames (only_row_w (t, k)) (reject_over_quota (A := A) (R := R) (X := X) t k tr rr).
Proof. unfold reject_over_quota. auto 10 with frames typeclass_instances. Qed.

Lemma harness_failed_only_row {A} t k tr rk e :
  frames (only_row_w (t, k)) (harness_failed (A := A) (R := R) (X := X) t k tr rk e).
Proof. unfold harness_failed. auto 10 with frames typeclass_instances. Qed.

(** A body is stored where the row was open. *)
Lemma complete_answers t k body status a w :
  open_row (keys w) (t, k) → reads body a →
  answered_row (keys (w <| gw_db := complete_row (gw_db w) t k body status |>)) (t, k) a.
Proof.
  intros (row & Hrow & _) Hr. rewrite complete_keys. eexists _, body. rewrite lookup_alter, decide_True, Hrow by done.
  split_and!; [reflexivity|done|done].
Qed.

(** The constraints agent-harness's answer satisfies once it is validated. *)
Definition wf_work (k : Work) : Prop :=
  match k with RunCalled _ (inr resp) => wf_response resp | _ => True end.

(** What a step of a task does to its row. *)
Definition progress (k : Task) (m m' : gmap row_key ExistingRecord) (r : exn + (Work + Answer)) : Prop :=
  only_row (task_row k) m m' ∧
  match r with
  | inl _ => True
  | inr (inl next) =>
      m' = m ∧ wf_work next ∧
      (pending next = true → pending (tk_work k) = true ∧ reaches_out (tk_work k) = false)
  | inr (inr a) => open_row m (task_row k) → answered_row m' (task_row k) a
  end.

(** A reservation that is refused answers its row; otherwise the keys stay. *)
Definition reserves (rk : row_key) {A} (m : py (GatewayState R X) A) : Prop :=
  ∀ w, only_row_w rk w (m w).1 ∧ ∀ a, (m w).2 = inr a → keys (m w).1 = keys w.

Lemma reserves_quiet rk {A} (m : py (GatewayState R X) A) : quiet m → reserves rk m.
Proof. intros Hm w. split; [by apply quiet_only_row|]. intros a _. apply Hm. Qed.

Lemma reserves_bind rk {A B} (m : py (GatewayState R X) A) (k : A → py _ B) :
  quiet m → (∀ a, reserves rk (k a)) → reserves rk (bind m k).
Proof.
  intros Hm Hk w. specialize (Hm w). unfold bind. destruct (m w) as [w1 [e|a]]; cbn in *.
  - split; [unfold only_row_w; by rewrite Hm|done].
  - destruct (Hk a w1) as [H1' H2']. unfold only_row_w in *. rewrite Hm in *. by split.
Qed.

Lemma reserves_reject {A} t k tr rr : reserves (t, k) (reject_over_quota (A := A) (R := R) (X := X) t k tr rr).
Proof.
  assert (Hraise : ∀ B (m : py (GatewayState R X) B) e w (a : A), (bind m (fun _ => raise e) w).2 ≠ inr a).
  { intros B m e w a. unfold bind. by destruct (m w) as [w' [e'|b]]. }
  intros w. split; [apply reject_only_row|]. intros a. unfold reject_over_quota.
  rewrite (bind_inr _ _ w (w <| gw_quota := gw_quota w |>) (q_now (gw_quota w))) by done.
  intros Ha. by apply Hraise in Ha.
Qed.

Lemma ret_quiet {A} (a : A) : quiet (ret a). Proof. by intros w. Qed.
Lemma raise_quiet {A} e : quiet (raise (A := A) e). Proof. by intros w. Qed.
Lemma check_budget_quiet n : quiet (check_budget (R := R) (X := X) n).
Proof. unfold check_budget. case_match; [apply ret_quiet|apply raise_quiet]. Qed.

Lemma reserve_run_reserves auth hs key tr b :
  reserves (au_tenant_id auth, key) (reserve_run (R := R) (X := X) settings auth hs key tr b).
Proof.
  unfold reserve_run. apply reserves_bind; [apply in_ext_quiet|intros run].
  apply reserves_bind; [apply in_quota_quiet|intros rr]. destruct (negb _); [apply reserves_reject|].
  apply reserves_quiet. destruct (rr_reservation_key rr); [|apply raise_quiet].
  apply bind_quiet; [apply check_budget_quiet|intros _; apply ret_quiet].
Qed.

Lemma reserve_job_reserves auth key tr b :
  reserves (au_tenant_id auth, key) (reserve_job (R := R) (X := X) settings auth key tr b).
Proof.
  unfold reserve_job. apply reserves_bind; [apply in_ext_quiet|intros run].
  apply reserves_bind; [apply in_quota_quiet|intros rr]. destruct (negb _); [apply reserves_reject|].
  apply reserves_quiet, bind_quiet; [apply check_budget_quiet|intros _; apply ret_quiet].
Qed.

Lemma call_harness_outcome request w w' o :
  call_harness request w = (w', inr o) → keys w' = keys w ∧ match o with inr resp => wf_response resp | inl _ => True end.
Proof.
  unfold call_harness, in_ext, zoom.
  destruct (harness_run_cases request (gw_ext w)) as [(x & resp & -> & Hwf)|[(x & e & -> & _ & _)|(x & m & ->)]];
    by intros [= <- <-].
Qed.

Lemma insert_job_quiet auth tr b j : quiet (insert_job (R := R) (X := X) auth tr b j).
Proof.
  intros w. unfold insert_job, in_db, zoom, keys.
  destruct (jsonb_ok (JObj (job_request_fields b))) eqn:Hpl; [|by rewrite insert_job_refused].
  destruct (jdb_async_jobs (gw_db w) !! j) as [row|] eqn:Hj; [by erewrite insert_job_dup|by rewrite insert_job_run].
Qed.

Lemma harness_failed_raises {A} t k tr rk e w :
  ∃ e', (harness_failed (A := A) (R := R) (X := X) t k tr rk e w).2 = inl e'.
Proof.
  unfold harness_failed, bind at 1. destruct (in_quota _ w) as [w1 [e1|[]]]; [by eexists|].
  match goal with |- context [complete t k ?body ?st] => destruct (jsonb_ok body) eqn:Hb end;
    [rewrite (bind_inr _ _ _ _ _ (in_db_complete _ _ _ _ _ Hb))|rewrite (bind_inl _ _ _ _ _ (in_db_refused _ _ _ _ _ Hb))];
    by eexists.
Qed.

(** The settlement of a run, and the acceptance of a job. *)
Lemma settle_run_progress auth key tr rkey o w :
  let t := au_tenant_id auth in
  let '(w', r) := settle_run auth key tr rkey o w in
  only_row_w (t, key) w w' ∧
  ∀ reply, r = inr reply → match o with inr resp => wf_response resp | inl _ => True end →
    open_row (keys w) (t, key) → answered_row (keys w') (t, key) (Invoked (rp_body reply)).
Proof.
  cbn zeta. set (t := au_tenant_id auth). unfold settle_run; destruct o as [e|resp].
  - destruct (is_httpx_error e); [|by split].
    pose proof (harness_failed_only_row (A := Reply AgentInvokeResponse) t key tr rkey e w) as Hf.
    destruct (harness_failed_raises (A := Reply AgentInvokeResponse) t key tr rkey e w) as [e' He].
    fold t. destruct (harness_failed _ _ _ _ _ w) as [w' r]. cbn in He. subst r. by split.
  - fold t. unfold bind at 1. pose proof (in_quota_quiet (reconcile rkey
      (usg_input_tokens (res_usage resp) + usg_output_tokens (res_usage resp))) w) as Hq.
    destruct (in_quota _ w) as [w1 [e1|[]]]; cbn in Hq; [split; [unfold only_row_w; by rewrite Hq|done]|].
    pose proof (complete_only_row t key (dump_response resp) 200 w1) as Hc.
    destruct (jsonb_ok (dump_response resp)) eqn:Hb; [|rewrite (bind_inl _ _ _ _ _ (in_db_refused _ _ _ _ _ Hb));
      split; [unfold only_row_w; by rewrite Hq|done]].
    rewrite (bind_inr _ _ _ _ _ (in_db_complete _ _ _ _ _ Hb)). rewrite in_db_complete in Hc by done. unfold only_row_w in *. rewrite Hq in Hc.
    split; [done|]. intros reply [= <-] Hwf Hopen. apply complete_answers; [by rewrite Hq|]. by apply response_round.
Qed.

Lemma accept_job_progress auth key tr job w :
  let t := au_tenant_id auth in
  let '(w', r) := accept_job auth key tr job w in
  only_row_w (t, key) w w' ∧
  ∀ reply, r = inr reply → open_row (keys w) (t, key) → answered_row (keys w') (t, key) (Accepted (rp_body reply)).
Proof.
  cbn zeta. set (t := au_tenant_id auth). unfold accept_job. fold t. cbn zeta.
  match goal with |- context [complete t key ?body ?st] =>
    pose proof (complete_only_row t key body st w) as Hc; destruct (jsonb_ok body) eqn:Hb end;
    [|rewrite (bind_inl _ _ _ _ _ (in_db_refused _ _ _ _ _ Hb)); split; [done|by intros]].
  rewrite (bind_inr _ _ _ _ _ (in_db_complete _ _ _ _ _ Hb)). rewrite in_db_complete in Hc by done. split; [exact Hc|]. intros reply [= <-] Hopen.
  apply complete_answers; [done|apply accepted_round].
Qed.

Lemma advance_progress k w w' r :
  wf_work (tk_work k) → advance k w = (w', r) → progress k (keys w) (keys w') r.
Proof.
  intros Hwf. destruct k as [auth key tr work]. cbn in Hwf. unfold progress, task_row, advance; cbn [tk_auth tk_key tk_trace_id tk_work].
  destruct work as [hs b|request rkey|rkey o|b|b request rkey|b request rkey|job].
  - destruct (reserve_run_reserves auth hs key tr b w) as [H1' H2']. unfold bind.
    destruct (reserve_run _ _ _ _ _ _ w) as [w1 [e|[q rk]]]; intros [= <- <-]; [done|]. split_and!; [done|by eapply H2'|done|done].
  - unfold bind. destruct (call_harness request w) as [w1 [e|o]] eqn:Hc; [unfold call_harness in Hc; by destruct (in_ext _ _)|].
    apply call_harness_outcome in Hc as [Hk Ho]. intros [= <- <-]. rewrite Hk. by split_and!.
  - pose proof (settle_run_progress auth key tr rkey o w) as Hs. cbn zeta in Hs. unfold bind.
    destruct (settle_run _ _ _ _ _ w) as [w1 [e|reply]]; intros [= <- <-]; destruct Hs as [Hrow Hans]; [done|].
    split; [done|]. intros Hopen. by apply Hans.
  - destruct (reserve_job_reserves auth key tr b w) as [H1' H2']. unfold bind.
    destruct (reserve_job _ _ _ _ _ w) as [w1 [e|[q rk]]]; intros [= <- <-]; [done|]. split_and!; [done|by eapply H2'|done|done].
  - unfold bind. pose proof (insert_job_quiet auth tr b (run_run_id request) w) as Hk.
    destruct (insert_job _ _ _ _ w) as [w1 [e|[]]]; intros [= <- <-]; cbn in Hk; rewrite Hk; by split_and!.
  - unfold bind, send_job. pose proof (in_ext_quiet (publish_job (MkAsyncJobMessage (run_run_id request) (au_tenant_id auth)
      (jrq_priority b) request (jrq_callback_url b) (jrq_callback_secret_ref b) 0 rkey)) w) as Hk.
    destruct (in_ext _ w) as [w1 [e|[]]]; intros [= <- <-]; cbn in Hk; rewrite Hk; by split_and!.
  - pose proof (accept_job_progress auth key tr job w) as Hs. cbn zeta in Hs. unfold bind.
    destruct (accept_job _ _ _ _ w) as [w1 [e|reply]]; intros [= <- <-]; destruct Hs as [Hrow Hans]; [done|].
    split; [done|]. intros Hopen. by apply Hans.
Qed.

(** ** The invariant *)

(** A task holds an open row of a key that was new, under which nothing went out
    while its call or message is ahead. *)
Definition task_ok (m0 m : gmap row_key ExistingRecord) (effects : list row_key) (k : Task) : Prop :=
  m0 !! task_row k = None ∧ open_row m (task_row k) ∧ wf_work (tk_work k) ∧
  (pending (tk_work k) = true → task_row k ∉ effects).

Record served_once (m0 : gmap row_key ExistingRecord) (y : System) : Prop := {
  so_tasks : NoDup (task_row <$> sy_tasks y);
  so_task : ∀ k, k ∈ sy_tasks y → task_ok m0 (keys (sy_state y)) (sy_effects y) k;
  so_effects : NoDup (sy_effects y);
  so_effect : ∀ rk, rk ∈ sy_effects y → m0 !! rk = None ∧ is_Some (keys (sy_state y) !! rk);
  so_answer : ∀ rk a, (rk, a) ∈ sy_answers y → answered_row (keys (sy_state y)) rk a;
  so_kept : ∀ rk, is_Some (m0 !! rk) → is_Some (keys (sy_state y) !! rk)
}.

Lemma open_not_answered m rk a : open_row m rk → answered_row m rk a → False.
Proof. intros (row & Hr & Ho) (row' & body & Hr' & Hb & _). congruence. Qed.

Lemma served_once_start w : served_once (keys w) (start w).
Proof.
  split; cbn; [constructor| |constructor| | |done].
  - by intros k ?%elem_of_nil.
  - by intros rk ?%elem_of_nil.
  - by intros rk a ?%elem_of_nil.
Qed.

Lemma served_once_keys m0 w w' ks es an :
  keys w' = keys w → served_once m0 (MkSystem w ks es an) → served_once m0 (MkSystem w' ks es an).
Proof. intros Hk []. split; cbn in *; rewrite ?Hk; done. Qed.

Lemma served_once_drop m0 w k ks es an :
  served_once m0 (MkSystem w (k :: ks) es an) → served_once m0 (MkSystem w ks es an).
Proof.
  intros []. split; cbn in *; try done.
  - by apply NoDup_cons in so_tasks0 as [_ ?].
  - intros k' Hk'. apply so_task0. by constructor.
Qed.

Lemma served_once_perm m0 w ks ks' es an :
  ks ≡ₚ ks' → served_once m0 (MkSystem w ks es an) → served_once m0 (MkSystem w ks' es an).
Proof.
  intros Hp []. split; cbn in *; try done; [by rewrite <- Hp|]. intros k. rewrite <- Hp. apply so_task0.
Qed.

(** The effects once [k] has taken a step. *)
Definition effects_after (k : Task) (es : list row_key) : list row_key :=
  if reaches_out (tk_work k) then task_row k :: es else es.

(** When [k] leaves after a step on its row, the rest of the system is in order. *)
Lemma served_once_leave m0 w w' k ks es an :
  only_row (task_row k) (keys w) (keys w') →
  served_once m0 (MkSystem w (k :: ks) es an) → served_once m0 (MkSystem w' ks (effects_after k es) an).
Proof.
  intros [Hother Hstay] []. cbn in *. apply NoDup_cons in so_tasks0 as [Hnew Hnd].
  destruct (so_task0 k) as (Hm0 & Hopen & _ & Hfirst); [constructor|].
  assert (Hkeep : ∀ rk, is_Some (keys w !! rk) → is_Some (keys w' !! rk)).
  { intros rk. destruct (decide (rk = task_row k)) as [->|Hne]; [done|]. by rewrite Hother. }
  assert (Hes : ∀ rk, rk ∈ effects_after k es → rk = task_row k ∨ rk ∈ es).
  { intros rk. unfold effects_after. destruct (reaches_out _); [by rewrite elem_of_cons|by right]. }
  split; cbn; [done| | | | |by auto].
  - intros k' Hk'. assert (task_row k' ≠ task_row k) as Hne by (intros Heq; apply Hnew; rewrite <- Heq; by apply list_elem_of_fmap_2).
    destruct (so_task0 k') as (Hm & Ho & Hwf & Hp); [by constructor|]. unfold task_ok, open_row in *. rewrite Hother by done.
    split_and!; [done..|]. intros Hk Hin. apply Hes in Hin as [?|?]; [done|]. by apply Hp.
  - unfold effects_after. destruct (tk_work k); cbn in Hfirst |- *; try done; constructor; auto.
  - intros rk [->|Hrk]%Hes.
    + split; [done|]. apply Hkeep. destruct Hopen as (row & Hrow & _). by eexists.
    + destruct (so_effect0 rk Hrk). by auto.
  - intros rk a Ha. specialize (so_answer0 rk a Ha). destruct (decide (rk = task_row k)) as [->|Hne].
    + by destruct (open_not_answered _ _ _ Hopen so_answer0).
    + unfold answered_row in *. by rewrite Hother.
Qed.

Lemma served_once_task m0 w k ks es an :
  served_once m0 (MkSystem w (k :: ks) es an) →
  task_ok m0 (keys w) es k ∧ task_row k ∉ task_row <$> ks.
Proof. intros []. cbn in *. apply NoDup_cons in so_tasks0 as [? _]. split; [|done]. apply so_task0. constructor. Qed.

Lemma step_advance m0 w w' k ks es an r :
  advance k w = (w', r) → served_once m0 (MkSystem w (k :: ks) es an) →
  served_once m0 (advanced (MkSystem w (k :: ks) es an) k ks w' r).
Proof.
  intros Hadv Hy. destruct (served_once_task _ _ _ _ _ _ Hy) as [(Hm0 & Hopen & Hwf & Hfirst) Hnew].
  apply advance_progress in Hadv as [Hrow Hr]; [|done].
  apply (served_once_leave _ _ w') in Hy; [|done]. fold (effects_after k es) in *.
  destruct r as [e|[next|a]]; unfold advanced; cbn; fold (effects_after k es); [done| |].
  - destruct Hr as (Hk & Hnext & Hp). destruct Hy. cbn in *. split; cbn; [by constructor| |done..].
    intros k' [->|Hk']%elem_of_cons; [|by auto]. unfold task_ok, task_row in *. cbn. rewrite Hk.
    split_and!; [done..|]. intros Hpn. destruct (Hp Hpn) as [Hpk Hq]. unfold effects_after. rewrite Hq. by apply Hfirst.
  - destruct Hy. cbn in *. split; cbn; try done.
    intros rk b [[= -> ->]|Hb]%elem_of_cons; [by apply Hr|by auto].
Qed.

Lemma step_arrival m0 w w' r ks es an :
  arrival (keys w) (keys w') r → served_once m0 (MkSystem w ks es an) →
  served_once m0 (received (MkSystem w ks es an) w' r).
Proof.
  intros Ha Hy. destruct r as [e|[k|[rk a]]]; cbn in Ha |- *.
  - by eapply served_once_keys.
  - destruct Ha as (Hnone & Hgate & h & Hk). destruct Hy. cbn in *.
    assert (Hno : m0 !! task_row k = None).
    { destruct (m0 !! task_row k) eqn:E; [|done]. destruct (so_kept0 (task_row k)) as [? Hs]; [by eexists|]. congruence. }
    assert (Hother : ∀ rk, is_Some (keys w !! rk) → keys w' !! rk = keys w !! rk).
    { intros rk [row Hrow]. rewrite Hk, lookup_insert_ne; [done|]. congruence. }
    assert (Hlive : ∀ k', k' ∈ ks → is_Some (keys w !! task_row k')).
    { intros k' Hk'. destruct (so_task0 k' Hk') as (_ & (row & Hrow & _) & _). by eexists. }
    split; cbn; [| |done| | |].
    + constructor; [|done]. intros (k' & Heq & Hk')%list_elem_of_fmap. destruct (Hlive k' Hk'). congruence.
    + intros k' [->|Hk']%elem_of_cons.
      * unfold task_ok, open_row. rewrite Hk, lookup_insert_eq. split_and!; [done|by eexists|by destruct (tk_work k)|].
        intros _ [_ [row Hrow]]%so_effect0. congruence.
      * destruct (so_task0 k' Hk') as (Hm & Ho & Hrest). unfold task_ok, open_row. by rewrite Hother by auto.
    + intros rk Hrk. destruct (so_effect0 rk Hrk). by rewrite Hother.
    + intros rk a Ha. destruct (so_answer0 rk a Ha) as (row & body & Hrow & Hrest). exists row, body.
      by rewrite Hother by by eexists.
    + intros rk Hrk. rewrite Hother; by auto.
  - destruct Ha as [Hk Hans]. apply (served_once_keys _ w w') in Hy; [|done]. destruct Hy. split; cbn in *; try done.
    intros rk' a' [[= -> ->]|Ha']%elem_of_cons; [by rewrite Hk|by auto].
Qed.

Lemma step_served_once m0 y y' : step y y' → served_once m0 y → served_once m0 y'.
Proof.
  destruct y as [w ks es an]. destruct 1 as [b hs w' r Ha|b hs w' r Ha|k ks' w' r Hp Ha|k ks' Hp|w' Hk]; cbn in *; intros Hy.
  - apply arrive_run_keys in Ha. by apply (step_arrival m0 w w' r).
  - apply arrive_job_keys in Ha. by apply (step_arrival m0 w w' r).
  - apply (served_once_perm _ _ _ _ _ _ Hp) in Hy. by apply (step_advance m0 w w' k ks' es an r).
  - apply (served_once_perm _ _ _ _ _ _ Hp) in Hy. by eapply served_once_drop.
  - by eapply served_once_keys.
Qed.

Lemma answered_rows_agree m rk a b : answered_row m rk a → answered_row m rk b →
  match a, b with Invoked r, Invoked r' => r = r' | Accepted c, Accepted c' => c = c' | _, _ => True end.
Proof.
  intros (row & body & Hrow & Hb & Ha) (row' & body' & Hrow' & Hb' & Ha').
  assert (body' = body) as -> by congruence. destruct a, b; cbn in *; first [done|congruence].
Qed.

(** C16: One run and one answer per Idempotency-Key. However invocations and job
    submissions arrive, interleave step by step, get stuck and are dropped,
    agent-harness is called or a job is sent at most once under each tenant's
    key, and only under keys that were new; and whatever is answered 2xx under
    one key, at first or in replay, is the same response. *)
Theorem one_run_per_key w0 y :
  rtc step (start w0) y →
  NoDup (sy_effects y) ∧
  (∀ t key, (t, key) ∈ sy_effects y → idem_row (gw_db w0) t key = None) ∧
  (∀ rk r r', (rk, Invoked r) ∈ sy_answers y → (rk, Invoked r') ∈ sy_answers y → r = r') ∧
  (∀ rk c c', (rk, Accepted c) ∈ sy_answers y → (rk, Accepted c') ∈ sy_answers y → c = c').
Proof.
  intros Hsteps. assert (served_once (keys w0) y) as [].
  { assert (served_once (keys w0) (start w0)) as Hy by apply served_once_start. revert Hy.
    induction Hsteps as [|y1 y2 y3 Hs _ IH]; [done|]. intros Hy. by apply IH, (step_served_once _ y1). }
  split_and!; [done|by intros t key []%so_effect0| |].
  - intros rk r r' H1' H2'. exact (answered_rows_agree _ _ _ _ (so_answer0 _ _ H1') (so_answer0 _ _ H2')).
  - intros rk c c' H1' H2'. exact (answered_rows_agree _ _ _ _ (so_answer0 _ _ H1') (so_answer0 _ _ H2')).
Qed.
End System.

(** ** The system at work: two requests with one key, at once, and a retry *)

Module Witness.
Import Demo GatewayProps.Witness.
#[local] Existing Instance demo_client_laws.

Abbreviation Y := (System (R := Store.store) (X := env)).

Definition arrived (y : Y) : Y :=
  let '(w', r) := arrive_run settings request hs (sy_state y) in received y w' r.

Definition next (y : Y) : Y :=
  match sy_tasks y with
  | k :: ks => let '(w', r) := advance settings k (sy_state y) in advanced y k ks w' r
  | [] => y
  end.

Lemma step_arrived y : step settings y (arrived y).
Proof. unfold arrived. destruct (arrive_run _ _ _ _) as [w' r] eqn:E. by apply (ArriveRun settings y request hs). Qed.

Lemma steps_next y : rtc (step settings) y (next y).
Proof.
  unfold next. destruct (sy_tasks y) as [|k ks] eqn:Hk; [constructor|].
  destruct (advance _ _ _) as [w' r] eqn:E. apply rtc_once, Advance; [by rewrite Hk|done].
Qed.

(** The second request comes while the first waits for agent-harness; the third,
    after it was answered. *)
Definition served : Y := arrived (next (next (arrived (next (arrived (start (world [inr ok_response]))))))).

Lemma served_steps : rtc (step settings) (start (world [inr ok_response])) served.
Proof.
  unfold served. eapply rtc_r; [|apply step_arrived]. do 2 (etrans; [|apply steps_next]).
  eapply rtc_r; [|apply step_arrived]. etrans; [|apply steps_next]. apply rtc_once, step_arrived.
Qed.

Lemma one_run_per_key_witness :
  sy_effects served = [("tnt_a", "k1")] ∧ NoDup (sy_effects served) ∧
  ∃ r r', sy_answers served = [(("tnt_a", "k1"), Invoked r'); (("tnt_a", "k1"), Invoked r)] ∧ r = r'.
Proof.
  destruct (one_run_per_key settings (world [inr ok_response]) served served_steps) as (Hnd & _ & Hrun & _).
  split; [vm_compute; reflexivity|]. split; [exact Hnd|].
  assert (∃ r r', sy_answers served = [(("tnt_a", "k1"), Invoked r'); (("tnt_a", "k1"), Invoked r)]) as (r & r' & Hans)
    by (vm_compute; eexists _, _; reflexivity).
  exists r, r'. split; [exact Hans|]. apply (Hrun ("tnt_a", "k1")); rewrite Hans; [by constructor; constructor|by constructor].
Defined.
End Witness.
