(* ===== verification/Authz.v ===== *)
(** Tool authorization of agent-harness ([harness/authz]): tool manifests and
    agent profiles, the kill switch with its ten-second cache, the policy
    resolver's five-set intersection, and the second check made when a tool is
    actually called. *)
From S2P Require Import Prelude PyStr Json Contracts Wire.

(** ** Parameter models (contracts/tools.py) *)

(* @ harness/authz/manifest.py:29-34 PARAMS_MODELS *)
Inductive ParamsModel :=
  | GetLeaveBalanceParams | SubmitLeaveRequestParams | AdjustPayrollParams | SearchPublicFaqParams.

#[export] Instance ParamsModel_enum : StrEnum ParamsModel := {
  enum_value m := match m with
                  | GetLeaveBalanceParams => "GetLeaveBalanceParams"
                  | SubmitLeaveRequestParams => "SubmitLeaveRequestParams"
                  | AdjustPayrollParams => "AdjustPayrollParams"
                  | SearchPublicFaqParams => "SearchPublicFaqParams" end;
  enum_members := [GetLeaveBalanceParams; SubmitLeaveRequestParams; AdjustPayrollParams;
                   SearchPublicFaqParams] }.

Section Params.
  Context `{Pydantic}.

(** [model_validate(raw).model_dump(mode="json")]. *)
(* @ contracts/tools.py:17-41 GetLeaveBalanceParams, SubmitLeaveRequestParams, AdjustPayrollParams, SearchPublicFaqParams *)
Definition validate_params (m : ParamsModel) : json → option pydict :=
  match m with
  | GetLeaveBalanceParams => d_obj ["employee_id"] (fun kvs =>
      e ← required "employee_id" d_str kvs; Some [("employee_id", JStr e)])
  | SubmitLeaveRequestParams => d_obj ["employee_id"; "leave_days"; "start_date"] (fun kvs =>
      e ← required "employee_id" d_str kvs;
      n ← required "leave_days" (fun j => z ← lax_int j; if (0 <? z)%Z then Some z else None) kvs;
      d ← required "start_date" lax_date kvs;
      Some [("employee_id", JStr e); ("leave_days", JInt n); ("start_date", JStr d)])
  | AdjustPayrollParams => d_obj ["employee_id"; "adjustment_percent"; "reason"] (fun kvs =>
      e ← required "employee_id" d_str kvs;
      p ← required "adjustment_percent" lax_float kvs;
      r ← required "reason" d_str kvs;
      Some [("employee_id", JStr e); ("adjustment_percent", JFloat p); ("reason", JStr r)])
  | SearchPublicFaqParams => d_obj ["query"] (fun kvs =>
      q ← required "query" d_str kvs; Some [("query", JStr q)])
  end.

(** Validation keeps a string field as it is. *)
Lemma validate_params_str m raw params k :
  validate_params m (JObj raw) = Some params → k ∈ ["employee_id"; "query"; "reason"] →
  ∀ v, dict_get k params = Some v → dict_get k raw = Some v.
Proof.
  intros Hv Hk v. unfold validate_params, d_obj in Hv.
  assert (Hreq : ∀ n s, required n d_str raw = Some s → dict_get n raw = Some (JStr s)).
  { intros n s Hr. unfold required in Hr. apply bind_Some in Hr as (j & -> & Hj).
    by destruct j; simplify_eq/=. }
  destruct m; (destruct (only_keys _ _); [|done]); repeat (apply bind_Some in Hv as (? & ? & Hv));
    injection Hv as <-; repeat (apply elem_of_cons in Hk as [->|Hk]); try by apply elem_of_nil in Hk.
  all: cbn; intros; simplify_eq/=; eauto.
Qed.
End Params.

(** ** manifest.py *)

(* @ harness/authz/manifest.py:41-43 EscalationRule *)
Record EscalationRule := MkEscalationRule {
  er_condition : string;
  er_approver_permission : string
}.
#[export] Instance eta_EscalationRule : EtaRec EscalationRule := fun x =>
  MkEscalationRule (er_condition x) (er_approver_permission x).

(* @ harness/authz/manifest.py:51-81 ToolManifestEntry *)
Record ToolManifestEntry := MkToolManifestEntry {
  tm_name : string;
  tm_kind : ToolKind;
  tm_audience : list Audience;
  tm_risk_level : RiskLevel;
  tm_description_for_model : string;
  tm_parameters_schema : string;
  tm_domain : string;
  tm_business_action : string;
  tm_required_permissions : list string;
  tm_data_scope : DataScope;
  tm_scope_param : option string;
  tm_required_scopes_for_token_exchange : list string;
  tm_escalate_to_high_when : list EscalationRule;
  tm_approver_permission : option string;
  tm_cacheable : bool
}.
#[export] Instance eta_ToolManifestEntry : EtaRec ToolManifestEntry := fun x =>
  MkToolManifestEntry (tm_name x) (tm_kind x) (tm_audience x) (tm_risk_level x)
    (tm_description_for_model x) (tm_parameters_schema x) (tm_domain x) (tm_business_action x)
    (tm_required_permissions x) (tm_data_scope x) (tm_scope_param x)
    (tm_required_scopes_for_token_exchange x) (tm_escalate_to_high_when x)
    (tm_approver_permission x) (tm_cacheable x).

(* @ harness/authz/manifest.py:83-85 ToolManifestEntry.parameters_model *)
Definition parameters_model {S} (tool : ToolManifestEntry) : py S ParamsModel :=
  match enum_of_string (tm_parameters_schema tool) with
  | Some m => ret m
  | None => raise (KeyError (tm_parameters_schema tool))
  end.

(* @ harness/authz/manifest.py:87-100 ToolManifestEntry.approver_permission_for *)
Definition approver_permission_for (tool : ToolManifestEntry) (risk_level : RiskLevel) : option string :=
  if decide (risk_level ≠ HIGH) then None
  else if opt_truthy (tm_approver_permission tool) then tm_approver_permission tool
  else match tm_escalate_to_high_when tool with
       | rule :: _ => Some (er_approver_permission rule)
       | [] => None
       end.

Definition audience_in (a : Audience) (l : list Audience) : bool := existsb (fun x => bool_decide (x = a)) l.

(** The files of the tools directory in path order, each one parsed or the
    exception its YAML or its validation raised. *)
(* @ harness/authz/manifest.py:103-118 load_tool_manifests *)
Definition load_tool_manifests {S} (files : list (exn + ToolManifestEntry)) (audience : Audience)
    : py S (list (string * ToolManifestEntry)) :=
  let! entries := foldM (fun entries file =>
    match file with
    | inl e => raise e
    | inr entry => if audience_in audience (tm_audience entry)
                   then ret (dict_set (tm_name entry) entry entries) else ret entries
    end) [] files in
  match entries with
  | [] => raise (ManifestLoadError (enum_value audience))
  | _ => ret entries
  end.

(** ** agent_profile.py *)

(* @ harness/authz/agent_profile.py:35-56 AgentProfile *)
Record AgentProfile := MkAgentProfile {
  ap_agent_id : string;
  ap_audience : Audience;
  ap_allowed_tools : list string;
  ap_cacheable : bool;
  ap_cache_ttl_seconds : Z;
  ap_max_iterations : Z
}.
#[export] Instance eta_AgentProfile : EtaRec AgentProfile := fun x =>
  MkAgentProfile (ap_agent_id x) (ap_audience x) (ap_allowed_tools x) (ap_cacheable x)
    (ap_cache_ttl_seconds x) (ap_max_iterations x).

(* @ harness/authz/agent_profile.py:59-73 load_agent_profiles *)
Definition load_agent_profiles {S} (files : list (exn + AgentProfile)) (audience : Audience)
    : py S (list (string * AgentProfile)) :=
  foldM (fun profiles file =>
    match file with
    | inl e => raise e
    | inr profile => if decide (ap_audience profile ≠ audience) then ret profiles
                     else ret (dict_set (ap_agent_id profile) profile profiles)
    end) [] files.

(** ** killswitch.py *)

(** The monotonic clock and [GET] on the control database. *)
Class KillswitchEnv (X : Type) := {
  monotonic : X → float64;
  redis_get : string → py X (option string)
}.

(* @ harness/authz/killswitch.py:18-21 KillswitchChecker.__init__ *)
Record KillswitchState (X : Type) := MkKillswitchState {
  ks_cache : gmap string (bool * float64);
  ks_ext : X
}.
Arguments MkKillswitchState {X}.
Arguments ks_cache {X}.
Arguments ks_ext {X}.
#[export] Instance eta_KillswitchState {X} : EtaRec (KillswitchState X) := fun x =>
  MkKillswitchState (ks_cache x) (ks_ext x).

(* @ harness/authz/killswitch.py:14-14 CACHE_TTL_SECONDS *)
Definition CACHE_TTL_SECONDS : float64 := f64_of_Z 10.

Section Killswitch.
  Context {X : Type} `{KillswitchEnv X}.

(** [value in (b"disabled", "disabled")]. *)
Definition says_disabled (value : option string) : bool :=
  match value with Some v => String.eqb v "disabled" | None => false end.

(* @ harness/authz/killswitch.py:23-31 KillswitchChecker._is_disabled *)
Definition is_disabled (key : string) : py (KillswitchState X) bool :=
  let! now := gets (fun s => monotonic (ks_ext s)) in
  let! cached := gets (fun s => ks_cache s !! key) in
  let read :=
    let! value := zoom ks_ext (fun x s => s <| ks_ext := x |>) (redis_get key) in
    let disabled := says_disabled value in
    modify (fun s => s <| ks_cache ::= <[key := (disabled, now)]> |>) ;!
    ret disabled in
  match cached with
  | Some (disabled, at_) =>
      if f64_ltb (f64_sub now at_) CACHE_TTL_SECONDS then ret disabled else read
  | None => read
  end.

(* @ harness/authz/killswitch.py:33-34 KillswitchChecker.is_tool_disabled *)
Definition is_tool_disabled (tool_name : string) : py (KillswitchState X) bool :=
  is_disabled ("killswitch:tool:" +:+ tool_name).

(* @ harness/authz/killswitch.py:36-37 KillswitchChecker.is_agent_disabled *)
Definition is_agent_disabled (agent_id : string) : py (KillswitchState X) bool :=
  is_disabled ("killswitch:agent:" +:+ agent_id).
End Killswitch.

(** ** records.py *)

(* @ harness/authz/records.py:29-35 AuthzDecisionRecord *)
Record AuthzDecisionRecord := MkAuthzDecisionRecord {
  adr_tool_name : string;
  adr_decision : string;
  adr_deny_reason : option string;
  adr_missing_permissions : list string;
  adr_data_scope : option string;
  adr_scope_satisfied : option bool
}.
#[export] Instance eta_AuthzDecisionRecord : EtaRec AuthzDecisionRecord := fun x =>
  MkAuthzDecisionRecord (adr_tool_name x) (adr_decision x) (adr_deny_reason x)
    (adr_missing_permissions x) (adr_data_scope x) (adr_scope_satisfied x).

(** ** scope_check.py *)

(* @ harness/authz/scope_check.py:17-24 apply_scope_default *)
Definition apply_scope_default (params : pydict) (scope_param : string) (employee_id : option string)
    : pydict :=
  if opt_truthy employee_id && negb (opt_json (dict_get scope_param params))
  then dict_set scope_param (j_opt_str employee_id) params
  else params.

(* @ harness/authz/scope_check.py:27-42 check_scope *)
Definition check_scope `{FloatRepr} (params : pydict) (scope_param : string) (constraint : ScopeConstraint)
    : option string :=
  match sc_allowed_ids constraint with
  | None => None
  | Some allowed =>
      let value := from_option id JNull (dict_get scope_param params) in
      if json_in_strs value allowed then None
      else Some (scope_param +:+ "=" +:+ json_repr value +:+ " is outside the caller's "
                 +:+ enum_value (sc_data_scope constraint) +:+ " scope for this tool")
  end.

(** ** policy_resolver.py *)

Section Resolver.
  Context {X : Type} `{KillswitchEnv X, Pydantic}.

(** [ScopeConstraint(allowed_ids=l)]: the ids are strings. *)
Definition make_constraint {S} (tool : ToolManifestEntry) (p : string) (allowed : option (list json))
    : py S (option ScopeConstraint) :=
  match allowed with
  | None => ret (Some (MkScopeConstraint (tm_data_scope tool) p None))
  | Some l => match mapM d_str l with
              | Some ids => ret (Some (MkScopeConstraint (tm_data_scope tool) p (Some ids)))
              | None => raise (ValidationError (validation_text "ScopeConstraint" (JArr l)))
              end
  end.

(* @ harness/authz/policy_resolver.py:36-65 _resolve_scope_constraint *)
Definition resolve_scope_constraint {S} (tool : ToolManifestEntry) (ctx : AuthorizationContext)
    : py S (option ScopeConstraint) :=
  match tm_scope_param tool with
  | None => ret None
  | Some p =>
      let own := match ctx_employee_id ctx with
                 | Some e => if String.eqb e "" then [] else [JStr e]
                 | None => []
                 end in
      match tm_data_scope tool with
      | SELF => make_constraint tool p (Some own)
      | TEAM =>
          let team := match dict_get "team_member_ids" (ctx_scope_context ctx) with
                      | Some (JArr l) => l
                      | _ => []
                      end in
          make_constraint tool p (Some (team ++ own))
      | DEPARTMENT | TENANT => make_constraint tool p None
      end
  end.

Definition empty_decision : PolicyDecision := MkPolicyDecision [] [] [].

Definition deny (acc : PolicyDecision) (name reason : string) (missing : list string) : PolicyDecision :=
  acc <| pd_denials ::= fun l => l ++ [MkDenial name reason missing] |>.

Definition missing_permissions (tool : ToolManifestEntry) (ctx : AuthorizationContext) : list string :=
  List.filter (fun p => negb (str_in p (ctx_permissions ctx))) (tm_required_permissions tool).

(* @ harness/authz/policy_resolver.py:98-134 YamlPolicyResolver.resolve: one candidate *)
Definition decide_tool (ctx : AuthorizationContext) (acc : PolicyDecision) (tool : ToolManifestEntry)
    : py (KillswitchState X) PolicyDecision :=
  match missing_permissions tool ctx with
  | (_ :: _) as missing => ret (deny acc (tm_name tool) "missing required permissions" missing)
  | [] =>
      if bool_decide (tm_kind tool = MUTATION) && negb (ctx_allow_mutations ctx)
      then ret (deny acc (tm_name tool) "mutations are not allowed for this request" [])
      else
        let! tool_off := is_tool_disabled (tm_name tool) in
        if tool_off : bool then ret (deny acc (tm_name tool) "tool disabled by killswitch" [])
        else
          let! agent_off := is_agent_disabled (ctx_agent_id ctx) in
          if agent_off : bool then ret (deny acc (tm_name tool) "agent disabled by killswitch" [])
          else
            let! constraint := resolve_scope_constraint tool ctx in
            match constraint with
            | None => ret (acc <| pd_allowed_tools ::= fun l => l ++ [tm_name tool] |>)
            | Some c =>
                match sc_allowed_ids c with
                | Some [] => ret (deny acc (tm_name tool) "no scope identity available for this tool" [])
                | _ => ret (acc <| pd_allowed_tools ::= fun l => l ++ [tm_name tool] |>
                                <| pd_scope_constraints ::= dict_set (tm_name tool) c |>)
                end
            end
  end.

Definition candidates (tool_manifests : list (string * ToolManifestEntry)) (profile : AgentProfile)
    : list ToolManifestEntry :=
  omap (fun name => dict_get name tool_manifests) (ap_allowed_tools profile).

(* @ harness/authz/policy_resolver.py:80-138 YamlPolicyResolver.resolve *)
Definition resolve (tool_manifests : list (string * ToolManifestEntry))
    (agent_profiles : list (string * AgentProfile)) (ctx : AuthorizationContext)
    : py (KillswitchState X) PolicyDecision :=
  match dict_get (ctx_agent_id ctx) agent_profiles with
  | None => ret empty_decision
  | Some profile => foldM (decide_tool ctx) empty_decision (candidates tool_manifests profile)
  end.
End Resolver.
