(* ===== verification/AuthzProps.v ===== *)
(** What tool authorization guarantees: the resolver computes the five-set
    intersection and explains every refusal, a kill switch is obeyed within its
    cache lifetime, and a deployment only loads tools of its audience. *)
From S2P Require Import Prelude PyStr Json Contracts Wire Authz.

(** ** The five sets *)

Section FiveSets.
  Context {X : Type} `{KillswitchEnv X, Pydantic}.
  Implicit Types (ctx : AuthorizationContext) (tool : ToolManifestEntry).

(** The ids the caller's own scope names. *)
Definition own_ids ctx : list string :=
  match ctx_employee_id ctx with Some e => if String.eqb e "" then [] else [e] | None => [] end.

Definition team_ids ctx : list string :=
  match dict_get "team_member_ids" (ctx_scope_context ctx) with
  | Some (JArr l) => omap d_str l
  | _ => []
  end.

(** [scope_context.team_member_ids], when it is a list, holds strings. *)
Definition team_strings ctx : Prop :=
  match dict_get "team_member_ids" (ctx_scope_context ctx) with
  | Some (JArr l) => Forall (fun j => is_Some (d_str j)) l
  | _ => True
  end.

Definition scope_of ctx tool : option ScopeConstraint :=
  p ← tm_scope_param tool;
  Some (MkScopeConstraint (tm_data_scope tool) p
          (match tm_data_scope tool with
           | SELF => Some (own_ids ctx)
           | TEAM => Some (team_ids ctx ++ own_ids ctx)
           | DEPARTMENT | TENANT => None
           end)).

Definition has_scope ctx tool : bool :=
  match scope_of ctx tool ≫= sc_allowed_ids with Some [] => false | _ => true end.

(** The membership of a candidate in the last three sets, for given switches. *)
Definition granted ctx (off : string → bool) tool : bool :=
  forallb (fun p => str_in p (ctx_permissions ctx)) (tm_required_permissions tool)
  && (bool_decide (tm_kind tool = READONLY) || ctx_allow_mutations ctx)
  && negb (off ("killswitch:tool:" +:+ tm_name tool))
  && negb (off ("killswitch:agent:" +:+ ctx_agent_id ctx))
  && has_scope ctx tool.

(** The switches stand still and Redis answers: a check reports [off]. *)
Definition switches (off : string → bool) (I : KillswitchState X → Prop) : Prop :=
  ∀ key s, I s → ∃ s', is_disabled key s = (s', inr (off key)) ∧ I s'.

(** Redis answers, and holds "disabled" under the keys of [off] only; what the
    checker remembers was read of it. *)
Definition redis_says (off : string → bool) (J : X → Prop) : Prop :=
  ∀ key x, J x → ∃ x' v, redis_get key x = (x', inr v) ∧ J x' ∧ (v = Some "disabled" ↔ off key = true).

Definition cache_says (off : string → bool) (s : KillswitchState X) : Prop :=
  ∀ key d at_, ks_cache s !! key = Some (d, at_) → d = off key.

Lemma says_disabled_spec v : says_disabled v = bool_decide (v = Some "disabled").
Proof.
  destruct v as [v|]; [|done]. cbn [says_disabled]. apply eq_true_iff_eq. rewrite String.eqb_eq, bool_decide_eq_true.
  by split; [intros ->|intros [= ->]].
Qed.

Lemma still_switches off J : redis_says off J → switches off (fun s => J (ks_ext s) ∧ cache_says off s).
Proof.
  intros Hredis key s [HJ Hs]. destruct (Hredis key _ HJ) as (x' & v & Hget & HJ' & Hv).
  assert (says_disabled v = off key) as Hd.
  { rewrite says_disabled_spec. apply eq_true_iff_eq. by rewrite bool_decide_eq_true. }
  set (s1 := s <| ks_ext := x' |> <| ks_cache ::= <[key := (off key, monotonic (ks_ext s))]> |>).
  assert (J (ks_ext s1) ∧ cache_says off s1) as Hread.
  { split; [exact HJ'|]. intros k d at_. cbn. destruct (decide (key = k)) as [<-|].
    - rewrite lookup_insert_eq. by intros [= <- _].
    - rewrite lookup_insert_ne by done. apply Hs. }
  unfold is_disabled, bind, gets, zoom, modify, ret.
  destruct (ks_cache s !! key) as [[d at_]|] eqn:Hc; cbn;
    [destruct (f64_ltb _ _); [exists s; by rewrite (Hs _ _ _ Hc)|]|]; rewrite Hget; cbn; rewrite Hd; by exists s1.
Qed.

(** Each refusal with its reason, in the order the resolver tries them. *)
Definition verdict ctx off tool : option Denial :=
  match missing_permissions tool ctx with
  | (_ :: _) as missing => Some (MkDenial (tm_name tool) "missing required permissions" missing)
  | [] =>
      if bool_decide (tm_kind tool = MUTATION) && negb (ctx_allow_mutations ctx)
      then Some (MkDenial (tm_name tool) "mutations are not allowed for this request" [])
      else if off ("killswitch:tool:" +:+ tm_name tool) : bool
      then Some (MkDenial (tm_name tool) "tool disabled by killswitch" [])
      else if off ("killswitch:agent:" +:+ ctx_agent_id ctx) : bool
      then Some (MkDenial (tm_name tool) "agent disabled by killswitch" [])
      else if has_scope ctx tool then None
      else Some (MkDenial (tm_name tool) "no scope identity available for this tool" [])
  end.

Lemma verdict_granted ctx off tool : granted ctx off tool = true ↔ verdict ctx off tool = None.
Proof.
  unfold granted, verdict, missing_permissions.
  assert (forallb (fun p => str_in p (ctx_permissions ctx)) (tm_required_permissions tool) = true
    ↔ List.filter (fun p => negb (str_in p (ctx_permissions ctx))) (tm_required_permissions tool) = []) as Hp.
  { induction (tm_required_permissions tool) as [|p l IH]; cbn; [done|].
    destruct (str_in p _); cbn; [done|]. by split. }
  destruct (List.filter _ _) as [|m ms].
  - rewrite (proj2 Hp eq_refl). cbn.
    destruct (tm_kind tool), (ctx_allow_mutations ctx), (off _), (off _), (has_scope ctx tool); done.
  - split; [|done]. rewrite !andb_true_iff. intros [[[[Hf _] _] _] _]. by apply Hp in Hf.
Qed.

Definition record_tool ctx off (acc : PolicyDecision) tool : PolicyDecision :=
  match verdict ctx off tool with
  | Some d => acc <| pd_denials ::= fun l => l ++ [d] |>
  | None =>
      let acc := acc <| pd_allowed_tools ::= fun l => l ++ [tm_name tool] |> in
      match scope_of ctx tool with
      | Some c => acc <| pd_scope_constraints ::= dict_set (tm_name tool) c |>
      | None => acc
      end
  end.

Lemma mapM_d_str_omap l : Forall (fun j => is_Some (d_str j)) l → mapM d_str l = Some (omap d_str l).
Proof.
  induction 1 as [|j l [s Hj] _ IH]; [done|]. cbn. rewrite Hj. cbn. by rewrite IH.
Qed.

Lemma own_json ctx :
  match ctx_employee_id ctx with
  | Some e => if String.eqb e "" then [] else [JStr e]
  | None => []
  end = JStr <$> own_ids ctx.
Proof. unfold own_ids. destruct (ctx_employee_id ctx) as [e|]; [|done]. by destruct (String.eqb e ""). Qed.

Lemma resolve_scope_run {S} ctx tool (s : S) :
  team_strings ctx → resolve_scope_constraint tool ctx s = (s, inr (scope_of ctx tool)).
Proof.
  intros Hteam. unfold resolve_scope_constraint, scope_of. rewrite own_json.
  destruct (tm_scope_param tool) as [p|]; [|done]. cbn.
  destruct (tm_data_scope tool); try done; unfold make_constraint.
  - by rewrite mapM_str_dump.
  - unfold team_strings, team_ids in *.
    assert (∀ l, Forall (fun j => is_Some (d_str j)) l →
      mapM d_str (l ++ (JStr <$> own_ids ctx)) = Some (omap d_str l ++ own_ids ctx)) as Happ.
    { intros l Hl. rewrite mapM_d_str_omap.
      - rewrite omap_app. do 2 f_equal. clear. induction (own_ids ctx) as [|x l IH]; [done|].
        cbn. by f_equal.
      - apply Forall_app. split; [done|]. apply Forall_fmap, Forall_true. intros x. by eexists. }
    destruct (dict_get "team_member_ids" _) as [[| | | | |l|]|]; try (rewrite (Happ []); [done|constructor]).
    by rewrite (Happ l).
Qed.

Lemma decide_tool_run ctx off I acc tool s :
  switches off I → team_strings ctx → I s →
  ∃ s', decide_tool ctx acc tool s = (s', inr (record_tool ctx off acc tool)) ∧ I s'.
Proof.
  intros Hoff Hteam HI. unfold decide_tool, record_tool, verdict.
  destruct (missing_permissions tool ctx) as [|m ms]; [|by eexists].
  destruct (_ && _); [by eexists|].
  destruct (Hoff ("killswitch:tool:" +:+ tm_name tool) s HI) as (s1 & Ht & H1).
  unfold is_tool_disabled. rewrite (bind_inr _ _ _ _ _ Ht). destruct (off _); [by eexists|].
  destruct (Hoff ("killswitch:agent:" +:+ ctx_agent_id ctx) s1 H1) as (s2 & Ha & H2).
  unfold is_agent_disabled. rewrite (bind_inr _ _ _ _ _ Ha). destruct (off _); [by eexists|].
  rewrite (bind_inr _ _ _ _ _ (resolve_scope_run ctx tool s2 Hteam)). unfold has_scope.
  destruct (scope_of ctx tool) as [c|]; cbn; [|by eexists].
  by destruct (sc_allowed_ids c) as [[|i ids]|]; eexists.
Qed.

Lemma record_all ctx off tools acc :
  let pd := fold_left (record_tool ctx off) tools acc in
  pd_allowed_tools pd
    = pd_allowed_tools acc ++ (tm_name <$> List.filter (granted ctx off) tools) ∧
  pd_denials pd = pd_denials acc ++ omap (verdict ctx off) tools.
Proof.
  revert acc. induction tools as [|t l IH]; intros acc; cbn; [by rewrite !app_nil_r|].
  destruct (IH (record_tool ctx off acc t)) as [-> ->]. unfold record_tool.
  pose proof (verdict_granted ctx off t) as Hg.
  destruct (verdict ctx off t) as [d|] eqn:Hv; cbn.
  - destruct (granted ctx off t); [discriminate (proj1 Hg eq_refl)|]. cbn. split; [done|].
    by rewrite <- app_assoc.
  - rewrite (proj2 Hg eq_refl). cbn. destruct (scope_of ctx t); cbn; split; try done;
      by rewrite <- app_assoc.
Qed.

(** A candidate list without two tools of one name. *)
Definition distinct_names (tools : list ToolManifestEntry) : Prop := NoDup (tm_name <$> tools).

Lemma record_all_scopes ctx off tools acc t :
  distinct_names tools → t ∈ tools → granted ctx off t = true →
  (dict_get (tm_name t) (pd_scope_constraints acc) = None) →
  dict_get (tm_name t) (pd_scope_constraints (fold_left (record_tool ctx off) tools acc))
  = scope_of ctx t.
Proof.
  assert (Hkeep : ∀ l acc, tm_name t ∉ tm_name <$> l →
    dict_get (tm_name t) (pd_scope_constraints (fold_left (record_tool ctx off) l acc))
    = dict_get (tm_name t) (pd_scope_constraints acc)).
  { induction l as [|u l IH]; intros a Hni; cbn in *; [done|].
    apply not_elem_of_cons in Hni as [Hu Hl]. rewrite IH by done. unfold record_tool.
    destruct (verdict ctx off u); [done|]. destruct (scope_of ctx u); [|done]. cbn.
    by apply dict_get_set_ne. }
  revert acc. induction tools as [|u l IH]; intros acc Hnd Ht Hg Hnone; [by apply elem_of_nil in Ht|].
  unfold distinct_names in *. cbn in Hnd. apply NoDup_cons in Hnd as [Hu Hnd].
  apply elem_of_cons in Ht as [<-|Ht]; cbn.
  - rewrite Hkeep by done. unfold record_tool.
    rewrite (proj1 (verdict_granted ctx off t) Hg). destruct (scope_of ctx t); [|done]. cbn.
    apply dict_get_set_eq.
  - apply IH; [done..|]. unfold record_tool.
    assert (tm_name t ≠ tm_name u) by (intros Heq; apply Hu; rewrite <- Heq; by apply list_elem_of_fmap_2).
    destruct (verdict ctx off u); [done|]. destruct (scope_of ctx u); [|done]. cbn.
    by rewrite dict_get_set_ne.
Qed.
End FiveSets.

Section Resolve.
  Context {X : Type} `{KillswitchEnv X, Pydantic}.

(** C9: The resolver computes the five-set intersection. While Redis answers and
    the kill switches it holds stand still, a known agent whose team ids are strings
    is offered exactly the tools its profile names that are deployed, whose
    permissions the user holds, that the request's allow_mutations admits, that
    neither a tool nor an agent switch turns off and that have an identity to be
    scoped to, in the profile's order. Every other deployed tool of the profile gets
    exactly one denial, and where no two tools share a name, every offered tool
    carries its scope constraint. *)
Theorem resolve_is_five_set_intersection manifests profiles profile ctx off J (s : KillswitchState X) :
  dict_get (ctx_agent_id ctx) profiles = Some profile →
  redis_says off J → J (ks_ext s) → cache_says off s → team_strings ctx →
  let tools := omap (fun name => dict_get name manifests) (ap_allowed_tools profile) in
  ∃ s' pd, resolve manifests profiles ctx s = (s', inr pd) ∧ (J (ks_ext s') ∧ cache_says off s') ∧
    pd_allowed_tools pd = tm_name <$> List.filter (granted ctx off) tools ∧
    (den_tool_name <$> pd_denials pd)
      = tm_name <$> List.filter (fun t => negb (granted ctx off t)) tools ∧
    (distinct_names tools → ∀ t, t ∈ tools → granted ctx off t = true →
       dict_get (tm_name t) (pd_scope_constraints pd) = scope_of ctx t).
Proof.
  intros Hprof Hredis HJ Hcache Hteam tools. pose proof (still_switches off J Hredis) as Hoff.
  unfold resolve. rewrite Hprof. change (candidates manifests profile) with tools.
  destruct (foldM_pure (fun s => J (ks_ext s) ∧ cache_says off s) (decide_tool ctx) (record_tool ctx off) tools empty_decision s) as (s' & Hrun & Hs');
    [by eauto using decide_tool_run|done|].
  eexists s', _. split; [exact Hrun|]. split; [done|].
  destruct (record_all ctx off tools empty_decision) as [-> ->]. split; [done|]. split.
  - clear. cbn. induction tools as [|t l IH]; cbn; [done|].
    pose proof (verdict_granted ctx off t) as Hg. destruct (verdict ctx off t) as [d|] eqn:Hv.
    + assert (granted ctx off t = false) as -> by (destruct (granted ctx off t); [by discriminate (proj1 Hg eq_refl)|done]).
      cbn. f_equal; [|done]. unfold verdict in Hv. by repeat case_match; simplify_eq.
    + by rewrite (proj2 Hg eq_refl).
  - intros Hnd t Ht Hg. by apply record_all_scopes.
Qed.

(** No permission, no tool - whatever the kill switches, the cache and
    Redis do. A tool in any decision is in the agent's profile, deployed, its
    required permissions are all the user's, and it is a mutation only if the
    request allows mutations; an unknown agent gets nothing. *)
Theorem resolve_never_exceeds_ceiling manifests profiles ctx (s s' : KillswitchState X) pd name :
  resolve manifests profiles ctx s = (s', inr pd) → name ∈ pd_allowed_tools pd →
  ∃ profile tool, dict_get (ctx_agent_id ctx) profiles = Some profile ∧
    tool ∈ candidates manifests profile ∧ tm_name tool = name ∧
    (∀ p, p ∈ tm_required_permissions tool → p ∈ ctx_permissions ctx) ∧
    (tm_kind tool = MUTATION → ctx_allow_mutations ctx = true).
Proof.
  unfold resolve. destruct (dict_get _ profiles) as [profile|];
    [|intros [= <- <-]; cbn; by intros ?%elem_of_nil].
  set (ok := fun tool => (∀ p, p ∈ tm_required_permissions tool → p ∈ ctx_permissions ctx) ∧
    (tm_kind tool = MUTATION → ctx_allow_mutations ctx = true)).
  set (I := fun (acc : PolicyDecision) (_ : KillswitchState X) => ∀ n, n ∈ pd_allowed_tools acc →
    ∃ tool, tool ∈ candidates manifests profile ∧ tm_name tool = n ∧ ok tool).
  intros Hrun Hname. assert (I pd s') as HI.
  { eapply (foldM_invariant I); [| |exact Hrun]; [|intros n; cbn; by intros ?%elem_of_nil].
    intros acc tool t t' acc' Htool Hacc Hd.
    assert (pd_allowed_tools acc' = pd_allowed_tools acc ∨
            pd_allowed_tools acc' = pd_allowed_tools acc ++ [tm_name tool] ∧ ok tool) as [Heq|[Heq Hok]].
    { unfold decide_tool in Hd. destruct (missing_permissions tool ctx) as [|m ms] eqn:Hmiss;
        [|injection Hd as <- <-; by left].
      assert (∀ p, p ∈ tm_required_permissions tool → p ∈ ctx_permissions ctx) as Hperm.
      { intros p Hp. apply str_in_spec. destruct (str_in p _) eqn:Hin; [done|].
        assert (p ∈ missing_permissions tool ctx) as Hbad.
        { apply list_elem_of_In, filter_In. rewrite Hin. split; [by apply list_elem_of_In|done]. }
        rewrite Hmiss in Hbad. by apply elem_of_nil in Hbad. }
      destruct (bool_decide (tm_kind tool = MUTATION) && negb (ctx_allow_mutations ctx)) eqn:Hm;
        [injection Hd as <- <-; by left|].
      assert (ok tool) as Hok.
      { split; [done|]. intros Hk. rewrite Hk in Hm. by destruct (ctx_allow_mutations ctx). }
      unfold bind, ret in Hd. repeat (case_match; simplify_eq/=); auto. }
    - unfold I. rewrite Heq. exact Hacc.
    - unfold I. rewrite Heq. intros n [Hn|Hn%list_elem_of_singleton]%elem_of_app; [by apply Hacc|]. subst.
      by exists tool. }
  destruct (HI name Hname) as (tool & Hin & Hn & Hok). by exists profile, tool.
Qed.
End Resolve.

(** ** Kill-switch staleness *)

(** Redis as the monotonic clock sees it: the value of a key at an instant; a
    read happens no earlier than the clock reading before it. *)
Class KillswitchHistory (X : Type) `{KillswitchEnv X} := {
  value_at : float64 → string → option string;
  redis_get_history (x x' : X) key v :
    redis_get key x = (x', inr v) →
    ∃ t, f64_leb (monotonic x) t = true ∧ v = value_at t key
}.

Section Staleness.
  Context {X : Type} `{KillswitchHistory X}.

(** A cached answer was read no earlier than its time stamp. *)
Definition cache_sound (s : KillswitchState X) : Prop :=
  ∀ key d at_, ks_cache s !! key = Some (d, at_) →
  ∃ t, f64_leb at_ t = true ∧ d = says_disabled (value_at t key).

Lemma is_disabled_cache_sound key s : cache_sound s → cache_sound (is_disabled key s).1.
Proof.
  intros Hs. unfold is_disabled, bind, gets, zoom, modify, ret.
  assert (cache_sound (let (x, r) := redis_get key (ks_ext s) in
    match r with
    | inl e => (s <| ks_ext := x |>, inl e)
    | inr v => (s <| ks_ext := x |> <| ks_cache ::= <[key := (says_disabled v, monotonic (ks_ext s))]> |>,
                inr (says_disabled v)) end).1) as Hread.
  { destruct (redis_get key (ks_ext s)) as [x [e|v]] eqn:Hget; cbn; [exact Hs|].
    destruct (redis_get_history _ _ _ _ Hget) as (t & Ht & Hv). intros k d at_. cbn.
    destruct (decide (key = k)) as [<-|Hne].
    - rewrite lookup_insert_eq. intros [= <- <-]. exists t. by rewrite Hv.
    - rewrite lookup_insert_ne by done. apply Hs. }
  destruct (ks_cache s !! key) as [[d at_]|]; cbn.
  - destruct (f64_ltb _ _); cbn; [done|]. by destruct (redis_get key (ks_ext s)) as [x [e|v]].
  - by destruct (redis_get key (ks_ext s)) as [x [e|v]].
Qed.

(** C38: A kill switch is obeyed within ten seconds. In any state reached by
    checks from an empty cache, a check made at clock time [now] answers that the
    key is off exactly when Redis held "disabled" under it at some instant, which is
    no earlier than a time stamp that is [now] itself or less than ten seconds
    before it. *)
Theorem killswitch_bounded_staleness (keys : list string) key (x : X) s s' d :
  (for_each keys (fun k => is_disabled k ;! ret tt) (MkKillswitchState ∅ x)).1 = s →
  is_disabled key s = (s', inr d) →
  ∃ stamp t, (stamp = monotonic (ks_ext s) ∨
              f64_ltb (f64_sub (monotonic (ks_ext s)) stamp) (f64_of_Z 10) = true) ∧
    f64_leb stamp t = true ∧ (d = true ↔ value_at t key = Some "disabled").
Proof.
  intros Hreach Hrun. enough (∃ stamp t, (stamp = monotonic (ks_ext s) ∨
      f64_ltb (f64_sub (monotonic (ks_ext s)) stamp) (f64_of_Z 10) = true) ∧
      f64_leb stamp t = true ∧ d = says_disabled (value_at t key)) as (stamp & t & Hst & Ht & ->).
  { exists stamp, t. split; [done|]. split; [done|]. by rewrite says_disabled_spec, bool_decide_eq_true. }
  assert (cache_sound s) as Hs.
  { subst s. clear Hrun. assert (∀ s0, cache_sound s0 → cache_sound
      (for_each keys (fun k => is_disabled k ;! ret tt) s0).1) as Hall.
    { induction keys as [|k ks IH]; intros s0 Hs0; cbn; [done|]. unfold bind.
      pose proof (is_disabled_cache_sound k s0 Hs0) as Hk.
      destruct (is_disabled k s0) as [s1 [e|b]]; cbn in *; [done|]. by apply IH. }
    apply Hall. intros k b at_. cbn. by rewrite lookup_empty. }
  revert Hrun. unfold is_disabled, bind, gets, zoom, modify, ret.
  destruct (ks_cache s !! key) as [[d0 at_]|] eqn:Hc; cbn.
  - destruct (f64_ltb _ _) eqn:Hfresh; cbn.
    + intros [= <- <-]. destruct (Hs _ _ _ Hc) as (t & Ht & Hd). exists at_, t. auto.
    + destruct (redis_get key (ks_ext s)) as [x' [e|v]] eqn:Hget; cbn; [done|]. intros [= <- <-].
      destruct (redis_get_history _ _ _ _ Hget) as (t & Ht & Hv). eexists _, t. subst. auto.
  - destruct (redis_get key (ks_ext s)) as [x' [e|v]] eqn:Hget; cbn; [done|]. intros [= <- <-].
    destruct (redis_get_history _ _ _ _ Hget) as (t & Ht & Hv). eexists _, t. subst. auto.
Qed.
End Staleness.

(** ** Loading *)

Lemma audience_in_spec a l : audience_in a l = true ↔ a ∈ l.
Proof.
  unfold audience_in. rewrite existsb_exists. split.
  - intros (x & Hx & ->%bool_decide_eq_true). by apply list_elem_of_In.
  - intros Ha. exists a. split; [by apply list_elem_of_In|by apply bool_decide_eq_true].
Qed.

(** A deployment only loads tools of its audience, each under its own name,
    and never boots with none: loading the manifests either raises or yields a
    non-empty registry in which every entry declares the audience. *)
Theorem load_tool_manifests_audience {S} files audience (s s' : S) entries :
  load_tool_manifests files audience s = (s', inr entries) →
  entries ≠ [] ∧
  ∀ name tool, dict_get name entries = Some tool →
    tm_name tool = name ∧ audience ∈ tm_audience tool ∧ inr tool ∈ files.
Proof.
  set (I := fun (acc : list (string * ToolManifestEntry)) (_ : S) => ∀ name tool,
    dict_get name acc = Some tool →
    tm_name tool = name ∧ audience ∈ tm_audience tool ∧ inr tool ∈ files).
  unfold load_tool_manifests, bind. destruct (foldM _ _ _ _) as [s1 [e|acc]] eqn:Hf; [done|].
  intros Hret. assert (acc ≠ [] ∧ entries = acc) as [Hne ->] by (by destruct acc; [done|]; injection Hret as _ <-).
  split; [done|]. enough (I acc s1) as HI by exact HI.
  eapply (foldM_invariant I); [| |exact Hf]; [|done].
  intros b file t t' b' Hfile Hb. destruct file as [e|tool]; [done|].
  destruct (audience_in audience (tm_audience tool)) eqn:Ha; intros [= <- <-]; [|done].
  intros n u. destruct (decide (n = tm_name tool)) as [->|Hn].
  - rewrite dict_get_set_eq. intros [= <-]. by rewrite <- audience_in_spec.
  - rewrite dict_get_set_ne by done. apply Hb.
Qed.

(** ** The theorems at a concrete deployment *)

Module Witness.
(** A clock that stands at 100 s and a control database of one fact. *)
#[local] Instance env : KillswitchEnv unit := {|
  monotonic _ := f64_of_Z 100;
  redis_get key u :=
    (u, inr (if String.eqb key "killswitch:tool:adjust_payroll" then Some "disabled" else None)) |}.

#[local] Instance history : KillswitchHistory unit.
Proof.
  refine {| value_at _ key :=
    if String.eqb key "killswitch:tool:adjust_payroll" then Some "disabled" else None |}.
  intros x x' key v [= <- <-]. exists (f64_of_Z 100). by split.
Defined.

#[local] Instance pyd : Pydantic := strict_pydantic.

Definition tool (name : string) (kind : ToolKind) (perms : list string) : ToolManifestEntry :=
  MkToolManifestEntry name kind [INTERNAL] MEDIUM "" "GetLeaveBalanceParams" "hr" name perms SELF
    (Some "employee_id") [] [] None false.

Definition manifests : list (string * ToolManifestEntry) :=
  [("get_leave_balance", tool "get_leave_balance" READONLY ["leave.read"]);
   ("submit_leave_request", tool "submit_leave_request" MUTATION ["leave.request.create"]);
   ("adjust_payroll", tool "adjust_payroll" READONLY [])].

Definition profiles : list (string * AgentProfile) :=
  [("hr-assistant", MkAgentProfile "hr-assistant" INTERNAL
      ["get_leave_balance"; "submit_leave_request"; "adjust_payroll"] true 3600 8)].

Definition ctx : AuthorizationContext :=
  MkAuthorizationContext "tnt_a" "usr_1" (Some "emp_1") [] ["leave.read"; "leave.request.create"] []
    "hr-assistant" false.

Definition off (key : string) : bool := String.eqb key "killswitch:tool:adjust_payroll".

Lemma demo_redis : redis_says off (fun _ : unit => True).
Proof.
  intros key [] _. exists tt, (if off key then Some "disabled" else None). split; [reflexivity|]. split; [done|].
  by destruct (off key).
Qed.

Lemma resolve_is_five_set_intersection_witness :
  ∃ s' pd, resolve manifests profiles ctx (MkKillswitchState ∅ tt) = (s', inr pd) ∧
    pd_allowed_tools pd = ["get_leave_balance"] ∧
    (den_tool_name <$> pd_denials pd) = ["submit_leave_request"; "adjust_payroll"].
Proof.
  destruct (resolve_is_five_set_intersection manifests profiles (snd (hd ("", MkAgentProfile "" INTERNAL [] false 0 0) profiles))
    ctx off (fun _ => True) (MkKillswitchState ∅ tt) eq_refl demo_redis Logic.I) as (s' & pd & Hr & _ & Ha & Hd & _);
    [|exact Logic.I|].
  - intros key d at_. cbn. by rewrite lookup_empty.
  - exists s', pd. split; [exact Hr|]. split; [rewrite Ha|rewrite Hd]; vm_compute; reflexivity.
Defined.

Lemma resolve_never_exceeds_ceiling_witness :
  ∃ profile tool, dict_get (ctx_agent_id ctx) profiles = Some profile ∧
    tool ∈ candidates manifests profile ∧ tm_name tool = "get_leave_balance" ∧
    (∀ p, p ∈ tm_required_permissions tool → p ∈ ctx_permissions ctx) ∧
    (tm_kind tool = MUTATION → ctx_allow_mutations ctx = true).
Proof.
  destruct (resolve manifests profiles ctx (MkKillswitchState ∅ tt)) as [s' [e|pd]] eqn:Hr;
    [vm_compute in Hr; discriminate|].
  assert (pd_allowed_tools pd = ["get_leave_balance"]) as Ha
    by (vm_compute in Hr; injection Hr as _ <-; reflexivity).
  eapply (resolve_never_exceeds_ceiling manifests profiles ctx _ _ _ _ Hr).
  rewrite Ha. by constructor.
Defined.

(** After one check, and after a second one that finds it in the cache. *)
Definition checked : KillswitchState unit :=
  (for_each ["killswitch:tool:adjust_payroll"] (fun k => is_disabled k ;! ret tt)
     (MkKillswitchState ∅ tt)).1.

Lemma checked_again : is_disabled "killswitch:tool:adjust_payroll" checked = (checked, inr true).
Proof. vm_compute. reflexivity. Qed.

Lemma killswitch_bounded_staleness_witness :
  ∃ stamp t, (stamp = f64_of_Z 100 ∨
              f64_ltb (f64_sub (f64_of_Z 100) stamp) (f64_of_Z 10) = true) ∧
    f64_leb stamp t = true ∧ (true = true ↔ value_at t "killswitch:tool:adjust_payroll" = Some "disabled").
Proof.
  exact (killswitch_bounded_staleness ["killswitch:tool:adjust_payroll"] "killswitch:tool:adjust_payroll"
    tt checked checked true eq_refl checked_again).
Defined.

Lemma load_tool_manifests_audience_witness :
  ∃ entries, load_tool_manifests (inr <$> (snd <$> manifests)) INTERNAL tt = (tt, inr entries) ∧
    entries ≠ [].
Proof.
  eexists. split; [reflexivity|].
  exact (proj1 (load_tool_manifests_audience (inr <$> (snd <$> manifests)) INTERNAL tt tt _ eq_refl)).
Defined.
End Witness.
