(* ===== verification/Clients.v ===== *)
(** The HTTP clients of agent-harness ([harness/clients]): the model router,
    retrieval-service, the business API, the token exchange and the embedding
    endpoint. *)
From S2P Require Import Prelude PyStr Json Http Contracts Wire.

(** ** What the clients parse *)

Section Decode.
  Context `{Pydantic}.

Definition validate_effect : json → option MutationEffect :=
  d_obj ["resource"; "id"; "operation"; "from"; "from_"; "to"] (fun kvs =>
    r ← required "resource" d_str kvs; i ← default "id" (d_opt d_str) None kvs;
    o ← default "operation" (d_opt d_str) None kvs;
    let f := match dict_get "from" kvs with Some v => v
             | None => from_option id JNull (dict_get "from_" kvs) end in
    Some (MkMutationEffect r i o f (from_option id JNull (dict_get "to" kvs)))).

Definition validate_preview : json → option PreviewResponse :=
  d_obj ["action"; "risk_level"; "requires_approval"; "effects"; "reversible"; "preview_token";
         "validation_errors"] (fun kvs =>
    a ← required "action" d_str kvs; l ← required "risk_level" d_enum kvs;
    q ← required "requires_approval" lax_bool kvs;
    e ← default "effects" (d_list validate_effect) [] kvs;
    v ← required "reversible" lax_bool kvs; t ← required "preview_token" d_str kvs;
    errs ← default "validation_errors" (d_list d_str) [] kvs;
    Some (MkPreviewResponse a l q e v t errs)).

Definition validate_execute : json → option ExecuteResponse :=
  d_obj ["action"; "status"; "business_ref"; "executed_at"] (fun kvs =>
    a ← required "action" d_str kvs; s ← required "status" d_str kvs;
    b ← default "business_ref" (d_opt d_str) None kvs;
    e ← default "executed_at" (d_opt lax_datetime) None kvs;
    Some (MkExecuteResponse a s b e)).

Definition d_dict (j : json) : option pydict := match j with JObj kvs => Some kvs | _ => None end.

Definition validate_chunk : json → option RetrievedChunk :=
  d_obj ["chunk_id"; "document_id"; "content"; "score"; "source_uri"; "metadata"] (fun kvs =>
    c ← required "chunk_id" d_str kvs; d ← required "document_id" d_str kvs;
    t ← required "content" d_str kvs; s ← required "score" lax_float kvs;
    u ← required "source_uri" d_str kvs; m ← default "metadata" d_dict [] kvs;
    Some (MkRetrievedChunk c d t s u m)).

Definition validate_search : json → option SearchResult :=
  d_obj ["chunks"; "degraded"; "latency_ms"] (fun kvs =>
    c ← default "chunks" (d_list validate_chunk) [] kvs;
    d ← default "degraded" (d_list d_str) [] kvs;
    l ← required "latency_ms" lax_int kvs; Some (MkSearchResult c d l)).
End Decode.

Definition bearer (token : string) : list (string * string) := [("Authorization", "Bearer " +:+ token)].

(** ** model_router.py *)

(* @ harness/clients/model_router.py:17-20 ToolCallResult *)
Record ToolCallResult := MkToolCallResult {
  tcl_id : string;
  tcl_name : string;
  tcl_arguments : pydict
}.
#[export] Instance eta_ToolCallResult : EtaRec ToolCallResult := fun x =>
  MkToolCallResult (tcl_id x) (tcl_name x) (tcl_arguments x).

(* @ harness/clients/model_router.py:23-30 ChatCompletionResult *)
Record ChatCompletionResult := MkChatCompletionResult {
  ccr_content : option string;
  ccr_tool_calls : option (list ToolCallResult);
  ccr_input_tokens : Z;
  ccr_output_tokens : Z;
  ccr_cost_usd : float64
}.
#[export] Instance eta_ChatCompletionResult : EtaRec ChatCompletionResult := fun x =>
  MkChatCompletionResult (ccr_content x) (ccr_tool_calls x) (ccr_input_tokens x)
    (ccr_output_tokens x) (ccr_cost_usd x).

Section ModelRouter.
  Context {X : Type} `{HttpPost X, Pydantic, JsonLoads, FloatParse}.

(** [try: json.loads(tc["function"]["arguments"] or "{}")]. *)
Definition parse_arguments {S} (tc : json) : py S json :=
  try_except
    (let! f := jget "function" tc in
     let! a := jget "arguments" f in
     match (if truthy a then a else JStr "{}") with
     | JStr s => match json_loads s with
                 | Some v => ret v
                 | None => raise (ValueError "JSONDecodeError")
                 end
     | _ => raise (TypeError "the JSON object must be str, bytes or bytearray")
     end)
    (fun e => match e with ValueError _ | KeyError _ => Some (ret (JObj [])) | _ => None end).

Definition make_tool_call {S} (i n a : json) : py S ToolCallResult :=
  match i, n, a with
  | JStr i, JStr n, JObj a => ret (MkToolCallResult i n a)
  | _, _, _ => raise (ValidationError (validation_text "ToolCallResult" a))
  end.

(* @ harness/clients/model_router.py:84-98 _parse_tool_calls *)
Definition parse_tool_calls {S} (raw : json) : py S (option (list ToolCallResult)) :=
  if negb (truthy raw) then ret None
  else match raw with
       | JArr l =>
           let! parsed := map_each (fun tc =>
             let! arguments := parse_arguments tc in
             let! i := jget "id" tc in
             let! f := jget "function" tc in
             let! n := jget "name" f in
             make_tool_call i n arguments) l in
           ret (Some parsed)
       | _ => raise (TypeError "tool_calls")
       end.

Definition chat_payload (model_alias : string) (messages : list json) (tools : option (list json))
    (temperature : option float64) : json :=
  JObj ([("model", JStr model_alias); ("messages", JArr messages)]
        ++ match tools with Some ((_ :: _) as l) => [("tools", JArr l)] | _ => [] end
        ++ match temperature with Some t => [("temperature", JFloat t)] | None => [] end).

(** [usage.get(k, 0)]. *)
Definition usage_count {S} (k : string) (usage : json) : py S Z :=
  match usage with
  | JObj kvs => match dict_get k kvs with
                | None => ret 0%Z
                | Some v => match lax_int v with
                            | Some z => ret z
                            | None => raise (ValidationError (validation_text "ChatCompletionResult" v))
                            end
                end
  | _ => raise (OtherException "AttributeError" "object has no attribute 'get'")
  end.

(* @ harness/clients/model_router.py:41-78 ModelRouterClient.chat *)
Definition chat (model_alias : string) (messages : list json) (tools : option (list json))
    (temperature : option float64) (api_key : option string) : py X ChatCompletionResult :=
  let request_headers := if opt_truthy api_key then bearer (from_option id "" api_key) else [] in
  let! response := http_post ModelRouter "/chat/completions" request_headers
                     (chat_payload model_alias messages tools temperature) in
  raise_for_status response ;!
  let body := hr_json response in
  let! usage := match body with
                | JObj kvs => ret (from_option id (JObj []) (dict_get "usage" kvs))
                | _ => raise (OtherException "AttributeError" "object has no attribute 'get'")
                end in
  let! choices := jget "choices" body in
  let! choice := jhead choices in
  let! message := jget "message" choice in
  let! content := jget_opt "content" message in
  let! raw := jget_opt "tool_calls" message in
  let! tool_calls := parse_tool_calls raw in
  let! input_tokens := usage_count "prompt_tokens" usage in
  let! output_tokens := usage_count "completion_tokens" usage in
  let! cost := match dict_get "x-litellm-response-cost" (hr_headers response) with
               | None => ret f64_zero
               | Some h => match float_parse h with
                           | Some f => ret f
                           | None => raise (ValueError "could not convert string to float")
                           end
               end in
  match d_opt d_str content with
  | Some c => ret (MkChatCompletionResult c tool_calls input_tokens output_tokens cost)
  | None => raise (ValidationError (validation_text "ChatCompletionResult" content))
  end.

(* @ harness/clients/embedding.py:26-31 EmbeddingClient.embed_query *)
Definition embed_query (embedding_model_alias text : string) : py X (list float64) :=
  let! response := http_post ModelRouter "/embeddings" []
    (JObj [("model", JStr embedding_model_alias); ("input", JArr [JStr text])]) in
  raise_for_status response ;!
  let! data := jget "data" (hr_json response) in
  let! first := jhead data in
  let! embedding := jget "embedding" first in
  match embedding with
  | JArr l => match mapM lax_float l with
              | Some v => ret v
              | None => raise (ValidationError (validation_text "AgentState" embedding))
              end
  | _ => raise (TypeError "object is not iterable")
  end.
End ModelRouter.

(** ** retrieval.py *)

Section Retrieval.
  Context {X : Type} `{HttpPost X, Pydantic}.

Definition dump_search_request (r : SearchRequest) : json :=
  JObj [("trace_id", JStr (srq_trace_id r)); ("tenant_id", JStr (srq_tenant_id r));
        ("acl_group_ids", j_strs (srq_acl_group_ids r)); ("query", JStr (srq_query r));
        ("top_k", JInt (srq_top_k r)); ("filters", JObj (srq_filters r));
        ("rerank", JBool (srq_rerank r)); ("max_context_tokens", JInt (srq_max_context_tokens r))].

(* @ harness/clients/retrieval.py:14-21 RetrievalClient.search *)
Definition search (request : SearchRequest) : py X SearchResult :=
  let! response := http_post RetrievalService "/internal/v1/search"
    [("Content-Type", "application/json")] (dump_search_request request) in
  raise_for_status response ;!
  model_validate "SearchResult" validate_search (hr_json response).

(** ** token_exchange.py *)

(* @ harness/clients/token_exchange.py:28-41 TokenExchangeClient.exchange *)
Definition exchange `{FloatRepr} (subject_token audience scope : string) : py X string :=
  let! response := http_post TokenExchange "/oauth/token-exchange" []
    (JObj [("grant_type", JStr "urn:ietf:params:oauth:grant-type:token-exchange");
           ("subject_token", JStr subject_token);
           ("subject_token_type", JStr "urn:ietf:params:oauth:token-type:jwt");
           ("audience", JStr audience); ("scope", JStr scope)]) in
  if (400 <=? hr_status_code response)%Z
  then raise (TokenExchangeError (hr_status_code response) (hr_text response))
  else let! t := jget "access_token" (hr_json response) in ret (py_str t).

(** ** business_api.py *)

(* @ harness/clients/business_api.py:30-46 BusinessApiClient._headers *)
Definition business_headers (tenant_id actor_id trace_id : string) (access_token : option string)
    : list (string * string) :=
  [(header_name TRACE_ID, trace_id); (header_name TENANT_ID, tenant_id);
   (header_name ACTOR_ID, actor_id); (header_name ACTOR_TYPE, "agent")]
  ++ (if opt_truthy access_token then bearer (from_option id "" access_token) else []).

Definition action_path (domain action verb : string) : string :=
  "/" +:+ domain +:+ "/v1/actions/" +:+ action +:+ "/" +:+ verb.

Definition check_business (r : HttpResponse) : py X unit :=
  if (400 <=? hr_status_code r)%Z then raise (BusinessApiError (hr_status_code r) (hr_text r))
  else ret tt.

(* @ harness/clients/business_api.py:48-69 BusinessApiClient.query *)
Definition query (domain action : string) (params : pydict)
    (tenant_id actor_id trace_id : string) (access_token : option string) : py X json :=
  let! response := http_post BusinessApi (action_path domain action "query")
    (business_headers tenant_id actor_id trace_id access_token) (JObj [("params", JObj params)]) in
  check_business response ;!
  ret (hr_json response).

(* @ harness/clients/business_api.py:71-91 BusinessApiClient.preview *)
Definition preview (domain action : string) (params : pydict)
    (tenant_id actor_id trace_id : string) (access_token : option string) : py X PreviewResponse :=
  let! response := http_post BusinessApi (action_path domain action "preview")
    (business_headers tenant_id actor_id trace_id access_token) (JObj [("params", JObj params)]) in
  check_business response ;!
  model_validate "PreviewResponse" validate_preview (hr_json response).

(* @ harness/clients/business_api.py:93-114 BusinessApiClient.execute *)
Definition execute (domain action preview_token : string) (approval_id : option string)
    (idempotency_key tenant_id actor_id trace_id : string) : py X ExecuteResponse :=
  let! response := http_post BusinessApi (action_path domain action "execute")
    (business_headers tenant_id actor_id trace_id None ++ [("Idempotency-Key", idempotency_key)])
    (JObj [("preview_token", JStr preview_token); ("approval_id", j_opt_str approval_id)]) in
  check_business response ;!
  model_validate "ExecuteResponse" validate_execute (hr_json response).
End Retrieval.
