(* ===== verification/Executor.v ===== *)
(** Tool execution in agent-harness ([harness/tools]): the second authorization
    check, the business-API calls of a readonly tool, and preview, approval
    branch and execute of a mutation. *)
From S2P Require Import Prelude PyStr Json Http Contracts Wire Clients Authz.

(** ** records.py, graph/state.py *)

(* @ harness/tools/records.py:15-22 ToolInvocationRecord *)
Record ToolInvocationRecord := MkToolInvocationRecord {
  tir_tool_name : string;
  tir_tool_kind : string;
  tir_arguments : pydict;
  tir_result_summary : option pydict;
  tir_status : string
}.
#[export] Instance eta_ToolInvocationRecord : EtaRec ToolInvocationRecord := fun x =>
  MkToolInvocationRecord (tir_tool_name x) (tir_tool_kind x) (tir_arguments x)
    (tir_result_summary x) (tir_status x).

(* @ harness/tools/records.py:25-41 MutationRequestRecord *)
Record MutationRequestRecord := MkMutationRequestRecord {
  mrr_id : string;
  mrr_action_name : string;
  mrr_risk_level : string;
  mrr_preview_payload : pydict;
  mrr_approval_id : option string;
  mrr_idempotency_key : string;
  mrr_status : string;
  mrr_business_ref : option string;
  mrr_executed_at : option string
}.
#[export] Instance eta_MutationRequestRecord : EtaRec MutationRequestRecord := fun x =>
  MkMutationRequestRecord (mrr_id x) (mrr_action_name x) (mrr_risk_level x)
    (mrr_preview_payload x) (mrr_approval_id x) (mrr_idempotency_key x) (mrr_status x)
    (mrr_business_ref x) (mrr_executed_at x).

(* @ harness/graph/state.py:27-33 ToolCallState *)
Record ToolCallState := MkToolCallState {
  tcs_id : string;
  tcs_name : string;
  tcs_arguments : pydict
}.
#[export] Instance eta_ToolCallState : EtaRec ToolCallState := fun x =>
  MkToolCallState (tcs_id x) (tcs_name x) (tcs_arguments x).

(* @ harness/tools/executor.py:34-52 ToolExecutionOutcome *)
Record ToolExecutionOutcome := MkToolExecutionOutcome {
  teo_tool_call_id : string;
  teo_content : string;
  teo_invocation : ToolInvocationRecord;
  teo_mutation_previewed : option string;
  teo_mutation_executed : option string;
  teo_mutation_request : option MutationRequestRecord;
  teo_pending_approval : option PendingApproval
}.
#[export] Instance eta_ToolExecutionOutcome : EtaRec ToolExecutionOutcome := fun x =>
  MkToolExecutionOutcome (teo_tool_call_id x) (teo_content x) (teo_invocation x)
    (teo_mutation_previewed x) (teo_mutation_executed x) (teo_mutation_request x)
    (teo_pending_approval x).

(* @ harness/tools/registry.py:18-26 to_openai_schema *)
Definition to_openai_schema {S} (model_json_schema : ParamsModel → json) (tool : ToolManifestEntry)
    : py S json :=
  let! m := parameters_model tool in
  ret (JObj [("type", JStr "function");
             ("function", JObj [("name", JStr (tm_name tool));
                                ("description", JStr (tm_description_for_model tool));
                                ("parameters", model_json_schema m)])]).

(** ** executor.py *)

(** Who the run acts for, and what [authorize] decided for it. *)
Record ToolContext := MkToolContext {
  tc_tenant_id : string;
  tc_user_id : string;
  tc_employee_id : option string;
  tc_trace_id : string;
  tc_subject_token : option string;
  tc_tool_manifests : list (string * ToolManifestEntry);
  tc_allowed_tools : list string;
  tc_scope_constraints : list (string * ScopeConstraint)
}.

Section Executor.
  Context {X : Type} `{HttpPost X, Uuid X, Pydantic, FloatRepr}.
  Implicit Types (cx : ToolContext).

(* @ harness/tools/executor.py:55-68 _error_outcome *)
Definition error_outcome (tool_call : ToolCallState) (tool_name tool_kind message : string)
    : ToolExecutionOutcome :=
  MkToolExecutionOutcome (tcs_id tool_call) (json_dumps (JObj [("error", JStr message)]))
    (MkToolInvocationRecord tool_name tool_kind (tcs_arguments tool_call) None "error")
    None None None None.

(* @ harness/tools/executor.py:150-170 _exchange_token_for *)
Definition exchange_token_for (tool : ToolManifestEntry) (subject_token : option string)
    : py X (option string) :=
  match tm_required_scopes_for_token_exchange tool with
  | [] => ret None
  | scopes =>
      if negb (opt_truthy subject_token) then ret None
      else try_except
        (let! t := exchange (from_option id "" subject_token) "business-api" (str_join " " scopes) in
         ret (Some t))
        (fun e => match e with TokenExchangeError _ _ => Some (ret None) | _ => None end)
  end.

Definition ok_invocation (name kind : string) (params : pydict) (summary : pydict) : ToolInvocationRecord :=
  MkToolInvocationRecord name kind params (Some summary) "ok".

(* @ harness/tools/executor.py:173-206 _execute_search_public_faq *)
Definition execute_search_public_faq (tool_call : ToolCallState) (tool : ToolManifestEntry)
    (params : pydict) (tenant_id trace_id : string) : py X ToolExecutionOutcome :=
  match dict_get "query" params with
  | None => raise (KeyError "query")
  | Some q =>
      let! result := search
        {| srq_trace_id := trace_id; srq_tenant_id := tenant_id; srq_acl_group_ids := ["grp_public"];
           srq_query := py_str q; srq_top_k := 3; srq_filters := []; srq_rerank := true;
           srq_max_context_tokens := 4000 |} in
      let chunks := (fun c => JObj [("content", JStr (rch_content c));
                                    ("source_uri", JStr (rch_source_uri c))]) <$> srs_chunks result in
      let summary := [("chunks", JArr chunks)] in
      ret (MkToolExecutionOutcome (tcs_id tool_call) (json_dumps (JObj summary))
             (ok_invocation (tm_name tool) "readonly" params summary) None None None None)
  end.

(* @ harness/tools/executor.py:209-240 _execute_readonly *)
Definition execute_readonly (tool_call : ToolCallState) (tool : ToolManifestEntry) (params : pydict)
    (tenant_id user_id trace_id : string) : py X ToolExecutionOutcome :=
  try_except
    (let! result := query (tm_domain tool) (tm_business_action tool) params tenant_id user_id trace_id None in
     match result with
     | JObj summary =>
         ret (MkToolExecutionOutcome (tcs_id tool_call) (json_dumps result)
                (ok_invocation (tm_name tool) "readonly" params summary) None None None None)
     | _ => raise (ValidationError (validation_text "ToolInvocationRecord" result))
     end)
    (fun e => match e with
              | BusinessApiError _ detail =>
                  Some (ret (error_outcome tool_call (tm_name tool) "readonly" detail))
              | _ => None end).

Definition approval_message (name : string) : string :=
  "Aksi " +:+ name +:+ " memerlukan persetujuan sebelum dapat dieksekusi.".

(** The four things [_execute_mutation] can do once it has a valid preview. *)
(* @ harness/tools/executor.py:273-313 _execute_mutation: requires_approval *)
Definition await_approval (tool_call : ToolCallState) (tool : ToolManifestEntry) (params : pydict)
    (p : PreviewResponse) (mrq_id idem_key approval_id : string) : ToolExecutionOutcome :=
  MkToolExecutionOutcome (tcs_id tool_call)
    (json_dumps (JObj [("status", JStr "awaiting_approval");
                       ("message", JStr (approval_message (tm_name tool)));
                       ("approval_id", JStr approval_id)]))
    (ok_invocation (tm_name tool) "mutation" params [("requires_approval", JBool true)])
    (Some (tm_name tool)) None
    (Some (MkMutationRequestRecord mrq_id (tm_name tool) (enum_value (pvw_risk_level p))
             [("params", JObj params); ("preview_token", JStr (pvw_preview_token p));
              ("idempotency_key", JStr idem_key)]
             (Some approval_id) idem_key "awaiting_approval" None None))
    (Some (MkPendingApproval approval_id (tm_name tool))).

Definition mutation_record (tool : ToolManifestEntry) (params : pydict) (p : PreviewResponse)
    (mrq_id idem_key status : string) (business_ref executed_at : option string) : MutationRequestRecord :=
  MkMutationRequestRecord mrq_id (tm_name tool) (enum_value (pvw_risk_level p))
    [("params", JObj params); ("preview_token", JStr (pvw_preview_token p));
     ("idempotency_key", JStr idem_key)]
    None idem_key status business_ref executed_at.

(* @ harness/tools/executor.py:330-353 _execute_mutation: execute refused *)
Definition execute_failed (tool_call : ToolCallState) (tool : ToolManifestEntry) (params : pydict)
    (p : PreviewResponse) (mrq_id idem_key detail : string) : ToolExecutionOutcome :=
  MkToolExecutionOutcome (tcs_id tool_call) (json_dumps (JObj [("error", JStr detail)]))
    (MkToolInvocationRecord (tm_name tool) "mutation" params None "error")
    (Some (tm_name tool)) None
    (Some (mutation_record tool params p mrq_id idem_key "failed" None None)) None.

(* @ harness/tools/executor.py:355-380 _execute_mutation: executed *)
Definition execute_done (tool_call : ToolCallState) (tool : ToolManifestEntry) (params : pydict)
    (p : PreviewResponse) (mrq_id idem_key : string) (result : ExecuteResponse) : ToolExecutionOutcome :=
  MkToolExecutionOutcome (tcs_id tool_call)
    (json_dumps (JObj [("status", JStr "executed"); ("business_ref", j_opt_str (exr_business_ref result))]))
    (ok_invocation (tm_name tool) "mutation" params [("business_ref", j_opt_str (exr_business_ref result))])
    (Some (tm_name tool)) (Some (tm_name tool))
    (Some (mutation_record tool params p mrq_id idem_key "executed" (exr_business_ref result)
             (exr_executed_at result))) None.

(* @ harness/tools/executor.py:243-380 _execute_mutation *)
Definition execute_mutation (tool_call : ToolCallState) (tool : ToolManifestEntry) (params : pydict)
    (subject_token : option string) (tenant_id user_id trace_id : string) : py X ToolExecutionOutcome :=
  let! access_token := exchange_token_for tool subject_token in
  let! previewed := try_except
    (let! p := preview (tm_domain tool) (tm_business_action tool) params tenant_id user_id trace_id
                 access_token in ret (inr p))
    (fun e => match e with BusinessApiError _ detail => Some (ret (inl detail)) | _ => None end) in
  match previewed with
  | inl detail => ret (error_outcome tool_call (tm_name tool) "mutation" detail)
  | inr p =>
      match pvw_validation_errors p with
      | (_ :: _) as errors => ret (error_outcome tool_call (tm_name tool) "mutation" (str_join "; " errors))
      | [] =>
          let! mrq_id := uuid_id "mrq_" in
          let! idem_key := uuid_id "exec_" in
          if pvw_requires_approval p then
            let! approval_id := uuid_id "apr_" in
            ret (await_approval tool_call tool params p mrq_id idem_key approval_id)
          else
            try_except
              (let! result := execute (tm_domain tool) (tm_business_action tool) (pvw_preview_token p)
                                None idem_key tenant_id user_id trace_id in
               ret (execute_done tool_call tool params p mrq_id idem_key result))
              (fun e => match e with
                        | BusinessApiError _ detail =>
                            Some (ret (execute_failed tool_call tool params p mrq_id idem_key detail))
                        | _ => None end)
      end
  end.

(** The scope part of the second check: the arguments to validate, or a denial. *)
(* @ harness/tools/executor.py:101-115 execute_tool_call: the scope check *)
Definition scoped_arguments cx (tool : ToolManifestEntry) (arguments : pydict) : string + pydict :=
  match tm_scope_param tool with
  | Some p =>
      if String.eqb p "" then inr arguments
      else
        let raw_args := apply_scope_default arguments p (tc_employee_id cx) in
        match dict_get (tm_name tool) (tc_scope_constraints cx) with
        | Some constraint => match check_scope raw_args p constraint with
                             | Some denial => if String.eqb denial "" then inr raw_args else inl denial
                             | None => inr raw_args
                             end
        | None => inr raw_args
        end
  | None => inr arguments
  end.

(* @ harness/tools/executor.py:71-147 execute_tool_call *)
Definition execute_tool_call cx (tool_call : ToolCallState) : py X ToolExecutionOutcome :=
  match dict_get (tcs_name tool_call) (tc_tool_manifests cx) with
  | None => ret (error_outcome tool_call (tcs_name tool_call) "unknown"
                   ("unknown tool: " +:+ tcs_name tool_call))
  | Some tool =>
      let kind := enum_value (tm_kind tool) in
      if negb (str_in (tm_name tool) (tc_allowed_tools cx))
      then ret (error_outcome tool_call (tm_name tool) kind "tool not authorized for this run")
      else
        match scoped_arguments cx tool (tcs_arguments tool_call) with
        | inl denial => ret (error_outcome tool_call (tm_name tool) kind denial)
        | inr raw_args =>
            let! m := parameters_model tool in
            match validate_params m (JObj raw_args) with
            | None => ret (error_outcome tool_call (tm_name tool) kind
                             ("invalid arguments: " +:+ validation_text (enum_value m) (JObj raw_args)))
            | Some params =>
                if String.eqb (tm_domain tool) "faq"
                then execute_search_public_faq tool_call tool params (tc_tenant_id cx) (tc_trace_id cx)
                else if decide (tm_kind tool = READONLY)
                then execute_readonly tool_call tool params (tc_tenant_id cx) (tc_user_id cx) (tc_trace_id cx)
                else execute_mutation tool_call tool params (tc_subject_token cx) (tc_tenant_id cx)
                       (tc_user_id cx) (tc_trace_id cx)
            end
        end
  end.
End Executor.
