(* ===== verification/ExecutorProps.v ===== *)
(** What tool execution guarantees: a refused call touches nothing, every
    outgoing request of an admitted one stays within the run's tenant, actor
    and scope, and the records of an outcome agree with each other. *)
From S2P Require Import Prelude PyStr Json Http Contracts Wire Clients Authz Executor.

(** ** Which requests an operation can make

    [only_posts P m]: [m] touches the outside by HTTP requests satisfying [P] and
    by drawing ids, and in no other way. Stated for every preorder on the
    outside that those actions respect - a log of requests, for instance. *)
Definition only_posts {X : Type} `{HttpPost X, Uuid X}
    (P : Service → string → list (string * string) → json → Prop) {A} (m : py X A) : Prop :=
  ∀ (R : X → X → Prop), PreOrder R →
    (∀ svc path hs body, P svc path hs body → frames R (http_post svc path hs body)) →
    frames R uuid4_hex → frames R m.

Create HintDb posts discriminated.

Section Posts.
  Context {X : Type} `{HttpPost X, Uuid X}.
  Implicit Types (P : Service → string → list (string * string) → json → Prop).

Lemma posts_ret P {A} (a : A) : only_posts P (ret a).
Proof. intros R HR _ _. apply frames_ret, HR. Qed.

Lemma posts_raise P {A} e : only_posts P (raise (A := A) e).
Proof. intros R HR _ _. apply frames_raise, HR. Qed.

Lemma posts_bind P {A B} (m : py X A) (k : A → py X B) :
  only_posts P m → (∀ a, only_posts P (k a)) → only_posts P (bind m k).
Proof.
  intros Hm Hk R HR Hp Hu. apply frames_bind; [apply HR|by apply Hm|]. intros a. by apply Hk.
Qed.

Lemma posts_try P {A} (m : py X A) (h : exn → option (py X A)) :
  only_posts P m → (∀ e k, h e = Some k → only_posts P k) → only_posts P (try_except m h).
Proof.
  intros Hm Hh R HR Hp Hu. apply frames_try; [apply HR|by apply Hm|]. intros e k He.
  by apply (Hh e k).
Qed.

Lemma posts_post P svc path hs body : P svc path hs body → only_posts P (http_post svc path hs body).
Proof. intros HP R HR Hp _. by apply Hp. Qed.

Lemma posts_uuid P prefix : only_posts P (uuid_id prefix).
Proof.
  unfold uuid_id. apply posts_bind; [by intros R HR _ Hu|]. intros h. apply posts_ret.
Qed.

Lemma posts_weaken P Q {A} (m : py X A) :
  (∀ svc path hs body, P svc path hs body → Q svc path hs body) → only_posts P m → only_posts Q m.
Proof. intros HPQ Hm R HR Hq Hu. apply Hm; [done| |done]. intros svc path hs body HP. by apply Hq, HPQ. Qed.

Lemma posts_map_each P {A B} (f : A → py X B) l : (∀ x, only_posts P (f x)) → only_posts P (map_each f l).
Proof.
  intros Hf R HR Hp Hu. apply frames_map_each; [apply HR|]. intros x. by apply Hf.
Qed.
End Posts.

#[export] Hint Resolve posts_ret posts_raise posts_uuid : posts.

(** Walk through an operation, leaving the requests it makes. *)
Ltac posts :=
  repeat first
    [ progress intros | solve [auto with posts]
    | apply posts_try | apply posts_bind
    | apply posts_map_each
    | case_match; simplify_eq ].

#[local] Arguments enum_of_string : simpl never.

Section Facts.
  Context {X : Type} `{HttpPost X, Uuid X, Pydantic, FloatRepr}.
  Implicit Types (cx : ToolContext) (tool : ToolManifestEntry) (tc : ToolCallState).

Lemma jget_posts P k j : only_posts P (jget (S := X) k j).
Proof. unfold jget. posts. Qed.

Lemma model_validate_posts P {A} name (dec : json → option A) j :
  only_posts P (model_validate (S := X) name dec j).
Proof. unfold model_validate. posts. Qed.

Lemma raise_for_status_posts P r : only_posts P (raise_for_status (S := X) r).
Proof. unfold raise_for_status. posts. Qed.

Lemma check_business_posts P r : only_posts P (check_business (X := X) r).
Proof. unfold check_business. posts. Qed.

Lemma parameters_model_posts P tool : only_posts P (parameters_model (S := X) tool).
Proof. unfold parameters_model. posts. Qed.

#[local] Hint Resolve jget_posts model_validate_posts raise_for_status_posts check_business_posts
  parameters_model_posts : posts.

Ltac the_post := apply posts_post.

(** ** Refused calls *)

(** The tool the model named, if the run may use it. *)
Definition admitted_tool cx tc : option ToolManifestEntry :=
  tool ← dict_get (tcs_name tc) (tc_tool_manifests cx);
  if str_in (tm_name tool) (tc_allowed_tools cx) then Some tool else None.

(** What an admitted call is executed with: the scope check and the parameter
    model both passed. *)
Definition admitted_params cx tc : option (ToolManifestEntry * pydict) :=
  tool ← admitted_tool cx tc;
  m ← enum_of_string (tm_parameters_schema tool);
  match scoped_arguments cx tool (tcs_arguments tc) with
  | inr raw => params ← validate_params m (JObj raw); Some (tool, params)
  | inl _ => None
  end.

(** A refused tool call touches nothing. If the model names a tool that does
    not exist or is not in the run's allowed tools, an argument outside the
    caller's scope, or arguments its parameter model rejects, the executor makes
    no request and draws no id; the answer is an error for the model, recorded
    as such, without any mutation or approval. *)
Theorem refused_call_is_inert cx tc (x : X) :
  (∀ tool, dict_get (tcs_name tc) (tc_tool_manifests cx) = Some tool →
     is_Some (enum_of_string (A := ParamsModel) (tm_parameters_schema tool))) →
  admitted_params cx tc = None →
  ∃ o, execute_tool_call cx tc x = (x, inr o) ∧
    tir_status (teo_invocation o) = "error" ∧ tir_result_summary (teo_invocation o) = None ∧
    teo_tool_call_id o = tcs_id tc ∧
    teo_mutation_previewed o = None ∧ teo_mutation_executed o = None ∧
    teo_mutation_request o = None ∧ teo_pending_approval o = None.
Proof.
  intros Hmodel Hadm. unfold execute_tool_call, admitted_params, admitted_tool in *.
  destruct (dict_get (tcs_name tc) (tc_tool_manifests cx)) as [tool|] eqn:Htool;
    [|by eexists]. cbn in Hadm.
  destruct (str_in (tm_name tool) (tc_allowed_tools cx)); cbn in *; [|by eexists].
  destruct (Hmodel tool eq_refl) as [m Hm]. rewrite Hm in Hadm. cbn in Hadm.
  destruct (scoped_arguments cx tool (tcs_arguments tc)) as [denial|raw]; [by eexists|].
  unfold parameters_model. rewrite Hm. rewrite (bind_inr _ _ x x m) by done.
  destruct (validate_params m (JObj raw)); [done|]. by eexists.
Qed.

(** ** The requests of an admitted call *)

(** The employee the arguments name is one the run is scoped to. *)
Definition within_scope cx tool (params : pydict) : Prop :=
  ∀ c ids, tm_scope_param tool = Some "employee_id" →
    dict_get (tm_name tool) (tc_scope_constraints cx) = Some c → sc_allowed_ids c = Some ids →
    ∃ e, e ∈ ids ∧ ∀ v, dict_get "employee_id" params = Some v → v = JStr e.

Definition business_request cx (hs : list (string * string)) : Prop :=
  (header_name TENANT_ID, tc_tenant_id cx) ∈ hs ∧ (header_name ACTOR_ID, tc_user_id cx) ∈ hs ∧
  (header_name TRACE_ID, tc_trace_id cx) ∈ hs.

(** The requests execution may make for a call: the tool is one the run offers;
    a business-API request is about its own action, in the run's tenant and
    actor, with arguments in scope; a search sees public documents only. *)
Inductive permitted cx tc : Service → string → list (string * string) → json → Prop :=
  | PermitQuery tool hs params :
      admitted_params cx tc = Some (tool, params) → tm_kind tool = READONLY →
      business_request cx hs → within_scope cx tool params →
      permitted cx tc BusinessApi (action_path (tm_domain tool) (tm_business_action tool) "query") hs
        (JObj [("params", JObj params)])
  | PermitPreview tool hs params :
      admitted_params cx tc = Some (tool, params) → tm_kind tool = MUTATION →
      business_request cx hs → within_scope cx tool params →
      permitted cx tc BusinessApi (action_path (tm_domain tool) (tm_business_action tool) "preview") hs
        (JObj [("params", JObj params)])
  | PermitExecute tool hs params token :
      admitted_params cx tc = Some (tool, params) → tm_kind tool = MUTATION →
      business_request cx hs →
      permitted cx tc BusinessApi (action_path (tm_domain tool) (tm_business_action tool) "execute") hs
        (JObj [("preview_token", JStr token); ("approval_id", JNull)])
  | PermitExchange tool hs params token :
      admitted_params cx tc = Some (tool, params) → tm_kind tool = MUTATION →
      tc_subject_token cx = Some token →
      permitted cx tc TokenExchange "/oauth/token-exchange" hs
        (JObj [("grant_type", JStr "urn:ietf:params:oauth:grant-type:token-exchange");
               ("subject_token", JStr token);
               ("subject_token_type", JStr "urn:ietf:params:oauth:token-type:jwt");
               ("audience", JStr "business-api");
               ("scope", JStr (str_join " " (tm_required_scopes_for_token_exchange tool)))])
  | PermitFaq tool hs params q :
      admitted_params cx tc = Some (tool, params) → tm_domain tool = "faq" →
      permitted cx tc RetrievalService "/internal/v1/search" hs
        (dump_search_request (MkSearchRequest (tc_trace_id cx) (tc_tenant_id cx) ["grp_public"] q 3 []
                                true 4000)).

Lemma json_in_strs_inv v l : json_in_strs v l = true → ∃ e, v = JStr e ∧ e ∈ l.
Proof. destruct v; cbn; try done. intros He. eexists. split; [done|]. by apply str_in_spec. Qed.

(** The text of a denial is never empty. *)
Lemma check_scope_text params p c d : check_scope params p c = Some d → String.eqb d "" = false.
Proof.
  unfold check_scope. destruct (sc_allowed_ids c) as [l|]; [|done]. destruct (json_in_strs _ l); [done|].
  intros [= <-]. apply String.eqb_neq. intros Heq. apply (f_equal String.length) in Heq.
  rewrite !str_length_app in Heq. cbn in Heq. lia.
Qed.

Lemma admitted_within_scope cx tc tool params :
  admitted_params cx tc = Some (tool, params) → within_scope cx tool params.
Proof.
  unfold admitted_params. intros Ha. apply bind_Some in Ha as (t & _ & Ha).
  apply bind_Some in Ha as (m & _ & Ha).
  destruct (scoped_arguments cx t (tcs_arguments tc)) as [d|raw] eqn:Hs; [done|].
  apply bind_Some in Ha as (ps & Hv & [= -> ->]).
  intros c ids Hp Hc Hids. unfold scoped_arguments in Hs. rewrite Hp, Hc in Hs. cbn in Hs.
  set (args := apply_scope_default _ _ _) in *.
  destruct (check_scope args "employee_id" c) as [d|] eqn:Hcs.
  { by rewrite (check_scope_text _ _ _ _ Hcs) in Hs. }
  injection Hs as <-. unfold check_scope in Hcs. rewrite Hids in Hcs.
  destruct (json_in_strs _ ids) eqn:Hin; [|done].
  destruct (json_in_strs_inv _ _ Hin) as (e & He & Hmem). exists e. split; [done|]. intros v Hd.
  pose proof (validate_params_str _ _ _ "employee_id" Hv ltac:(by constructor) v Hd) as Hraw.
  rewrite Hraw in He. exact He.
Qed.

Lemma business_request_headers cx tok extra :
  business_request cx
    (business_headers (tc_tenant_id cx) (tc_user_id cx) (tc_trace_id cx) tok ++ extra).
Proof. unfold business_request, business_headers. set_solver. Qed.

Lemma business_request_plain cx tok :
  business_request cx (business_headers (tc_tenant_id cx) (tc_user_id cx) (tc_trace_id cx) tok).
Proof. rewrite <- (app_nil_r (business_headers _ _ _ _)). apply business_request_headers. Qed.

Lemma execute_tool_call_posts cx tc : only_posts (permitted cx tc) (execute_tool_call cx tc).
Proof.
  unfold execute_tool_call.
  destruct (dict_get (tcs_name tc) (tc_tool_manifests cx)) as [tool|] eqn:Htool; [|posts].
  destruct (str_in (tm_name tool) (tc_allowed_tools cx)) eqn:Hall; cbn [negb]; [|posts].
  destruct (scoped_arguments cx tool (tcs_arguments tc)) as [d|raw] eqn:Hs; [posts|].
  unfold parameters_model. destruct (enum_of_string (tm_parameters_schema tool)) as [m|] eqn:Hm;
    [|exact (posts_raise _ (KeyError (tm_parameters_schema tool)))].
  match goal with |- only_posts ?P (bind (ret m) ?k) => change (only_posts P (k m)) end. cbv beta.
  destruct (validate_params m (JObj raw)) as [params|] eqn:Hv; [|posts].
  assert (admitted_params cx tc = Some (tool, params)) as Hadm.
  { unfold admitted_params, admitted_tool. rewrite Htool. cbn. rewrite Hall. cbn. rewrite Hm. cbn.
    rewrite Hs, Hv. done. }
  pose proof (admitted_within_scope _ _ _ _ Hadm) as Hscope.
  destruct (String.eqb_spec (tm_domain tool) "faq") as [Hfaq|_].
  - unfold execute_search_public_faq, search. posts. the_post. by eapply PermitFaq.
  - destruct (decide (tm_kind tool = READONLY)) as [Hk|Hk].
    + unfold execute_readonly, query. posts. the_post. eapply PermitQuery; [done..|apply business_request_plain|done].
    + assert (tm_kind tool = MUTATION) as Hmut by (by destruct (tm_kind tool)).
      unfold execute_mutation, exchange_token_for, exchange, preview, execute. posts; the_post.
      * match goal with Hsc : tm_required_scopes_for_token_exchange tool = _ |- _ => rewrite <- Hsc end.
        destruct (tc_subject_token cx) as [token|] eqn:Htok; [|done]. by eapply PermitExchange.
      * eapply PermitPreview; [done..|apply business_request_plain|done].
      * by eapply (PermitExecute _ _ _ _ _ _ Hadm Hmut), business_request_headers.
Qed.

(** C10: Confinement of tool calls. Whatever a tool call makes the executor do,
    it only ever asks: the named tool's own query, preview or execute, if the
    run is allowed that tool and with arguments inside the caller's scope, in
    the run's tenant, actor and trace; a token exchange of the run's own token
    for exactly the tool's scopes; or a search of public documents in the run's
    tenant. *)
Theorem tool_call_is_confined cx tc : only_posts (permitted cx tc) (execute_tool_call cx tc).
Proof. apply execute_tool_call_posts. Qed.

(** ** The records of an outcome *)

(** How the parts of an outcome hang together: a mutation request belongs to a
    previewed mutation of the same tool and carries the key its execution is
    idempotent under; executed, failed and awaiting_approval are told apart by
    the executed tool and the pending approval. *)
Definition consistent_mutation (o : ToolExecutionOutcome) : Prop :=
  match teo_mutation_request o with
  | None => teo_mutation_executed o = None ∧ teo_pending_approval o = None ∧ teo_mutation_previewed o = None
  | Some r =>
      tir_tool_kind (teo_invocation o) = "mutation" ∧
      tir_tool_name (teo_invocation o) = mrr_action_name r ∧
      teo_mutation_previewed o = Some (mrr_action_name r) ∧
      dict_get "idempotency_key" (mrr_preview_payload r) = Some (JStr (mrr_idempotency_key r)) ∧
      (∃ token, dict_get "preview_token" (mrr_preview_payload r) = Some (JStr token)) ∧
      is_Some (enum_of_string (A := RiskLevel) (mrr_risk_level r)) ∧
      ((mrr_status r = "executed" ∧ teo_mutation_executed o = Some (mrr_action_name r) ∧
        teo_pending_approval o = None ∧ mrr_approval_id r = None ∧ tir_status (teo_invocation o) = "ok") ∨
       (mrr_status r = "failed" ∧ teo_mutation_executed o = None ∧ teo_pending_approval o = None ∧
        mrr_approval_id r = None ∧ tir_status (teo_invocation o) = "error") ∨
       (mrr_status r = "awaiting_approval" ∧ teo_mutation_executed o = None ∧
        ∃ i, mrr_approval_id r = Some i ∧ tir_status (teo_invocation o) = "ok" ∧
             teo_pending_approval o = Some (MkPendingApproval i (mrr_action_name r))))
  end.

Definition consistent_outcome tc (o : ToolExecutionOutcome) : Prop :=
  teo_tool_call_id o = tcs_id tc ∧
  (tir_status (teo_invocation o) = "ok" ∨ tir_status (teo_invocation o) = "error") ∧
  consistent_mutation o.

Lemma error_outcome_consistent tc name kind message : consistent_outcome tc (error_outcome tc name kind message).
Proof. split; [done|]. split; [by right|]. done. Qed.

Lemma risk_is_enum (r : RiskLevel) : is_Some (enum_of_string (A := RiskLevel) (enum_value r)).
Proof. by destruct r; eexists. Qed.

Lemma await_consistent tc tool params p i j k :
  consistent_outcome tc (await_approval tc tool params p i j k).
Proof.
  split; [done|]. split; [by left|]. repeat (split; [done|]). split; [by eexists|]. split; [apply risk_is_enum|].
  right; right. repeat (split; [done|]). by eexists.
Qed.

Lemma failed_consistent tc tool params p i j d :
  consistent_outcome tc (execute_failed tc tool params p i j d).
Proof.
  split; [done|]. split; [by right|]. repeat (split; [done|]). split; [by eexists|]. split; [apply risk_is_enum|].
  right; left. by repeat split.
Qed.

Lemma done_consistent tc tool params p i j r :
  consistent_outcome tc (execute_done tc tool params p i j r).
Proof.
  split; [done|]. split; [by left|]. repeat (split; [done|]). split; [by eexists|]. split; [apply risk_is_enum|].
  left. by repeat split.
Qed.

(** A result, whatever the state. *)
Definition returns {S A} (Q : A → Prop) (m : py S A) : Prop :=
  ∀ s s' a, m s = (s', inr a) → Q a.

Lemma returns_ret {S A} (Q : A → Prop) a : Q a → returns (S := S) Q (ret a).
Proof. by intros Ha s s' b [= <- <-]. Qed.

Lemma returns_raise {S A} (Q : A → Prop) e : returns (S := S) Q (raise e).
Proof. by intros s s' b. Qed.

Lemma returns_bind {S A B} (Q : B → Prop) (m : py S A) k :
  (∀ a, returns Q (k a)) → returns Q (bind m k).
Proof. intros Hk s s' b. unfold bind. destruct (m s) as [s1 [e|a]]; [done|]. apply Hk. Qed.

Lemma returns_try {S A} (Q : A → Prop) (m : py S A) h :
  returns Q m → (∀ e k, h e = Some k → returns Q k) → returns Q (try_except m h).
Proof.
  intros Hm Hh s s' b. unfold try_except. destruct (m s) as [s1 [e|a]] eqn:Hms.
  - destruct (h e) as [k|] eqn:He; [|done]. by apply (Hh e k).
  - intros [= <- <-]. by eapply Hm.
Qed.

#[local] Hint Resolve error_outcome_consistent await_consistent failed_consistent done_consistent : core.

#[local] Ltac returned :=
  repeat first
    [ progress intros
    | apply returns_ret; solve [auto | split; [done|]; split; [by left|done]]
    | apply returns_raise
    | apply returns_try | apply returns_bind
    | case_match; simplify_eq ].

Lemma execute_tool_call_consistent cx tc :
  returns (consistent_outcome tc) (execute_tool_call (X := X) cx tc).
Proof. unfold execute_tool_call, execute_search_public_faq, execute_readonly, execute_mutation. returned. Qed.

(** The records of a tool call agree. Whatever the services answer, an
    outcome carries a mutation request only for a mutation that was previewed;
    the request's status is executed exactly when the tool is reported as
    executed, awaiting_approval exactly when an approval with the same id is
    pending, failed otherwise; and the key in its stored payload is the key the
    execution is made idempotent under. *)
Theorem tool_outcome_consistent cx tc (x x' : X) o :
  execute_tool_call cx tc x = (x', inr o) → consistent_outcome tc o.
Proof. apply execute_tool_call_consistent. Qed.

(** A mutation that needs approval is never executed by the run. Once the
    business API's preview asks for an approval, the executor makes no further
    request - it draws ids and stops - and its outcome is an awaiting_approval
    request with a pending approval and nothing executed. *)
Theorem approval_stops_execution tc tool params token tenant user trace (x x1 x2 x3 : X) access p r :
  exchange_token_for tool token x = (x1, inr access) →
  preview (tm_domain tool) (tm_business_action tool) params tenant user trace access x1 = (x2, inr p) →
  pvw_validation_errors p = [] → pvw_requires_approval p = true →
  execute_mutation tc tool params token tenant user trace x = (x3, r) →
  (∀ R : X → X → Prop, PreOrder R → frames R uuid4_hex → R x2 x3) ∧
  ∀ o, r = inr o → teo_mutation_executed o = None ∧
    ∃ q, teo_mutation_request o = Some q ∧ mrr_status q = "awaiting_approval" ∧
         is_Some (mrr_approval_id q) ∧ is_Some (teo_pending_approval o).
Proof.
  intros Hex Hpre Herr Happ. unfold execute_mutation. rewrite (bind_inr _ _ _ _ _ Hex).
  assert (try_except (let! p := preview (tm_domain tool) (tm_business_action tool) params tenant user trace
                                 access in ret (inr p))
            (fun e => match e with BusinessApiError _ d => Some (ret (inl d)) | _ => None end) x1
          = (x2, inr (inr p : string + PreviewResponse))) as Hp.
  { unfold try_except. by rewrite (bind_inr _ _ _ _ _ Hpre). }
  rewrite (bind_inr _ _ _ _ _ Hp), Herr, Happ. intros Hrun. split.
  - intros R HR Hu.
    assert (frames R (let! mrq_id := uuid_id "mrq_" in let! idem_key := uuid_id "exec_" in
      let! approval_id := uuid_id "apr_" in
      ret (await_approval tc tool params p mrq_id idem_key approval_id))) as Hf.
    { assert (only_posts (fun _ _ _ _ => False) (let! mrq_id := uuid_id "mrq_" in
        let! idem_key := uuid_id "exec_" in let! approval_id := uuid_id "apr_" in
        ret (await_approval tc tool params p mrq_id idem_key approval_id))) as Hpost by posts.
      by apply Hpost. }
    specialize (Hf x2). by rewrite Hrun in Hf.
  - intros o ->. revert Hrun. unfold bind.
    destruct (uuid_id "mrq_" x2) as [a [|i]]; [done|]. destruct (uuid_id "exec_" a) as [b [|j]]; [done|].
    destruct (uuid_id "apr_" b) as [c [|k]]; [done|]. intros [= _ <-]. split; [done|].
    eexists. split; [reflexivity|]. by repeat split; eexists.
Qed.
End Facts.

(** ** The theorems at a concrete run

    A business API that answers a scripted list, a counter for ids. *)
Module Witness.
Record env := MkEnv { e_answers : list HttpResponse; e_ids : nat; e_log : list (Service * string) }.

#[global] Instance env_http : HttpPost env := fun svc path hs body e =>
  let log := (svc, path) :: e_log e in
  match e_answers e with
  | a :: rest => (MkEnv rest (e_ids e) log, inr a)
  | [] => (MkEnv [] (e_ids e) log, inl (HttpxTimeout "timed out"))
  end.

#[global] Instance env_uuid : Uuid env := fun e =>
  (MkEnv (e_answers e) (S (e_ids e)) (e_log e),
   inr (Z_to_string (10000000000000000000000 + Z.of_nat (e_ids e)))).

#[global] Instance env_repr : FloatRepr := fun _ => "0.0".
#[global] Instance env_pydantic : Pydantic := strict_pydantic.

Definition leave_tool : ToolManifestEntry :=
  MkToolManifestEntry "submit_leave_request" MUTATION [INTERNAL] MEDIUM "" "SubmitLeaveRequestParams" "hr"
    "submit_leave_request" ["leave.request.create"] SELF (Some "employee_id") [] [] None false.

Definition cx : ToolContext :=
  MkToolContext "tnt_a" "usr_1" (Some "emp_1") "trc_1" None [("submit_leave_request", leave_tool)]
    ["submit_leave_request"]
    [("submit_leave_request", MkScopeConstraint SELF "employee_id" (Some ["emp_1"]))].

Definition call (employee : string) : ToolCallState :=
  MkToolCallState "call_1" "submit_leave_request"
    [("employee_id", JStr employee); ("leave_days", JInt 7); ("start_date", JStr "2026-02-01")].

Definition preview_response (approval : bool) : HttpResponse :=
  MkHttpResponse 200 "" (JObj [("action", JStr "submit_leave_request"); ("risk_level", JStr "high");
    ("requires_approval", JBool approval); ("reversible", JBool true); ("preview_token", JStr "pv_1")]) [].

Definition start (answers : list HttpResponse) : env := MkEnv answers 0 [].

Lemma refused_call_is_inert_witness :
  ∃ o, execute_tool_call cx (call "emp_2") (start []) = (start [], inr o) ∧
    tir_status (teo_invocation o) = "error".
Proof.
  destruct (refused_call_is_inert cx (call "emp_2") (start [])) as (o & Ho & Hs & _).
  - intros tool. cbn. intros [= <-]. eexists. reflexivity.
  - reflexivity.
  - exists o. split; [exact Ho|exact Hs].
Defined.

Lemma tool_outcome_consistent_witness :
  ∃ x o, execute_tool_call cx (call "emp_1") (start [preview_response true]) = (x, inr o) ∧
    consistent_outcome (call "emp_1") o.
Proof.
  eexists _, _. split; [vm_compute; reflexivity|].
  eapply (tool_outcome_consistent cx (call "emp_1") (start [preview_response true])).
  vm_compute. reflexivity.
Defined.

Definition params : pydict :=
  [("employee_id", JStr "emp_1"); ("leave_days", JInt 7); ("start_date", JStr "2026-02-01")].

Lemma approval_stops_execution_witness :
  ∃ x o, execute_mutation (call "emp_1") leave_tool params None "tnt_a" "usr_1" "trc_1"
           (start [preview_response true]) = (x, inr o) ∧ teo_mutation_executed o = None.
Proof.
  eexists _, _. split; [vm_compute; reflexivity|].
  refine (proj1 (proj2 (approval_stops_execution (call "emp_1") leave_tool params None "tnt_a" "usr_1"
    "trc_1" (start [preview_response true]) (start [preview_response true])
    (MkEnv [] 0 [(BusinessApi, "/hr/v1/actions/submit_leave_request/preview")]) _ None
    (MkPreviewResponse "submit_leave_request" HIGH true [] true "pv_1" []) _ _ _ _ _ _) _ eq_refl)).
  all: vm_compute; reflexivity.
Defined.
End Witness.
