(* ===== verification/PiiProps.v ===== *)
(** PII redaction round trip: what [redact_input_pii] masks, [restore_input_pii]
    puts back. The redacted text is seen as a list of segments - literal text
    and placeholders that stand for a masked value. *)
From S2P Require Import Prelude PyStr Matching Json Presidio Http Contracts Wire Clients Guardrails.

(** ** Strings *)

Section Strings.
  Implicit Types (s a b : string).

Lemma no_char_app c a b : no_char c (a +:+ b) ↔ no_char c a ∧ no_char c b.
Proof.
  induction a as [|x a IH]; [cbn; tauto|].
  change (no_char c (String x (a +:+ b)) ↔ no_char c (String x a) ∧ no_char c b). cbn. tauto.
Qed.

Lemma sep_app_inj_r c a a' b b' :
  no_char c b → no_char c b' → a +:+ String c b = a' +:+ String c b' → a = a' ∧ b = b'.
Proof.
  intros Hb Hb'. revert a'. induction a as [|x a IH]; intros [|y a'] H.
  - split; [done|]. by injection H.
  - exfalso. injection H as -> H. rewrite H in Hb. apply no_char_app in Hb as [_ [Hb _]]. done.
  - exfalso. injection H as -> H. rewrite <- H in Hb'. apply no_char_app in Hb' as [_ [Hb' _]]. done.
  - injection H as -> H. by destruct (IH a' H) as [-> ->].
Qed.

Lemma take_app_le n a b : n ≤ String.length a → str_take n (a +:+ b) = str_take n a.
Proof.
  revert n. induction a as [|x a IH]; intros [|n] Hn; try done; [cbn in Hn; lia|].
  change (String x (str_take n (a +:+ b)) = String x (str_take n a)). cbn in Hn. by rewrite IH by lia.
Qed.

Lemma drop_app_le n a b : n ≤ String.length a → str_drop n (a +:+ b) = str_drop n a +:+ b.
Proof.
  revert n. induction a as [|x a IH]; intros [|n] Hn; try done; [cbn in Hn; lia|].
  change (str_drop n (a +:+ b) = str_drop n a +:+ b). cbn in Hn. by rewrite IH by lia.
Qed.

Lemma take_all n s : String.length s ≤ n → str_take n s = s.
Proof.
  revert n. induction s as [|x s IH]; intros [|n] Hn; try done; [cbn in Hn; lia|].
  cbn in *. by rewrite IH by lia.
Qed.

Lemma take_take n m s : n ≤ m → str_take n (str_take m s) = str_take n s.
Proof.
  revert n m. induction s as [|x s IH]; intros [|n] [|m] Hn; try done; [lia|].
  cbn. by rewrite IH by lia.
Qed.

Lemma take_length n s : n ≤ String.length s → String.length (str_take n s) = n.
Proof.
  revert n. induction s as [|x s IH]; intros [|n] Hn; cbn in *; try lia. by rewrite IH by lia.
Qed.

Lemma drop_length n s : String.length (str_drop n s) = String.length s - n.
Proof. revert n. induction s as [|x s IH]; intros [|n]; cbn; try done. Qed.

Lemma take_split (a b m : nat) s :
  a ≤ b → b ≤ m →
  str_take a s +:+ (str_take (b - a) (str_drop a s) +:+ str_drop b (str_take m s)) = str_take m s.
Proof.
  revert b m s. induction a as [|a IH]; intros b m s Hab Hbm.
  - rewrite Nat.sub_0_r. change (str_drop 0 s) with s. clear Hab. revert m s Hbm.
    induction b as [|b IHb]; intros m s Hbm; [by destruct s|].
    destruct m as [|m]; [lia|]. destruct s as [|x s]; [done|].
    change (String x (str_take b s +:+ str_drop b (str_take m s)) = String x (str_take m s)).
    f_equal. apply (IHb m s). lia.
  - destruct b as [|b]; [lia|]. destruct m as [|m]; [lia|]. destruct s as [|x s]; [by cbn; destruct (b - a)|].
    change (String x (str_take a s +:+ (str_take (b - a) (str_drop a s) +:+ str_drop b (str_take m s)))
            = String x (str_take m s)).
    f_equal. apply IH; lia.
Qed.

Lemma no_char_take c n s : no_char c s → no_char c (str_take n s).
Proof. revert n. induction s as [|x s IH]; intros [|n]; try done. intros [Hx Hs]. split; [done|]. by apply IH. Qed.

Lemma no_char_drop c n s : no_char c s → no_char c (str_drop n s).
Proof. revert n. induction s as [|x s IH]; intros [|n]; try done. intros [Hx Hs]. by apply IH. Qed.

(** ** Replacement *)

Lemma replace_skip old new pre s :
  replace_go old new (String.length pre) (pre +:+ s) = replace_go old new 0 s.
Proof.
  induction pre as [|x pre IH]; [done|].
  change (replace_go old new (String.length pre) (pre +:+ s) = replace_go old new 0 s). done.
Qed.

Lemma replace_lit c old new lit s :
  no_char c lit →
  replace_go (String c old) new 0 (lit +:+ s) = lit +:+ replace_go (String c old) new 0 s.
Proof.
  induction lit as [|x lit IH]; [done|]. intros [Hx Hl].
  change (String x lit +:+ s) with (String x (lit +:+ s)). cbn [replace_go].
  assert (str_startswith (String x (lit +:+ s)) (String c old) = false) as ->
    by (unfold str_startswith; cbn; by rewrite decide_False by congruence).
  change (String x (replace_go (String c old) new 0 (lit +:+ s))
          = String x (lit +:+ replace_go (String c old) new 0 s)). by rewrite IH.
Qed.

Lemma replace_hit c old new s :
  replace_go (String c old) new 0 (String c old +:+ s) = new +:+ replace_go (String c old) new 0 s.
Proof.
  change (String c old +:+ s) with (String c (old +:+ s)).
  pose proof (startswith_app (String c old) s) as Hs.
  change (String c old +:+ s) with (String c (old +:+ s)) in Hs. cbn [replace_go]. rewrite Hs.
  replace (String.length (String c old) - 1) with (String.length old) by (cbn; lia).
  by rewrite replace_skip.
Qed.
End Strings.

(** ** Placeholders *)

(** ["\[" body "\]"], without brackets inside. *)
Definition bracketed (h : string) : Prop :=
  ∃ body, h = String "["%char (body +:+ "]") ∧ no_char "["%char body ∧ no_char "]"%char body.

Lemma replace_miss h h' new s :
  bracketed h → bracketed h' → h ≠ h' →
  replace_go h new 0 (h' +:+ s) = h' +:+ replace_go h new 0 s.
Proof.
  intros (b & -> & Hb & Hb') (b' & -> & Hc & Hc') Hne.
  change (String "[" (b' +:+ "]") +:+ s) with (String "["%char ((b' +:+ "]") +:+ s)).
  cbn [replace_go].
  destruct (str_startswith _ _) eqn:Hs.
  - exfalso. apply startswith_spec in Hs as [r Hr]. injection Hr as Hr.
    rewrite !str_app_assoc in Hr. cbn in Hr.
    destruct (sep_app_inj "]" b' b s r Hc' Hb' Hr) as [-> _]. done.
  - change (String "[" (b' +:+ "]") +:+ replace_go (String "[" (b +:+ "]")) new 0 s)
      with (String "["%char ((b' +:+ "]") +:+ replace_go (String "[" (b +:+ "]")) new 0 s)).
    f_equal. apply replace_lit. apply no_char_app. by split; [|split].
Qed.

Lemma no_char_digits c n : (0 ≤ n)%Z → is_digit c = false → no_char c (Z_to_string n).
Proof.
  intros Hn Hc. unfold Z_to_string.
  assert (Hd : ∀ d, no_char c (DecimalString.NilEmpty.string_of_uint d)).
  { induction d; cbn; try done; (split; [|done]); intros <-; done. }
  destruct n as [|p|p]; [|cbn|lia].
  - cbn. split; [|done]. by intros <-.
  - unfold DecimalString.NilZero.string_of_uint. destruct (Pos.to_uint p) eqn:E; try apply Hd.
    cbn. split; [|done]. by intros <-.
Qed.

(** Entity names have no brackets. *)
Definition plain_name (s : string) : Prop := no_char "["%char s ∧ no_char "]"%char s.

Lemma placeholder_bracketed name n : plain_name name → (0 ≤ n)%Z → bracketed (placeholder name n).
Proof.
  intros [Ho Hc] Hn. exists (name +:+ "_" +:+ Z_to_string n). split.
  - unfold placeholder. by rewrite !str_app_assoc.
  - rewrite !no_char_app. repeat split; auto using no_char_digits.
Qed.

Lemma placeholder_inj name name' n n' :
  plain_name name → plain_name name' → (0 ≤ n)%Z → (0 ≤ n')%Z →
  placeholder name n = placeholder name' n' → name = name' ∧ n = n'.
Proof.
  intros [_ Hc] [_ Hc'] Hn Hn' Heq. unfold placeholder in Heq. injection Heq as Heq.
  rewrite <- !(str_app_assoc _ _ "]"), <- !str_app_assoc in Heq.
  apply sep_app_inj in Heq as [Heq _].
  - rewrite !str_app_assoc in Heq. cbn in Heq.
    apply sep_app_inj_r in Heq as [-> Heq]; [|by apply no_char_digits..].
    split; [done|]. by apply (inj Z_to_string).
  - rewrite !no_char_app. repeat split; auto using no_char_digits.
  - rewrite !no_char_app. repeat split; auto using no_char_digits.
Qed.

(** ** Segments *)

Inductive seg := Lit (s : string) | Tok (h v : string).

Definition seg_ok (g : seg) : Prop :=
  match g with
  | Lit s => no_char "["%char s
  | Tok h v => bracketed h ∧ no_char "["%char v
  end.

(** The redacted text, and the original one. *)
Fixpoint render (l : list seg) : string :=
  match l with [] => "" | Lit s :: l' => s +:+ render l' | Tok h _ :: l' => h +:+ render l' end.

Fixpoint original (l : list seg) : string :=
  match l with [] => "" | Lit s :: l' => s +:+ original l' | Tok _ v :: l' => v +:+ original l' end.

Definition restore_seg (h v : string) (g : seg) : seg :=
  match g with Tok h' _ => if String.eqb h h' then Lit v else g | Lit _ => g end.

Lemma replace_render h v l :
  bracketed h → Forall seg_ok l → str_replace (render l) h v = render (restore_seg h v <$> l).
Proof.
  intros Hh Hl. assert (∃ h', h = String "["%char h') as [h' Heq] by (destruct Hh as (b & -> & _); by eexists).
  unfold str_replace. rewrite decide_False by (by rewrite Heq).
  induction Hl as [|g l Hg Hl IH]; [done|]. destruct g as [s|k w]; cbn.
  - rewrite <- IH, Heq. by apply replace_lit.
  - destruct (str_eqb_spec h k) as [<-|Hne]; cbn.
    + rewrite <- IH, Heq. apply replace_hit.
    + rewrite <- IH. destruct Hg as [Hk _]. by apply replace_miss.
Qed.

Lemma restore_render mapping l :
  NoDup mapping.*1 → Forall (fun kv => bracketed kv.1 ∧ no_char "["%char kv.2) mapping →
  Forall seg_ok l → (∀ h v, Tok h v ∈ l → (h, v) ∈ mapping) →
  restore_input_pii (render l) mapping = original l.
Proof.
  unfold restore_input_pii. revert l. induction mapping as [|[h v] mapping IH]; intros l Hnd Hm Hl Htok; cbn.
  - clear Hl. induction l as [|[s|h v] l IHl]; cbn; [done| |].
    + rewrite IHl; [done|]. intros h v Hin. apply Htok. by constructor.
    + exfalso. by eapply not_elem_of_nil, Htok; constructor.
  - apply NoDup_cons in Hnd as [Hh Hnd]. apply Forall_cons in Hm as [[Hbh Hv] Hm].
    rewrite replace_render by done. rewrite IH; [|done..| |].
    + (* the original text is the same *)
      clear IH Hl. induction l as [|[s|k w] l IHl]; cbn; [done| |].
      * rewrite IHl; [done|]. intros k w Hin. apply Htok. by constructor.
      * rewrite IHl by (intros k' w' Hin; apply Htok; by constructor).
        destruct (str_eqb_spec h k) as [<-|]; [|done]. f_equal.
        assert ((h, w) ∈ (h, v) :: mapping) as Hin by (apply Htok; by constructor).
        apply elem_of_cons in Hin as [[= ->]|Hin]; [done|].
        exfalso. apply Hh. apply list_elem_of_fmap. by exists (h, w).
    + apply Forall_fmap. eapply Forall_impl; [exact Hl|]. intros [s|k w] Hg; cbn; [done|].
      by destruct (String.eqb h k).
    + intros k w Hin. apply list_elem_of_fmap in Hin as ([s|k' w'] & Heq & Hin); cbn in Heq; [done|].
      destruct (str_eqb_spec h k') as [|Hne]; simplify_eq. apply Htok in Hin.
      by apply elem_of_cons in Hin as [[= ]|]; [congruence|].
Qed.

(** ** Overlap *)

Definition disjoint_spans (a b : RecognizerResult) : Prop := overlaps a b = false.

Lemma disjoint_spans_sym a b : disjoint_spans a b → disjoint_spans b a.
Proof. unfold disjoint_spans, overlaps. by rewrite andb_comm. Qed.

Lemma keep_all_disjoint l kept :
  ordered disjoint_spans kept → ordered disjoint_spans (fold_left keep_one l kept).
Proof.
  revert kept. induction l as [|r l IH]; intros kept Hk; cbn; [done|]. apply IH. unfold keep_one.
  destruct (existsb (overlaps r) kept) eqn:E; [done|]. apply ordered_snoc; [done|].
  apply Forall_forall. intros y Hy. apply disjoint_spans_sym. unfold disjoint_spans.
  destruct (overlaps r y) eqn:Ho; [|done]. exfalso. assert (existsb (overlaps r) kept = true); [|congruence].
  apply existsb_exists. exists y. split; [by apply list_elem_of_In|done].
Qed.

Lemma keep_all_subset l kept r : r ∈ fold_left keep_one l kept → r ∈ l ∨ r ∈ kept.
Proof.
  revert kept. induction l as [|x l IH]; intros kept; cbn; [auto|]. intros [Hr|Hr]%IH; [left; by constructor|].
  unfold keep_one in Hr. destruct (existsb _ _); [by right|].
  apply elem_of_app in Hr as [Hr|Hr]; [by right|]. apply list_elem_of_singleton in Hr as ->. left. constructor.
Qed.

Lemma keep_all_mono l kept r : r ∈ kept → r ∈ fold_left keep_one l kept.
Proof.
  revert kept. induction l as [|x l IH]; intros kept Hr; cbn; [done|]. apply IH.
  unfold keep_one. destruct (existsb _ _); [done|]. apply elem_of_app. by left.
Qed.

(** What is asked of the spans kept out of the detected ones. *)
Definition spans_sound (results kept : list RecognizerResult) : Prop :=
  ordered disjoint_spans kept ∧
  ordered (fun a b => (rec_start a ≤ rec_start b)%Z) kept ∧
  (∀ r, r ∈ kept → r ∈ results) ∧
  (∀ r, r ∈ results → r ∈ kept ∨ ∃ k, k ∈ kept ∧ overlaps r k = true).

Lemma kept_spans_sound results : spans_sound results (non_overlapping_results results).
Proof.
  unfold spans_sound, non_overlapping_results. split; [|split; [|split]].
  - apply ordered_sort_sym; [apply disjoint_spans_sym|]. by apply keep_all_disjoint.
  - eapply ordered_impl; [|apply (ordered_sort start_le)]; unfold start_le; cbn; intros; lia.
  - intros r. rewrite sort_by_perm. intros [Hr|Hr]%keep_all_subset; [|by apply elem_of_nil in Hr].
    by rewrite sort_by_perm in Hr.
  - intros r Hr. enough (r ∈ fold_left keep_one (sort_by score_ge results) [] ∨
      ∃ k, k ∈ fold_left keep_one (sort_by score_ge results) [] ∧ overlaps r k = true) as [Hin|(k & Hk & Ho)];
      [left; by rewrite sort_by_perm|right; exists k; by rewrite sort_by_perm|].
    rewrite <- (sort_by_perm score_ge) in Hr.
    revert Hr. generalize (sort_by score_ge results) as l. generalize (@nil RecognizerResult) as kept.
    intros kept l. revert kept. induction l as [|x l IH]; intros kept Hr; [by apply elem_of_nil in Hr|].
    apply elem_of_cons in Hr as [->|Hr]; [|by apply IH]. cbn.
    unfold keep_one at 2 4. destruct (existsb (overlaps x) kept) eqn:E.
    + right. apply existsb_exists in E as (k & Hk & Ho). exists k. split; [|done].
      by apply keep_all_mono, list_elem_of_In.
    + left. apply keep_all_mono, elem_of_app. right. constructor.
Qed.

(** Every detected span is masked exactly once. The spans kept for
    redaction are detected ones, no two of them overlap, they are in text
    order, and a detected span that was dropped overlaps one that was kept. *)
Theorem non_overlapping_results_sound results : spans_sound results (non_overlapping_results results).
Proof. apply kept_spans_sound. Qed.

(** ** Redaction *)

Section Detected.
  Context `{PresidioLaws}.

Lemma analyze_spans eng text language l :
  analyze eng text language = inr l → Forall (in_text text) l.
Proof.
  intros Ha. apply Forall_forall. intros r Hr.
  destruct (analyze_sound _ _ _ _ _ Ha Hr) as (rc & p & i & j & _ & _ & _ & Hi & Hj & Hin).
  apply finditer_sound in Hin as [Hm%matches_at_bounds Hl]. unfold in_text, slen. lia.
Qed.

(** The entities of the registry have plain names. *)
Lemma analyzer_entities text language l r :
  analyze analyzer text language = inr l → r ∈ l → plain_name (str_removeprefix (rec_entity_type r) "ID_").
Proof.
  intros Ha Hr. destruct (analyze_sound _ _ _ _ _ Ha Hr) as (rc & p & i & j & Hrc & _ & -> & _).
  cbn in Hrc. set_unfold in Hrc. unfold plain_name.
  destruct_or! Hrc; subst rc; cbn; done.
Qed.
End Detected.

Definition count_of (k : string) (counters : list (string * Z)) : Z := from_option id 0%Z (dict_get k counters).

#[local] Arguments count_of : simpl never.
#[local] Arguments bump : simpl never.

Lemma count_of_bump k k' c : count_of k (bump k' c) = (count_of k c + if String.eqb k k' then 1 else 0)%Z.
Proof.
  unfold count_of, bump. destruct (str_eqb_spec k k') as [->|Hne].
  - by rewrite dict_get_set_eq.
  - rewrite dict_get_set_ne by done. lia.
Qed.

Lemma dict_set_new {A} k (v : A) d : k ∉ d.*1 → dict_set k v d = d ++ [(k, v)].
Proof.
  induction d as [|[k' v'] d IH]; cbn; [done|]. intros [Hne Hd]%not_elem_of_cons.
  rewrite (proj2 (String.eqb_neq k k') Hne). by rewrite IH.
Qed.

(** The state of the masking loop after the spans right of [m]. *)
Record masked (text : string) (m : nat) (acc : Redaction) (segs : list seg) : Prop := {
  mk_bound : m ≤ String.length text;
  mk_out : rdc_out acc = str_take m text +:+ render segs;
  mk_text : str_take m text +:+ original segs = text;
  mk_ok : Forall seg_ok segs;
  mk_toks h v : Tok h v ∈ segs → (h, v) ∈ rdc_mapping acc;
  mk_nodup : NoDup (rdc_mapping acc).*1;
  mk_mapping h v : (h, v) ∈ rdc_mapping acc →
    no_char "["%char v ∧ ∃ name n, plain_name name ∧ h = placeholder name n ∧
      (0 < n ≤ count_of name (rdc_counters acc))%Z;
  mk_counts name : (0 ≤ count_of name (rdc_counters acc))%Z
}.

Lemma masked_start text : masked text (String.length text) (MkRedaction [] [] text []) [].
Proof.
  split; cbn; rewrite ?take_all, ?str_app_nil_r by done; try done.
  - intros h v Hin. by apply elem_of_nil in Hin.
  - constructor.
  - intros h v Hin. by apply elem_of_nil in Hin.
Qed.

Lemma masked_step text m acc segs r :
  masked text m acc segs → no_char "["%char text →
  plain_name (str_removeprefix (rec_entity_type r) "ID_") →
  (0 ≤ rec_start r < rec_end r)%Z → (rec_end r ≤ Z.of_nat m)%Z →
  ∃ segs', masked text (Z.to_nat (rec_start r)) (redact_one text acc r) segs'.
Proof.
  intros [Hb Hout Htext Hok Htoks Hnd Hmap Hcnt] Htxt Hname Hr Hm.
  set (name := str_removeprefix (rec_entity_type r) "ID_") in *.
  set (s := Z.to_nat (rec_start r)) in *. set (e := Z.to_nat (rec_end r)).
  assert (s < e ∧ e ≤ m) as [Hse Hem] by lia.
  set (v := str_slice text (rec_start r) (rec_end r)).
  set (mid := str_drop e (str_take m text)).
  assert (Hlen : String.length (str_take m text) = m) by (by apply take_length).
  assert (Hcount : from_option id 0%Z (dict_get name (bump name (rdc_counters acc)))
                   = (count_of name (rdc_counters acc) + 1)%Z).
  { pose proof (count_of_bump name name (rdc_counters acc)) as Hc. rewrite String.eqb_refl in Hc. exact Hc. }
  set (h := placeholder name (count_of name (rdc_counters acc) + 1)).
  assert (Hnew : h ∉ (rdc_mapping acc).*1).
  { intros ([h' v'] & Heq & Hin)%list_elem_of_fmap. cbn in Heq. subst h'.
    apply Hmap in Hin as (_ & name' & n & Hn' & Heq & Hle).
    apply placeholder_inj in Heq as [<- ?]; try done; specialize (Hcnt name); lia. }
  exists (Tok h v :: Lit mid :: segs). split.
  - lia.
  - unfold redact_one. fold name. cbn. rewrite Hcount. fold h. rewrite Hout.
    unfold str_slice at 1. rewrite Z2Nat.inj_0, Nat.sub_0_r. fold s. change (str_drop 0 ?x) with x.
    rewrite take_app_le by lia. rewrite take_take by lia. f_equal. f_equal.
    unfold str_slice. fold e. rewrite drop_app_le by lia. fold mid. apply take_all.
    unfold slen. rewrite Nat2Z.id, !str_length_app, Hlen. unfold mid. rewrite drop_length, Hlen. lia.
  - change (str_take s text +:+ (v +:+ (mid +:+ original segs)) = text).
    transitivity (str_take m text +:+ original segs); [|done].
    rewrite <- (take_split s e m text) by lia. rewrite !str_app_assoc. reflexivity.
  - constructor; [|constructor; [|done]]; cbn.
    + split; [apply placeholder_bracketed; [done|specialize (Hcnt name); lia]|].
      unfold v, str_slice. by apply no_char_take, no_char_drop.
    + by apply no_char_drop, no_char_take.
  - unfold redact_one. fold name. cbn. rewrite Hcount. fold h v. rewrite dict_set_new by done.
    intros h' v' Hin. apply elem_of_app. apply elem_of_cons in Hin as [[= -> ->]|Hin]; [right; constructor|].
    apply elem_of_cons in Hin as [?|Hin]; [done|]. left. by apply Htoks.
  - unfold redact_one. fold name. cbn. rewrite Hcount. fold h v. rewrite dict_set_new by done.
    rewrite fmap_app. apply NoDup_app. split; [done|]. split; [|by apply NoDup_singleton].
    intros x Hx Hx'%list_elem_of_singleton. cbn in Hx'. by subst x.
  - unfold redact_one. fold name. cbn. rewrite Hcount. fold h v. rewrite dict_set_new by done.
    intros h' v' [Hin|[= -> ->]%list_elem_of_singleton]%elem_of_app.
    + destruct (Hmap _ _ Hin) as (Hv & name' & n & Hp & Hh & Hn). split; [done|]. exists name', n.
      repeat split; [apply Hp|apply Hp|done|lia|]. rewrite count_of_bump. case_match; lia.
    + split; [unfold v, str_slice; by apply no_char_take, no_char_drop|].
      exists name, (count_of name (rdc_counters acc) + 1)%Z. rewrite count_of_bump, String.eqb_refl.
      specialize (Hcnt name). repeat split; [apply Hname|apply Hname|lia..].
  - intros k. cbn. rewrite count_of_bump. specialize (Hcnt k). case_match; lia.
Qed.

Lemma masked_all text l acc segs m :
  masked text m acc segs → no_char "["%char text →
  (∀ r, r ∈ l → plain_name (str_removeprefix (rec_entity_type r) "ID_") ∧
                (0 ≤ rec_start r < rec_end r)%Z ∧ (rec_end r ≤ Z.of_nat m)%Z) →
  ordered (fun a b => (rec_end b ≤ rec_start a)%Z) l →
  ∃ m' segs', masked text m' (fold_left (redact_one text) l acc) segs'.
Proof.
  revert acc segs m. induction l as [|r l IH]; intros acc segs m Hmk Htxt Hl; cbn; [by eexists _, _|].
  intros [Hr Hord]. destruct (Hl r) as (Hp & Hs & He); [constructor|].
  destruct (masked_step _ _ _ _ _ Hmk Htxt Hp Hs He) as (segs' & Hmk').
  eapply IH; [exact Hmk'|done| |done]. intros q Hq. destruct (Hl q) as (Hpq & Hsq & _); [by constructor|].
  split; [done|]. split; [done|]. eapply Forall_forall in Hr; [|exact Hq]. cbn in Hr. lia.
Qed.

Section RoundTrip.
  Context `{PresidioLaws}.

(** C35: PII masking is reversible for the user's own text. When a text without
    a bracket of its own is redacted, restoring the placeholders of the result
    with the mapping of the run gives the text back, character for character. *)
Theorem redact_restore_roundtrip {S} text (s s' : S) out mapping event :
  no_char "["%char text →
  redact_input_pii text s = (s', inr (out, mapping, event)) →
  restore_input_pii out mapping = text.
Proof.
  intros Htxt. unfold redact_input_pii, detected. destruct (analyze analyzer text LANGUAGE) as [e|results] eqn:Han; [done|].
  match goal with |- context [ret (non_overlapping_results ?l)] => set (hits := l) end.
  rewrite (bind_inr _ _ s s (non_overlapping_results hits)) by done.
  pose proof (kept_spans_sound hits) as (Hdis & Hsorted & Hsub & _).
  destruct (non_overlapping_results hits) as [|k ks] eqn:Hkept; [by intros [= _ <- <- _]|].
  rewrite <- Hkept in *. clear Hkept k ks. set (kept := non_overlapping_results hits) in *.
  intros [= _ <- <- _].
  assert (∀ r, r ∈ kept → plain_name (str_removeprefix (rec_entity_type r) "ID_") ∧
    (0 ≤ rec_start r < rec_end r)%Z ∧ (rec_end r ≤ Z.of_nat (String.length text))%Z) as Hspan.
  { intros r Hr. apply Hsub in Hr. apply list_elem_of_In, filter_In in Hr as [Hr _].
    apply list_elem_of_In in Hr. split; [by eapply analyzer_entities|].
    eapply Forall_forall in Hr; [|by eapply analyze_spans]. exact Hr. }
  destruct (masked_all text (sort_by start_ge kept) _ _ _ (masked_start text) Htxt) as (m & segs & Hmk).
  - intros r Hr. apply Hspan. by rewrite <- (sort_by_perm start_ge).
  - eapply ordered_impl; cycle 1.
    + apply ordered_and; [apply (ordered_sort start_ge)|].
      * unfold start_ge. intros; lia.
      * unfold start_ge. intros; lia.
      * apply (ordered_sort_sym _ start_ge), Hdis. apply disjoint_spans_sym.
    + intros a b Ha Hb [Hle Ho]. rewrite (sort_by_perm start_ge) in Ha, Hb.
      pose proof (Hspan a Ha). pose proof (Hspan b Hb). unfold start_ge in Hle.
      unfold disjoint_spans, overlaps in Ho. lia.
  - destruct Hmk as [Hb Hout Htext Hok Htoks Hnd Hmap Hcnt]. rewrite Hout.
    (* what is left of the first span is literal text too *)
    change (str_take m text +:+ render segs) with (render (Lit (str_take m text) :: segs)).
    rewrite restore_render; [exact Htext|done| | |].
    + apply Forall_forall. intros [h v] Hin. apply Hmap in Hin as (Hv & name & n & Hp & -> & Hn).
      split; [|done]. apply placeholder_bracketed; [done|lia].
    + constructor; [by apply no_char_take|done].
    + intros h v [?|Hin]%elem_of_cons; [done|]. by apply Htoks.
Qed.
End RoundTrip.

(** The theorem on a text with an id number, for the plain Presidio. *)
Module Witness.
#[local] Existing Instance plain_presidio.

Lemma redact_restore_roundtrip_witness :
  ∃ out mapping event,
    redact_input_pii "NIK saya 3174012345678901, mohon cek" tt = (tt, inr (out, mapping, event)) ∧
    out = "NIK saya [NIK_1], mohon cek" ∧
    restore_input_pii out mapping = "NIK saya 3174012345678901, mohon cek".
Proof.
  eexists _, _, _. split; [vm_compute; reflexivity|]. split; [reflexivity|].
  refine (redact_restore_roundtrip "NIK saya 3174012345678901, mohon cek" tt tt _ _ _ _ _).
  - cbn. repeat split; discriminate.
  - vm_compute. reflexivity.
Defined.
End Witness.
