(* ===== verification/MaskProps.v ===== *)
(** What PII masking leaves: no identity number, tax number or mobile number of
    the recognized forms survives in a masked text, whatever the results Presidio
    returns between what its documentation allows.

    A match is located by its position in the text; the characters around a
    position decide whether a word begins or ends there. *)
From S2P Require Import Prelude PyStr Matching Json Presidio Http Contracts Wire Clients Guardrails PiiProps EvalGate.
From Stdlib Require Import Ascii.

(** ** Positions *)

Section Positions.
  Implicit Types (s m u v pre post : string) (p i j : nat).

Definition word_opt (o : option ascii) : bool := from_option is_word false o.

(** A word begins or ends at [p]. *)
Definition edge (s : string) (p : nat) : bool := boundary (after None (str_take p s)) (str_drop p s).

Definition char_before (s : string) (p : nat) : option ascii :=
  match p with O => None | S q => String.get q s end.

Lemma boundary_word o s : boundary o s = xorb (word_opt o) (word_opt (String.get 0 s)).
Proof. by destruct o, s. Qed.

Lemma get_drop s p : String.get 0 (str_drop p s) = String.get p s.
Proof. revert p. induction s as [|c s IH]; intros [|p]; cbn; try done. Qed.

Lemma after_take o s p :
  p ≤ String.length s → after o (str_take p s) = match p with O => o | S q => String.get q s end.
Proof.
  revert o p. induction s as [|c s IH]; intros o [|p] Hp; cbn in *; try done; [lia|].
  rewrite IH by lia. by destruct p.
Qed.

Lemma edge_spec s p :
  p ≤ String.length s → edge s p = xorb (word_opt (char_before s p)) (word_opt (String.get p s)).
Proof. intros Hp. unfold edge. by rewrite boundary_word, get_drop, after_take. Qed.

Definition digit_at (s : string) (p : nat) : Prop := ∃ c, String.get p s = Some c ∧ is_digit c = true.

Lemma digit_is_word c : is_digit c = true → is_word c = true.
Proof. unfold is_word. by intros ->. Qed.

Lemma get_length s p : is_Some (String.get p s) → p < String.length s.
Proof.
  revert p. induction s as [|c s IH]; intros [|p]; cbn; [by intros []..|lia|]. intros ?%IH. lia.
Qed.

Lemma digit_at_length s p : digit_at s p → p < String.length s.
Proof. intros (c & Hc & _). apply get_length. by eexists. Qed.

(** No word begins or ends between two digits. *)
Lemma no_edge_between s p : digit_at s p → digit_at s (S p) → edge s (S p) = false.
Proof.
  intros Hp Hq. rewrite edge_spec by (apply digit_at_length in Hq; lia). cbn.
  destruct Hp as (c & -> & Hc), Hq as (d & -> & Hd). cbn. by rewrite !digit_is_word.
Qed.

(** A maximal run of digits. *)
Record digit_word (s : string) (i j : nat) : Prop := {
  dw_lt : i < j;
  dw_digits p : i ≤ p < j → digit_at s p;
  dw_left : edge s i = true;
  dw_right : edge s j = true
}.

Lemma digit_word_unique s i j a b p :
  digit_word s i j → digit_word s a b → i ≤ p < j → a ≤ p < b → i = a ∧ j = b.
Proof.
  assert (Hl : ∀ i j a b p, digit_word s i j → digit_word s a b → i ≤ p < j → a ≤ p < b → ¬ i < a).
  { clear. intros i j a b p [_ Hd _ _] [_ _ He _] Hp Hq Hia. destruct a as [|a]; [lia|].
    rewrite no_edge_between in He; [done|apply Hd; lia|apply Hd; lia]. }
  assert (Hr : ∀ i j a b p, digit_word s i j → digit_word s a b → i ≤ p < j → a ≤ p < b → ¬ b < j).
  { clear. intros i j a b p [_ Hd _ _] [_ _ _ He] Hp Hq Hbj. destruct b as [|b]; [lia|].
    rewrite no_edge_between in He; [done|apply Hd; lia|apply Hd; lia]. }
  intros H1 H2 Hp Hq. pose proof (Hl _ _ _ _ p H1 H2). pose proof (Hl _ _ _ _ p H2 H1).
  pose proof (Hr _ _ _ _ p H1 H2). pose proof (Hr _ _ _ _ p H2 H1). lia.
Qed.

Lemma get_app_r u m p : String.get (String.length u + p) (u +:+ m) = String.get p m.
Proof. induction u as [|c u IH]; [done|]. apply IH. Qed.

Lemma get_app_l u m p : p < String.length u → String.get p (u +:+ m) = String.get p u.
Proof.
  revert p. induction u as [|c u IH]; intros p Hp; cbn in Hp; [lia|].
  destruct p as [|p]; [done|]. apply IH. lia.
Qed.

Lemma take_app pre post : str_take (String.length pre) (pre +:+ post) = pre.
Proof. rewrite take_app_le by done. by apply take_all. Qed.

Lemma drop_app pre post : str_drop (String.length pre) (pre +:+ post) = post.
Proof. induction pre as [|c pre IH]; [by destruct post|]. apply IH. Qed.

Lemma edge_app pre post : edge (pre +:+ post) (String.length pre) = boundary (after None pre) post.
Proof. unfold edge. by rewrite take_app, drop_app. Qed.

Lemma take_drop s p : str_take p s +:+ str_drop p s = s.
Proof.
  revert p. induction s as [|c s IH]; intros [|p]; try done.
  change (String c (str_take p s +:+ str_drop p s) = String c s). by rewrite IH.
Qed.
End Positions.

(** ** What the patterns match *)

Lemma str_app_inj_r (a b p : string) : a +:+ p = b +:+ p → a = b.
Proof.
  intros H. apply (f_equal String.rev) in H. rewrite !str_rev_app in H. apply str_app_inj_l in H.
  rewrite <- (str_rev_involutive a), H. apply str_rev_involutive.
Qed.

Definition all_digits (m : string) : Prop := ∀ p, p < String.length m → digit_at m p.

Lemma all_digits_cons c m : is_digit c = true → all_digits m → all_digits (String c m).
Proof.
  intros Hc Hm [|p] Hp; [by exists c|]. cbn in Hp. apply Hm. lia.
Qed.

Lemma all_digits_app m m' : all_digits m → all_digits m' → all_digits (m +:+ m').
Proof.
  intros Hm Hm'. induction m as [|c m IH]; [done|].
  change (String c m +:+ m') with (String c (m +:+ m')). destruct (Hm 0) as (d & [= <-] & Hd); [cbn; lia|].
  apply all_digits_cons; [done|]. apply IH. intros p Hp. apply (Hm (S p)). cbn. lia.
Qed.

Lemma matches_digits n p s p' s' :
  matches (digits n) p s p' s' →
  ∃ m, s = m +:+ s' ∧ p' = after p m ∧ String.length m = n ∧ all_digits m.
Proof.
  unfold digits. revert p s. induction n as [|n IH]; intros p s Hm; inversion Hm; subst.
  - exists "". split_and!; try done. intros q Hq. cbn in Hq. lia.
  - match goal with H : matches RDigit _ _ _ _ |- _ => inversion H as [? c ? ? Hc| | | | | | |]; subst end.
    match goal with H : matches (RTimes n _) _ _ _ _ |- _ => apply IH in H as (m & -> & -> & <- & Hd) end.
    exists (String c m). split_and!; try done. by apply all_digits_cons.
Qed.

Lemma matches_digits_to n p s p' s' :
  matches (RUpTo n RDigit) p s p' s' → ∃ m, s = m +:+ s' ∧ p' = after p m ∧ String.length m ≤ n ∧ all_digits m.
Proof.
  revert p s. induction n as [|n IH]; intros p s Hm; inversion Hm; subst.
  - exists "". split_and!; try done. intros q Hq. cbn in Hq. lia.
  - match goal with H : matches (RSeq _ _) _ _ _ _ |- _ => inversion H; subst end.
    match goal with H : matches RDigit _ _ _ _ |- _ => inversion H as [? c ? ? Hc| | | | | | |]; subst end.
    match goal with H : matches (RUpTo n _) _ _ _ _ |- _ => apply IH in H as (m & -> & -> & Hl & Hd) end.
    exists (String c m). split_and!; try done; [cbn; lia|]. by apply all_digits_cons.
  - match goal with H : matches REmpty _ _ _ _ |- _ => inversion H; subst end.
    exists "". split_and!; try done; [cbn; lia|]. intros q Hq. cbn in Hq. lia.
Qed.

Lemma matches_digit_span lo hi p s p' s' :
  matches (digits_to lo hi) p s p' s' →
  ∃ m, s = m +:+ s' ∧ p' = after p m ∧ lo ≤ String.length m ∧ all_digits m.
Proof.
  unfold digits_to. intros Hm. inversion Hm as [| |? ? ? ? p1 s1 ? ? H1 H2| | | | |]; subst.
  apply (matches_digits lo) in H1 as (m1 & -> & -> & Hl & Hd). apply matches_digits_to in H2 as (m2 & -> & -> & _ & Hd2).
  exists (m1 +:+ m2). rewrite str_app_assoc, after_app, str_length_app.
  split_and!; [done|done|lia|by apply all_digits_app].
Qed.

Lemma matches_chr c p s p' s' : matches (RChr c) p s p' s' → s = String c s' ∧ p' = Some c.
Proof.
  intros Hm. inversion Hm as [? d ? ? Hd| | | | | | |]; subst. by apply bool_decide_eq_true in Hd as ->.
Qed.

(** Two patterns in a row, and one between word boundaries. *)
Ltac split_match :=
  repeat match goal with
  | H : matches (RSeq _ _) _ _ _ _ |- _ => inversion H; clear H; subst
  | H : matches (RChr _) _ _ _ _ |- _ => apply matches_chr in H as [? ?]; subst
  | H : matches (digits _) _ _ _ _ |- _ =>
      let m := fresh "m" in let Hl := fresh "Hl" in let Hd := fresh "Hd" in
      apply matches_digits in H as (m & ? & ? & Hl & Hd); subst
  | H : matches (RChar _) _ _ _ _ |- _ => inversion H; clear H; subst
  | H : matches (digits_to _ _) _ _ _ _ |- _ =>
      let m := fresh "m" in let Hl := fresh "Hl" in let Hd := fresh "Hd" in
      apply matches_digit_span in H as (m & ? & ? & Hl & Hd); subst
  | H : matches (RAlt _ _) _ _ _ _ |- _ => inversion H; clear H; subst
  | H : ?m +:+ ?s = _ +:+ ?s |- _ => apply str_app_inj_r in H; subst
  end.

Lemma matches_delimited r s i j :
  matches_at (delimited r) s i j →
  ∃ pre m post, s = pre +:+ m +:+ post ∧ String.length pre = i ∧ i + String.length m = j ∧
    (∃ p', matches r (after None pre) (m +:+ post) p' post) ∧ edge s i = true ∧ edge s j = true.
Proof.
  intros (pre & m & post & p' & -> & <- & <- & Hm). unfold delimited in Hm.
  inversion Hm as [| |? ? ? ? p1 s1 ? ? Hb Hr| | | | |]; subst.
  inversion Hb as [| | | | | | |? ? He]; subst.
  inversion Hr as [| |? ? ? ? p2 s2 ? ? Hr' Hb'| | | | |]; subst.
  inversion Hb' as [| | | | | | |? ? He']; subst.
  exists pre, m, post. split_and!; try done.
  - by exists p'.
  - by rewrite edge_app.
  - rewrite <- str_app_assoc, <- str_length_app, edge_app, after_app.
    pose proof (matches_consumes _ _ _ _ _ Hr') as (m' & Heq & ->).
    apply str_app_inj_r in Heq as ->. done.
Qed.

Lemma digit_word_of pre m post :
  m ≠ "" → all_digits m → edge (pre +:+ m +:+ post) (String.length pre) = true →
  edge (pre +:+ m +:+ post) (String.length pre + String.length m) = true →
  digit_word (pre +:+ m +:+ post) (String.length pre) (String.length pre + String.length m).
Proof.
  intros Hne Hd Hl Hr. split; [destruct m; [done|cbn; lia]| |done|done].
  intros p Hp. destruct (Hd (p - String.length pre)) as (c & Hc & Hc'); [lia|]. exists c. split; [|done].
  replace p with (String.length pre + (p - String.length pre)) by lia.
  rewrite get_app_r. rewrite get_app_l by lia. done.
Qed.

Lemma nik_word s i j : matches_at NIK_RE s i j → digit_word s i j ∧ j = i + 16.
Proof.
  intros (pre & m & post & -> & <- & <- & (p' & Hm) & Hi & Hj)%matches_delimited.
  split_match. split; [|lia].
  apply digit_word_of; try done. by intros ->.
Qed.

(** The digits of [\\d{m,n}]. *)
Lemma digits_to_word lo hi s i j :
  0 < lo → matches_at (delimited (digits_to lo hi)) s i j → digit_word s i j.
Proof.
  intros Hm0 (pre & w & post & -> & <- & <- & (p' & Hm) & Hi & Hj)%matches_delimited.
  split_match. apply digit_word_of; [|done..]. intros ->. cbn in Hl. lia.
Qed.

Lemma in_range_digit c : in_range 49 57 c = true → is_digit c = true.
Proof.
  unfold is_digit, in_range. rewrite !andb_true_iff, !N.leb_le. intros [H1 H2]. split; [|done].
  etrans; [|exact H1]. done.
Qed.

(** A mobile number, with or without its plus sign. *)
Definition plus_word (s : string) (i j : nat) : Prop :=
  String.get i s = Some "+"%char ∧ digit_word s (S i) j.

Lemma digit_word_tail pre c m post :
  is_word c = false → m ≠ "" → all_digits m →
  edge (pre +:+ String c m +:+ post) (String.length pre + String.length (String c m)) = true →
  digit_word (pre +:+ String c m +:+ post) (S (String.length pre)) (String.length pre + String.length (String c m)).
Proof.
  intros Hc Hne Hd Hr.
  assert (Heq : pre +:+ String c m +:+ post = (pre +:+ String c "") +:+ m +:+ post) by (by rewrite str_app_assoc).
  assert (Hl : String.length (pre +:+ String c "") = S (String.length pre)) by (rewrite str_length_app; cbn; lia).
  rewrite <- Hl. replace (String.length pre + String.length (String c m))
    with (String.length (pre +:+ String c "") + String.length m) in * by (cbn in *; lia).
  rewrite Heq in *. apply digit_word_of; try done.
  rewrite edge_app, after_app, boundary_word. cbn. rewrite Hc.
  destruct m as [|d m]; [done|]. destruct (Hd 0) as (d' & [= <-] & Hd'); [cbn; lia|].
  by apply digit_is_word.
Qed.

Lemma hp_word s i j : matches_at NO_HP_RE s i j → digit_word s i j ∨ plus_word s i j.
Proof.
  intros (pre & m & post & -> & <- & <- & (p' & Hm) & Hi & Hj)%matches_delimited.
  unfold RAlts, RSeqs in Hm.
  assert (Hnum : ∀ w, all_digits w → w ≠ "" → m = w ∨ m = String "+" w →
    digit_word (pre +:+ m +:+ post) (String.length pre) (String.length pre + String.length m) ∨
    plus_word (pre +:+ m +:+ post) (String.length pre) (String.length pre + String.length m)).
  { intros w Hw Hne [->| ->]; [left; by apply digit_word_of|right]. split.
    - rewrite <- (Nat.add_0_r (String.length pre)), get_app_r. done.
    - by apply digit_word_tail. }
  split_match.
  all: lazymatch goal with
  | H : _ +:+ ?post = _, Hr : in_range 49 57 ?c = true, H1 : all_digits ?m1 |- _ =>
      assert (Hrest : all_digits (String "8" (String c m1)))
        by (repeat apply all_digits_cons; [done|by apply in_range_digit|done]);
      let num w := apply (Hnum w); [repeat first [exact Hrest|apply all_digits_cons; [done|]]|done|];
                   first [left; apply (str_app_inj_r _ _ post); exact H
                         |right; apply (str_app_inj_r _ _ post); exact H] in
      first [num (String "6" (String "2" (String "8" (String c m1))))|num (String "0" (String "8" (String c m1)))]
  end.
Qed.

(** The dotted tax number, character by character. *)
Definition DOTTED_FORM := "dd.ddd.ddd.d-ddd.ddd".

Definition fits (f c : ascii) : bool := if decide (f = "d"%char) then is_digit c else bool_decide (c = f).

Record dotted (s : string) (i : nat) : Prop := {
  dt_char k f : String.get k DOTTED_FORM = Some f → ∃ c, String.get (i + k) s = Some c ∧ fits f c = true;
  dt_left : edge s i = true;
  dt_right : edge s (i + 20) = true
}.

(** Every form character is a digit, a dot or a dash, and no character fits two of them. *)
Lemma dotted_clash s i j k l f g :
  dotted s i → dotted s j → i + k = j + l → String.get k DOTTED_FORM = Some f → String.get l DOTTED_FORM = Some g →
  f = g.
Proof.
  intros Hi Hj Heq Hf Hg. destruct (dt_char _ _ Hi _ _ Hf) as (c & Hc & Hfc), (dt_char _ _ Hj _ _ Hg) as (d & Hd & Hgd).
  rewrite Heq in Hc. simplify_eq.
  assert (Hform : ∀ k f, String.get k DOTTED_FORM = Some f → f = "d"%char ∨ f = "."%char ∨ f = "-"%char).
  { clear. intros k f. do 20 (destruct k as [|k]; [cbn; intros [= <-]; tauto|]). by destruct k. }
  assert (Hfit : ∀ f, fits f c = true → (f = "d"%char ∧ is_digit c = true) ∨ c = f).
  { clear. intros f. unfold fits. destruct (decide _); [by left|]. intros H%bool_decide_eq_true. by right. }
  apply Hform in Hf, Hg. apply Hfit in Hfc as [[-> Hc']| ->], Hgd as [[-> Hd']|Hd']; try done; subst;
    destruct_or?; subst; done.
Qed.

Lemma dotted_digit s i k : dotted s i → String.get k DOTTED_FORM = Some "d"%char → digit_at s (i + k).
Proof. intros Hd Hk. destruct (dt_char _ _ Hd _ _ Hk) as (c & Hc & Hf). by exists c. Qed.

(** Two dotted numbers that overlap are the same one. *)
Lemma dotted_apart s i j : dotted s i → dotted s j → i < j → j < i + 20 → False.
Proof.
  intros Hi Hj Hlt Hlt'. remember (j - i) as n eqn:Hn. assert (j = i + n) as -> by lia. clear Hn.
  assert (Hclash : ∀ k l f g, k = n + l → String.get k DOTTED_FORM = Some f → String.get l DOTTED_FORM = Some g → f = g).
  { intros k l f g -> Hf Hg. eapply (dotted_clash s i (i + n) (n + l) l); [done|done|lia|done|done]. }
  assert (Hedge : ∀ p, edge s (S p) = true → digit_at s p → digit_at s (S p) → False).
  { intros p He Hp Hq. by rewrite no_edge_between in He. }
  assert (Hleft : ∀ k, n = S k → String.get k DOTTED_FORM = Some "d"%char → False).
  { intros k -> Hk. apply (Hedge (i + k)).
    - replace (S (i + k)) with (i + S k) by lia. apply Hj.
    - by apply dotted_digit.
    - replace (S (i + k)) with (i + S k + 0) by lia. by apply dotted_digit. }
  let clash l := (specialize (Hclash _ l _ _ eq_refl eq_refl eq_refl); discriminate) in
  let refute := first [lia|by apply (Hleft _ eq_refl)|clash 0|clash 1|clash 2|clash 12] in
  do 20 (destruct n as [|n]; [refute|]).
  lia.
Qed.

(** A string of digits of known length, character by character. *)
Ltac spell m :=
  lazymatch goal with
  | Hl : String.length m = O |- _ => destruct m; [clear Hl|discriminate]
  | Hl : String.length m = S _, Hd : all_digits m |- _ =>
      let c := fresh "c" in let Hc := fresh "Hc" in
      destruct m as [|c m]; [discriminate|]; injection Hl as Hl;
      assert (Hc : is_digit c = true) by (destruct (Hd 0) as (? & [= <-] & ?); [cbn; lia|done]);
      assert (all_digits m) by (intros p Hp; apply (Hd (S p)); cbn; lia); clear Hd; spell m
  end.

Lemma npwp_dotted s i j : matches_at NPWP_DOTTED_RE s i j → dotted s i ∧ j = i + 20.
Proof.
  intros (pre & m & post & -> & <- & <- & (p' & Hm) & Hi & Hj)%matches_delimited.
  unfold RSeqs in Hm. split_match.
  repeat match goal with H : all_digits ?x |- _ => spell x end.
  match type of H with _ = ?t => let m' := eval cbn in (str_take 20 t) in assert (m = m') as -> end.
  { apply (str_app_inj_r _ _ post). exact H. }
  split; [|done]. split; [|exact Hi|exact Hj].
  intros k f Hk. rewrite get_app_r.
  do 20 (destruct k as [|k]; [injection Hk as <-; eexists; split; [reflexivity|]; first [assumption|reflexivity]|]).
  by destruct k.
Qed.

Lemma digits_word n s i j : 0 < n → matches_at (delimited (digits n)) s i j → digit_word s i j ∧ j = i + n.
Proof.
  intros Hn (pre & m & post & -> & <- & <- & (p' & Hm) & Hi & Hj)%matches_delimited.
  split_match. split; [|done]. apply digit_word_of; try done. intros ->. cbn in Hn. lia.
Qed.

Lemma delimited_consuming r : consuming r → consuming (delimited r).
Proof.
  intros Hr p s p' s' Hm. unfold delimited in Hm.
  inversion Hm as [| |? ? ? ? p1 s1 ? ? Hb Hm'| | | | |]; subst. inversion Hb; subst.
  inversion Hm' as [| |? ? ? ? p2 s2 ? ? Hm'' Hb'| | | | |]; subst. inversion Hb'; subst. by eapply Hr.
Qed.

Lemma digits_consuming n : 0 < n → consuming (digits n).
Proof.
  intros Hn p s p' s' (m & -> & _ & Hl & _)%matches_digits. rewrite str_length_app. lia.
Qed.

Lemma seq_consuming r1 r2 : consuming r1 → consuming (RSeq r1 r2).
Proof.
  intros Hr p s p' s' Hm. inversion Hm as [| |? ? ? ? p1 s1 ? ? H1 H2| | | | |]; subst.
  apply Hr in H1. apply matches_shorter in H2. lia.
Qed.

Lemma seq_consuming_r r1 r2 : consuming r2 → consuming (RSeq r1 r2).
Proof.
  intros Hr p s p' s' Hm. inversion Hm as [| |? ? ? ? p1 s1 ? ? H1 H2| | | | |]; subst.
  apply Hr in H2. apply matches_shorter in H1. lia.
Qed.

Lemma chr_consuming c : consuming (RChr c).
Proof. intros p s p' s' [-> _]%matches_chr. cbn. lia. Qed.

(** The patterns whose score alone passes the threshold. *)
Definition STANDALONE : list (regex * string * float64) :=
  [(NIK_RE, "ID_NIK", f64_ratio 7 10); (NPWP_DOTTED_RE, "ID_NPWP", f64_ratio 9 10);
   (NO_HP_RE, "ID_NO_HP", f64_ratio 75 100)].

Lemma standalone_consuming re entity score : (re, entity, score) ∈ STANDALONE → consuming re.
Proof.
  unfold STANDALONE. intros H. set_unfold in H. destruct_or! H; injection H as -> -> ->; apply delimited_consuming.
  - by apply digits_consuming; lia.
  - apply seq_consuming, digits_consuming. lia.
  - apply seq_consuming_r, seq_consuming, chr_consuming.
Qed.

(** What a span of the analyzer is, by its entity. *)
Record known_span (s entity : string) (i j : nat) : Prop := {
  ks_shape : digit_word s i j ∨ plus_word s i j ∨ (dotted s i ∧ j = i + 20);
  ks_left : edge s i = true;
  ks_right : edge s j = true;
  ks_nik : entity = "ID_NIK" → digit_word s i j ∧ j = i + 16;
  ks_npwp : entity = "ID_NPWP" → (dotted s i ∧ j = i + 20) ∨ j = i + 15;
  ks_hp : entity = "ID_NO_HP" → digit_word s i j ∨ plus_word s i j
}.

Lemma known_pattern s rc p i j :
  rc ∈ RECOGNIZERS → p ∈ prc_patterns rc → matches_at (pat_regex p) s i j →
  known_span s (prc_supported_entity rc) i j.
Proof.
  intros Hrc Hp Hm.
  assert (edge s i = true ∧ edge s j = true) as [Hi Hj].
  { assert (∃ r, pat_regex p = delimited r) as [r Hr].
    { unfold RECOGNIZERS in Hrc. set_unfold in Hrc. destruct_or! Hrc; subst rc; cbn in Hp; set_unfold in Hp;
        destruct_or! Hp; subst p; by eexists. }
    rewrite Hr in Hm. apply matches_delimited in Hm as (? & ? & ? & _ & _ & _ & _ & Hi & Hj). done. }
  unfold RECOGNIZERS in Hrc. set_unfold in Hrc. destruct_or! Hrc; subst rc; cbn in Hp; set_unfold in Hp;
    destruct_or! Hp; subst p; cbn in Hm |- *.
  - apply nik_word in Hm as [Hw ->]. split; auto; intros; discriminate.
  - apply npwp_dotted in Hm as [Hw ->]. split; auto; intros; discriminate.
  - apply digits_word in Hm as [Hw ->]; [|lia]. split; auto; intros; discriminate.
  - apply digits_to_word in Hm; [|lia]. split; auto; intros; discriminate.
  - apply hp_word in Hm. split; auto; try (intros; discriminate). tauto.
Qed.

Section Cover.
  Context `{PresidioLaws}.

Lemma analyzer_span text l r :
  analyze analyzer text LANGUAGE = inr l → r ∈ l →
  ∃ i j, rec_start r = Z.of_nat i ∧ rec_end r = Z.of_nat j ∧ i < j ∧ known_span text (rec_entity_type r) i j.
Proof.
  intros Ha Hr. destruct (analyze_sound _ _ _ _ _ Ha Hr) as (rc & p & i & j & Hrc & Hp & -> & Hi & Hj & Hin).
  apply finditer_sound in Hin as [Hm Hl]. exists i, j. split_and!; try done. by eapply known_pattern.
Qed.

Definition hits (l : list RecognizerResult) : list RecognizerResult :=
  List.filter (fun r => f64_leb REDACT_SCORE_THRESHOLD (rec_score r)) l.

(** A match of a standalone pattern is inside a result that passes the threshold. *)
Lemma standalone_hit text l re entity score i j :
  analyze analyzer text LANGUAGE = inr l → (re, entity, score) ∈ STANDALONE → matches_at re text i j → i < j →
  ∃ r a b, r ∈ hits l ∧ rec_entity_type r = entity ∧ matches_at re text a b ∧ a ≤ i < b ∧
    (rec_start r ≤ Z.of_nat a)%Z ∧ (Z.of_nat b ≤ rec_end r)%Z.
Proof.
  intros Ha Hst Hm Hij. destruct (finditer_complete re text i j) as (a & b & Hin & Hab); [by eapply standalone_consuming|done|].
  assert (∃ rc p, rc ∈ RECOGNIZERS ∧ p ∈ prc_patterns rc ∧ prc_supported_language rc = LANGUAGE ∧
      pat_regex p = re ∧ pat_score p = score ∧ prc_supported_entity rc = entity ∧
      f64_ltb f64_zero score = true ∧ f64_leb REDACT_SCORE_THRESHOLD score = true)
    as (rc & p & Hrc & Hp & Hlang & Hre & Hsc & Hent & Hpos & Hthr).
  { unfold STANDALONE in Hst. unfold RECOGNIZERS.
    set_unfold in Hst. destruct_or! Hst; injection Hst as -> -> ->.
    - eexists _, _. split; [by left|]. split; [by left|]. vm_compute; auto 10.
    - eexists _, _. split; [by right; left|]. split; [by left|]. vm_compute; auto 10.
    - eexists _, _. split; [by do 4 right; left|]. split; [by left|]. vm_compute; auto 10. }
  rewrite <- Hre in Hin, Hm. rewrite <- Hsc in Hpos, Hthr.
  destruct (analyze_complete _ _ _ _ rc p a b Ha Hrc Hp Hlang Hpos Hin) as (r & Hr & He & Hs & He' & Hup).
  exists r, a, b. split_and!; try done; try lia; [|congruence|].
  - apply list_elem_of_In, filter_In. split; [by apply list_elem_of_In|]. by apply Hup.
  - rewrite Hre in *. by apply finditer_sound in Hin as [? _].
Qed.

Lemma plus_not_digit text p : String.get p text = Some "+"%char → ¬ digit_at text p.
Proof. intros Hp (c & Hc & Hd). rewrite Hp in Hc. by simplify_eq. Qed.

(** The digits of a mobile number. *)
Lemma number_word text i j :
  digit_word text i j ∨ plus_word text i j →
  ∃ w, digit_word text w j ∧ (w = i ∨ (w = S i ∧ String.get i text = Some "+"%char)).
Proof. intros [H1|[H1 H2]]; [by exists i; auto|exists (S i); auto]. Qed.

(** Two mobile numbers one of which starts inside the other have the same digits. *)
Lemma number_same text i j a b w v :
  digit_word text w j → (w = i ∨ (w = S i ∧ String.get i text = Some "+"%char)) →
  digit_word text v b → (v = a ∨ (v = S a ∧ String.get a text = Some "+"%char)) →
  a ≤ i < b → w = v ∧ j = b.
Proof.
  intros Hw Hwi Hv Hva Hi.
  assert (Hsame : ∀ p, w ≤ p < j → v ≤ p < b → w = v ∧ j = b) by (intros; by eapply digit_word_unique).
  pose proof (dw_lt _ _ _ Hw). pose proof (dw_lt _ _ _ Hv).
  destruct Hwi as [->|[-> Hplus]].
  - destruct (decide (v ≤ i)); [by apply (Hsame i); lia|]. exfalso. destruct Hva as [->|[-> Hplus]]; [lia|].
    replace a with i in Hplus by lia. eapply plus_not_digit; [exact Hplus|]. apply (dw_digits _ _ _ Hw). lia.
  - destruct (decide (v ≤ i)).
    + exfalso. eapply plus_not_digit; [exact Hplus|]. apply (dw_digits _ _ _ Hv). lia.
    + apply (Hsame (S i)); lia.
Qed.

Lemma last_digit text e f :
  digit_word text e f ∨ plus_word text e f ∨ (dotted text e ∧ f = e + 20) → ∃ p, f = S p ∧ digit_at text p.
Proof.
  intros [Hw|[[_ Hw]|[Hd ->]]].
  - pose proof (dw_lt _ _ _ Hw). exists (f - 1). split; [lia|]. apply (dw_digits _ _ _ Hw). lia.
  - pose proof (dw_lt _ _ _ Hw). exists (f - 1). split; [lia|]. apply (dw_digits _ _ _ Hw). lia.
  - exists (e + 19). split; [lia|]. by apply dotted_digit.
Qed.

Definition meets (k : RecognizerResult) (i j : nat) : Prop :=
  (rec_start k < Z.of_nat j)%Z ∧ (Z.of_nat i < rec_end k)%Z.

(** A kept span that overlaps a hit of a standalone pattern meets the match itself. *)
Lemma hit_meets text re entity score (i j a b c d e f : nat) :
  (re, entity, score) ∈ STANDALONE → matches_at re text i j → i < j → matches_at re text a b → a ≤ i < b →
  known_span text entity c d → c ≤ a → b ≤ d →
  digit_word text e f ∨ plus_word text e f ∨ (dotted text e ∧ f = e + 20) →
  e < d → c < f → e < j ∧ i < f.
Proof.
  intros Hst Hm Hij Hm' Hai Hk Hca Hbd Hkept Hed Hcf.
  unfold STANDALONE in Hst. set_unfold in Hst. destruct_or! Hst; injection Hst as -> -> ->.
  - apply nik_word in Hm as [Hw ->], Hm' as [Hw' ->]. destruct (ks_nik _ _ _ _ Hk eq_refl) as [_ ->].
    destruct (digit_word_unique _ _ _ _ _ i Hw Hw'); lia.
  - apply npwp_dotted in Hm as [Hw ->], Hm' as [Hw' ->].
    destruct (ks_npwp _ _ _ _ Hk eq_refl) as [[Hd ->]| ->]; [|lia].
    pose proof (dotted_apart text a i Hw' Hw). pose proof (dotted_apart text c a Hd Hw'). lia.
  - apply hp_word, number_word in Hm as (w & Hw & Hwi), Hm' as (v & Hv & Hva).
    destruct (ks_hp _ _ _ _ Hk eq_refl) as [Hr|Hr]; [|].
    all: destruct (number_word text c d ltac:(auto)) as (u & Hu & Huc); clear Hr.
    all: destruct (number_same text i j a b w v Hw Hwi Hv Hva Hai) as [-> ->].
    all: pose proof (dw_lt _ _ _ Hv); pose proof (dw_lt _ _ _ Hu).
    all: destruct (number_same text a b c d v u Hv Hva Hu Huc ltac:(lia)) as [-> ->].
    all: split; [lia|]; destruct (decide (i < f)) as [|Hf]; [done|exfalso].
    all: apply last_digit in Hkept as (p & -> & Hp).
    all: destruct Huc as [->|[-> Hplus]]; [lia|].
    all: replace c with p in Hplus by lia; by eapply plus_not_digit.
Qed.

(** What a standalone pattern matches meets a kept span. *)
Lemma standalone_kept text l re entity score i j :
  analyze analyzer text LANGUAGE = inr l → (re, entity, score) ∈ STANDALONE → matches_at re text i j → i < j →
  ∃ k, k ∈ non_overlapping_results (hits l) ∧ meets k i j.
Proof.
  intros Ha Hst Hm Hij.
  destruct (standalone_hit _ _ _ _ _ _ _ Ha Hst Hm Hij) as (r & a & b & Hr & <- & Hm' & Hab & Hs & He).
  assert (Hspan : ∀ k, k ∈ hits l → ∃ c d, rec_start k = Z.of_nat c ∧ rec_end k = Z.of_nat d ∧ c < d ∧
            known_span text (rec_entity_type k) c d).
  { intros k Hk. apply list_elem_of_In, filter_In in Hk as [Hk%list_elem_of_In _]. by eapply analyzer_span. }
  pose proof (kept_spans_sound (hits l)) as (_ & _ & Hsub & Hcov).
  destruct (Hcov r Hr) as [Hk|(k & Hk & Ho)].
  - exists r. split; [done|]. unfold meets. lia.
  - exists k. split; [done|].
    destruct (Hspan r Hr) as (c & d & Hc & Hd & _ & Hknown), (Hspan k (Hsub k Hk)) as (e & f & He' & Hf & _ & Hkk).
    unfold overlaps in Ho. unfold meets.
    destruct (hit_meets text re (rec_entity_type r) score i j a b c d e f); try done; try lia. apply Hkk.
Qed.
End Cover.

(** ** Patterns away from their surroundings *)

(** A pattern without word boundaries inside, whose matches are numeric. *)
Definition numeric (c : ascii) : bool :=
  is_digit c || bool_decide (c = "."%char) || bool_decide (c = "-"%char) || bool_decide (c = "+"%char).

Fixpoint plain_numeric (r : regex) : Prop :=
  match r with
  | RChar p => ∀ c, p c = true → numeric c = true
  | REmpty => True
  | RSeq r1 r2 | RAlt r1 r2 => plain_numeric r1 ∧ plain_numeric r2
  | RStar r => plain_numeric r
  | RBoundary => False
  end.

Fixpoint all_chars (P : ascii → bool) (s : string) : Prop :=
  match s with "" => True | String c s' => P c = true ∧ all_chars P s' end.

Lemma all_chars_app P a b : all_chars P (a +:+ b) ↔ all_chars P a ∧ all_chars P b.
Proof.
  induction a as [|c a IH]; [cbn; tauto|].
  change (P c = true ∧ all_chars P (a +:+ b) ↔ (P c = true ∧ all_chars P a) ∧ all_chars P b). tauto.
Qed.

(** Such a match can be moved into any other text. *)
Lemma plain_numeric_moves r p s p' s' :
  matches r p s p' s' → plain_numeric r →
  ∃ m, s = m +:+ s' ∧ all_chars numeric m ∧ ∀ q t, matches r q (m +:+ t) (after q m) t.
Proof.
  induction 1; cbn; intros Hr; try done.
  - exists (String c ""). cbn. split_and!; [done|auto|done|]. intros q t. by constructor.
  - exists "". split_and!; [done|done|]. intros q t. constructor.
  - destruct (IHmatches1 ltac:(tauto)) as (m1 & -> & Hm1 & Ht1), (IHmatches2 ltac:(tauto)) as (m2 & -> & Hm2 & Ht2).
    exists (m1 +:+ m2). rewrite str_app_assoc. split_and!; [done|by apply all_chars_app|].
    intros q t. rewrite str_app_assoc, after_app. econstructor; [apply Ht1|apply Ht2].
  - destruct (IHmatches ltac:(tauto)) as (m & -> & Hm & Ht). exists m. split_and!; [done|done|].
    intros q t. by apply matches_alt_l.
  - destruct (IHmatches ltac:(tauto)) as (m & -> & Hm & Ht). exists m. split_and!; [done|done|].
    intros q t. by apply matches_alt_r.
  - exists "". split_and!; [done|done|]. intros q t. constructor.
  - destruct (IHmatches1 Hr) as (m1 & -> & Hm1 & Ht1), (IHmatches2 Hr) as (m2 & -> & Hm2 & Ht2).
    exists (m1 +:+ m2). rewrite str_app_assoc. split_and!; [done|by apply all_chars_app|].
    intros q t. rewrite str_app_assoc, after_app. econstructor; [apply Ht1|apply Ht2].
Qed.

Lemma standalone_plain re entity score :
  (re, entity, score) ∈ STANDALONE → ∃ r, re = delimited r ∧ plain_numeric r.
Proof.
  assert (Hchr : ∀ c, numeric c = true → plain_numeric (RChr c)).
  { intros c Hc d Hd. by apply bool_decide_eq_true in Hd as ->. }
  assert (Hdig : plain_numeric RDigit).
  { intros c Hc. unfold numeric. by rewrite Hc. }
  assert (Hrange : plain_numeric (RChar (in_range 49 57))).
  { intros c Hc%in_range_digit. unfold numeric. by rewrite Hc. }
  unfold STANDALONE. intros H. set_unfold in H. destruct_or! H; injection H as -> -> ->;
    (eexists; split; [reflexivity|]); cbn -[RDigit RChr in_range]; split_and!; auto.
Qed.

Lemma app_split (a b c d : string) :
  a +:+ b = c +:+ d → (∃ e, a = c +:+ e ∧ d = e +:+ b) ∨ (∃ e, e ≠ "" ∧ c = a +:+ e ∧ b = e +:+ d).
Proof.
  revert c. induction a as [|x a IH]; intros [|y c] H.
  - left. by exists "".
  - right. exists (String y c). split_and!; [done|done|exact H].
  - left. exists (String x a). split; [done|]. symmetry. exact H.
  - injection H as -> H. destruct (IH c H) as [(e & -> & ->)|(e & He & -> & ->)]; [left|right]; by exists e.
Qed.

Lemma after_nonempty o o' u : u ≠ "" → after o u = after o' u.
Proof. by destruct u. Qed.

Lemma after_words o u : u ≠ "" → all_chars is_word u → word_opt (after o u) = true.
Proof.
  revert o. induction u as [|c u IH]; intros o Hne Hu; [done|]. destruct Hu as [Hc Hu].
  destruct u as [|d u]; [done|]. by apply (IH (Some c)).
Qed.

(** A replacement value: a word that does not begin like a number, between two
    characters that neither words nor numbers contain. *)
Definition hole_ok (h : string) : Prop :=
  ∃ o x body c, h = String o (String x body +:+ String c "") ∧
    is_word o = false ∧ numeric o = false ∧ is_word c = false ∧ numeric c = false ∧
    numeric x = false ∧ all_chars is_word (String x body).

Lemma render_rest_head text l c s :
  Forall (fun h => hole_ok h.1) l → render_rest text l = String c s → is_word c = false ∧ numeric c = false.
Proof.
  intros Hl Heq. destruct l as [|[h ab] l]; [done|]. apply Forall_cons in Hl as [(o & x & body & d & Hh & Ho & Hn & _) _].
  cbn in Hh. subst h. cbn in Heq. injection Heq as <- _. done.
Qed.

(** A numeric match of a text with holes lies in one of its pieces, and what is
    next to it there is a word character exactly when it is one in the piece. *)
Lemma match_in_piece text l A o pre m post :
  Forall (fun h => hole_ok h.1) l → A +:+ render_rest text l = pre +:+ m +:+ post → word_opt o = false →
  m ≠ "" → all_chars numeric m → boundary (after o pre) (m +:+ post) = true →
  ∃ P u v, (P = A ∨ ∃ h ab, (h, ab) ∈ l ∧ P = piece text ab) ∧ P = u +:+ m +:+ v ∧
    word_opt (after o pre) = word_opt (after None u) ∧
    word_opt (String.get 0 post) = word_opt (String.get 0 v).
Proof.
  revert A o pre. induction l as [|[h ab] l IH]; intros A o pre Hl Heq Ho Hne Hnum Hb;
    destruct (app_split _ _ _ _ Heq) as [(e & -> & He)|(e & Hene & -> & He)].
  all: assert (Hctx : ∀ u, word_opt (after o u) = word_opt (after None u)) by (intros [|x u]; [exact Ho|done]).
  - (* the last piece *)
    exists (pre +:+ e), pre, post. cbn in He. rewrite str_app_nil_r in He. subst e.
    split_and!; [by left|done|apply Hctx|done].
  - exfalso. cbn in He. destruct e; [done|]. done.
  - symmetry in He. destruct (app_split _ _ _ _ He) as [(e' & -> & Hr)|(e' & He' & -> & Hr)].
    + exists (pre +:+ m +:+ e'), pre, e'. split_and!; [by left|done|apply Hctx|]. rewrite Hr.
      destruct e' as [|x e']; [|done]. change ("" +:+ ?s) with s.
      destruct (render_rest text ((h, ab) :: l)) as [|x s] eqn:Ht; [done|].
      destruct (render_rest_head text _ _ _ Hl Ht) as [Hx _]. cbn. exact Hx.
    + exfalso. destruct e' as [|x e']; [done|].
      destruct (render_rest_head text _ _ _ Hl Hr) as [_ Hx]. apply all_chars_app in Hnum as [_ [Hnum _]]. congruence.
  - apply Forall_cons in Hl as [(oc & x & body & cc & Hh & Ho1 & Ho2 & Hc1 & Hc2 & Hx & Hbody) Hl]. cbn in Hh. subst h.
    destruct e as [|oc' e]; [done|].
    cbn [render_rest] in He. rewrite <- str_app_assoc in He.
    change (String oc ((String x body +:+ String cc "") +:+ piece text ab) +:+ render_rest text l)
      with (String oc (((String x body +:+ String cc "") +:+ piece text ab) +:+ render_rest text l)) in He.
    injection He as <- He. rewrite !str_app_assoc in He.
    destruct (app_split _ _ _ _ He) as [(f & Hbe & Hm)|(g & Hg & -> & Hm)].
    + (* it would start inside the value *)
      exfalso. destruct m as [|y m]; [done|]. destruct Hnum as [Hy Hnum]. destruct f as [|z f].
      { change ("" +:+ ?s) with s in Hm. injection Hm as -> _. congruence. }
      injection Hm as <- _. rewrite after_app in Hb.
      assert (Hwy : is_word y = true).
      { rewrite Hbe in Hbody. apply all_chars_app in Hbody as [_ [Hwy _]]. exact Hwy. }
      rewrite boundary_word in Hb.
      change (word_opt (String.get 0 (String y m +:+ post))) with (is_word y) in Hb. rewrite Hwy in Hb. cbn [after] in Hb.
      destruct e as [|w e].
      * injection Hbe as -> _. congruence.
      * rewrite Hbe in Hbody. apply all_chars_app in Hbody as [Hwe _].
        rewrite (after_words (Some oc) (String w e)) in Hb by done. done.
    + destruct g as [|cc' g]; [done|]. injection Hm as <- Hm.
      assert (Hpre : after o (A +:+ String oc (String x body +:+ String cc g)) = after (Some cc) g).
      { rewrite after_app. cbn [after]. by rewrite after_app. }
      rewrite Hpre in *.
      destruct (IH (piece text ab) (Some cc) g Hl Hm Hc1 Hne Hnum Hb) as (P & u & v & HP & Heq' & Hl' & Hr').
      exists P, u, v. split_and!; try done. right.
      destruct HP as [->|(h & ab' & Hin & ->)]; [eexists _, ab; split; [by left|done]|].
      exists h, ab'. split; [by right|done].
Qed.

Lemma piece_split text a b :
  a ≤ b ≤ String.length text → text = str_take a text +:+ piece text (a, b) +:+ str_drop b text.
Proof.
  intros Hab. unfold piece. cbn.
  pose proof (take_split a b (String.length text) text) as Hs. rewrite (take_all (String.length text) text) in Hs by done.
  symmetry. apply Hs; lia.
Qed.

Lemma length_piece text a b : a ≤ b ≤ String.length text → String.length (piece text (a, b)) = b - a.
Proof. intros Hab. unfold piece. cbn. apply take_length. rewrite drop_length. lia. Qed.

Lemma delimited_spec r p s p' s' :
  matches (delimited r) p s p' s' ↔ boundary p s = true ∧ matches r p s p' s' ∧ boundary p' s' = true.
Proof.
  unfold delimited. split.
  - intros Hm. inversion Hm as [| |? ? ? ? p1 s1 ? ? Hb Hm'| | | | |]; subst. inversion Hb; subst.
    inversion Hm' as [| |? ? ? ? p2 s2 ? ? Hm'' Hb'| | | | |]; subst. inversion Hb'; subst. done.
  - intros (Hb & Hm & Hb'). econstructor; [by constructor|]. econstructor; [done|by constructor].
Qed.

Lemma head_app (a b : string) : a ≠ "" → String.get 0 (a +:+ b) = String.get 0 a.
Proof. by destruct a. Qed.

Section Survive.
  Context `{PresidioLaws}.

(** The spans kept by the analyzer begin and end at word boundaries. *)
Lemma kept_edges text l r :
  analyze analyzer text LANGUAGE = inr l → r ∈ non_overlapping_results (hits l) →
  (∀ n, rec_start r = Z.of_nat n → edge text n = true) ∧ (∀ n, rec_end r = Z.of_nat n → edge text n = true).
Proof.
  intros Ha Hr. destruct (kept_spans_sound (hits l)) as (_ & _ & Hsub & _). apply Hsub in Hr.
  apply list_elem_of_In, filter_In in Hr as [Hr%list_elem_of_In _].
  destruct (analyzer_span _ _ _ Ha Hr) as (i & j & Hi & Hj & _ & Hk).
  split; intros n Hn; [replace n with i by lia|replace n with j by lia]; apply Hk.
Qed.

(** A numeric match delimited in the masked text is delimited in the original. *)
Lemma piece_match text l r a b u m v wl wr :
  analyze analyzer text LANGUAGE = inr l → gap text (non_overlapping_results (hits l)) (a, b) →
  piece text (a, b) = u +:+ m +:+ v → m ≠ "" → (∀ q t, matches r q (m +:+ t) (after q m) t) →
  wl = word_opt (after None u) → wr = word_opt (String.get 0 v) →
  xorb wl (word_opt (String.get 0 m)) = true → xorb (word_opt (after None m)) wr = true →
  matches_at (delimited r) text (a + String.length u) (a + String.length u + String.length m).
Proof.
  intros Ha [Hle Hfrom Hto _] Hp Hne Hmove -> -> Hl Hr. cbn [fst snd] in *.
  pose proof (piece_split text a b Hle) as Ht. rewrite Hp in Ht.
  set (A := str_take a text) in *. set (B := str_drop b text) in *.
  assert (HA : String.length A = a) by (apply take_length; lia).
  assert (HB : b = String.length text → B = "") by (intros ->; unfold B; by rewrite <- (str_app_nil_r text) at 2; rewrite drop_app).
  assert (HlenP : String.length (u +:+ m +:+ v) = b - a) by (rewrite <- Hp; by apply length_piece).
  assert (Hea : edge text a = xorb (word_opt (after None A)) (word_opt (String.get 0 ((u +:+ m +:+ v) +:+ B)))).
  { rewrite <- HA. rewrite Ht at 1. by rewrite edge_app, boundary_word. }
  assert (Heb : edge text b = xorb (word_opt (after None (A +:+ u +:+ m +:+ v))) (word_opt (String.get 0 B))).
  { assert (b = String.length (A +:+ u +:+ m +:+ v)) as Hb' by (rewrite str_length_app; lia).
    rewrite Hb' at 1. rewrite Ht at 1. by rewrite <- str_app_assoc, edge_app, boundary_word. }
  clearbody A B.
  exists (A +:+ u), m, (v +:+ B), (after None (A +:+ u +:+ m)). split_and!.
  - rewrite Ht at 1. by rewrite !str_app_assoc.
  - by rewrite str_length_app, HA.
  - done.
  - apply delimited_spec. split_and!.
    + rewrite boundary_word, head_app by done. destruct u as [|x u].
      * cbn in Hl. rewrite str_app_nil_r. destruct Hfrom as [Ha0|(r' & Hr' & He)].
        { destruct A; [done|cbn in HA; lia]. }
        apply (kept_edges _ _ _ Ha) in Hr' as [_ Hedge]. specialize (Hedge a He). rewrite Hea in Hedge.
        change ("" +:+ m +:+ v) with (m +:+ v) in Hedge. by rewrite str_app_assoc, head_app in Hedge.
      * by rewrite after_app, (after_nonempty _ None).
    + rewrite <- (str_app_assoc A u m), (after_app None (A +:+ u) m). apply Hmove.
    + rewrite boundary_word, <- (str_app_assoc A u m), after_app, (after_nonempty _ None) by done.
      destruct v as [|x v]; [|exact Hr]. change ("" +:+ B) with B.
      destruct Hto as [Hb|(r' & Hr' & Hs)]; [by rewrite HB|].
      apply (kept_edges _ _ _ Ha) in Hr' as [Hedge _]. specialize (Hedge b Hs). rewrite Heb, str_app_nil_r in Hedge.
      by rewrite <- str_app_assoc, after_app, (after_nonempty _ None) in Hedge.
Qed.

(** No standalone pattern matches a text whose kept spans have been replaced. *)
Lemma nothing_survives text l value sp re entity score :
  analyze analyzer text LANGUAGE = inr l →
  spliced text (non_overlapping_results (hits l)) value sp → (∀ h, value h → hole_ok h) →
  (re, entity, score) ∈ STANDALONE → re_test re (render_splice text sp) = false.
Proof.
  intros Ha [Hfirst Hrest] Hval Hst. destruct (re_test _ _) eqn:Htest; [exfalso|done].
  pose proof (standalone_consuming _ _ _ Hst) as Hcons.
  destruct (standalone_plain _ _ _ Hst) as (r & -> & Hplain).
  apply re_test_spec in Htest as (pre & m & post & p' & Heq & Hm).
  assert (Hne : m ≠ "") by (intros ->; apply Hcons in Hm; change ("" +:+ post) with post in Hm; lia).
  apply delimited_spec in Hm as (Hb & Hm & Hb').
  destruct (plain_numeric_moves _ _ _ _ _ Hm Hplain) as (m' & Hm' & Hnum & Hmove).
  apply str_app_inj_r in Hm' as <-. destruct (matches_consumes _ _ _ _ _ Hm) as (m' & Hm' & ->).
  apply str_app_inj_r in Hm' as <-.
  destruct (match_in_piece text sp.2 (piece text sp.1) None pre m post) as (P & u & v & HP & Hs & Hl & Hr); try done.
  { eapply Forall_impl; [exact Hrest|]. intros h [Hh _]. by apply Hval. }
  assert (∃ ab, P = piece text ab ∧ gap text (non_overlapping_results (hits l)) ab) as ([a b] & -> & Hgap).
  { destruct HP as [->|(h & ab & Hin & ->)]; [by exists sp.1|]. exists ab. split; [done|].
    rewrite Forall_forall in Hrest. by apply (Hrest _ Hin). }
  rewrite boundary_word in Hb, Hb'. rewrite head_app in Hb by done.
  rewrite (after_nonempty _ None) in Hb' by done.
  assert (Hat := piece_match text l r a b u m v _ _ Ha Hgap Hs Hne Hmove Hl Hr Hb Hb').
  assert (Hlt : String.length m > 0) by (destruct m; [done|cbn; lia]).
  destruct (standalone_kept _ _ _ _ _ _ _ Ha Hst Hat) as (k & Hk & Hmeet); [lia|].
  apply (f_equal String.length) in Hs. rewrite length_piece, !str_length_app in Hs by apply Hgap.
  pose proof (gap_le _ _ _ Hgap). cbn in *.
  destruct (gap_apart _ _ _ Hgap k Hk); unfold meets in Hmeet; cbn in *; lia.
Qed.
End Survive.

(** ** The two maskings as splices *)

Lemma all_digit_chars n : (0 ≤ n)%Z → all_chars is_digit (Z_to_string n).
Proof.
  intros Hn. unfold Z_to_string.
  assert (Hd : ∀ d, all_chars is_digit (DecimalString.NilEmpty.string_of_uint d)) by (by induction d).
  destruct n as [|p|p]; [done|cbn|lia].
  unfold DecimalString.NilZero.string_of_uint. destruct (Pos.to_uint p) eqn:E; try apply Hd. done.
Qed.

Lemma all_chars_impl (P Q : ascii → bool) s :
  (∀ c, P c = true → Q c = true) → all_chars P s → all_chars Q s.
Proof. intros HPQ. induction s as [|c s IH]; cbn; [done|]. intros [Hc Hs]. auto. Qed.

(** A name that is a word and does not begin like a number. *)
Definition word_name (s : string) : Prop :=
  match s with "" => False | String x _ => numeric x = false ∧ all_chars is_word s end.

Lemma placeholder_hole name n : word_name name → (0 ≤ n)%Z → hole_ok (placeholder name n).
Proof.
  intros Hname Hn. destruct name as [|x body]; [done|]. destruct Hname as [Hx [Hwx Hbody]].
  exists "["%char, x, (body +:+ "_" +:+ Z_to_string n), "]"%char. split_and!; try done.
  - unfold placeholder.
    change (String x (body +:+ "_" +:+ Z_to_string n)) with (String x body +:+ "_" +:+ Z_to_string n).
    by rewrite !str_app_assoc.
  - split; [done|]. rewrite !all_chars_app. split_and!; [done|done|].
    eapply all_chars_impl; [apply digit_is_word|by apply all_digit_chars].
Qed.

Lemma replacement_hole name : word_name name → hole_ok ("<" +:+ name +:+ ">").
Proof.
  intros Hname. destruct name as [|x body]; [done|]. destruct Hname as [Hx Hw].
  exists "<"%char, x, body, ">"%char. split_and!; try done.
Qed.

#[local] Arguments count_of : simpl never.
#[local] Arguments bump : simpl never.

(** The state of the masking loop: the text as far as the next span, then holes. *)
Record punched (text : string) (acc : Redaction) (vr : list (string * RecognizerResult)) : Prop := {
  pn_out : rdc_out acc =
    str_take (match vr with [] => String.length text | (_, r) :: _ => Z.to_nat (rec_start r) end) text
    +:+ render_rest text (holes_of text vr);
  pn_holes : Forall (fun v => hole_ok v.1) vr;
  pn_counts name : (0 ≤ count_of name (rdc_counters acc))%Z
}.

Lemma drop_take a b (s : string) : str_drop a (str_take b s) = str_take (b - a) (str_drop a s).
Proof.
  revert a b. induction s as [|c s IH]; intros [|a] [|b]; try done; [by destruct (S b - S a)|].
  cbn [str_take str_drop Nat.sub]. apply IH.
Qed.

Lemma punched_step text acc vr r :
  punched text acc vr → in_text text r →
  (match vr with [] => True | (_, r') :: _ => in_text text r' ∧ in_order r r' end) →
  word_name (str_removeprefix (rec_entity_type r) "ID_") →
  ∃ v, punched text (redact_one text acc r) ((v, r) :: vr).
Proof.
  intros [Hout Hholes Hcnt] Hr Hnext Hname. unfold in_text, in_order, slen in *.
  set (name := str_removeprefix (rec_entity_type r) "ID_") in *.
  set (m := match vr with [] => String.length text | (_, r') :: _ => Z.to_nat (rec_start r') end) in *.
  assert (Z.to_nat (rec_end r) ≤ m ≤ String.length text) as [Hem Hm] by (unfold m; destruct vr as [|[v r'] vr]; lia).
  set (s := Z.to_nat (rec_start r)). set (e := Z.to_nat (rec_end r)) in *. assert (s < e) by lia.
  assert (Hlen : String.length (str_take m text) = m) by (by apply take_length).
  assert (Hcount : from_option id 0%Z (dict_get name (bump name (rdc_counters acc)))
                   = (count_of name (rdc_counters acc) + 1)%Z).
  { pose proof (count_of_bump name name (rdc_counters acc)) as Hc. rewrite String.eqb_refl in Hc. exact Hc. }
  exists (placeholder name (count_of name (rdc_counters acc) + 1)). split.
  - unfold redact_one. fold name. cbn [rdc_out]. rewrite Hcount, Hout. cbn [holes_of render_rest]. fold s e m.
    unfold str_slice at 1. rewrite Z2Nat.inj_0, Nat.sub_0_r. fold s. change (str_drop 0 ?x) with x.
    rewrite take_app_le by lia. rewrite take_take by lia. do 2 f_equal.
    unfold str_slice. fold e. rewrite drop_app_le by lia. rewrite take_all.
    + f_equal. unfold piece. cbn [fst snd]. apply drop_take.
    + unfold slen. rewrite Nat2Z.id, !str_length_app, Hlen. rewrite drop_length, Hlen. lia.
  - constructor; [|done]. cbn. apply placeholder_hole; [done|]. specialize (Hcnt name). lia.
  - intros k. cbn. rewrite count_of_bump. specialize (Hcnt k). clear Hnext. case_match; lia.
Qed.

Lemma punched_all text d acc vr :
  punched text acc vr → Forall (in_text text) (reverse d ++ vr.*2) → ordered in_order (reverse d ++ vr.*2) →
  (∀ r, r ∈ d → word_name (str_removeprefix (rec_entity_type r) "ID_")) →
  ∃ vr', punched text (fold_left (redact_one text) d acc) vr' ∧ vr'.*2 = reverse d ++ vr.*2.
Proof.
  revert acc vr. induction d as [|r d IH]; intros acc vr Hp Hin Hord Hname; cbn [fold_left]; [by exists vr|].
  rewrite reverse_cons, <- app_assoc in *. cbn [app] in *.
  destruct (punched_step text acc vr r Hp) as [v Hp'].
  - rewrite Forall_forall in Hin. apply Hin, elem_of_app. right. by left.
  - destruct vr as [|[w r'] vr]; [done|]. apply ordered_app in Hord as (_ & [Hr _] & _). cbn in Hr.
    rewrite Forall_forall in Hin, Hr. split; [apply Hin, elem_of_app; right; by right; left|apply Hr; by left].
  - apply Hname. by left.
  - apply (IH _ ((v, r) :: vr)); try done. intros q Hq. apply Hname. by right.
Qed.

Lemma ordered_reverse {A} (R : A → A → Prop) l : ordered R l → ordered (flip R) (reverse l).
Proof.
  induction l as [|x l IH]; intros Hl; [done|]. destruct Hl as [Hx Hl]. rewrite reverse_cons.
  apply ordered_snoc; [by apply IH|]. rewrite Forall_forall in *. intros y Hy. rewrite elem_of_reverse in Hy. exact (Hx y Hy).
Qed.

Lemma gap_proper text spans spans' ab : (∀ r, r ∈ spans ↔ r ∈ spans') → gap text spans ab → gap text spans' ab.
Proof.
  intros Heq [Hle Hfrom Hto Hap]. split; [done| | |].
  - destruct Hfrom as [?|(r & Hr & ?)]; [by left|right; exists r; by rewrite <- Heq].
  - destruct Hto as [?|(r & Hr & ?)]; [by left|right; exists r; by rewrite <- Heq].
  - intros r Hr. apply Hap. by apply Heq.
Qed.

Lemma spliced_proper text spans spans' value sp :
  (∀ r, r ∈ spans ↔ r ∈ spans') → spliced text spans value sp → spliced text spans' value sp.
Proof.
  intros Heq [Hf Hr]. split; [by eapply gap_proper|]. eapply Forall_impl; [exact Hr|].
  intros h [? ?]. split; [done|by eapply gap_proper].
Qed.

Section Masking.
  Context `{PresidioLaws}.

Lemma kept_in_text text l : analyze analyzer text LANGUAGE = inr l → Forall (in_text text) (non_overlapping_results (hits l)).
Proof.
  intros Ha. apply Forall_forall. intros r Hr.
  destruct (kept_spans_sound (hits l)) as (_ & _ & Hsub & _). apply Hsub in Hr.
  apply list_elem_of_In, filter_In in Hr as [Hr%list_elem_of_In _].
  eapply Forall_forall in Hr; [|by eapply analyze_spans]. exact Hr.
Qed.

(** Kept spans sorted by their start are in order. *)
Lemma disjoint_in_order text l a b :
  Forall (in_text text) l → a ∈ l → b ∈ l → (rec_start a ≤ rec_start b)%Z → disjoint_spans a b → in_order a b.
Proof.
  rewrite Forall_forall. intros Hin Ha Hb Hle Hd. specialize (Hin a Ha) as Hia. specialize (Hin b Hb).
  unfold in_text, in_order, disjoint_spans, overlaps in *. lia.
Qed.

Lemma kept_in_order text l :
  analyze analyzer text LANGUAGE = inr l → ordered in_order (non_overlapping_results (hits l)).
Proof.
  intros Ha. pose proof (kept_in_text _ _ Ha) as Hin.
  destruct (kept_spans_sound (hits l)) as (Hdis & Hsort & _).
  eapply ordered_impl; [|apply ordered_and; [exact Hsort|exact Hdis]].
  intros a b Hia Hib [Hle Hd]. by eapply disjoint_in_order.
Qed.

Lemma analyzer_words text l r :
  analyze analyzer text LANGUAGE = inr l → r ∈ l →
  word_name (rec_entity_type r) ∧ word_name (str_removeprefix (rec_entity_type r) "ID_").
Proof.
  intros Ha Hr. destruct (analyze_sound _ _ _ _ _ Ha Hr) as (rc & p & i & j & Hrc & _ & -> & _).
  cbn in Hrc. set_unfold in Hrc. destruct_or! Hrc; subst rc; vm_compute; auto 50.
Qed.

Lemma kept_words text l r :
  analyze analyzer text LANGUAGE = inr l → r ∈ non_overlapping_results (hits l) →
  word_name (rec_entity_type r) ∧ word_name (str_removeprefix (rec_entity_type r) "ID_").
Proof.
  intros Ha Hr. destruct (kept_spans_sound (hits l)) as (_ & _ & Hsub & _). apply Hsub in Hr.
  apply list_elem_of_In, filter_In in Hr as [Hr%list_elem_of_In _]. by eapply analyzer_words.
Qed.

Lemma detected_hits {S} text (s s' : S) kept :
  detected text s = (s', inr kept) →
  ∃ l, analyze analyzer text LANGUAGE = inr l ∧ kept = non_overlapping_results (hits l) ∧ s' = s.
Proof.
  unfold detected. destruct (analyze analyzer text LANGUAGE) as [e|l] eqn:Ha; [done|]. intros [= <- <-]. by exists l.
Qed.

Lemma redact_spliced {S} text (s s' : S) out mapping event :
  redact_input_pii text s = (s', inr (out, mapping, event)) →
  ∃ l sp, analyze analyzer text LANGUAGE = inr l ∧ out = render_splice text sp ∧
    spliced text (non_overlapping_results (hits l)) hole_ok sp.
Proof.
  unfold redact_input_pii, bind. destruct (detected text s) as [s1 [e|kept]] eqn:Hd; [done|].
  apply detected_hits in Hd as (l & Ha & -> & ->). intros Hrun. exists l.
  set (kept := non_overlapping_results (hits l)) in *. set (desc := sort_by start_ge kept).
  assert (Hout : out = rdc_out (fold_left (redact_one text) desc (MkRedaction [] [] text []))).
  { unfold desc. destruct kept; [by injection Hrun as _ <-|by injection Hrun as _ <-]. }
  pose proof (kept_in_text _ _ Ha) as Hin. fold kept in Hin.
  destruct (kept_spans_sound (hits l)) as (Hdis & _). fold kept in Hdis.
  assert (Hperm : ∀ r, r ∈ reverse desc ↔ r ∈ kept).
  { intros r. rewrite elem_of_reverse. unfold desc. by rewrite (sort_by_perm start_ge). }
  assert (Hin' : Forall (in_text text) (reverse desc)).
  { rewrite Forall_forall in *. intros r Hr%Hperm. auto. }
  assert (Hord : ordered in_order (reverse desc)).
  { apply (ordered_reverse (flip in_order)). unfold desc. eapply ordered_impl; cycle 1.
    - apply ordered_and; [apply (ordered_sort start_ge)|]; [unfold start_ge; intros; lia..|].
      apply (ordered_sort_sym _ start_ge), Hdis. apply disjoint_spans_sym.
    - intros a b Ha' Hb' [Hle Ho]. rewrite (sort_by_perm start_ge) in Ha', Hb'. unfold start_ge in Hle.
      eapply disjoint_in_order; [exact Hin|done|done|lia|by apply disjoint_spans_sym]. }
  destruct (punched_all text desc (MkRedaction [] [] text []) []) as (vr & [Hvr Hholes _] & Heq).
  - split; cbn; [by rewrite take_all, str_app_nil_r|constructor|done].
  - by rewrite app_nil_r.
  - by rewrite app_nil_r.
  - intros r Hr. apply (kept_words _ _ _ Ha), Hperm. by apply elem_of_reverse.
  - cbn in Heq. rewrite app_nil_r in Heq. eexists. split; [done|]. split; cycle 1.
    + eapply (spliced_proper _ _ _ _ _ Hperm). rewrite <- Heq.
      apply holes_of_spliced; [by rewrite Heq..|exact Hholes].
    + rewrite Hout, Hvr. unfold render_splice. cbn [fst snd]. f_equal. unfold piece. cbn. by rewrite Nat.sub_0_r.
Qed.

(** Every operator of the output guardrail is its entity between angle brackets. *)
Lemma operators_values results ops k h :
  (∀ k h, dict_get k ops = Some h → h = "<" +:+ k +:+ ">") →
  dict_get k (fold_left (fun ops r => dict_set (rec_entity_type r) ("<" +:+ rec_entity_type r +:+ ">") ops) results ops)
    = Some h → h = "<" +:+ k +:+ ">".
Proof.
  revert ops. induction results as [|r results IH]; intros ops Hops; cbn; [auto|]. apply IH.
  intros k' h'. destruct (String.eqb k' (rec_entity_type r)) eqn:E.
  - apply String.eqb_eq in E as ->. rewrite dict_get_set_eq. by intros [= <-].
  - apply String.eqb_neq in E. rewrite dict_get_set_ne by done. apply Hops.
Qed.

Lemma scan_spliced {S} text (s s' : S) out event :
  scan_output_pii text s = (s', inr (out, event)) →
  ∃ l sp value, analyze analyzer text LANGUAGE = inr l ∧ out = render_splice text sp ∧
    spliced text (non_overlapping_results (hits l)) value sp ∧ (∀ h, value h → hole_ok h).
Proof.
  unfold scan_output_pii, bind. destruct (detected text s) as [s1 [e|kept]] eqn:Hd; [done|].
  apply detected_hits in Hd as (l & Ha & -> & ->). intros Hrun. exists l.
  pose proof (kept_in_text _ _ Ha) as Hin. pose proof (kept_in_order _ _ Ha) as Hord.
  destruct (non_overlapping_results (hits l)) as [|k ks] eqn:Hk.
  - injection Hrun as _ <- _. exists ((0, String.length text), []), hole_ok. split_and!; [done| | |done].
    + unfold render_splice, piece. cbn. by rewrite Nat.sub_0_r, take_all, str_app_nil_r.
    + apply (holes_of_spliced text hole_ok []); [constructor|done|constructor].
  - rewrite <- Hk in *.
    destruct (anonymize _ _ _) as [e|anonymized] eqn:Han; [done|]. injection Hrun as _ <- _.
    destruct (anonymize_splices _ _ _ _ Han Hin Hord) as (sp & -> & Hsp). eexists sp, _. split_and!; [done|done|exact Hsp|].
    intros h (r & Hr & Hop). apply operators_values in Hop as ->; [|done].
    apply replacement_hole. by eapply kept_words.
Qed.

Lemma standalone_each (P : regex → Prop) :
  (∀ re entity score, (re, entity, score) ∈ STANDALONE → P re) → P NIK_RE ∧ P NPWP_DOTTED_RE ∧ P NO_HP_RE.
Proof.
  intros HP. split_and!; eapply HP; [by left|by right; left|by right; right; left].
Qed.


(** What the run-time guard finds and what the evaluation's detector finds agree:
    the two services' copies of the recognizers are the same. *)
Lemma detectors_agree {S} text (s : S) :
  (∃ found, detect_pii text s = (s, inr found) ∧ found ≠ []) ↔
  (∃ kept, detected text s = (s, inr kept) ∧ kept ≠ []).
Proof.
  unfold detect_pii, detected. change (analyze eval_analyzer text EVAL_LANGUAGE) with (analyze analyzer text LANGUAGE).
  destruct (analyze analyzer text LANGUAGE) as [e|l]; [split; intros (? & ? & ?); done|].
  change (List.filter (fun r => f64_leb EVAL_REDACT_SCORE_THRESHOLD (rec_score r)) l) with (hits l).
  change (List.filter (fun r => f64_leb REDACT_SCORE_THRESHOLD (rec_score r)) l) with (hits l).
  pose proof (kept_spans_sound (hits l)) as (_ & _ & Hsub & Hcov). split.
  - intros (found & [= <-] & Hne). eexists. split; [done|]. intros Hnil. destruct (hits l) as [|r rs]; [done|].
    rewrite Hnil in Hcov. destruct (Hcov r ltac:(by left)) as [[]%elem_of_nil|(k & []%elem_of_nil & _)].
  - intros (kept & [= <-] & Hne). eexists. split; [done|]. intros Hnil%fmap_nil_inv. by rewrite Hnil in Hne.
Qed.
End Masking.

(** The theorem on a text with one number of each kind, for the plain Presidio. *)
Module Witness.
#[local] Existing Instance plain_presidio.

Definition message := "NIK 3174012345678901, NPWP 12.345.678.9-012.345, HP 081234567890".


(** The international prefix is only recognized right after a word: elsewhere its
    plus sign stays outside the mask. *)
Example plus_sign_stays :
  (∃ mapping event, redact_input_pii "HP +6281234567890" tt = (tt, inr ("HP +[NO_HP_1]", mapping, event))) ∧
  re_test (RSeq (RChr "+") (RLit "[NO_HP_1]")) "HP +[NO_HP_1]" = true.
Proof. split; [eexists _, _; vm_compute; reflexivity|vm_compute; reflexivity]. Qed.
End Witness.
