(* ===== verification/SemCache.v ===== *)
(** The state of a run (graph/state.py) and the semantic cache of agent-harness
    ([harness/cache]): namespace, query normalisation, the RediSearch store and
    the write-eligibility gate.

    RediSearch is a parameter: a KNN query under a tag filter, a tag query, and
    the hash writes; the store builds the filters and keys. *)
From S2P Require Import Prelude PyStr Json Http Contracts Wire Clients Authz Executor Guardrails.

(** ** graph/state.py *)

(* @ harness/graph/state.py:19-24 RetrievedChunkState *)
Record RetrievedChunkState := MkRetrievedChunkState {
  rcs_chunk_id : string;
  rcs_document_id : string;
  rcs_content : string;
  rcs_source_uri : string;
  rcs_score : float64
}.
#[export] Instance eta_RetrievedChunkState : EtaRec RetrievedChunkState := fun x =>
  MkRetrievedChunkState (rcs_chunk_id x) (rcs_document_id x) (rcs_content x) (rcs_source_uri x)
    (rcs_score x).

(* @ harness/graph/state.py:36-104 AgentState *)
Record AgentState := MkAgentState {
  st_trace_id : string;
  st_tenant_id : string;
  st_user_id : string;
  st_agent_id : string;
  st_acl_group_ids : list string;
  st_employee_id : option string;
  st_permissions : list string;
  st_roles : list string;
  st_scope_context : pydict;
  st_subject_token : option string;
  st_allow_mutations : bool;
  st_input_text : string;
  st_model_alias : string;
  st_model_router_key_override : option string;
  st_allowed_tools : list string;
  st_scope_constraints : list (string * ScopeConstraint);
  st_authz_denials : list Denial;
  st_authz_decision_records : list AuthzDecisionRecord;
  st_retrieved_chunks : list RetrievedChunkState;
  st_degraded : list string;
  st_cache_hit : bool;
  st_cache_query_embedding : option (list float64);
  st_pii_mapping : list (string * string);
  st_refused : bool;
  st_refusal_reason : option string;
  st_guardrail_events : list GuardrailEvent;
  st_messages : list json;
  st_pending_tool_calls : list ToolCallState;
  st_tool_iterations : Z;
  st_tools_offered : list string;
  st_mutations_previewed : list string;
  st_mutations_executed : list string;
  st_pending_approvals : list PendingApproval;
  st_tool_invocation_records : list ToolInvocationRecord;
  st_mutation_request_records : list MutationRequestRecord;
  st_output_text : option string;
  st_citations : list Citation;
  st_input_tokens : Z;
  st_output_tokens : Z;
  st_cost_usd : float64
}.
#[export] Instance eta_AgentState : EtaRec AgentState := fun x =>
  MkAgentState (st_trace_id x) (st_tenant_id x) (st_user_id x) (st_agent_id x)
    (st_acl_group_ids x) (st_employee_id x) (st_permissions x) (st_roles x) (st_scope_context x)
    (st_subject_token x) (st_allow_mutations x) (st_input_text x) (st_model_alias x)
    (st_model_router_key_override x) (st_allowed_tools x) (st_scope_constraints x)
    (st_authz_denials x) (st_authz_decision_records x) (st_retrieved_chunks x) (st_degraded x)
    (st_cache_hit x) (st_cache_query_embedding x) (st_pii_mapping x) (st_refused x)
    (st_refusal_reason x) (st_guardrail_events x) (st_messages x) (st_pending_tool_calls x)
    (st_tool_iterations x) (st_tools_offered x) (st_mutations_previewed x)
    (st_mutations_executed x) (st_pending_approvals x) (st_tool_invocation_records x)
    (st_mutation_request_records x) (st_output_text x) (st_citations x) (st_input_tokens x)
    (st_output_tokens x) (st_cost_usd x).

(** ** query_normalize.py *)

(* @ harness/cache/query_normalize.py:15-36 _FILLER_WORDS *)
Definition FILLER_WORDS : list string :=
  ["halo"; "hai"; "hi"; "hey"; "permisi"; "selamat"; "pagi"; "siang"; "sore"; "malam"; "tolong"; "mohon";
   "dong"; "min"; "kak"; "ya"; "nih"; "gan"; "please"; "maaf"].

Definition is_punctuation (c : Ascii.ascii) : bool :=
  existsb (fun d => bool_decide (c = d)) ["."; ","; "!"; "?"; ";"; ":"]%char.

(* @ harness/cache/query_normalize.py:41-44 normalize_query *)
Definition normalize_query (text : string) : string :=
  let normalized := sub_class is_punctuation " " (str_lower (str_strip text)) in
  str_join " " (List.filter (fun t => negb (str_in t FILLER_WORDS)) (str_split_ws normalized)).

(** ** namespace.py *)

Definition acl_joined (acl_group_ids : list string) : string := str_join "," (sorted_str acl_group_ids).

(* @ harness/cache/namespace.py:17-19 acl_hash *)
Definition acl_hash `{Sha256} (acl_group_ids : list string) : string :=
  str_slice (sha256 (acl_joined acl_group_ids)) 0 16.

(** ** store.py *)

(* @ harness/cache/store.py:36-36 _TAG_SPECIAL *)
Definition tag_special (c : Ascii.ascii) : bool :=
  is_space c ||
  existsb (fun d => bool_decide (c = d))
    [","; "."; "<"; ">"; "{"; "}"; "["; "]"; "034"; "'"; ":"; ";"; "!"; "@"; "#"; "$"; "%"; "^"; "&"; "*";
     "("; ")"; "-"; "+"; "="; "~"]%char.

(* @ harness/cache/store.py:39-40 _escape_tag *)
Definition escape_tag (value : string) : string := escape_class tag_special value.

(* @ harness/cache/store.py:47-50 CachedPayload *)
Record CachedPayload := MkCachedPayload {
  cpl_output_text : string;
  cpl_citations : list Citation;
  cpl_document_ids : list string
}.
#[export] Instance eta_CachedPayload : EtaRec CachedPayload := fun x =>
  MkCachedPayload (cpl_output_text x) (cpl_citations x) (cpl_document_ids x).

(** The fields of a cached hash. *)
Record CacheEntry := MkCacheEntry {
  ce_tenant_id : string;
  ce_agent_id : string;
  ce_acl_hash : string;
  ce_prompt_version : string;
  ce_document_ids : string;
  ce_embedding : list float64;
  ce_body : CachedPayload
}.

(** RediSearch and the hash commands — vectors are packed to 32-bit floats on the
    way: the nearest document under a filter with
    its cosine distance, the keys under a filter (at most 1000), [HSET],
    [EXPIRE] and [DEL]. *)
Class CacheIndex (X : Type) := {
  ft_knn : string → list float64 → py X (option (float64 * CachedPayload));
  ft_keys : string → py X (list string);
  cache_hset : string → CacheEntry → py X unit;
  cache_expire : string → Z → py X unit;
  cache_delete : list string → py X unit
}.

(** The index's schema: tag fields, and one vector field. *)
Inductive IndexField :=
  | TagField (name : string) (separator : string)
  | VectorField (name algorithm element_type : string) (dim : Z) (metric : string).

(** [FT.INFO] and [FT.CREATE ... ON HASH PREFIX ...]. *)
Class CacheSchema (X : Type) := {
  ft_info : string → py X unit;
  ft_create : string → list IndexField → list string → py X unit
}.

(* @ harness/cache/store.py:32-34 INDEX_NAME, KEY_PREFIX, DOCUMENT_ID_SEPARATOR *)
Definition INDEX_NAME := "semcache:idx".
Definition KEY_PREFIX := "semcache:".
Definition DOCUMENT_ID_SEPARATOR := "|".

(** [f"@{field}:{{{clause}}}"]. *)
Definition tag_clause (field clause : string) : string := "@" +:+ field +:+ ":{" +:+ clause +:+ "}".

(* @ harness/cache/store.py:101-106 SemanticCacheStore.lookup: filter_expr *)
Definition namespace_filter (tenant_id agent_id acl_hash prompt_version : string) : string :=
  "(" +:+ str_join " " [tag_clause "tenant_id" (escape_tag tenant_id); tag_clause "agent_id" (escape_tag agent_id);
                        tag_clause "acl_hash" (escape_tag acl_hash);
                        tag_clause "prompt_version" (escape_tag prompt_version)] +:+ ")".

Definition index_schema (vector_dim : Z) : list IndexField :=
  [TagField "tenant_id" ","; TagField "agent_id" ","; TagField "acl_hash" ","; TagField "prompt_version" ",";
   TagField "document_ids" DOCUMENT_ID_SEPARATOR; VectorField "embedding" "HNSW" "FLOAT32" vector_dim "COSINE"].

(** An index that exists is left as it is; only the server's own error is taken
    for its absence. *)
(* @ harness/cache/store.py:67-90 SemanticCacheStore.ensure_index *)
Definition ensure_index {X} `{CacheSchema X} (vector_dim : Z) : py X unit :=
  let! missing := try_except (ft_info INDEX_NAME ;! ret false)
    (fun e => match e with ResponseError _ => Some (ret true) | _ => None end) in
  if missing : bool then ft_create INDEX_NAME (index_schema vector_dim) [KEY_PREFIX] else ret tt.

Section Store.
  Context {X : Type} `{CacheIndex X, Uuid X}.

(* @ harness/cache/store.py:92-126 SemanticCacheStore.lookup *)
Definition cache_store_lookup (threshold : float64) (embedding : list float64)
    (tenant_id agent_id acl_hash prompt_version : string) : py X (option CachedPayload) :=
  let! result := ft_knn (namespace_filter tenant_id agent_id acl_hash prompt_version) embedding in
  match result with
  | None => ret None
  | Some (score, body) =>
      let similarity := f64_sub (f64_of_Z 1) score in
      if f64_ltb similarity threshold then ret None else ret (Some body)
  end.

(* @ harness/cache/store.py:128-155 SemanticCacheStore.write *)
Definition cache_store_write (embedding : list float64) (tenant_id agent_id acl_hash prompt_version : string)
    (ttl_seconds : Z) (payload : CachedPayload) : py X unit :=
  let! h := uuid4_hex in
  let key := KEY_PREFIX +:+ tenant_id +:+ ":" +:+ str_slice h 0 20 in
  let document_ids_value := match cpl_document_ids payload with
                            | [] => "none"
                            | ids => str_join DOCUMENT_ID_SEPARATOR ids
                            end in
  cache_hset key (MkCacheEntry tenant_id agent_id acl_hash prompt_version document_ids_value embedding payload) ;!
  cache_expire key ttl_seconds.

(* @ harness/cache/store.py:157-173 SemanticCacheStore.invalidate_by_documents *)
Definition invalidate_by_documents (tenant_id : string) (document_ids : list string) : py X Z :=
  match document_ids with
  | [] => ret 0%Z
  | _ =>
      let clause := str_join " | " (escape_tag <$> document_ids) in
      let! keys := ft_keys ("(" +:+ tag_clause "tenant_id" (escape_tag tenant_id) +:+ " " +:+
                            tag_clause "document_ids" clause +:+ ")") in
      (match keys with [] => ret tt | _ => cache_delete keys end) ;!
      ret (Z.of_nat (length keys))
  end.
End Store.

(** ** eligibility.py *)

(* @ harness/cache/eligibility.py:16-16 _PII_RULE_IDS *)
Definition PII_RULE_IDS : list string := ["pii_redaction"; "pii_leakage"].

(* @ harness/cache/eligibility.py:19-53 is_cacheable *)
Definition is_cacheable (agent_profiles : list (string * AgentProfile))
    (tool_manifests : list (string * ToolManifestEntry)) (state : AgentState) : bool :=
  match dict_get (st_agent_id state) agent_profiles with
  | None => false
  | Some profile =>
      if negb (ap_cacheable profile) then false
      else if st_refused state then false
      else if str_in "retrieval" (st_degraded state) then false
      else if existsb (fun e => bool_decide (gev_action_taken e = FLAG)) (st_guardrail_events state) then false
      else if existsb (fun e => str_in (gev_rule_id e) PII_RULE_IDS) (st_guardrail_events state) then false
      else forallb (fun record => match dict_get (tir_tool_name record) tool_manifests with
                                  | Some manifest => tm_cacheable manifest
                                  | None => false
                                  end) (st_tool_invocation_records state)
  end.
