(* ===== verification/GraphProps.v ===== *)
(** What a run guarantees: it ends within its step bound, it reaches outside
    only in its own tenant, scope and cache namespace, and a run that touched
    personal data is never cached. *)
From S2P Require Import Prelude PyStr Json Presidio Http Contracts Wire Clients Authz Executor ExecutorProps.
From S2P Require Import Guardrails GuardrailsProps SemCache Graph.

(** A continuation only has to behave on what the first part can return. *)
Lemma frames_bind_returns {S A B} (R : S → S → Prop) `{!PreOrder R} (I : A → Prop) (m : py S A) (k : A → py S B) :
  frames R m → returns I m → (∀ a, I a → frames R (k a)) → frames R (bind m k).
Proof.
  intros Hm HI Hk s. specialize (Hm s). unfold bind. destruct (m s) as [s' [e|a]] eqn:E; cbn in *; [done|].
  etrans; [done|]. apply Hk. by eapply HI.
Qed.

Section Facts.
  Context {X : Type} `{HttpPost X, Uuid X, PolicyResolver X, CacheIndex X}.
  Context `{Pydantic, JsonLoads, FloatParse, FloatRepr, Presidio, Sha256}.
  Variable gc : GraphConfig.
  Implicit Types (s : AgentState) (R : X → X → Prop).

(** ** What a run is about, and what it may do *)

(** The identity of a run and the policy decided for it, which no node after
    [authorize] changes. *)
Definition same_run s0 s : Prop :=
  tool_context gc s = tool_context gc s0 ∧
  st_agent_id s = st_agent_id s0 ∧ st_acl_group_ids s = st_acl_group_ids s0.

(** A value inside RediSearch's braces: a backslash before white space and
    punctuation. *)
Definition quoted : string → string :=
  escape_class (fun c => is_space c || bool_decide (c = "034"%char) || str_contains (String c "") ",.<>{}[]':;!@#$%^&*()-+=~").

(** The groups of the run, as the cache keys them. *)
Definition group_digest s0 : string := str_slice (sha256 (str_join "," (sorted_str (st_acl_group_ids s0)))) 0 16.

Record allows s0 R : Prop := {
  al_preorder : PreOrder R;
  al_uuid : frames R uuid4_hex;
  al_model path hs body : frames R (http_post ModelRouter path hs body);
  al_search query : frames R (http_post RetrievalService "/internal/v1/search"
    [("Content-Type", "application/json")]
    (JObj [("trace_id", JStr (st_trace_id s0)); ("tenant_id", JStr (st_tenant_id s0));
           ("acl_group_ids", JArr (JStr <$> st_acl_group_ids s0)); ("query", JStr query); ("top_k", JInt 8);
           ("filters", JObj []); ("rerank", JBool true); ("max_context_tokens", JInt 4000)]));
  al_tool tc svc path hs body :
    permitted (MkToolContext (st_tenant_id s0) (st_user_id s0) (st_employee_id s0) (st_trace_id s0) (st_subject_token s0)
                 (gc_tool_manifests gc) (st_allowed_tools s0) (st_scope_constraints s0)) tc svc path hs body →
    frames R (http_post svc path hs body);
  al_knn v : frames R (ft_knn
    ("(@tenant_id:{" +:+ quoted (st_tenant_id s0) +:+ "} @agent_id:{" +:+ quoted (st_agent_id s0) +:+
     "} @acl_hash:{" +:+ quoted (group_digest s0) +:+ "} @prompt_version:{" +:+ quoted "system_prompt@v1" +:+ "})") v)
}.

(** ... and what it may write to the cache. *)
Record allows_writes s0 R : Prop := {
  al_hset suffix e :
    ce_tenant_id e = st_tenant_id s0 → ce_agent_id e = st_agent_id s0 →
    ce_acl_hash e = group_digest s0 → ce_prompt_version e = "system_prompt@v1" →
    frames R (cache_hset ("semcache:" +:+ st_tenant_id s0 +:+ ":" +:+ suffix) e);
  al_expire suffix ttl : frames R (cache_expire ("semcache:" +:+ st_tenant_id s0 +:+ ":" +:+ suffix) ttl)
}.

Lemma escape_class_ext p q text : (∀ c, p c = q c) → escape_class p text = escape_class q text.
Proof. intros Hpq. induction text as [|c text IH]; [done|]. cbn [escape_class]. by rewrite Hpq, IH. Qed.

Lemma escape_tag_quoted text : escape_tag text = quoted text.
Proof. apply escape_class_ext. intros [[] [] [] [] [] [] [] []]; vm_compute; reflexivity. Qed.

(** The filter of the run's namespace. *)
Lemma namespace_filter_spec tenant_id agent_id hash version :
  namespace_filter tenant_id agent_id hash version =
  "(@tenant_id:{" +:+ quoted tenant_id +:+ "} @agent_id:{" +:+ quoted agent_id +:+
  "} @acl_hash:{" +:+ quoted hash +:+ "} @prompt_version:{" +:+ quoted version +:+ "})".
Proof.
  unfold namespace_filter, tag_clause. rewrite !escape_tag_quoted. cbn [str_join].
  rewrite !str_app_assoc. reflexivity.
Qed.

(** ** The model router *)

Definition model_only (svc : Service) (_ : string) (_ : list (string * string)) (_ : json) : Prop :=
  svc = ModelRouter.

#[local] Hint Resolve jget_posts model_validate_posts raise_for_status_posts parameters_model_posts : posts.

Lemma jget_opt_posts P k j : only_posts P (jget_opt (S := X) k j).
Proof. unfold jget_opt. posts. Qed.
Lemma jhead_posts P j : only_posts P (jhead (S := X) j).
Proof. unfold jhead. posts. Qed.
#[local] Hint Resolve jget_opt_posts jhead_posts : posts.

Lemma chat_posts alias messages tools temperature key :
  only_posts model_only (chat (X := X) alias messages tools temperature key).
Proof.
  unfold chat, parse_tool_calls, parse_arguments, make_tool_call, usage_count. posts.
  all: by apply posts_post.
Qed.

Lemma embed_posts alias text : only_posts model_only (embed_query (X := X) alias text).
Proof. unfold embed_query. posts. all: by apply posts_post. Qed.
#[local] Hint Resolve chat_posts embed_posts : posts.

Lemma guarded_posts {A} P what (m : py X A) : only_posts P m → only_posts P (guarded what m).
Proof. intros Hm. unfold guarded. apply posts_try; [done|]. intros e k [= <-]. apply posts_raise. Qed.
#[local] Hint Resolve guarded_posts : posts.

Lemma ask_binary_posts what prompt : only_posts model_only (ask_binary (X := X) what prompt).
Proof. unfold ask_binary. posts. Qed.
Lemma detected_posts P text : only_posts P (detected (S := X) text).
Proof. unfold detected. posts. Qed.
#[local] Hint Resolve ask_binary_posts detected_posts : posts.

Lemma redact_posts P text : only_posts P (redact_input_pii (S := X) text).
Proof. unfold redact_input_pii. posts. Qed.
Lemma scan_posts P text : only_posts P (scan_output_pii (S := X) text).
Proof. unfold scan_output_pii. posts. Qed.
#[local] Hint Resolve redact_posts scan_posts : posts.

Lemma input_guardrails_posts text agent : only_posts model_only (run_input_guardrails (X := X) text agent).
Proof. unfold run_input_guardrails, check_input_injection, classifier_flag, check_offtopic. posts. Qed.

Lemma output_guardrails_posts text chunks mapping (regen : py X string) :
  only_posts model_only regen → only_posts model_only (run_output_guardrails text chunks mapping regen).
Proof. intros Hr. unfold run_output_guardrails, check_groundedness. posts. Qed.

(** ** The nodes stay within the run *)

Lemma model_frames s0 R {A} (m : py X A) : allows s0 R → only_posts model_only m → frames R m.
Proof.
  intros Ha Hm. apply Hm; [apply Ha| |apply Ha]. intros svc path hs body ->. apply Ha.
Qed.

Lemma search_frames s0 R q : allows s0 R →
  frames R (search (MkSearchRequest (st_trace_id s0) (st_tenant_id s0) (st_acl_group_ids s0) q 8 [] true 4000)).
Proof.
  intros Ha. pose proof (al_preorder _ _ Ha).
  unfold search. apply frames_bind; [done|apply Ha|]. intros r.
  assert (only_posts model_only (raise_for_status r ;! model_validate "SearchResult" validate_search (hr_json r)))
    as Hp by posts.
  by apply (model_frames _ _ _ Ha).
Qed.

Lemma tool_frames s0 s R tc : allows s0 R → same_run s0 s → frames R (execute_tool_call (tool_context gc s) tc).
Proof.
  intros Ha (-> & _). apply (execute_tool_call_posts (tool_context gc s0) tc R); [apply Ha| |apply Ha].
  intros svc path hs body. apply Ha.
Qed.

(** Split an operation into its actions, each one framed by what is allowed. *)
#[local] Ltac node_step Ha :=
  repeat first
    [ progress intros
    | apply (frames_ret _) | apply (frames_raise _)
    | apply (model_frames _ _ _ Ha); solve [eauto using input_guardrails_posts, output_guardrails_posts with posts]
    | apply (search_frames _ _ _ Ha)
    | apply (frames_bind _) | apply (frames_try _)
    | case_match; simplify_eq ].

Lemma lookup_frames s0 s R : allows s0 R → same_run s0 s → frames R (cache_lookup gc s).
Proof.
  intros Ha (Hc & Hag & Hacl). pose proof (al_preorder _ _ Ha).
  assert (st_tenant_id s = st_tenant_id s0) as Ht by apply (f_equal tc_tenant_id Hc).
  unfold cache_lookup, cache_store_lookup. rewrite Hag, Hacl, Ht, namespace_filter_spec. node_step Ha. apply Ha.
Qed.

Lemma retrieve_frames s0 s R : allows s0 R → same_run s0 s → frames R (retrieve s).
Proof.
  intros Ha (Hc & Hag & Hacl). pose proof (al_preorder _ _ Ha).
  assert (st_tenant_id s = st_tenant_id s0) as Ht by apply (f_equal tc_tenant_id Hc).
  assert (st_trace_id s = st_trace_id s0) as Htr by apply (f_equal tc_trace_id Hc).
  unfold retrieve. rewrite Ht, Htr, Hacl. node_step Ha.
Qed.

Lemma act_frames s0 s R : allows s0 R → same_run s0 s → frames R (act gc s).
Proof.
  intros Ha Hs. pose proof (al_preorder _ _ Ha). unfold act. apply frames_bind; [done| |].
  - apply frames_foldM; [done|]. intros b tc. apply frames_bind; [done|by apply (tool_frames s0)|].
    intros o. by apply frames_ret.
  - intros acc. by apply frames_ret.
Qed.

Lemma cache_write_frames s0 s R :
  allows s0 R → allows_writes s0 R → same_run s0 s → frames R (cache_write gc s).
Proof.
  intros Ha Hw (Hc & Hag & Hacl). pose proof (al_preorder _ _ Ha).
  assert (st_tenant_id s = st_tenant_id s0) as Ht by apply (f_equal tc_tenant_id Hc).
  unfold cache_write, cache_store_write. rewrite Hag, Hacl, Ht.
  node_step Ha.
  all: first [apply (al_uuid _ _ Ha)|apply (al_expire _ _ Hw)|by apply (al_hset _ _ Hw)].
Qed.

Lemma to_openai_posts P (f : ParamsModel → json) tool : only_posts P (to_openai_schema (S := X) f tool).
Proof. unfold to_openai_schema. posts. Qed.

Lemma respond_posts s : only_posts model_only (respond gc s).
Proof. unfold respond. posts. Qed.

Lemma regenerate_posts s : only_posts model_only (regenerate s).
Proof. unfold regenerate. posts. Qed.

Lemma node_frames s0 s R n :
  n ≠ Authorize → n ≠ CacheWrite → allows s0 R → same_run s0 s → frames R (run_node gc n s).
Proof.
  intros Hn Hcw Ha Hs. pose proof (al_preorder _ _ Ha). destruct n; cbn.
  - done.
  - apply (model_frames s0); [done|]. unfold input_guardrails.
    apply posts_bind; [apply input_guardrails_posts|posts].
  - by apply (lookup_frames s0).
  - by apply (retrieve_frames s0).
  - unfold rag_guardrails. case_match. by apply frames_ret.
  - apply (model_frames s0); [done|apply respond_posts].
  - by apply (act_frames s0).
  - apply (model_frames s0); [done|]. unfold output_guardrails.
    apply posts_bind; [apply output_guardrails_posts, regenerate_posts|posts].
  - done.
Qed.

(** ** The identity of the run is kept *)

Lemma record_outcome_same s0 s o : same_run s0 s → same_run s0 (record_outcome s o).
Proof. by intros Hs. Qed.

#[local] Ltac same_node :=
  repeat first
    [ progress intros
    | apply returns_ret; assumption
    | apply returns_raise
    | apply returns_bind
    | apply returns_try
    | case_match; simplify_eq ].

Lemma act_same s0 s : same_run s0 s → returns (same_run s0) (act gc s).
Proof.
  intros Hs x x' a. unfold act, bind. destruct (foldM _ _ _ x) as [x1 [e|acc]] eqn:Hf; [done|].
  intros [= <- <-]. enough (same_run s0 acc) by done.
  eapply (foldM_invariant (fun b _ => same_run s0 b)); [|exact Hs|exact Hf].
  intros b tc t t' b' _ Hb. unfold bind.
  destruct (execute_tool_call _ tc t) as [t1 [e|o]]; [done|]. intros [= <- <-]. exact Hb.
Qed.

Lemma node_same s0 s n : n ≠ Authorize → same_run s0 s → returns (same_run s0) (run_node gc n s).
Proof.
  intros Hn Hs. destruct n; cbn; [done|..|by apply act_same| |].
  all: unfold input_guardrails, cache_lookup, retrieve, rag_guardrails, respond, output_guardrails, cache_write;
    cbv zeta; same_node.
Qed.

Lemma next_not_authorize n s n' : next_node n s = Some n' → n' ≠ Authorize.
Proof. destruct n; cbn; repeat case_match; intros; simplify_eq; done. Qed.

Lemma drive_frames s0 R limit n s :
  n ≠ Authorize → allows s0 R → allows_writes s0 R → same_run s0 s → frames R (drive gc limit n s).
Proof.
  intros Hn Ha Hw. pose proof (al_preorder _ _ Ha). revert n s Hn.
  induction limit as [|limit IH]; intros n s Hn Hs; cbn; [by apply frames_raise|].
  eapply (frames_bind_returns R (same_run s0));
    [destruct (decide (n = CacheWrite)) as [->|];
       [by apply (cache_write_frames s0)|by apply (node_frames s0)]|by apply node_same|]. intros s' Hs'.
  destruct (next_node n s') as [n'|] eqn:Hnext; [|by apply frames_ret].
  apply IH; [by eapply next_not_authorize|done].
Qed.

(** C5: Confinement of a run. After the policy is decided, everything a run does
    outside - however the model, the documents and the services behave, and
    wherever it stops - is: talking to the model; searching documents as the
    caller's tenant and groups; tool requests that the decided tools and scopes
    permit for the run's tenant, user and trace; and reading and writing the
    cache in the namespace of the caller's tenant, agent and groups. *)
Theorem run_is_confined R s x x1 decision :
  gc_recursion_limit gc ≠ 0 →
  resolve_policy (MkAuthorizationContext (st_tenant_id s) (st_user_id s) (st_employee_id s) (st_roles s)
     (st_permissions s) (st_scope_context s) (st_agent_id s) (st_allow_mutations s)) x = (x1, inr decision) →
  let s0 := s <| st_allowed_tools := pd_allowed_tools decision |>
              <| st_scope_constraints := pd_scope_constraints decision |> in
  allows s0 R → allows_writes s0 R →
  R x1 (ainvoke gc s x).1.
Proof.
  intros Hlim Hpol s0 Ha Hw. pose proof (al_preorder _ _ Ha). unfold ainvoke.
  destruct (gc_recursion_limit gc) as [|limit]; [done|]. cbn -[next_node].
  set (s1 := s <| st_allowed_tools := pd_allowed_tools decision |>
               <| st_scope_constraints := pd_scope_constraints decision |>
               <| st_authz_denials := pd_denials decision |>
               <| st_authz_decision_records := decision_records decision |>).
  assert (authorize s x = (x1, inr s1)) as Hauth by (unfold authorize; by rewrite (bind_inr _ _ _ _ _ Hpol)).
  rewrite (bind_inr _ _ _ _ _ Hauth). cbn [next_node].
  by apply (drive_frames s0).
Qed.

(** ** Personal data and the cache *)

Definition has_pii_event s : bool := existsb (fun e => str_in (gev_rule_id e) PII_RULE_IDS) (st_guardrail_events s).

(** Everything but a write to the cache. *)
Record reads_only R : Prop := {
  ro_preorder : PreOrder R;
  ro_uuid : frames R uuid4_hex;
  ro_policy ctx : frames R (resolve_policy ctx);
  ro_post svc path hs body : frames R (http_post svc path hs body);
  ro_knn f v : frames R (ft_knn f v)
}.

Lemma reads_only_allows R s0 : reads_only R → allows s0 R.
Proof.
  intros [Hp Hu Hpol Hpost Hk]. by split.
Qed.

Lemma pii_not_cacheable s : has_pii_event s = true → is_cacheable (gc_agent_profiles gc) (gc_tool_manifests gc) s = false.
Proof.
  intros Hp. unfold is_cacheable. destruct (dict_get _ _) as [profile|]; [|done].
  unfold has_pii_event in Hp. rewrite Hp. by repeat case_match.
Qed.

Lemma node_keeps_pii n s :
  has_pii_event s = true → returns (fun s' => has_pii_event s' = true) (run_node gc n s).
Proof.
  intros Hp.
  assert (∀ l, existsb (fun e => str_in (gev_rule_id e) PII_RULE_IDS) (st_guardrail_events s ++ l) = true) as Happ.
  { intros l. rewrite existsb_app. unfold has_pii_event in Hp. by rewrite Hp. }
  destruct (decide (n = Act)) as [->|Hn].
  - intros x x' a. cbn. unfold act, bind. destruct (foldM _ _ _ x) as [x1 [e|acc]] eqn:Hf; [done|].
    intros [= <- <-]. enough (has_pii_event acc = true) by done.
    eapply (foldM_invariant (fun b _ => has_pii_event b = true)); [|exact Hp|exact Hf].
    intros b tc t t' b' _ Hb. unfold bind.
    destruct (execute_tool_call _ tc t) as [t1 [e|o]]; [done|]. intros [= <- <-]. exact Hb.
  - destruct n; cbn; try done;
    unfold authorize, input_guardrails, cache_lookup, retrieve, rag_guardrails, respond, output_guardrails, cache_write;
    cbv zeta; repeat first [ progress intros | apply returns_ret; first [exact Hp | apply Happ] | apply returns_raise
      | apply returns_bind | apply returns_try | case_match; simplify_eq ].
Qed.

Lemma drive_pii_frames R limit n s :
  n ≠ Authorize → reads_only R → has_pii_event s = true → frames R (drive gc limit n s).
Proof.
  intros Hn Hro. pose proof (ro_preorder _ Hro). revert n s Hn.
  induction limit as [|limit IH]; intros n s Hn Hp; cbn -[next_node]; [by apply frames_raise|].
  eapply (frames_bind_returns R (fun s' => has_pii_event s' = true)); [|by apply node_keeps_pii|].
  - destruct (decide (n = CacheWrite)) as [->|].
    + cbn. unfold cache_write. rewrite (pii_not_cacheable s Hp). cbn.
      destruct (st_cache_query_embedding s); [destruct (st_cache_hit s)|]; by apply frames_ret.
    + apply (node_frames s); [done..|by apply reads_only_allows|done].
  - intros s' Hs'. destruct (next_node n s') as [n'|] eqn:Hnext; [|by apply frames_ret].
    apply IH; [by eapply next_not_authorize|done].
Qed.

Lemma input_guardrails_pii text out mapping e agent :
  redact_input_pii (S := X) text = ret (out, mapping, Some e) →
  returns (fun r => igr_refused r = true ∨ e ∈ igr_events r) (run_input_guardrails text agent).
Proof.
  intros Hred. unfold run_input_guardrails. destruct (blocks _); [apply returns_ret; by left|].
  rewrite Hred. intros x x' r. rewrite (bind_inr _ _ x x _ eq_refl). cbn [opt_event app]. revert x x' r.
  change (returns (fun r => igr_refused r = true ∨ e ∈ igr_events r)
    (let! injection_event := check_input_injection out in
     let events := [check_input_size text MAX_INPUT_TOKENS; e; injection_event] in
     if blocks injection_event
     then ret (MkInputGuardrailResult out mapping true (Some "prompt_injection") events)
     else
      let! offtopic_event := check_offtopic out agent in
      let events := events ++ opt_event offtopic_event in
      if existsb blocks (opt_event offtopic_event)
      then ret (MkInputGuardrailResult out mapping true (Some "off_topic") events)
      else ret (MkInputGuardrailResult out mapping false None events))).
  apply returns_bind. intros inj. cbv zeta. destruct (blocks inj); [apply returns_ret; by left|].
  apply returns_bind. intros off. destruct (existsb _ _); apply returns_ret; [by left|right; cbn; set_solver].
Qed.

(** C37: Personal data never enters the cache. A run whose input had personal data
    to redact, and that recorded the redaction, writes nothing to the semantic
    cache, whatever it goes on to do: every change it makes outside is a
    request, an id or a cache read. *)
Theorem pii_run_is_never_cached R s out mapping e :
  reads_only R →
  redact_input_pii (S := X) (st_input_text s) = ret (out, mapping, Some e) →
  gev_rule_id e = "pii_redaction" →
  frames R (ainvoke gc s).
Proof.
  intros Hro Hred He. pose proof (ro_preorder _ Hro). unfold ainvoke.
  destruct (gc_recursion_limit gc) as [|limit]; [by apply frames_raise|]. cbn [drive run_node next_node].
  apply (frames_bind_returns R (fun s' => st_input_text s' = st_input_text s)).
  - unfold authorize. apply frames_bind; [done|apply Hro|]. intros d. by apply frames_ret.
  - unfold authorize. apply returns_bind. intros d. by apply returns_ret.
  - intros s1 Hs1. destruct limit as [|limit]; [by apply frames_raise|]. cbn [drive run_node next_node].
    apply (frames_bind_returns R (fun s' => st_refused s' = true ∨ has_pii_event s' = true)).
    + apply (model_frames s1); [by apply reads_only_allows|]. unfold input_guardrails.
      apply posts_bind; [apply input_guardrails_posts|posts].
    + intros x x' s2. unfold input_guardrails, bind.
      destruct (run_input_guardrails _ _ x) as [x1 [ex|r]] eqn:Hr; [done|].
      rewrite Hs1 in Hr. pose proof (input_guardrails_pii _ _ _ _ _ Hred _ _ _ Hr) as [Href|Hin].
      * rewrite Href. intros Hs2. left. unfold ret, raise in Hs2. repeat case_match; simplify_eq; done.
      * intros Hs2. right. unfold has_pii_event, ret, raise in *.
        assert (st_guardrail_events s2 = st_guardrail_events s1 ++ igr_events r) as ->
          by (repeat case_match; simplify_eq; done).
        rewrite existsb_app. apply orb_true_iff. right. apply existsb_exists. exists e.
        split; [by apply list_elem_of_In|]. by rewrite He.
    + intros s2 [Href|Hp]; [rewrite Href; by apply frames_ret|].
      destruct (st_refused s2); [by apply frames_ret|]. by apply drive_pii_frames.
Qed.

(** ** Termination *)

(** The model answers without a tool call when it is offered no tools. *)
Definition obeys_no_tools : Prop :=
  ∀ alias messages key (x x' : X) r,
    chat alias messages None None key x = (x', inr r) → ccr_tool_calls r = None ∨ ccr_tool_calls r = Some [].

(** Steps left from a node, given the round trips made so far. *)
Definition steps_left (n : node) (s : AgentState) : Z :=
  let rounds := Z.max 0 (MAX_TOOL_ITERATIONS - st_tool_iterations s) in
  match n with
  | CacheWrite => 1
  | OutputGuardrails => 2
  | Respond => 3 + 2 * rounds
  | Act => 2 + 2 * rounds
  | RagGuardrails => 4 + 2 * rounds
  | Retrieve => 5 + 2 * rounds
  | CacheLookup => 6 + 2 * rounds
  | InputGuardrails => 7 + 2 * rounds
  | Authorize => 8 + 2 * rounds
  end.

Lemma node_iterations n s :
  returns (fun s' => st_tool_iterations s' = (st_tool_iterations s + if n is Act then 1 else 0)%Z) (run_node gc n s).
Proof.
  destruct (decide (n = Act)) as [->|Hn].
  - intros x x' a. cbn. unfold act, bind. destruct (foldM _ _ _ x) as [x1 [e|acc]] eqn:Hf; [done|].
    intros [= <- <-]. done.
  - destruct n; cbn; try done; rewrite Z.add_0_r;
    unfold authorize, input_guardrails, cache_lookup, retrieve, rag_guardrails, respond, output_guardrails, cache_write;
    cbv zeta; repeat first [ progress intros | apply returns_ret; reflexivity | apply returns_raise
      | apply returns_bind | apply returns_try | case_match; simplify_eq ].
Qed.

Lemma respond_tool_calls s :
  obeys_no_tools → (MAX_TOOL_ITERATIONS ≤ st_tool_iterations s)%Z →
  returns (fun s' => st_pending_tool_calls s' = []) (respond gc s).
Proof.
  intros Hobey Hit x x' s'. unfold respond. rewrite (proj2 (Z.ltb_ge _ _) Hit). unfold bind.
  destruct (map_each _ _ x) as [x1 [e|tools]]; [done|].
  destruct (chat _ _ None None _ x1) as [x2 [e|r]] eqn:Hchat; [done|].
  destruct (Hobey _ _ _ _ _ _ Hchat) as [Hr|Hr]; rewrite Hr; by intros [= _ <-].
Qed.

Lemma drive_ends limit n s x x' e :
  obeys_no_tools → (n = Act → st_tool_iterations s < MAX_TOOL_ITERATIONS)%Z →
  (steps_left n s ≤ Z.of_nat limit)%Z →
  drive gc limit n s x = (x', inl e) →
  ∃ m t y, run_node gc m t y = (x', inl e).
Proof.
  intros Hobey. revert n s x. induction limit as [|limit IH]; intros n s x Hact Hle.
  { exfalso. unfold steps_left in Hle. destruct n; lia. }
  cbn -[run_node next_node]. unfold bind. destruct (run_node gc n s x) as [x1 [e1|s']] eqn:Hrun.
  { intros [= <- <-]. by exists n, s, x. }
  pose proof (node_iterations n s _ _ _ Hrun) as Hit. cbn in Hit.
  destruct (next_node n s') as [n'|] eqn:Hnext; [|done]. apply IH.
  - intros ->. destruct n; cbn in Hnext; repeat case_match; simplify_eq.
    destruct (Z.lt_ge_cases (st_tool_iterations s) MAX_TOOL_ITERATIONS) as [|Hge]; [lia|].
    pose proof (respond_tool_calls s Hobey Hge _ _ _ Hrun) as Hnone. cbn in Hnone. congruence.
  - unfold steps_left in *. destruct n; cbn in Hnext; repeat case_match; simplify_eq; cbn in *; try lia.
    all: try (specialize (Hact eq_refl)); try lia.
Qed.

(** C36: A run ends. With a model that does not call tools it was not offered,
    the loop between model and tools makes at most two round trips, so twelve
    steps are always enough: within any recursion limit of twelve or more a run
    returns a final state, or fails with an exception some node itself raised,
    never by exhausting the limit. *)
Theorem run_terminates s x :
  obeys_no_tools → st_tool_iterations s = 0%Z → 12 ≤ gc_recursion_limit gc →
  (∃ x' s', ainvoke gc s x = (x', inr s')) ∨
  (∃ x' e m t y, ainvoke gc s x = (x', inl e) ∧ run_node gc m t y = (x', inl e)).
Proof.
  intros Hobey Hit Hlim. destruct (ainvoke gc s x) as [x' [e|s']] eqn:Hrun; [right|left; by eexists _, _].
  destruct (drive_ends (gc_recursion_limit gc) Authorize s x x' e Hobey) as (m & t & y & Hm); [done| |done|].
  - unfold steps_left. rewrite Hit. unfold MAX_TOOL_ITERATIONS. lia.
  - by exists x', e, m, t, y.
Qed.
End Facts.

(** ** The theorems at a concrete deployment

    The state outside is the log of the requests made and the number of cache
    writes; the model answers with one text, retrieval finds nothing. *)
Module Witness.
Record env := MkEnv { e_log : list (Service * string); e_writes : nat }.

Definition answer_json (svc : Service) (path : string) : option json :=
  if decide (svc = ModelRouter) then
    Some (if String.eqb path "/embeddings"
          then JObj [("data", JArr [JObj [("embedding", JArr [JFloat f64_zero])]])]
          else JObj [("choices", JArr [JObj [("message", JObj [("content", JStr "0")])]]); ("usage", JObj [])])
  else if decide (svc = RetrievalService) then Some (JObj [("latency_ms", JInt 1)])
  else None.

#[global] Instance env_http : HttpPost env := fun svc path _ _ e =>
  (MkEnv ((svc, path) :: e_log e) (e_writes e),
   match answer_json svc path with
   | Some j => inr (MkHttpResponse 200 "" j [])
   | None => inl (HttpxError "connection refused")
   end).
#[global] Instance env_uuid : Uuid env := fun e => (e, inr "0123456789abcdef0123456789abcdef").
#[global] Instance env_policy : PolicyResolver env := fun _ e => (e, inr (MkPolicyDecision [] [] [])).
#[global] Instance env_cache : CacheIndex env := {|
  ft_knn _ _ e := (e, inr None);
  ft_keys _ e := (e, inr []);
  cache_hset _ _ e := (MkEnv (e_log e) (S (e_writes e)), inr tt);
  cache_expire _ _ e := (e, inr tt);
  cache_delete _ e := (e, inr tt) |}.
#[global] Instance env_pydantic : Pydantic := strict_pydantic.
#[global] Instance env_loads : JsonLoads := fun _ => None.
#[global] Instance env_float : FloatParse := fun _ => Some f64_zero.
#[global] Instance env_repr : FloatRepr := fun _ => "0.0".
#[global] Instance env_sha : Sha256 := fun s => s.
(** Every text mentioning NIK has one id number at its start. *)
#[global] Instance env_presidio : Presidio := {|
  analyze _ t _ := inr (if str_contains "NIK" t then [MkRecognizerResult "ID_NIK" 0 16 (f64_ratio 7 10)] else []);
  anonymize t _ _ := inr t |}.

Definition gc : GraphConfig :=
  MkGraphConfig [] [("public-faq-bot", MkAgentProfile "public-faq-bot" INTERNAL [] true 3600 8)] "embed"
    (f64_ratio 95 100) (fun _ => JNull) 25.

Definition start (text : string) : AgentState :=
  MkAgentState "trc_1" "tnt_a" "usr_1" "public-faq-bot" ["grp_a"] None [] [] [] None false text "agent-primary" None
    [] [] [] [] [] [] false None [] false None [] [] [] 0 [] [] [] [] [] [] None [] 0 0 f64_zero.

(** The log only grows, by requests to the services of a run. *)
Definition logged (e e' : env) : Prop :=
  ∃ l, e_log e' = l ++ e_log e ∧ Forall (fun p => p.1 ≠ AgentHarness ∧ p.1 ≠ Callback) l.

#[local] Instance logged_preorder : PreOrder logged.
Proof.
  split.
  - intros e. by exists [].
  - intros a b c (l & Hl & Fl) (k & Hk & Fk). exists (k ++ l). rewrite Hk, Hl, app_assoc.
    split; [done|]. by apply Forall_app.
Qed.

Lemma logged_post svc path hs body :
  svc ≠ AgentHarness → svc ≠ Callback → frames logged (http_post svc path hs body).
Proof. intros H1 H2 e. exists [(svc, path)]. split; [done|]. by repeat constructor. Qed.

Lemma run_is_confined_witness :
  logged (MkEnv [] 0) (ainvoke gc (start "berapa sisa cuti saya?") (MkEnv [] 0)).1.
Proof.
  refine (run_is_confined gc logged (start "berapa sisa cuti saya?") (MkEnv [] 0) (MkEnv [] 0)
    (MkPolicyDecision [] [] []) _ eq_refl _ _).
  - discriminate.
  - split; [apply _|by intros e; exists []|intros; by apply logged_post|intros; by apply logged_post| |].
    + intros tc svc path hs body Hp. apply logged_post; by destruct Hp.
    + intros v e. by exists [].
  - split; intros; intros ?; by exists [].
Defined.

Lemma pii_run_is_never_cached_witness :
  e_writes (ainvoke gc (start "3174012345678901 NIK saya") (MkEnv [] 0)).1 = 0%nat.
Proof.
  refine (pii_run_is_never_cached gc (fun e e' => e_writes e' = e_writes e)
    (start "3174012345678901 NIK saya") "[NIK_1] NIK saya" [("[NIK_1]", "3174012345678901")]
    (MkGuardrailEvent INPUT "pii_redaction" "info" REDACT (Some [("entities", JObj [("ID_NIK", JInt 1)])]))
    _ _ eq_refl (MkEnv [] 0)).
  - split; try done. split; [by intros e|]. intros a b c Hab Hbc. by rewrite Hbc.
  - vm_compute. reflexivity.
Defined.

(** The same run with nothing to redact is cached: the theorem's hypothesis is
    what keeps personal data out. *)
Example plain_run_is_cached : e_writes (ainvoke gc (start "berapa sisa cuti saya?") (MkEnv [] 0)).1 = 1%nat.
Proof. vm_compute. reflexivity. Qed.

Lemma run_terminates_witness :
  ∃ x s', ainvoke gc (start "berapa sisa cuti saya?") (MkEnv [] 0) = (x, inr s').
Proof.
  destruct (run_terminates gc (start "berapa sisa cuti saya?") (MkEnv [] 0)) as [Hok|(x & e & m & t & y & Hrun & _)].
  - intros alias messages key x x' r Hr. left. unfold chat in Hr.
    destruct (opt_truthy key); cbn in Hr; injection Hr as _ <-; reflexivity.
  - reflexivity.
  - cbn. lia.
  - exact Hok.
  - exfalso. assert (match (ainvoke gc (start "berapa sisa cuti saya?") (MkEnv [] 0)).2 with
                     | inr _ => true | inl _ => false end = true) as Hok by (vm_compute; reflexivity).
    rewrite Hrun in Hok. discriminate Hok.
Defined.
End Witness.
