(* ===== verification/HarnessDb.v ===== *)
(** The [conversation], [audit] and [authz] schemas of agent-harness
    (migrations 0002, 0003, 0007), the sessions its statements run in, and the
    statements (persistence/db.py, persistence/repository.py). Each statement is
    what its SQL text does to the tables under their keys, [CHECK]s and foreign
    keys and the row-level security policy
    [tenant_id = current_setting('app.tenant_id')].

    Row defaults nothing reads ([created_at], [title], [citations]) are left out;
    [cost_usd] is kept as sent, before the column rounds it to six decimals. *)
From S2P Require Import Prelude PyStr Json Contracts.

(** ** Tables *)

(* @ migrations/versions/0002_conversation.py:39-48 conversation.conversations *)
Record ConversationRow := MkConversationRow {
  cvr_tenant_id : string;
  cvr_user_id : string;
  cvr_agent_id : string
}.
#[export] Instance eta_ConversationRow : EtaRec ConversationRow := fun x =>
  MkConversationRow (cvr_tenant_id x) (cvr_user_id x) (cvr_agent_id x).

(* @ migrations/versions/0002_conversation.py:56-64 conversation.messages *)
Record MessageRow := MkMessageRow {
  msr_conversation_id : string;
  msr_tenant_id : string;
  msr_role : string;
  msr_content : json
}.
#[export] Instance eta_MessageRow : EtaRec MessageRow := fun x =>
  MkMessageRow (msr_conversation_id x) (msr_tenant_id x) (msr_role x) (msr_content x).

(* @ migrations/versions/0002_conversation.py:72-90 conversation.agent_runs *)
Record AgentRunRow := MkAgentRunRow {
  arr_trace_id : string;
  arr_tenant_id : string;
  arr_conversation_id : string;
  arr_agent_id : string;
  arr_agent_version : string;
  arr_prompt_version : string;
  arr_execution_mode : string;
  arr_status : string;
  arr_input_tokens : Z;
  arr_output_tokens : Z;
  arr_cost_usd : float64;
  arr_cache_hit : bool;
  arr_latency_ms : Z;
  arr_error_code : option string
}.
#[export] Instance eta_AgentRunRow : EtaRec AgentRunRow := fun x =>
  MkAgentRunRow (arr_trace_id x) (arr_tenant_id x) (arr_conversation_id x) (arr_agent_id x)
    (arr_agent_version x) (arr_prompt_version x) (arr_execution_mode x) (arr_status x)
    (arr_input_tokens x) (arr_output_tokens x) (arr_cost_usd x) (arr_cache_hit x)
    (arr_latency_ms x) (arr_error_code x).

(* @ migrations/versions/0003_audit_core.py:34-46 audit.tool_invocations *)
Record ToolInvocationRow := MkToolInvocationRow {
  tvr_run_id : string;
  tvr_trace_id : string;
  tvr_tenant_id : string;
  tvr_tool_name : string;
  tvr_tool_kind : string;
  tvr_arguments : json;
  tvr_result_summary : option json;
  tvr_status : string
}.
#[export] Instance eta_ToolInvocationRow : EtaRec ToolInvocationRow := fun x =>
  MkToolInvocationRow (tvr_run_id x) (tvr_trace_id x) (tvr_tenant_id x) (tvr_tool_name x)
    (tvr_tool_kind x) (tvr_arguments x) (tvr_result_summary x) (tvr_status x).

(* @ migrations/versions/0003_audit_core.py:54-74 audit.mutation_requests *)
Record MutationRow := MkMutationRow {
  mtr_run_id : string;
  mtr_trace_id : string;
  mtr_tenant_id : string;
  mtr_actor_user_id : string;
  mtr_action_name : string;
  mtr_risk_level : string;
  mtr_preview_payload : json;
  mtr_approval_id : option string;
  mtr_approved_by : option string;
  mtr_approved_at : option string;
  mtr_idempotency_key : string;
  mtr_status : string;
  mtr_executed_at : option string;
  mtr_business_ref : option string
}.
#[export] Instance eta_MutationRow : EtaRec MutationRow := fun x =>
  MkMutationRow (mtr_run_id x) (mtr_trace_id x) (mtr_tenant_id x) (mtr_actor_user_id x)
    (mtr_action_name x) (mtr_risk_level x) (mtr_preview_payload x) (mtr_approval_id x)
    (mtr_approved_by x) (mtr_approved_at x) (mtr_idempotency_key x) (mtr_status x)
    (mtr_executed_at x) (mtr_business_ref x).

(* @ migrations/versions/0003_audit_core.py:81-92 audit.guardrail_events *)
Record GuardrailEventRow := MkGuardrailEventRow {
  gvr_run_id : string;
  gvr_trace_id : string;
  gvr_tenant_id : string;
  gvr_stage : string;
  gvr_rule_id : string;
  gvr_severity : string;
  gvr_action_taken : string;
  gvr_detail : option json
}.
#[export] Instance eta_GuardrailEventRow : EtaRec GuardrailEventRow := fun x =>
  MkGuardrailEventRow (gvr_run_id x) (gvr_trace_id x) (gvr_tenant_id x) (gvr_stage x)
    (gvr_rule_id x) (gvr_severity x) (gvr_action_taken x) (gvr_detail x).

(* @ migrations/versions/0007_authz.py:35-51 audit.authz_decisions *)
Record AuthzDecisionRow := MkAuthzDecisionRow {
  azr_run_id : string;
  azr_trace_id : string;
  azr_tenant_id : string;
  azr_actor_user_id : string;
  azr_actor_roles : list string;
  azr_agent_id : string;
  azr_audience : string;
  azr_tool_name : string;
  azr_decision : string;
  azr_deny_reason : option string;
  azr_missing_permissions : list string;
  azr_data_scope : option string;
  azr_scope_satisfied : option bool
}.
#[export] Instance eta_AuthzDecisionRow : EtaRec AuthzDecisionRow := fun x =>
  MkAuthzDecisionRow (azr_run_id x) (azr_trace_id x) (azr_tenant_id x) (azr_actor_user_id x)
    (azr_actor_roles x) (azr_agent_id x) (azr_audience x) (azr_tool_name x) (azr_decision x)
    (azr_deny_reason x) (azr_missing_permissions x) (azr_data_scope x) (azr_scope_satisfied x).

(* @ migrations/versions/0007_authz.py:23-29 authz.tool_overrides *)
Record ToolOverrideRow := MkToolOverrideRow {
  tor_disabled : bool;
  tor_reason : option string;
  tor_changed_by : string;
  tor_changed_at : string
}.
#[export] Instance eta_ToolOverrideRow : EtaRec ToolOverrideRow := fun x =>
  MkToolOverrideRow (tor_disabled x) (tor_reason x) (tor_changed_by x) (tor_changed_at x).

(** The tables, each by its primary key, and the transaction's [now()]. *)
Record HarnessDb := MkHarnessDb {
  hdb_conversations : gmap string ConversationRow;
  hdb_messages : gmap string MessageRow;
  hdb_agent_runs : gmap string AgentRunRow;
  hdb_tool_invocations : gmap string ToolInvocationRow;
  hdb_mutation_requests : gmap string MutationRow;
  hdb_guardrail_events : gmap string GuardrailEventRow;
  hdb_authz_decisions : gmap string AuthzDecisionRow;
  hdb_tool_overrides : gmap string ToolOverrideRow;
  hdb_now : string
}.
#[export] Instance eta_HarnessDb : EtaRec HarnessDb := fun x =>
  MkHarnessDb (hdb_conversations x) (hdb_messages x) (hdb_agent_runs x) (hdb_tool_invocations x)
    (hdb_mutation_requests x) (hdb_guardrail_events x) (hdb_authz_decisions x)
    (hdb_tool_overrides x) (hdb_now x).

(** The process: its database and everything else it talks to. *)
Record HarnessState (X : Type) := MkHarnessState {
  hst_db : HarnessDb;
  hst_ext : X
}.
Arguments MkHarnessState {X}.
Arguments hst_db {X}.
Arguments hst_ext {X}.
#[export] Instance eta_HarnessState {X} : EtaRec (HarnessState X) := fun x =>
  MkHarnessState (hst_db x) (hst_ext x).

(** A connection inside a transaction: [app.tenant_id] when it was set. *)
Record HarnessConn (X : Type) := MkHarnessConn {
  hcn_tenant : option string;
  hcn_db : HarnessDb;
  hcn_ext : X
}.
Arguments MkHarnessConn {X}.
Arguments hcn_tenant {X}.
Arguments hcn_db {X}.
Arguments hcn_ext {X}.
#[export] Instance eta_HarnessConn {X} : EtaRec (HarnessConn X) := fun x =>
  MkHarnessConn (hcn_tenant x) (hcn_db x) (hcn_ext x).

(** ** What the columns accept *)

(** [INT] is a 32-bit column. *)
Definition int4_ok (z : Z) : bool := ((- 2 ^ 31 <=? z) && (z <? 2 ^ 31))%Z.

(** ** Tables under constraints

    A table: where its rows live, the tenant its policy compares, the text
    parameters of its [INSERT], and the first constraint a new row would violate. *)
Record Table (A : Type) := MkTable {
  tb_name : string;
  tb_rows : HarnessDb → gmap string A;
  tb_put : (gmap string A → gmap string A) → HarnessDb → HarnessDb;
  tb_tenant : A → string;
  tb_texts : A → list string;
  tb_violates : A → HarnessDb → option exn
}.
Arguments MkTable {A}.
Arguments tb_name {A}.
Arguments tb_rows {A}.
Arguments tb_put {A}.
Arguments tb_tenant {A}.
Arguments tb_texts {A}.
Arguments tb_violates {A}.

(** ** Sessions *)

Section Sessions.
  Context {X : Type}.

(* @ harness/persistence/db.py:13-29 tenant_session *)
Definition tenant_session {A} (tenant_id : string) (body : py (HarnessConn X) A) : py (HarnessState X) A :=
  fun s =>
    match body (MkHarnessConn (Some tenant_id) (hst_db s) (hst_ext s)) with
    | (c, inr a) => (MkHarnessState (hcn_db c) (hcn_ext c), inr a)
    | (c, inl e) => (s <| hst_ext := hcn_ext c |>, inl e)
    end.

(* @ harness/persistence/db.py:32-39 admin_session *)
Definition admin_session {A} (body : py (HarnessConn X) A) : py (HarnessState X) A :=
  fun s =>
    match body (MkHarnessConn None (hst_db s) (hst_ext s)) with
    | (c, inr a) => (MkHarnessState (hcn_db c) (hcn_ext c), inr a)
    | (c, inl e) => (s <| hst_ext := hcn_ext c |>, inl e)
    end.

Definition owns (c : HarnessConn X) (tenant_id : string) : bool :=
  bool_decide (hcn_tenant c = Some tenant_id).

(** An [INSERT]'s text parameters are converted before the statement runs. *)
Definition texts_ok {A} (t : Table A) (id : string) (row : A) : bool := forallb no_nul (id :: tb_texts t row).

Definition insert_row {A} (t : Table A) (id : string) (row : A) : py (HarnessConn X) unit :=
  let! c := gets (fun c => c) in
  if negb (texts_ok t id row) then raise nul_refused
  else if negb (owns c (tb_tenant t row))
  then raise (OtherException "InsufficientPrivilege" "new row violates row-level security policy")
  else
    match tb_violates t row (hcn_db c), tb_rows t (hcn_db c) !! id with
    | Some e, _ => raise e
    | None, Some _ => raise (IntegrityError (tb_name t +:+ "_pkey"))
    | None, None => modify (fun c => c <| hcn_db ::= tb_put t (<[id := row]>) |>)
    end.
End Sessions.

Definition check (ok : bool) (constraint : string) : option exn :=
  if ok then None else Some (IntegrityError constraint).

Definition cast_int4 (z : Z) : option exn :=
  if int4_ok z then None else Some (OtherException "DataError" "value out of int32 range").

(** [cost_usd]'s column. *)
Definition cast_numeric_12_6 (f : float64) : option exn :=
  if numeric_ok 12 6 f then None else Some (OtherException "DataError" "numeric field overflow").

(** The first of several violations. *)
Definition first_violation (l : list (option exn)) : option exn := head (omap id l).

Definition has_conversation (id : string) (d : HarnessDb) : bool :=
  match hdb_conversations d !! id with Some _ => true | None => false end.

Definition key_taken (row : MutationRow) (d : HarnessDb) : bool :=
  existsb (fun kv => String.eqb (mtr_tenant_id kv.2) (mtr_tenant_id row)
                     && String.eqb (mtr_idempotency_key kv.2) (mtr_idempotency_key row))
    (map_to_list (hdb_mutation_requests d)).

Definition conversations_table : Table ConversationRow :=
  MkTable "conversations" hdb_conversations (fun f d => d <| hdb_conversations ::= f |>) cvr_tenant_id
    (fun row => [cvr_tenant_id row; cvr_user_id row; cvr_agent_id row]) (fun _ _ => None).

Definition messages_table : Table MessageRow :=
  MkTable "messages" hdb_messages (fun f d => d <| hdb_messages ::= f |>) msr_tenant_id
    (fun row => [msr_conversation_id row; msr_tenant_id row; msr_role row]) (fun row d =>
    first_violation [check (str_in (msr_role row) ["user"; "assistant"; "tool"; "system"]) "messages_role_check";
                     cast_jsonb (msr_content row);
                     check (has_conversation (msr_conversation_id row) d) "messages_conversation_id_fkey"]).

Definition agent_runs_table : Table AgentRunRow :=
  MkTable "agent_runs" hdb_agent_runs (fun f d => d <| hdb_agent_runs ::= f |>) arr_tenant_id
    (fun row => [arr_trace_id row; arr_tenant_id row; arr_conversation_id row; arr_agent_id row; arr_agent_version row;
                 arr_prompt_version row; arr_execution_mode row; arr_status row] ++ option_list (arr_error_code row))
    (fun row d =>
    first_violation [check (str_in (arr_execution_mode row) ["sync"; "async"]) "agent_runs_execution_mode_check";
                     cast_int4 (arr_input_tokens row); cast_int4 (arr_output_tokens row);
                     cast_numeric_12_6 (arr_cost_usd row); cast_int4 (arr_latency_ms row);
                     check (has_conversation (arr_conversation_id row) d) "agent_runs_conversation_id_fkey"]).

Definition tool_invocations_table : Table ToolInvocationRow :=
  MkTable "tool_invocations" hdb_tool_invocations (fun f d => d <| hdb_tool_invocations ::= f |>) tvr_tenant_id
    (fun row => [tvr_run_id row; tvr_trace_id row; tvr_tenant_id row; tvr_tool_name row; tvr_tool_kind row; tvr_status row])
    (fun row _ =>
    first_violation [check (str_in (tvr_tool_kind row) ["readonly"; "mutation"]) "tool_invocations_tool_kind_check";
                     cast_jsonb (tvr_arguments row); tvr_result_summary row ≫= cast_jsonb]).

Definition mutation_requests_table : Table MutationRow :=
  MkTable "mutation_requests" hdb_mutation_requests (fun f d => d <| hdb_mutation_requests ::= f |>) mtr_tenant_id
    (fun row => [mtr_run_id row; mtr_trace_id row; mtr_tenant_id row; mtr_actor_user_id row; mtr_action_name row;
                 mtr_risk_level row; mtr_idempotency_key row; mtr_status row]
                ++ option_list (mtr_approval_id row) ++ option_list (mtr_business_ref row))
    (fun row d =>
    first_violation [check (str_in (mtr_status row) ["previewed"; "awaiting_approval"; "approved"; "rejected";
                                                     "executed"; "failed"; "expired"])
                       "mutation_requests_status_check";
                     cast_jsonb (mtr_preview_payload row);
                     check (negb (key_taken row d)) "mutation_requests_tenant_id_idempotency_key_key"]).

Definition guardrail_events_table : Table GuardrailEventRow :=
  MkTable "guardrail_events" hdb_guardrail_events (fun f d => d <| hdb_guardrail_events ::= f |>) gvr_tenant_id
    (fun row => [gvr_run_id row; gvr_trace_id row; gvr_tenant_id row; gvr_stage row; gvr_rule_id row; gvr_severity row;
                 gvr_action_taken row])
    (fun row _ =>
    first_violation [check (str_in (gvr_stage row) ["input"; "output"]) "guardrail_events_stage_check";
                     check (str_in (gvr_action_taken row) ["allow"; "redact"; "block"; "flag"])
                       "guardrail_events_action_taken_check";
                     gvr_detail row ≫= cast_jsonb]).

Definition authz_decisions_table : Table AuthzDecisionRow :=
  MkTable "authz_decisions" hdb_authz_decisions (fun f d => d <| hdb_authz_decisions ::= f |>) azr_tenant_id
    (fun row => [azr_run_id row; azr_trace_id row; azr_tenant_id row; azr_actor_user_id row; azr_agent_id row;
                 azr_audience row; azr_tool_name row; azr_decision row] ++ azr_actor_roles row
                ++ option_list (azr_deny_reason row) ++ azr_missing_permissions row ++ option_list (azr_data_scope row))
    (fun row _ =>
    first_violation [check (str_in (azr_audience row) ["internal"; "external"]) "authz_decisions_audience_check";
                     check (str_in (azr_decision row) ["allow"; "deny"]) "authz_decisions_decision_check"]).

(** ** repository.py *)

Section Statements.
  Context {X : Type}.

(* @ harness/persistence/repository.py:16-31 ensure_conversation *)
Definition ensure_conversation (conversation_id tenant_id user_id agent_id : string)
    : py (HarnessConn X) unit :=
  let! c := gets (fun c => c) in
  let row := MkConversationRow tenant_id user_id agent_id in
  if texts_ok conversations_table conversation_id row && has_conversation conversation_id (hcn_db c) && owns c tenant_id
  then ret tt
  else insert_row conversations_table conversation_id row.

(* @ harness/persistence/repository.py:34-55 insert_message *)
Definition insert_message (message_id conversation_id tenant_id role : string) (content : pydict)
    : py (HarnessConn X) unit :=
  insert_row messages_table message_id (MkMessageRow conversation_id tenant_id role (JObj content)).

(* @ harness/persistence/repository.py:58-91 insert_guardrail_event *)
Definition insert_guardrail_event (event_id run_id trace_id tenant_id stage rule_id severity
    action_taken : string) (detail : option pydict) : py (HarnessConn X) unit :=
  insert_row guardrail_events_table event_id
    (MkGuardrailEventRow run_id trace_id tenant_id stage rule_id severity action_taken (JObj <$> detail)).

(* @ harness/persistence/repository.py:94-128 insert_tool_invocation *)
Definition insert_tool_invocation (invocation_id run_id trace_id tenant_id tool_name tool_kind : string)
    (arguments : pydict) (result_summary : option pydict) (status : string) : py (HarnessConn X) unit :=
  insert_row tool_invocations_table invocation_id
    (MkToolInvocationRow run_id trace_id tenant_id tool_name tool_kind (JObj arguments)
       (JObj <$> result_summary) status).

(* @ harness/persistence/repository.py:131-177 insert_mutation_request *)
Definition insert_mutation_request (mutation_id run_id trace_id tenant_id actor_user_id action_name
    risk_level : string) (preview_payload : pydict) (approval_id : option string)
    (idempotency_key status : string) (business_ref executed_at : option string) : py (HarnessConn X) unit :=
  insert_row mutation_requests_table mutation_id
    (MkMutationRow run_id trace_id tenant_id actor_user_id action_name risk_level (JObj preview_payload)
       approval_id None None idempotency_key status executed_at business_ref).

(* @ harness/persistence/repository.py:180-198 upsert_tool_override *)
Definition upsert_tool_override (tool_name : string) (disabled : bool) (reason : option string)
    (changed_by : string) : py (HarnessConn X) unit :=
  modify (fun c => c <| hcn_db ::= fun d => d <| hdb_tool_overrides ::=
    <[tool_name := MkToolOverrideRow disabled reason changed_by (hdb_now d)]> |> |>).

(* @ harness/persistence/repository.py:201-248 insert_authz_decision *)
Definition insert_authz_decision (decision_id run_id trace_id tenant_id actor_user_id : string)
    (actor_roles : list string) (agent_id audience tool_name decision : string)
    (deny_reason : option string) (missing_permissions : list string) (data_scope : option string)
    (scope_satisfied : option bool) : py (HarnessConn X) unit :=
  insert_row authz_decisions_table decision_id
    (MkAuthzDecisionRow run_id trace_id tenant_id actor_user_id actor_roles agent_id audience tool_name
       decision deny_reason missing_permissions data_scope scope_satisfied).

(** The rows a [WHERE tenant_id = ... AND approval_id = ...] sees. *)
Definition with_approval (c : HarnessConn X) (tenant_id approval_id : string) (row : MutationRow) : bool :=
  owns c (mtr_tenant_id row) && String.eqb (mtr_tenant_id row) tenant_id
  && bool_decide (mtr_approval_id row = Some approval_id).

Definition selected (p : MutationRow → bool) (d : HarnessDb) : list MutationRow :=
  List.filter p (snd <$> map_to_list (hdb_mutation_requests d)).

(** [.first()]: SQL promises no order, the model takes the map's. *)
(* @ harness/persistence/repository.py:251-264 get_mutation_request_by_approval_id *)
Definition get_mutation_request_by_approval_id (tenant_id approval_id : string)
    : py (HarnessConn X) (option MutationRow) :=
  gets (fun c => head (selected (with_approval c tenant_id approval_id) (hcn_db c))).

(** [UPDATE ... SET f WHERE p]: the row count. *)
Definition update_mutations (p : HarnessConn X → MutationRow → bool) (f : string → MutationRow → MutationRow)
    : py (HarnessConn X) nat :=
  let! c := gets (fun c => c) in
  modify (fun c => c <| hcn_db ::= fun d => d <| hdb_mutation_requests ::=
    fmap (fun row => if p c row then f (hdb_now d) row else row) |> |>) ;!
  ret (length (selected (p c) (hcn_db c))).

Definition awaiting (row : MutationRow) : bool := String.eqb (mtr_status row) "awaiting_approval".

(* @ harness/persistence/repository.py:267-303 try_claim_mutation_decision *)
Definition try_claim_mutation_decision (tenant_id approval_id new_status : string)
    (approved_by : option string) : py (HarnessConn X) bool :=
  let! rowcount := update_mutations
    (fun c row => with_approval c tenant_id approval_id row && awaiting row)
    (fun now row =>
       if String.eqb new_status "approved"
       then row <| mtr_status := new_status |> <| mtr_approved_by := approved_by |>
                <| mtr_approved_at := Some now |>
       else row <| mtr_status := new_status |>) in
  ret (Nat.eqb rowcount 1).

(* @ harness/persistence/repository.py:306-326 update_mutation_request_execution_result *)
Definition update_mutation_request_execution_result (tenant_id approval_id status : string)
    (business_ref : option string) : py (HarnessConn X) unit :=
  update_mutations (fun c => with_approval c tenant_id approval_id)
    (fun now row => row <| mtr_status := status |> <| mtr_business_ref := business_ref |>
       <| mtr_executed_at := if String.eqb status "executed" then Some now else mtr_executed_at row |>) ;!
  ret tt.

(* @ harness/persistence/repository.py:329-375 insert_agent_run *)
Definition insert_agent_run (run_id trace_id tenant_id conversation_id agent_id agent_version
    prompt_version execution_mode status : string) (input_tokens output_tokens : Z) (cost_usd : float64)
    (latency_ms : Z) (cache_hit : bool) (error_code : option string) : py (HarnessConn X) unit :=
  insert_row agent_runs_table run_id
    (MkAgentRunRow trace_id tenant_id conversation_id agent_id agent_version prompt_version execution_mode
       status input_tokens output_tokens cost_usd cache_hit latency_ms error_code).
End Statements.

(** ** Growth

    The statements of a run only add rows, and only rows of the session's
    tenant. [adds t] says so of a whole database; it is a preorder. *)

Definition grows {A} (tenant : A → string) (t : string) (m m' : gmap string A) : Prop :=
  m ⊆ m' ∧ ∀ id row, m' !! id = Some row → m !! id = None → tenant row = t.

#[export] Instance grows_preorder {A} (tenant : A → string) t : PreOrder (grows tenant t).
Proof.
  split.
  - intros m. split; [done|]. intros id row Hs Hn. congruence.
  - intros a b c [Hab Hab'] [Hbc Hbc']. split; [by etrans|]. intros id row Hc Ha.
    destruct (b !! id) as [r|] eqn:Hb; [|by eapply Hbc'].
    rewrite (lookup_weaken _ _ _ _ Hb Hbc) in Hc. injection Hc as <-. by eapply Hab'.
Qed.

Lemma grows_insert {A} (tenant : A → string) t (m : gmap string A) id row :
  m !! id = None → tenant row = t → grows tenant t m (<[id := row]> m).
Proof.
  intros Hm Ht. split; [by apply insert_subseteq|]. intros j r Hj Hn.
  apply lookup_insert_Some in Hj as [[_ <-]|[_ Hj]]; [done|congruence].
Qed.

Record adds (t : string) (d d' : HarnessDb) : Prop := {
  ad_conversations : grows cvr_tenant_id t (hdb_conversations d) (hdb_conversations d');
  ad_messages : grows msr_tenant_id t (hdb_messages d) (hdb_messages d');
  ad_agent_runs : grows arr_tenant_id t (hdb_agent_runs d) (hdb_agent_runs d');
  ad_tool_invocations : grows tvr_tenant_id t (hdb_tool_invocations d) (hdb_tool_invocations d');
  ad_mutation_requests : grows mtr_tenant_id t (hdb_mutation_requests d) (hdb_mutation_requests d');
  ad_guardrail_events : grows gvr_tenant_id t (hdb_guardrail_events d) (hdb_guardrail_events d');
  ad_authz_decisions : grows azr_tenant_id t (hdb_authz_decisions d) (hdb_authz_decisions d');
  ad_tool_overrides : hdb_tool_overrides d' = hdb_tool_overrides d;
  ad_now : hdb_now d' = hdb_now d
}.

#[export] Instance adds_preorder t : PreOrder (adds t).
Proof.
  split; [intros d; by split|]. intros a b c [] []. split; by etrans.
Qed.

(** A table is one of those [adds] speaks of. *)
Class GrowingTable {A} (tb : Table A) : Prop := {
  gt_get_put f d : tb_rows tb (tb_put tb f d) = f (tb_rows tb d);
  gt_adds t id row d : tb_rows tb d !! id = None → tb_tenant tb row = t → adds t d (tb_put tb <[id := row]> d);
  gt_grows t d d' : adds t d d' → grows (tb_tenant tb) t (tb_rows tb d) (tb_rows tb d')
}.

Ltac growing := split; [done|intros t id row d Hd Ht; split; cbn; first [done | by apply grows_insert]|by intros ??? []].

#[export] Instance conversations_growing : GrowingTable conversations_table. Proof. growing. Qed.
#[export] Instance messages_growing : GrowingTable messages_table. Proof. growing. Qed.
#[export] Instance agent_runs_growing : GrowingTable agent_runs_table. Proof. growing. Qed.
#[export] Instance tool_invocations_growing : GrowingTable tool_invocations_table. Proof. growing. Qed.
#[export] Instance mutation_requests_growing : GrowingTable mutation_requests_table. Proof. growing. Qed.
#[export] Instance guardrail_events_growing : GrowingTable guardrail_events_table. Proof. growing. Qed.
#[export] Instance authz_decisions_growing : GrowingTable authz_decisions_table. Proof. growing. Qed.

(** The row was added under a fresh key, satisfying the table's constraints. *)
Definition inserted {A} (tb : Table A) (id : string) (row : A) (d d' : HarnessDb) : Prop :=
  (∃ d0, tb_violates tb row d0 = None) ∧ tb_rows tb d !! id = None ∧ tb_rows tb d' !! id = Some row.

(** Every element has a row of its own that was not there before. *)
Definition each_recorded {A B} (tb : Table B) (row : A → B) (l : list A) (d d' : HarnessDb) : Prop :=
  ∃ ids, NoDup ids ∧ Forall2 (fun id a => inserted tb id (row a) d d') ids l.

Section Inserted.
  Context {A B : Type} (tb : Table B) `{!GrowingTable tb} (row : A → B) (t : string).

Lemma inserted_weaken id r d0 d d' d1 :
  adds t d0 d → adds t d' d1 → inserted tb id r d d' → inserted tb id r d0 d1.
Proof.
  intros [Hsub0 _]%(gt_grows (tb := tb)) [Hsub1 _]%(gt_grows (tb := tb)) (Hv & Hn & Hs).
  split; [done|]. split; [by eapply lookup_weaken_None|by eapply lookup_weaken].
Qed.

Lemma each_recorded_weaken l d0 d d' d1 :
  adds t d0 d → adds t d' d1 → each_recorded tb row l d d' → each_recorded tb row l d0 d1.
Proof.
  intros H0 H1 (ids & Hnd & Hall). exists ids. split; [done|].
  eapply Forall2_impl; [exact Hall|]. intros id a. by apply inserted_weaken.
Qed.

Lemma each_recorded_cons a l id d d1 d' :
  inserted tb id (row a) d d1 → each_recorded tb row l d1 d' → adds t d d1 → adds t d1 d' →
  each_recorded tb row (a :: l) d d'.
Proof.
  intros Hi (ids & Hnd & Hall) H1 H2. exists (id :: ids). split.
  - constructor; [|done]. intros Hin. apply list_elem_of_lookup in Hin as [i Hlook].
    destruct (Forall2_lookup_l _ _ _ _ _ Hall Hlook) as (x & _ & _ & Hn & _). destruct Hi as (_ & _ & Hs). congruence.
  - constructor; [by apply (inserted_weaken _ _ d d d1 d')|]. eapply Forall2_impl; [exact Hall|].
    intros j x. by apply inserted_weaken.
Qed.
End Inserted.

(** A computation that, when it returns, has kept the session and only added
    rows; [Q] is what it says of the two databases. *)
Definition adding {X A} (t : string) (Q : HarnessDb → HarnessDb → A → Prop) (m : py (HarnessConn X) A) : Prop :=
  ∀ c c' a, hcn_tenant c = Some t → m c = (c', inr a) →
    hcn_tenant c' = Some t ∧ adds t (hcn_db c) (hcn_db c') ∧ Q (hcn_db c) (hcn_db c') a.

Section Adding.
  Context {X : Type}.

Lemma insert_row_adding {A} (tb : Table A) `{!GrowingTable tb} t id row :
  adding (X := X) t (fun d d' _ => tb_tenant tb row = t ∧ inserted tb id row d d') (insert_row tb id row).
Proof.
  intros c c' [] Hc. unfold insert_row, bind, gets, owns. rewrite Hc. destruct (texts_ok _ _ _); [|done].
  destruct (bool_decide_reflect (Some t = Some (tb_tenant tb row))) as [[= Ht]|]; [|done]. cbn [negb].
  destruct (tb_violates tb row (hcn_db c)) eqn:Hv; [done|].
  destruct (tb_rows tb (hcn_db c) !! id) eqn:Hid; [done|]. intros [= <-].
  split; [done|]. split; [by apply gt_adds|]. split; [done|]. split; [by eexists|]. split; [done|].
  cbn. rewrite gt_get_put. by apply lookup_insert_eq.
Qed.

Lemma adding_bind {A B} t Q1 Q2 (m : py (HarnessConn X) A) (k : A → py (HarnessConn X) B) :
  adding t Q1 m → (∀ a, adding t (Q2 a) (k a)) →
  adding t (fun d d' b => ∃ d1 a, Q1 d d1 a ∧ Q2 a d1 d' b ∧ adds t d d1 ∧ adds t d1 d') (bind m k).
Proof.
  intros Hm Hk c c' b Hc. unfold bind. destruct (m c) as [c1 [e|a]] eqn:Em; [done|]. intros Ek.
  destruct (Hm _ _ _ Hc Em) as (Hc1 & Ha1 & HQ1). destruct (Hk a _ _ _ Hc1 Ek) as (Hc2 & Ha2 & HQ2).
  split; [done|]. split; [by etrans|]. by exists (hcn_db c1), a.
Qed.

Lemma adding_mono {A} t (Q Q' : HarnessDb → HarnessDb → A → Prop) (m : py (HarnessConn X) A) :
  adding t Q m → (∀ d d' a, adds t d d' → Q d d' a → Q' d d' a) → adding t Q' m.
Proof. intros Hm HQ c c' a Hc E. destruct (Hm _ _ _ Hc E) as (? & ? & ?). auto. Qed.

Lemma adding_ret {A} t (a : A) : adding (X := X) t (fun d d' b => d' = d ∧ b = a) (ret a).
Proof. intros c c' b Hc [= <- <-]. by split. Qed.

(** Work outside the database. *)
Lemma adding_ext {A} t (m : py X A) put :
  (∀ x c, hcn_tenant (put x c) = hcn_tenant c ∧ hcn_db (put x c) = hcn_db c) →
  adding t (fun d d' _ => d' = d) (zoom hcn_ext put m).
Proof.
  intros Hput c c' a Hc. unfold zoom. destruct (m (hcn_ext c)) as [x r]. intros [= <- ->].
  destruct (Hput x c) as [-> ->]. by split.
Qed.

(** A loop of insertions gives every element its own row. *)
Lemma for_each_adding {A B} (tb : Table B) `{!GrowingTable tb} t (row : A → B) (f : A → py (HarnessConn X) unit) l :
  (∀ a, adding t (fun d d' _ => ∃ id, inserted tb id (row a) d d') (f a)) →
  adding t (fun d d' _ => each_recorded tb row l d d') (for_each l f).
Proof.
  intros Hf. induction l as [|a l IH]; cbn [for_each].
  { eapply adding_mono; [apply adding_ret|]. intros d d' _ _ _. exists []. split; constructor. }
  eapply adding_mono; [apply adding_bind; [apply Hf|intros ?; apply IH]|].
  intros d d' u _ (d1 & u1 & (id & Hi) & Hl & Had1 & Had2). by eapply each_recorded_cons.
Qed.
End Adding.

(** ** Exactly which rows

    The table has gained these rows, each under a key of its own that was free, and
    is otherwise as it was. *)
Definition changes {A} (tb : Table A) (rows : list A) (d d' : HarnessDb) : Prop :=
  ∃ ids, length ids = length rows ∧ NoDup ids ∧ (∀ id, id ∈ ids → tb_rows tb d !! id = None) ∧
    tb_rows tb d' = list_to_map (zip ids rows) ∪ tb_rows tb d.

Lemma changes_none {A} (tb : Table A) d d' : tb_rows tb d' = tb_rows tb d → changes tb [] d d'.
Proof.
  intros Hrows. exists []. split_and!; [done|constructor|by intros ? ?%elem_of_nil|]. rewrite Hrows. symmetry. apply (left_id_L ∅ (∪)).
Qed.

Lemma zip_keys {A} (ids : list string) (rows : list A) id :
  length ids = length rows → (list_to_map (zip ids rows) : gmap string A) !! id = None ↔ id ∉ ids.
Proof. intros Hlen. rewrite <- not_elem_of_list_to_map, fst_zip by lia. done. Qed.

Lemma changes_trans {A} (tb : Table A) r1 r2 d d1 d' :
  changes tb r1 d d1 → changes tb r2 d1 d' → changes tb (r1 ++ r2) d d'.
Proof.
  intros (ids1 & L1 & N1 & F1 & E1) (ids2 & L2 & N2 & F2 & E2).
  assert (Hfree : ∀ id, id ∈ ids2 → id ∉ ids1 ∧ tb_rows tb d !! id = None).
  { intros id Hid. specialize (F2 id Hid). rewrite E1, lookup_union_None, (zip_keys _ _ _ L1) in F2. done. }
  exists (ids1 ++ ids2). split_and!.
  - rewrite !length_app. lia.
  - apply NoDup_app. split; [done|]. split; [|done]. intros id H1 H2. by apply (Hfree id H2).
  - intros id [H1|H2]%elem_of_app; [by apply F1|by apply Hfree].
  - rewrite E2, E1, (zip_with_app _ _ _ _ _ L1), list_to_map_app, (assoc_L (∪)). f_equal. apply map_union_comm.
    apply map_disjoint_alt. intros id. rewrite (zip_keys _ _ _ L1), (zip_keys _ _ _ L2).
    destruct (decide (id ∈ ids2)) as [H2|H2]; [right; by apply Hfree|by left].
Qed.

(** A computation that, when it returns, has added exactly these rows to the table. *)
Definition writes {X A B} (tb : Table A) (rows : list A) (m : py (HarnessConn X) B) : Prop :=
  ∀ c c' b, m c = (c', inr b) → changes tb rows (hcn_db c) (hcn_db c').

Section Writes.
  Context {X A : Type} (tb : Table A) `{!GrowingTable tb}.

Lemma writes_bind {B C} r1 r2 (m : py (HarnessConn X) B) (k : B → py (HarnessConn X) C) :
  writes tb r1 m → (∀ b, writes tb r2 (k b)) → writes tb (r1 ++ r2) (bind m k).
Proof.
  intros Hm Hk c c' b. unfold bind. destruct (m c) as [c1 [e|a]] eqn:Em; [done|]. intros Ek.
  eapply changes_trans; [by eapply Hm|by eapply Hk].
Qed.

Lemma writes_ret {B} (b : B) : writes (X := X) tb [] (ret b).
Proof. intros c c' b' [= <- _]. by apply changes_none. Qed.

Lemma writes_ext {B} (m : py X B) put : (∀ x c, hcn_db (put x c) = hcn_db c) → writes tb [] (zoom hcn_ext put m).
Proof.
  intros Hput c c' b. unfold zoom. destruct (m (hcn_ext c)) as [x r]. intros [= <- _]. apply changes_none. by rewrite Hput.
Qed.

Lemma writes_insert id row : writes (X := X) tb [row] (insert_row tb id row).
Proof.
  intros c c' []. unfold insert_row, bind, gets. do 2 (destruct (negb _); [done|]). destruct (tb_violates _ _ _); [done|].
  destruct (tb_rows tb (hcn_db c) !! id) eqn:Hid; [done|]. intros [= <-]. exists [id]. split_and!; [done|by apply NoDup_singleton| |].
  - by intros ? ->%list_elem_of_singleton.
  - cbn. rewrite gt_get_put. by rewrite insert_empty, insert_union_singleton_l.
Qed.

Lemma writes_other {B} (other : Table B) id row :
  (∀ f d, tb_rows tb (tb_put other f d) = tb_rows tb d) → writes (X := X) tb [] (insert_row other id row).
Proof.
  intros Hother c c' []. unfold insert_row, bind, gets. do 2 (destruct (negb _); [done|]). destruct (tb_violates _ _ _); [done|].
  destruct (tb_rows other (hcn_db c) !! id); [done|]. intros [= <-]. apply changes_none. cbn. apply Hother.
Qed.

Lemma writes_each {B} (f : B → py (HarnessConn X) unit) (row : B → A) l :
  (∀ b, writes tb [row b] (f b)) → writes tb (row <$> l) (for_each l f).
Proof. intros Hf. induction l as [|b l IH]; cbn; [apply writes_ret|]. by apply (writes_bind [row b] (row <$> l)). Qed.

Lemma writes_each_none {B} (f : B → py (HarnessConn X) unit) l : (∀ b, writes tb [] (f b)) → writes tb [] (for_each l f).
Proof. intros Hf. induction l as [|b l IH]; cbn; [apply writes_ret|]. by apply (writes_bind [] []). Qed.
End Writes.

(** The rows, computed. *)
Lemma writes_as {X A B} (tb : Table A) r r' (m : py (HarnessConn X) B) : writes tb r m → r = r' → writes tb r' m.
Proof. by intros Hm <-. Qed.
