(* ===== verification/Approvals.v ===== *)
(** Deciding an approval (approvals.py and its route in api/routes.py): who may
    decide, the race for the row, and the execution of what was approved.

    The business API is the HTTP interface of [Clients]; the whole decision runs
    in one tenant session, so an exception rolls its updates back. *)
From S2P Require Import Prelude PyStr Json Http Contracts Wire Clients Authz HarnessDb.

(* @ harness/approvals.py:34-39 ApprovalDecisionResult *)
Record ApprovalDecisionResult := MkApprovalDecisionResult {
  adl_approval_id : string;
  adl_status : string;
  adl_mutation_status : string;
  adl_business_ref : option string
}.
#[export] Instance eta_ApprovalDecisionResult : EtaRec ApprovalDecisionResult := fun x =>
  MkApprovalDecisionResult (adl_approval_id x) (adl_status x) (adl_mutation_status x)
    (adl_business_ref x).

Section Approvals.
  Context {X : Type} `{HttpPost X, Pydantic}.
  Variable tool_manifests : list (string * ToolManifestEntry).

Abbreviation Conn := (HarnessConn X).

Definition on_ext {A} : py X A → py Conn A := zoom hcn_ext (fun x c => c <| hcn_ext := x |>).

Definition deny_approval {A} (status : Z) (detail : string) : py Conn A := raise (ApprovalError status detail).

(** [RiskLevel(mutation["risk_level"])], when the tool is known. *)
(* @ harness/approvals.py:60-63 decide_approval: required_permission *)
Definition required_permission (mutation : MutationRow) : py Conn (option string) :=
  match dict_get (mtr_action_name mutation) tool_manifests with
  | None => ret None
  | Some tool => match enum_of_string (mtr_risk_level mutation) with
                 | Some r => ret (approver_permission_for tool r)
                 | None => raise (ValueError (mtr_risk_level mutation +:+ " is not a valid RiskLevel"))
                 end
  end.

Definition decision_status (d : ApprovalDecision) : string :=
  match d with APPROVE => "approved" | REJECT => "rejected" end.

(** A string of the stored payload. *)
Definition payload_str (k : string) (payload : json) : py Conn string :=
  let! v := jget k payload in
  match v with JStr s => ret s | _ => raise (TypeError "Header value must be str or bytes") end.

(* @ harness/approvals.py:107-138 decide_approval: execute *)
Definition execute_approved (trace_id tenant_id approval_id : string) (mutation : MutationRow)
    : py Conn ApprovalDecisionResult :=
  match dict_get (mtr_action_name mutation) tool_manifests with
  | None => raise AssertionError
  | Some tool =>
      let payload := mtr_preview_payload mutation in
      let! result := try_except
        (let! preview_token := payload_str "preview_token" payload in
         let! idempotency_key := payload_str "idempotency_key" payload in
         on_ext (execute (tm_domain tool) (tm_business_action tool) preview_token (Some approval_id)
                   idempotency_key tenant_id (mtr_actor_user_id mutation) trace_id))
        (fun e => match e with
                  | BusinessApiError _ detail =>
                      Some (update_mutation_request_execution_result tenant_id approval_id "failed" None ;!
                            deny_approval 502 ("execute failed: " +:+ detail))
                  | _ => None end) in
      update_mutation_request_execution_result tenant_id approval_id "executed" (exr_business_ref result) ;!
      ret (MkApprovalDecisionResult approval_id "approved" "executed" (exr_business_ref result))
  end.

(** Everything after the row was read. *)
(* @ harness/approvals.py:60-105 decide_approval: the decision on a row *)
Definition decide_on (trace_id tenant_id approval_id approver_user_id : string)
    (approver_permissions : list string) (decision : ApprovalDecision) (mutation : MutationRow)
    : py Conn ApprovalDecisionResult :=
  let! required := required_permission mutation in
  if opt_truthy required && negb (str_in (from_option id "" required) approver_permissions)
  then deny_approval 403 ("approver lacks required permission: " +:+ from_option id "" required)
  else if String.eqb approver_user_id (mtr_actor_user_id mutation)
  then deny_approval 403 "an actor may not approve their own mutation request"
  else
    let! won := try_claim_mutation_decision tenant_id approval_id (decision_status decision)
                  (match decision with APPROVE => Some approver_user_id | REJECT => None end) in
    if negb won
    then
      let current_status := mtr_status mutation in
      let already_matches := match decision with
                             | APPROVE => str_in current_status ["approved"; "executed"]
                             | REJECT => String.eqb current_status "rejected"
                             end in
      if negb already_matches
      then deny_approval 409 ("mutation request already decided (status=" +:+ current_status +:+ ")")
      else ret (MkApprovalDecisionResult approval_id (decision_status decision) current_status
                  (mtr_business_ref mutation))
    else match decision with
         | REJECT => ret (MkApprovalDecisionResult approval_id "rejected" "rejected" None)
         | APPROVE => execute_approved trace_id tenant_id approval_id mutation
         end.

(* @ harness/approvals.py:42-138 decide_approval *)
Definition decide_approval (trace_id tenant_id approval_id approver_user_id : string)
    (approver_permissions : list string) (decision : ApprovalDecision) : py Conn ApprovalDecisionResult :=
  let! mutation := get_mutation_request_by_approval_id tenant_id approval_id in
  match mutation with
  | None => deny_approval 404 "no mutation request found for this approval_id"
  | Some mutation =>
      decide_on trace_id tenant_id approval_id approver_user_id approver_permissions decision mutation
  end.

(** ** api/routes.py *)

(** [except ApprovalError as exc: raise HTTPException(exc.status_code, exc.detail)]. *)
Definition approval_errors {S A} (m : py S A) : py S A :=
  try_except m (fun e => match e with
                         | ApprovalError s d => Some (raise (HTTPException s (JStr d) []))
                         | _ => None end).

(* @ harness/api/routes.py:36-64 approval_decision *)
Definition approval_decision (approval_id : string) (body : ApprovalDecisionInternalRequest)
    : py (HarnessState X) ApprovalDecisionResponse :=
  let! result := approval_errors (tenant_session (adq_tenant_id body)
    (decide_approval (adq_trace_id body) (adq_tenant_id body) approval_id (adq_approver_user_id body)
       (adq_approver_permissions body) (adq_decision body))) in
  ret (MkApprovalDecisionResponse (adl_approval_id result) (adl_status result)
         (adl_mutation_status result) (adl_business_ref result)).
End Approvals.
