(* ===== verification/ApprovalsProps.v ===== *)
(** What deciding an approval guarantees: the answer and the effect of every
    decision, and that an approved mutation is executed at most once however
    decisions race. *)
From S2P Require Import Prelude PyStr Json Http Contracts Wire Clients Authz HarnessDb Approvals.

(** ** The rows of an approval *)

Definition for_approval (t a : string) (row : MutationRow) : bool :=
  String.eqb (mtr_tenant_id row) t && bool_decide (mtr_approval_id row = Some a).

Definition rows_of (t a : string) (d : HarnessDb) : list MutationRow := selected (for_approval t a) d.

Definition amend (t a : string) (f : MutationRow → MutationRow) (d : HarnessDb) : HarnessDb :=
  d <| hdb_mutation_requests ::= fmap (fun row => if for_approval t a row then f row else row) |>.

Section Rows.
  Context {X : Type}.
  Implicit Types (c : HarnessConn X) (d : HarnessDb) (row : MutationRow).

Lemma selected_in p d row :
  row ∈ selected p d ↔ p row = true ∧ ∃ id, hdb_mutation_requests d !! id = Some row.
Proof.
  unfold selected. rewrite list_elem_of_In, filter_In, <- list_elem_of_In, list_elem_of_fmap. split.
  - intros [([id r] & -> & Hin) Hp]. split; [done|]. exists id. by apply elem_of_map_to_list in Hin.
  - intros [Hp [id Hid]]. split; [|done]. exists (id, row). split; [done|]. by apply elem_of_map_to_list.
Qed.

Lemma rows_of_only t a d row r id :
  rows_of t a d = [row] → hdb_mutation_requests d !! id = Some r → for_approval t a r = true → r = row.
Proof.
  intros Hr Hid Hp. apply list_elem_of_singleton. rewrite <- Hr. apply selected_in. by eauto.
Qed.

Lemma rows_of_for t a d row : rows_of t a d = [row] → for_approval t a row = true.
Proof. intros Hr. apply (selected_in (for_approval t a) d). fold (rows_of t a d). rewrite Hr. by constructor. Qed.

Lemma selected_ext p q d :
  (∀ id r, hdb_mutation_requests d !! id = Some r → p r = q r) → selected p d = selected q d.
Proof.
  intros Heq. unfold selected. apply filter_ext_in. intros r Hin.
  apply list_elem_of_In, list_elem_of_fmap in Hin as ([id r'] & -> & Hin%elem_of_map_to_list). by eapply Heq.
Qed.

Lemma selected_nil p d :
  (∀ id r, hdb_mutation_requests d !! id = Some r → p r = false) → selected p d = [].
Proof.
  intros Hp. destruct (selected p d) as [|r l] eqn:E; [done|].
  assert (r ∈ selected p d) as [Ht [id Hid]]%selected_in by (rewrite E; by constructor).
  by rewrite (Hp id r Hid) in Ht.
Qed.

Lemma selected_fmap p g d :
  selected p (d <| hdb_mutation_requests ::= fmap g |>) ≡ₚ
  List.filter p (g <$> (snd <$> map_to_list (hdb_mutation_requests d))).
Proof.
  unfold selected. cbn. rewrite <- list_fmap_compose.
  assert (snd <$> map_to_list (g <$> hdb_mutation_requests d)
          ≡ₚ g ∘ snd <$> map_to_list (hdb_mutation_requests d)) as Hp.
  { rewrite map_to_list_fmap, <- list_fmap_compose. done. }
  induction Hp; cbn; [done|..]; repeat case_match; try (by constructor); try done. all: by etrans.
Qed.

Lemma rows_amend t a f d row :
  rows_of t a d = [row] → for_approval t a (f row) = true → rows_of t a (amend t a f d) = [f row].
Proof.
  intros Hr Hf. pose proof (rows_of_for _ _ _ _ Hr) as Hrow.
  apply Permutation_singleton_r. unfold rows_of, amend. rewrite selected_fmap.
  enough (List.filter (for_approval t a) ((fun r => if for_approval t a r then f r else r) <$>
            (snd <$> map_to_list (hdb_mutation_requests d))) = f <$> rows_of t a d) as -> by (by rewrite Hr).
  unfold rows_of, selected.
  assert (∀ r, r ∈ snd <$> map_to_list (hdb_mutation_requests d) → for_approval t a r = true → r = row) as Hall.
  { intros r ([id r'] & -> & Hin%elem_of_map_to_list)%list_elem_of_fmap Hp. by eapply rows_of_only. }
  clear Hr. induction (snd <$> map_to_list _) as [|r l IH]; cbn; [done|].
  rewrite IH by (intros; apply Hall; [by constructor|done]).
  destruct (for_approval t a r) eqn:Hp; cbn; [|by rewrite Hp].
  assert (r = row) as -> by (apply Hall; [by constructor|done]). by rewrite Hf.
Qed.

Lemma amend_amend t a f g d :
  (∀ r, for_approval t a r = true → for_approval t a (f r) = true) →
  amend t a g (amend t a f d) = amend t a (fun r => g (f r)) d.
Proof.
  intros Hf. unfold amend. cbn. f_equal. rewrite <- map_fmap_compose. apply map_fmap_ext. intros id r _. cbn.
  destruct (for_approval t a r) eqn:Hp; [|by rewrite Hp]. by rewrite Hf.
Qed.
End Rows.

(** ** What the statements do in a session of the approval's tenant *)

Section Statements.
  Context {X : Type}.
  Implicit Types (c : HarnessConn X) (row : MutationRow).

Lemma with_approval_session c t a row :
  hcn_tenant c = Some t → with_approval c t a row = for_approval t a row.
Proof.
  intros Hc. unfold with_approval, owns, for_approval. rewrite Hc.
  destruct (str_eqb_spec (mtr_tenant_id row) t) as [->|]; [|by rewrite andb_false_r].
  by rewrite bool_decide_eq_true_2.
Qed.

Lemma get_mutation_session c t a :
  hcn_tenant c = Some t →
  get_mutation_request_by_approval_id t a c = (c, inr (head (rows_of t a (hcn_db c)))).
Proof.
  intros Hc. unfold get_mutation_request_by_approval_id, gets, rows_of. do 3 f_equal.
  apply selected_ext. intros id r _. by apply with_approval_session.
Qed.

Lemma look_session (s : HarnessState X) t a :
  tenant_session t (get_mutation_request_by_approval_id t a) s = (s, inr (head (rows_of t a (hst_db s)))).
Proof. unfold tenant_session. rewrite get_mutation_session by done. by destruct s. Qed.

Lemma update_mutations_session c t a f :
  hcn_tenant c = Some t →
  update_mutations (fun c => with_approval c t a) f c
  = (c <| hcn_db ::= amend t a (f (hdb_now (hcn_db c))) |>, inr (length (rows_of t a (hcn_db c)))).
Proof.
  intros Hc. unfold update_mutations, bind, gets, modify, ret. cbn. f_equal.
  - destruct c as [tn d x]. cbn in *. unfold amend. do 2 f_equal. cbn. f_equal. apply map_fmap_ext.
    intros id r _. by rewrite with_approval_session.
  - do 2 f_equal. apply selected_ext. intros id r _. by apply with_approval_session.
Qed.

Definition claimed (now new_status : string) (by_ : option string) row : MutationRow :=
  if String.eqb new_status "approved"
  then row <| mtr_status := new_status |> <| mtr_approved_by := by_ |> <| mtr_approved_at := Some now |>
  else row <| mtr_status := new_status |>.

Definition resulted (now status : string) (ref : option string) row : MutationRow :=
  row <| mtr_status := status |> <| mtr_business_ref := ref |>
      <| mtr_executed_at := if String.eqb status "executed" then Some now else mtr_executed_at row |>.

Lemma claimed_for now st by_ t a row : for_approval t a (claimed now st by_ row) = for_approval t a row.
Proof. unfold claimed. by destruct (String.eqb st _). Qed.

Lemma resulted_for now st ref t a row : for_approval t a (resulted now st ref row) = for_approval t a row.
Proof. done. Qed.

Lemma try_claim_session c t a row st by_ :
  hcn_tenant c = Some t → rows_of t a (hcn_db c) = [row] →
  try_claim_mutation_decision t a st by_ c =
    if awaiting row then (c <| hcn_db ::= amend t a (claimed (hdb_now (hcn_db c)) st by_) |>, inr true)
    else (c, inr false).
Proof.
  intros Hc Hr. unfold try_claim_mutation_decision, update_mutations, bind, gets, modify, ret. cbn.
  assert (∀ id r, hdb_mutation_requests (hcn_db c) !! id = Some r →
    with_approval c t a r && awaiting r = for_approval t a r && awaiting row) as Hsel.
  { intros id r Hid. rewrite with_approval_session by done. destruct (for_approval t a r) eqn:Hp; [|done].
    by rewrite (rows_of_only t a _ _ _ _ Hr Hid Hp). }
  rewrite (selected_ext _ (fun r => for_approval t a r && awaiting row) _ Hsel).
  destruct (awaiting row) eqn:Haw.
  - rewrite (selected_ext _ (for_approval t a)) by (intros; by rewrite andb_true_r).
    fold (rows_of t a (hcn_db c)). rewrite Hr. cbn. f_equal. destruct c as [tn d x]. cbn in *.
    unfold amend. do 2 f_equal. cbn. f_equal. apply map_fmap_ext. intros id r Hid.
    rewrite (Hsel id r Hid), andb_true_r. done.
  - rewrite selected_nil by (intros; by rewrite andb_false_r). cbn. f_equal. destruct c as [tn d x].
    f_equal. destruct d. cbn in *. f_equal. rewrite <- map_fmap_id. apply map_fmap_ext.
    intros id r Hid. rewrite (Hsel id r Hid), andb_false_r. done.
Qed.

Lemma execution_result_session c t a st ref :
  hcn_tenant c = Some t →
  update_mutation_request_execution_result t a st ref c
  = (c <| hcn_db ::= amend t a (resulted (hdb_now (hcn_db c)) st ref) |>, inr tt).
Proof.
  intros Hc. unfold update_mutation_request_execution_result.
  by rewrite (bind_inr _ _ _ _ _ (update_mutations_session _ _ _ _ Hc)).
Qed.
End Statements.

(** ** The decision as one function of the row *)

Section Decision.
  Context {X : Type} `{HttpPost X, Pydantic}.
  Variable tool_manifests : list (string * ToolManifestEntry).
  Implicit Types (s : HarnessState X) (row : MutationRow).

#[local] Arguments amend : simpl never.
#[local] Arguments claimed : simpl never.
#[local] Arguments resulted : simpl never.
#[local] Arguments execute : simpl never.
#[local] Arguments update_mutation_request_execution_result : simpl never.

(** Why the approver may not decide, if so. *)
Definition refusal (tool : ToolManifestEntry) (level : RiskLevel) (row : MutationRow)
    (body : ApprovalDecisionInternalRequest) : option string :=
  let required := approver_permission_for tool level in
  if opt_truthy required && negb (str_in (from_option id "" required) (adq_approver_permissions body))
  then Some ("approver lacks required permission: " +:+ from_option id "" required)
  else if String.eqb (adq_approver_user_id body) (mtr_actor_user_id row)
  then Some "an actor may not approve their own mutation request"
  else None.

Definition http_error {S A} (status : Z) (detail : string) : py S A :=
  raise (HTTPException status (JStr detail) []).

(** The answer to a decision on a row nobody else decides any more. *)
Definition already_decided (a : string) (d : ApprovalDecision) (row : MutationRow)
    : py (HarnessState X) ApprovalDecisionResponse :=
  if match d with APPROVE => str_in (mtr_status row) ["approved"; "executed"]
                | REJECT => String.eqb (mtr_status row) "rejected" end
  then ret (MkApprovalDecisionResponse a (decision_status d) (mtr_status row) (mtr_business_ref row))
  else http_error 409 ("mutation request already decided (status=" +:+ mtr_status row +:+ ")").

(** Executing what was approved: on success the row is approved and executed,
    on any failure the database is as it was. *)
Definition execute_spec (a : string) (body : ApprovalDecisionInternalRequest) (tool : ToolManifestEntry)
    (token key : string) (row : MutationRow) : py (HarnessState X) ApprovalDecisionResponse := fun s =>
  let now := hdb_now (hst_db s) in
  match execute (tm_domain tool) (tm_business_action tool) token (Some a) key (adq_tenant_id body)
          (mtr_actor_user_id row) (adq_trace_id body) (hst_ext s) with
  | (x, inr result) =>
      (MkHarnessState
         (amend (adq_tenant_id body) a (fun r => resulted now "executed" (exr_business_ref result)
            (claimed now "approved" (Some (adq_approver_user_id body)) r)) (hst_db s)) x,
       inr (MkApprovalDecisionResponse a "approved" "executed" (exr_business_ref result)))
  | (x, inl (BusinessApiError _ detail)) => http_error 502 ("execute failed: " +:+ detail) (s <| hst_ext := x |>)
  | (x, inl e) => approval_errors (raise e) (s <| hst_ext := x |>)
  end.

Definition decision_spec (a : string) (body : ApprovalDecisionInternalRequest) (tool : ToolManifestEntry)
    (level : RiskLevel) (token key : string) (row : MutationRow)
    : py (HarnessState X) ApprovalDecisionResponse :=
  match refusal tool level row body with
  | Some why => http_error 403 why
  | None =>
      if negb (awaiting row) then already_decided a (adq_decision body) row
      else match adq_decision body with
           | REJECT =>
               modify (fun s => s <| hst_db ::= fun d =>
                 amend (adq_tenant_id body) a (claimed (hdb_now d) "rejected" None) d |>) ;!
               ret (MkApprovalDecisionResponse a "rejected" "rejected" None)
           | APPROVE => execute_spec a body tool token key row
           end
  end.

(** What the run stored with the row. *)
Record pending_on (tool : ToolManifestEntry) (level : RiskLevel) (token key : string) (row : MutationRow)
    : Prop := {
  po_tool : dict_get (mtr_action_name row) tool_manifests = Some tool;
  po_level : enum_of_string (mtr_risk_level row) = Some level;
  po_payload : ∃ kvs, mtr_preview_payload row = JObj kvs ∧
    dict_get "preview_token" kvs = Some (JStr token) ∧ dict_get "idempotency_key" kvs = Some (JStr key)
}.

Lemma decide_on_spec a body tool level token key row seen s :
  pending_on tool level token key seen →
  rows_of (adq_tenant_id body) a (hst_db s) = [row] →
  mtr_actor_user_id seen = mtr_actor_user_id row →
  (awaiting row = true → seen = row) →
  (let! result := approval_errors (tenant_session (adq_tenant_id body)
     (decide_on tool_manifests (adq_trace_id body) (adq_tenant_id body) a (adq_approver_user_id body)
        (adq_approver_permissions body) (adq_decision body) seen)) in
   ret (MkApprovalDecisionResponse (adl_approval_id result) (adl_status result) (adl_mutation_status result)
          (adl_business_ref result))) s
  = if awaiting row then decision_spec a body tool level token key row s
    else match refusal tool level seen body with
         | Some why => http_error 403 why s
         | None => already_decided a (adq_decision body) seen s
         end.
Proof.
  intros [Htool Hlevel (kvs & Hpay & Htok & Hkey)] Hrow Hactor Hseen.
  unfold bind at 1, approval_errors at 1, try_except, tenant_session, decide_on.
  unfold required_permission. rewrite Htool, Hlevel. unfold bind at 1, ret at 1.
  unfold decision_spec, refusal at 1 2. rewrite <- Hactor.
  destruct (opt_truthy _ && _); [destruct s; by destruct (awaiting row)|].
  destruct (String.eqb _ _); [destruct s; by destruct (awaiting row)|].
  set (c := MkHarnessConn (Some (adq_tenant_id body)) (hst_db s) (hst_ext s)).
  unfold bind at 1. rewrite (try_claim_session c _ a row) by done.
  destruct (awaiting row) eqn:Haw; cbn -[already_decided execute_approved].
  - specialize (Hseen eq_refl) as ->. destruct (adq_decision body) eqn:Hd; cbn -[execute_approved]; [|by destruct s].
    unfold execute_approved. rewrite Htool. unfold payload_str, jget. rewrite Hpay, Htok, Hkey.
    unfold bind at 1, try_except, bind at 1 2 3 4 5, ret at 1 2 3 4, on_ext, zoom, execute_spec. cbn -[execute].
    destruct (execute _ _ _ _ _ _ _ _ (hst_ext s)) as [x [e|result]]; cbn.
    + destruct e; cbn; by destruct s.
    + unfold bind, ret. rewrite execution_result_session by done. cbn. rewrite amend_amend; [done|].
      intros r. by rewrite claimed_for.
  - unfold already_decided. destruct (adq_decision body); cbn;
      [destruct (_ || _)|destruct (String.eqb (mtr_status seen) _)]; cbn; by destruct s.
Qed.

(** C31: Deciding an approval is one function of its row. While the approval id
    names one row: an approver who lacks the tool's permission, or is the actor,
    gets a 403; a row that is no longer awaiting is answered with its own status
    (409 when it was decided the other way); a rejection marks the row and calls
    nobody; an approval executes the stored preview once, under the stored key
    and for the original actor, and the row ends approved by the approver and
    executed; and whenever the execution fails the database is as it was. *)
Theorem approval_decision_outcome a body tool level token key row s :
  pending_on tool level token key row →
  rows_of (adq_tenant_id body) a (hst_db s) = [row] →
  approval_decision tool_manifests a body s = decision_spec a body tool level token key row s.
Proof.
  intros Hp Hrow. unfold approval_decision.
  transitivity ((let! result := approval_errors (tenant_session (adq_tenant_id body)
     (decide_on tool_manifests (adq_trace_id body) (adq_tenant_id body) a (adq_approver_user_id body)
        (adq_approver_permissions body) (adq_decision body) row)) in
   ret (MkApprovalDecisionResponse (adl_approval_id result) (adl_status result) (adl_mutation_status result)
          (adl_business_ref result))) s).
  - unfold bind at 1 2, approval_errors at 1 2, try_except, tenant_session, decide_approval.
    rewrite (bind_inr _ _ _ _ _ (get_mutation_session (MkHarnessConn (Some (adq_tenant_id body)) (hst_db s) (hst_ext s))
      (adq_tenant_id body) a eq_refl)). cbn [hcn_db]. rewrite Hrow. reflexivity.
  - rewrite (decide_on_spec _ _ _ _ _ _ _ _ _ Hp Hrow) by done. unfold decision_spec.
    by destruct (awaiting row), (refusal _ _ _ _).
Qed.
End Decision.

(** ** The race for an approval

    The business API answers as it likes; every request made to it is logged. *)

Record Call := MkCall { call_service : Service; call_body : json; call_result : exn + HttpResponse }.

Section Race.
  Context {X : Type} `{HttpPost X, Pydantic}.
  Variable tool_manifests : list (string * ToolManifestEntry).

Abbreviation Logged := (X * list Call)%type.

#[local] Instance logged : HttpPost Logged := fun svc path hs body '(x, log) =>
  let '(x', r) := http_post svc path hs body x in ((x', log ++ [MkCall svc body r]), r).

(** A request of approval [a] that the business API accepted and answered as an execution. *)
Definition executed_call (a : string) (c : Call) : bool :=
  match call_service c, call_body c, call_result c with
  | BusinessApi, JObj kvs, inr r =>
      match dict_get "approval_id" kvs with Some (JStr b) => String.eqb b a | _ => false end &&
      negb (400 <=? hr_status_code r)%Z &&
      match validate_execute (hr_json r) with Some _ => true | None => false end
  | _, _, _ => false
  end.

Definition executions (a : string) (s : HarnessState Logged) : nat :=
  length (List.filter (executed_call a) (hst_ext s).2).

Inductive phase := Arrived | Looked (seen : MutationRow) | Answered.

Abbreviation Race := (HarnessState Logged * list (ApprovalDecisionInternalRequest * phase))%type.

Definition decide_step (a : string) (body : ApprovalDecisionInternalRequest) (seen : MutationRow) :=
  tenant_session (X := Logged) (adq_tenant_id body)
    (decide_on tool_manifests (adq_trace_id body) (adq_tenant_id body) a (adq_approver_user_id body)
       (adq_approver_permissions body) (adq_decision body) seen).

(** A request reads the row; later it decides on what it read, its claim and
    everything after it under the row's lock; the rest of the platform does
    anything but touch the rows of this approval or execute it. *)
Inductive race_step (t a : string) : Race → Race → Prop :=
  | race_look i body row s reqs :
      reqs !! i = Some (body, Arrived) →
      tenant_session (adq_tenant_id body) (get_mutation_request_by_approval_id (adq_tenant_id body) a) s
        = (s, inr (Some row)) →
      race_step t a (s, reqs) (s, <[i := (body, Looked row)]> reqs)
  | race_decide i body seen s s' r reqs :
      reqs !! i = Some (body, Looked seen) →
      decide_step a body seen s = (s', r) →
      race_step t a (s, reqs) (s', <[i := (body, Answered)]> reqs)
  | race_other s s' reqs :
      rows_of t a (hst_db s') = rows_of t a (hst_db s) → executions a s' = executions a s →
      race_step t a (s, reqs) (s', reqs).

Lemma execute_logged domain action token a key tenant actor trace x log x' log' r :
  execute (X := Logged) domain action token (Some a) key tenant actor trace (x, log) = ((x', log'), r) →
  ∃ c, log' = log ++ [c] ∧ (executed_call a c = true ↔ ∃ res, r = inr res).
Proof.
  unfold execute, check_business, model_validate. unfold http_post at 1, logged, bind at 1.
  destruct (http_post BusinessApi _ _ _ x) as [x1 [e|resp]] eqn:Hp; cbn.
  - intros [= <- <- <-]. eexists. split; [reflexivity|]. cbn. split; [done|]. by intros [res ?].
  - unfold bind, ret, raise. destruct (400 <=? _)%Z eqn:Hs; cbn.
    { intros [= <- <- <-]. eexists. split; [reflexivity|]. unfold executed_call. cbn.
      rewrite Hs, andb_false_r. split; [done|]. by intros [res ?]. }
    destruct (validate_execute _) as [v|] eqn:Hv; intros [= <- <- <-]; eexists; (split; [reflexivity|]);
      unfold executed_call; cbn; rewrite Hs, Hv, String.eqb_refl; cbn;
      split; try done; [by eexists|by intros [res ?]].
Qed.

(** What the row keeps through every decision. *)
Definition same_request (r r' : MutationRow) : Prop :=
  mtr_action_name r' = mtr_action_name r ∧ mtr_risk_level r' = mtr_risk_level r ∧
  mtr_preview_payload r' = mtr_preview_payload r ∧ mtr_actor_user_id r' = mtr_actor_user_id r.

Lemma same_request_pending tool level token key r r' :
  same_request r r' → pending_on tool_manifests tool level token key r →
  pending_on tool_manifests tool level token key r'.
Proof.
  intros (Ha & Hl & Hp & _) [? ? (kvs & ? & ? & ?)]. split; [congruence..|]. exists kvs. by rewrite Hp.
Qed.

(** The row was decided by somebody else than its actor. *)
Definition approved_by_other (row : MutationRow) : Prop :=
  mtr_status row = "executed" ∧ ∃ u, mtr_approved_by row = Some u ∧ u ≠ mtr_actor_user_id row.

Lemma decision_step_effect a body tool level token key row (s s' : HarnessState Logged) r :
  rows_of (adq_tenant_id body) a (hst_db s) = [row] → awaiting row = true →
  decision_spec (X := Logged) a body tool level token key row s = (s', r) →
  (hst_db s' = hst_db s ∧ executions a s' = executions a s) ∨
  ∃ row', rows_of (adq_tenant_id body) a (hst_db s') = [row'] ∧ same_request row row' ∧ awaiting row' = false ∧
    (executions a s' = executions a s ∨ (executions a s' = S (executions a s) ∧ approved_by_other row')).
Proof.
  intros Hrow Haw. unfold decision_spec, refusal. destruct (opt_truthy _ && _); [by intros [= <- <-]; left|].
  destruct (str_eqb_spec (adq_approver_user_id body) (mtr_actor_user_id row)) as [|Hother];
    [by intros [= <- <-]; left|].
  pose proof (rows_of_for _ _ _ _ Hrow) as Hfor. rewrite Haw. cbn [negb]. destruct (adq_decision body).
  - unfold execute_spec. destruct s as [d [x log]]. cbn [hst_ext hst_db] in *.
    destruct (execute _ _ _ _ _ _ _ _ (x, log)) as [[x' log'] res] eqn:He.
    apply execute_logged in He as (c & -> & Hc).
    assert (executions a (MkHarnessState d (x', log ++ [c]))
            = executions a (MkHarnessState d (x, log)) + (if executed_call a c then 1 else 0)) as Hcount.
    { unfold executions. cbn. rewrite List.filter_app, length_app. cbn. by destruct (executed_call a c). }
    destruct res as [e|result].
    + intros Hrun. left. assert (s' = MkHarnessState d (x', log ++ [c])) as ->.
      { by destruct e; injection Hrun as <- <-. }
      split; [done|]. rewrite Hcount. destruct (executed_call a c) eqn:E; [|lia].
      by destruct (proj1 Hc eq_refl).
    + intros [= <- <-]. right. eexists. split.
      { apply (rows_amend _ _ _ _ _ Hrow). rewrite resulted_for, claimed_for. exact Hfor. }
      split; [done|]. split; [done|]. right. split; [|split; [done|]; by eexists].
      rewrite (proj2 Hc (ex_intro _ result eq_refl)) in Hcount. unfold executions in *. cbn in *. lia.
  - intros [= <- <-]. right. eexists. split.
    { apply (rows_amend _ _ _ _ _ Hrow). rewrite claimed_for. exact Hfor. }
    split; [done|]. split; [done|]. by left.
Qed.

Lemma decide_step_state a body tool level token key row seen (s : HarnessState Logged) :
  pending_on tool_manifests tool level token key seen →
  rows_of (adq_tenant_id body) a (hst_db s) = [row] →
  mtr_actor_user_id seen = mtr_actor_user_id row → (awaiting row = true → seen = row) →
  (decide_step a body seen s).1
  = if awaiting row then (decision_spec (X := Logged) a body tool level token key row s).1 else s.
Proof.
  intros Hp Hrow Hact Hseen.
  pose proof (decide_on_spec (X := Logged) tool_manifests a body tool level token key row seen s Hp Hrow Hact Hseen) as Hspec.
  transitivity ((let! result := approval_errors (decide_step a body seen) in
    ret (MkApprovalDecisionResponse (adl_approval_id result) (adl_status result) (adl_mutation_status result)
           (adl_business_ref result))) s).1.
  - unfold bind, approval_errors, try_except. destruct (decide_step a body seen s) as [s' [e|res]]; [|done].
    by destruct e.
  - unfold decide_step. rewrite Hspec. destruct (awaiting row); [done|].
    destruct (refusal _ _ _ _); [done|]. unfold already_decided. by case_match.
Qed.

(** While a race is on: the approval still names one row, asking for the same
    thing; whoever looked before it was decided saw it as it is; and it was
    executed at most once, never while it awaits. *)
Definition race_inv (t a : string) (row0 : MutationRow) (c : Race) : Prop :=
  ∃ row, rows_of t a (hst_db c.1) = [row] ∧ same_request row0 row ∧
    (∀ i body ph, c.2 !! i = Some (body, ph) → adq_tenant_id body = t ∧
       ∀ seen, ph = Looked seen → same_request row0 seen ∧ (awaiting row = true → seen = row)) ∧
    (executions a c.1 = 0 ∨ executions a c.1 = 1 ∧ awaiting row = false ∧ approved_by_other row).

Lemma race_inv_phase t a row0 (s' : HarnessState Logged) reqs i body ph row :
  rows_of t a (hst_db s') = [row] → same_request row0 row →
  (∀ j b p, reqs !! j = Some (b, p) → adq_tenant_id b = t ∧
     ∀ seen, p = Looked seen → same_request row0 seen ∧ (awaiting row = true → seen = row)) →
  adq_tenant_id body = t → (∀ seen, ph = Looked seen → seen = row) →
  (executions a s' = 0 ∨ executions a s' = 1 ∧ awaiting row = false ∧ approved_by_other row) →
  race_inv t a row0 (s', <[i := (body, ph)]> reqs).
Proof.
  intros Hrow Hsame Hreqs Ht Hph Hex. exists row. split; [done|]. split; [done|]. split; [|done].
  intros j b p Hj. cbn in Hj. apply list_lookup_insert_Some in Hj as [(-> & [= <- <-] & _)|(_ & Hj)]; [|by apply Hreqs in Hj].
  split; [done|]. intros seen Hs. by rewrite (Hph seen Hs).
Qed.

Lemma race_inv_step t a tool level token key row0 (c c' : Race) :
  pending_on tool_manifests tool level token key row0 →
  race_inv t a row0 c → race_step t a c c' → race_inv t a row0 c'.
Proof.
  intros Hp (row & Hrow & Hsame & Hreqs & Hex) Hstep.
  destruct Hstep as [i body seen s reqs Hi Hget|i body seen s s' r reqs Hi Hdec|s s' reqs Hrows Hcount];
    cbn [fst snd] in *.
  - destruct (Hreqs _ _ _ Hi) as [Ht _].
    rewrite Ht, look_session, Hrow in Hget. injection Hget as <-.
    eapply race_inv_phase; try done. by intros r [= <-].
  - destruct (Hreqs _ _ _ Hi) as [Ht Hlook]. destruct (Hlook seen eq_refl) as [Hseen Heq].
    pose proof (decide_step_state a body tool level token key row seen s) as Hst. rewrite Hdec, Ht in Hst. cbn in Hst.
    specialize (Hst (same_request_pending _ _ _ _ _ _ Hseen Hp) Hrow). rewrite Hst; [|destruct Hseen as (_ & _ & _ & ->);
      by destruct Hsame as (_ & _ & _ & ->)|done].
    destruct (awaiting row) eqn:Haw; [|by apply (race_inv_phase t a row0 s reqs i body Answered row); rewrite ?Haw].
    destruct (decision_spec _ _ _ _ _ _ _ s) as [s1 r1] eqn:Hspec. cbn. rewrite <- Ht in Hrow.
    destruct Hex as [Hex|(_ & Hbad & _)]; [|done].
    apply decision_step_effect in Hspec as [[Hdb Hn]|(row' & Hrow' & Hsr & Haw' & Hn)]; [..|done|done].
    + eapply race_inv_phase; [by rewrite Hdb, <- Ht|done| |done|done|left; by rewrite Hn].
      intros j b p Hj. rewrite Haw. by eapply Hreqs.
    + eapply race_inv_phase; [by rewrite <- Ht| | |done|done|].
      * by destruct Hsame as (? & ? & ? & ?), Hsr as (? & ? & ? & ?); repeat split; etrans.
      * intros j b p Hj. destruct (Hreqs j b p Hj) as [Hb Hl]. split; [done|]. intros sn Hsn.
        split; [by apply Hl|]. by rewrite Haw'.
      * destruct Hn as [->|[-> Happ]]; [by left|right]. by rewrite Hex.
  - exists row. cbn. rewrite Hrows, Hcount. done.
Qed.

(** C11: An approved mutation is executed at most once. However any number of
    decisions on one approval interleave - each reading the row, then deciding
    on what it read - with each other and with the rest of the platform, the
    business API answers at most one execution of it; when it did, the row says
    executed and names an approver who is not its actor. *)
Theorem approval_executes_once t a tool level token key row s reqs s' reqs' :
  pending_on tool_manifests tool level token key row →
  rows_of t a (hst_db s) = [row] → executions a s = 0 →
  Forall (fun q => adq_tenant_id q.1 = t ∧ q.2 = Arrived) reqs →
  rtc (race_step t a) (s, reqs) (s', reqs') →
  executions a s' ≤ 1 ∧
  (executions a s' = 1 → ∃ row', rows_of t a (hst_db s') = [row'] ∧ approved_by_other row').
Proof.
  intros Hp Hrow H0' Hreqs Hrun.
  assert (race_inv t a row (s', reqs')) as (row' & Hrow' & _ & _ & Hex).
  { assert (race_inv t a row (s, reqs)) as Hinv.
    { exists row. split; [done|]. split; [done|]. split; [|by left]. intros i body ph Hi.
      destruct (Forall_lookup_1 _ _ _ _ Hreqs Hi) as [Ht Hph]. cbn in Ht, Hph. subst. by split. }
    revert Hinv. generalize (s', reqs') as c', (s, reqs) as c, Hrun.
    induction 1; eauto using race_inv_step. }
  cbn [fst] in *. destruct Hex as [->|(-> & _ & Happ)]; split; [lia|done|lia|by eexists].
Qed.
End Race.

(** ** The theorems at one approval and two approvers *)

Module Witness.
#[local] Instance env_pydantic : Pydantic := strict_pydantic.

Definition executed_response : HttpResponse :=
  MkHttpResponse 200 "" (JObj [("action", JStr "submit_leave_request"); ("status", JStr "executed");
    ("business_ref", JStr "LV-1")]) [].

(** A business API that executes whatever it is asked to. *)
#[local] Instance env_http : HttpPost unit := fun _ _ _ _ u => (u, inr executed_response).

Definition leave_tool : ToolManifestEntry :=
  MkToolManifestEntry "submit_leave_request" MUTATION [INTERNAL] MEDIUM "" "SubmitLeaveRequestParams" "hr"
    "submit_leave_request" ["leave.request.create"] SELF (Some "employee_id") [] []
    (Some "leave.request.approve") false.

Definition manifests := [("submit_leave_request", leave_tool)].

Definition row : MutationRow :=
  MkMutationRow "run_1" "trc_1" "tnt_a" "usr_1" "submit_leave_request" "high"
    (JObj [("params", JObj []); ("preview_token", JStr "pv_1"); ("idempotency_key", JStr "exec_1")])
    (Some "apr_1") None None "exec_1" "awaiting_approval" None None.

Definition db : HarnessDb := MkHarnessDb ∅ ∅ ∅ ∅ {["mrq_1" := row]} ∅ ∅ ∅ "2026-01-01T00:00:00Z".

Definition request (user : string) : ApprovalDecisionInternalRequest :=
  MkApprovalDecisionInternalRequest "trc_2" "tnt_a" user ["leave.request.approve"] APPROVE.

Lemma row_pending : pending_on manifests leave_tool HIGH "pv_1" "exec_1" row.
Proof. split; [reflexivity..|]. eexists. by repeat split. Qed.

Lemma approval_decision_outcome_witness :
  approval_decision manifests "apr_1" (request "usr_2") (MkHarnessState db tt)
  = decision_spec "apr_1" (request "usr_2") leave_tool HIGH "pv_1" "exec_1" row (MkHarnessState db tt) ∧
  (approval_decision manifests "apr_1" (request "usr_2") (MkHarnessState db tt)).2
  = inr (MkApprovalDecisionResponse "apr_1" "approved" "executed" (Some "LV-1")).
Proof.
  split; [|vm_compute; reflexivity].
  apply (approval_decision_outcome manifests "apr_1" (request "usr_2") leave_tool HIGH "pv_1" "exec_1" row
           (MkHarnessState db tt) row_pending). vm_compute. reflexivity.
Defined.

(** Both read the awaiting row, then both approve. *)
Definition start : HarnessState (unit * list Call) := MkHarnessState db (tt, []).
Definition after1 := (decide_step manifests "apr_1" (request "usr_2") row start).1.
Definition after2 := (decide_step manifests "apr_1" (request "usr_3") row after1).1.

Lemma approval_executes_once_witness :
  executions "apr_1" after2 = 1 ∧
  ∃ row', rows_of "tnt_a" "apr_1" (hst_db after2) = [row'] ∧ approved_by_other row'.
Proof.
  assert (executions "apr_1" after2 = 1) as Hone by (vm_compute; reflexivity).
  split; [exact Hone|].
  refine (proj2 (approval_executes_once manifests "tnt_a" "apr_1" leave_tool HIGH "pv_1" "exec_1" row start
    [(request "usr_2", Arrived); (request "usr_3", Arrived)] after2
    [(request "usr_2", Answered); (request "usr_3", Answered)] row_pending _ _ _ _) Hone).
  - vm_compute. reflexivity.
  - reflexivity.
  - by repeat constructor.
  - eapply rtc_l; [apply (race_look _ _ _ 0 (request "usr_2") row); [reflexivity|vm_compute; reflexivity]|].
    eapply rtc_l; [apply (race_look _ _ _ 1 (request "usr_3") row); [reflexivity|vm_compute; reflexivity]|].
    eapply rtc_l; [eapply (race_decide _ _ _ 0 (request "usr_2") row); [reflexivity|apply surjective_pairing]|].
    eapply rtc_l; [eapply (race_decide _ _ _ 1 (request "usr_3") row); [reflexivity|apply surjective_pairing]|].
    apply rtc_refl.
Defined.
(** The second approver agreed with the first, and is told of a conflict: the
    status the answer compares with is the one it read before the claim. *)
Example concurrent_agreement_conflicts :
  (decide_step manifests "apr_1" (request "usr_3") row after1).2
  = inl (ApprovalError 409 "mutation request already decided (status=awaiting_approval)").
Proof. vm_compute. reflexivity. Qed.
End Witness.
