(* ===== verification/Runner.v ===== *)
(** One run of agent-harness from request to response (graph/runner.py,
    eval_bundle.py) and the remaining internal routes (api/routes.py): the graph
    runs, everything it recorded is written in one transaction, the response is
    built from the same state.

    LangGraph's checkpointer is a parameter: what it makes of a thread's saved
    values and the new input is [thread_input]. *)
From S2P Require Import Prelude PyStr Json Presidio Http Tracing Contracts Wire Clients Authz Executor Guardrails SemCache.
From S2P Require Import Graph HarnessDb.

(** ** eval_bundle.py *)

(** [json.dumps(v, sort_keys=True)] prints every object by ascending key. *)
Fixpoint sort_keys (j : json) : json :=
  match j with
  | JArr l => JArr (map sort_keys l)
  | JObj kvs => JObj (sort_by (fun a b => String.leb a.1 b.1) (map (fun kv => (kv.1, sort_keys kv.2)) kvs))
  | _ => j
  end.

(* @ harness/eval_bundle.py:18-20 args_hash *)
Definition args_hash `{Sha256, FloatRepr} (arguments : pydict) : string :=
  sha256 (json_dumps (sort_keys (JObj arguments))).

(** [{c.chunk_id: c.content for c in retrieved_chunks}]. *)
Definition chunk_contents (chunks : list RetrievedChunkState) : list (string * string) :=
  fold_left (fun d c => dict_set (rcs_chunk_id c) (rcs_content c) d) chunks [].

(* @ harness/eval_bundle.py:36-41 build_eval_bundle: tools_called *)
Definition tool_call_record `{Sha256, FloatRepr, Pydantic} {S} (record : ToolInvocationRecord) : py S ToolCallRecord :=
  match enum_of_string (tir_status record) with
  | Some status => ret (MkToolCallRecord (tir_tool_name record) (args_hash (tir_arguments record)) status)
  | None => raise (ValidationError (validation_text "ToolCallRecord" (JStr (tir_status record))))
  end.

(* @ harness/eval_bundle.py:23-58 build_eval_bundle *)
Definition build_eval_bundle `{Sha256, FloatRepr, Pydantic} {S} (state : AgentState) (prompt_version : string)
    : py S EvalDebugBundle :=
  let chunk_ids := rcs_chunk_id <$> st_retrieved_chunks state in
  let! tools_called := map_each tool_call_record (st_tool_invocation_records state) in
  if (st_tool_iterations state <? 0)%Z
  then raise (ValidationError (validation_text "EvalDebugBundle" (JInt (st_tool_iterations state))))
  else ret
    {| evb_tools_offered := st_tools_offered state; evb_tools_called := tools_called;
       evb_mutations_executed := st_mutations_executed state;
       evb_mutations_previewed := st_mutations_previewed state;
       evb_retrieved_chunk_ids := chunk_ids; evb_chunks_in_prompt := chunk_ids;
       evb_retrieved_chunk_contents := chunk_contents (st_retrieved_chunks state);
       evb_refused := st_refused state; evb_refusal_reason := st_refusal_reason state;
       evb_guardrail_events :=
         (fun e => MkGuardrailEventRecord (gev_stage e) (gev_rule_id e) (gev_action_taken e))
         <$> st_guardrail_events state;
       evb_prompt_version := prompt_version; evb_model_alias := st_model_alias state;
       evb_iterations := st_tool_iterations state |}.

(* @ harness/eval_bundle.py:61-74 eval_mode_abuse_event *)
Definition eval_mode_abuse_event : GuardrailEvent :=
  MkGuardrailEvent INPUT "eval_mode_abuse" "warning" BLOCK None.

(* @ harness/config.py:73-75 Settings.eval_tenant_id_set *)
Definition eval_tenant_id_set (eval_tenant_ids : string) : list string :=
  List.filter (fun t => negb (String.eqb t "")) (str_strip <$> str_split_on "," eval_tenant_ids).

(** ** graph/runner.py *)

(** What LangGraph starts a thread's run from: the values it saved for the
    thread, overwritten by the input. *)
Class Checkpointer (X : Type) := thread_input : string → AgentState → py X AgentState.

(** [redis.set] and [redis.delete] of the admin routes. *)
Class AdminRedis (X : Type) := {
  redis_set : string → string → py X unit;
  redis_delete : string → py X unit
}.

(** What the application was started with. *)
Record AppState := MkAppState {
  app_graph : GraphConfig;
  app_audience : Audience;
  app_eval_tenant_ids : string
}.

(* @ harness/graph/runner.py:34-34 AGENT_VERSION *)
Definition AGENT_VERSION := "harness@0.1.0".

(* @ harness/graph/runner.py:43-57 run_agent: initial_state *)
Definition initial_state (request : AgentRunRequest) : AgentState :=
  MkAgentState (run_trace_id request) (run_tenant_id request) (run_user_id request) (run_agent_id request)
    (run_acl_group_ids request) (run_employee_id request) (run_permissions request) (run_roles request)
    (run_scope_context request) (run_subject_token request) (opt_allow_mutations (run_options request))
    (ain_content (run_input request)) "agent-primary" (run_model_router_key_override request)
    [] [] [] [] [] [] false None [] false None [] [] [] 0 [] [] [] [] [] [] None [] 0 0 f64_zero.

Section Runner.
  Context {X : Type} `{HttpPost X, Uuid X, PolicyResolver X, CacheIndex X, Checkpointer X, PerfCounter X,
                       AdminRedis X, LangfuseSdk X}.
  Context `{Pydantic, JsonLoads, FloatParse, FloatRepr, Presidio, Sha256}.
  Variable app : AppState.

Abbreviation Conn := (HarnessConn X).

Definition on_conn {A} : py X A → py Conn A := zoom hcn_ext (fun x c => c <| hcn_ext := x |>).
Definition in_ext {A} : py X A → py (HarnessState X) A := zoom hst_ext (fun x s => s <| hst_ext := x |>).

Definition text_content (text : json) : pydict := [("type", JStr "text"); ("content", text)].

(* @ harness/graph/runner.py:126-139 run_agent: one guardrail event *)
Definition persist_event (request : AgentRunRequest) (event : GuardrailEvent) : py Conn unit :=
  let! event_id := on_conn (uuid_id "gev_") in
  insert_guardrail_event event_id (run_run_id request) (run_trace_id request) (run_tenant_id request)
    (enum_value (gev_stage event)) (gev_rule_id event) (gev_severity event)
    (enum_value (gev_action_taken event)) (gev_detail event).

(* @ harness/graph/runner.py:140-152 run_agent: one tool invocation *)
Definition persist_invocation (request : AgentRunRequest) (r : ToolInvocationRecord) : py Conn unit :=
  let! invocation_id := on_conn (uuid_id "tiv_") in
  insert_tool_invocation invocation_id (run_run_id request) (run_trace_id request) (run_tenant_id request)
    (tir_tool_name r) (tir_tool_kind r) (tir_arguments r) (tir_result_summary r) (tir_status r).

(* @ harness/graph/runner.py:153-169 run_agent: one mutation request *)
Definition persist_mutation (request : AgentRunRequest) (m : MutationRequestRecord) : py Conn unit :=
  insert_mutation_request (mrr_id m) (run_run_id request) (run_trace_id request) (run_tenant_id request)
    (run_user_id request) (mrr_action_name m) (mrr_risk_level m) (mrr_preview_payload m) (mrr_approval_id m)
    (mrr_idempotency_key m) (mrr_status m) (mrr_business_ref m) (mrr_executed_at m).

(* @ harness/graph/runner.py:170-187 run_agent: one authorization decision *)
Definition persist_decision (request : AgentRunRequest) (r : AuthzDecisionRecord) : py Conn unit :=
  let! decision_id := on_conn (uuid_id "azd_") in
  insert_authz_decision decision_id (run_run_id request) (run_trace_id request) (run_tenant_id request)
    (run_user_id request) (run_roles request) (run_agent_id request) (enum_value (app_audience app))
    (adr_tool_name r) (adr_decision r) (adr_deny_reason r) (adr_missing_permissions r) (adr_data_scope r)
    (adr_scope_satisfied r).

(* @ harness/graph/runner.py:85-187 run_agent: the transaction *)
Definition persist_run (request : AgentRunRequest) (conversation_id : string) (latency_ms : Z)
    (events : list GuardrailEvent) (state : AgentState) : py Conn unit :=
  let tenant_id := run_tenant_id request in
  ensure_conversation conversation_id tenant_id (run_user_id request) (run_agent_id request) ;!
  let! user_message := on_conn (uuid_id "msg_") in
  insert_message user_message conversation_id tenant_id "user"
    (text_content (JStr (ain_content (run_input request)))) ;!
  let! assistant_message := on_conn (uuid_id "msg_") in
  insert_message assistant_message conversation_id tenant_id "assistant"
    (text_content (j_opt_str (st_output_text state))) ;!
  insert_agent_run (run_run_id request) (run_trace_id request) tenant_id conversation_id (run_agent_id request)
    AGENT_VERSION PROMPT_VERSION (enum_value (run_execution_mode request))
    (if st_refused state then "blocked" else "succeeded") (st_input_tokens state) (st_output_tokens state)
    (st_cost_usd state) latency_ms (st_cache_hit state) None ;!
  for_each events (persist_event request) ;!
  for_each (st_tool_invocation_records state) (persist_invocation request) ;!
  for_each (st_mutation_request_records state) (persist_mutation request) ;!
  for_each (st_authz_decision_records state) (persist_decision request).

(** [AgentInvokeResponse(...)]: its text is a string, its usage non-negative. *)
(* @ harness/graph/runner.py:215-230 run_agent: the response *)
Definition build_response (request : AgentRunRequest) (conversation_id : string)
    (eval_bundle : option EvalDebugBundle) (state : AgentState) : py (HarnessState X) AgentInvokeResponse :=
  match st_output_text state with
  | None => raise (ValidationError (validation_text "AgentOutput" JNull))
  | Some output_text =>
      if (0 <=? st_input_tokens state)%Z && (0 <=? st_output_tokens state)%Z
         && f64_leb f64_zero (st_cost_usd state)
      then ret (MkAgentInvokeResponse (run_run_id request) conversation_id (run_trace_id request)
                  (MkAgentOutput output_text (st_citations state))
                  (MkUsage (st_input_tokens state) (st_output_tokens state) (st_cost_usd state))
                  (st_degraded state) (st_pending_approvals state) (st_cache_hit state) eval_bundle)
      else raise (ValidationError (validation_text "Usage" JNull))
  end.

(* @ harness/graph/runner.py:190-197 run_agent: one cited chunk *)
Definition cited_chunk_of (contents : list (string * string)) (citation : Citation) : json :=
  JObj [("chunk_id", JStr (cit_chunk_id citation)); ("source_uri", JStr (cit_source_uri citation));
        ("content", JStr (from_option id "" (dict_get (cit_chunk_id citation) contents)))].

(** The trace shows the message as the user sent it, and the restored answer. *)
(* @ harness/graph/runner.py:189-213 run_agent: the trace *)
Definition trace_run (request : AgentRunRequest) (state : AgentState) : X → X :=
  record_run (run_trace_id request) (run_tenant_id request) (run_user_id request) (run_agent_id request)
    (enum_value (run_execution_mode request)) (st_model_alias (initial_state request))
    (JStr (ain_content (run_input request))) (j_opt_str (st_output_text state))
    (st_input_tokens state) (st_output_tokens state) (st_cache_hit state)
    (cited_chunk_of (chunk_contents (st_retrieved_chunks state)) <$> st_citations state).

(** The bundle and the events to record: only an evaluation tenant gets one,
    anybody else's asking for it is an event. *)
(* @ harness/graph/runner.py:76-83 run_agent: X-Eval-Mode *)
Definition eval_grant (request : AgentRunRequest) (state : AgentState)
    : py (HarnessState X) (option EvalDebugBundle * list GuardrailEvent) :=
  if negb (run_eval_mode_requested request) then ret (None, st_guardrail_events state)
  else if str_in (run_tenant_id request) (eval_tenant_id_set (app_eval_tenant_ids app))
  then let! b := build_eval_bundle state PROMPT_VERSION in ret (Some b, st_guardrail_events state)
  else ret (None, st_guardrail_events state ++ [eval_mode_abuse_event]).

(* @ harness/graph/runner.py:40-40 run_agent: conversation_id *)
Definition conversation_for (request : AgentRunRequest) : py (HarnessState X) string :=
  let conversation := str_or (run_conversation_id request) "" in
  if String.eqb conversation "" then in_ext (uuid_id "conv_") else ret conversation.

(* @ harness/graph/runner.py:37-230 run_agent *)
Definition run_agent (request : AgentRunRequest) : py (HarnessState X) AgentInvokeResponse :=
  let! conversation_id := conversation_for request in
  let! start := in_ext (thread_input conversation_id (initial_state request)) in
  let! state := in_ext (ainvoke (app_graph app) start) in
  let! latency_ms := in_ext elapsed_ms in
  let! '(eval_bundle, events) := eval_grant request state in
  tenant_session (run_tenant_id request) (persist_run request conversation_id latency_ms events state) ;!
  modify (fun s => s <| hst_ext ::= trace_run request state |>) ;!
  build_response request conversation_id eval_bundle state.

(** ** api/routes.py *)

(* @ harness/api/routes.py:23-33 create_run *)
Definition create_run (request : AgentRunRequest) : py (HarnessState X) AgentInvokeResponse :=
  try_except (run_agent request)
    (fun e => match e with
              | GuardrailServiceError _ => Some (raise (HTTPException 503 (JStr (exn_str e)) []))
              | _ => None end).

Definition flip (key : string) (disabled : bool) : py (HarnessState X) unit :=
  in_ext (if disabled then redis_set key "disabled" else redis_delete key).

(* @ harness/api/routes.py:67-91 killswitch_tool *)
Definition killswitch_tool (tool_name : string) (body : KillswitchInternalRequest)
    : py (HarnessState X) KillswitchResponse :=
  flip ("killswitch:tool:" +:+ tool_name) (kir_disabled body) ;!
  admin_session (upsert_tool_override tool_name (kir_disabled body) (kir_reason body) (kir_changed_by body)) ;!
  ret (MkKillswitchResponse tool_name "tool" (kir_disabled body)).

(* @ harness/api/routes.py:94-108 killswitch_agent *)
Definition killswitch_agent (agent_id : string) (body : KillswitchInternalRequest)
    : py (HarnessState X) KillswitchResponse :=
  flip ("killswitch:agent:" +:+ agent_id) (kir_disabled body) ;!
  ret (MkKillswitchResponse agent_id "agent" (kir_disabled body)).

(** [CacheInvalidateResponse(invalidated_count=n)], by its one field. *)
(* @ harness/api/routes.py:111-124 cache_invalidate *)
Definition cache_invalidate (body : CacheInvalidateRequest) : py (HarnessState X) Z :=
  in_ext (invalidate_by_documents (civ_tenant_id body) (civ_document_ids body)).
End Runner.
