(* ===== verification/RunnerProps.v ===== *)
(** What a run leaves behind: its records, all or none, in its own tenant; the
    approvals its response announces; and what the admin routes change. *)
From S2P Require Import Prelude PyStr Json Presidio Http Tracing Contracts Wire Clients Authz Executor ExecutorProps.
From S2P Require Import Guardrails SemCache Graph GraphProps HarnessDb Runner.

(** ** The rows of a run *)

Section Rows.
  Variable app : AppState.
  Variable request : AgentRunRequest.

Definition event_row (e : GuardrailEvent) : GuardrailEventRow :=
  MkGuardrailEventRow (run_run_id request) (run_trace_id request) (run_tenant_id request)
    (enum_value (gev_stage e)) (gev_rule_id e) (gev_severity e) (enum_value (gev_action_taken e))
    (JObj <$> gev_detail e).

Definition invocation_row (r : ToolInvocationRecord) : ToolInvocationRow :=
  MkToolInvocationRow (run_run_id request) (run_trace_id request) (run_tenant_id request) (tir_tool_name r)
    (tir_tool_kind r) (JObj (tir_arguments r)) (JObj <$> tir_result_summary r) (tir_status r).

Definition mutation_row (m : MutationRequestRecord) : MutationRow :=
  MkMutationRow (run_run_id request) (run_trace_id request) (run_tenant_id request) (run_user_id request)
    (mrr_action_name m) (mrr_risk_level m) (JObj (mrr_preview_payload m)) (mrr_approval_id m) None None
    (mrr_idempotency_key m) (mrr_status m) (mrr_executed_at m) (mrr_business_ref m).

Definition decision_row (r : AuthzDecisionRecord) : AuthzDecisionRow :=
  MkAuthzDecisionRow (run_run_id request) (run_trace_id request) (run_tenant_id request) (run_user_id request)
    (run_roles request) (run_agent_id request) (enum_value (app_audience app)) (adr_tool_name r)
    (adr_decision r) (adr_deny_reason r) (adr_missing_permissions r) (adr_data_scope r)
    (adr_scope_satisfied r).

Definition run_row (conversation_id : string) (latency_ms : Z) (state : AgentState) : AgentRunRow :=
  MkAgentRunRow (run_trace_id request) (run_tenant_id request) conversation_id (run_agent_id request)
    AGENT_VERSION PROMPT_VERSION (enum_value (run_execution_mode request))
    (if st_refused state then "blocked" else "succeeded") (st_input_tokens state) (st_output_tokens state)
    (st_cost_usd state) (st_cache_hit state) latency_ms None.

Definition message_row (conversation_id role : string) (text : json) : MessageRow :=
  MkMessageRow conversation_id (run_tenant_id request) role (JObj (text_content text)).

(** A run is recorded: nothing but rows of its tenant was added, among them the
    run, its two messages, and a row for every record of its final state. *)
Record recorded (conversation_id : string) (latency_ms : Z) (events : list GuardrailEvent)
    (state : AgentState) (d d' : HarnessDb) : Prop := {
  rd_adds : adds (run_tenant_id request) d d';
  rd_run : hdb_agent_runs d !! run_run_id request = None ∧
    hdb_agent_runs d' !! run_run_id request = Some (run_row conversation_id latency_ms state);
  rd_messages : each_recorded messages_table id
    [message_row conversation_id "user" (JStr (ain_content (run_input request)));
     message_row conversation_id "assistant" (j_opt_str (st_output_text state))] d d';
  rd_events : each_recorded guardrail_events_table event_row events d d';
  rd_invocations : each_recorded tool_invocations_table invocation_row (st_tool_invocation_records state) d d';
  rd_mutations : each_recorded mutation_requests_table mutation_row (st_mutation_request_records state) d d';
  rd_decisions : each_recorded authz_decisions_table decision_row (st_authz_decision_records state) d d'
}.
End Rows.

Section Persist.
  Context {X : Type} `{HttpPost X, Uuid X, PolicyResolver X, CacheIndex X, Checkpointer X, PerfCounter X,
                       AdminRedis X, LangfuseSdk X}.
  Context `{Pydantic, JsonLoads, FloatParse, FloatRepr, Presidio, Sha256}.
  Variable app : AppState.
  Variable request : AgentRunRequest.

#[local] Abbreviation t := (run_tenant_id request).

Lemma on_conn_adding {A} (m : py X A) : adding t (fun d d' _ => d' = d) (on_conn m).
Proof. by apply adding_ext. Qed.

(** A fresh id, then an insertion under it. *)
Lemma fresh_insert_adding {A} (tb : Table A) `{!GrowingTable tb} prefix row :
  adding t (fun d d' _ => ∃ id, inserted tb id row d d')
    (let! i := on_conn (X := X) (uuid_id prefix) in insert_row tb i row).
Proof.
  eapply adding_mono; [apply adding_bind; [apply on_conn_adding|intros i; apply insert_row_adding, _]|].
  intros d d' a _ (d1 & i & -> & (_ & Hi) & _). by exists i.
Qed.

Lemma persist_event_adding e :
  adding t (fun d d' _ => ∃ id, inserted guardrail_events_table id (event_row request e) d d')
    (persist_event (X := X) request e).
Proof. apply (fresh_insert_adding guardrail_events_table). Qed.

Lemma persist_invocation_adding r :
  adding t (fun d d' _ => ∃ id, inserted tool_invocations_table id (invocation_row request r) d d')
    (persist_invocation (X := X) request r).
Proof. apply (fresh_insert_adding tool_invocations_table). Qed.

Lemma persist_decision_adding r :
  adding t (fun d d' _ => ∃ id, inserted authz_decisions_table id (decision_row app request r) d d')
    (persist_decision (X := X) app request r).
Proof. apply (fresh_insert_adding authz_decisions_table). Qed.

Lemma persist_mutation_adding m :
  adding t (fun d d' _ => ∃ id, inserted mutation_requests_table id (mutation_row request m) d d')
    (persist_mutation (X := X) request m).
Proof.
  eapply adding_mono; [apply (insert_row_adding mutation_requests_table)|].
  intros d d' a _ (_ & Hi). by exists (mrr_id m).
Qed.

Lemma ensure_conversation_adding c u a :
  adding (X := X) t (fun _ _ _ => True) (ensure_conversation c t u a).
Proof.
  intros c0 c' [] Hc. unfold ensure_conversation, bind, gets.
  destruct (_ && _ && _); [by intros [= <-]|]. intros E.
  by destruct (insert_row_adding conversations_table t _ _ _ _ _ Hc E) as (? & ? & _).
Qed.

Lemma inserted_each {A} (tb : Table A) i row d d' : inserted tb i row d d' → each_recorded tb id [row] d d'.
Proof. intros Hi. exists [i]. split; [by apply NoDup_singleton|]. constructor; [exact Hi|constructor]. Qed.

Lemma persist_run_adding conversation_id latency_ms events state :
  adding t (fun d d' _ => recorded app request conversation_id latency_ms events state d d')
    (persist_run (X := X) app request conversation_id latency_ms events state).
Proof.
  unfold persist_run. eapply adding_mono.
  { apply adding_bind; [apply ensure_conversation_adding|intros ?].
    apply adding_bind; [apply on_conn_adding|intros i1]. apply adding_bind; [apply (insert_row_adding messages_table)|intros ?].
    apply adding_bind; [apply on_conn_adding|intros i2]. apply adding_bind; [apply (insert_row_adding messages_table)|intros ?].
    apply adding_bind; [apply (insert_row_adding agent_runs_table)|intros ?].
    apply adding_bind; [apply (for_each_adding guardrail_events_table), persist_event_adding|intros ?].
    apply adding_bind; [apply (for_each_adding tool_invocations_table), persist_invocation_adding|intros ?].
    apply adding_bind; [apply (for_each_adding mutation_requests_table), persist_mutation_adding|intros ?].
    apply (for_each_adding authz_decisions_table), persist_decision_adding. }
  intros d d' u Hadds (d1 & u1 & _ & (d2 & i1 & -> & (d3 & u3 & [_ Hm1] & (d4 & i2 & -> & (d5 & u5 & [_ Hm2] &
    (d6 & u6 & [_ Hrun] & (d7 & u7 & Hev & (d8 & u8 & Hinv & (d9 & u9 & Hmut & Hdec & A9 & B9) & A8 & B8)
    & A7 & B7) & A6 & B6) & A5 & B5) & A4 & B4) & A3 & B3) & A2 & B2) & A1 & B1).
  assert (adds t d d3) as C3 by (by etrans). assert (adds t d d5) as C5 by (by etrans).
  assert (adds t d d6) as C6 by (by etrans). assert (adds t d d7) as C7 by (by etrans).
  assert (adds t d d8) as C8 by (by etrans). assert (adds t d d9) as C9 by (by etrans).
  split.
  - done.
  - by apply (inserted_weaken agent_runs_table t _ _ d d5 d6 d') in Hrun as (_ & Hn & Hs).
  - eapply (each_recorded_cons messages_table id t _ _ i1 d d3); 
      [|eapply (each_recorded_weaken messages_table id t _ d3 d3 d5 d'); [done|done|by eapply inserted_each]|done|done].
    by eapply (inserted_weaken messages_table t _ _ d d1 d3).
  - by eapply (each_recorded_weaken _ _ t _ _ d6 d7).
  - by eapply (each_recorded_weaken _ _ t _ _ d7 d8).
  - by eapply (each_recorded_weaken _ _ t _ _ d8 d9).
  - by eapply (each_recorded_weaken _ _ t _ _ d9 d').
Qed.
End Persist.

(** ** Exactly the rows of a run *)

Section Exactly.
  Context {X : Type} `{HttpPost X, Uuid X, PolicyResolver X, CacheIndex X, Checkpointer X, PerfCounter X,
                       AdminRedis X, LangfuseSdk X}.
  Context `{Pydantic, JsonLoads, FloatParse, FloatRepr, Presidio, Sha256}.
  Variable app : AppState.
  Variable request : AgentRunRequest.

(** Every table has gained the rows of the run and no other; the conversation's row
    is written by its first run. *)
Record exactly (conversation_id : string) (latency_ms : Z) (events : list GuardrailEvent) (state : AgentState)
    (d d' : HarnessDb) : Prop := {
  ex_conversation : ∃ new, changes conversations_table new d d' ∧
    (new = [] ∨ new = [MkConversationRow (run_tenant_id request) (run_user_id request) (run_agent_id request)]);
  ex_messages : changes messages_table
    [message_row request conversation_id "user" (JStr (ain_content (run_input request)));
     message_row request conversation_id "assistant" (j_opt_str (st_output_text state))] d d';
  ex_run : changes agent_runs_table [run_row request conversation_id latency_ms state] d d';
  ex_events : changes guardrail_events_table (event_row request <$> events) d d';
  ex_invocations : changes tool_invocations_table (invocation_row request <$> st_tool_invocation_records state) d d';
  ex_mutations : changes mutation_requests_table (mutation_row request <$> st_mutation_request_records state) d d';
  ex_decisions : changes authz_decisions_table (decision_row app request <$> st_authz_decision_records state) d d'
}.

Lemma ensure_conversation_elsewhere {A} (tb : Table A) c t u a :
  (∀ f d, tb_rows tb (tb_put conversations_table f d) = tb_rows tb d) →
  writes (X := X) tb [] (ensure_conversation c t u a).
Proof.
  intros Hother s s' []. unfold ensure_conversation, bind, gets.
  destruct (_ && _ && _); [intros [= <-]; by apply changes_none|]. by apply (writes_other tb conversations_table).
Qed.

(** One statement after the other: those of the table, and the rest. *)
#[local] Ltac statement :=
  lazymatch goal with
  | |- writes _ _ (ensure_conversation _ _ _ _) => apply ensure_conversation_elsewhere; reflexivity
  | |- writes _ _ (on_conn _) => apply writes_ext; reflexivity
  | |- writes _ _ (bind _ _) => eapply writes_bind; [|intros ?]
  | |- writes _ _ (insert_row _ _ _) => first [apply writes_insert, _ | apply writes_other; reflexivity]
  | |- writes _ _ (for_each _ _) => first [apply writes_each; intros ?; record | apply writes_each_none; intros ?; record]
  end
with record :=
  unfold persist_event, persist_invocation, persist_mutation, persist_decision, insert_guardrail_event,
    insert_tool_invocation, insert_mutation_request, insert_authz_decision;
  eapply writes_as; [solve [repeat statement]|reflexivity].

#[local] Ltac run_rows :=
  eapply writes_as; [unfold insert_message, insert_agent_run; repeat statement|cbn; rewrite ?app_nil_r; reflexivity].

Lemma ensure_conversation_exactly c c0 c1 :
  ensure_conversation (X := X) c (run_tenant_id request) (run_user_id request) (run_agent_id request) c0 = (c1, inr tt) →
  ∃ new, changes conversations_table new (hcn_db c0) (hcn_db c1) ∧
    (new = [] ∨ new = [MkConversationRow (run_tenant_id request) (run_user_id request) (run_agent_id request)]).
Proof.
  unfold ensure_conversation, bind at 1, gets. destruct (_ && _ && _).
  - intros [= <-]. exists []. split; [by apply changes_none|by left].
  - intros Hi. eexists. split; [exact (writes_insert conversations_table _ _ _ _ _ Hi)|by right].
Qed.

Section Written.
  Variables (conversation_id : string) (latency_ms : Z) (events : list GuardrailEvent) (state : AgentState).
  Abbreviation run := (persist_run (X := X) app request conversation_id latency_ms events state).

Lemma run_messages : writes messages_table
  [message_row request conversation_id "user" (JStr (ain_content (run_input request)));
   message_row request conversation_id "assistant" (j_opt_str (st_output_text state))] run.
Proof. unfold persist_run. run_rows. Qed.

Lemma run_runs : writes agent_runs_table [run_row request conversation_id latency_ms state] run.
Proof. unfold persist_run. run_rows. Qed.

Lemma run_guardrail_events : writes guardrail_events_table (event_row request <$> events) run.
Proof. unfold persist_run. run_rows. Qed.

Lemma run_invocations : writes tool_invocations_table (invocation_row request <$> st_tool_invocation_records state) run.
Proof. unfold persist_run. run_rows. Qed.

Lemma run_mutations : writes mutation_requests_table (mutation_row request <$> st_mutation_request_records state) run.
Proof. unfold persist_run. run_rows. Qed.

Lemma run_decisions : writes authz_decisions_table (decision_row app request <$> st_authz_decision_records state) run.
Proof. unfold persist_run. run_rows. Qed.

Lemma persist_run_exactly c c' :
  run c = (c', inr tt) → exactly conversation_id latency_ms events state (hcn_db c) (hcn_db c').
Proof.
  intros Hp. split;
    [|by eapply run_messages|by eapply run_runs|by eapply run_guardrail_events|by eapply run_invocations
     |by eapply run_mutations|by eapply run_decisions].
  unfold persist_run, bind at 1 in Hp. destruct (ensure_conversation _ _ _ _ c) as [c1 [e|[]]] eqn:E; [done|].
  destruct (ensure_conversation_exactly _ _ _ E) as (new & Hnew & Hcase). exists new. split; [|exact Hcase].
  rewrite <- (app_nil_r new). eapply changes_trans; [exact Hnew|].
  match type of Hp with ?rest c1 = _ => assert (writes conversations_table [] rest) as Hrest by run_rows end.
  by eapply Hrest.
Qed.
End Written.
End Exactly.

(** ** What the graph's final state is like *)

Section FinalState.
  Context {X : Type} `{HttpPost X, Uuid X, PolicyResolver X, CacheIndex X}.
  Context `{Pydantic, JsonLoads, FloatParse, FloatRepr, Presidio, Sha256}.
  Variable gc : GraphConfig.
  Implicit Types (s : AgentState).

Lemma returns_bind_returns {S A B} (I : A → Prop) (Q : B → Prop) (m : py S A) k :
  returns I m → (∀ a, I a → returns Q (k a)) → returns Q (bind m k).
Proof.
  intros Hm Hk s s' b. unfold bind. destruct (m s) as [s1 [e|a]] eqn:E; [done|]. apply Hk. by eapply Hm.
Qed.

(** A property every node keeps, at the node it is run, holds at the end. *)
Lemma drive_returns (I : node → AgentState → Prop) (Q : AgentState → Prop) limit n s :
  (∀ n s, I n s → returns (fun s' => match next_node n s' with Some n' => I n' s' | None => Q s' end)
                    (run_node gc n s)) →
  I n s → returns Q (drive gc limit n s).
Proof.
  intros Hnode. revert n s. induction limit as [|limit IH]; intros n s Hs; cbn -[run_node next_node];
    [apply returns_raise|].
  eapply returns_bind_returns; [by apply Hnode|]. intros s' Hs'. cbn in Hs'.
  destruct (next_node n s'); [by apply IH|by apply returns_ret].
Qed.

#[local] Ltac node_cases solve_ret :=
  repeat first
    [ progress intros
    | apply returns_ret; solve_ret
    | apply returns_raise | apply returns_bind | apply returns_try
    | case_match; simplify_eq ].

(** *** Pending approvals and mutation records *)

Definition pending_of (m : MutationRequestRecord) : option PendingApproval :=
  if String.eqb (mrr_status m) "awaiting_approval"
  then (fun i => MkPendingApproval i (mrr_action_name m)) <$> mrr_approval_id m else None.

(** What makes a recorded mutation decidable later. *)
Definition record_ok (m : MutationRequestRecord) : Prop :=
  dict_get "idempotency_key" (mrr_preview_payload m) = Some (JStr (mrr_idempotency_key m)) ∧
  (∃ token, dict_get "preview_token" (mrr_preview_payload m) = Some (JStr token)) ∧
  is_Some (enum_of_string (A := RiskLevel) (mrr_risk_level m)).

Definition approvals_match s : Prop :=
  st_pending_approvals s = omap pending_of (st_mutation_request_records s) ∧
  Forall record_ok (st_mutation_request_records s).

Lemma record_outcome_match s o :
  approvals_match s → consistent_mutation o → approvals_match (record_outcome s o).
Proof.
  intros [Hp Hok] Hc. unfold consistent_mutation in Hc. unfold approvals_match. cbn.
  destruct (teo_mutation_request o) as [m|] eqn:Hm; cbn.
  - destruct Hc as (_ & _ & _ & Hkey & Htok & Hrisk & Hst).
    assert (pending_of m = teo_pending_approval o) as Hpm.
    { unfold pending_of.
      by destruct Hst as [(-> & _ & -> & _)|[(-> & _ & -> & _)|(-> & _ & i & -> & _ & ->)]]. }
    split.
    + rewrite omap_app, Hp. cbn. rewrite Hpm. destruct (teo_pending_approval o); cbn; by rewrite ?app_nil_r.
    + apply Forall_app. split; [done|]. by repeat constructor.
  - destruct Hc as (_ & -> & _). done.
Qed.

Lemma node_approvals n s : approvals_match s → returns approvals_match (run_node gc n s).
Proof.
  intros Hs. destruct (decide (n = Act)) as [->|Hn].
  - intros x x' a. cbn. unfold act, bind. destruct (foldM _ _ _ x) as [x1 [e|acc]] eqn:Hf; [done|].
    intros [= <- <-]. enough (approvals_match acc) by done.
    eapply (foldM_invariant (fun b _ => approvals_match b)); [|exact Hs|exact Hf].
    intros b tc y y' b' _ Hb. unfold bind.
    destruct (execute_tool_call _ tc y) as [y1 [e|o]] eqn:Ho; [done|]. intros [= <- <-].
    apply record_outcome_match; [done|]. by apply (execute_tool_call_consistent _ _ _ _ _ Ho).
  - destruct n; cbn; try done;
    unfold authorize, input_guardrails, cache_lookup, retrieve, rag_guardrails, respond, output_guardrails, cache_write;
    cbv zeta; node_cases assumption.
Qed.

Lemma ainvoke_approvals s : approvals_match s → returns approvals_match (ainvoke gc s).
Proof.
  intros Hs. apply (drive_returns (fun _ => approvals_match)); [|done].
  intros n t Ht. intros x x' a Ha. apply (node_approvals n t Ht) in Ha. by destruct (next_node n a).
Qed.

(** *** The final state has a text *)

Definition text_ready (n : node) s : Prop :=
  match n with
  | Authorize | InputGuardrails | CacheLookup => st_cache_hit s = false
  | CacheWrite => is_Some (st_output_text s)
  | _ => True
  end.

Lemma ainvoke_text s : st_cache_hit s = false → returns (fun s' => is_Some (st_output_text s')) (ainvoke gc s).
Proof.
  intros Hs. apply (drive_returns text_ready); [|done]. clear Hs. intros n t Ht. destruct n; cbn in Ht |- *.
  - unfold authorize. node_cases ltac:(cbn; assumption).
  - unfold input_guardrails. apply returns_bind. intros r. cbv zeta. destruct (igr_refused r) eqn:Hr.
    + node_cases ltac:(cbn; by eexists).
    + apply returns_ret. exact Ht.
  - unfold cache_lookup. node_cases ltac:(cbn; first [by rewrite Ht | by eexists]).
  - intros x x' a _. done.
  - intros x x' a _. done.
  - intros x x' a _. by destruct (st_pending_tool_calls a).
  - intros x x' a _. done.
  - unfold output_guardrails. apply returns_bind. intros r. cbv zeta. apply returns_ret. cbn.
    by destruct (ogr_refused r); eexists.
  - unfold cache_write. node_cases ltac:(assumption).
Qed.

(** *** Citations are of retrieved chunks; a cache hit retrieves none *)

Definition cites (chunks : list RetrievedChunkState) (c : Citation) : Prop :=
  ∃ chunk, chunk ∈ chunks ∧ rcs_chunk_id chunk = cit_chunk_id c ∧ rcs_source_uri chunk = cit_source_uri c.

Definition citations_sound s : Prop :=
  if st_cache_hit s then st_retrieved_chunks s = [] else Forall (cites (st_retrieved_chunks s)) (st_citations s).

Definition citing (n : node) s : Prop :=
  match n with
  | Authorize | InputGuardrails | CacheLookup =>
      st_cache_hit s = false ∧ st_citations s = [] ∧ st_retrieved_chunks s = []
  | Retrieve | RagGuardrails => st_cache_hit s = false ∧ st_citations s = []
  | _ => citations_sound s
  end.

Lemma cites_all chunks :
  Forall (cites chunks) ((fun c => MkCitation (rcs_document_id c) (rcs_chunk_id c) (rcs_source_uri c) (rcs_score c)) <$> chunks).
Proof. apply Forall_fmap, Forall_forall. intros c Hc. by exists c. Qed.

Lemma ainvoke_citations s :
  st_cache_hit s = false → st_citations s = [] → st_retrieved_chunks s = [] →
  returns citations_sound (ainvoke gc s).
Proof.
  intros Hh Hc Hr. apply (drive_returns citing); [|done]. clear s Hh Hc Hr. intros n t Ht. destruct n; cbn in Ht |- *.
  - unfold authorize. node_cases ltac:(exact Ht).
  - destruct Ht as (Hh & Hc & Hr). unfold input_guardrails. apply returns_bind. intros r. cbv zeta.
    assert (Hs : ∀ a, st_cache_hit a = false → st_citations a = [] → citations_sound a)
      by (intros a Ha1 Ha2; unfold citations_sound; rewrite Ha1, Ha2; constructor).
    destruct (igr_refused r) eqn:Hrf; [|by apply returns_ret].
    node_cases ltac:(cbn; by apply Hs).
  - destruct Ht as (Hh & Hc & Hr). unfold cache_lookup, citations_sound.
    node_cases ltac:(cbn; rewrite ?Hh; done).
  - unfold retrieve. node_cases ltac:(done).
  - destruct Ht as (Hh & Hc). unfold rag_guardrails. destruct (scan_retrieved_chunks _). apply returns_ret. cbn.
    unfold citations_sound. cbn. rewrite Hh, Hc. constructor.
  - assert (returns citations_sound (respond gc t)) as Hresp; [|intros x x' a Ha; apply Hresp in Ha; by destruct (st_pending_tool_calls a)].
    unfold citations_sound, respond in *. cbv zeta. destruct (st_cache_hit t) eqn:Hh.
    + node_cases ltac:(cbn; rewrite Hh; exact Ht).
    + pose proof (cites_all (st_retrieved_chunks t)) as Hall. node_cases ltac:(cbn; rewrite Hh; assumption).
  - assert (returns citations_sound (act gc t)) as Hact; [|exact Hact].
    unfold act. apply (returns_bind_returns citations_sound).
    + intros x x' a Hf. eapply (foldM_invariant (fun b _ => citations_sound b)); [|exact Ht|exact Hf].
      intros b tc y y' b' _ Hb. unfold bind.
      destruct (execute_tool_call _ tc y) as [y1 [e|o]]; [done|]. by intros [= <- <-].
    + intros a Ha. by apply returns_ret.
  - unfold output_guardrails, citations_sound in *. apply returns_bind. intros r. cbv zeta. apply returns_ret. cbn.
    destruct (ogr_refused r); cbn; [|exact Ht]. destruct (st_cache_hit t); [done|constructor].
  - unfold cache_write. node_cases ltac:(assumption).
Qed.
End FinalState.

(** ** The run *)

(** What the harness relies on of LangGraph: a turn starts from its input. Only
    the fields whose default is [None] can carry a value of an earlier turn of
    the thread, since the input does not set them. *)
Definition fresh_turn (input start : AgentState) : Prop :=
  start = input <| st_refusal_reason := st_refusal_reason start |>
                <| st_cache_query_embedding := st_cache_query_embedding start |>
                <| st_output_text := st_output_text start |>.

Class CheckpointerLaws (X : Type) `{Checkpointer X} : Prop :=
  thread_input_fresh : ∀ conversation_id input (x x' : X) start,
    thread_input conversation_id input x = (x', inr start) → fresh_turn input start.

Section Run.
  Context {X : Type} `{HttpPost X, Uuid X, PolicyResolver X, CacheIndex X, Checkpointer X, PerfCounter X,
                       AdminRedis X, LangfuseSdk X}.
  Context `{Pydantic, JsonLoads, FloatParse, FloatRepr, Presidio, Sha256, !CheckpointerLaws X}.
  Variable app : AppState.
  Implicit Types (s : HarnessState X).

(** The part of [run_agent] before anything is recorded: the conversation and
    the graph's final state. *)
Definition graph_run (request : AgentRunRequest) : py (HarnessState X) (string * AgentState) :=
  let! conversation_id := conversation_for request in
  let! start := in_ext (thread_input conversation_id (initial_state request)) in
  let! state := in_ext (ainvoke (app_graph app) start) in
  ret (conversation_id, state).

(** ... and the part after it. *)
Definition conclude (request : AgentRunRequest) (conversation_id : string) (state : AgentState)
    : py (HarnessState X) AgentInvokeResponse :=
  let! latency_ms := in_ext elapsed_ms in
  let! '(eval_bundle, events) := eval_grant app request state in
  tenant_session (run_tenant_id request) (persist_run app request conversation_id latency_ms events state) ;!
  modify (fun s => s <| hst_ext ::= trace_run request state |>) ;!
  build_response request conversation_id eval_bundle state.

Lemma run_agent_split request s :
  run_agent app request s = (let! '(conversation_id, state) := graph_run request in
                             conclude request conversation_id state) s.
Proof.
  unfold run_agent, graph_run, conclude, bind. destruct (conversation_for request s) as [s1 [e|c]]; [done|].
  destruct (in_ext (thread_input _ _) s1) as [s2 [e|st]]; [done|].
  by destruct (in_ext (ainvoke _ _) s2) as [s3 [e|st']].
Qed.

Lemma in_ext_db {A} (m : py X A) s : hst_db (in_ext m s).1 = hst_db s.
Proof. unfold in_ext, zoom. by destruct (m (hst_ext s)). Qed.

Lemma graph_run_db request s : hst_db (graph_run request s).1 = hst_db s.
Proof.
  assert (frames (fun s s' : HarnessState X => hst_db s' = hst_db s) (graph_run request)) as Hf; [|apply Hf].
  assert (PreOrder (fun s s' : HarnessState X => hst_db s' = hst_db s)) by (split; [done|intros a b c; congruence]).
  unfold graph_run. apply (frames_bind _).
  { unfold conversation_for. destruct (String.eqb _ _); [intros s0; apply in_ext_db|by apply frames_ret]. }
  intros c. apply (frames_bind _); [intros s0; apply in_ext_db|]. intros st.
  apply (frames_bind _); [intros s0; apply in_ext_db|]. intros st'. by apply frames_ret.
Qed.

(** The final state: complete, and its approvals are its awaiting records. *)
Lemma graph_run_state request s s' conversation_id state :
  graph_run request s = (s', inr (conversation_id, state)) →
  is_Some (st_output_text state) ∧ approvals_match state ∧ citations_sound state.
Proof.
  unfold graph_run, bind. destruct (conversation_for request s) as [s1 [e|c]]; [done|].
  unfold in_ext, zoom. destruct (thread_input _ _ _) as [x2 [e|start]] eqn:Hthread; [done|]. cbn.
  destruct (ainvoke _ start x2) as [x3 [e|st]] eqn:Hrun; [done|]. intros [= _ _ <-].
  apply thread_input_fresh in Hthread. rewrite Hthread in Hrun. split_and!.
  - eapply ainvoke_text; [|exact Hrun]. done.
  - eapply ainvoke_approvals; [|exact Hrun]. by split.
  - eapply ainvoke_citations; [..|exact Hrun]; done.
Qed.

Lemma graph_run_steps request s s' conversation_id state :
  graph_run request s = (s', inr (conversation_id, state)) →
  ∃ s1 x2 x3 start, conversation_for request s = (s1, inr conversation_id) ∧
    thread_input conversation_id (initial_state request) (hst_ext s1) = (x2, inr start) ∧
    ainvoke (app_graph app) start x2 = (x3, inr state).
Proof.
  unfold graph_run, bind. destruct (conversation_for request s) as [s1 [e|c]]; [done|].
  unfold in_ext, zoom. destruct (thread_input _ _ _) as [x2 [e|start]] eqn:Hthread; [done|]. cbn.
  destruct (ainvoke _ start x2) as [x3 [e|st]] eqn:Hrun; [done|]. intros [= _ <- <-].
  by exists s1, x2, x3, start.
Qed.

(** What the response repeats of the final state. *)
Definition responds (request : AgentRunRequest) (conversation_id : string) (state : AgentState)
    (resp : AgentInvokeResponse) : Prop :=
  res_run_id resp = run_run_id request ∧ res_trace_id resp = run_trace_id request ∧
  res_conversation_id resp = conversation_id ∧
  Some (out_content (res_output resp)) = st_output_text state ∧
  usg_input_tokens (res_usage resp) = st_input_tokens state ∧
  usg_output_tokens (res_usage resp) = st_output_tokens state ∧
  res_pending_approvals resp = st_pending_approvals state ∧
  out_citations (res_output resp) = st_citations state ∧
  res_cache_hit resp = st_cache_hit state ∧
  (is_Some (res_eval resp) →
   run_eval_mode_requested request = true ∧
   run_tenant_id request ∈ eval_tenant_id_set (app_eval_tenant_ids app)).

(** Somebody who asked for the evaluation bundle without being entitled to it. *)
Definition eval_abuse (request : AgentRunRequest) : bool :=
  run_eval_mode_requested request &&
  negb (str_in (run_tenant_id request) (eval_tenant_id_set (app_eval_tenant_ids app))).

Definition run_events (request : AgentRunRequest) (state : AgentState) : list GuardrailEvent :=
  st_guardrail_events state ++ (if eval_abuse request then [eval_mode_abuse_event] else []).

Definition usage_ok (state : AgentState) : bool :=
  (0 <=? st_input_tokens state)%Z && (0 <=? st_output_tokens state)%Z && f64_leb f64_zero (st_cost_usd state).

#[local] Instance unchanged_preorder : PreOrder (fun a b : HarnessState X => b = a).
Proof. split; [done|intros ??? -> ->; done]. Qed.

Lemma eval_grant_pure request state : frames (fun a b => b = a) (eval_grant (X := X) app request state).
Proof.
  assert (∀ r, frames (fun a b : HarnessState X => b = a) (tool_call_record r)) as Hr.
  { intros r. unfold tool_call_record. intros s. by case_match. }
  unfold eval_grant, build_eval_bundle.
  repeat first [progress intros | apply (frames_ret _) | apply (frames_raise _) | apply (frames_bind _)
    | apply (frames_map_each _) | apply Hr | case_match].
Qed.

Lemma eval_grant_spec request state s s' bundle events :
  eval_grant app request state s = (s', inr (bundle, events)) →
  s' = s ∧ events = run_events request state ∧
  (is_Some bundle → run_eval_mode_requested request = true ∧
     run_tenant_id request ∈ eval_tenant_id_set (app_eval_tenant_ids app)).
Proof.
  intros Hg. pose proof (eval_grant_pure request state s) as Hs. rewrite Hg in Hs. cbn in Hs. subst s'.
  split; [done|]. revert Hg. unfold eval_grant, run_events, eval_abuse. destruct (run_eval_mode_requested request); cbn.
  - destruct (str_in _ _) eqn:Hin; cbn.
    + unfold bind, build_eval_bundle, bind. destruct (map_each _ _ s) as [s1 [e|l]] eqn:Hm; [done|].
      destruct (_ <? _)%Z; [done|]. intros [= _ _ <-]. rewrite app_nil_r. repeat split; try done.
      by apply str_in_spec.
    + intros [= <- <-]. split; [done|]. by intros [].
  - intros [= <- <-]. rewrite app_nil_r. split; [done|]. by intros [].
Qed.

Lemma conclude_spec request conversation_id state s s' r :
  is_Some (st_output_text state) →
  conclude request conversation_id state s = (s', r) →
  (hst_db s' = hst_db s ∧ ∃ e, r = inl e) ∨
  (∃ latency_ms,
     recorded app request conversation_id latency_ms (run_events request state) state (hst_db s) (hst_db s') ∧
     exactly app request conversation_id latency_ms (run_events request state) state (hst_db s) (hst_db s')) ∧
  (∃ x, hst_ext s' = trace_run request state x) ∧
  match r with
  | inr resp => responds request conversation_id state resp
  | inl _ => usage_ok state = false
  end.
Proof.
  intros [text Htext]. unfold conclude, bind at 1. pose proof (in_ext_db elapsed_ms s) as Hdb0.
  destruct (in_ext elapsed_ms s) as [s1 [e|ms]]; cbn in Hdb0; [intros [= <- <-]; left; by eauto|].
  unfold bind at 1. destruct (eval_grant app request state s1) as [s2 [e|[bundle events]]] eqn:Hg.
  { intros [= <- <-]. left. split; [|by eexists]. pose proof (eval_grant_pure request state s1) as Hs.
    rewrite Hg in Hs. cbn in Hs. by subst. }
  apply eval_grant_spec in Hg as (-> & -> & Hent).
  unfold bind at 1, tenant_session at 1.
  destruct (persist_run app request conversation_id ms _ state _) as [c [e|[]]] eqn:Hp; cbn -[build_response].
  { intros [= <- <-]. left. split; [exact Hdb0|by eexists]. }
  pose proof Hp as Hex%persist_run_exactly. apply persist_run_adding in Hp as (_ & _ & Hrec); [|done].
  cbn in Hrec, Hex. rewrite Hdb0 in Hrec, Hex.
  intros Hb. right. unfold build_response in Hb. rewrite Htext in Hb. fold (usage_ok state) in Hb.
  destruct (usage_ok state) eqn:Hu; injection Hb as <- <-; (split; [by exists ms|split; [by eexists|]]); [|done].
  unfold responds. rewrite Htext. repeat (split; [done|]). exact Hent.
Qed.


(** A run that answers: what it recorded, its final state, and the trace it leaves. *)
Lemma run_agent_answers request s s' resp :
  run_agent app request s = (s', inr resp) →
  ∃ conversation_id latency_ms state x,
    recorded app request conversation_id latency_ms (run_events request state) state (hst_db s) (hst_db s') ∧
    responds request conversation_id state resp ∧ citations_sound state ∧ hst_ext s' = trace_run request state x.
Proof.
  rewrite run_agent_split. unfold bind. pose proof (graph_run_db request s) as Hdb.
  destruct (graph_run request s) as [s1 [e|[conversation_id state]]] eqn:Hg; [done|]. cbn in Hdb.
  apply graph_run_state in Hg as (Htext & _ & Hcit). intros Hc. apply conclude_spec in Hc; [|done]. rewrite Hdb in Hc.
  destruct Hc as [[_ [e ?]]|((ms & Hrec & _) & [x Hx] & Hr)]; [done|]. by exists conversation_id, ms, state, x.
Qed.

(** No run removes or changes the row of another. *)
Lemma run_agent_runs_stay request s id row :
  hdb_agent_runs (hst_db s) !! id = Some row → hdb_agent_runs (hst_db (run_agent app request s).1) !! id = Some row.
Proof.
  intros Hrow. rewrite run_agent_split. unfold bind. pose proof (graph_run_db request s) as Hdb.
  destruct (graph_run request s) as [s1 [e|[conversation_id state]]] eqn:Hg; cbn in Hdb; [cbn; by rewrite Hdb|].
  apply graph_run_state in Hg as (Htext & _ & _). destruct (conclude request conversation_id state s1) as [s2 r] eqn:Hc.
  apply conclude_spec in Hc; [|done]. rewrite Hdb in Hc. cbn.
  destruct Hc as [[-> _]|((ms & Hrec & _) & _)]; [done|].
  exact (lookup_weaken _ _ _ _ Hrow (proj1 (ad_agent_runs _ _ _ (rd_adds _ _ _ _ _ _ _ _ Hrec)))).
Qed.

(** The response of a run satisfies the models' own constraints. *)
Lemma eval_grant_bundle request state s s' bundle events :
  eval_grant app request state s = (s', inr (Some bundle, events)) → (0 ≤ evb_iterations bundle)%Z.
Proof.
  unfold eval_grant, build_eval_bundle, bind. destruct (negb _); [done|]. destruct (str_in _ _); [|done].
  destruct (map_each _ _ s) as [s1 [e|l]]; [done|]. destruct (Z.ltb_spec (st_tool_iterations state) 0); [done|].
  by intros [= _ <- _].
Qed.

Lemma run_agent_wf request s s' resp : run_agent app request s = (s', inr resp) → wf_response resp.
Proof.
  unfold run_agent. intros (s1 & c & _ & (s2 & start & _ & (s3 & st & _ & (s4 & ms & _ &
    (s5 & [bundle events] & Hg & (s6 & [] & _ & (s7 & [] & _ & Hb)%bind_returns)%bind_returns)%bind_returns)%bind_returns)
    %bind_returns)%bind_returns)%bind_returns.
  unfold build_response in Hb. destruct (st_output_text st); [|done].
  destruct (_ && _) eqn:Hu; [|done]. injection Hb as _ <-. apply andb_prop in Hu as [[?%Z.leb_le ?%Z.leb_le]%andb_prop ?].
  split; [done|]. destruct bundle as [b|]; [|done]. by eapply eval_grant_bundle.
Qed.

(** C32: Every approval a response announces can be decided. For each pending
    approval of a response, the run has added a row of its tenant with that
    approval id that awaits a decision, names the caller as its actor and the
    announced action, has a risk level the approver check understands, and keeps
    the preview token and the idempotency key the execution will need. *)
Theorem pending_approvals_are_decidable request s s' resp p :
  run_agent app request s = (s', inr resp) → p ∈ res_pending_approvals resp →
  ∃ id row kvs,
    hdb_mutation_requests (hst_db s) !! id = None ∧ hdb_mutation_requests (hst_db s') !! id = Some row ∧
    mtr_tenant_id row = run_tenant_id request ∧ mtr_approval_id row = Some (pap_approval_id p) ∧
    awaiting row = true ∧ mtr_actor_user_id row = run_user_id request ∧
    mtr_action_name row = pap_action_name p ∧
    is_Some (enum_of_string (A := RiskLevel) (mtr_risk_level row)) ∧
    mtr_preview_payload row = JObj kvs ∧
    (∃ token, dict_get "preview_token" kvs = Some (JStr token)) ∧
    dict_get "idempotency_key" kvs = Some (JStr (mtr_idempotency_key row)).
Proof.
  rewrite run_agent_split. unfold bind. pose proof (graph_run_db request s) as Hdb.
  destruct (graph_run request s) as [s1 [e|[conversation_id state]]] eqn:Hg; [done|]. cbn in Hdb.
  apply graph_run_state in Hg as (Htext & (Hpend & Hok) & _). intros Hc Hp. apply conclude_spec in Hc; [|done].
  rewrite Hdb in Hc. destruct Hc as [[_ [e ?]]|((ms & Hrec & _) & _ & Hr)]; [done|].
  destruct Hr as (_ & _ & _ & _ & _ & _ & Hpa & _). rewrite Hpa, Hpend in Hp.
  apply list_elem_of_omap in Hp as (m & Hm & Hpm).
  destruct (rd_mutations _ _ _ _ _ _ _ _ Hrec) as (ids & _ & Hall).
  apply list_elem_of_lookup in Hm as [i Hi].
  destruct (Forall2_lookup_r _ _ _ _ _ Hall Hi) as (id & _ & _ & Hnone & Hsome).
  destruct (Forall_lookup_1 _ _ _ _ Hok Hi) as (Hkey & Htok & Hrisk).
  unfold pending_of in Hpm. destruct (String.eqb (mrr_status m) _) eqn:Hst; [|done].
  destruct (mrr_approval_id m) as [a|] eqn:Ha; [|done]. injection Hpm as <-.
  exists id, (mutation_row request m), (mrr_preview_payload m). repeat split; [done..|exact Htok|exact Hkey].
Qed.

(** One hallucinated tool call loses the record of the whole run. A call of
    a tool that does not exist is recorded with the kind [unknown], which
    [audit.tool_invocations] refuses: however far the run got - mutations it
    executed included - the transaction rolls back, nothing is written and the
    request fails. *)
Theorem unknown_tool_loses_record request s s1 conversation_id state r :
  graph_run request s = (s1, inr (conversation_id, state)) →
  r ∈ st_tool_invocation_records state → tir_tool_kind r = "unknown" →
  ∃ s2 e, run_agent app request s = (s2, inl e) ∧ hst_db s2 = hst_db s.
Proof.
  intros Hg Hr Hkind. rewrite run_agent_split. unfold bind. rewrite Hg.
  pose proof (graph_run_db request s) as Hdb. rewrite Hg in Hdb. cbn in Hdb.
  apply graph_run_state in Hg as (Htext & _ & _).
  destruct (conclude request conversation_id state s1) as [s2 res] eqn:Hc.
  apply conclude_spec in Hc as [[Hdb2 [e ->]]|[(ms & Hrec & _) _]]; [| |done].
  { exists s2, e. split; [done|]. congruence. }
  exfalso. destruct (rd_invocations _ _ _ _ _ _ _ _ Hrec) as (ids & _ & Hall).
  apply list_elem_of_lookup in Hr as [i Hi].
  destruct (Forall2_lookup_r _ _ _ _ _ Hall Hi) as (id & _ & [d0 Hv] & _).
  unfold tool_invocations_table, invocation_row in Hv. cbn in Hv. by rewrite Hkind in Hv.
Qed.
End Run.

(** ** The kill switch of a tool *)

(** What the routes and the checkers rely on of Redis. *)
Class AdminRedisLaws (X : Type) `{AdminRedis X, KillswitchEnv X} := {
  redis_value : X → string → option string;
  get_value key x : ∃ x', redis_get key x = (x', inr (redis_value x key)) ∧ redis_value x' = redis_value x;
  set_value key v x x' : redis_set key v x = (x', inr tt) → redis_value x' key = Some v;
  delete_value key x x' : redis_delete key x = (x', inr tt) → redis_value x' key = None
}.

Section Killswitch.
  Context {X : Type} `{HttpPost X, Uuid X, PolicyResolver X, CacheIndex X, Checkpointer X, PerfCounter X,
                       AdminRedis X, KillswitchEnv X, !AdminRedisLaws X}.
  Context `{Pydantic, JsonLoads, FloatParse, FloatRepr, Presidio, Sha256}.
  Implicit Types (ks : KillswitchState X).

(** A switch set to [v] that no checker remembers differently. *)
Definition switch_is (key : string) (v : option string) ks : Prop :=
  redis_value (ks_ext ks) key = v ∧
  ∀ d at_, ks_cache ks !! key = Some (d, at_) → d = says_disabled v.

Lemma is_disabled_reads key0 v key ks ks' d :
  switch_is key0 v ks → is_disabled key ks = (ks', inr d) →
  switch_is key0 v ks' ∧ (key = key0 → d = says_disabled v).
Proof.
  intros [Hv Hc]. unfold is_disabled, bind, gets. cbv beta zeta.
  assert (∀ now, (let! value := zoom ks_ext (fun x s => s <| ks_ext := x |>) (redis_get key) in
                  modify (fun s => s <| ks_cache ::= <[key := (says_disabled value, now)]> |>) ;!
                  ret (says_disabled value)) ks = (ks', inr d) →
    switch_is key0 v ks' ∧ (key = key0 → d = says_disabled v)) as Hread.
  { intros now. unfold bind, zoom, modify, ret.
    destruct (get_value key (ks_ext ks)) as (x' & -> & Hx). intros [= <- <-]. split; [|by intros ->; rewrite Hv].
    split; cbn; [by rewrite Hx|]. intros d at_. destruct (decide (key = key0)) as [->|].
    - rewrite lookup_insert_eq. intros [= <- _]. by rewrite Hv.
    - rewrite lookup_insert_ne by done. apply Hc. }
  destruct (ks_cache ks !! key) as [[d0 at_]|] eqn:Hk; [|apply Hread].
  destruct (f64_ltb _ _); [|apply Hread]. intros [= <- <-]. split; [done|]. intros ->. by eapply Hc.
Qed.

(** A disabled tool is not added to a decision. *)
Lemma decide_tool_disabled name ctx acc tool ks ks' acc' :
  switch_is ("killswitch:tool:" +:+ name) (Some "disabled") ks → name ∉ pd_allowed_tools acc →
  decide_tool ctx acc tool ks = (ks', inr acc') →
  switch_is ("killswitch:tool:" +:+ name) (Some "disabled") ks' ∧ name ∉ pd_allowed_tools acc'.
Proof.
  intros Hs Hacc. unfold decide_tool. destruct (missing_permissions tool ctx); [|by intros [= <- <-]].
  destruct (_ && _); [by intros [= <- <-]|]. unfold bind.
  destruct (is_tool_disabled (tm_name tool) ks) as [k1 [e|off]] eqn:H1'; [done|].
  destruct (is_disabled_reads _ _ _ _ _ _ Hs H1') as [Hs1 Hoff].
  destruct off; [by intros [= <- <-]|].
  assert (name ≠ tm_name tool) as Hne by (intros ->; by specialize (Hoff eq_refl)).
  destruct (is_agent_disabled (ctx_agent_id ctx) k1) as [k2 [e|off]] eqn:H2'; [done|].
  destruct (is_disabled_reads _ _ _ _ _ _ Hs1 H2') as [Hs2 _].
  destruct off; [by intros [= <- <-]|].
  destruct (resolve_scope_constraint tool ctx k2) as [k3 [e|c]] eqn:H3'; [done|].
  assert (k3 = k2) as ->.
  { revert H3'. unfold resolve_scope_constraint, make_constraint, ret, raise. repeat case_match; by intros [=]. }
  assert (name ∉ pd_allowed_tools acc ++ [tm_name tool]) as Hadd.
  { rewrite elem_of_app, list_elem_of_singleton. by intros [?|?]. }
  destruct c as [c|]; [destruct (sc_allowed_ids c) as [[|]|]|]; by intros [= <- <-].
Qed.

Lemma flip_value key disabled (s s' : HarnessState X) :
  flip key disabled s = (s', inr tt) →
  hst_db s' = hst_db s ∧ redis_value (hst_ext s') key = (if disabled then Some "disabled" else None).
Proof.
  unfold flip, in_ext, zoom. destruct disabled.
  - destruct (redis_set _ _ _) as [x [e|[]]] eqn:Hset; [done|]. intros [= <-]. split; [done|]. by eapply set_value.
  - destruct (redis_delete _ _) as [x [e|[]]] eqn:Hset; [done|]. intros [= <-]. split; [done|]. by eapply delete_value.
Qed.

(** A flipped kill switch takes effect and leaves a trail. When the admin
    route has answered, [authz.tool_overrides] names the switch, its reason and
    who flipped it; Redis holds the switch; and no resolver whose cache does not
    remember the tool as enabled offers it while it is disabled, to anybody,
    whatever else is enabled. *)
Theorem killswitch_tool_takes_effect name body (s s' : HarnessState X) resp :
  killswitch_tool name body s = (s', inr resp) →
  resp = MkKillswitchResponse name "tool" (kir_disabled body) ∧
  hdb_tool_overrides (hst_db s') !! name
    = Some (MkToolOverrideRow (kir_disabled body) (kir_reason body) (kir_changed_by body) (hdb_now (hst_db s))) ∧
  redis_value (hst_ext s') ("killswitch:tool:" +:+ name) = (if kir_disabled body then Some "disabled" else None) ∧
  ∀ manifests profiles ctx ks ks' pd,
    kir_disabled body = true → ks_ext ks = hst_ext s' →
    (∀ d at_, ks_cache ks !! ("killswitch:tool:" +:+ name) = Some (d, at_) → d = true) →
    resolve manifests profiles ctx ks = (ks', inr pd) → name ∉ pd_allowed_tools pd.
Proof.
  unfold killswitch_tool, bind. destruct (flip _ _ s) as [s1 [e|[]]] eqn:Hflip; [done|].
  apply flip_value in Hflip as [Hdb Hval]. unfold admin_session, upsert_tool_override, modify, ret.
  intros [= <- <-]. cbn. split; [done|]. split; [by rewrite lookup_insert_eq, Hdb|].
  split; [done|]. intros manifests profiles ctx ks ks' pd Hdis Hext Hcache Hres. rewrite Hdis in Hval.
  unfold resolve in Hres. destruct (dict_get _ _) as [profile|].
  - eapply (foldM_invariant (fun acc k => switch_is ("killswitch:tool:" +:+ name) (Some "disabled") k ∧
      name ∉ pd_allowed_tools acc)); [| |exact Hres].
    + intros acc tool k k' acc' _ [Hs Ha]. by apply decide_tool_disabled.
    + split; [|by intros ?%elem_of_nil]. split; [by rewrite Hext|]. intros d at_ Hd. by rewrite (Hcache d at_ Hd).
  - injection Hres as _ <-. by intros ?%elem_of_nil.
Qed.
End Killswitch.

(** ** The theorems at a concrete deployment

    A model that asks once for a tool and then answers, a business API whose
    previews need an approval, ids counted up from 10^19. *)
Module Witness.
Record env := MkEnv { e_ids : Z; e_tool : string; e_keys : gmap string string; e_langfuse : LangfuseStore }.
#[global] Instance eta_env : EtaRec env := fun e => MkEnv (e_ids e) (e_tool e) (e_keys e) (e_langfuse e).

Definition obj (kvs : list (string * json)) : json := JObj kvs.

(** The first turn of the main conversation offers tools and has no tool result yet. *)
Definition asks (body : json) : bool :=
  match body with
  | JObj kvs => match dict_get "tools" kvs, dict_get "messages" kvs with
                | Some _, Some (JArr [_; _]) => true
                | _, _ => false
                end
  | _ => false
  end.

Definition completion (tool : string) (body : json) : json :=
  obj [("choices", JArr [obj [("message",
    if asks body
    then obj [("tool_calls", JArr [obj [("id", JStr "call_1");
                ("function", obj [("name", JStr tool); ("arguments", JStr "{...}")])]])]
    else obj [("content", JStr "0")])]]);
       ("usage", obj [("prompt_tokens", JInt 10); ("completion_tokens", JInt 2)])].

#[global] Instance env_http : HttpPost env := fun svc path _ body e =>
  (e, match svc with
      | ModelRouter => inr (MkHttpResponse 200 "" (completion (e_tool e) body) [])
      | RetrievalService => inr (MkHttpResponse 200 "" (obj [("latency_ms", JInt 1)]) [])
      | BusinessApi => inr (MkHttpResponse 200 "" (obj [("action", JStr "submit_leave_request");
          ("risk_level", JStr "high"); ("requires_approval", JBool true); ("reversible", JBool true);
          ("preview_token", JStr "pv_1")]) [])
      | _ => inl (HttpxError "connection refused")
      end).

#[global] Instance env_uuid : Uuid env := fun e =>
  (e <| e_ids ::= Z.succ |>, inr (Z_to_string (e_ids e))).
#[global] Instance env_policy : PolicyResolver env := fun _ e =>
  (e, inr (MkPolicyDecision ["submit_leave_request"] []
             [("submit_leave_request", MkScopeConstraint SELF "employee_id" (Some ["emp_1"]))])).
#[global] Instance env_cache : CacheIndex env := {|
  ft_knn _ _ e := (e, inr None); ft_keys _ e := (e, inr []); cache_hset _ _ e := (e, inr tt);
  cache_expire _ _ e := (e, inr tt); cache_delete _ e := (e, inr tt) |}.
#[global] Instance env_threads : Checkpointer env := fun _ input e => (e, inr input).
#[global] Instance env_threads_laws : CheckpointerLaws env.
Proof. intros c input x x' start [= _ <-]. by destruct input. Qed.
#[global] Instance env_clock : PerfCounter env := fun e => (e, inr 12%Z).
#[global] Instance env_redis : AdminRedis env := {|
  redis_set k v e := (e <| e_keys ::= <[k := v]> |>, inr tt);
  redis_delete k e := (e <| e_keys ::= delete k |>, inr tt) |}.
#[global] Instance env_killswitch : KillswitchEnv env := {|
  monotonic _ := f64_zero; redis_get k e := (e, inr (e_keys e !! k)) |}.
#[global] Instance env_redis_laws : AdminRedisLaws env.
Proof.
  refine {| redis_value e k := e_keys e !! k |}.
  - intros k x. by exists x.
  - intros k v x x' [= <-]. apply lookup_insert_eq.
  - intros k x x' [= <-]. apply lookup_delete_eq.
Defined.
#[global] Instance env_pydantic : Pydantic := strict_pydantic.
#[global] Instance env_loads : JsonLoads := fun _ =>
  Some (obj [("employee_id", JStr "emp_1"); ("leave_days", JInt 7); ("start_date", JStr "2026-02-01")]).
#[global] Instance env_float : FloatParse := fun _ => Some f64_zero.
#[global] Instance env_repr : FloatRepr := fun _ => "0.0".
#[global] Instance env_sha : Sha256 := fun s => s.
#[global] Instance env_langfuse : LangfuseSdk env := {|
  lf_trace body e := e <| e_langfuse ::= lf_trace body |>;
  lf_span id body e := e <| e_langfuse ::= lf_span id body |>;
  lf_generation id body e := e <| e_langfuse ::= lf_generation id body |>;
  lf_flush e := e <| e_langfuse ::= lf_flush |> |}.
#[global, refine] Instance env_server : LangfuseServer env := {|
  server_traces e := server_traces (e_langfuse e);
  sdk_queue e := sdk_queue (e_langfuse e) |}.
Proof.
  - intros body x. apply (lf_trace_queues body (e_langfuse x)).
  - done.
  - done.
  - intros x. apply (lf_flush_sends (e_langfuse x)).
Defined.
#[global] Instance env_presidio : Presidio := {| analyze _ _ _ := inr []; anonymize t _ _ := inr t |}.

Definition leave_tool : ToolManifestEntry :=
  MkToolManifestEntry "submit_leave_request" MUTATION [INTERNAL] MEDIUM "" "SubmitLeaveRequestParams" "hr"
    "submit_leave_request" ["leave.request.create"] SELF (Some "employee_id") [] [] None false.

Definition app : AppState := {|
  app_graph := MkGraphConfig [("submit_leave_request", leave_tool)]
    [("leave-bot", MkAgentProfile "leave-bot" INTERNAL ["submit_leave_request"] false 3600 8)] "embed"
    (f64_ratio 95 100) (fun _ => JNull) 25;
  app_audience := INTERNAL; app_eval_tenant_ids := "tnt_eval" |}.

Definition request : AgentRunRequest :=
  MkAgentRunRequest "run_1" "trc_1" "tnt_a" "usr_1" ["grp_a"] (Some "emp_1") ["leave.request.create"] [] [] None
    "leave-bot" None (MkAgentInput "ajukan cuti tujuh hari") [] (MkRunOptions false 1024 true) SYNC
    (MkTokenBudget "sync" 1024) None true.

Definition db : HarnessDb := MkHarnessDb ∅ ∅ ∅ ∅ ∅ ∅ ∅ ∅ "2026-01-01T00:00:00Z".
Definition before (tool : string) : HarnessState env :=
  MkHarnessState db (MkEnv 10000000000000000000 tool ∅ (MkLangfuseStore ["2026-01-02T00:00:00Z"] [] [])).
Definition after (tool : string) : HarnessState env := (run_agent app request (before tool)).1.

Definition ran (tool : string) : option AgentInvokeResponse :=
  match (run_agent app request (before tool)).2 with inr resp => Some resp | inl _ => None end.

Lemma ran_split tool resp :
  ran tool = Some resp → run_agent app request (before tool) = (after tool, inr resp).
Proof. unfold ran, after. destruct (run_agent _ _ _) as [s' [e|r]]; cbn; [done|]. by intros [= <-]. Qed.

Lemma pending_approvals_are_decidable_witness :
  ∃ id row, hdb_mutation_requests (hst_db (after "submit_leave_request")) !! id = Some row ∧
    mtr_approval_id row = Some "apr_10000000000000000003" ∧ awaiting row = true.
Proof.
  assert (∃ resp, ran "submit_leave_request" = Some resp ∧ res_pending_approvals resp =
    [MkPendingApproval "apr_10000000000000000003" "submit_leave_request"]) as (resp & Hran & Hp)
    by (vm_compute; by eexists).
  destruct (pending_approvals_are_decidable app request _ _ resp
    (MkPendingApproval "apr_10000000000000000003" "submit_leave_request") (ran_split _ _ Hran))
    as (id & row & kvs & _ & Hrow & _ & Hap & Haw & _); [rewrite Hp; constructor|].
  exists id, row. exact (conj Hrow (conj Hap Haw)).
Defined.

(** The state a run that called a ghost tool ends in. *)
Definition ghost_run := graph_run app request (before "ghost").
Definition ghost_state : AgentState :=
  match ghost_run.2 with inr (_, st) => st | inl _ => initial_state request end.
Definition ghost_conversation : string :=
  match ghost_run.2 with inr (c, _) => c | inl _ => "" end.
Definition ghost_record : ToolInvocationRecord :=
  MkToolInvocationRecord "ghost" "unknown"
    [("employee_id", JStr "emp_1"); ("leave_days", JInt 7); ("start_date", JStr "2026-02-01")] None "error".

Lemma unknown_tool_loses_record_witness :
  ∃ s2 e, run_agent app request (before "ghost") = (s2, inl e) ∧ hst_db s2 = db.
Proof.
  refine (unknown_tool_loses_record app request (before "ghost") ghost_run.1 ghost_conversation ghost_state
            ghost_record _ _ eq_refl).
  - vm_compute. reflexivity.
  - assert (st_tool_invocation_records ghost_state = [ghost_record]) as -> by (vm_compute; reflexivity).
    by constructor.
Defined.

Definition switch : KillswitchInternalRequest := MkKillswitchInternalRequest true (Some "incident") "usr_9".
Definition manifests := [("submit_leave_request", leave_tool)].
Definition profiles := gc_agent_profiles (app_graph app).
Definition ctx : AuthorizationContext :=
  MkAuthorizationContext "tnt_a" "usr_1" (Some "emp_1") [] ["leave.request.create"] [] "leave-bot" true.

(** Offered before the flip, not after it. *)
Lemma killswitch_tool_takes_effect_witness :
  match (resolve manifests profiles ctx (MkKillswitchState ∅ (hst_ext (before "")))).2 with
  | inr pd => pd_allowed_tools pd = ["submit_leave_request"] | inl _ => False end ∧
  ∀ pd, (resolve manifests profiles ctx
           (MkKillswitchState ∅ (hst_ext (killswitch_tool "submit_leave_request" switch (before "")).1))).2 = inr pd →
        "submit_leave_request" ∉ pd_allowed_tools pd.
Proof.
  split; [vm_compute; reflexivity|]. intros pd Hpd.
  assert (killswitch_tool "submit_leave_request" switch (before "")
    = ((killswitch_tool "submit_leave_request" switch (before "")).1,
       inr (MkKillswitchResponse "submit_leave_request" "tool" true))) as Hks by (vm_compute; reflexivity).
  destruct (killswitch_tool_takes_effect _ _ _ _ _ Hks) as (_ & _ & _ & Hoff).
  set (ks := MkKillswitchState ∅ _) in Hpd.
  apply (Hoff manifests profiles ctx ks (resolve manifests profiles ctx ks).1 pd eq_refl eq_refl).
  - intros d at_ Hd. cbn in Hd. by rewrite lookup_empty in Hd.
  - rewrite <- Hpd. apply surjective_pairing.
Defined.
End Witness.
