(* ===== verification/AsyncWorker.v ===== *)
(** async-worker: the job queue's topology (topology.py), the rows of
    [jobs.async_jobs] it updates (persistence/jobs.py), its clients
    (clients/, webhook.py, litellm_key.py), one job attempt (processor.py) and
    the consumer of the queue (consumer.py). *)
From S2P Require Import Prelude PyStr Json Http Contracts Wire Redis Quota JobsDb.

(** ** topology.py

    The broker's entities, declared on a channel; the state of the model is
    the list of declarations the channel was sent, in order. *)

Inductive ExchangeType := TOPIC | FANOUT.

#[export] Instance ExchangeType_eq : EqDecision ExchangeType. Proof. solve_decision. Defined.

Inductive Declaration :=
  | DeclareExchange (name : string) (type : ExchangeType) (durable : bool)
  | DeclareQueue (name : string) (durable : bool) (arguments : pydict)
  | BindQueue (queue exchange routing_key : string).

Definition declare (d : Declaration) : py (list Declaration) unit := modify (fun l => l ++ [d]).

(* @ contracts/jobs.py:38-38 DLQ_MESSAGE_TTL_MS *)
Definition DLQ_MESSAGE_TTL_MS : Z := 7 * 24 * 60 * 60 * 1000.

(* @ async_worker/topology.py:40-71 declare_topology *)
Definition declare_topology : py (list Declaration) (string * string) :=
  declare (DeclareExchange JOBS_EXCHANGE TOPIC true) ;!
  declare (DeclareExchange RETRY_EXCHANGE FANOUT true) ;!
  declare (DeclareQueue STANDARD_QUEUE true []) ;!
  declare (BindQueue STANDARD_QUEUE JOBS_EXCHANGE "job.standard.*") ;!
  declare (DeclareQueue BULK_QUEUE true []) ;!
  declare (BindQueue BULK_QUEUE JOBS_EXCHANGE "job.bulk.*") ;!
  declare (DeclareQueue RETRY_QUEUE true [("x-dead-letter-exchange", JStr JOBS_EXCHANGE)]) ;!
  declare (BindQueue RETRY_QUEUE RETRY_EXCHANGE "") ;!
  declare (DeclareQueue DLQ_QUEUE true [("x-message-ttl", JInt DLQ_MESSAGE_TTL_MS)]) ;!
  ret (STANDARD_QUEUE, BULK_QUEUE).

(** ** persistence/jobs.py *)

(** [UPDATE jobs.async_jobs SET ... WHERE tenant_id = ... AND id = ... AND p]
    under row-level security; the row count. *)
Definition update_job (tenant_id job_id : string) (p : JobRow → bool)
    (set : string → JobRow → JobRow) : py JobsConn Z :=
  let! c := get_state in
  match jdb_async_jobs (jc_db c) !! job_id with
  | Some row =>
      if String.eqb (jrow_tenant_id row) tenant_id && String.eqb (jc_tenant c) tenant_id && p row then
        modify (fun c => c <| jc_db ::= (fun d => d <| jdb_async_jobs ::=
          <[job_id := set (jdb_now d) row]> |>) |>) ;!
        ret 1%Z
      else ret 0%Z
  | None => ret 0%Z
  end.

Definition any_row (_ : JobRow) : bool := true.

Definition claimable (row : JobRow) : bool := str_in (jrow_status row) ["queued"; "failed"].

Definition claimed_row (now : string) (row : JobRow) : JobRow :=
  row <| jrow_status := "running" |> <| jrow_started_at := Some now |>
      <| jrow_attempts ::= Z.add 1 |>.

(* @ async_worker/persistence/jobs.py:15-29 try_claim_job *)
Definition try_claim_job (tenant_id job_id : string) : py JobsConn bool :=
  let! rowcount := update_job tenant_id job_id claimable claimed_row in
  ret (rowcount =? 1)%Z.

Definition succeeded_row (result : json) (now : string) (row : JobRow) : JobRow :=
  row <| jrow_status := "succeeded" |> <| jrow_result := Some result |>
      <| jrow_completed_at := Some now |>.

(* @ async_worker/persistence/jobs.py:32-42 mark_job_succeeded *)
Definition mark_job_succeeded (tenant_id job_id : string) (result : json) : py JobsConn unit :=
  jsonb_param result ;! update_job tenant_id job_id any_row (succeeded_row result) ;! ret tt.

Definition failed_row (error : json) (_ : string) (row : JobRow) : JobRow :=
  row <| jrow_status := "failed" |> <| jrow_error := Some error |>.

(* @ async_worker/persistence/jobs.py:45-57 mark_job_failed_will_retry *)
Definition mark_job_failed_will_retry (tenant_id job_id : string) (error : json) : py JobsConn unit :=
  jsonb_param error ;! update_job tenant_id job_id any_row (failed_row error) ;! ret tt.

Definition dead_lettered_row (error : json) (now : string) (row : JobRow) : JobRow :=
  row <| jrow_status := "dead_lettered" |> <| jrow_error := Some error |>
      <| jrow_completed_at := Some now |>.

(* @ async_worker/persistence/jobs.py:60-70 mark_job_dead_lettered *)
Definition mark_job_dead_lettered (tenant_id job_id : string) (error : json) : py JobsConn unit :=
  jsonb_param error ;! update_job tenant_id job_id any_row (dead_lettered_row error) ;! ret tt.

Definition callback_row (callback_status : string) (_ : string) (row : JobRow) : JobRow :=
  row <| jrow_callback_status := Some callback_status |>.

(* @ async_worker/persistence/jobs.py:73-82 update_job_callback_status *)
Definition update_job_callback_status (tenant_id job_id callback_status : string) : py JobsConn unit :=
  update_job tenant_id job_id any_row (callback_row callback_status) ;! ret tt.

(** ** What the worker talks to *)

(** [POST /internal/v1/runs] on agent-harness, and [POST url] with a body and
    headers on a tenant's callback: a response, or an [httpx.HTTPError]. *)
Class RunsHttp (X : Type) := post_run : AgentRunRequest → py X HttpResponse.
Class CallbackHttp (X : Type) :=
  post_callback : string → list (string * string) → string → py X HttpResponse.

(** [hmac.new(secret, body, sha256).hexdigest()]. *)
Class Hmac := hmac_sha256_hex : string → string → string.

(** One persistent message handed to the broker. *)
Record Publication := MkPublication {
  pub_exchange : string;
  pub_routing_key : string;
  pub_body : string;
  pub_expiration : option Z
}.

(** The AMQP channel: publishing a message, acknowledging the delivery. *)
Class Amqp (X : Type) := {
  amqp_publish : Publication → py X unit;
  amqp_ack : py X unit
}.

Inductive AmqpCall := Published (p : Publication) | Acked.

(** The worker's state. [aw_amqp] lists the calls the broker accepted,
    [aw_slept] the pauses between two webhook attempts. *)
Record WorkerState (R X : Type) := MkWorkerState {
  aw_db : JobsDb;
  aw_redis : R;
  aw_utcnow : string;
  aw_metrics : list (string * list string);
  aw_slept : list float64;
  aw_amqp : list AmqpCall;
  aw_ext : X
}.
Arguments MkWorkerState {R X}.
Arguments aw_db {R X}.
Arguments aw_redis {R X}.
Arguments aw_utcnow {R X}.
Arguments aw_metrics {R X}.
Arguments aw_slept {R X}.
Arguments aw_amqp {R X}.
Arguments aw_ext {R X}.
#[export] Instance eta_WorkerState {R X} : EtaRec (WorkerState R X) := fun x =>
  MkWorkerState (aw_db x) (aw_redis x) (aw_utcnow x) (aw_metrics x) (aw_slept x) (aw_amqp x)
    (aw_ext x).

(** ** clients/harness.py *)

(* @ async_worker/clients/harness.py:27-47 HarnessClient.run *)
Definition harness_run {X} `{RunsHttp X, Pydantic} (request : AgentRunRequest)
    : py X AgentInvokeResponse :=
  let! response := try_except (post_run request) (fun e =>
    match e with
    | HttpxTimeout _ => Some (raise (HarnessError 504 (exn_str e) true))
    | HttpxError _ => Some (raise (HarnessError 503 (exn_str e) true))
    | _ => None
    end) in
  if (500 <=? hr_status_code response)%Z
  then raise (HarnessError (hr_status_code response) (hr_text response) true)
  else if (400 <=? hr_status_code response)%Z
  then raise (HarnessError (hr_status_code response) (hr_text response) false)
  else model_validate "AgentInvokeResponse" validate_response (hr_json response).

(** ** clients/quota.py *)

(* @ async_worker/clients/quota.py:13-23 _RECONCILE_SCRIPT *)
Definition worker_reconcile_script {R} `{Redis R} (k1 : string) (actual : Z) : py R Z :=
  let! raw := gets (GET k1) in
  match raw with
  | None => ret (-1)%Z
  | Some data =>
      let! estimated := need (lua_int "estimated" data) in
      let delta := (actual - estimated)%Z in
      let! qkey := need (lua_str "quota_key" data) in
      modify (INCRBY qkey delta) ;!
      modify (fun r => (DEL k1 r).2) ;!
      ret delta
  end.

(* @ async_worker/clients/quota.py:26-34 QuotaReconciler.reconcile *)
Definition reconcile {R} `{Redis R} (reservation_key : string) (actual_tokens : Z) : py R unit :=
  worker_reconcile_script reservation_key actual_tokens ;! ret tt.

(** ** webhook.py *)

(* @ async_worker/webhook.py:20-20 DEFAULT_BACKOFF_SECONDS *)
Definition DEFAULT_BACKOFF_SECONDS : list float64 := f64_of_Z <$> [1; 2; 4; 8; 16]%Z.

(* @ async_worker/webhook.py:23-25 sign *)
Definition sign `{Hmac} (body secret : string) : string :=
  "sha256=" +:+ hmac_sha256_hex secret body.

(* @ async_worker/webhook.py:28-38 WebhookSender.__init__ *)
Record WebhookSender := MkWebhookSender {
  whs_secrets : list (string * string);
  whs_backoff : list float64
}.

Section Worker.
  Context {R X : Type} `{Redis R, RunsHttp X, CallbackHttp X, Amqp X, Hmac, JsonText, Pydantic}.

Abbreviation W := (WorkerState R X).

Definition in_ext {A} : py X A → py W A := zoom aw_ext (fun x s => s <| aw_ext := x |>).
Definition in_redis {A} : py R A → py W A := zoom aw_redis (fun r s => s <| aw_redis := r |>).
Definition in_db {A} : py JobsDb A → py W A := zoom aw_db (fun d s => s <| aw_db := d |>).

Definition sleep (seconds : float64) : py W unit := modify (fun s => s <| aw_slept ::= (fun l => l ++ [seconds]) |>).

(** One [client.post]: delivered on a status below 300; an [httpx.HTTPError]
    is swallowed. *)
Definition deliver_once (url : string) (headers : list (string * string)) (body : string) : py W bool :=
  try_except
    (let! response := in_ext (post_callback url headers body) in
     ret (hr_status_code response <? 300)%Z)
    (fun e => if is_httpx_error e then Some (ret false) else None).

(** The attempts that are left, with the pause before each next one. *)
Fixpoint send_attempts (url : string) (headers : list (string * string)) (body : string)
    (backoff : list float64) : py W bool :=
  let! delivered := deliver_once url headers body in
  if delivered : bool then ret true
  else match backoff with
       | [] => ret false
       | pause :: backoff' => sleep pause ;! send_attempts url headers body backoff'
       end.

Definition webhook_headers (sender : WebhookSender) (secret_ref : option string) (body : string)
    : list (string * string) :=
  let headers := [("Content-Type", "application/json")] in
  match secret_ref with
  | Some ref =>
      match dict_get ref (whs_secrets sender) with
      | Some secret => dict_set "X-Duta-Signature" (sign body secret) headers
      | None => headers
      end
  | None => headers
  end.

(* @ async_worker/webhook.py:40-62 WebhookSender.send *)
Definition send (sender : WebhookSender) (url : string) (secret_ref : option string)
    (payload : WebhookPayload) : py W bool :=
  let body := json_text (dump_webhook payload) in
  let headers := webhook_headers sender secret_ref body in
  send_attempts url headers body (whs_backoff sender).

(** ** processor.py *)

(* @ async_worker/processor.py:39-43 JobOutcome *)
Inductive JobOutcome := OSUCCEEDED | ORETRY | ODEAD_LETTERED | OALREADY_CLAIMED.

Definition session {A} (message : AsyncJobMessage) (body : py JobsConn A) : py W A :=
  in_db (tenant_session (job_tenant_id message) body).

(* @ async_worker/processor.py:46-73 _send_terminal_webhook *)
Definition send_terminal_webhook (sender : WebhookSender) (message : AsyncJobMessage)
    (status : string) (result : option AgentInvokeResponse) (error : option JobError) : py W unit :=
  match job_callback_url message with
  | None => ret tt
  | Some url =>
      let! now := gets aw_utcnow in
      let payload := {| whk_job_id := job_job_id message;
                        whk_trace_id := run_trace_id (job_run_request message);
                        whk_status := status; whk_result := result; whk_error := error;
                        whk_completed_at := now |} in
      let! delivered := send sender url (job_callback_secret_ref message) payload in
      session message (update_job_callback_status (job_tenant_id message) (job_job_id message)
        (if delivered : bool then "delivered" else "webhook_failed"))
  end.

Definition inc (name : string) (labels : list string) : py W unit :=
  modify (fun s => s <| aw_metrics ::= (fun l => l ++ [(name, labels)]) |>).

(** The [except HarnessError] branch of [process_job]. *)
Definition attempt_failed (sender : WebhookSender) (message : AsyncJobMessage)
    (status_code : Z) (detail : string) (retriable : bool) : py W JobOutcome :=
  let tenant_id := job_tenant_id message in
  let error := MkJobError ("HTTP_" +:+ Z_to_string status_code) detail retriable in
  session message (mark_job_failed_will_retry tenant_id (job_job_id message) (dump_job_error error)) ;!
  if negb retriable || (MAX_ATTEMPTS <=? job_attempts message)%Z then
    session message (mark_job_dead_lettered tenant_id (job_job_id message) (dump_job_error error)) ;!
    inc "async_jobs_dead_lettered_total" [tenant_id] ;!
    send_terminal_webhook sender message "dead_lettered" None (Some error) ;!
    ret ODEAD_LETTERED
  else ret ORETRY.

(** The rest of [process_job] once agent-harness has answered. *)
Definition attempt_succeeded (sender : WebhookSender) (message : AsyncJobMessage)
    (result : AgentInvokeResponse) : py W JobOutcome :=
  (if opt_truthy (job_quota_reservation_key message) then
     let actual_tokens := (usg_input_tokens (res_usage result) + usg_output_tokens (res_usage result))%Z in
     in_redis (reconcile (str_or (job_quota_reservation_key message) "") actual_tokens)
   else ret tt) ;!
  session message (mark_job_succeeded (job_tenant_id message) (job_job_id message) (dump_response result)) ;!
  send_terminal_webhook sender message "succeeded" (Some result) None ;!
  ret OSUCCEEDED.

(* @ async_worker/processor.py:76-146 process_job *)
Definition process_job (sender : WebhookSender) (model_router_key_override : string)
    (message : AsyncJobMessage) : py W JobOutcome :=
  let! claimed := session message (try_claim_job (job_tenant_id message) (job_job_id message)) in
  if negb claimed then ret OALREADY_CLAIMED
  else
    let run_request :=
      (job_run_request message) <| run_model_router_key_override := Some model_router_key_override |> in
    let! answer := try_except
      (let! result := in_ext (harness_run run_request) in ret (inr result))
      (fun e => match e with
                | HarnessError status_code detail retriable => Some (ret (inl (status_code, detail, retriable)))
                | _ => None
                end) in
    match answer with
    | inl (status_code, detail, retriable) => attempt_failed sender message status_code detail retriable
    | inr result => attempt_succeeded sender message result
    end.

(** ** consumer.py *)

Definition amqp (call : py X unit) (log : AmqpCall) : py W unit :=
  in_ext call ;! modify (fun s => s <| aw_amqp ::= (fun l => l ++ [log]) |>).

Definition publish (p : Publication) : py W unit := amqp (amqp_publish p) (Published p).
Definition ack : py W unit := amqp amqp_ack Acked.

Definition retry_publication (message : AsyncJobMessage) (delay_seconds : Z) : Publication :=
  {| pub_exchange := RETRY_EXCHANGE;
     pub_routing_key := routing_key (job_priority message) (job_tenant_id message);
     pub_body := json_text (dump_job_message (message <| job_attempts ::= Z.add 1 |>));
     pub_expiration := Some delay_seconds |}.

(* @ async_worker/consumer.py:33-57 _schedule_retry *)
Definition schedule_retry (message : AsyncJobMessage) : py W unit :=
  match RETRY_BACKOFF_SECONDS !! Z.to_nat (Z.min (job_attempts message) (MAX_ATTEMPTS - 1)) with
  | Some delay_seconds => publish (retry_publication message delay_seconds)
  | None => raise (OtherException "IndexError" "list index out of range")
  end.

(* @ async_worker/consumer.py:60-68 _publish_to_dlq *)
Definition publish_to_dlq (message : AsyncJobMessage) : py W unit :=
  publish (MkPublication "" DLQ_QUEUE (json_text (dump_job_message message)) None).

(* @ async_worker/consumer.py:71-81 _publish_raw_to_dlq *)
Definition publish_raw_to_dlq (body : string) : py W unit :=
  publish (MkPublication "" DLQ_QUEUE body None).

Definition decode_message (body : string) : option AsyncJobMessage :=
  json_parse body ≫= validate_job_message.

(* @ async_worker/consumer.py:84-128 make_message_handler._handle *)
Definition handle (sender : WebhookSender) (model_router_key_override body : string) : py W unit :=
  match decode_message body with
  | None => publish_raw_to_dlq body ;! ack
  | Some job_message =>
      let! outcome := try_except
        (let! o := process_job sender model_router_key_override job_message in ret (Some o))
        (fun _ => Some (publish_to_dlq job_message ;! ack ;! ret None)) in
      match outcome with
      | None => ret tt
      | Some outcome =>
          (match outcome with
           | ORETRY => schedule_retry job_message
           | ODEAD_LETTERED => publish_to_dlq job_message
           | OSUCCEEDED | OALREADY_CLAIMED => ret tt
           end) ;!
          ack
      end
  end.
End Worker.

(** ** litellm_key.py

    The key file on disk: its text when it exists. *)
Record KeyState (X : Type) := MkKeyState {
  lk_file : option string;
  lk_ext : X
}.
Arguments MkKeyState {X}.
Arguments lk_file {X}.
Arguments lk_ext {X}.
#[export] Instance eta_KeyState {X} : EtaRec (KeyState X) := fun x => MkKeyState (lk_file x) (lk_ext x).

(* @ async_worker/litellm_key.py:22-22 ASYNC_POOL_MODELS *)
Definition ASYNC_POOL_MODELS : list string :=
  ["agent-primary"; "agent-cheap"; "agent-local"; "embedding-default"].

(* @ async_worker/litellm_key.py:25-54 provision_async_pool_key *)
Definition provision_async_pool_key {X} `{HttpPost X, JsonLoads, FloatRepr}
    (master_key key_alias : string) (daily_budget_usd : float64) : py (KeyState X) string :=
  let! existing := gets lk_file in
  match existing with
  | Some text =>
      match json_loads text with
      | Some data => let! key := jget "key" data in ret (py_str key)
      | None => raise (ValueError "JSONDecodeError")
      end
  | None =>
      let! key := zoom lk_ext (fun x s => s <| lk_ext := x |>)
        (let! response := http_post ModelRouter "/key/generate"
             [("Authorization", "Bearer " +:+ master_key)]
             (JObj [("models", j_strs ASYNC_POOL_MODELS); ("max_budget", JFloat daily_budget_usd);
                    ("budget_duration", JStr "24h"); ("key_alias", JStr key_alias)]) in
         raise_for_status response ;!
         let! key := jget "key" (hr_json response) in ret (py_str key)) in
      modify (fun s => s <| lk_file :=
        Some (json_dumps (JObj [("key", JStr key); ("key_alias", JStr key_alias)])) |>) ;!
      ret key
  end.
