(* ===== verification/AsyncWorkerProps.v ===== *)
(** What async-worker promises about a job: one delivery does one attempt and
    is acknowledged once, at most one delivery runs a job at any time, every
    chain of retries ends, and the rows it writes can be read back. *)
From S2P Require Import Prelude PyStr Json Http Contracts Wire Redis Quota JobsDb AsyncWorker.

(** ** Statements on [jobs.async_jobs] *)

Definition put_row (j : string) (row : JobRow) (d : JobsDb) : JobsDb :=
  d <| jdb_async_jobs ::= <[j := row]> |>.

(** The row a session of tenant [t] reaches with [WHERE id = j AND p]. *)
Definition reaches (t j : string) (p : JobRow → bool) (d : JobsDb) : option JobRow :=
  match jdb_async_jobs d !! j with
  | Some row => if String.eqb (jrow_tenant_id row) t && p row then Some row else None
  | None => None
  end.

Lemma reaches_spec t j p d row :
  reaches t j p d = Some row ↔
  jdb_async_jobs d !! j = Some row ∧ jrow_tenant_id row = t ∧ p row = true.
Proof.
  unfold reaches. destruct (jdb_async_jobs d !! j) as [r|]; [|by split; [|intros [? _]]].
  destruct (str_eqb_spec (jrow_tenant_id r) t), (p r) eqn:Hp; cbn; (split; [intros [= <-]|]); auto;
    by intros ([= <-] & ? & ?); congruence.
Qed.

Lemma reaches_put t j p d row :
  jrow_tenant_id row = t → p row = true → reaches t j p (put_row j row d) = Some row.
Proof. intros Ht Hp. apply reaches_spec. cbn. by rewrite lookup_insert_eq. Qed.

Lemma put_row_put j row row' d : put_row j row' (put_row j row d) = put_row j row' d.
Proof. destruct d. unfold put_row; cbn. by rewrite insert_insert_eq. Qed.

Lemma session_update t j p set d :
  tenant_session t (update_job t j p set) d =
    match reaches t j p d with
    | Some row => (put_row j (set (jdb_now d) row) d, inr 1%Z)
    | None => (d, inr 0%Z)
    end.
Proof.
  unfold tenant_session, atomically, update_job, bind, get_state, reaches; cbn.
  destruct (jdb_async_jobs d !! j) as [row|]; cbn; [|done].
  rewrite String.eqb_refl, andb_true_r. by destruct (_ && _).
Qed.

Lemma session_then {A B} t (m : py JobsConn A) (f : A → B) d d' a :
  tenant_session t m d = (d', inr a) →
  tenant_session t (let! x := m in ret (f x)) d = (d', inr (f a)).
Proof.
  unfold tenant_session, atomically, bind. destruct (m (MkJobsConn t d)) as [c [e|x]]; cbn; [done|].
  by intros [= <- <-].
Qed.

Definition ready (m : AsyncJobMessage) (d : JobsDb) : option JobRow :=
  reaches (job_tenant_id m) (job_job_id m) claimable d.

Lemma session_claim t j d :
  tenant_session t (try_claim_job t j) d =
    match reaches t j claimable d with
    | Some row => (put_row j (claimed_row (jdb_now d) row) d, inr true)
    | None => (d, inr false)
    end.
Proof.
  pose proof (session_update t j claimable claimed_row d) as H.
  unfold try_claim_job. destruct (reaches t j claimable d) as [row|];
    exact (session_then t _ (fun n => (n =? 1)%Z) d _ _ H).
Qed.

(** A statement without a guard reaches the row it claimed. *)
Lemma session_mark t j set row d :
  jrow_tenant_id row = t →
  tenant_session t (update_job t j any_row set ;! ret tt) (put_row j row d) =
    (put_row j (set (jdb_now d) row) d, inr tt).
Proof.
  intros Ht. eapply session_then with (f := fun _ => tt). rewrite session_update, reaches_put by done.
  by rewrite put_row_put.
Qed.

(** The same with a JSON document, which the column may refuse. *)
Lemma session_mark_json t j doc set row d :
  jrow_tenant_id row = t →
  tenant_session t (jsonb_param doc ;! update_job t j any_row set ;! ret tt) (put_row j row d) =
    if jsonb_ok doc then (put_row j (set (jdb_now d) row) d, inr tt) else (put_row j row d, inl jsonb_refused).
Proof.
  intros Ht. rewrite <- (session_mark t j set row d Ht). unfold jsonb_param. by destruct (jsonb_ok doc).
Qed.

(** A broker that accepts what it is sent. *)
Class ReliableBroker (X : Type) `{Amqp X} : Prop := {
  publish_ok p (x : X) : ∃ x', amqp_publish p x = (x', inr tt);
  ack_ok (x : X) : ∃ x', amqp_ack x = (x', inr tt)
}.

Definition retried_message (m : AsyncJobMessage) : AsyncJobMessage := m <| job_attempts ::= Z.add 1 |>.

Definition dlq_publication (body : string) : Publication := MkPublication "" DLQ_QUEUE body None.

(** ** One attempt

    What [process_job] leaves behind: the row of the job, the reservation, and
    the answer of agent-harness that explains both. *)

Section Attempts.
  Context {R X : Type} `{Redis R, RunsHttp X, CallbackHttp X, Amqp X, Hmac, JsonText, Pydantic}.
  Variables (sender : WebhookSender) (key : string).
  Implicit Types (w : WorkerState R X) (m : AsyncJobMessage).

Definition request_of m : AgentRunRequest :=
  (job_run_request m) <| run_model_router_key_override := Some key |>.

Definition job_error (status_code : Z) (detail : string) (retriable : bool) : json :=
  dump_job_error (MkJobError ("HTTP_" +:+ Z_to_string status_code) detail retriable).

(** The row after the terminal webhook, or when the webhook itself raised. *)
Definition announced m (row row' : JobRow) (r : exn + JobOutcome) (o : JobOutcome) : Prop :=
  match r with
  | inl _ => is_Some (job_callback_url m) ∧ row' = row
  | inr o' => o' = o ∧
      match job_callback_url m with
      | None => row' = row
      | Some _ => ∃ delivered : bool,
          row' = row <| jrow_callback_status := Some (if delivered then "delivered" else "webhook_failed") |>
      end
  end.

Definition settled m (result : AgentInvokeResponse) (r0 : R) : R * (exn + unit) :=
  if opt_truthy (job_quota_reservation_key m) then
    reconcile (str_or (job_quota_reservation_key m) "")
      (usg_input_tokens (res_usage result) + usg_output_tokens (res_usage result)) r0
  else (r0, inr tt).

Inductive attempted m w : WorkerState R X → exn + JobOutcome → Prop :=
  | attempt_skipped :
      ready m (aw_db w) = None → attempted m w w (inr OALREADY_CLAIMED)
  | attempt_lost row w' x e :
      ready m (aw_db w) = Some row →
      harness_run (request_of m) (aw_ext w) = (x, inl e) →
      (∀ s d r, e ≠ HarnessError s d r) →
      aw_db w' = put_row (job_job_id m) (claimed_row (jdb_now (aw_db w)) row) (aw_db w) →
      aw_redis w' = aw_redis w → aw_amqp w' = aw_amqp w →
      attempted m w w' (inl e)
  | attempt_unsettled row w' x result e :
      ready m (aw_db w) = Some row →
      harness_run (request_of m) (aw_ext w) = (x, inr result) →
      settled m result (aw_redis w) = (aw_redis w', inl e) →
      aw_db w' = put_row (job_job_id m) (claimed_row (jdb_now (aw_db w)) row) (aw_db w) →
      aw_amqp w' = aw_amqp w →
      attempted m w w' (inl e)
  | attempt_unrecorded row w' x s d b :
      ready m (aw_db w) = Some row →
      harness_run (request_of m) (aw_ext w) = (x, inl (HarnessError s d b)) →
      jsonb_ok (job_error s d b) = false →
      aw_db w' = put_row (job_job_id m) (claimed_row (jdb_now (aw_db w)) row) (aw_db w) →
      aw_redis w' = aw_redis w → aw_amqp w' = aw_amqp w →
      attempted m w w' (inl jsonb_refused)
  | attempt_unstored row w' x result :
      ready m (aw_db w) = Some row →
      harness_run (request_of m) (aw_ext w) = (x, inr result) →
      settled m result (aw_redis w) = (aw_redis w', inr tt) → jsonb_ok (dump_response result) = false →
      aw_db w' = put_row (job_job_id m) (claimed_row (jdb_now (aw_db w)) row) (aw_db w) →
      aw_amqp w' = aw_amqp w →
      attempted m w w' (inl jsonb_refused)
  | attempt_retry row w' x s d :
      ready m (aw_db w) = Some row →
      harness_run (request_of m) (aw_ext w) = (x, inl (HarnessError s d true)) →
      (job_attempts m < MAX_ATTEMPTS)%Z → jsonb_ok (job_error s d true) = true →
      aw_db w' = put_row (job_job_id m) (failed_row (job_error s d true) (jdb_now (aw_db w))
                                           (claimed_row (jdb_now (aw_db w)) row)) (aw_db w) →
      aw_redis w' = aw_redis w → aw_amqp w' = aw_amqp w →
      attempted m w w' (inr ORETRY)
  | attempt_dead row row' w' x s d b r :
      ready m (aw_db w) = Some row →
      harness_run (request_of m) (aw_ext w) = (x, inl (HarnessError s d b)) →
      b = false ∨ (MAX_ATTEMPTS ≤ job_attempts m)%Z → jsonb_ok (job_error s d b) = true →
      announced m (dead_lettered_row (job_error s d b) (jdb_now (aw_db w))
                     (claimed_row (jdb_now (aw_db w)) row)) row' r ODEAD_LETTERED →
      aw_db w' = put_row (job_job_id m) row' (aw_db w) →
      aw_redis w' = aw_redis w → aw_amqp w' = aw_amqp w →
      attempted m w w' r
  | attempt_done row row' w' x result r :
      ready m (aw_db w) = Some row →
      harness_run (request_of m) (aw_ext w) = (x, inr result) →
      settled m result (aw_redis w) = (aw_redis w', inr tt) → jsonb_ok (dump_response result) = true →
      announced m (succeeded_row (dump_response result) (jdb_now (aw_db w))
                     (claimed_row (jdb_now (aw_db w)) row)) row' r OSUCCEEDED →
      aw_db w' = put_row (job_job_id m) row' (aw_db w) →
      aw_amqp w' = aw_amqp w →
      attempted m w w' r.

(** Posting the webhook touches neither tables, reservations nor the channel. *)
Definition same_tables w w' : Prop :=
  aw_db w' = aw_db w ∧ aw_redis w' = aw_redis w ∧ aw_amqp w' = aw_amqp w.

#[local] Instance same_tables_preorder : PreOrder same_tables.
Proof. split; [by intros w|]. intros a b c (?&?&?) (?&?&?). repeat split; congruence. Qed.

Lemma deliver_once_same url hs body : frames same_tables (deliver_once url hs body).
Proof.
  apply frames_try; [apply _| |].
  - apply frames_bind; [apply _|by apply frames_zoom|]. intros a. apply frames_ret, _.
  - intros e k. destruct (is_httpx_error e); [|done]. intros [= <-]. apply frames_ret, _.
Qed.

Lemma send_same_tables url ref payload : frames same_tables (send sender url ref payload).
Proof.
  unfold send. generalize (webhook_headers sender ref (json_text (dump_webhook payload))) as hs.
  generalize (json_text (dump_webhook payload)) as body. intros body hs.
  induction (whs_backoff sender) as [|p l IH]; cbn [send_attempts];
    (apply frames_bind; [apply _|apply deliver_once_same|]); intros []; try apply frames_ret, _.
  apply frames_bind; [apply _| |done]. by intros w.
Qed.

(** The terminal webhook: no callback, an undelivered one, or an exception. *)
Lemma webhook_run m status result error row w :
  jrow_tenant_id row = job_tenant_id m →
  jdb_async_jobs (aw_db w) !! job_job_id m = Some row →
  ∃ w' row' r,
    send_terminal_webhook sender m status result error w = (w', r) ∧
    aw_db w' = put_row (job_job_id m) row' (aw_db w) ∧
    aw_redis w' = aw_redis w ∧ aw_amqp w' = aw_amqp w ∧
    ∀ o, announced m row row' (match r with inl e => inl e | inr _ => inr o end) o.
Proof.
  intros Ht Hrow. unfold send_terminal_webhook, announced.
  assert (Hself : aw_db w = put_row (job_job_id m) row (aw_db w)).
  { destruct w as [[k jobs n]]. unfold put_row; cbn in *. by rewrite insert_id. }
  destruct (job_callback_url m) as [url|]; [|by eexists w, row, (inr tt)].
  unfold gets, bind.
  match goal with |- context [send sender url ?ref ?p] =>
    pose proof (send_same_tables url ref p w) as Hs; set (post := send sender url ref p) in * end.
  destruct (post w) as [w1 [e|b]]; destruct Hs as (Hd & Hr & Ha); cbn in *.
  - exists w1, row, (inl e). rewrite Hd. naive_solver.
  - unfold session, in_db, zoom. rewrite Hd, Hself. unfold update_job_callback_status.
    rewrite session_mark by done. eexists _, _, (inr tt). cbn. split; [done|].
    rewrite Hr, Ha, <- Hself. split; [done|split; [done|split; [done|]]]. intros o. split; [done|].
    by exists b.
Qed.

(** [process_job] is one attempt. *)
Lemma attempt_failed_run m w row s d b :
  jrow_tenant_id row = job_tenant_id m → jdb_async_jobs (aw_db w) !! job_job_id m = Some row →
  ∃ w' row' r,
    attempt_failed sender m s d b w = (w', r) ∧
    aw_db w' = put_row (job_job_id m) row' (aw_db w) ∧
    aw_redis w' = aw_redis w ∧ aw_amqp w' = aw_amqp w ∧
    if negb (jsonb_ok (job_error s d b)) then r = inl jsonb_refused ∧ row' = row
    else if negb b || (MAX_ATTEMPTS <=? job_attempts m)%Z
    then announced m (dead_lettered_row (job_error s d b) (jdb_now (aw_db w)) row) row' r ODEAD_LETTERED
    else r = inr ORETRY ∧ row' = failed_row (job_error s d b) (jdb_now (aw_db w)) row.
Proof.
  intros Ht Hrow. unfold attempt_failed.
  assert (Hself : aw_db w = put_row (job_job_id m) row (aw_db w)).
  { destruct w as [[k jobs n]]. unfold put_row; cbn in *. by rewrite insert_id. }
  match goal with |- context [bind ?mark ?k w] =>
    assert (Hm : mark w = if jsonb_ok (job_error s d b) then (w <| aw_db := put_row (job_job_id m)
      (failed_row (job_error s d b) (jdb_now (aw_db w)) row) (aw_db w) |>, inr tt) else (w, inl jsonb_refused)) end.
  { unfold session, in_db, zoom, mark_job_failed_will_retry. rewrite Hself at 1. fold (job_error s d b).
    rewrite session_mark_json by done. destruct (jsonb_ok _); [done|]. rewrite <- Hself. by destruct w. }
  destruct (jsonb_ok (job_error s d b)) eqn:Hdoc; cbn [negb];
    [|rewrite (bind_inl _ _ _ _ _ Hm); by eexists _, row, (inl jsonb_refused)].
  rewrite (bind_inr _ _ _ _ _ Hm). clear Hm. destruct (negb b || _); [|by eexists _, _, (inr ORETRY)].
  match goal with |- context [bind ?mark ?k ?w1] =>
    assert (Hm : mark w1 = (w <| aw_db := put_row (job_job_id m)
      (dead_lettered_row (job_error s d b) (jdb_now (aw_db w)) row) (aw_db w) |>, inr tt)) end.
  { unfold session, in_db, zoom, mark_job_dead_lettered. cbn -[dump_job_error]. fold (job_error s d b).
    rewrite session_mark_json, Hdoc by done. by destruct w as [[]]. }
  rewrite (bind_inr _ _ _ _ _ Hm). clear Hm. unfold inc, modify at 1, bind at 1. cbn.
  match goal with |- context [bind (send_terminal_webhook _ _ ?st ?re ?er) _ ?w1] =>
    destruct (webhook_run m st re er (dead_lettered_row (job_error s d b) (jdb_now (aw_db w)) row) w1)
      as (w' & row' & r & Hw & Hd & Hr & Ha & Hann); [done|cbn; by rewrite lookup_insert_eq|] end.
  unfold bind. rewrite Hw. cbn in Hd. rewrite put_row_put in Hd.
  destruct r as [e|[]]; eexists w', row', _; (split; [reflexivity|]);
    (split; [done|split; [done|split; [done|]]]); apply Hann.
Qed.

Lemma attempt_succeeded_run m w row result r1 u :
  jrow_tenant_id row = job_tenant_id m → jdb_async_jobs (aw_db w) !! job_job_id m = Some row →
  settled m result (aw_redis w) = (r1, u) →
  match u with
  | inl e => ∃ w', attempt_succeeded sender m result w = (w', inl e) ∧
               aw_db w' = aw_db w ∧ aw_redis w' = r1 ∧ aw_amqp w' = aw_amqp w
  | inr _ =>
      ∃ w' row' r,
        attempt_succeeded sender m result w = (w', r) ∧
        aw_db w' = put_row (job_job_id m) row' (aw_db w) ∧
        aw_redis w' = r1 ∧ aw_amqp w' = aw_amqp w ∧
        if jsonb_ok (dump_response result)
        then announced m (succeeded_row (dump_response result) (jdb_now (aw_db w)) row) row' r OSUCCEEDED
        else r = inl jsonb_refused ∧ row' = row
  end.
Proof.
  intros Ht Hrow Hset. unfold attempt_succeeded.
  assert (Hself : aw_db w = put_row (job_job_id m) row (aw_db w)).
  { destruct w as [[k jobs n]]. unfold put_row; cbn in *. by rewrite insert_id. }
  match goal with |- context [bind ?rec ?k w] =>
    assert (Hm : rec w = (w <| aw_redis := r1 |>, u)) end.
  { unfold settled in Hset. destruct (opt_truthy _); [unfold in_redis, zoom; by rewrite Hset|].
    simplify_eq. by destruct w. }
  destruct u as [e|[]]; [rewrite (bind_inl _ _ _ _ _ Hm); by eexists|].
  rewrite (bind_inr _ _ _ _ _ Hm). clear Hm.
  match goal with |- context [bind ?mark ?k ?w1] =>
    assert (Hm : mark w1 = if jsonb_ok (dump_response result)
      then (w <| aw_redis := r1 |> <| aw_db := put_row (job_job_id m)
        (succeeded_row (dump_response result) (jdb_now (aw_db w)) row) (aw_db w) |>, inr tt)
      else (w <| aw_redis := r1 |>, inl jsonb_refused)) end.
  { unfold session, in_db, zoom, mark_job_succeeded. cbn -[dump_response]. rewrite Hself at 1.
    rewrite session_mark_json by done. destruct (jsonb_ok _); [done|]. rewrite <- Hself. by destruct w. }
  destruct (jsonb_ok (dump_response result)) eqn:Hdoc;
    [|rewrite (bind_inl _ _ _ _ _ Hm); eexists _, row, (inl jsonb_refused); by rewrite <- Hself].
  rewrite (bind_inr _ _ _ _ _ Hm). clear Hm.
  match goal with |- context [bind (send_terminal_webhook _ _ ?st ?re ?er) _ ?w1] =>
    destruct (webhook_run m st re er (succeeded_row (dump_response result) (jdb_now (aw_db w)) row) w1)
      as (w' & row' & r & Hw & Hd & Hr & Ha & Hann); [done|cbn; by rewrite lookup_insert_eq|] end.
  unfold bind. rewrite Hw. cbn in Hd. rewrite put_row_put in Hd.
  destruct r as [e|[]]; eexists w', row', _; (split; [reflexivity|]);
    (split; [done|split; [done|split; [done|]]]); apply Hann.
Qed.

Lemma process_job_attempt m w :
  let '(w', r) := process_job sender key m w in attempted m w w' r.
Proof.
  unfold process_job.
  match goal with |- context [bind ?claim ?k w] =>
    assert (Hc : claim w = match ready m (aw_db w) with
      | Some row => (w <| aw_db := put_row (job_job_id m) (claimed_row (jdb_now (aw_db w)) row) (aw_db w) |>, inr true)
      | None => (w, inr false) end) end.
  { unfold session, in_db, zoom, ready. rewrite session_claim. destruct (reaches _ _ _ _); by destruct w. }
  unfold bind at 1. rewrite Hc. clear Hc.
  destruct (ready m (aw_db w)) as [row|] eqn:Hready; cbn [fst snd negb]; [|by apply attempt_skipped].
  pose proof (proj1 (reaches_spec _ _ _ _ _) Hready) as (Hrow & Ht & _).
  set (row1 := claimed_row (jdb_now (aw_db w)) row).
  set (w1 := w <| aw_db := put_row (job_job_id m) row1 (aw_db w) |>).
  unfold bind at 1, try_except, bind at 1, in_ext, zoom.
  destruct (harness_run (request_of m) (aw_ext w)) as [x r] eqn:Hrun. unfold request_of in Hrun.
  change (aw_ext w1) with (aw_ext w). rewrite Hrun.
  assert (Hdead : ∀ w', aw_db w' = put_row (job_job_id m) row1 (aw_db w) → jdb_async_jobs (aw_db w') !! job_job_id m = Some row1).
  { intros w' ->. cbn. by rewrite lookup_insert_eq. }
  destruct r as [e|result]; cbn [fst snd].
  - destruct e; try (by eapply attempt_lost; [done|exact Hrun|done|..]). cbn [ret].
    match goal with |- context [attempt_failed _ _ ?s ?d ?b ?w2] =>
      destruct (attempt_failed_run m w2 row1 s d b Ht) as (w' & row' & r & -> & Hd & Hr & Ha & Hcase) end.
    { by apply Hdead. }
    cbn in Hd. rewrite put_row_put in Hd. cbn [fst snd].
    destruct (jsonb_ok (job_error status_code detail retriable)) eqn:Hdoc; cbn [negb] in Hcase;
      [|destruct Hcase as [-> ->]; by eapply attempt_unrecorded].
    destruct (negb retriable) eqn:Hb; cbn [orb] in Hcase.
    { eapply attempt_dead; [done|exact Hrun|left; by destruct retriable|exact Hdoc|exact Hcase|done..]. }
    destruct (Z.leb_spec MAX_ATTEMPTS (job_attempts m)).
    { eapply attempt_dead; [done|exact Hrun|by right|exact Hdoc|exact Hcase|done..]. }
    destruct Hcase as [-> ->]. destruct retriable; [|done].
    by eapply attempt_retry; [done|exact Hrun|done|..].
  - cbn [ret]. destruct (settled m result (aw_redis w)) as [r1 u] eqn:Hset.
    match goal with |- context [attempt_succeeded _ _ _ ?w2] =>
      pose proof (attempt_succeeded_run m w2 row1 result r1 u Ht) as Hs end.
    specialize (Hs (Hdead (w1 <| aw_ext := x |>) eq_refl) Hset). destruct u as [e|[]].
    + destruct Hs as (w' & -> & Hd & Hr & Ha). cbn [fst snd].
      by apply (attempt_unsettled m w row w' x result e Hready Hrun); [rewrite Hr|..].
    + destruct Hs as (w' & row' & r & -> & Hd & Hr & Ha & Hann). cbn in Hd.
      rewrite put_row_put in Hd. cbn [fst snd].
      destruct (jsonb_ok (dump_response result)) eqn:Hdoc.
      * apply (attempt_done m w row row' w' x result r Hready Hrun); [by rewrite Hr|exact Hdoc|exact Hann|done..].
      * destruct Hann as [-> ->]. apply (attempt_unstored m w row w' x result Hready Hrun); [by rewrite Hr|done..].
Qed.

(** ** One delivery *)

Context `{!ReliableBroker X}.

Lemma publish_run p w :
  ∃ w', publish p w = (w', inr tt) ∧ aw_db w' = aw_db w ∧ aw_redis w' = aw_redis w ∧
    aw_amqp w' = aw_amqp w ++ [Published p].
Proof.
  destruct (publish_ok p (aw_ext w)) as (x & Hx). unfold publish, amqp, in_ext, zoom, bind.
  rewrite Hx. by eexists.
Qed.

Lemma ack_run w :
  ∃ w', ack w = (w', inr tt) ∧ aw_db w' = aw_db w ∧ aw_redis w' = aw_redis w ∧
    aw_amqp w' = aw_amqp w ++ [Acked].
Proof.
  destruct (ack_ok (aw_ext w)) as (x & Hx). unfold ack, amqp, in_ext, zoom, bind.
  rewrite Hx. by eexists.
Qed.

Lemma publish_ack_run {A} p (a : A) w :
  ∃ w', (publish p ;! ack ;! ret a) w = (w', inr a) ∧ aw_db w' = aw_db w ∧ aw_redis w' = aw_redis w ∧
    aw_amqp w' = aw_amqp w ++ [Published p; Acked].
Proof.
  destruct (publish_run p w) as (w1 & Hw1 & Hd1 & Hr1 & Ha1).
  destruct (ack_run w1) as (w2 & Hw2 & Hd2 & Hr2 & Ha2).
  exists w2. rewrite (bind_inr _ _ _ _ _ Hw1), (bind_inr _ _ _ _ _ Hw2).
  rewrite Ha2, Ha1, <- app_assoc. split; [done|]. split; [congruence|]. split; [congruence|done].
Qed.

(** What the consumer sends after an attempt. *)
Inductive follow_up m : exn + JobOutcome → list AmqpCall → Prop :=
  | follow_none o : o = OSUCCEEDED ∨ o = OALREADY_CLAIMED → follow_up m (inr o) []
  | follow_retry delay :
      RETRY_BACKOFF_SECONDS !! Z.to_nat (job_attempts m) = Some delay →
      follow_up m (inr ORETRY) [Published (retry_publication m delay)]
  | follow_dead : follow_up m (inr ODEAD_LETTERED) [Published (dlq_publication (json_text (dump_job_message m)))]
  | follow_error e : follow_up m (inl e) [Published (dlq_publication (json_text (dump_job_message m)))].

Lemma attempted_retry_bound m w w' : attempted m w w' (inr ORETRY) → (job_attempts m < MAX_ATTEMPTS)%Z.
Proof. by inversion 1; simplify_eq; match goal with H : announced _ _ _ (inr _) _ |- _ => destruct H | _ => idtac end. Qed.

Lemma schedule_retry_run m w :
  (0 ≤ job_attempts m < MAX_ATTEMPTS)%Z →
  ∃ delay, RETRY_BACKOFF_SECONDS !! Z.to_nat (job_attempts m) = Some delay ∧
    schedule_retry m w = publish (retry_publication m delay) w.
Proof.
  intros Hm. unfold schedule_retry. rewrite Z.min_l by (unfold MAX_ATTEMPTS in *; lia).
  assert (Hlt : (Z.to_nat (job_attempts m) < length RETRY_BACKOFF_SECONDS)%nat)
    by (unfold MAX_ATTEMPTS in *; cbn; lia).
  destruct (lookup_lt_is_Some_2 _ _ Hlt) as (delay & Hd). exists delay. by rewrite Hd.
Qed.

Lemma decode_message_wf body m : decode_message body = Some m → wf_job_message m.
Proof.
  unfold decode_message. intros Hb. apply bind_Some in Hb as (j & _ & Hj).
  by eapply validate_job_message_wf.
Qed.

Lemma handle_run m body w :
  decode_message body = Some m →
  ∃ w1 w' r sent,
    attempted m w w1 r ∧ follow_up m r sent ∧
    handle sender key body w = (w', inr tt) ∧
    aw_db w' = aw_db w1 ∧ aw_redis w' = aw_redis w1 ∧ aw_amqp w' = aw_amqp w ++ sent ++ [Acked].
Proof.
  intros Hdec. pose proof (decode_message_wf _ _ Hdec) as [_ Hpos]. unfold handle. rewrite Hdec.
  pose proof (process_job_attempt m w) as Hatt.
  unfold try_except, bind at 1, bind at 1.
  destruct (process_job sender key m w) as [w1 r] eqn:Hp.
  assert (Hamqp : aw_amqp w1 = aw_amqp w) by (by destruct Hatt).
  destruct r as [e|o]; cbn [ret].
  - destruct (publish_ack_run (dlq_publication (json_text (dump_job_message m))) (@None JobOutcome) w1)
      as (w' & Hw & Hd & Hr & Ha).
    unfold publish_to_dlq. fold (dlq_publication (json_text (dump_job_message m))).
    rewrite Hw. eexists w1, w', (inl e), _. split; [done|]. split; [apply follow_error|].
    split; [done|]. by rewrite Ha, Hamqp.
  - assert (Hsend : ∃ w2 sent, follow_up m (inr o) sent ∧
      (match o with ORETRY => schedule_retry m | ODEAD_LETTERED => publish_to_dlq m | _ => ret tt end) w1
        = (w2, inr tt) ∧ aw_db w2 = aw_db w1 ∧ aw_redis w2 = aw_redis w1 ∧ aw_amqp w2 = aw_amqp w1 ++ sent).
    { destruct o.
      - exists w1, []. rewrite app_nil_r. split; [by apply follow_none; left|done].
      - pose proof (attempted_retry_bound _ _ _ Hatt).
        destruct (schedule_retry_run m w1) as (delay & Hdelay & ->); [done|].
        destruct (publish_run (retry_publication m delay) w1) as (w2 & Hw & Hd & Hr & Ha).
        eexists w2, _. split; [by apply follow_retry|done].
      - destruct (publish_run (dlq_publication (json_text (dump_job_message m))) w1) as (w2 & Hw & Hd & Hr & Ha).
        eexists w2, _. split; [apply follow_dead|done].
      - exists w1, []. rewrite app_nil_r. split; [by apply follow_none; right|done]. }
    destruct Hsend as (w2 & sent & Hf & Hw & Hd & Hr & Ha).
    destruct (ack_run w2) as (w' & Hw' & Hd' & Hr' & Ha').
    exists w1, w', (inr o), sent. split; [done|]. split; [done|].
    assert (E : (match o with ORETRY => schedule_retry m | ODEAD_LETTERED => publish_to_dlq m | _ => ret tt end ;! ack) w1 = (w', inr tt)).
    { by rewrite (bind_inr _ _ _ _ _ Hw). }
    split; [exact E|]. rewrite Ha', Ha, Hamqp, <- app_assoc. split; [congruence|]. split; [congruence|done].
Qed.

Lemma handle_unreadable body w :
  decode_message body = None →
  ∃ w', handle sender key body w = (w', inr tt) ∧ aw_db w' = aw_db w ∧ aw_redis w' = aw_redis w ∧
    aw_amqp w' = aw_amqp w ++ [Published (dlq_publication body); Acked].
Proof.
  intros Hdec. unfold handle. rewrite Hdec.
  destruct (publish_run (dlq_publication body) w) as (w1 & Hw & Hd & Hr & Ha).
  destruct (ack_run w1) as (w' & Hw' & Hd' & Hr' & Ha').
  exists w'. assert (E : (publish_raw_to_dlq body ;! ack) w = (w', inr tt)) by (by rewrite (bind_inr _ _ _ _ _ Hw)).
  split; [exact E|]. rewrite Ha', Ha, <- app_assoc. split; [congruence|]. split; [congruence|done].
Qed.

(** ** A chain of retries

    The broker's part: a message published to the retry exchange comes back to
    a consumer once its delay is over. [drive] delivers a message and then
    every retry it schedules; it returns the number of deliveries. *)

Fixpoint retry_of (calls : list AmqpCall) : option string :=
  match calls with
  | [] => None
  | Published p :: calls' =>
      if String.eqb (pub_exchange p) RETRY_EXCHANGE then Some (pub_body p) else retry_of calls'
  | Acked :: calls' => retry_of calls'
  end.

Fixpoint drive (fuel : nat) (body : string) : py (WorkerState R X) nat :=
  match fuel with
  | O => raise (OtherException "Timeout" "retries did not end")
  | S fuel' =>
      let! before := gets (fun s => length (aw_amqp s)) in
      handle sender key body ;!
      let! calls := gets (fun s => drop before (aw_amqp s)) in
      match retry_of calls with
      | Some body' => let! n := drive fuel' body' in ret (S n)
      | None => ret 1%nat
      end
  end.

Definition acks (calls : list AmqpCall) : nat :=
  length (List.filter (fun c => match c with Acked => true | Published _ => false end) calls).

Lemma acks_app l k : acks (l ++ k) = (acks l + acks k)%nat.
Proof. unfold acks. by rewrite List.filter_app, length_app. Qed.

(** A finished job: its row is terminal, or its message was handed to the
    operators' queue because an attempt raised. *)
Definition job_finished (row : JobRow) (calls : list AmqpCall) : Prop :=
  jrow_status row = "succeeded" ∨ jrow_status row = "dead_lettered" ∨
  jrow_status row = "running" ∧ ∃ body, Published (dlq_publication body) ∈ calls.

Lemma drive_step fuel body w w1 sent :
  handle sender key body w = (w1, inr tt) → aw_amqp w1 = aw_amqp w ++ sent ++ [Acked] →
  drive (S fuel) body w =
    match retry_of (sent ++ [Acked]) with
    | Some body' => (let! n := drive fuel body' in ret (S n)) w1
    | None => (w1, inr 1%nat)
    end.
Proof.
  intros Hh Ha. cbn [drive]. unfold bind at 1, gets at 1. rewrite (bind_inr _ _ _ _ _ Hh).
  unfold bind at 1, gets at 1. rewrite Ha, drop_app_length. by destruct (retry_of _).
Qed.

(** An attempt that is not retried leaves a finished job. *)
Lemma attempted_final m w w1 row r sent :
  attempted m w w1 r → follow_up m r sent → ready m (aw_db w) = Some row → r ≠ inr ORETRY →
  retry_of (sent ++ [Acked]) = None ∧ acks (sent ++ [Acked]) = 1%nat ∧
  ∃ row', jdb_async_jobs (aw_db w1) !! job_job_id m = Some row' ∧
    jrow_attempts row' = (jrow_attempts row + 1)%Z ∧ job_finished row' (sent ++ [Acked]).
Proof.
  intros Hatt Hf Hready Hr.
  assert (retry_of (sent ++ [Acked]) = None ∧ acks (sent ++ [Acked]) = 1%nat) as [H1' H2'] by (by inversion Hf; subst).
  split; [done|]. split; [done|].
  assert (Hdlq : ∀ e, r = inl e → ∃ body, Published (dlq_publication body) ∈ sent ++ [Acked]).
  { intros e ->. inversion Hf; subst. eexists. constructor. }
  assert (Hput : ∀ row', aw_db w1 = put_row (job_job_id m) row' (aw_db w) →
            jdb_async_jobs (aw_db w1) !! job_job_id m = Some row').
  { intros row' ->. cbn. by rewrite lookup_insert_eq. }
  assert (Hann : ∀ row0 row' o, announced m row0 row' r o →
            jrow_status row' = jrow_status row0 ∧ jrow_attempts row' = jrow_attempts row0).
  { intros row0 row' o. unfold announced. destruct r as [e|o'].
    - by intros [_ ->].
    - intros [_ Ho]. destruct (job_callback_url m); [by destruct Ho as [? ->]|by subst]. }
  destruct Hatt; simplify_eq;
    try (match goal with Ha : announced _ ?r0 _ _ _ |- _ => destruct (Hann _ _ _ Ha) as [Hs Hn] end);
    try (eexists; split; [by eapply Hput|]);
    (split; [cbn; try rewrite Hn; cbn; lia|]); unfold job_finished.
  1-4: right; right; split; [done|by eapply Hdlq].
  - right; left. by rewrite Hs.
  - left. by rewrite Hs.
Qed.

Lemma retried_ready m w w1 row :
  attempted m w w1 (inr ORETRY) → ready m (aw_db w) = Some row →
  ∃ row', ready (retried_message m) (aw_db w1) = Some row' ∧
    jrow_attempts row' = (jrow_attempts row + 1)%Z.
Proof.
  intros Hatt Hready. pose proof (proj1 (reaches_spec _ _ _ _ _) Hready) as (Hrow & Ht & _).
  inversion Hatt; simplify_eq;
    try match goal with Ha : announced _ _ _ (inr _) _ |- _ => by destruct Ha end.
  match goal with Hd : aw_db w1 = _ |- _ => rewrite Hd end.
  eexists. split; [by apply reaches_put|]. cbn. lia.
Qed.

Context `{!JsonTextLaws, !PydanticLaws}.

Lemma retry_decodes m :
  wf_job_message m → json_plain (dump_job_message m) = true →
  decode_message (json_text (dump_job_message m)) = Some m.
Proof.
  intros Hwf Hplain. unfold decode_message. rewrite json_parse_text by done. cbn.
  by apply job_message_round.
Qed.

Lemma wf_retried m : wf_job_message m → wf_job_message (retried_message m).
Proof. intros [Hb Ha]. split; [done|]. cbn. lia. Qed.

Lemma deliveries_end k m body w row :
  decode_message body = Some m → json_plain (dump_job_message m) = true →
  ready m (aw_db w) = Some row → k = Z.to_nat (MAX_ATTEMPTS - job_attempts m) →
  ∃ w' n row',
    drive (S k) body w = (w', inr n) ∧ (1 ≤ n ≤ S k)%nat ∧
    acks (aw_amqp w') = (acks (aw_amqp w) + n)%nat ∧
    jdb_async_jobs (aw_db w') !! job_job_id m = Some row' ∧
    jrow_attempts row' = (jrow_attempts row + Z.of_nat n)%Z ∧
    job_finished row' (aw_amqp w').
Proof.
  revert m body w row. induction k as [k IH] using lt_wf_ind. intros m body w row Hdec Hplain Hready Hk.
  destruct (handle_run m body w Hdec) as (w1 & w2 & r & sent & Hatt & Hf & Hh & Hd & _ & Ha).
  rewrite (drive_step _ _ _ _ _ Hh Ha).
  assert (r = inr ORETRY ∨ r ≠ inr ORETRY) as [->|Hr] by (destruct r as [|[]]; (by left) || by right).
  - inversion Hf as [? Ho| | |]; subst; [by destruct Ho|]. cbn [app retry_of].
    change (String.eqb (pub_exchange _) RETRY_EXCHANGE) with true. cbn iota. cbn [pub_body retry_publication].
    pose proof (attempted_retry_bound _ _ _ Hatt) as Hlt.
    destruct (retried_ready _ _ _ _ Hatt Hready) as (row1 & Hready1 & Hn1). rewrite <- Hd in Hready1.
    pose proof (wf_retried _ (decode_message_wf _ _ Hdec)) as Hwf.
    destruct (Z.to_nat (MAX_ATTEMPTS - job_attempts m)) as [|k'] eqn:Hk'; [lia|].
    destruct (IH k' ltac:(lia) (retried_message m) (json_text (dump_job_message (retried_message m))) w2 row1)
      as (w' & n & row' & Hdr & Hn & Hacks & Hrow' & Hatt' & Hfin).
    { apply retry_decodes; [done|exact Hplain]. }
    { exact Hplain. } { exact Hready1. } { cbn. lia. }
    exists w', (S n), row'. rewrite (bind_inr _ _ _ _ _ Hdr).
    split; [done|]. split; [lia|].
    split; [rewrite Hacks, Ha, acks_app; cbn; lia|]. split; [done|]. split; [lia|done].
  - destruct (attempted_final _ _ _ _ _ _ Hatt Hf Hready Hr) as (-> & Hacks & row' & Hrow & Hn & Hfin).
    exists w2, 1%nat, row'. split; [done|]. split; [lia|].
    split; [by rewrite Ha, acks_app, Hacks|]. rewrite Hd. split; [done|]. split; [lia|].
    rewrite Ha. destruct Hfin as [?|[?|(? & b & Hb)]]; [by left|by right; left|].
    right; right. split; [done|]. exists b. apply elem_of_app. by right.
Qed.

(** What every delivery of a message and of its retries keeps, the chain keeps. *)
Lemma drive_keeps (P : AsyncJobMessage → Prop) (I : WorkerState R X → Prop) fuel m body w w' n :
  (∀ m, P m → P (retried_message m)) →
  (∀ m body w w', P m → decode_message body = Some m → I w → handle sender key body w = (w', inr tt) → I w') →
  P m → decode_message body = Some m → json_plain (dump_job_message m) = true → I w →
  drive fuel body w = (w', inr n) → I w'.
Proof.
  intros HP HI. revert m body w n. induction fuel as [|fuel IH]; intros m body w n Hm Hdec Hplain Hw; [done|].
  destruct (handle_run m body w Hdec) as (w1 & w2 & r & sent & Hatt & Hf & Hh & _ & _ & Ha).
  rewrite (drive_step _ _ _ _ _ Hh Ha). pose proof (HI _ _ _ _ Hm Hdec Hw Hh) as Hw2.
  destruct Hf as [o Ho|delay Hdelay| |e]; cbn [app retry_of]; try (intros [= <- _]; exact Hw2).
  change (String.eqb (pub_exchange _) RETRY_EXCHANGE) with true. cbn iota. cbn [pub_body retry_publication].
  intros Hdr. unfold bind in Hdr. destruct (drive fuel _ w2) as [w3 [e|n']] eqn:Hd; [done|]. injection Hdr as <- _.
  eapply (IH (retried_message m)); [by apply HP| |exact Hplain|exact Hw2|exact Hd].
  apply retry_decodes; [|exact Hplain]. by eapply wf_retried, decode_message_wf.
Qed.
End Attempts.

(** ** Interleavings

    [process_job] is a sequence of transactions; between any two of them other
    deliveries — of the same message too, since the broker delivers at least
    once — run theirs, and a worker may die. A delivery is in one [phase] at a
    time; each step is one of the program's transactions. *)

Inductive phase :=
  | Delivered (m : AsyncJobMessage)
  | Executing (m : AsyncJobMessage)
  | DeadLettering (m : AsyncJobMessage) (error : json)
  | Announcing (m : AsyncJobMessage)
  | Ended.

Inductive worker_step : JobsDb * phase → JobsDb * phase → Prop :=
  | step_claim m d d' (claimed : bool) :
      tenant_session (job_tenant_id m) (try_claim_job (job_tenant_id m) (job_job_id m)) d
        = (d', inr claimed) →
      worker_step (d, Delivered m) (d', if claimed then Executing m else Ended)
  | step_fail m error p d d' :
      tenant_session (job_tenant_id m)
        (mark_job_failed_will_retry (job_tenant_id m) (job_job_id m) error) d = (d', inr tt) →
      p = Ended ∨ p = DeadLettering m error →
      worker_step (d, Executing m) (d', p)
  | step_dead m error d d' :
      tenant_session (job_tenant_id m)
        (mark_job_dead_lettered (job_tenant_id m) (job_job_id m) error) d = (d', inr tt) →
      worker_step (d, DeadLettering m error) (d', Announcing m)
  | step_succeed m result d d' :
      tenant_session (job_tenant_id m)
        (mark_job_succeeded (job_tenant_id m) (job_job_id m) result) d = (d', inr tt) →
      worker_step (d, Executing m) (d', Announcing m)
  | step_announce m status d d' :
      tenant_session (job_tenant_id m)
        (update_job_callback_status (job_tenant_id m) (job_job_id m) status) d = (d', inr tt) →
      worker_step (d, Announcing m) (d', Ended)
  | step_stop d p : worker_step (d, p) (d, Ended).

(** The tables and every delivery so far. Messages arrive at any time, the
    gateway inserts jobs, and any other statement keeps the job rows. *)
Inductive system_step : JobsDb * list phase → JobsDb * list phase → Prop :=
  | sys_deliver d ps m : system_step (d, ps) (d, ps ++ [Delivered m])
  | sys_worker d ps i p d' p' :
      ps !! i = Some p → worker_step (d, p) (d', p') → system_step (d, ps) (d', <[i := p']> ps)
  | sys_submit d ps d' j t u tr pr pl cb :
      tenant_session t (insert_async_job j t u tr pr pl cb) d = (d', inr tt) →
      system_step (d, ps) (d', ps)
  | sys_other d ps d' :
      jdb_async_jobs d' = jdb_async_jobs d → system_step (d, ps) (d', ps).

(** The row of an executing delivery cannot be claimed. *)
Definition locked (d : JobsDb) (m : AsyncJobMessage) : Prop :=
  ∃ row, jdb_async_jobs d !! job_job_id m = Some row ∧ jrow_tenant_id row = job_tenant_id m ∧
         claimable row = false.

Definition exclusive (s : JobsDb * list phase) : Prop :=
  (∀ i m, s.2 !! i = Some (Executing m) → locked s.1 m) ∧
  ∀ i j m m', s.2 !! i = Some (Executing m) → s.2 !! j = Some (Executing m') →
    job_job_id m = job_job_id m' → i = j.

Lemma locked_not_ready d m : locked d m → ready m d = None.
Proof.
  intros (row & Hrow & _ & Hc). unfold ready, reaches. rewrite Hrow, Hc. by rewrite andb_false_r.
Qed.

(** A statement of one job keeps the locks of the others, and its own unless
    it makes the row claimable. *)
Lemma locked_put d m j row' :
  locked d m →
  (j = job_job_id m → jrow_tenant_id row' = job_tenant_id m ∧ claimable row' = false) →
  locked (put_row j row' d) m.
Proof.
  intros (row & Hrow & Ht & Hc) Hj. destruct (decide (j = job_job_id m)) as [->|Hne].
  - exists row'. cbn. rewrite lookup_insert_eq. destruct (Hj eq_refl). done.
  - exists row. cbn. by rewrite lookup_insert_ne.
Qed.

Lemma session_mark_inv t j set d d' u :
  tenant_session t (update_job t j any_row set ;! ret tt) d = (d', inr u) →
  d' = d ∨ ∃ row, jdb_async_jobs d !! j = Some row ∧ jrow_tenant_id row = t ∧
                  d' = put_row j (set (jdb_now d) row) d.
Proof.
  intros Hs. pose proof (session_update t j any_row set d) as Hu.
  destruct (reaches t j any_row d) as [row|] eqn:Hr;
    rewrite (session_then t _ (fun _ => tt) _ _ _ Hu) in Hs; simplify_eq; [right|by left].
  apply reaches_spec in Hr as (? & ? & _). by exists row.
Qed.

Lemma session_json_inv {A} t doc (k : py JobsConn A) d d' a :
  tenant_session t (jsonb_param doc ;! k) d = (d', inr a) → tenant_session t k d = (d', inr a).
Proof. unfold jsonb_param. by destruct (jsonb_ok doc). Qed.

(** What a step of one delivery may do to the locks. *)
Lemma worker_step_locks d p d' p' :
  worker_step (d, p) (d', p') → (∀ m, p = Executing m → locked d m) →
  (∀ m, locked d m → (∀ m', p = Executing m' → job_job_id m' ≠ job_job_id m) → locked d' m) ∧
  (∀ m, p' = Executing m → locked d' m ∧ ready m d ≠ None).
Proof.
  intros Hstep Hp. inversion Hstep as [m d0 d1 cl Hs|m er q d0 d1 Hs Hq|m er d0 d1 Hs|m re d0 d1 Hs|m st d0 d1 Hs|d0 q];
    subst; clear Hstep.
  - rewrite session_claim in Hs. fold (ready m d) in Hs.
    destruct (ready m d) as [row|] eqn:Hr; simplify_eq; [|by split].
    pose proof (proj1 (reaches_spec _ _ _ _ _) Hr) as (Hrow & Ht & Hc). split.
    + intros m' Hl _. apply locked_put; [done|]. intros Hj.
      destruct Hl as (row' & Hrow' & _ & Hc'). rewrite Hj in Hrow. congruence.
    + intros m' [= <-]. split; [|congruence]. eexists. cbn. rewrite lookup_insert_eq. by split_and!.
  - split; [|by destruct Hq as [->| ->]]. intros m' Hl Hne. specialize (Hne m eq_refl).
    apply session_json_inv, session_mark_inv in Hs as [->|(row & _ & _ & ->)]; [done|]. by apply locked_put.
  - split; [|done]. intros m' Hl _.
    apply session_json_inv, session_mark_inv in Hs as [->|(row & Hrow & Ht & ->)]; [done|]. apply locked_put; [done|].
    intros Hj. destruct Hl as (row' & Hrow' & Ht' & _). rewrite Hj in Hrow. simplify_eq. by split.
  - split; [|done]. intros m' Hl _.
    apply session_json_inv, session_mark_inv in Hs as [->|(row & Hrow & Ht & ->)]; [done|]. apply locked_put; [done|].
    intros Hj. destruct Hl as (row' & Hrow' & Ht' & _). rewrite Hj in Hrow. simplify_eq. by split.
  - split; [|done]. intros m' Hl _.
    apply session_mark_inv in Hs as [->|(row & Hrow & Ht & ->)]; [done|]. apply locked_put; [done|].
    intros Hj. destruct Hl as (row' & Hrow' & Ht' & Hc'). rewrite Hj in Hrow. simplify_eq. by split.
  - by split.
Qed.

Lemma submit_keeps_locks d d' j t u tr pr pl cb m :
  tenant_session t (insert_async_job j t u tr pr pl cb) d = (d', inr tt) → locked d m → locked d' m.
Proof.
  unfold insert_async_job. intros Hs%session_json_inv. revert Hs.
  unfold tenant_session, atomically, bind. rewrite rls_check_ok by done.
  unfold gets, bind; cbn. destruct (jdb_async_jobs d !! j) eqn:Hj; cbn; [done|]. intros [= <-].
  intros (row & Hrow & Ht & Hc). exists row. cbn. rewrite lookup_insert_ne by congruence. done.
Qed.

Lemma system_step_exclusive s s' : system_step s s' → exclusive s → exclusive s'.
Proof.
  intros Hstep [Hlock Huniq]. destruct Hstep as [d ps m|d ps i p d' p' Hi Hw|d ps d' j t u tr pr pl cb Hs|d ps d' Hd];
    cbn in Hlock, Huniq; split; cbn.
  - intros i m' Hi. apply lookup_app_Some in Hi as [Hi|[_ Hi]]; [by eapply Hlock|].
    by apply list_lookup_singleton_Some in Hi as [_ ?].
  - intros i j m1 m2 Hi Hj.
    apply lookup_app_Some in Hi as [Hi|[_ Hi]]; [|by apply list_lookup_singleton_Some in Hi as [_ ?]].
    apply lookup_app_Some in Hj as [Hj|[_ Hj]]; [|by apply list_lookup_singleton_Some in Hj as [_ ?]].
    by eapply Huniq.
  - destruct (worker_step_locks _ _ _ _ Hw) as [Hkeep Hnew]; [intros m ->; by eapply Hlock|].
    intros j m Hj. apply list_lookup_insert_Some in Hj as [(-> & -> & _)|[Hne Hj]]; [by apply Hnew|].
    apply Hkeep; [by eapply Hlock|]. intros m' -> Heq. by destruct Hne; eapply Huniq.
  - destruct (worker_step_locks _ _ _ _ Hw) as [Hkeep Hnew]; [intros m ->; by eapply Hlock|].
    intros j k m1 m2 Hj Hk Heq.
    apply list_lookup_insert_Some in Hj as [(-> & -> & _)|[Hj' Hj]];
      apply list_lookup_insert_Some in Hk as [(-> & Hk & _)|[Hk' Hk]]; [done| | |by eapply Huniq].
    + destruct (Hnew m1 eq_refl) as [_ Hr]. destruct Hr. pose proof (Hlock _ _ Hk) as (row & Hrow & _ & Hc).
      unfold ready, reaches. rewrite Heq, Hrow, Hc. by rewrite andb_false_r.
    + destruct (Hnew m2 Hk) as [_ Hr]. destruct Hr. pose proof (Hlock _ _ Hj) as (row & Hrow & _ & Hc).
      unfold ready, reaches. rewrite <- Heq, Hrow, Hc. by rewrite andb_false_r.
  - intros i m Hi. by eapply submit_keeps_locks, Hlock.
  - done.
  - intros i m Hi. destruct (Hlock i m Hi) as (row & Hrow & ?). exists row. by rewrite Hd.
  - done.
Qed.

Section Refinement.
  Context {R X : Type} `{Redis R, RunsHttp X, CallbackHttp X, Amqp X, Hmac, JsonText, Pydantic}.
  Variables (sender : WebhookSender) (key : string).
  Implicit Types (w : WorkerState R X).

#[local] Abbreviation jid := job_job_id.

Lemma mark_step_run t j set row d :
  jrow_tenant_id row = t → jdb_async_jobs d !! j = Some row →
  tenant_session t (update_job t j any_row set ;! ret tt) d = (put_row j (set (jdb_now d) row) d, inr tt).
Proof.
  intros Ht Hrow. pose proof (session_mark t j set row d Ht) as Hs.
  replace (put_row j row d) with d in Hs; [done|].
  destruct d as [k jobs n]. unfold put_row; cbn in *. by rewrite insert_id.
Qed.

(** The steps that follow a terminal row. *)
Lemma announce_steps m row row' r o d :
  announced m row row' r o → jrow_tenant_id row = job_tenant_id m →
  rtc worker_step (put_row (jid m) row d, Announcing m) (put_row (jid m) row' d, Ended).
Proof.
  intros Hann Ht. unfold announced in Hann. destruct r as [e|o'].
  { destruct Hann as [_ ->]. eapply rtc_once, step_stop. }
  destruct Hann as [_ Hcb]. destruct (job_callback_url m); [|subst; eapply rtc_once, step_stop].
  destruct Hcb as [b ->]. eapply rtc_once, (step_announce m (if b then "delivered" else "webhook_failed")).
  unfold update_job_callback_status. rewrite (mark_step_run _ _ _ row);
    [by rewrite put_row_put|done|cbn; by rewrite lookup_insert_eq].
Qed.

Lemma attempted_steps m w w' r :
  attempted key m w w' r → rtc worker_step (aw_db w, Delivered m) (aw_db w', Ended).
Proof.
  intros Hatt.
  assert (Hclaim : ∀ row, ready m (aw_db w) = Some row →
    jrow_tenant_id row = job_tenant_id m ∧
    worker_step (aw_db w, Delivered m)
      (put_row (jid m) (claimed_row (jdb_now (aw_db w)) row) (aw_db w), Executing m)).
  { intros row Hr. pose proof (proj1 (reaches_spec _ _ _ _ _) Hr) as (_ & Ht & _). split; [done|].
    apply (step_claim m _ _ true). rewrite session_claim. fold (ready m (aw_db w)). by rewrite Hr. }
  assert (Hmark : ∀ row doc set, jrow_tenant_id row = job_tenant_id m → jsonb_ok doc = true →
    tenant_session (job_tenant_id m) (jsonb_param doc ;! update_job (job_tenant_id m) (jid m) any_row set ;! ret tt)
      (put_row (jid m) row (aw_db w)) = (put_row (jid m) (set (jdb_now (aw_db w)) row) (aw_db w), inr tt)).
  { intros row doc set Ht Hdoc. by rewrite session_mark_json, Hdoc. }
  destruct Hatt as [Hr|row w' x e Hr _ _ Hd _ _|row w' x res e Hr _ _ Hd _|row w' x s d b Hr _ _ Hd _ _
                   |row w' x res Hr _ _ _ Hd _|row w' x s d Hr _ _ Hdoc Hd _ _
                   |row row' w' x s d b r Hr _ _ Hdoc Hann Hd _ _|row row' w' x res r Hr _ _ Hdoc Hann Hd _].
  2-5: destruct (Hclaim row Hr) as [_ Hc]; rewrite Hd; eapply rtc_l; [exact Hc|]; eapply rtc_once, step_stop.
  - eapply rtc_once, (step_claim m _ _ false). rewrite session_claim. fold (ready m (aw_db w)). by rewrite Hr.
  - destruct (Hclaim row Hr) as [Ht Hc]. rewrite Hd. eapply rtc_l; [exact Hc|].
    eapply rtc_once, (step_fail m (job_error s d true)); [by apply Hmark|by left].
  - destruct (Hclaim row Hr) as [Ht Hc]. rewrite Hd. eapply rtc_l; [exact Hc|].
    eapply rtc_l; [apply (step_fail m (job_error s d b)); [by apply Hmark|by right]|].
    eapply rtc_l; [apply (step_dead m (job_error s d b)); by apply Hmark|]. by eapply announce_steps.
  - destruct (Hclaim row Hr) as [Ht Hc]. rewrite Hd. eapply rtc_l; [exact Hc|].
    eapply rtc_l; [apply (step_succeed m (dump_response res)); by apply Hmark|]. by eapply announce_steps.
Qed.

(** C21: one execution per job, whatever the interleaving. Each call of
    [process_job] is a run of the transactions of [worker_step]; and in every
    state the deliveries can reach together — any number of deliveries of any
    messages, the same one included, in any order, with workers dying at any
    point and the gateway inserting jobs — at most one delivery is between its
    claim and its result, and while it is, every other delivery of that job
    finds no row to claim. *)
Theorem single_execution :
  (∀ m w w' r, process_job sender key m w = (w', r) →
     rtc worker_step (aw_db w, Delivered m) (aw_db w', Ended)) ∧
  ∀ d0 d ps, rtc system_step (d0, []) (d, ps) →
    (∀ i j m m', ps !! i = Some (Executing m) → ps !! j = Some (Executing m') →
       job_job_id m = job_job_id m' → i = j) ∧
    ∀ i m m', ps !! i = Some (Executing m) → job_job_id m' = job_job_id m → ready m' d = None.
Proof.
  split.
  - intros m w w' r Hp. pose proof (process_job_attempt sender key m w) as Hatt. rewrite Hp in Hatt.
    by eapply attempted_steps.
  - intros d0 d ps Hrun.
    assert (Hex : exclusive (d, ps)).
    { remember (d0, []) as s0 eqn:E0. remember (d, ps) as s1 eqn:E1. clear E1.
      assert (H0' : exclusive s0) by (subst; split; done). clear E0.
      induction Hrun; [done|]. by apply IHHrun, (system_step_exclusive x). }
    destruct Hex as [Hlock Huniq]. split; [exact Huniq|].
    intros i m m' Hi Hj. destruct (Hlock i m Hi) as (row & Hrow & _ & Hc).
    cbn in Hrow. unfold ready, reaches. rewrite Hj, Hrow, Hc. by rewrite andb_false_r.
Qed.

Context `{!ReliableBroker X}.


Context `{!JsonTextLaws, !PydanticLaws}.

(** C23: every job reaches an end. Starting from a message for a claimable job,
    with a broker that accepts messages and returns each scheduled retry, the
    chain of deliveries stops after at most [MAX_ATTEMPTS] + 1 attempts minus
    those already made; every delivery was acknowledged and counted in the
    row's attempts, and the row is succeeded or dead-lettered, or still
    "running" with its message in the dead-letter queue — never queued or
    failed. *)
Theorem job_reaches_an_end m w row :
  wf_job_message m → json_plain (dump_job_message m) = true → ready m (aw_db w) = Some row →
  let fuel := S (Z.to_nat (MAX_ATTEMPTS - job_attempts m)) in
  ∃ w' n row',
    drive sender key fuel (json_text (dump_job_message m)) w = (w', inr n) ∧ (1 ≤ n ≤ fuel)%nat ∧
    acks (aw_amqp w') = (acks (aw_amqp w) + n)%nat ∧
    jdb_async_jobs (aw_db w') !! job_job_id m = Some row' ∧
    jrow_attempts row' = (jrow_attempts row + Z.of_nat n)%Z ∧
    job_finished row' (aw_amqp w').
Proof.
  intros Hwf Hplain Hready. apply (deliveries_end sender key _ m _ w row); [|done..].
  by apply retry_decodes.
Qed.
End Refinement.

(** ** Concrete deliveries *)
Module Witness.
Record env := MkEnv {
  e_runs : list (exn + HttpResponse);
  e_hooks : list (exn + HttpResponse)
}.

#[export] Instance env_runs : RunsHttp env := fun _ e =>
  match e_runs e with
  | a :: l => (MkEnv l (e_hooks e), a)
  | [] => (e, inl (HttpxError "connection refused"))
  end.
#[export] Instance env_hooks : CallbackHttp env := fun _ _ _ e =>
  match e_hooks e with
  | a :: l => (MkEnv (e_runs e) l, a)
  | [] => (e, inl (HttpxError "connection refused"))
  end.
#[export] Instance env_amqp : Amqp env := {|
  amqp_publish _ e := (e, inr tt);
  amqp_ack e := (e, inr tt) |}.
#[export] Instance env_broker : ReliableBroker env.
Proof. split; intros; by eexists. Qed.
#[export] Instance demo_hmac : Hmac := fun k b => "".
#[export] Instance demo_text : JsonText := coded_text.
#[export] Instance demo_pydantic : Pydantic := strict_pydantic.

Definition request : AgentRunRequest :=
  MkAgentRunRequest "job_1" "trc_1" "tnt_a" "usr_1" ["grp_hr"] None [] [] [("team", JStr "t1")] None
    "hr-assistant" None (MkAgentInput "ringkas laporan") [] (MkRunOptions false 1024 false) ASYNC
    (MkTokenBudget "async" 1030) None false.

Definition message : AsyncJobMessage :=
  MkAsyncJobMessage "job_1" "tnt_a" BULK request (Some "https://tenant/hook") None 0 None.

Definition queued_row : JobRow :=
  MkJobRow "tnt_a" "usr_1" "trc_1" "bulk" (JObj []) "queued" 0 None None (Some "https://tenant/hook")
    None "t0" None None.

Definition tables : JobsDb := MkJobsDb ∅ {[ "job_1" := queued_row ]} "t1".

Definition response : AgentInvokeResponse :=
  MkAgentInvokeResponse "job_1" "conv_1" "trc_1" (MkAgentOutput "selesai" [])
    (MkUsage 40 10 f64_zero) [] [] false None.

Definition busy : exn + HttpResponse := inr (MkHttpResponse 503 "busy" JNull []).
Definition done_ : exn + HttpResponse := inr (MkHttpResponse 200 "" (dump_response response) []).

Definition sender : WebhookSender := MkWebhookSender [] DEFAULT_BACKOFF_SECONDS.

Definition world (runs : list (exn + HttpResponse)) : WorkerState Store.store env :=
  MkWorkerState tables ∅ "2026-01-01T00:00:00Z" [] [] [] (MkEnv runs [inr (MkHttpResponse 200 "" JNull [])]).

Definition body : string := json_text (dump_job_message message).


(** Two busy answers, then a result: three deliveries. *)
Definition busy_world : WorkerState Store.store env := world [busy; busy; done_].

Lemma job_reaches_an_end_witness :
  (∃ w' n row',
    drive sender "sk-async" (S (Z.to_nat (MAX_ATTEMPTS - job_attempts message)))
      (json_text (dump_job_message message)) busy_world = (w', inr n) ∧
    (1 ≤ n ≤ S (Z.to_nat (MAX_ATTEMPTS - job_attempts message)))%nat ∧
    acks (aw_amqp w') = (acks (aw_amqp busy_world) + n)%nat ∧
    jdb_async_jobs (aw_db w') !! job_job_id message = Some row' ∧
    jrow_attempts row' = (jrow_attempts queued_row + Z.of_nat n)%Z ∧
    job_finished row' (aw_amqp w')) ∧
  (drive sender "sk-async" 4 body busy_world).2 = inr 3%nat.
Proof.
  assert (Hwf : wf_job_message message) by (split; [split; [by right|cbn; lia]|cbn; lia]).
  assert (Hplain : json_plain (dump_job_message message) = true) by (vm_compute; reflexivity).
  assert (Hready : ready message (aw_db busy_world) = Some queued_row) by (vm_compute; reflexivity).
  assert (Hn : (drive sender "sk-async" 4 body busy_world).2 = inr 3%nat) by (vm_compute; reflexivity).
  exact (conj (job_reaches_an_end sender "sk-async" message busy_world queued_row Hwf Hplain Hready) Hn).
Defined.

(** The transactions of one attempt are not one transaction: a redelivery that
    claims the job between "failed" and "dead_lettered" can succeed, and the
    first delivery then overwrites its result's status. *)
Lemma claim_step row :
  jrow_tenant_id row = "tnt_a" → claimable row = true →
  worker_step (put_row "job_1" row tables, Delivered message)
    (put_row "job_1" (claimed_row "t1" row) tables, Executing message).
Proof.
  intros Ht Hc. apply (step_claim message _ _ true). rewrite session_claim, reaches_put by done.
  by rewrite put_row_put.
Qed.

Lemma success_is_dead_lettered :
  ∃ d ps row, rtc system_step (tables, []) (d, ps) ∧ jdb_async_jobs d !! "job_1" = Some row ∧
    jrow_status row = "dead_lettered" ∧ jrow_result row = Some (dump_response response).
Proof.
  set (err := JObj []). set (out := dump_response response). set (r1 := claimed_row "t1" queued_row).
  set (r2 := failed_row err "t1" r1). set (r3 := claimed_row "t1" r2).
  set (r4 := succeeded_row out "t1" r3). set (r5 := dead_lettered_row err "t1" r4).
  assert (Hstep : ∀ d ps i p d' p', ps !! i = Some p → worker_step (d, p) (d', p') →
            system_step (d, ps) (d', <[i := p']> ps)) by (intros; by eapply sys_worker).
  assert (E0 : tables = put_row "job_1" queued_row tables)
    by (unfold put_row, tables; cbn; by rewrite insert_singleton_eq).
  eexists (put_row "job_1" r5 tables), _, r5. rewrite E0 at 1. split; [|split; [|done]].
  - eapply rtc_l; [apply (sys_deliver _ _ message)|]. eapply rtc_l; [apply (sys_deliver _ _ message)|].
    eapply rtc_l; [eapply (Hstep _ _ 0%nat); [reflexivity|by apply claim_step]|].
    eapply rtc_l; [eapply (Hstep _ _ 0%nat); [reflexivity|]|].
    { eapply (step_fail message err); [by apply session_mark|by right]. }
    eapply rtc_l; [eapply (Hstep _ _ 1%nat); [reflexivity|by apply (claim_step r2)]|].
    eapply rtc_l; [eapply (Hstep _ _ 1%nat); [reflexivity|]|].
    { eapply (step_succeed message out). by apply session_mark. }
    eapply rtc_once. eapply (Hstep _ _ 0%nat); [reflexivity|].
    eapply (step_dead message err). by apply session_mark.
  - cbn. by rewrite lookup_insert_eq.
Qed.
End Witness.
