(* ===== verification/JobRows.v ===== *)
(** The typing invariant of [jobs.async_jobs], which agent-gateway and
    async-worker share: the text and JSON columns of every row are what the
    contracts say, whoever wrote them, so that reading a job never fails. *)
From S2P Require Import Prelude PyStr Json Http Contracts Wire Redis Quota JobsDb.
From S2P Require Import Gateway GatewayProps.
From S2P Require AsyncWorker AsyncWorkerProps.

Section Typing.
  Context `{Pydantic}.

(** A column of JSON: absent, or a truthy document of its model. *)
Definition column_of {A} (dec : json → option A) (v : option json) : Prop :=
  match v with Some doc => truthy doc = true ∧ is_Some (dec doc) | None => True end.

(** The columns of a row have the types and bounds of [AgentJobStatusResponse]. *)
Record typed_row (row : JobRow) : Prop := {
  ty_status : ∃ s : JobStatus, jrow_status row = enum_value s;
  ty_attempts : (0 ≤ jrow_attempts row)%Z;
  ty_result : column_of validate_response (jrow_result row);
  ty_error : column_of validate_job_error (jrow_error row)
}.

Definition typed_jobs (d : JobsDb) : Prop := map_Forall (fun _ => typed_row) (jdb_async_jobs d).

Definition keeps_typed (d d' : JobsDb) : Prop := typed_jobs d → typed_jobs d'.

#[export] Instance keeps_typed_preorder : PreOrder keeps_typed.
Proof. split; [by intros d Hd|]. intros a b c Hab Hbc Ha. by apply Hbc, Hab. Qed.

Lemma typed_put j row d : typed_row row → typed_jobs d → typed_jobs (AsyncWorkerProps.put_row j row d).
Proof. intros Hr Hd. by apply map_Forall_insert_2. Qed.

(** ** agent-gateway *)

Lemma session_typed {A} t (m : py JobsConn A) :
  (∀ c, keeps_typed (jc_db c) (jc_db (m c).1)) → frames keeps_typed (tenant_session t m).
Proof.
  intros Hm d Hd. specialize (Hm (MkJobsConn t d) Hd). unfold tenant_session, atomically.
  by destruct (m (MkJobsConn t d)) as [c [e|a]].
Qed.

Lemma new_row_typed t u tr p pl cb now :
  typed_row (MkJobRow t u tr p pl "queued" 0 None None cb None now None None).
Proof. split; [by exists QUEUED|done..]. Qed.

Lemma typed_statements t : statements_frame t keeps_typed.
Proof.
  split.
  - intros A dec name k h d Hd. destruct (idem_row d t k) as [row|] eqn:Hrow.
    + by rewrite (gate_old _ _ _ _ _ _ _ Hrow).
    + by rewrite (gate_new _ _ _ _ _ _ Hrow).
  - intros k body status. apply session_typed. intros c Hc. unfold complete, jsonb_param, bind, modify.
    destruct (jsonb_ok body); [|done]. cbn. by destruct (String.eqb _ _).
  - intros j u tr p pl cb. apply session_typed. intros c Hc.
    unfold insert_async_job, jsonb_param, rls_check, bind, gets. destruct (jsonb_ok pl); [|done]. cbn.
    destruct (String.eqb _ _); [|done]. cbn. destruct (jdb_async_jobs (jc_db c) !! j); [done|]. cbn.
    apply map_Forall_insert_2; [apply new_row_typed|done].
  - intros j. apply session_typed. by intros c.
Qed.
End Typing.

(** ** async-worker *)

Section Worker.
  Import AsyncWorker AsyncWorkerProps.
  Context {R X : Type} `{Redis R, RunsHttp X, CallbackHttp X, Amqp X, Hmac, JsonText, PydanticLaws}.
  Variables (sender : WebhookSender) (key : string).
  Implicit Types (w : WorkerState R X).

Lemma harness_run_wf request (x x' : X) result :
  AsyncWorker.harness_run request x = (x', inr result) → wf_response result.
Proof.
  unfold AsyncWorker.harness_run, bind, try_except.
  destruct (post_run request x) as [x1 [e|a]].
  - by destruct e.
  - repeat (case_match; try done). unfold model_validate. case_match; [|done].
    intros [= <- <-]. by eapply validate_response_wf.
Qed.

Lemma claimed_typed now row : typed_row row → typed_row (claimed_row now row).
Proof. intros [_ Hn Hr He]. split; [by exists RUNNING|cbn; lia|done..]. Qed.

Lemma failed_typed e now row : typed_row row → typed_row (failed_row (dump_job_error e) now row).
Proof.
  intros [_ Hn Hr _]. split; [by exists FAILED|done|done|]. split; [done|]. rewrite job_error_round. by eexists.
Qed.

Lemma dead_typed e now row : typed_row row → typed_row (dead_lettered_row (dump_job_error e) now row).
Proof.
  intros [_ Hn Hr _]. split; [by exists DEAD_LETTERED|done|done|]. split; [done|]. rewrite job_error_round. by eexists.
Qed.

Lemma succeeded_typed r now row :
  wf_response r → typed_row row → typed_row (succeeded_row (dump_response r) now row).
Proof.
  intros Hr [_ Hn _ He]. split; [by exists SUCCEEDED|done| |done]. split; [done|]. rewrite response_round by done. by eexists.
Qed.

Lemma announced_typed m row row' r o : announced m row row' r o → typed_row row → typed_row row'.
Proof.
  intros Hann Hrow. unfold announced in Hann. destruct r as [e|o'].
  - by destruct Hann as [_ ->].
  - destruct Hann as [_ Hcb]. destruct (job_callback_url m); [|by subst].
    destruct Hcb as [b ->]. destruct Hrow. by split.
Qed.

Lemma attempted_typed m w w' r : attempted key m w w' r → keeps_typed (aw_db w) (aw_db w').
Proof.
  intros Hatt Hd.
  assert (Hrow : ∀ row, ready m (aw_db w) = Some row → typed_row row).
  { intros row Hr. apply reaches_spec in Hr as (Hr & _). exact (map_Forall_lookup_1 _ _ _ _ Hd Hr). }
  destruct Hatt as [Hr|row w' x e Hr _ _ Hw _ _|row w' x res e Hr _ _ Hw _|row w' x s d b Hr _ _ Hw _ _
                   |row w' x res Hr _ _ _ Hw _|row w' x s d Hr _ _ _ Hw _ _
                   |row row' w' x s d b r Hr _ _ _ Hann Hw _ _|row row' w' x res r Hr Hrun _ _ Hann Hw _];
    [done| | | | | | |]; rewrite Hw; apply typed_put; try done; pose proof (claimed_typed (jdb_now (aw_db w)) _ (Hrow _ Hr));
    try done.
  - by apply failed_typed.
  - eapply announced_typed; [exact Hann|]. by apply dead_typed.
  - eapply announced_typed; [exact Hann|]. apply succeeded_typed; [|done]. by eapply harness_run_wf.
Qed.

Definition worker_typed w w' : Prop := keeps_typed (aw_db w) (aw_db w').

#[local] Instance worker_typed_preorder : PreOrder worker_typed.
Proof. split; [by intros w Hw|]. intros a b c Hab Hbc Ha. by apply Hbc, Hab. Qed.

Lemma amqp_typed call log : frames worker_typed (amqp (R := R) (X := X) call log).
Proof.
  apply frames_bind; [apply _| |].
  - intros w. unfold AsyncWorker.in_ext, zoom, worker_typed. by destruct (call (aw_ext w)).
  - intros _ w Hw. exact Hw.
Qed.

Lemma process_job_typed m : frames worker_typed (process_job (R := R) (X := X) sender key m).
Proof.
  intros w. pose proof (process_job_attempt sender key m w) as Hatt.
  destruct (process_job sender key m w) as [w' r]. by eapply attempted_typed.
Qed.

Lemma schedule_retry_typed m : frames worker_typed (schedule_retry (R := R) (X := X) m).
Proof. unfold schedule_retry. case_match; [apply amqp_typed|apply frames_raise, _]. Qed.

#[local] Hint Resolve amqp_typed process_job_typed schedule_retry_typed : frames.

Lemma handle_typed body : frames worker_typed (handle (R := R) (X := X) sender key body).
Proof.
  assert (Hdlq : ∀ (p : Publication) A (a : A), frames worker_typed (publish (R := R) (X := X) p ;! ack ;! ret a)).
  { intros p A a. apply frames_bind; [apply _|apply amqp_typed|]. intros _.
    apply frames_bind; [apply _|apply amqp_typed|]. intros _. apply frames_ret, _. }
  unfold handle. destruct (decode_message body) as [m|].
  - apply frames_bind; [apply _| |].
    + apply frames_try; [apply _| |].
      * apply frames_bind; [apply _|apply process_job_typed|]. intros o. apply frames_ret, _.
      * intros e k [= <-]. apply Hdlq.
    + intros [o|]; [|apply frames_ret, _]. apply frames_bind; [apply _| |intros _; apply amqp_typed].
      destruct o; first [apply schedule_retry_typed|apply amqp_typed|apply frames_ret, _].
  - apply frames_bind; [apply _|apply amqp_typed|]. intros _. apply amqp_typed.
Qed.
End Worker.

(** ** Reading a job *)

Lemma typed_status `{Pydantic} row : typed_row row → ∃ s : JobStatus, enum_of_string (jrow_status row) = Some s.
Proof. intros [[s ->] _ _ _]. exists s. apply enum_round. Qed.

Lemma column_stored `{Pydantic} {A} (dec : json → option A) v : column_of dec v → ∃ a, stored dec v a.
Proof.
  destruct v as [doc|]; [|by exists None]. intros [Ht [a Ha]]. exists (Some a).
  split; [done|]. split; [by eexists|done].
Qed.

Section Reading.
  Context {R X Y : Type} `{Redis R, HarnessHttp X, Broker X, Uuid X, Jwt, Hashing, PydanticLaws}.
  Context `{AsyncWorker.RunsHttp Y, AsyncWorker.CallbackHttp Y, AsyncWorker.Amqp Y, AsyncWorker.Hmac, JsonText}.
  Implicit Types (w : GatewayState R X) (v : AsyncWorker.WorkerState R Y).

End Reading.

Module Witness.
Import Demo.

#[local] Existing Instances AsyncWorkerProps.Witness.env_runs AsyncWorkerProps.Witness.env_hooks
  AsyncWorkerProps.Witness.env_amqp AsyncWorkerProps.Witness.demo_hmac AsyncWorkerProps.Witness.demo_text.

(** The table of one failed job. *)
Definition failed_job : JobRow :=
  MkJobRow "tnt_a" "usr_1" "trc_1" "bulk" (JObj []) "failed" 1 None
    (Some (dump_job_error (MkJobError "HTTP_503" "busy" true))) None None "t0" (Some "t1") None.

Definition jobs_world : GatewayState Store.store env :=
  (world []) <| gw_db := MkJobsDb ∅ {[ "job_1" := failed_job ]} "t2" |>.

Lemma failed_job_typed : typed_row failed_job.
Proof. split; [by exists FAILED|done|done|]. split; [done|]. by eexists. Qed.

Lemma tables_typed : typed_jobs (gw_db jobs_world).
Proof. apply map_Forall_singleton, failed_job_typed. Qed.

End Witness.
