(* ===== verification/WorkerBoot.v ===== *)
(** async-worker's process: its settings (config.py), its start-up (main.py), and
    where the messages published to the topology it declares end up.

    RabbitMQ is an interface: the broker keeps what is declared on it, a topic
    binding matches word by word, and an expired message of a queue with a
    dead-letter exchange is published there under the routing key it came with. *)
From S2P Require Import Prelude PyStr Json Http Contracts Wire Redis Quota JobsDb AsyncWorker.

(** ** config.py *)

(* @ async_worker/config.py:8-44 Settings *)
Record Settings := MkSettings {
  wset_harness_url : string;
  wset_harness_timeout_seconds : float64;
  wset_standard_prefetch : Z;
  wset_bulk_prefetch : Z;
  wset_model_router_master_key : string;
  wset_async_pool_daily_budget_usd : float64;
  wset_async_pool_key_alias : string;
  wset_webhook_timeout_seconds : float64;
  wset_webhook_max_attempts : Z
}.

(* @ async_worker/config.py:14-44 Settings: defaults *)
Definition default_settings (model_router_master_key : string) : Settings :=
  MkSettings "http://agent-harness:8081" (f64_of_Z 300) 4 1 model_router_master_key (f64_of_Z 5) "async-pool"
    (f64_of_Z 10) 5.

(** ** main.py *)

(** [yaml.safe_load(path.read_text()) or {}], of a file that may not exist. *)
(* @ async_worker/main.py:24-32 _load_webhook_secrets *)
Definition load_webhook_secrets {S} `{YamlLoad, FloatRepr} (webhook_secrets : option string)
    : py S (list (string * string)) :=
  match webhook_secrets with
  | None => ret []
  | Some text =>
      match yaml_load text with
      | None => raise (OtherException "YAMLError" "could not parse")
      | Some data =>
          if negb (truthy data) then ret []
          else match data with
               | JObj kvs => ret ((fun kv => (kv.1, py_str kv.2)) <$> kvs)
               | _ => raise (OtherException "AttributeError" "object has no attribute 'items'")
               end
      end
  end.

(** A consumer on a channel with a prefetch count. *)
Record Consumer := MkConsumer {
  con_queue : string;
  con_prefetch : Z
}.

(** What the broker has been told, the consumers, and what the key's provisioning
    touches. *)
Record WorkerProcess (X : Type) := MkWorkerProcess {
  wp_declared : list Declaration;
  wp_consumers : list Consumer;
  wp_keys : KeyState X
}.
Arguments MkWorkerProcess {X}.
Arguments wp_declared {X}.
Arguments wp_consumers {X}.
Arguments wp_keys {X}.
#[export] Instance eta_WorkerProcess {X} : EtaRec (WorkerProcess X) := fun x =>
  MkWorkerProcess (wp_declared x) (wp_consumers x) (wp_keys x).

Definition declares_exchange (name : string) (d : Declaration) : bool :=
  match d with DeclareExchange n _ _ => String.eqb n name | _ => false end.
Definition declares_queue (name : string) (d : Declaration) : bool :=
  match d with DeclareQueue n _ _ => String.eqb n name | _ => false end.

Section Startup.
  Context {X : Type} `{HttpPost X, JsonLoads, YamlLoad, FloatRepr}.

Abbreviation P := (WorkerProcess X).

Definition on_broker {A} : py (list Declaration) A → py P A := zoom wp_declared (fun l p => p <| wp_declared := l |>).
Definition on_keys {A} : py (KeyState X) A → py P A := zoom wp_keys (fun k p => p <| wp_keys := k |>).

(** [channel.get_exchange(name)], [channel.get_queue(name)]: passive, so that
    the entity has to exist. *)
Definition passive (declares : Declaration → bool) : py P unit :=
  let! declared := gets wp_declared in
  if existsb declares declared then ret tt else raise (OtherException "ChannelNotFoundEntity" "NOT_FOUND").

(* @ async_worker/main.py:69-72 lifespan: one consumer *)
Definition consume (queue : string) (prefetch_count : Z) : py P unit :=
  passive (declares_queue queue) ;!
  modify (fun p => p <| wp_consumers ::= cons (MkConsumer queue prefetch_count) |>).

(** The key every run of the pool is billed to, and the webhook sender. *)
(* @ async_worker/main.py:35-77 lifespan *)
Definition lifespan (settings : Settings) (webhook_secrets : option string) : py P (string * WebhookSender) :=
  let! async_pool_key := on_keys (provision_async_pool_key (wset_model_router_master_key settings)
                                    (wset_async_pool_key_alias settings) (wset_async_pool_daily_budget_usd settings)) in
  let! secrets := load_webhook_secrets webhook_secrets in
  let! '(standard_queue, bulk_queue) := on_broker declare_topology in
  passive (declares_exchange RETRY_EXCHANGE) ;!
  consume standard_queue (wset_standard_prefetch settings) ;!
  consume bulk_queue (wset_bulk_prefetch settings) ;!
  ret (async_pool_key, MkWebhookSender secrets DEFAULT_BACKOFF_SECONDS).
End Startup.

(** ** Where a message goes *)

Class TopicMatch := topic_matches : string → string → bool.

(** RabbitMQ's topic exchange: a star is one word (no hash in our patterns). *)
Class TopicLaws `{TopicMatch} : Prop :=
  topic_words pattern key : str_contains "#" pattern = false →
    topic_matches pattern key = true ↔
    Forall2 (fun p k => p = "*" ∨ p = k) (str_split_on "." pattern) (str_split_on "." key).

Section Routing.
  Context `{TopicLaws}.
  Implicit Types (l : list Declaration).

(** Some declared exchange of that name routes the key to the queue. *)
Definition routed l (exchange key queue : string) : Prop :=
  ∃ type durable pattern,
    DeclareExchange exchange type durable ∈ l ∧ BindQueue queue exchange pattern ∈ l ∧
    match type with TOPIC => topic_matches pattern key = true | FANOUT => True end.

Definition dead_letters_to l (queue exchange : string) : Prop :=
  ∃ durable arguments, DeclareQueue queue durable arguments ∈ l ∧
    dict_get "x-dead-letter-exchange" arguments = Some (JStr exchange).

Definition topology : list Declaration := (declare_topology []).1.

Lemma declare_topology_appends l : declare_topology l = (l ++ topology, inr (STANDARD_QUEUE, BULK_QUEUE)).
Proof. unfold declare_topology, declare, modify, bind, ret. cbn. by rewrite <- !app_assoc. Qed.

Definition priority_queue (p : JobPriority) : string := match p with STANDARD => STANDARD_QUEUE | BULK => BULK_QUEUE end.

(** The words of a job's routing key are the priority's and the tenant's. *)
Lemma routing_key_words p t :
  str_split_on "." (routing_key p t) = ["job"; enum_value p] ++ str_split_on "." t.
Proof.
  unfold routing_key, str_split_on.
  change ("job." +:+ enum_value p +:+ "." +:+ t) with ("job" +:+ String "." (enum_value p +:+ String "." t)).
  rewrite !split_on_app. by destruct p.
Qed.

Lemma job_topic p q t :
  topic_matches (match q with STANDARD => "job.standard.*" | BULK => "job.bulk.*" end) (routing_key p t) = true ↔
  p = q ∧ length (str_split_on "." t) = 1.
Proof.
  rewrite topic_words by (by destruct q). rewrite routing_key_words.
  assert (str_split_on "." (match q with STANDARD => "job.standard.*" | BULK => "job.bulk.*" end)
          = ["job"; enum_value q; "*"]) as -> by (by destruct q).
  split.
  - intros Hall. apply Forall2_cons in Hall as [_ [Hp Hw]%Forall2_cons]. split; [by destruct p, q, Hp|].
    by apply Forall2_length in Hw.
  - intros [-> Hlen]. destruct (str_split_on "." t) as [|v [|]]; try done.
    do 2 (apply Forall2_cons; split; [by right|]). apply Forall2_cons. split; [by left|done].
Qed.

(** A broker that was only ever told this topology. *)
Definition ours l : Prop := ∀ d, d ∈ l → d ∈ topology.

Lemma topology_elem l d : ours l → d ∈ l ++ topology ↔ d ∈ topology.
Proof. intros Hl. rewrite elem_of_app. split; [by intros [?%Hl|?]|by right]. Qed.

Lemma topology_bindings q e pat :
  BindQueue q e pat ∈ topology ↔
  (q = STANDARD_QUEUE ∧ e = JOBS_EXCHANGE ∧ pat = "job.standard.*") ∨
  (q = BULK_QUEUE ∧ e = JOBS_EXCHANGE ∧ pat = "job.bulk.*") ∨ (q = RETRY_QUEUE ∧ e = RETRY_EXCHANGE ∧ pat = "").
Proof.
  unfold topology. cbn. rewrite !elem_of_cons, elem_of_nil. split; [naive_solver|].
  intros [(-> & -> & ->)|[(-> & -> & ->)|(-> & -> & ->)]]; naive_solver.
Qed.

Lemma topology_exchanges e ty du :
  DeclareExchange e ty du ∈ topology ↔
  (e = JOBS_EXCHANGE ∧ ty = TOPIC ∧ du = true) ∨ (e = RETRY_EXCHANGE ∧ ty = FANOUT ∧ du = true).
Proof.
  unfold topology. cbn. rewrite !elem_of_cons, elem_of_nil. split; [naive_solver|].
  intros [(-> & -> & ->)|(-> & -> & ->)]; naive_solver.
Qed.

Lemma passive_same {X} declares (p p' : WorkerProcess X) u : passive declares p = (p', inr u) → p' = p.
Proof. unfold passive, bind, gets, ret, raise. destruct (existsb _ _); by intros [= <-]. Qed.

(** What the worker's start-up told the broker. *)
Lemma lifespan_outcome {X} `{HttpPost X, JsonLoads, YamlLoad, FloatRepr} settings secrets (w w' : WorkerProcess X) out :
  lifespan settings secrets w = (w', inr out) →
  wp_declared w' = wp_declared w ++ topology ∧
  wp_consumers w' = MkConsumer BULK_QUEUE (wset_bulk_prefetch settings)
    :: MkConsumer STANDARD_QUEUE (wset_standard_prefetch settings) :: wp_consumers w.
Proof.
  unfold lifespan. intros (w1 & key & Hkeys & (w2 & sec & Hsec & Hlife)%bind_returns)%bind_returns.
  assert (wp_declared w1 = wp_declared w ∧ wp_consumers w1 = wp_consumers w) as [<- <-].
  { unfold on_keys, zoom in Hkeys. destruct (provision_async_pool_key _ _ _ _) as [k r].
    injection Hkeys as <- _. by split. }
  assert (w2 = w1) as ->.
  { unfold load_webhook_secrets in Hsec. by repeat case_match; injection Hsec as <-. }
  unfold bind at 1, on_broker, zoom in Hlife. rewrite declare_topology_appends in Hlife.
  apply bind_returns in Hlife as (w3 & [] & ->%passive_same & Hlife).
  apply bind_returns in Hlife as (w4 & [] & Hstd & Hlife). unfold consume in Hstd.
  apply bind_returns in Hstd as (w5 & [] & ->%passive_same & Hstd). injection Hstd as <-.
  apply bind_returns in Hlife as (w6 & [] & Hbulk & Hret). unfold consume in Hbulk.
  apply bind_returns in Hbulk as (w7 & [] & ->%passive_same & Hbulk). injection Hbulk as <-.
  injection Hret as <- _. by split.
Qed.

(** C20: Every job reaches the consumer of its priority. Once the worker has
    started - whatever it was told before was this topology too - a message
    published under a job's routing key goes to its priority's queue and no other,
    which is consumed with that priority's prefetch, provided the tenant's id has
    no dot; with one, to no queue at all. A retry goes to the holding queue, which
    nobody consumes and which gives it back to the same exchange; the dead-letter
    queue is declared, consumed by nobody and bound to nothing. *)
Theorem jobs_reach_their_consumer {X} `{HttpPost X, JsonLoads, YamlLoad, FloatRepr} settings secrets
    (w w' : WorkerProcess X) out :
  lifespan settings secrets w = (w', inr out) → ours (wp_declared w) → wp_consumers w = [] →
  let d := wp_declared w' in
  (∀ p t queue, routed d JOBS_EXCHANGE (routing_key p t) queue ↔
     queue = priority_queue p ∧ length (str_split_on "." t) = 1) ∧
  (∀ p, filter (fun c => con_queue c = priority_queue p) (wp_consumers w')
        = [MkConsumer (priority_queue p) (match p with STANDARD => wset_standard_prefetch settings
                                                  | BULK => wset_bulk_prefetch settings end)]) ∧
  (∀ key queue, routed d RETRY_EXCHANGE key queue ↔ queue = RETRY_QUEUE) ∧
  dead_letters_to d RETRY_QUEUE JOBS_EXCHANGE ∧
  (∀ c, c ∈ wp_consumers w' → con_queue c ≠ RETRY_QUEUE ∧ con_queue c ≠ DLQ_QUEUE) ∧
  (∀ exchange key, ¬ routed d exchange key DLQ_QUEUE).
Proof.
  intros [Hd Hc]%lifespan_outcome Hours Hnone. cbn zeta. rewrite Hd, Hc, Hnone. unfold routed, dead_letters_to.
  split_and!.
  - intros p t queue. split.
    + intros (ty & du & pat & He%topology_elem & Hb%topology_elem & Hm); [|done..].
      apply topology_exchanges in He as [(_ & -> & ->)|(? & _)]; [|done].
      apply topology_bindings in Hb as [(-> & _ & ->)|[(-> & _ & ->)|(_ & ? & _)]]; [| |done].
      * by apply (job_topic p STANDARD t) in Hm as [-> ?].
      * by apply (job_topic p BULK t) in Hm as [-> ?].
    + intros [-> Hlen]. exists TOPIC, true, (match p with STANDARD => "job.standard.*" | BULK => "job.bulk.*" end).
      rewrite !topology_elem, topology_exchanges, topology_bindings by done. split_and!; [by left| |by apply job_topic].
      destruct p; [by left|by right; left].
  - intros p. by destruct p.
  - intros key queue. split.
    + intros (ty & du & pat & _ & Hb%topology_elem & _); [|done]. apply topology_bindings in Hb. naive_solver.
    + intros ->. exists FANOUT, true, "". rewrite !topology_elem, topology_exchanges, topology_bindings by done. naive_solver.
  - exists true, [("x-dead-letter-exchange", JStr JOBS_EXCHANGE)]. split; [|done]. apply topology_elem; [done|].
    unfold topology. cbn. set_solver.
  - intros c. rewrite !elem_of_cons, elem_of_nil. by intros [->|[->|[]]].
  - intros e key (ty & du & pat & _ & Hb%topology_elem & _); [|done]. apply topology_bindings in Hb. naive_solver.
Qed.
End Routing.

(** ** A worker that starts *)

Module Witness.
Definition star_match : TopicMatch := fun pattern key =>
  bool_decide (Forall2 (fun p k => p = "*" ∨ p = k) (str_split_on "." pattern) (str_split_on "." key)).
#[local] Existing Instance star_match.
#[local] Instance star_laws : TopicLaws.
Proof. intros pattern key _. apply bool_decide_eq_true. Qed.

#[local] Instance router : HttpPost unit := fun _ _ _ _ u =>
  (u, inr (MkHttpResponse 200 "" (JObj [("key", JStr "sk-async")]) [])).
#[local] Instance loads : JsonLoads := fun _ => None.
#[local] Instance yaml : YamlLoad := fun _ => Some (JObj [("whsec_1", JStr "secret")]).
#[local] Instance repr : FloatRepr := fun _ => "0.0".

Definition fresh : WorkerProcess unit := MkWorkerProcess [] [] (MkKeyState None tt).
Definition started := lifespan (default_settings "sk-master") (Some "whsec_1: secret") fresh.

Lemma jobs_reach_their_consumer_witness :
  (∀ queue, routed (wp_declared started.1) JOBS_EXCHANGE (routing_key BULK "tnt_a") queue ↔ queue = BULK_QUEUE) ∧
  ∀ queue, ¬ routed (wp_declared started.1) JOBS_EXCHANGE (routing_key BULK "acme.co") queue.
Proof.
  destruct (jobs_reach_their_consumer (default_settings "sk-master") (Some "whsec_1: secret") fresh started.1
    ("sk-async", MkWebhookSender [("whsec_1", "secret")] DEFAULT_BACKOFF_SECONDS)) as (Hjobs & _).
  - vm_compute. reflexivity.
  - intros d Hd. by apply elem_of_nil in Hd.
  - reflexivity.
  - split.
    + intros queue. rewrite (Hjobs BULK "tnt_a" queue). split; [by intros [-> _]|]. intros ->. by split.
    + intros queue Hr. apply (Hjobs BULK "acme.co" queue) in Hr as [_ Hlen]. discriminate Hlen.
Defined.
End Witness.
