(* ===== verification/Catalog.v ===== *)
(** The [catalog] schema shared by ingestion and retrieval (migrations 0005,
    0010): documents, chunks, ingestion runs and errors, under their keys,
    foreign keys and the row-level security policy
    [tenant_id = current_setting('app.tenant_id')], and the session their
    statements run in (ingestion/persistence/db.py, retrieval/persistence/db.py). *)
From S2P Require Import Prelude PyStr Json.

(* @ migrations/versions/0005_catalog.py:51-63 catalog.documents *)
Record DocumentRow := MkDocumentRow {
  dcr_id : string;
  dcr_title : option string;
  dcr_content_hash : string;
  dcr_acl_group_ids : list string;
  dcr_lang : option string;
  dcr_deleted_at : option string
}.
#[export] Instance eta_DocumentRow : EtaRec DocumentRow := fun x =>
  MkDocumentRow (dcr_id x) (dcr_title x) (dcr_content_hash x) (dcr_acl_group_ids x) (dcr_lang x)
    (dcr_deleted_at x).

(* @ migrations/versions/0005_catalog.py:70-84 catalog.chunks *)
Record ChunkRow := MkChunkRow {
  ckr_document_id : string;
  ckr_tenant_id : string;
  ckr_acl_group_ids : list string;
  ckr_content : string;
  ckr_embedding : list float64;
  ckr_section_path : option string;
  ckr_source_uri : option string;
  ckr_lang : option string;
  ckr_content_hash : string;
  ckr_deleted_at : option string
}.
#[export] Instance eta_ChunkRow : EtaRec ChunkRow := fun x =>
  MkChunkRow (ckr_document_id x) (ckr_tenant_id x) (ckr_acl_group_ids x) (ckr_content x)
    (ckr_embedding x) (ckr_section_path x) (ckr_source_uri x) (ckr_lang x) (ckr_content_hash x)
    (ckr_deleted_at x).

(* @ migrations/versions/0005_catalog.py:95-106 catalog.ingestion_runs *)
Record IngestionRunRow := MkIngestionRunRow {
  irr_source : string;
  irr_tenant_id : string;
  irr_status : string;
  irr_docs_seen : Z;
  irr_docs_upserted : Z;
  irr_docs_deleted : Z;
  irr_errors : Z;
  irr_finished_at : option string
}.
#[export] Instance eta_IngestionRunRow : EtaRec IngestionRunRow := fun x =>
  MkIngestionRunRow (irr_source x) (irr_tenant_id x) (irr_status x) (irr_docs_seen x)
    (irr_docs_upserted x) (irr_docs_deleted x) (irr_errors x) (irr_finished_at x).

(* @ migrations/versions/0010_ingestion_errors.py:35-42 catalog.ingestion_errors *)
Record IngestionErrorRow := MkIngestionErrorRow {
  ier_ingestion_run_id : string;
  ier_tenant_id : string;
  ier_source_uri : string;
  ier_error_message : string
}.
#[export] Instance eta_IngestionErrorRow : EtaRec IngestionErrorRow := fun x =>
  MkIngestionErrorRow (ier_ingestion_run_id x) (ier_tenant_id x) (ier_source_uri x)
    (ier_error_message x).

(** The tables; a document is keyed by its UNIQUE (tenant_id, source,
    source_uri), and its row holds the primary key. *)
Record CatalogDb := MkCatalogDb {
  cat_documents : gmap (string * string * string) DocumentRow;
  cat_chunks : gmap string ChunkRow;
  cat_ingestion_runs : gmap string IngestionRunRow;
  cat_ingestion_errors : gmap string IngestionErrorRow;
  cat_now : string
}.
#[export] Instance eta_CatalogDb : EtaRec CatalogDb := fun x =>
  MkCatalogDb (cat_documents x) (cat_chunks x) (cat_ingestion_runs x) (cat_ingestion_errors x)
    (cat_now x).

(** A connection inside a transaction, for a service whose other surroundings
    are [X]: what the block does outside the database is not undone. *)
Record CatConn (X : Type) := MkCatConn {
  cc_tenant : string;
  cc_db : CatalogDb;
  cc_ext : X
}.
Arguments MkCatConn {X}.
Arguments cc_tenant {X}.
Arguments cc_db {X}.
Arguments cc_ext {X}.
#[export] Instance eta_CatConn {X} : EtaRec (CatConn X) := fun x =>
  MkCatConn (cc_tenant x) (cc_db x) (cc_ext x).

Record CatState (X : Type) := MkCatState {
  cs_db : CatalogDb;
  cs_ext : X
}.
Arguments MkCatState {X}.
Arguments cs_db {X}.
Arguments cs_ext {X}.
#[export] Instance eta_CatState {X} : EtaRec (CatState X) := fun x =>
  MkCatState (cs_db x) (cs_ext x).

(* @ ingestion/persistence/db.py:13-22 tenant_session *)
Definition tenant_session {X A} (tenant_id : string) (body : py (CatConn X) A) : py (CatState X) A :=
  fun s =>
    match body (MkCatConn tenant_id (cs_db s) (cs_ext s)) with
    | (c, inr a) => (MkCatState (cc_db c) (cc_ext c), inr a)
    | (c, inl e) => (MkCatState (cs_db s) (cc_ext c), inl e)
    end.

Section Statements.
  Context {X : Type}.
  Abbreviation C := (CatConn X).

Definition on_db (f : CatalogDb → CatalogDb) : py C unit := modify (fun c => c <| cc_db ::= f |>).
Definition cat_ext {A} : py X A → py C A := zoom cc_ext (fun x c => c <| cc_ext := x |>).

(** [INSERT] and [UPDATE] under row-level security. *)
Definition rls_check (tenant_id : string) : py C unit :=
  let! t := gets cc_tenant in
  if String.eqb t tenant_id then ret tt
  else raise (OtherException "InsufficientPrivilege" "new row violates row-level security policy").

(** ** ingestion/persistence/repository.py *)

(* @ ingestion/persistence/repository.py:15-29 get_document_hash *)
Definition get_document_hash (tenant_id source source_uri : string) : py C (option string) :=
  gets (fun c =>
    if String.eqb (cc_tenant c) tenant_id
    then match cat_documents (cc_db c) !! (tenant_id, source, source_uri) with
         | Some row => match dcr_deleted_at row with None => Some (dcr_content_hash row) | Some _ => None end
         | None => None
         end
    else None).

Definition document_ids (d : CatalogDb) : list string := (fun kv => dcr_id kv.2) <$> map_to_list (cat_documents d).

(* @ ingestion/persistence/repository.py:32-72 upsert_document *)
Definition upsert_document (candidate_id tenant_id source source_uri : string) (title : option string)
    (content_hash : string) (acl_group_ids : list string) (lang : option string) : py C string :=
  rls_check tenant_id ;!
  let! d := gets cc_db in
  match cat_documents d !! (tenant_id, source, source_uri) with
  | Some row =>
      on_db (fun d => d <| cat_documents ::= <[(tenant_id, source, source_uri) :=
        MkDocumentRow (dcr_id row) title content_hash acl_group_ids lang None]> |>) ;!
      ret (dcr_id row)
  | None =>
      if str_in candidate_id (document_ids d) then raise (IntegrityError "documents_pkey")
      else
        on_db (fun d => d <| cat_documents ::= <[(tenant_id, source, source_uri) :=
          MkDocumentRow candidate_id title content_hash acl_group_ids lang None]> |>) ;!
        ret candidate_id
  end.

(* @ ingestion/persistence/repository.py:75-79 delete_chunks_for_document *)
Definition delete_chunks_for_document (document_id : string) : py C unit :=
  modify (fun c => c <| cc_db ::= (fun d => d <| cat_chunks ::=
    filter (fun kv => ¬ (ckr_document_id kv.2 = document_id ∧ ckr_tenant_id kv.2 = cc_tenant c)) |>) |>).

(** The column type [vector(1024)]. *)
Definition EMBEDDING_DIM : nat := 1024.

(* @ ingestion/persistence/repository.py:82-116 insert_chunk *)
Definition insert_chunk (chunk_id document_id tenant_id : string) (acl_group_ids : list string)
    (content : string) (embedding : list float64) (section_path : option string) (source_uri : string)
    (lang : option string) (content_hash : string) : py C unit :=
  rls_check tenant_id ;!
  let! d := gets cc_db in
  if negb (Nat.eqb (length embedding) EMBEDDING_DIM)
  then raise (OtherException "DataError" "expected 1024 dimensions")
  else match cat_chunks d !! chunk_id with
  | Some _ => raise (IntegrityError "chunks_pkey")
  | None =>
      if str_in document_id (document_ids d) then
        on_db (fun d => d <| cat_chunks ::= <[chunk_id :=
          MkChunkRow document_id tenant_id acl_group_ids content embedding section_path
            (Some source_uri) lang content_hash None]> |>)
      else raise (IntegrityError "chunks_document_id_fkey")
  end.

(** [SELECT id, source_uri ... WHERE tenant_id AND source AND deleted_at IS NULL]. *)
Definition live_documents (tenant_id source : string) (c : C) : list (string * string) :=
  omap (fun kv =>
    let '((t, s, uri), row) := kv in
    if String.eqb t tenant_id && String.eqb s source && String.eqb (cc_tenant c) tenant_id
    then match dcr_deleted_at row with None => Some (dcr_id row, uri) | Some _ => None end
    else None) (map_to_list (cat_documents (cc_db c))).

(** [UPDATE catalog.documents SET deleted_at = now() WHERE id = ...]. *)
Definition tombstone (document_id : string) : py C unit :=
  modify (fun c => c <| cc_db ::= (fun d => d <| cat_documents :=
    map_imap (fun key row =>
      Some (if String.eqb (dcr_id row) document_id && String.eqb key.1.1 (cc_tenant c)
            then row <| dcr_deleted_at := Some (cat_now d) |> else row)) (cat_documents d) |>) |>).

(* @ ingestion/persistence/repository.py:119-145 tombstone_missing_documents *)
Definition tombstone_missing_documents (tenant_id source : string) (seen_source_uris : list string)
    : py C (list string) :=
  let! rows := gets (live_documents tenant_id source) in
  foldM (fun tombstoned '(document_id, source_uri) =>
    if str_in source_uri seen_source_uris then ret tombstoned
    else
      tombstone document_id ;!
      delete_chunks_for_document document_id ;!
      ret (tombstoned ++ [document_id])) [] rows.

(* @ ingestion/persistence/repository.py:148-178 insert_ingestion_run *)
Definition insert_ingestion_run (run_id source tenant_id status : string)
    (docs_seen docs_upserted docs_deleted errors : Z) : py C unit :=
  rls_check tenant_id ;!
  let! d := gets cc_db in
  match cat_ingestion_runs d !! run_id with
  | Some _ => raise (IntegrityError "ingestion_runs_pkey")
  | None =>
      on_db (fun d => d <| cat_ingestion_runs ::= <[run_id :=
        MkIngestionRunRow source tenant_id status docs_seen docs_upserted docs_deleted errors
          (Some (cat_now d))]> |>)
  end.

(* @ ingestion/persistence/repository.py:181-203 insert_ingestion_error *)
Definition insert_ingestion_error (error_id run_id tenant_id source_uri error_message : string)
    : py C unit :=
  rls_check tenant_id ;!
  let! d := gets cc_db in
  match cat_ingestion_errors d !! error_id, cat_ingestion_runs d !! run_id with
  | Some _, _ => raise (IntegrityError "ingestion_errors_pkey")
  | None, None => raise (IntegrityError "ingestion_errors_ingestion_run_id_fkey")
  | None, Some _ =>
      on_db (fun d => d <| cat_ingestion_errors ::= <[error_id :=
        MkIngestionErrorRow run_id tenant_id source_uri error_message]> |>)
  end.
End Statements.
