(* ===== verification/Ingestion.v ===== *)
(** ingestion: the filesystem connector (connectors/filesystem.py), markdown
    chunking (chunking.py), its clients (clients/) and the pipeline
    (pipeline.py), over the catalog (Catalog.v). *)
From S2P Require Import Prelude PyStr Json Http Catalog.

(** ** connectors/filesystem.py *)

(* @ ingestion/connectors/filesystem.py:23-23 SOURCE *)
Definition SOURCE := "filesystem".

(** The metadata of a document is not checked before it reaches the database:
    [title] and [lang] are whatever the YAML says. *)
(* @ ingestion/connectors/filesystem.py:26-34 RawDocument *)
Record RawDocument := MkRawDocument {
  raw_source_uri : string;
  raw_tenant_id : string;
  raw_acl_group_ids : list string;
  raw_title : json;
  raw_lang : json;
  raw_content : string;
  raw_content_hash : string
}.
#[export] Instance eta_RawDocument : EtaRec RawDocument := fun x =>
  MkRawDocument (raw_source_uri x) (raw_tenant_id x) (raw_acl_group_ids x) (raw_title x)
    (raw_lang x) (raw_content x) (raw_content_hash x).

Section Connector.
  Context {S : Type} `{YamlLoad, FloatRepr, Sha256}.

(* @ ingestion/connectors/filesystem.py:37-45 _parse_frontmatter *)
Definition parse_frontmatter (text : string) : py S (json * string) :=
  if negb (str_startswith text "---") then ret (JObj [], text)
  else match str_partition "---" text ≫= fun p => str_partition "---" p.2 with
  | None => ret (JObj [], text)
  | Some (raw_meta, body) =>
      match yaml_load raw_meta with
      | None => raise (OtherException "YAMLError" raw_meta)
      | Some meta => ret (if truthy meta then meta else JObj [], str_strip body)
      end
  end.

Definition load_document (file : string * string) : py S RawDocument :=
  let! '(meta, body) := parse_frontmatter file.2 in
  let content_hash := sha256 body in
  let! tenant_id := jget_default "tenant_id" (JStr "tnt_demo") meta in
  let! groups := (let! v := jget_default "acl_group_ids" (JArr []) meta in py_iter v) in
  let! title := jget_opt "title" meta in
  let! lang := jget_opt "lang" meta in
  ret {| raw_source_uri := "file://" +:+ file.1; raw_tenant_id := py_str tenant_id;
         raw_acl_group_ids := py_str <$> groups; raw_title := title; raw_lang := lang;
         raw_content := body; raw_content_hash := content_hash |}.

(** [files]: the names and texts of [sorted(Path(directory).glob("*.md"))]. *)
(* @ ingestion/connectors/filesystem.py:48-65 load_filesystem_documents *)
Definition load_filesystem_documents (files : list (string * string)) : py S (list RawDocument) :=
  map_each load_document files.
End Connector.

(** ** chunking.py *)

(* @ ingestion/chunking.py:15-18 Chunk *)
Record Chunk := MkChunk {
  chk_content : string;
  chk_section_path : option string
}.
#[export] Instance eta_Chunk : EtaRec Chunk := fun x => MkChunk (chk_content x) (chk_section_path x).

Fixpoint count_hashes (s : string) : nat :=
  match s with String "#" s' => S (count_hashes s') | _ => O end.

(** The header pattern on one line — one to six hashes, white space, the title:
    the level and the title. *)
(* @ ingestion/chunking.py:12-12 _HEADER_RE *)
Definition header_match (line : string) : option (nat * string) :=
  let level := count_hashes line in
  let rest := str_drop level line in
  if (1 <=? level)%nat && (level <=? 6)%nat
  then match rest with
       | String c _ => if is_space c then Some (level, lstrip rest) else None
       | "" => None
       end
  else None.

Definition newline : string := String "010" "".

Record BlockState := MkBlockState {
  bks_blocks : list (option string * string);
  bks_section_stack : list string;
  bks_buffer : list string
}.
#[export] Instance eta_BlockState : EtaRec BlockState := fun x =>
  MkBlockState (bks_blocks x) (bks_section_stack x) (bks_buffer x).

(** [" > ".join(section_stack) or None]. *)
Definition section_path (stack : list string) : option string :=
  let path := str_join " > " stack in if String.eqb path "" then None else Some path.

(* @ ingestion/chunking.py:50-54 flush *)
Definition flush (s : BlockState) : BlockState :=
  let content := str_strip (str_join newline (bks_buffer s)) in
  let s := if String.eqb content "" then s
           else s <| bks_blocks ::= (fun l => l ++ [(section_path (bks_section_stack s), content)]) |> in
  s <| bks_buffer := [] |>.

Definition block_line (s : BlockState) (line : string) : BlockState :=
  match header_match line with
  | Some (level, title) =>
      let s := flush s in
      s <| bks_section_stack := take (level - 1) (bks_section_stack s) ++ [str_strip title] |>
  | None => s <| bks_buffer ::= (fun l => l ++ [line]) |>
  end.

(* @ ingestion/chunking.py:42-66 _blocks_by_section *)
Definition blocks_by_section (text : string) : list (option string * string) :=
  bks_blocks (flush (fold_left block_line (str_splitlines text) (MkBlockState [] [] []))).

(** [s[-n:] if n else ""]. *)
Definition str_last (s : string) (n : nat) : string :=
  if (n =? 0)%nat then "" else str_drop (String.length s - n) s.

Record ChunkState := MkChunkState {
  cks_chunks : list Chunk;
  cks_section : option string;
  cks_text : string
}.

Definition blank_line : string := newline +:+ newline.

Definition chunk_block (target_chars overlap_chars : nat) (s : ChunkState)
    (block : option string * string) : ChunkState :=
  let '(section_path, block_text) := block in
  let candidate := if String.eqb (cks_text s) "" then block_text
                   else cks_text s +:+ blank_line +:+ block_text in
  if (String.length candidate <=? target_chars)%nat || String.eqb (cks_text s) ""
  then MkChunkState (cks_chunks s) section_path candidate
  else
    let overlap := str_last (cks_text s) overlap_chars in
    MkChunkState (cks_chunks s ++ [MkChunk (str_strip (cks_text s)) (cks_section s)])
      section_path (str_strip (overlap +:+ blank_line +:+ block_text)).

(* @ ingestion/chunking.py:37-38 chunk_markdown: the last chunk *)
Definition last_chunk (s : ChunkState) : list Chunk :=
  if String.eqb (str_strip (cks_text s)) "" then cks_chunks s
  else cks_chunks s ++ [MkChunk (str_strip (cks_text s)) (cks_section s)].

(* @ ingestion/chunking.py:21-39 chunk_markdown *)
Definition chunk_markdown (text : string) (target_chars overlap_chars : nat) : list Chunk :=
  last_chunk (fold_left (chunk_block target_chars overlap_chars) (blocks_by_section text)
                (MkChunkState [] None "")).

(** ** clients *)

(** A vector of the embeddings response. *)
Definition json_floats {S} (j : json) : py S (list float64) :=
  match j with
  | JArr l =>
      map_each (fun v => match v with
                         | JFloat f => ret f
                         | JInt z => ret (f64_of_Z z)
                         | _ => raise (OtherException "DataError" "invalid vector")
                         end) l
  | _ => raise (OtherException "DataError" "invalid vector")
  end.

(* @ ingestion/config.py:6-34 Settings *)
Record IngestionSettings := MkIngestionSettings {
  ist_model_router_key : string;
  ist_embedding_model_alias : string;
  ist_chunk_target_chars : nat;
  ist_chunk_overlap_chars : nat
}.

Section Pipeline.
  Context {X : Type} `{HttpPost X, Uuid X, YamlLoad, FloatRepr, Sha256}.
  Variable settings : IngestionSettings.

(* @ ingestion/clients/model_router.py:20-26 EmbeddingClient.embed *)
Definition embed (texts : list string) : py X (list json) :=
  let! response := http_post ModelRouter "/embeddings"
    [("Authorization", "Bearer " +:+ ist_model_router_key settings)]
    (JObj [("model", JStr (ist_embedding_model_alias settings)); ("input", j_strs texts)]) in
  raise_for_status response ;!
  let! data := jget "data" (hr_json response) in
  let! items := py_iter data in
  map_each (jget "embedding") items.

(** The call's only effect is on agent-harness; any [httpx.HTTPError] is logged. *)
(* @ ingestion/clients/harness.py:25-41 HarnessCacheClient.invalidate *)
Definition invalidate (tenant_id : string) (document_ids : list string) : py X unit :=
  match document_ids with
  | [] => ret tt
  | _ =>
      try_except
        (let! response := http_post AgentHarness "/internal/v1/cache/invalidate" []
             (JObj [("tenant_id", JStr tenant_id); ("document_ids", j_strs document_ids)]) in
         raise_for_status response)
        (fun e => if is_httpx_error e then Some (ret tt) else None)
  end.

(** ** pipeline.py *)

(** A [TEXT] column takes a string or NULL. *)
Definition text_column {S} (v : json) : py S (option string) :=
  match v with
  | JNull => ret None
  | JStr s => ret (Some s)
  | _ => raise (OtherException "DataError" "expected str")
  end.

Abbreviation C := (CatConn X).
Abbreviation W := (CatState X).

(** [zip(chunks, embeddings, strict=True)], inserting as it goes. *)
Fixpoint insert_chunks (tenant_id : string) (raw : RawDocument) (lang : option string)
    (document_id : string) (chunks : list Chunk) (embeddings : list json) : py C unit :=
  match chunks, embeddings with
  | [], [] => ret tt
  | chunk :: chunks', vector :: embeddings' =>
      let! chunk_id := cat_ext (uuid_id "chk_") in
      let! embedding := json_floats vector in
      insert_chunk chunk_id document_id tenant_id (raw_acl_group_ids raw)
        (chk_content chunk) embedding (chk_section_path chunk) (raw_source_uri raw) lang
        (raw_content_hash raw) ;!
      insert_chunks tenant_id raw lang document_id chunks' embeddings'
  | _, _ => raise (ValueError "zip() arguments have different lengths")
  end.

Definition chunks_of (raw : RawDocument) : list Chunk :=
  chunk_markdown (raw_content raw) (ist_chunk_target_chars settings) (ist_chunk_overlap_chars settings).

(* @ ingestion/pipeline.py:30-76 _ingest_one_document *)
Definition ingest_one_document (tenant_id : string) (raw : RawDocument) : py W (option string) :=
  tenant_session tenant_id (
    let! existing_hash := get_document_hash tenant_id SOURCE (raw_source_uri raw) in
    if bool_decide (existing_hash = Some (raw_content_hash raw)) then ret None
    else
      let! candidate_id := cat_ext (uuid_id "doc_") in
      let! title := text_column (raw_title raw) in
      let! lang := text_column (raw_lang raw) in
      let! document_id := upsert_document candidate_id tenant_id SOURCE (raw_source_uri raw) title
                            (raw_content_hash raw) (raw_acl_group_ids raw) lang in
      delete_chunks_for_document document_id ;!
      match chunks_of raw with
      | [] => ret (Some document_id)
      | chunks =>
          let! embeddings := cat_ext (embed (chk_content <$> chunks)) in
          insert_chunks tenant_id raw lang document_id chunks embeddings ;!
          ret (Some document_id)
      end).

(** The locals of the loop over the documents. *)
Record Progress := MkProgress {
  pg_docs_seen : Z;
  pg_errors : Z;
  pg_seen_source_uris : list string;
  pg_changed_document_ids : list string
}.
#[local] Instance eta_Progress : EtaRec Progress := fun x =>
  MkProgress (pg_docs_seen x) (pg_errors x) (pg_seen_source_uris x) (pg_changed_document_ids x).

Definition state_ext {A} : py X A → py W A := zoom cs_ext (fun x s => s <| cs_ext := x |>).

Definition ingest_step (tenant_id run_id : string) (p : Progress) (raw : RawDocument) : py W Progress :=
  let p := p <| pg_docs_seen ::= Z.add 1 |>
             <| pg_seen_source_uris ::= (fun l => l ++ [raw_source_uri raw]) |> in
  try_except
    (let! document_id := ingest_one_document tenant_id raw in
     ret (match document_id with
          | Some d => p <| pg_changed_document_ids ::= (fun l => l ++ [d]) |>
          | None => p
          end))
    (fun exc => Some (
       tenant_session tenant_id (
         let! error_id := cat_ext (uuid_id "ierr_") in
         insert_ingestion_error error_id run_id tenant_id (raw_source_uri raw) (exn_str exc)) ;!
       ret (p <| pg_errors ::= Z.add 1 |>))).

Record IngestionReport := MkIngestionReport {
  rep_run_id : string;
  rep_status : string;
  rep_docs_seen : Z;
  rep_docs_upserted : Z;
  rep_docs_deleted : Z;
  rep_errors : Z
}.

(* @ ingestion/pipeline.py:79-143 run_filesystem_ingestion *)
Definition run_filesystem_ingestion (tenant_id : string) (files : list (string * string))
    : py W IngestionReport :=
  let! run_id := state_ext (uuid_id "ing_") in
  let! documents := load_filesystem_documents files in
  let raw_docs := List.filter (fun d => String.eqb (raw_tenant_id d) tenant_id) documents in
  let! p := foldM (ingest_step tenant_id run_id) (MkProgress 0 0 [] []) raw_docs in
  let docs_upserted := Z.of_nat (length (pg_changed_document_ids p)) in
  let status := if (pg_errors p =? 0)%Z then "completed" else "completed_with_errors" in
  let! tombstoned := tenant_session tenant_id (
    let! tombstoned := tombstone_missing_documents tenant_id SOURCE (pg_seen_source_uris p) in
    insert_ingestion_run run_id SOURCE tenant_id status (pg_docs_seen p) docs_upserted
      (Z.of_nat (length tombstoned)) (pg_errors p) ;!
    ret tombstoned) in
  state_ext (invalidate tenant_id (pg_changed_document_ids p ++ tombstoned)) ;!
  ret {| rep_run_id := run_id; rep_status := status; rep_docs_seen := pg_docs_seen p;
         rep_docs_upserted := docs_upserted; rep_docs_deleted := Z.of_nat (length tombstoned);
         rep_errors := pg_errors p |}.
End Pipeline.
