(* ===== verification/IngestionProps.v ===== *)
(** What ingestion promises: chunking loses no text and bounds the size of a
    chunk; a run that returns has made the tenant's catalog the image of its
    source documents; and what one bad document does to a run. *)
From S2P Require Import Prelude PyStr Json Http Catalog Ingestion.

(** ** Chunking *)

Definition nat_max_list (l : list nat) : nat := foldr Nat.max 0%nat l.

Lemma nat_max_list_le n l : n ∈ l → (n ≤ nat_max_list l)%nat.
Proof. unfold nat_max_list. induction 1; cbn in *; lia. Qed.

Lemma flush_trimmed s :
  Forall (fun b => trimmed b.2) (bks_blocks s) → Forall (fun b => trimmed b.2) (bks_blocks (flush s)).
Proof.
  intros Hs. unfold flush. destruct (str_eqb_spec (str_strip (str_join newline (bks_buffer s))) "") as [_|Hne];
    cbn; [done|]. apply Forall_app_2; [done|]. constructor; [|done]. by apply strip_trimmed.
Qed.

Lemma block_line_trimmed s line :
  Forall (fun b => trimmed b.2) (bks_blocks s) → Forall (fun b => trimmed b.2) (bks_blocks (block_line s line)).
Proof.
  intros Hs. unfold block_line. destruct (header_match line) as [[level title]|]; [|done].
  cbn. by apply flush_trimmed.
Qed.

(** Every block is trimmed, so not empty. *)
Lemma blocks_trimmed text : Forall (fun b => trimmed b.2) (blocks_by_section text).
Proof.
  unfold blocks_by_section. apply flush_trimmed.
  assert (H : ∀ l s, Forall (fun b => trimmed b.2) (bks_blocks s) →
            Forall (fun b => trimmed b.2) (bks_blocks (fold_left block_line l s))).
  { induction l as [|line l IH]; intros s Hs; [done|]. cbn. by apply IH, block_line_trimmed. }
  by apply H.
Qed.

Section Chunking.
  Variables (target overlap : nat).

(** What the packing loop maintains after the blocks [done]. *)
Record packed (bound : nat) (done : list (option string * string)) (s : ChunkState) : Prop := {
  pk_empty : cks_text s = "" ↔ done = [];
  pk_last : done ≠ [] → ∃ b, b ∈ done ∧ cks_section s = b.1 ∧ ∃ p, cks_text s = p +:+ b.2;
  pk_size : (String.length (cks_text s) ≤ bound)%nat;
  pk_kept b : b ∈ done → occurs b.2 (cks_text s) ∨ ∃ c, c ∈ cks_chunks s ∧ occurs b.2 (chk_content c);
  pk_chunks : Forall (fun c => (String.length (chk_content c) ≤ bound)%nat ∧
    ∃ b, b ∈ done ∧ chk_section_path c = b.1 ∧ ∃ p, chk_content c = p +:+ b.2) (cks_chunks s)
}.

Lemma str_last_length s n : (String.length (str_last s n) ≤ n)%nat.
Proof.
  unfold str_last. destruct n as [|n]; [done|]. cbn [Nat.eqb].
  assert (Hd : ∀ k t, String.length (str_drop k t) = (String.length t - k)%nat).
  { induction k as [|k IH]; intros [|c t]; cbn; done. }
  rewrite Hd. lia.
Qed.

Lemma packed_step bound done s b :
  trimmed b.2 → Forall (fun b => trimmed b.2) done →
  (target ≤ bound)%nat → (overlap + 2 + String.length b.2 ≤ bound)%nat →
  packed bound done s → packed bound (done ++ [b]) (chunk_block target overlap s b).
Proof.
  intros Hb Hdone Ht Ho [Hempty Hlast Hsize Hkept Hchunks]. destruct b as [sp text]. cbn in Hb, Ho.
  assert (Hweak : Forall (fun c => (String.length (chk_content c) ≤ bound)%nat ∧
    ∃ b, b ∈ done ++ [(sp, text)] ∧ chk_section_path c = b.1 ∧ ∃ p, chk_content c = p +:+ b.2) (cks_chunks s)).
  { eapply Forall_impl; [exact Hchunks|]. intros c (Hl & b & Hin & Hrest). split; [done|].
    exists b. split; [set_solver|done]. }
  assert (Hne : text ≠ "") by apply Hb.
  assert (Hnil : done ++ [(sp, text)] ≠ []) by (by destruct done).
  unfold chunk_block. destruct (str_eqb_spec (cks_text s) "") as [He|He].
  - rewrite orb_true_r. rewrite (proj1 Hempty He) in *. cbn [app].
    split; cbn; [by split| |lia| |done].
    + intros _. exists (sp, text). split; [set_solver|]. split; [done|by exists ""].
    + intros b Hb'. apply list_elem_of_singleton in Hb' as ->. left. apply occurs_refl.
  - assert (Hd : done ≠ []) by (intros ->; by apply He, Hempty).
    rewrite orb_false_r.
    destruct (Nat.leb_spec (String.length (cks_text s +:+ blank_line +:+ text)) target) as [Hle|Hgt].
    + split; cbn; [|..|done].
      * split; [|done]. intros Hz. apply (f_equal String.length) in Hz. rewrite str_length_app in Hz.
        by destruct (cks_text s).
      * intros _. exists (sp, text). split; [set_solver|]. split; [done|].
        exists (cks_text s +:+ blank_line). by rewrite str_app_assoc.
      * lia.
      * intros b Hin. apply elem_of_app in Hin as [Hin|Hin].
        -- destruct (Hkept b Hin) as [?|?]; [left; by apply occurs_app_r|by right].
        -- apply list_elem_of_singleton in Hin as ->. left. apply occurs_app_l, occurs_app_l, occurs_refl.
    + destruct (strip_ends (str_last (cks_text s) overlap +:+ blank_line) text Hb) as [q Hq].
      rewrite str_app_assoc in Hq. rewrite Hq.
      assert (Hlen : (String.length (q +:+ text) ≤ bound)%nat).
      { rewrite <- Hq. etrans; [apply str_strip_length|]. rewrite !str_length_app.
        change (String.length blank_line) with 2%nat.
        pose proof (str_last_length (cks_text s) overlap). lia. }
      split; cbn; [|..|].
      * split; [|done]. intros Hz. apply (f_equal String.length) in Hz. rewrite str_length_app in Hz.
        destruct text; [done|cbn in Hz; lia].
      * intros _. exists (sp, text). split; [set_solver|]. split; [done|by exists q].
      * done.
      * intros b Hin. apply elem_of_app in Hin as [Hin|Hin].
        -- right. destruct (Hkept b Hin) as [Ho'|(c & Hc & Hoc)].
           ++ eexists. split; [apply elem_of_app; right; by apply list_elem_of_singleton|]. cbn.
              apply occurs_strip; [|done]. by eapply (proj1 (Forall_forall _ _)) in Hdone.
           ++ exists c. split; [set_solver|done].
        -- apply list_elem_of_singleton in Hin as ->. left. apply occurs_app_l, occurs_refl.
      * apply Forall_app_2; [done|]. constructor; [|done]. cbn. split.
        { etrans; [apply str_strip_length|done]. }
        destruct (Hlast Hd) as (b & Hin & Hsec & p & Hp). exists b. split; [set_solver|]. split; [done|].
        rewrite Hp. apply strip_ends. by eapply (proj1 (Forall_forall _ _)) in Hdone.
Qed.

Lemma packed_fold bound blocks : ∀ done s,
  Forall (fun b => trimmed b.2) (done ++ blocks) → (target ≤ bound)%nat →
  (∀ b, b ∈ blocks → overlap + 2 + String.length b.2 ≤ bound)%nat →
  packed bound done s → packed bound (done ++ blocks) (fold_left (chunk_block target overlap) blocks s).
Proof.
  induction blocks as [|b blocks IH]; intros done s Htr Ht Ho Hp; [by rewrite app_nil_r|].
  cbn. rewrite (cons_middle b done blocks), app_assoc in *. apply IH; [done|done|set_solver|].
  apply Forall_app in Htr as [Htr _]. apply Forall_app in Htr as [Hdone Hb].
  apply packed_step; [by inversion Hb|done|done|apply Ho; set_solver|done].
Qed.
End Chunking.

(** The longest a chunk may get: the target, or an overlap and one block. *)
Definition chunk_bound (text : string) (target overlap : nat) : nat :=
  Nat.max target (overlap + 2 + nat_max_list ((fun b => String.length b.2) <$> blocks_by_section text)).

(** Chunking loses nothing and respects its size. Every block of the document
    (the text under one header) occurs whole in some chunk; every chunk ends
    with a block and carries that block's section path; and no chunk is longer
    than the target, unless a single block with the overlap in front of it is. *)
Theorem chunks_cover_blocks (text : string) (target overlap : nat) :
  (∀ b, b ∈ blocks_by_section text →
     ∃ c, c ∈ chunk_markdown text target overlap ∧ occurs b.2 (chk_content c)) ∧
  (∀ c, c ∈ chunk_markdown text target overlap →
     (String.length (chk_content c) ≤ chunk_bound text target overlap)%nat ∧
     ∃ b, b ∈ blocks_by_section text ∧ chk_section_path c = b.1 ∧ ∃ p, chk_content c = p +:+ b.2).
Proof.
  unfold chunk_markdown. set (blocks := blocks_by_section text).
  pose proof (blocks_trimmed text) as Htr. fold blocks in Htr.
  assert (Hp : packed (chunk_bound text target overlap) blocks
            (fold_left (chunk_block target overlap) blocks (MkChunkState [] None ""))).
  { apply (packed_fold target overlap _ blocks []); [done|unfold chunk_bound; lia| |].
    - intros b Hb. unfold chunk_bound. fold blocks.
      pose proof (nat_max_list_le (String.length b.2) ((fun b => String.length b.2) <$> blocks)) as Hm.
      rewrite list_elem_of_fmap in Hm. specialize (Hm ltac:(by exists b)). lia.
    - split; cbn; [done|done|lia|set_solver|constructor]. }
  destruct Hp as [Hempty Hlast Hsize Hkept Hchunks].
  set (s := fold_left _ blocks _) in *. clearbody s. unfold last_chunk.
  destruct (str_eqb_spec (str_strip (cks_text s)) "") as [He|He].
  - assert (Hnil : blocks = []).
    { destruct (decide (blocks = [])) as [|Hd]; [done|].
      destruct (Hlast Hd) as (b & Hin & _ & p & Hpb). exfalso.
      destruct (strip_ends p b.2) as [q Hq]; [by eapply (proj1 (Forall_forall _ _)) in Htr|].
      rewrite <- Hpb, He in Hq. apply (f_equal String.length) in Hq. rewrite str_length_app in Hq.
      assert (b.2 ≠ "") by (by eapply (proj1 (Forall_forall _ _)) in Htr; [apply Htr|]).
      destruct b.2; [done|cbn in Hq; lia]. }
    rewrite Hnil in *. split; [set_solver|]. intros c Hc.
    by eapply (proj1 (Forall_forall _ _)) in Hchunks.
  - split.
    + intros b Hin. destruct (Hkept b Hin) as [Ho|(c & Hc & Ho)].
      * eexists. split; [apply elem_of_app; right; by apply list_elem_of_singleton|]. cbn.
        apply occurs_strip; [|done]. by eapply (proj1 (Forall_forall _ _)) in Htr.
      * exists c. split; [set_solver|done].
    + intros c Hc. apply elem_of_app in Hc as [Hc|Hc].
      * by eapply (proj1 (Forall_forall _ _)) in Hchunks.
      * apply list_elem_of_singleton in Hc as ->. cbn.
        split; [etrans; [apply str_strip_length|done]|].
        destruct (decide (blocks = [])) as [Hd|Hd].
        { rewrite (proj2 Hempty Hd) in He. done. }
        destruct (Hlast Hd) as (b & Hin & Hsec & p & Hpb). exists b. split; [done|]. split; [done|].
        rewrite Hpb. apply strip_ends. by eapply (proj1 (Forall_forall _ _)) in Htr.
Qed.

(** A skipped level nests the sections that follow it: [del] at an index past
    the end of the stack removes nothing. *)
Example skipped_level_nests :
  blocks_by_section ("# A" +:+ newline +:+ "### B" +:+ newline +:+ "x" +:+ newline +:+ "### C" +:+ newline +:+ "y")
  = [(Some "A > B", "x"); (Some "A > B > C", "y")].
Proof. vm_compute. reflexivity. Qed.

(** ** The statements of one document *)

Definition row_chunk (r : ChunkRow) : Chunk := MkChunk (ckr_content r) (ckr_section_path r).

(** The chunk rows of one ingested document. *)
Record chunk_rows (t id : string) (raw : RawDocument) (rows : gmap string ChunkRow) : Prop := {
  cr_owner : map_Forall (fun _ r => ckr_document_id r = id ∧ ckr_tenant_id r = t ∧
    ckr_acl_group_ids r = raw_acl_group_ids raw ∧ ckr_deleted_at r = None) rows
}.

Section Document.
  Context {X : Type} `{HttpPost X, Uuid X, YamlLoad, FloatRepr, Sha256}.
  Variable settings : IngestionSettings.
  Implicit Types (c : CatConn X) (s : CatState X).

Lemma rls_check_returns t c c' u : rls_check t c = (c', inr u) → c' = c ∧ cc_tenant c = t.
Proof.
  unfold rls_check, bind, gets. destruct (str_eqb_spec (cc_tenant c) t); [|done]. by intros [= <- _].
Qed.

Lemma cat_ext_keeps {A} (m : py X A) c :
  cc_db (cat_ext m c).1 = cc_db c ∧ cc_tenant (cat_ext m c).1 = cc_tenant c.
Proof. unfold cat_ext, zoom. by destruct (m (cc_ext c)). Qed.

Lemma json_floats_keeps {S} (j : json) (s s' : S) fs : json_floats j s = (s', inr fs) → s' = s.
Proof.
  unfold json_floats. destruct j; try done. revert s' fs. induction l as [|v l IH]; intros s' fs; cbn.
  - by intros [= <- _].
  - intros Hb. apply bind_returns in Hb as (s1 & a & Hv & Hb).
    apply bind_returns in Hb as (s2 & ys & Hl & Hb).
    assert (s1 = s) as -> by (destruct v; try done; by injection Hv as <-).
    apply IH in Hl as ->. by injection Hb as <-.
Qed.

Lemma insert_chunk_returns cid id t acl content emb sec uri lang hash c c' u :
  insert_chunk cid id t acl content emb sec uri lang hash c = (c', inr u) →
  cc_tenant c = t ∧ cat_chunks (cc_db c) !! cid = None ∧
  c' = c <| cc_db ::= (fun d => d <| cat_chunks ::=
         <[cid := MkChunkRow id t acl content emb sec (Some uri) lang hash None]> |>) |>.
Proof.
  unfold insert_chunk. intros Hb. apply bind_returns in Hb as (c1 & [] & Hr & Hb).
  apply rls_check_returns in Hr as [-> Ht]. unfold bind, gets in Hb. cbn in Hb.
  destruct (negb _); [done|]. destruct (cat_chunks (cc_db c) !! cid) eqn:Hc; [done|].
  destruct (str_in _ _); [|done]. by injection Hb as <-.
Qed.

Lemma insert_chunks_returns t raw lang id chunks : ∀ embs c c' u,
  insert_chunks t raw lang id chunks embs c = (c', inr u) → cc_tenant c = t →
  ∃ rows, rows ##ₘ cat_chunks (cc_db c) ∧ chunk_rows t id raw rows ∧
    ((row_chunk ∘ snd) <$> map_to_list rows) ≡ₚ chunks ∧ cc_tenant c' = t ∧
    cc_db c' = (cc_db c) <| cat_chunks := rows ∪ cat_chunks (cc_db c) |>.
Proof.
  induction chunks as [|ch chunks IH]; intros [|v embs] c c' u; cbn [insert_chunks]; try done.
  - intros [= <- _] Ht. exists ∅. split; [apply map_disjoint_empty_l|]. split; [split; apply map_Forall_empty|].
    rewrite map_to_list_empty. split; [done|]. split; [done|]. rewrite (left_id_L ∅ (∪)). by destruct c as [? []].
  - intros Hb Ht. apply bind_returns in Hb as (c1 & cid & Hu & Hb).
    pose proof (cat_ext_keeps (uuid_id "chk_") c) as [Hd1 Ht1]. rewrite Hu in Hd1, Ht1. cbn in Hd1, Ht1.
    apply bind_returns in Hb as (c2 & emb & Hf & Hb). apply json_floats_keeps in Hf as ->.
    apply bind_returns in Hb as (c3 & [] & Hi & Hb).
    apply insert_chunk_returns in Hi as (_ & Hnone & ->).
    set (row := MkChunkRow _ _ _ _ _ _ _ _ _ _) in Hb.
    destruct (IH _ _ _ _ Hb ltac:(cbn; congruence)) as (rows & Hdis & [Hown] & Hperm & Ht' & Hd').
    cbn in Hdis, Hd'. rewrite Hd1 in *. apply map_disjoint_insert_r in Hdis as [Hrow Hdis].
    exists (<[cid := row]> rows). split; [by apply map_disjoint_insert_l|].
    split; [split; apply map_Forall_insert_2; [done|done]|].
    split; [rewrite map_to_list_insert by done; cbn; by rewrite Hperm; destruct ch|].
    split; [done|]. rewrite Hd'. f_equal. by rewrite <- insert_union_r, insert_union_l.
Qed.

Lemma session_returns {A} t (body : py (CatConn X) A) s s' a :
  tenant_session t body s = (s', inr a) →
  ∃ c, body (MkCatConn t (cs_db s) (cs_ext s)) = (c, inr a) ∧ cs_db s' = cc_db c.
Proof.
  unfold tenant_session. destruct (body _) as [c [e|b]]; [done|]. intros [= <- <-]. by exists c.
Qed.

Lemma session_raises {A} t (body : py (CatConn X) A) s s' e :
  tenant_session t body s = (s', inl e) → cs_db s' = cs_db s.
Proof. unfold tenant_session. destruct (body _) as [c [e'|b]]; [|done]. by intros [= <- _]. Qed.

Lemma text_column_returns {S} v (s s' : S) a : text_column v s = (s', inr a) → s' = s.
Proof. unfold text_column. destruct v; try done; by intros [= <- _]. Qed.

#[local] Abbreviation dkey t uri := (t, SOURCE, uri).

(** The live row of a source document. *)
Definition live (d : CatalogDb) (t uri : string) : option DocumentRow :=
  row ← cat_documents d !! dkey t uri;
  match dcr_deleted_at row with None => Some row | Some _ => None end.

Definition other_chunks (t id : string) (d : CatalogDb) : gmap string ChunkRow :=
  filter (fun kv => ¬ (ckr_document_id kv.2 = id ∧ ckr_tenant_id kv.2 = t)) (cat_chunks d).

(** What (re-)ingesting a document does to the catalog. *)
Definition ingested (t : string) (raw : RawDocument) (id : string) (d d' : CatalogDb) : Prop :=
  ∃ title lang rows,
    d' = d <| cat_documents ::= <[dkey t (raw_source_uri raw) :=
               MkDocumentRow id title (raw_content_hash raw) (raw_acl_group_ids raw) lang None]> |>
           <| cat_chunks := rows ∪ other_chunks t id d |> ∧
    rows ##ₘ other_chunks t id d ∧ chunk_rows t id raw rows ∧
    ((row_chunk ∘ snd) <$> map_to_list rows) ≡ₚ chunks_of settings raw ∧
    match cat_documents d !! dkey t (raw_source_uri raw) with
    | Some row => dcr_id row = id
    | None => id ∉ document_ids d
    end.

Lemma upsert_returns cand t uri title hash acl lang c c' id :
  upsert_document cand t SOURCE uri title hash acl lang c = (c', inr id) →
  c' = c <| cc_db ::= (fun d => d <| cat_documents ::= <[dkey t uri := MkDocumentRow id title hash acl lang None]> |>) |> ∧
  match cat_documents (cc_db c) !! dkey t uri with
  | Some row => dcr_id row = id
  | None => id ∉ document_ids (cc_db c)
  end.
Proof.
  unfold upsert_document. intros Hb. apply bind_returns in Hb as (c1 & [] & Hr & Hb).
  apply rls_check_returns in Hr as [-> Ht]. unfold bind, gets in Hb. cbn in Hb.
  destruct (cat_documents (cc_db c) !! _) as [row|].
  - by injection Hb as <- <-.
  - destruct (str_in cand _) eqn:Hin; [done|]. injection Hb as <- <-. split; [done|].
    by apply str_in_false.
Qed.

Lemma ingest_one_returns t raw s s' o :
  ingest_one_document settings t raw s = (s', inr o) →
  match o with
  | None => cs_db s' = cs_db s ∧ dcr_content_hash <$> live (cs_db s) t (raw_source_uri raw) = Some (raw_content_hash raw)
  | Some id => ingested t raw id (cs_db s) (cs_db s') ∧
      dcr_content_hash <$> live (cs_db s) t (raw_source_uri raw) ≠ Some (raw_content_hash raw)
  end.
Proof.
  intros Hs. apply session_returns in Hs as (c & Hb & Hdb). rewrite Hdb. clear Hdb.
  set (c0 := MkCatConn t (cs_db s) (cs_ext s)) in Hb.
  assert (Hh : get_document_hash t SOURCE (raw_source_uri raw) c0
               = (c0, inr (dcr_content_hash <$> live (cs_db s) t (raw_source_uri raw)))).
  { unfold get_document_hash, gets, c0, live. cbn. rewrite String.eqb_refl.
    destruct (cat_documents (cs_db s) !! _) as [row|]; [cbn|done]. by destruct (dcr_deleted_at row). }
  rewrite (bind_inr _ _ _ _ _ Hh) in Hb. case_bool_decide as Heq.
  { injection Hb as <- <-. done. }
  apply bind_returns in Hb as (c1 & cand & Hu & Hb).
  pose proof (cat_ext_keeps (uuid_id "doc_") c0) as [Hd1 Ht1]. rewrite Hu in Hd1, Ht1. cbn in Hd1, Ht1.
  apply bind_returns in Hb as (c2 & title & Hx & Hb). apply text_column_returns in Hx as ->.
  apply bind_returns in Hb as (c2 & lang & Hx & Hb). apply text_column_returns in Hx as ->.
  apply bind_returns in Hb as (c2 & id & Hx & Hb). apply upsert_returns in Hx as [-> Hid].
  apply bind_returns in Hb as (c2 & [] & Hx & Hb). injection Hx as <-. cbn in Hb.
  rewrite Hd1 in Hid. unfold ingested.
  destruct (chunks_of settings raw) as [|ch chunks] eqn:Hch.
  - injection Hb as <- <-. split; [|done]. exists title, lang, ∅. cbn. rewrite Hd1, Ht1.
    split; [by rewrite (left_id_L ∅ (∪))|]. split; [apply map_disjoint_empty_l|].
    split; [split; apply map_Forall_empty|]. rewrite map_to_list_empty. by split.
  - apply bind_returns in Hb as (c3 & embs & He & Hb).
    pose proof (cat_ext_keeps (embed settings (chk_content <$> ch :: chunks)) 
      (MkCatConn (cc_tenant c1) ((cc_db c1) <| cat_documents ::= <[dkey t (raw_source_uri raw) := MkDocumentRow id title (raw_content_hash raw) (raw_acl_group_ids raw) lang None]> |>
         <| cat_chunks ::= filter (fun kv => ¬ (ckr_document_id kv.2 = id ∧ ckr_tenant_id kv.2 = cc_tenant c1)) |>) (cc_ext c1))) as [Hd3 Ht3].
    unfold upd in Hd3, Ht3. cbn in Hd3, Ht3. cbn in He. rewrite He in Hd3, Ht3. cbn in Hd3, Ht3.
    apply bind_returns in Hb as (c4 & [] & Hi & Hb). injection Hb as <- <-.
    change (insert_chunks t raw lang id (ch :: chunks) embs c3 = (c4, inr ())) in Hi.
    apply insert_chunks_returns in Hi as (rows & Hdis & Hown & Hperm & _ & Hd4); [|congruence].
    split; [|done]. exists title, lang, rows. rewrite Hd3, Hd1, Ht1 in *. cbn in Hdis, Hd4.
    split; [exact Hd4|]. done.
Qed.

(** ** The chunk rows of a document *)

Definition doc_chunks (t id : string) (d : CatalogDb) : gmap string ChunkRow :=
  filter (fun kv => ckr_document_id kv.2 = id ∧ ckr_tenant_id kv.2 = t) (cat_chunks d).

(** A document is indexed when its rows are its chunks, under its groups. *)
Definition indexed (t : string) (raw : RawDocument) (id : string) (d : CatalogDb) : Prop :=
  ((row_chunk ∘ snd) <$> map_to_list (doc_chunks t id d)) ≡ₚ chunks_of settings raw ∧
  map_Forall (fun _ r => ckr_acl_group_ids r = raw_acl_group_ids raw ∧ ckr_deleted_at r = None)
    (doc_chunks t id d).

(** Primary keys are unique. *)
Definition unique_ids (d : CatalogDb) : Prop :=
  ∀ k1 k2 r1 r2, cat_documents d !! k1 = Some r1 → cat_documents d !! k2 = Some r2 →
    dcr_id r1 = dcr_id r2 → k1 = k2.

Lemma document_ids_in d k r : cat_documents d !! k = Some r → dcr_id r ∈ document_ids d.
Proof.
  intros Hk. unfold document_ids. apply list_elem_of_fmap. exists (k, r). split; [done|].
  by apply elem_of_map_to_list.
Qed.

(** The id of an ingested document belongs to no other row. *)
Lemma ingested_id_fresh t raw id d d' k r :
  unique_ids d → ingested t raw id d d' → cat_documents d !! k = Some r →
  k ≠ dkey t (raw_source_uri raw) → dcr_id r ≠ id.
Proof.
  intros Hu (title & lang & rows & _ & _ & _ & _ & Hid) Hk Hne Heq.
  destruct (cat_documents d !! dkey t (raw_source_uri raw)) as [row|] eqn:Hrow.
  - apply Hne. eapply Hu; [exact Hk|exact Hrow|congruence].
  - apply Hid. rewrite <- Heq. by eapply document_ids_in.
Qed.

Lemma ingested_unique t raw id d d' : unique_ids d → ingested t raw id d d' → unique_ids d'.
Proof.
  intros Hu Hing. pose proof Hing as (title & lang & rows & -> & _).
  intros k1 k2 r1 r2. cbn.
  destruct (decide (k1 = dkey t (raw_source_uri raw))) as [->|H1'];
    destruct (decide (k2 = dkey t (raw_source_uri raw))) as [->|H2']; [done| | |].
  - rewrite lookup_insert_eq, lookup_insert_ne by done. intros [= <-] Hk2 Heq. cbn in Heq.
    exfalso. by eapply (ingested_id_fresh t raw id d _ k2 r2 Hu Hing).
  - rewrite lookup_insert_eq, lookup_insert_ne by done. intros Hk1 [= <-] Heq. cbn in Heq.
    exfalso. by eapply (ingested_id_fresh t raw id d _ k1 r1 Hu Hing).
  - rewrite !lookup_insert_ne by done. apply Hu.
Qed.

Lemma ingested_indexed t raw id d d' : ingested t raw id d d' → indexed t raw id d'.
Proof.
  intros (title & lang & rows & -> & Hdis & [Hown] & Hperm & _).
  assert (Hrows : doc_chunks t id
    (d <| cat_documents ::= <[dkey t (raw_source_uri raw) := MkDocumentRow id title (raw_content_hash raw) (raw_acl_group_ids raw) lang None]> |>
       <| cat_chunks := rows ∪ other_chunks t id d |>) = rows).
  { unfold doc_chunks. cbn. rewrite map_filter_union by done.
    rewrite (map_filter_id _ rows) by (intros i x Hx; by apply Hown in Hx as (? & ? & _)).
    unfold other_chunks. rewrite map_filter_filter.
    rewrite (proj2 (map_empty_filter _ (cat_chunks d))); [by rewrite (right_id_L ∅ (∪))|].
    intros i x _ [? ?]. done. }
  unfold indexed. rewrite Hrows. split; [done|].
  intros i x Hx. by apply Hown in Hx as (_ & _ & ? & ?).
Qed.

Lemma ingested_doc_chunks t raw id d d' id' :
  ingested t raw id d d' → id' ≠ id → doc_chunks t id' d' = doc_chunks t id' d.
Proof.
  intros (title & lang & rows & -> & Hdis & [Hown] & _) Hne.
  unfold doc_chunks. cbn. rewrite map_filter_union by done.
  rewrite (proj2 (map_empty_filter _ rows)), (left_id_L ∅ (∪)).
  - unfold other_chunks. apply map_filter_filter_l. intros i x _ [-> _] [? _]. done.
  - intros i x Hx [Hid _]. apply Hown in Hx as (Hid' & _). cbn in *. congruence.
Qed.

Lemma ingested_keeps_indexed t raw id d d' raw' id' :
  ingested t raw id d d' → id' ≠ id → indexed t raw' id' d → indexed t raw' id' d'.
Proof. intros Hing Hne. unfold indexed. by rewrite (ingested_doc_chunks _ _ _ _ _ _ Hing Hne). Qed.

(** Rows of other tenants are out of reach. *)
Definition same_outside (t : string) (d d' : CatalogDb) : Prop :=
  (∀ k, k.1.1 ≠ t → cat_documents d' !! k = cat_documents d !! k) ∧
  (∀ cid r, ckr_tenant_id r ≠ t → cat_chunks d' !! cid = Some r ↔ cat_chunks d !! cid = Some r).

#[local] Instance same_outside_preorder t : PreOrder (same_outside t).
Proof.
  split; [by intros d|]. intros a b c [Hab Kab] [Hbc Kbc]. split.
  - intros k Hk. by rewrite Hbc, Hab.
  - intros cid r Hr. by rewrite Kbc, Kab.
Qed.

Lemma ingested_outside t raw id d d' : ingested t raw id d d' → same_outside t d d'.
Proof.
  intros (title & lang & rows & -> & Hdis & [Hown] & _). split; cbn.
  - intros k Hk. rewrite lookup_insert_ne; [done|]. intros <-. by apply Hk.
  - intros cid r Hr. rewrite lookup_union_Some by done. unfold other_chunks.
    rewrite map_lookup_filter_Some. split.
    + intros [Hx|[Hx _]]; [|done]. by apply Hown in Hx as (_ & ? & _).
    + intros Hx. right. split; [done|]. cbn. intros [_ ?]. done.
Qed.

(** ** The loop over the documents *)

(** One document of a loop that goes on: unchanged, or ingested. *)
Definition document_step (t : string) (d : CatalogDb) (raw : RawDocument) (o : option string)
    (d' : CatalogDb) : Prop :=
  match o with
  | None => d' = d ∧ dcr_content_hash <$> live d t (raw_source_uri raw) = Some (raw_content_hash raw)
  | Some id => ingested t raw id d d' ∧
      dcr_content_hash <$> live d t (raw_source_uri raw) ≠ Some (raw_content_hash raw)
  end.

Lemma ingest_one_raises t raw s s' e :
  ingest_one_document settings t raw s = (s', inl e) → cs_db s' = cs_db s.
Proof. apply session_raises. Qed.

(** A failed document has its error row refused: the run it names is not there yet. *)
Lemma ingestion_error_refused t run_id uri msg s s' u :
  cat_ingestion_runs (cs_db s) !! run_id = None →
  tenant_session t (
    let! error_id := cat_ext (uuid_id "ierr_") in
    insert_ingestion_error error_id run_id t uri msg) s ≠ (s', inr u).
Proof.
  intros Hr Hs. apply session_returns in Hs as (c & Hb & _).
  apply bind_returns in Hb as (c1 & cid & Hu & Hb).
  pose proof (cat_ext_keeps (uuid_id "ierr_") (MkCatConn t (cs_db s) (cs_ext s))) as [Hd1 _].
  rewrite Hu in Hd1. cbn in Hd1.
  unfold insert_ingestion_error in Hb. apply bind_returns in Hb as (c2 & [] & Hc & Hb).
  apply rls_check_returns in Hc as [-> _]. unfold bind, gets in Hb. cbn in Hb. rewrite Hd1, Hr in Hb.
  by destruct (cat_ingestion_errors (cs_db s) !! cid).
Qed.

Lemma ingest_step_returns t run_id p raw s s' p' :
  cat_ingestion_runs (cs_db s) !! run_id = None →
  ingest_step settings t run_id p raw s = (s', inr p') →
  ∃ o, document_step t (cs_db s) raw o (cs_db s') ∧
    p' = MkProgress (1 + pg_docs_seen p) (pg_errors p) (pg_seen_source_uris p ++ [raw_source_uri raw])
           (pg_changed_document_ids p ++ match o with Some id => [id] | None => [] end).
Proof.
  intros Hr. unfold ingest_step, try_except, bind at 1.
  destruct (ingest_one_document settings t raw s) as [s1 [e|o]] eqn:Hone.
  - intros Hs. exfalso. apply bind_returns in Hs as (s2 & [] & He & _).
    apply ingest_one_raises in Hone. apply ingestion_error_refused in He; [done|congruence].
  - cbn. intros [= <- <-]. exists o. apply ingest_one_returns in Hone.
    split; [by destruct o|]. destruct o; cbn; [done|by rewrite app_nil_r].
Qed.

(** No step writes a run row. *)
Lemma ingest_step_runs t run_id p raw s s' p' :
  ingest_step settings t run_id p raw s = (s', inr p') →
  cat_ingestion_runs (cs_db s') = cat_ingestion_runs (cs_db s).
Proof.
  unfold ingest_step, try_except, bind at 1.
  destruct (ingest_one_document settings t raw s) as [s1 [e|o]] eqn:Hone.
  - intros Hs. apply bind_returns in Hs as (s2 & [] & He & Hs). injection Hs as <- _.
    apply ingest_one_raises in Hone. rewrite <- Hone.
    apply session_returns in He as (c & Hb & ->). apply bind_returns in Hb as (c1 & cid & Hu & Hb).
    pose proof (cat_ext_keeps (uuid_id "ierr_") (MkCatConn t (cs_db s1) (cs_ext s1))) as [Hd1 _].
    rewrite Hu in Hd1. cbn in Hd1. unfold insert_ingestion_error in Hb.
    apply bind_returns in Hb as (c2 & [] & Hc & Hb). apply rls_check_returns in Hc as [-> _].
    unfold bind, gets in Hb. cbn in Hb. rewrite <- Hd1. repeat case_in Hb; try done. by injection Hb as <-.
  - cbn. intros [= <- <-]. apply ingest_one_returns in Hone. destruct o as [id|].
    + by destruct Hone as [(title & lang & rows & -> & _) _].
    + by destruct Hone as [-> _].
Qed.

Lemma document_step_runs t d raw o d' :
  document_step t d raw o d' → cat_ingestion_runs d' = cat_ingestion_runs d ∧ cat_now d' = cat_now d ∧
    cat_ingestion_errors d' = cat_ingestion_errors d.
Proof. destruct o as [id|]; [intros [(title & lang & rows & -> & _) _]; done|by intros [-> _]]. Qed.

Definition uris (raws : list RawDocument) : list string := raw_source_uri <$> raws.

(** A document whose live row does not have its hash. *)
Definition changed (t : string) (d0 : CatalogDb) (raw : RawDocument) : Prop :=
  dcr_content_hash <$> live d0 t (raw_source_uri raw) ≠ Some (raw_content_hash raw).
#[local] Instance changed_dec t d0 raw : Decision (changed t d0 raw).
Proof. unfold changed. apply _. Defined.

(** Where a document of the source stands after its turn. *)
Definition settled (t : string) (d0 d : CatalogDb) (raw : RawDocument) : Prop :=
  ∃ row, live d t (raw_source_uri raw) = Some row ∧ dcr_content_hash row = raw_content_hash raw ∧
    if decide (changed t d0 raw) then indexed t raw (dcr_id row) d
    else live d0 t (raw_source_uri raw) = Some row ∧
      doc_chunks t (dcr_id row) d = doc_chunks t (dcr_id row) d0.

(** The state of the loop after the documents [done]. *)
Record synced (t : string) (d0 : CatalogDb) (done : list RawDocument) (p : Progress) (d : CatalogDb)
    : Prop := {
  sy_unique : unique_ids d;
  sy_outside : same_outside t d0 d;
  sy_runs : cat_ingestion_runs d = cat_ingestion_runs d0 ∧ cat_ingestion_errors d = cat_ingestion_errors d0;
  sy_errors : pg_errors p = 0%Z;
  sy_seen : pg_docs_seen p = Z.of_nat (length done);
  sy_uris : pg_seen_source_uris p = uris done;
  sy_changed : length (pg_changed_document_ids p) = length (filter (changed t d0) done);
  sy_later uri : uri ∉ uris done → cat_documents d !! dkey t uri = cat_documents d0 !! dkey t uri;
  sy_later_chunks uri row : uri ∉ uris done → cat_documents d0 !! dkey t uri = Some row →
    doc_chunks t (dcr_id row) d = doc_chunks t (dcr_id row) d0;
  sy_done raw : raw ∈ done → settled t d0 d raw
}.

Lemma live_Some d t uri row :
  live d t uri = Some row ↔ cat_documents d !! dkey t uri = Some row ∧ dcr_deleted_at row = None.
Proof.
  unfold live. destruct (cat_documents d !! _) as [r|]; cbn; [|naive_solver].
  destruct (dcr_deleted_at r) eqn:Hr; naive_solver congruence.
Qed.

Lemma ingested_live t raw id d d' :
  ingested t raw id d d' → ∃ row, live d' t (raw_source_uri raw) = Some row ∧ dcr_id row = id ∧
    dcr_content_hash row = raw_content_hash raw.
Proof.
  intros (title & lang & rows & -> & _). eexists. split; [|split].
  - apply live_Some. cbn. by rewrite lookup_insert_eq.
  - done.
  - done.
Qed.

Lemma ingested_other t raw id d d' k :
  ingested t raw id d d' → k ≠ dkey t (raw_source_uri raw) → cat_documents d' !! k = cat_documents d !! k.
Proof. intros (title & lang & rows & -> & _) Hk. cbn. by rewrite lookup_insert_ne. Qed.

Lemma synced_step t d0 done p d raw o d' :
  raw_source_uri raw ∉ uris done → synced t d0 done p d → document_step t d raw o d' →
  synced t d0 (done ++ [raw])
    (MkProgress (1 + pg_docs_seen p) (pg_errors p) (pg_seen_source_uris p ++ [raw_source_uri raw])
       (pg_changed_document_ids p ++ match o with Some id => [id] | None => [] end)) d'.
Proof.
  intros Hnew Hs Hstep. pose proof (sy_later _ _ _ _ _ Hs _ Hnew) as Hrow.
  assert (Hlive : live d t (raw_source_uri raw) = live d0 t (raw_source_uri raw))
    by (unfold live; by rewrite Hrow).
  assert (Hlater : ∀ uri, uri ∉ uris (done ++ [raw]) → uri ∉ uris done ∧ uri ≠ raw_source_uri raw).
  { intros uri. unfold uris. rewrite fmap_app. set_solver. }
  assert (Hd : match o with Some id => changed t d0 raw | None => ¬ changed t d0 raw end).
  { unfold changed. rewrite <- Hlive. destruct o as [id|]; [by apply Hstep|].
    intros Hn. by apply Hn, Hstep. }
  pose proof (document_step_runs _ _ _ _ _ Hstep) as (Hruns & _ & Herrs).
  destruct Hs as [Huniq Hout [Hr1 Hr2] Herr Hseen Huris Hch Hl Hlc Hdone].
  destruct o as [id|].
  - destruct Hstep as [Hing _].
    assert (Hrow_ne : ∀ uri row, uri ≠ raw_source_uri raw → cat_documents d !! dkey t uri = Some row →
              dcr_id row ≠ id).
    { intros uri row Hne Hr. eapply ingested_id_fresh; [exact Huniq|exact Hing|exact Hr|congruence]. }
    split; cbn.
    + by eapply ingested_unique.
    + etrans; [exact Hout|by eapply ingested_outside].
    + split; congruence.
    + done.
    + rewrite length_app. cbn. lia.
    + unfold uris in *. rewrite fmap_app. cbn. congruence.
    + rewrite filter_app, !length_app, filter_cons_True by done. cbn. lia.
    + intros uri [Hu Hne]%Hlater. rewrite <- (Hl uri Hu). eapply ingested_other; [exact Hing|congruence].
    + intros uri row [Hu Hne]%Hlater Hr. rewrite <- (Hlc uri row Hu Hr).
      eapply ingested_doc_chunks; [exact Hing|]. apply (Hrow_ne uri); [done|]. by rewrite Hl.
    + intros raw' [Hin|Hin]%elem_of_app.
      * assert (Hne : raw_source_uri raw' ≠ raw_source_uri raw).
        { intros Heq. apply Hnew. rewrite <- Heq. unfold uris. by apply list_elem_of_fmap_2. }
        destruct (Hdone raw' Hin) as (row & Hlv & Hhash & Hcase). apply live_Some in Hlv as [Hlv Hdel].
        exists row. split; [apply live_Some; split; [|done];
          erewrite ingested_other; [exact Hlv|exact Hing|congruence]|]. split; [done|].
        pose proof (Hrow_ne _ _ Hne Hlv) as Hid.
        destruct (decide (changed t d0 raw')).
        -- by eapply ingested_keeps_indexed.
        -- destruct Hcase as [? Heq]. split; [done|]. rewrite <- Heq. by eapply ingested_doc_chunks.
      * apply list_elem_of_singleton in Hin as ->.
        destruct (ingested_live _ _ _ _ _ Hing) as (row & Hlv & <- & Hhash). exists row.
        split; [done|]. split; [done|]. rewrite decide_True by done. by eapply ingested_indexed.
  - destruct Hstep as [-> Hhash]. split; cbn; [done|done|done|done| | | | | |].
    + rewrite length_app. cbn. lia.
    + unfold uris in *. rewrite fmap_app. cbn. congruence.
    + rewrite filter_app, !length_app, filter_cons_False by done. cbn. lia.
    + intros uri [Hu _]%Hlater. by apply Hl.
    + intros uri row [Hu _]%Hlater. by apply Hlc.
    + intros raw' [Hin|Hin]%elem_of_app; [by apply Hdone|].
      apply list_elem_of_singleton in Hin as ->.
      rewrite fmap_Some in Hhash. destruct Hhash as (row & Hlv & Hh). exists row.
      split; [done|]. split; [done|]. rewrite decide_False by done. split; [congruence|].
      apply (Hlc (raw_source_uri raw)); [done|]. rewrite <- Hrow. by apply live_Some in Hlv as [? _].
Qed.

Lemma ingest_loop t run_id raws : ∀ done p s s' p' d0,
  cat_ingestion_runs d0 !! run_id = None → NoDup (uris (done ++ raws)) → synced t d0 done p (cs_db s) →
  foldM (ingest_step settings t run_id) p raws s = (s', inr p') →
  synced t d0 (done ++ raws) p' (cs_db s').
Proof.
  induction raws as [|raw raws IH]; intros done p s s' p' d0 Hr Hnd Hs; cbn.
  - intros [= <- <-]. by rewrite app_nil_r.
  - intros Hb. apply bind_returns in Hb as (s1 & p1 & Hstep & Hb).
    apply ingest_step_returns in Hstep as (o & Hstep & ->); [|by rewrite (proj1 (sy_runs _ _ _ _ _ Hs))].
    rewrite (cons_middle raw done raws), app_assoc in *.
    eapply IH; [exact Hr|exact Hnd| |exact Hb]. eapply synced_step; [|exact Hs|exact Hstep].
    unfold uris in *. rewrite !fmap_app in Hnd. apply NoDup_app in Hnd as (Hnd & _).
    apply NoDup_app in Hnd as (_ & Hnd & _). intros Hin. apply (Hnd _ Hin). cbn. set_solver.
Qed.

(** ** Tombstones *)

(** Tombstoning the documents [ids]. *)
Definition tombstoned (t : string) (ids : list string) (d : CatalogDb) : CatalogDb :=
  d <| cat_documents := map_imap (fun key row =>
         Some (if str_in (dcr_id row) ids && String.eqb key.1.1 t
               then row <| dcr_deleted_at := Some (cat_now d) |> else row)) (cat_documents d) |>
    <| cat_chunks := filter (fun kv => ¬ (ckr_document_id kv.2 ∈ ids ∧ ckr_tenant_id kv.2 = t)) (cat_chunks d) |>.

Lemma catalog_ext d d' :
  (∀ k, cat_documents d !! k = cat_documents d' !! k) → (∀ k, cat_chunks d !! k = cat_chunks d' !! k) →
  cat_ingestion_runs d = cat_ingestion_runs d' → cat_ingestion_errors d = cat_ingestion_errors d' →
  cat_now d = cat_now d' → d = d'.
Proof. destruct d, d'. cbn. intros Hd Hc -> -> ->. f_equal; by apply map_eq. Qed.

Lemma tombstoned_nil t d : tombstoned t [] d = d.
Proof.
  apply catalog_ext; cbn; try done; intros k.
  - rewrite map_lookup_imap. by destruct (cat_documents d !! k).
  - rewrite map_filter_id; [done|]. intros i x _ [? _]. set_solver.
Qed.

Lemma tombstone_one t id c :
  cc_tenant c = t →
  (tombstone id ;! delete_chunks_for_document id) c
  = (c <| cc_db := tombstoned t [id] (cc_db c) |>, inr ()).
Proof.
  intros <-. unfold tombstone, delete_chunks_for_document, bind, modify, upd. cbn. f_equal.
  destruct c as [t d x]. cbn. f_equal. apply catalog_ext; cbn; try done; intros k.
  - rewrite !map_lookup_imap. destruct (cat_documents d !! k) as [row|]; cbn; [by rewrite orb_false_r|done].
  - f_equal. apply map_filter_ext. intros i x' _. cbn. set_solver.
Qed.

Lemma tombstoned_app t ids ids' d :
  tombstoned t ids' (tombstoned t ids d) = tombstoned t (ids ++ ids') d.
Proof.
  apply catalog_ext; cbn; try done; intros k.
  - rewrite !map_lookup_imap. destruct (cat_documents d !! k) as [row|]; [|done]. cbn.
    unfold str_in. rewrite existsb_app.
    destruct (existsb (String.eqb (dcr_id row)) ids), (String.eqb k.1.1 t); cbn;
      rewrite ?andb_false_r, ?andb_true_r; try done;
      destruct (existsb (String.eqb (dcr_id row)) ids'); done.
  - rewrite map_filter_filter. f_equal. apply map_filter_ext. intros i x _. cbn. set_solver.
Qed.

Lemma tombstone_loop t seen rows : ∀ acc c,
  cc_tenant c = t →
  foldM (fun tombstoned '(document_id, source_uri) =>
    if str_in source_uri seen then ret tombstoned
    else
      tombstone document_id ;!
      delete_chunks_for_document document_id ;!
      ret (tombstoned ++ [document_id])) acc rows c =
  let ids := fst <$> filter (fun r => r.2 ∉ seen) rows in
  (c <| cc_db := tombstoned t ids (cc_db c) |>, inr (acc ++ ids)).
Proof.
  induction rows as [|[id uri] rows IH]; intros acc c Ht; cbv zeta; cbn [foldM].
  - cbn. rewrite tombstoned_nil, app_nil_r. by destruct c.
  - rewrite filter_cons. cbn [snd]. destruct (str_in uri seen) eqn:Hin.
    + apply str_in_spec in Hin. rewrite decide_False by tauto. unfold bind at 1. cbn. by apply IH.
    + apply str_in_false in Hin. rewrite decide_True by done.
      pose proof (tombstone_one t id c Ht) as Hone.
      rewrite !bind_assoc. unfold bind in Hone at 1. unfold bind at 1.
      destruct (tombstone id c) as [c1 [e|[]]]; [done|]. rewrite bind_assoc, (bind_inr _ _ _ _ _ Hone).
      unfold bind at 1. cbn. rewrite IH by (by destruct c). cbn.
      rewrite tombstoned_app. by rewrite <- app_assoc.
Qed.

Lemma live_documents_in t c id :
  cc_tenant c = t →
  ∀ seen : list string, id ∈ (fst <$> filter (fun r => r.2 ∉ seen) (live_documents t SOURCE c)) ↔
    ∃ uri row, uri ∉ seen ∧ live (cc_db c) t uri = Some row ∧ dcr_id row = id.
Proof.
  intros Ht seen. rewrite list_elem_of_fmap. unfold live_documents. split.
  - intros ([id' uri] & -> & Hin). apply list_elem_of_filter in Hin as [Hns Hin].
    apply list_elem_of_omap in Hin as ([[[t' s'] u'] row] & Hin & Hm).
    apply elem_of_map_to_list in Hin.
    destruct (str_eqb_spec t' t) as [->|]; [|done]. destruct (str_eqb_spec s' SOURCE) as [->|]; [|done].
    rewrite Ht, String.eqb_refl in Hm. cbn in Hm. destruct (dcr_deleted_at row) eqn:Hdel; [done|].
    injection Hm as <- <-. exists u', row. split; [done|]. split; [by apply live_Some|done].
  - intros (uri & row & Hns & [Hl Hdel]%live_Some & <-). exists (dcr_id row, uri). split; [done|].
    apply list_elem_of_filter. split; [done|]. apply list_elem_of_omap. exists (dkey t uri, row).
    split; [by apply elem_of_map_to_list|]. by rewrite !String.eqb_refl, Ht, String.eqb_refl, Hdel.
Qed.

Lemma tombstoned_outside t ids d : same_outside t d (tombstoned t ids d).
Proof.
  split; cbn.
  - intros k Hk. rewrite map_lookup_imap. destruct (cat_documents d !! k) as [row|]; [cbn|done].
    destruct (str_eqb_spec k.1.1 t); [done|]. by rewrite andb_false_r.
  - intros cid r Hr. rewrite map_lookup_filter_Some. cbn. split; [by intros [? _]|].
    intros Hc. split; [done|]. by intros [_ ?].
Qed.

Lemma tombstoned_unique t ids d : unique_ids d → unique_ids (tombstoned t ids d).
Proof.
  intros Hu k1 k2 r1 r2. cbn. rewrite !map_lookup_imap.
  destruct (cat_documents d !! k1) as [a|] eqn:Ha, (cat_documents d !! k2) as [b|] eqn:Hb; cbn; try done.
  intros [= <-] [= <-] Heq. eapply Hu; [exact Ha|exact Hb|].
  destruct (_ && _), (_ && _) in Heq; done.
Qed.

Lemma live_tombstoned t ids d uri :
  live (tombstoned t ids d) t uri =
  row ← live d t uri; if str_in (dcr_id row) ids then None else Some row.
Proof.
  unfold live. cbn. rewrite map_lookup_imap. destruct (cat_documents d !! _) as [row|]; [cbn|done].
  rewrite String.eqb_refl, andb_true_r. destruct (str_in (dcr_id row) ids) eqn:Hin; cbn.
  - destruct (dcr_deleted_at row); cbn; [done|by rewrite Hin].
  - destruct (dcr_deleted_at row); cbn; [done|by rewrite Hin].
Qed.

Lemma doc_chunks_tombstoned t ids d id :
  doc_chunks t id (tombstoned t ids d) = if decide (id ∈ ids) then ∅ else doc_chunks t id d.
Proof.
  unfold doc_chunks. cbn. destruct (decide (id ∈ ids)) as [Hin|Hin].
  - rewrite map_filter_filter. apply map_empty_filter. intros i x _ [[-> ->] Hn]. by apply Hn.
  - apply map_filter_filter_l. intros i x _ [-> _] [? _]. done.
Qed.

Lemma tombstoned_settled t ids d0 d raw :
  (∀ row, live d t (raw_source_uri raw) = Some row → dcr_id row ∉ ids) →
  settled t d0 d raw → settled t d0 (tombstoned t ids d) raw.
Proof.
  intros Hids (row & Hl & Hh & Hcase). pose proof (Hids row Hl) as Hn. exists row.
  rewrite live_tombstoned, Hl. cbn. rewrite (proj2 (str_in_false _ _) Hn).
  assert (Hc : doc_chunks t (dcr_id row) (tombstoned t ids d) = doc_chunks t (dcr_id row) d)
    by (by rewrite doc_chunks_tombstoned, decide_False).
  unfold indexed in *. by rewrite Hc.
Qed.

(** ** Chunks have owners *)

(** Every chunk of the tenant belongs to a live document of the source. *)
Definition owned (t : string) (d : CatalogDb) : Prop :=
  ∀ cid r, cat_chunks d !! cid = Some r → ckr_tenant_id r = t →
    ∃ uri row, live d t uri = Some row ∧ dcr_id row = ckr_document_id r.

Lemma ingested_owned t raw id d d' : ingested t raw id d d' → owned t d → owned t d'.
Proof.
  intros Hing Ho cid r Hr Ht.
  destruct (ingested_live _ _ _ _ _ Hing) as (new & Hnew & Hid & _).
  pose proof Hing as (title & lang & rows & Hd' & Hdis & [Hown] & _ & Hkey).
  rewrite Hd' in Hr. cbn in Hr. apply lookup_union_Some in Hr as [Hr|Hr]; [| |done].
  - apply Hown in Hr as (Hdoc & _). exists (raw_source_uri raw), new. split; [done|congruence].
  - apply map_lookup_filter_Some in Hr as [Hr _]. destruct (Ho cid r Hr Ht) as (uri & row & Hl & Hdoc).
    destruct (decide (uri = raw_source_uri raw)) as [->|Hne].
    + exists (raw_source_uri raw), new. split; [done|]. apply live_Some in Hl as [Hl _].
      rewrite Hl in Hkey. congruence.
    + exists uri, row. split; [|done]. apply live_Some in Hl as [Hl Hdel]. apply live_Some. split; [|done].
      erewrite ingested_other; [exact Hl|exact Hing|congruence].
Qed.

Lemma document_step_owned t d raw o d' : document_step t d raw o d' → owned t d → owned t d'.
Proof. destruct o; [intros [? _]; by eapply ingested_owned|by intros [-> _]]. Qed.

Lemma ingest_loop_owned t run_id raws p s s' p' :
  cat_ingestion_runs (cs_db s) !! run_id = None →
  foldM (ingest_step settings t run_id) p raws s = (s', inr p') →
  owned t (cs_db s) → owned t (cs_db s').
Proof.
  intros Hr Hloop Ho.
  apply (foldM_invariant (fun _ s => owned t (cs_db s) ∧ cat_ingestion_runs (cs_db s) !! run_id = None))
    in Hloop; [by apply Hloop| |done].
  intros b raw a a' b' _ [Ha Hra] Hstep. pose proof (ingest_step_runs _ _ _ _ _ _ _ Hstep) as Hruns.
  apply ingest_step_returns in Hstep as (o & Hstep & _); [|done].
  split; [by eapply document_step_owned|congruence].
Qed.

Lemma tombstoned_owned t ids d : owned t d → owned t (tombstoned t ids d).
Proof.
  intros Ho cid r Hr Ht. apply map_lookup_filter_Some in Hr as [Hr Hkeep]. cbn in Hkeep.
  destruct (Ho cid r Hr Ht) as (uri & row & Hl & Hdoc). exists uri, row. split; [|done].
  rewrite live_tombstoned, Hl. cbn. rewrite (proj2 (str_in_false _ _)); [done|]. rewrite Hdoc. tauto.
Qed.

(** ** A whole run *)

(** The tenant's filesystem documents are those of the source, [d0] being the
    catalog before. *)
Record mirrors (t : string) (raws : list RawDocument) (d0 d : CatalogDb) : Prop := {
  mr_settled raw : raw ∈ raws → settled t d0 d raw;
  mr_gone uri : uri ∉ uris raws → live d t uri = None ∧
    ∀ row, live d0 t uri = Some row → doc_chunks t (dcr_id row) d = ∅
}.

Lemma synced_mirrors t d0 raws p d c ids :
  synced t d0 raws p d → cc_tenant c = t → cc_db c = d →
  ids = fst <$> filter (fun r => r.2 ∉ pg_seen_source_uris p) (live_documents t SOURCE c) →
  mirrors t raws d0 (tombstoned t ids d).
Proof.
  intros Hs Ht Hd ->. rewrite (sy_uris _ _ _ _ _ Hs). split.
  - intros raw Hin. apply tombstoned_settled; [|by eapply sy_done].
    intros row Hl Hids. apply live_documents_in in Hids as (uri & row' & Hns & Hl' & Heq); [|done].
    rewrite Hd in Hl'. apply live_Some in Hl as [Hl _]. apply live_Some in Hl' as [Hl' _].
    assert (Hk := sy_unique _ _ _ _ _ Hs _ _ _ _ Hl' Hl Heq). injection Hk as ->.
    apply Hns. unfold uris. by apply list_elem_of_fmap_2.
  - intros uri Hns. rewrite live_tombstoned.
    assert (Hall : ∀ row, live d t uri = Some row →
      dcr_id row ∈ fst <$> filter (fun r => r.2 ∉ uris raws) (live_documents t SOURCE c)).
    { intros row Hl. apply live_documents_in; [done|]. exists uri, row. by rewrite Hd. }
    split.
    + destruct (live d t uri) as [row|] eqn:Hl; cbn; [|done].
      by rewrite (proj2 (str_in_spec _ _) (Hall row eq_refl)).
    + intros row Hl. rewrite doc_chunks_tombstoned, decide_True; [done|]. apply Hall.
      unfold live in *. by rewrite (sy_later _ _ _ _ _ Hs uri Hns).
Qed.

Lemma load_document_returns {S} file (s s' : S) raw :
  load_document file s = (s', inr raw) → s' = s ∧ raw_source_uri raw = "file://" +:+ file.1.
Proof.
  unfold load_document. intros Hb.
  apply bind_returns in Hb as (s1 & [meta body] & Hp & Hb).
  assert (s1 = s) as ->.
  { unfold parse_frontmatter in Hp. destruct (negb _); [by injection Hp as <- _|].
    destruct (str_partition "---" file.2 ≫= _) as [[m b]|]; [|by injection Hp as <- _].
    destruct (yaml_load m); [|done]. by injection Hp as <- _. }
  assert (Hj : ∀ k d v (a b : S), jget_default k d meta a = (b, inr v) → b = a).
  { intros k d v a b. unfold jget_default. destruct meta; try done. by intros [= <- _]. }
  assert (Ho : ∀ k v (a b : S), jget_opt k meta a = (b, inr v) → b = a).
  { intros k v a b. unfold jget_opt. destruct meta; try done. by intros [= <- _]. }
  apply bind_returns in Hb as (s1 & tid & Hx & Hb). apply Hj in Hx as ->.
  apply bind_returns in Hb as (s1 & groups & Hx & Hb).
  apply bind_returns in Hx as (s2 & v & Hx & Hi). apply Hj in Hx as ->.
  assert (s1 = s) as -> by (destruct v; try done; by injection Hi as <- _).
  apply bind_returns in Hb as (s1 & title & Hx & Hb). apply Ho in Hx as ->.
  apply bind_returns in Hb as (s1 & lang & Hx & Hb). apply Ho in Hx as ->.
  by injection Hb as <- <-.
Qed.

(** Reading the directory touches no state. *)
Lemma load_document_pure {S} file (s : S) : load_document file s = (s, (load_document file ()).2).
Proof.
  unfold load_document, parse_frontmatter, jget_default, jget_opt, py_iter, bind, ret, raise.
  repeat (case_goal; cbn); reflexivity.
Qed.

Lemma load_documents_pure {S} files (s : S) :
  load_filesystem_documents files s = (s, (load_filesystem_documents files ()).2).
Proof.
  unfold load_filesystem_documents. induction files as [|f files IH]; [done|]. cbn [map_each].
  unfold bind. rewrite (load_document_pure f s), (load_document_pure f ()), IH. cbn.
  destruct (load_document f ()).2 as [e|raw]; [done|]. destruct (map_each load_document files ()) as [[] [e|raws]]; done.
Qed.

Lemma load_documents_returns {S} files : ∀ (s s' : S) docs,
  load_filesystem_documents files s = (s', inr docs) →
  s' = s ∧ uris docs = (fun f => "file://" +:+ f.1) <$> files.
Proof.
  induction files as [|f files IH]; intros s s' docs.
  - by intros [= <- <-].
  - unfold load_filesystem_documents. cbn [map_each]. intros Hb.
    apply bind_returns in Hb as (s1 & raw & Hx & Hb). apply load_document_returns in Hx as [-> Hu].
    apply bind_returns in Hb as (s1 & raws & Hx & Hb). apply IH in Hx as [-> Hus].
    injection Hb as <- <-. split; [done|]. cbn. f_equal; [done|exact Hus].
Qed.

Lemma insert_run_returns run_id src t status a b e g c c' u :
  insert_ingestion_run run_id src t status a b e g c = (c', inr u) →
  cat_ingestion_runs (cc_db c) !! run_id = None ∧
  c' = c <| cc_db ::= (fun d => d <| cat_ingestion_runs ::=
         <[run_id := MkIngestionRunRow src t status a b e g (Some (cat_now d))]> |>) |>.
Proof.
  unfold insert_ingestion_run. intros Hb. apply bind_returns in Hb as (c1 & [] & Hr & Hb).
  apply rls_check_returns in Hr as [-> _]. unfold bind, gets in Hb. cbn in Hb.
  destruct (cat_ingestion_runs (cc_db c) !! run_id) eqn:Hn; [done|]. by injection Hb as <-.
Qed.

Lemma state_ext_keeps {A} (m : py X A) s : cs_db (state_ext m s).1 = cs_db s.
Proof. unfold state_ext, zoom. by destruct (m (cs_ext s)). Qed.

Lemma ext_returns {A} (m : py X A) s s' a : state_ext m s = (s', inr a) → cs_db s' = cs_db s.
Proof. intros Hm. pose proof (state_ext_keeps m s) as Hk. by rewrite Hm in Hk. Qed.

(** What a run that returns has done, its report and its run row included. *)
Definition run_outcome (t : string) (raws : list RawDocument) (d0 d : CatalogDb) (r : IngestionReport) : Prop :=
  mirrors t raws d0 d ∧ unique_ids d ∧ (owned t d0 → owned t d) ∧ same_outside t d0 d ∧
  cat_ingestion_errors d = cat_ingestion_errors d0 ∧
  rep_status r = "completed" ∧ rep_errors r = 0%Z ∧ rep_docs_seen r = Z.of_nat (length raws) ∧
  rep_docs_upserted r = Z.of_nat (length (filter (changed t d0) raws)) ∧
  cat_ingestion_runs d !! rep_run_id r =
    Some (MkIngestionRunRow SOURCE t "completed" (rep_docs_seen r) (rep_docs_upserted r)
            (rep_docs_deleted r) 0 (Some (cat_now d))).

(** The last session of a run: the tombstones and the run row. *)
Lemma close_run_returns t run_id status p s s' (gone : list string) :
  tenant_session t (
    let! tombstoned := tombstone_missing_documents t SOURCE (pg_seen_source_uris p) in
    insert_ingestion_run run_id SOURCE t status (pg_docs_seen p)
      (Z.of_nat (length (pg_changed_document_ids p))) (Z.of_nat (length tombstoned)) (pg_errors p) ;!
    ret tombstoned) s = (s', inr gone) →
  cat_ingestion_runs (cs_db s) !! run_id = None ∧
  gone = fst <$> filter (fun r => r.2 ∉ pg_seen_source_uris p)
           (live_documents t SOURCE (MkCatConn t (cs_db s) (cs_ext s))) ∧
  cs_db s' = (tombstoned t gone (cs_db s)) <| cat_ingestion_runs ::=
    <[run_id := MkIngestionRunRow SOURCE t status (pg_docs_seen p)
        (Z.of_nat (length (pg_changed_document_ids p))) (Z.of_nat (length gone)) (pg_errors p)
        (Some (cat_now (cs_db s)))]> |>.
Proof.
  intros Hs. apply session_returns in Hs as (c & Hb & Hd).
  apply bind_returns in Hb as (c1 & ids & Ht & Hb).
  unfold tombstone_missing_documents in Ht. unfold bind at 1, gets at 1 in Ht.
  rewrite (tombstone_loop t) in Ht by done. injection Ht as <- Hids. cbn in Hids.
  apply bind_returns in Hb as (c2 & [] & Hi & Hb). apply insert_run_returns in Hi as [Hnone ->].
  injection Hb as <- ->. cbn in Hnone, Hd. split; [done|]. split; [done|]. by rewrite Hd, <- Hids.
Qed.

Lemma run_returns t files s s' r :
  unique_ids (cs_db s) → NoDup files.*1 →
  run_filesystem_ingestion settings t files s = (s', inr r) →
  ∃ docs, (load_filesystem_documents files ()).2 = inr docs ∧
    run_outcome t (List.filter (fun d => String.eqb (raw_tenant_id d) t) docs) (cs_db s) (cs_db s') r.
Proof.
  intros Hu Hnd Hb. unfold run_filesystem_ingestion in Hb.
  apply bind_returns in Hb as (s1 & run_id & Hx & Hb). apply ext_returns in Hx as Hd1.
  apply bind_returns in Hb as (s2 & docs & Hload & Hb). rewrite load_documents_pure in Hload.
  injection Hload as <- Hload. exists docs. split; [done|].
  apply bind_returns in Hb as (s3 & p & Hloop & Hb).
  apply bind_returns in Hb as (s4 & gone & Hclose & Hb).
  apply bind_returns in Hb as (s5 & [] & Hinv & Hb). injection Hb as <- <-.
  apply ext_returns in Hinv as Hd5. apply close_run_returns in Hclose as (Hfree & Hgone & Hd4).
  set (raws := List.filter _ docs) in *.
  assert (Huris : NoDup (uris raws)).
  { assert (Hall : NoDup (uris docs)).
    { destruct (load_documents_returns files () () docs) as [_ ->].
      - by rewrite load_documents_pure, Hload.
      - replace ((fun f => "file://" +:+ f.1) <$> files) with ((fun n => "file://" +:+ n) <$> files.*1)
          by (by rewrite <- list_fmap_compose).
        apply NoDup_fmap_2_strong; [|done]. intros x y _ _. apply str_app_inj_l. }
    subst raws. unfold uris in *. clear -Hall. induction docs as [|d docs IH]; [constructor|].
    cbn in Hall. apply NoDup_cons in Hall as [Hd Hall]. cbn [List.filter].
    destruct (String.eqb _ t); [|by apply IH]. cbn. apply NoDup_cons. split; [|by apply IH].
    intros Hin. apply Hd. apply list_elem_of_fmap in Hin as (d' & -> & Hin).
    apply list_elem_of_fmap_2, list_elem_of_In. apply list_elem_of_In, filter_In in Hin. apply Hin. }
  assert (Hstart : synced t (cs_db s) [] (MkProgress 0 0 [] []) (cs_db s1)).
  { rewrite Hd1. split; try done. set_solver. }
  assert (Hruns : cat_ingestion_runs (cs_db s) !! run_id = None).
  { rewrite <- Hd1. rewrite <- Hfree.
    assert (Hk : cat_ingestion_runs (cs_db s3) = cat_ingestion_runs (cs_db s1)); [|by rewrite Hk].
    apply (foldM_invariant (fun _ s => cat_ingestion_runs (cs_db s) = cat_ingestion_runs (cs_db s1))
             _ _ _ _ _ _ (fun b x a a' b' _ Ha Hf => eq_trans (ingest_step_runs _ _ _ _ _ _ _ Hf) Ha)
             eq_refl Hloop). }
  apply (ingest_loop t run_id raws [] _ _ _ _ _ Hruns Huris Hstart) in Hloop as Hsync. cbn in Hsync.
  assert (Hmir : mirrors t raws (cs_db s) (tombstoned t gone (cs_db s3)))
    by (eapply synced_mirrors; [exact Hsync| | |exact Hgone]; done).
  destruct Hsync as [Hsu Hso [Hr1 Hr2] Herr Hseen _ Hch _ _ _]. unfold run_outcome. cbn.
  rewrite Herr. rewrite Hd5, Hd4, Herr. cbn.
  split; [destruct Hmir as [Hm1 Hm2]; by split|]. split; [exact (tombstoned_unique t gone (cs_db s3) Hsu)|].
  split; [intros Ho; apply (tombstoned_owned t gone (cs_db s3));
    apply (ingest_loop_owned t run_id raws _ _ _ _) in Hloop; [done|by rewrite Hd1|by rewrite Hd1]|].
  split; [etrans; [exact Hso|exact (tombstoned_outside t gone (cs_db s3))]|]. split; [done|]. split; [done|].
  split; [done|]. split; [done|]. split; [by rewrite Hch|].
  by rewrite lookup_insert_eq.
Qed.

(** C27: A run that returns has made the tenant's catalog the image of its source
    directory. Every document of the directory has a live row with its content
    hash; if its hash was new, its chunk rows are exactly the chunks of the file
    under the file's groups, otherwise row and chunks are as they were. A
    document no longer in the directory is tombstoned and has no chunks left. If
    every chunk belonged to a live document, every chunk still does. No row of
    another tenant changes. The run never reports an error: a document
    that fails does not leave "completed_with_errors" behind, it ends the run. *)
Theorem ingestion_mirrors_source t files s s' r :
  unique_ids (cs_db s) → NoDup files.*1 →
  run_filesystem_ingestion settings t files s = (s', inr r) →
  ∃ docs, (load_filesystem_documents files ()).2 = inr docs ∧
    run_outcome t (List.filter (fun d => String.eqb (raw_tenant_id d) t) docs) (cs_db s) (cs_db s') r.
Proof. apply run_returns. Qed.

(** One document that fails ends the run: its error row names a run row that is
    only written at the end, so the foreign key refuses it. Nothing the step did
    is kept, and the exception leaves the loop. *)
Theorem failed_document_aborts_run t run_id p raw raws s s1 e :
  cat_ingestion_runs (cs_db s) !! run_id = None →
  ingest_one_document settings t raw s = (s1, inl e) →
  ∃ s2 e', foldM (ingest_step settings t run_id) p (raw :: raws) s = (s2, inl e') ∧ cs_db s2 = cs_db s.
Proof.
  intros Hr Hone. cbn [foldM].
  assert (Hstep : ∃ s2 e', ingest_step settings t run_id p raw s = (s2, inl e') ∧ cs_db s2 = cs_db s).
  { unfold ingest_step, try_except. rewrite (bind_inl _ _ _ _ _ Hone).
    apply ingest_one_raises in Hone. rewrite <- Hone in *.
    match goal with |- context [bind (tenant_session t ?b) _ s1] =>
      pose proof (λ s' u, ingestion_error_refused t run_id (raw_source_uri raw) (exn_str e) s1 s' u Hr) as Hno;
      pose proof (λ s' x, session_raises t b s1 s' x) as Hkeep;
      destruct (tenant_session t b s1) as [s2 [e'|u]] eqn:Hs
    end.
    - rewrite (bind_inl _ _ _ _ _ Hs). exists s2, e'. split; [done|by eapply Hkeep].
    - by destruct (Hno s2 u). }
  destruct Hstep as (s2 & e' & Hstep & Hd). exists s2, e'. by rewrite (bind_inl _ _ _ _ _ Hstep).
Qed.
End Document.

(** ** A concrete run

    A model router that answers every text with the zero vector; a document
    already in the catalog is unchanged, one is new, one is gone. *)
Module Witness.
#[export] Instance env_http : HttpPost nat := fun svc path _ body n =>
  match svc, body with
  | ModelRouter, JObj [_; ("input", JArr texts)] =>
      (n, inr (MkHttpResponse 200 "" (JObj [("data", JArr ((fun _ => JObj [("embedding",
        JArr (repeat (JInt 0) EMBEDDING_DIM))]) <$> texts))]) []))
  | AgentHarness, _ => (n, inr (MkHttpResponse 200 "" (JObj []) []))
  | _, _ => (n, inl (HttpxTimeout "timed out"))
  end.
#[export] Instance env_uuid : Uuid nat := fun n => (S n, inr (Z_to_string (10000000000000000000000 + Z.of_nat n))).
#[export] Instance env_yaml : YamlLoad := fun _ =>
  Some (JObj [("tenant_id", JStr "tnt_a"); ("acl_group_ids", JArr [JStr "grp_hr"])]).
#[export] Instance env_repr : FloatRepr := fun _ => "0.0".
#[export] Instance env_sha : Sha256 := fun s => s.

Definition settings : IngestionSettings := MkIngestionSettings "sk" "embedding-default" 40 5.

Definition files : list (string * string) :=
  [("a.md", "--- m ---# Cuti"); ("b.md", "--- m ---# Gaji" +:+ newline +:+ "Gaji dibayar tiap bulan.")].

Definition kept_row : DocumentRow := MkDocumentRow "doc_a" None "# Cuti" ["grp_hr"] None None.
Definition old_row : DocumentRow := MkDocumentRow "doc_c" None "old" [] None None.
Definition other_row : DocumentRow := MkDocumentRow "doc_x" None "x" [] None None.
Definition old_chunk : ChunkRow := MkChunkRow "doc_c" "tnt_a" [] "old" [] None None None "old" None.

Definition start : CatState nat := MkCatState (MkCatalogDb
  (list_to_map [(("tnt_a", SOURCE, "file://a.md"), kept_row); (("tnt_a", SOURCE, "file://c.md"), old_row);
                (("tnt_b", SOURCE, "file://x.md"), other_row)])
  {[ "chk_c" := old_chunk ]} ∅ ∅ "t1") 0.

Definition final : CatState nat := (run_filesystem_ingestion settings "tnt_a" files start).1.
Definition report : IngestionReport := MkIngestionReport "ing_10000000000000000000" "completed" 2 1 1 0.

Lemma start_unique : unique_ids (cs_db start).
Proof.
  intros k1 k2 r1 r2. cbn [cs_db start cat_documents].
  intros H1%elem_of_list_to_map_2 H2%elem_of_list_to_map_2.
  repeat (apply elem_of_cons in H1 as [[= -> ->]|H1]); [..|by apply not_elem_of_nil in H1];
    (repeat (apply elem_of_cons in H2 as [[= -> ->]|H2]); [..|by apply not_elem_of_nil in H2]); done.
Qed.

Lemma ingestion_mirrors_source_witness :
  unique_ids (cs_db start) ∧ NoDup files.*1 ∧
  run_filesystem_ingestion settings "tnt_a" files start = (final, inr report) ∧
  ∃ docs, (load_filesystem_documents files ()).2 = inr docs ∧
    run_outcome settings "tnt_a" (List.filter (fun d => String.eqb (raw_tenant_id d) "tnt_a") docs)
      (cs_db start) (cs_db final) report.
Proof.
  assert (Hrun : run_filesystem_ingestion settings "tnt_a" files start = (final, inr report)).
  { rewrite (surjective_pairing (run_filesystem_ingestion settings "tnt_a" files start)).
    apply (f_equal2 pair); [reflexivity|vm_compute; reflexivity]. }
  assert (Hnd : NoDup files.*1) by (apply (bool_decide_unpack (NoDup files.*1)); vm_compute; exact I).
  exact (conj start_unique (conj Hnd (conj Hrun
    (ingestion_mirrors_source settings "tnt_a" files start final report start_unique Hnd Hrun)))).
Defined.
End Witness.
