(* ===== verification/Retrieval.v ===== *)
(** retrieval-service: its clients (clients/), the hybrid query
    (persistence/search.py) and the search orchestration (service.py), over the
    catalog (Catalog.v). *)
From S2P Require Import Prelude PyStr Json Http Contracts Catalog.

(** ** clients/infinity.py, clients/model_router.py *)

(* @ retrieval/config.py:6-32 Settings *)
Record RetrievalSettings := MkRetrievalSettings {
  rts_model_router_key : string;
  rts_embedding_model_alias : string;
  rts_rerank_model : string;
  rts_dense_candidates : nat;
  rts_sparse_candidates : nat;
  rts_fused_top_n : nat;
  rts_final_top_k : Z
}.

(** [a < b] on JSON values: numbers and strings; anything else is a
    [TypeError]. *)
Definition py_lt (a b : json) : option bool :=
  match a, b with
  | JInt x, JInt y => Some (x <? y)%Z
  | JInt x, JFloat y => Some (f64_ltb (f64_of_Z x) y)
  | JFloat x, JInt y => Some (f64_ltb x (f64_of_Z y))
  | JFloat x, JFloat y => Some (f64_ltb x y)
  | JStr x, JStr y => Some (String.ltb x y)
  | _, _ => None
  end.

Section Sorting.
  Context {S A : Type} (key : A → json).

(** [sorted(l, key=..., reverse=True)]: descending, equal keys in their order. *)
Fixpoint insert_desc (x : A) (l : list A) : py S (list A) :=
  match l with
  | [] => ret [x]
  | y :: l' =>
      match py_lt (key y) (key x) with
      | None => raise (TypeError "'<' not supported")
      | Some true => ret (x :: l)
      | Some false => let! rest := insert_desc x l' in ret (y :: rest)
      end
  end.

Definition sorted_desc (l : list A) : py S (list A) := foldM (fun acc x => insert_desc x acc) [] l.
End Sorting.

(** [int(v)]. *)
Definition py_int {S} (v : json) : py S Z :=
  match v with
  | JInt z => ret z
  | JBool b => ret (if b then 1 else 0)%Z
  | JFloat f => match f64_trunc f with Some z => ret z | None => raise (ValueError "cannot convert float") end
  | JStr s => match string_to_Z (str_strip s) with Some z => ret z | None => raise (ValueError "invalid literal for int()") end
  | _ => raise (TypeError "int() argument must be a string or a number")
  end.

(** [l[i]] on a list: a negative index counts from the end. *)
Definition py_nth {S A} (l : list A) (i : Z) : py S A :=
  let j := (if (i <? 0)%Z then Z.of_nat (length l) + i else i)%Z in
  match (if (0 <=? j)%Z then l !! Z.to_nat j else None) with
  | Some x => ret x
  | None => raise (OtherException "IndexError" "list index out of range")
  end.

(** [l[:n]]. *)
Definition py_take {A} (n : Z) (l : list A) : list A :=
  if (n <? 0)%Z then take (Z.to_nat (Z.of_nat (length l) + n)) l else take (Z.to_nat n) l.

Section Clients.
  Context {X : Type} `{HttpPost X}.
  Variable settings : RetrievalSettings.

(** The indices of the documents, best match first. *)
(* @ retrieval/clients/infinity.py:18-27 RerankClient.rerank *)
Definition rerank (query : string) (documents : list string) : py X (list Z) :=
  let! response := http_post Infinity "/rerank" []
    (JObj [("model", JStr (rts_rerank_model settings)); ("query", JStr query);
           ("documents", j_strs documents)]) in
  raise_for_status response ;!
  let! results := (let! v := jget "results" (hr_json response) in py_iter v) in
  let! keyed := map_each (fun r => let! k := jget "relevance_score" r in ret (k, r)) results in
  let! ordered := sorted_desc fst keyed in
  map_each (fun r => let! i := jget "index" r.2 in py_int i) ordered.

(* @ retrieval/clients/model_router.py:19-24 EmbeddingClient.embed_query *)
Definition embed_query (text : string) : py X (list json) :=
  let! response := http_post ModelRouter "/embeddings"
    [("Authorization", "Bearer " +:+ rts_model_router_key settings)]
    (JObj [("model", JStr (rts_embedding_model_alias settings)); ("input", j_strs [text])]) in
  raise_for_status response ;!
  let! data := jget "data" (hr_json response) in
  let! first := jhead data in
  let! vector := jget "embedding" first in
  py_iter vector.
End Clients.

(** ** persistence/search.py *)

(* @ retrieval/persistence/search.py:59-66 HybridSearchRow *)
Record HybridSearchRow := MkHybridSearchRow {
  hsr_chunk_id : string;
  hsr_document_id : string;
  hsr_content : string;
  hsr_section_path : option string;
  hsr_source_uri : option string;
  hsr_rrf_score : Z
}.
#[export] Instance eta_HybridSearchRow : EtaRec HybridSearchRow := fun x =>
  MkHybridSearchRow (hsr_chunk_id x) (hsr_document_id x) (hsr_content x) (hsr_section_path x)
    (hsr_source_uri x) (hsr_rrf_score x).

(* @ retrieval/persistence/search.py:69-70 vector_literal *)
Definition vector_literal `{FloatRepr} (values : list json) : string :=
  "[" +:+ str_join "," (json_repr <$> values) +:+ "]".

(** Two [SELECT id ... ORDER BY ... LIMIT n] over the rows that pass the WHERE
    clause, by pgvector's HNSW index and by PostgreSQL's text search: the ids in
    rank order. [None]: the literal is not a [vector(1024)]. *)
Class ChunkScans := {
  dense_scan : string → gmap string ChunkRow → nat → option (list string);
  sparse_scan : string → gmap string ChunkRow → nat → list string
}.

(** They return rows they were given, each once, and at most [n]. *)
Class ChunkScansLaws `{ChunkScans} : Prop := {
  dense_scan_spec qvec rows n ids : dense_scan qvec rows n = Some ids →
    NoDup ids ∧ (∀ id, id ∈ ids → is_Some (rows !! id)) ∧ (length ids ≤ n)%nat;
  sparse_scan_spec qtext rows n :
    NoDup (sparse_scan qtext rows n) ∧ (∀ id, id ∈ sparse_scan qtext rows n → is_Some (rows !! id)) ∧
    (length (sparse_scan qtext rows n) ≤ n)%nat
}.

(** [a && b] on text arrays. *)
Definition overlaps (a b : list string) : bool := existsb (fun x => str_in x b) a.

(** What row-level security and the WHERE clause let through. *)
(* @ retrieval/persistence/search.py:31-32 hybrid_search: the row filter *)
Definition visible (tenant_id : string) (acl : list string) (r : ChunkRow) : bool :=
  String.eqb (ckr_tenant_id r) tenant_id && overlaps (ckr_acl_group_ids r) acl &&
  match ckr_deleted_at r with None => true | Some _ => false end.

(** [1.0 / (60 + rank)], in units of [10^-20]: the quotient of two [numeric]s
    whose weights are zero has 20 decimals (for ranks below 9940). *)
Definition rrf_term (rank : nat) : Z :=
  let n := (60 + Z.of_nat rank)%Z in ((2 * 10 ^ 20 + n) / (2 * n))%Z.

(** [ROW_NUMBER()] counts from one. *)
Definition ranked (ids : list string) : list (string * nat) := imap (fun i id => (id, S i)) ids.

(** [GROUP BY id] with [SUM]. *)
Definition group_sum (u : list (string * nat)) : list (string * Z) :=
  (fun id => (id, sumZ ((fun e => rrf_term e.2) <$> filter (fun e => e.1 = id) u))) <$>
    remove_dups u.*1.

(** [ORDER BY rrf_score DESC] leaves ties open: here they keep their order. *)
Fixpoint insert_score (x : string * Z) (l : list (string * Z)) : list (string * Z) :=
  match l with
  | [] => [x]
  | y :: l' => if (y.2 <? x.2)%Z then x :: l else y :: insert_score x l'
  end.

Definition order_by_score (l : list (string * Z)) : list (string * Z) :=
  fold_left (fun acc x => insert_score x acc) l [].

Section Search.
  Context {X : Type} `{HttpPost X, FloatRepr, ChunkScans, PerfCounter X}.
  Variable settings : RetrievalSettings.
  Abbreviation C := (CatConn X).
  Abbreviation W := (CatState X).

(* @ retrieval/persistence/search.py:18-56 _HYBRID_QUERY *)
Definition hybrid_rows (tenant_id qvec qtext : string) (acl : list string) (n_cand n_out : nat)
    (d : CatalogDb) : option (list HybridSearchRow) :=
  let rows := filter (fun kv => visible tenant_id acl kv.2 = true) (cat_chunks d) in
  dense ← dense_scan qvec rows n_cand;
  let sparse := sparse_scan qtext rows n_cand in
  let fused := group_sum (ranked dense ++ ranked sparse) in
  Some (take n_out (omap (fun f =>
    row ← cat_chunks d !! f.1;
    if String.eqb (ckr_tenant_id row) tenant_id
    then Some (MkHybridSearchRow f.1 (ckr_document_id row) (ckr_content row) (ckr_section_path row)
                 (ckr_source_uri row) f.2)
    else None) (order_by_score fused))).

(* @ retrieval/persistence/search.py:73-109 hybrid_search *)
Definition hybrid_search (query_vector : list json) (query_text : string) (acl_group_ids : list string)
    (n_candidates n_out : nat) : py C (list HybridSearchRow) :=
  let! c := get_state in
  match hybrid_rows (cc_tenant c) (vector_literal query_vector) query_text acl_group_ids n_candidates
          n_out (cc_db c) with
  | Some rows => ret rows
  | None => raise (OtherException "DataError" "invalid input syntax for type vector")
  end.

(** ** service.py *)

(* @ retrieval/service.py:17-21 _estimate_tokens *)
Definition estimate_tokens (text : string) : Z := Z.max 1 (Z.of_nat (String.length text) / 4).

(* @ retrieval/service.py:24-32 _dedup_by_content *)
Definition dedup_by_content (rows : list HybridSearchRow) : list HybridSearchRow :=
  (fold_left (fun '(seen, deduped) row =>
     if str_in (hsr_content row) seen then (seen, deduped)
     else (hsr_content row :: seen, deduped ++ [row])) rows ([], [])).2.

Fixpoint assemble (rows assembled : list HybridSearchRow) (used max_context_tokens : Z)
    : list HybridSearchRow :=
  match rows with
  | [] => assembled
  | row :: rows' =>
      let cost := estimate_tokens (hsr_content row) in
      if negb (match assembled with [] => true | _ => false end) &&
         (max_context_tokens <? used + cost)%Z
      then assembled
      else assemble rows' (assembled ++ [row]) (used + cost) max_context_tokens
  end.

(* @ retrieval/service.py:35-48 _assemble_context *)
Definition assemble_context (rows : list HybridSearchRow) (max_context_tokens : Z)
    : list HybridSearchRow := assemble rows [] 0 max_context_tokens.

(** The contract wants a [source_uri]; the score becomes a float. *)
Definition retrieved_chunk {S} (row : HybridSearchRow) : py S RetrievedChunk :=
  match hsr_source_uri row with
  | None => raise (ValidationError "RetrievedChunk")
  | Some uri =>
      ret (MkRetrievedChunk (hsr_chunk_id row) (hsr_document_id row) (hsr_content row)
             (f64_ratio (hsr_rrf_score row) (Z.to_pos (10 ^ 20))) uri
             (match hsr_section_path row with
              | Some path => if String.eqb path "" then [] else [("section_path", JStr path)]
              | None => []
              end))
  end.

Definition on_ext {A} : py X A → py W A := zoom cs_ext (fun x s => s <| cs_ext := x |>).

(** The rerank step: the rows, and what was degraded. *)
Definition reranked (query : string) (rows : list HybridSearchRow)
    : py X (list HybridSearchRow * list string) :=
  try_except
    (let! order := rerank settings query (hsr_content <$> rows) in
     let! rows' := map_each (py_nth rows) order in
     ret (rows', []))
    (fun _ => Some (ret (rows, ["rerank"]))).

(* @ retrieval/service.py:51-100 search *)
Definition search (request : SearchRequest) : py W SearchResult :=
  let! query_vector := on_ext (embed_query settings (srq_query request)) in
  let! rows := tenant_session (srq_tenant_id request)
    (hybrid_search query_vector (srq_query request) (srq_acl_group_ids request)
       (Nat.max (rts_dense_candidates settings) (rts_sparse_candidates settings))
       (rts_fused_top_n settings)) in
  let rows := dedup_by_content rows in
  let! '(rows, degraded) :=
    (if srq_rerank request && negb (match rows with [] => true | _ => false end)
     then on_ext (reranked (srq_query request) rows)
     else ret (rows, [])) in
  let rows := py_take (if (srq_top_k request =? 0)%Z then rts_final_top_k settings
                       else srq_top_k request) rows in
  let rows := assemble_context rows (srq_max_context_tokens request) in
  let! chunks := map_each retrieved_chunk rows in
  let! latency_ms := on_ext elapsed_ms in
  ret (MkSearchResult chunks degraded latency_ms).
End Search.
