(* ===== verification/RetrievalProps.v ===== *)
(** What retrieval promises: a search only returns live chunks the caller may
    see, within its limits; a reranker outage costs the order and nothing else;
    and after an ingestion run, what it returns comes from the source documents. *)
From S2P Require Import Prelude PyStr Json Http Contracts Catalog Ingestion IngestionProps Retrieval.

(** ** Lists *)

Lemma map_each_returns {S A B} (f : A → py S B) (P : A → B → Prop) l : ∀ s s' ys,
  (∀ x s s' y, f x s = (s', inr y) → P x y) →
  map_each f l s = (s', inr ys) → Forall2 P l ys.
Proof.
  induction l as [|x l IH]; intros s s' ys Hf; cbn [map_each].
  - intros [= _ <-]. constructor.
  - intros Hb. apply bind_returns in Hb as (s1 & y & Hy & Hb).
    apply bind_returns in Hb as (s2 & ys' & Hys & Hb). injection Hb as _ <-.
    constructor; [by eapply Hf|by eapply IH].
Qed.

Lemma py_take_sublist {A} n (l : list A) : py_take n l `prefix_of` l.
Proof. unfold py_take. destruct (n <? 0)%Z; apply prefix_take. Qed.

Lemma py_take_length {A} n (l : list A) : (0 ≤ n)%Z → (Z.of_nat (length (py_take n l)) ≤ n)%Z.
Proof.
  intros Hn. unfold py_take. destruct (Z.ltb_spec n 0); [lia|]. rewrite length_take. lia.
Qed.

Lemma py_nth_in {S A} (l : list A) i (s s' : S) x : py_nth l i s = (s', inr x) → x ∈ l.
Proof.
  unfold py_nth. destruct (if (0 <=? _)%Z then _ else _) as [y|] eqn:Hy; [|done].
  intros [= _ <-]. destruct (0 <=? _)%Z in Hy; [|done]. by eapply list_elem_of_lookup_2.
Qed.

Lemma insert_score_perm x l : insert_score x l ≡ₚ x :: l.
Proof.
  induction l as [|y l IH]; cbn; [done|]. destruct (y.2 <? x.2)%Z; [done|]. rewrite IH. apply Permutation_swap.
Qed.

(** ** The context window *)

Definition tokens (rows : list HybridSearchRow) : Z := sumZ ((fun r => estimate_tokens (hsr_content r)) <$> rows).

Lemma tokens_app a b : tokens (a ++ b) = (tokens a + tokens b)%Z.
Proof. unfold tokens. by rewrite fmap_app, sumZ_app. Qed.

Lemma tokens_one row : tokens [row] = estimate_tokens (hsr_content row).
Proof. unfold tokens, sumZ. cbn. lia. Qed.

Lemma assemble_spec rows : ∀ kept used n,
  used = tokens kept → ((tokens kept ≤ n)%Z ∨ (length kept ≤ 1)%nat) →
  ∃ more rest, rows = more ++ rest ∧ assemble rows kept used n = kept ++ more ∧
    ((tokens (kept ++ more) ≤ n)%Z ∨ (length (kept ++ more) ≤ 1)%nat) ∧
    (∀ next rest', rest = next :: rest' → kept ++ more ≠ [] ∧ (n < tokens ((kept ++ more) ++ [next]))%Z).
Proof.
  induction rows as [|row rows IH]; intros kept used n Hu Hk; cbn [assemble].
  - exists [], []. rewrite (app_nil_r kept). split; [done|]. split; [done|]. split; [by subst|]. by intros ? ? ?.
  - destruct (negb _ && (n <? _)%Z) eqn:Hc.
    + apply andb_true_iff in Hc as [Hne Hlt]. exists [], (row :: rows). rewrite (app_nil_r kept).
      split; [done|]. split; [done|]. split; [done|]. intros next rest' [= <- <-].
      split; [by destruct kept|]. apply Z.ltb_lt in Hlt. cbn [app]. rewrite tokens_app, tokens_one, <- Hu. lia.
    + destruct (IH (kept ++ [row]) (used + estimate_tokens (hsr_content row))%Z n) as (more & rest & -> & Ha & Hb & Hr).
      * by rewrite tokens_app, tokens_one, Hu.
      * destruct kept as [|k kept]; [right; done|]. left. cbn in Hc. apply Z.ltb_ge in Hc.
        by rewrite tokens_app, tokens_one, <- Hu.
      * exists (row :: more), rest. rewrite Ha.
        assert (E : (kept ++ [row]) ++ more = kept ++ row :: more) by (by rewrite <- app_assoc).
        by rewrite E in *.
Qed.

(** The context is the longest prefix that fits, but never less than one row. *)
Lemma assemble_context_spec rows n :
  ∃ rest, rows = assemble_context rows n ++ rest ∧
    ((tokens (assemble_context rows n) ≤ n)%Z ∨ (length (assemble_context rows n) ≤ 1)%nat) ∧
    (∀ next rest', rest = next :: rest' →
       assemble_context rows n ≠ [] ∧ (n < tokens (assemble_context rows n ++ [next]))%Z).
Proof.
  destruct (assemble_spec rows [] 0 n) as (more & rest & Hrows & Ha & Hb & Hr); [done|by right; cbn; lia|].
  unfold assemble_context. rewrite Ha. by exists rest.
Qed.

(** ** Duplicates *)

Lemma dedup_spec rows : ∀ seen kept,
  let '(seen', kept') := fold_left (fun '(seen, deduped) row =>
     if str_in (hsr_content row) seen then (seen, deduped)
     else (hsr_content row :: seen, deduped ++ [row])) rows (seen, kept) in
  (∀ c, c ∈ seen ↔ c ∈ hsr_content <$> kept) → NoDup (hsr_content <$> kept) →
  NoDup (hsr_content <$> kept') ∧ (∀ r, r ∈ kept' → r ∈ kept ∨ r ∈ rows) ∧
  (∀ c, c ∈ hsr_content <$> kept' ↔ c ∈ hsr_content <$> kept ∨ c ∈ hsr_content <$> rows).
Proof.
  induction rows as [|row rows IH]; intros seen kept; cbn [fold_left].
  - intros _ Hnd. split; [done|]. split; [by left|]. set_solver.
  - destruct (str_in (hsr_content row) seen) eqn:Hin.
    + specialize (IH seen kept). destruct (fold_left _ rows _) as [seen' kept'].
      intros Hs Hnd. destruct (IH Hs Hnd) as (H1 & H2 & H3). apply str_in_spec, Hs in Hin.
      split; [done|]. split; [set_solver|]. intros c. rewrite H3. set_solver.
    + specialize (IH (hsr_content row :: seen) (kept ++ [row])). destruct (fold_left _ rows _) as [seen' kept'].
      intros Hs Hnd. apply str_in_false in Hin. rewrite fmap_app in IH. destruct IH as (H1 & H2 & H3).
      * intros c. rewrite elem_of_cons, elem_of_app, Hs. set_solver.
      * apply NoDup_app. split; [done|]. split; [set_solver|apply NoDup_singleton].
      * split; [done|]. split; [set_solver|]. intros c. rewrite H3. set_solver.
Qed.

Lemma dedup_by_content_spec rows :
  NoDup (hsr_content <$> dedup_by_content rows) ∧ (∀ r, r ∈ dedup_by_content rows → r ∈ rows) ∧
  (∀ c, c ∈ hsr_content <$> dedup_by_content rows ↔ c ∈ hsr_content <$> rows).
Proof.
  pose proof (dedup_spec rows [] []) as Hd. unfold dedup_by_content.
  destruct (fold_left _ rows _) as [seen' kept']. destruct Hd as (H1 & H2 & H3); [set_solver|constructor|].
  cbn. split; [done|]. split; [set_solver|set_solver].
Qed.

(** ** The hybrid query *)

Section Query.
  Context `{ChunkScansLaws}.

Lemma ranked_ids ids : (ranked ids).*1 = ids.
Proof.
  apply list_eq. intros i. unfold ranked. rewrite list_lookup_fmap, list_lookup_imap.
  by destruct (ids !! i).
Qed.

Lemma order_by_score_perm l : order_by_score l ≡ₚ l.
Proof.
  unfold order_by_score. assert (Hf : ∀ acc, fold_left (fun acc x => insert_score x acc) l acc ≡ₚ l ++ acc);
    [|by rewrite Hf, app_nil_r].
  induction l as [|x l IH]; intros acc; cbn; [done|]. rewrite IH, insert_score_perm. by rewrite Permutation_middle.
Qed.

Lemma fused_in id score u : (id, score) ∈ group_sum u → id ∈ u.*1.
Proof.
  unfold group_sum. intros (id' & Heq & Hin)%list_elem_of_fmap.
  injection Heq as -> _. exact (proj1 (elem_of_remove_dups _ _) Hin).
Qed.

(** A row of the query is a row of the table that row-level security and the
    WHERE clause let through. *)
Lemma hybrid_rows_visible t qvec qtext acl n_cand n_out d rows r :
  hybrid_rows t qvec qtext acl n_cand n_out d = Some rows → r ∈ rows →
  ∃ row, cat_chunks d !! hsr_chunk_id r = Some row ∧ visible t acl row = true ∧
    hsr_document_id r = ckr_document_id row ∧ hsr_content r = ckr_content row ∧
    hsr_source_uri r = ckr_source_uri row.
Proof.
  unfold hybrid_rows. intros Hq Hr. apply bind_Some in Hq as (dense & Hd & Hq). injection Hq as <-.
  apply (subseteq_take n_out) in Hr. apply list_elem_of_omap in Hr as ([id score] & Hin & Hrow).
  rewrite order_by_score_perm in Hin. apply fused_in in Hin. rewrite fmap_app, !ranked_ids in Hin.
  assert (Hv : is_Some (filter (fun kv => visible t acl kv.2 = true) (cat_chunks d) !! id)).
  { apply elem_of_app in Hin as [Hin|Hin].
    - by eapply (dense_scan_spec _ _ _ _ Hd).
    - by eapply (sparse_scan_spec qtext). }
  destruct Hv as [row Hv]. apply map_lookup_filter_Some in Hv as [Hrow' Hvis]. cbn in Hrow, Hvis.
  rewrite Hrow' in Hrow. cbn in Hrow. case_in Hrow; [|done]. injection Hrow as <-. cbn. by exists row.
Qed.
End Query.

(** ** A search *)

Section Search.
  Context {X : Type} `{HttpPost X, FloatRepr, ChunkScansLaws, PerfCounter X}.
  Variable settings : RetrievalSettings.
  Implicit Types (s : CatState X) (req : SearchRequest).

Definition n_candidates : nat := Nat.max (rts_dense_candidates settings) (rts_sparse_candidates settings).

Definition top_k req : Z := if (srq_top_k req =? 0)%Z then rts_final_top_k settings else srq_top_k req.

(** The rows that become the answer. *)
Definition answer_rows req (rows : list HybridSearchRow) : list HybridSearchRow :=
  assemble_context (py_take (top_k req) rows) (srq_max_context_tokens req).

Definition is_chunk_of (row : HybridSearchRow) (c : RetrievedChunk) : Prop :=
  rch_chunk_id c = hsr_chunk_id row ∧ rch_document_id c = hsr_document_id row ∧
  rch_content c = hsr_content row ∧ hsr_source_uri row = Some (rch_source_uri c).

Lemma on_ext_db {A} (m : py X A) s : cs_db (on_ext m s).1 = cs_db s.
Proof. unfold on_ext, zoom. by destruct (m (cs_ext s)). Qed.

Lemma reranked_spec query rows x x' r :
  reranked settings query rows x = (x', r) →
  ∃ rows' degraded, r = inr (rows', degraded) ∧ (∀ y, y ∈ rows' → y ∈ rows) ∧
    (degraded = [] ∨ degraded = ["rerank"] ∧ rows' = rows).
Proof.
  unfold reranked, try_except. intros Hr.
  match type of Hr with context [match ?m with _ => _ end] => destruct m as [x1 [e|[rows' degr]]] eqn:Hb end.
  - injection Hr as <- <-. exists rows, ["rerank"]. split; [done|]. split; [done|]. by right.
  - injection Hr as <- <-. apply bind_returns in Hb as (x2 & order & _ & Hb).
    apply bind_returns in Hb as (x3 & rows2 & Hm & Hb). injection Hb as _ <- <-. exists rows2, [].
    split; [done|]. split; [|by left].
    apply (map_each_returns _ (fun _ y => y ∈ rows)) in Hm;
      [|intros i s1 s2 y Hy; by eapply py_nth_in].
    intros y Hy. apply list_elem_of_lookup in Hy as [i Hy].
    destruct (Forall2_lookup_r _ _ _ _ _ Hm Hy) as (? & _ & ?). done.
Qed.

Lemma retrieved_chunk_returns {S} row (s s' : S) c : retrieved_chunk row s = (s', inr c) → is_chunk_of row c.
Proof. unfold retrieved_chunk, is_chunk_of. destruct (hsr_source_uri row) as [uri|] eqn:Hu; [|done]. by intros [= _ <-]. Qed.

(** How a search that returns got its answer. *)
Lemma search_returns req s s' res :
  search settings req s = (s', inr res) →
  ∃ qvec found rows,
    hybrid_rows (srq_tenant_id req) qvec (srq_query req) (srq_acl_group_ids req) n_candidates
      (rts_fused_top_n settings) (cs_db s) = Some found ∧
    (∀ r, r ∈ rows → r ∈ dedup_by_content found) ∧
    ((srq_rerank req = false ∨ srs_degraded res ≠ []) → rows = dedup_by_content found) ∧
    Forall2 is_chunk_of (answer_rows req rows) (srs_chunks res) ∧
    cs_db s' = cs_db s.
Proof.
  unfold search. intros Hb. apply bind_returns in Hb as (s1 & qv & Hq & Hb).
  pose proof (on_ext_db (embed_query settings (srq_query req)) s) as Hd1. rewrite Hq in Hd1. cbn in Hd1.
  apply bind_returns in Hb as (s2 & found & Hs & Hb).
  apply session_returns in Hs as (c & Hc & Hd2).
  unfold hybrid_search, bind at 1, get_state in Hc. cbn [cc_tenant cc_db] in Hc.
  destruct (hybrid_rows _ _ _ _ _ _ (cs_db s1)) as [found'|] eqn:Hrows; [|done].
  injection Hc as <- <-. cbn in Hd2. rewrite Hd1 in *.
  apply bind_returns in Hb as (s3 & [rows degr] & Hr & Hb).
  apply bind_returns in Hb as (s4 & chunks & Hm & Hb). 
  apply bind_returns in Hb as (s5 & ms & Hms & Hb). injection Hb as <- <-.
  exists (vector_literal qv), found', rows. split; [done|].
  assert (Hspec : cs_db s3 = cs_db s2 ∧ (∀ r, r ∈ rows → r ∈ dedup_by_content found') ∧
            ((srq_rerank req = false ∨ degr ≠ []) → rows = dedup_by_content found')).
  { destruct (srq_rerank req && _) eqn:Hcase.
    - unfold on_ext, zoom in Hr. destruct (reranked settings _ _ (cs_ext s2)) as [x r] eqn:Hre.
      injection Hr as <- ->. split; [done|].
      apply reranked_spec in Hre as (rows' & degr' & [= <- <-] & Hsub & Hdeg). split; [done|].
      apply andb_true_iff in Hcase as [Hrr _]. intros [?|Hne]; [congruence|]. destruct Hdeg as [?|[_ ?]]; done.
    - by injection Hr as <- <- <-. }
  destruct Hspec as (Hd3 & Hsub & Heq). split; [done|]. split; [done|]. split.
  - eapply map_each_returns; [|exact Hm]. intros row a b ch. apply retrieved_chunk_returns.
  - pose proof (on_ext_db elapsed_ms s4) as Hd5. rewrite Hms in Hd5. cbn in Hd5.
    rewrite Hd5. 
    assert (s4 = s3) as ->; [|congruence].
    clear -Hm. revert s3 s4 chunks Hm. unfold answer_rows.
    induction (assemble_context _ _) as [|row l IH]; intros s3 s4 chunks; cbn [map_each]; [by intros [= -> _]|].
    intros Hb. apply bind_returns in Hb as (s5 & y & Hy & Hb). apply bind_returns in Hb as (s6 & ys & Hl & Hb).
    apply IH in Hl as ->. injection Hb as <- _. unfold retrieved_chunk in Hy.
    destruct (hsr_source_uri row); by injection Hy as <- _.
Qed.

Lemma found_visible req s s' res :
  search settings req s = (s', inr res) →
  ∀ c, c ∈ srs_chunks res → ∃ row, cat_chunks (cs_db s) !! rch_chunk_id c = Some row ∧
    visible (srq_tenant_id req) (srq_acl_group_ids req) row = true ∧
    rch_document_id c = ckr_document_id row ∧ rch_content c = ckr_content row ∧
    ckr_source_uri row = Some (rch_source_uri c).
Proof.
  intros Hs. apply search_returns in Hs as (qvec & found & rows & Hq & Hsub & _ & Hch & _).
  intros c Hc. apply list_elem_of_lookup in Hc as [i Hc].
  destruct (Forall2_lookup_r _ _ _ _ _ Hch Hc) as (r & Hr & Hid & Hdoc & Htext & Huri).
  apply list_elem_of_lookup_2 in Hr. unfold answer_rows in Hr.
  destruct (assemble_context_spec (py_take (top_k req) rows) (srq_max_context_tokens req)) as (rest & Hpre & _).
  destruct (py_take_sublist (top_k req) rows) as [tail Htail].
  assert (Hin : r ∈ rows) by (rewrite Htail, Hpre; set_solver).
  apply Hsub, dedup_by_content_spec in Hin.
  destruct (hybrid_rows_visible _ _ _ _ _ _ _ _ _ Hq Hin) as (row & Hrow & Hvis & H1' & H2' & H3').
  exists row. rewrite Hid, Hdoc, Htext, <- H3'. done.
Qed.


Definition contents (res : SearchResult) : list string := rch_content <$> srs_chunks res.

(** The answer is a window on the ranked rows. There is a ranking of rows the
    query found such that the answer is a prefix of it, no longer than [top_k],
    within the token budget unless it is a single chunk, and the longest such
    one. Without reranking, or when the reranker failed and the answer says
    so, that ranking is the fused order, each text once. *)
Theorem search_window req s s' res :
  search settings req s = (s', inr res) →
  ∃ qvec found rows,
    hybrid_rows (srq_tenant_id req) qvec (srq_query req) (srq_acl_group_ids req) n_candidates
      (rts_fused_top_n settings) (cs_db s) = Some found ∧
    (∀ r, r ∈ rows → r ∈ found) ∧
    ((srq_rerank req = false ∨ srs_degraded res ≠ []) →
       rows = dedup_by_content found ∧ NoDup (contents res)) ∧
    ((0 ≤ top_k req)%Z → (Z.of_nat (length (srs_chunks res)) ≤ top_k req)%Z) ∧
    ∃ rest, py_take (top_k req) rows = answer_rows req rows ++ rest ∧
      contents res = hsr_content <$> answer_rows req rows ∧
      ((tokens (answer_rows req rows) ≤ srq_max_context_tokens req)%Z ∨ (length (srs_chunks res) ≤ 1)%nat) ∧
      (∀ next rest', rest = next :: rest' → srs_chunks res ≠ [] ∧
         (srq_max_context_tokens req < tokens (answer_rows req rows ++ [next]))%Z).
Proof.
  intros Hs. apply search_returns in Hs as (qvec & found & rows & Hq & Hsub & Hplain & Hch & Hd).
  exists qvec, found, rows. split; [done|].
  split; [intros r Hr; by apply dedup_by_content_spec, Hsub|].
  pose proof (Forall2_length _ _ _ Hch) as Hlen.
  assert (Hc : contents res = hsr_content <$> answer_rows req rows).
  { unfold contents. clear -Hch. induction Hch as [|r c rs cs Hrc _ IH]; [done|].
    cbn. destruct Hrc as (_ & _ & -> & _). by f_equal. }
  destruct (assemble_context_spec (py_take (top_k req) rows) (srq_max_context_tokens req))
    as (rest & Hpre & Hbudget & Hmax). fold (answer_rows req rows) in Hpre, Hbudget, Hmax.
  destruct (py_take_sublist (top_k req) rows) as [tail Htail].
  split; [|split].
  - intros Hcase. specialize (Hplain Hcase). split; [done|]. rewrite Hc.
    destruct (dedup_by_content_spec found) as [Hnd _]. rewrite <- Hplain, Htail, Hpre, !fmap_app in Hnd.
    apply NoDup_app in Hnd as (Hnd & _). by apply NoDup_app in Hnd as (? & _).
  - intros Hk. pose proof (py_take_length (top_k req) rows Hk) as Hl. rewrite Hpre, length_app in Hl. lia.
  - exists rest. split; [done|]. split; [done|]. rewrite <- Hlen. split; [done|].
    intros next rest' Hrest. destruct (Hmax next rest' Hrest) as [Hne Hover]. split; [|done].
    intros Hnil. rewrite Hnil in Hlen. by destruct (answer_rows req rows).
Qed.
End Search.

(** ** Ingestion, then search *)

Section Composition.
  Context {X : Type} `{HttpPost X, Uuid X, YamlLoad, FloatRepr, Sha256, ChunkScansLaws, PerfCounter X}.
  Variables (ist : IngestionSettings) (rts : RetrievalSettings).

Lemma overlaps_visible t acl row :
  visible t acl row = true → ckr_tenant_id row = t ∧ overlaps (ckr_acl_group_ids row) acl = true ∧
    ckr_deleted_at row = None.
Proof.
  unfold visible. intros Hv. apply andb_true_iff in Hv as [[Ht%String.eqb_eq Ho]%andb_true_iff Hdel].
  split; [done|]. split; [done|]. by destruct (ckr_deleted_at row).
Qed.

(** C28: What a search returns after an ingestion run comes from the source. If a
    run for the tenant has returned, every chunk a later search of that tenant
    returns belongs to a document that is in the source directory now, in its
    current version; and for a document this run (re-)indexed, the text is one
    of the chunks of the file and the file's own groups overlap the caller's:
    removed documents and removed text do not come back, nor do old groups. *)
Theorem search_after_ingestion t files s s1 r x req s2 res :
  unique_ids (cs_db s) → owned t (cs_db s) → NoDup files.*1 →
  run_filesystem_ingestion ist t files s = (s1, inr r) →
  srq_tenant_id req = t →
  search rts req (MkCatState (cs_db s1) x) = (s2, inr res) →
  ∃ docs, (load_filesystem_documents files ()).2 = inr docs ∧
    ∀ c, c ∈ srs_chunks res → ∃ raw row, raw ∈ docs ∧ raw_tenant_id raw = t ∧
      live (cs_db s1) t (raw_source_uri raw) = Some row ∧ rch_document_id c = dcr_id row ∧
      dcr_content_hash row = raw_content_hash raw ∧
      (changed t (cs_db s) raw →
         rch_content c ∈ chk_content <$> chunks_of ist raw ∧
         overlaps (raw_acl_group_ids raw) (srq_acl_group_ids req) = true).
Proof.
  intros Hu Ho Hnd Hrun Ht Hsearch.
  destruct (run_returns ist t files s s1 r Hu Hnd Hrun) as (docs & Hload & Hout).
  exists docs. split; [done|]. intros c Hc.
  destruct Hout as (Hmir & _ & Hown & _). specialize (Hown Ho).
  destruct (found_visible rts req _ _ _ Hsearch c Hc) as (crow & Hrow & Hvis & Hdoc & Htext & _).
  apply overlaps_visible in Hvis as (Htenant & Hacl & _). cbn in Hrow. rewrite Ht in Htenant.
  destruct (Hown _ _ Hrow Htenant) as (uri & row & Hl & Hid).
  assert (Huri : uri ∈ uris (List.filter (fun d => String.eqb (raw_tenant_id d) t) docs)).
  { destruct (decide (uri ∈ uris (List.filter (fun d => String.eqb (raw_tenant_id d) t) docs))) as [|Hn]; [done|].
    apply (mr_gone _ _ _ _ _ Hmir) in Hn as [Hn _]. congruence. }
  apply list_elem_of_fmap in Huri as (raw & -> & Hraw).
  destruct (mr_settled _ _ _ _ _ Hmir raw Hraw) as (row' & Hl' & Hhash & Hcase).
  rewrite Hl in Hl'. injection Hl' as <-.
  apply list_elem_of_In, filter_In in Hraw as [Hraw%list_elem_of_In Hrt%String.eqb_eq].
  exists raw, row. do 5 (split; [done || congruence|]). intros Hch. rewrite decide_True in Hcase by done.
  destruct Hcase as [Hperm Hall].
  assert (Hin : doc_chunks t (dcr_id row) (cs_db s1) !! rch_chunk_id c = Some crow)
    by (apply map_lookup_filter_Some; split; [done|by split]).
  split.
  - rewrite Htext. apply list_elem_of_fmap. exists (row_chunk crow). split; [done|]. rewrite <- Hperm.
    apply list_elem_of_fmap. exists (rch_chunk_id c, crow). split; [done|]. by apply elem_of_map_to_list.
  - apply Hall in Hin as [<- _]. done.
Qed.
End Composition.

(** ** At a concrete catalog

    Both scans return every row they are given, in key order. *)
Module Witness.
Export IngestionProps.Witness.
#[export] Instance demo_scans : ChunkScans := {|
  dense_scan _ rows n := Some (take n (map_to_list rows).*1);
  sparse_scan _ rows n := [] |}.
#[export] Instance demo_scans_laws : ChunkScansLaws.
Proof.
  split.
  - intros qvec rows n ids [= <-]. split; [|split].
    + pose proof (NoDup_fst_map_to_list rows) as Hnd. rewrite <- (take_drop n) in Hnd. by apply NoDup_app in Hnd as (? & _).
    + intros id Hin. apply (subseteq_take n), list_elem_of_fmap in Hin as ([k row] & -> & Hin).
      apply elem_of_map_to_list in Hin. by eexists.
    + rewrite length_take. lia.
  - intros qtext rows n. split; [constructor|]. split; [set_solver|cbn; lia].
Qed.
#[export] Instance demo_counter : PerfCounter nat := fun n => (n, inr 3%Z).

Definition rts : RetrievalSettings := MkRetrievalSettings "sk" "embedding-default" "bge" 50 50 20 8.

Definition request : SearchRequest :=
  MkSearchRequest "trc_1" "tnt_a" ["grp_hr"] "gaji" 0 [] true 4000.

Definition after : CatState nat := MkCatState (cs_db final) 9.
Definition answer : exn + SearchResult := (search rts request after).2.
Definition found_ : SearchResult :=
  match answer with inr r => r | inl _ => MkSearchResult [] [] 0 end.

(** The reranker is down: the answer says so, and still has the new document. *)
Example answer_value :
  contents found_ = ["Gaji dibayar tiap bulan."] ∧ srs_degraded found_ = ["rerank"].
Proof. vm_compute. by split. Qed.

Lemma search_run : search rts request after = ((search rts request after).1, inr found_).
Proof.
  rewrite (surjective_pairing (search rts request after)) at 1. apply (f_equal2 pair); [reflexivity|].
  vm_compute. reflexivity.
Qed.


Lemma search_window_witness :
  ∃ qvec found rows,
    hybrid_rows (srq_tenant_id request) qvec (srq_query request) (srq_acl_group_ids request)
      (n_candidates rts) (rts_fused_top_n rts) (cs_db after) = Some found ∧
    (∀ r, r ∈ rows → r ∈ found) ∧
    ((srq_rerank request = false ∨ srs_degraded found_ ≠ []) →
       rows = dedup_by_content found ∧ NoDup (contents found_)) ∧
    ((0 ≤ top_k rts request)%Z → (Z.of_nat (length (srs_chunks found_)) ≤ top_k rts request)%Z) ∧
    ∃ rest, py_take (top_k rts request) rows = answer_rows rts request rows ++ rest ∧
      contents found_ = hsr_content <$> answer_rows rts request rows ∧
      ((tokens (answer_rows rts request rows) ≤ srq_max_context_tokens request)%Z ∨
       (length (srs_chunks found_) ≤ 1)%nat) ∧
      (∀ next rest', rest = next :: rest' → srs_chunks found_ ≠ [] ∧
         (srq_max_context_tokens request < tokens (answer_rows rts request rows ++ [next]))%Z).
Proof. exact (search_window rts request after _ found_ search_run). Defined.

Lemma start_owned : owned "tnt_a" (cs_db start).
Proof.
  intros cid r Hr _. cbn in Hr. apply lookup_singleton_Some in Hr as [<- <-].
  exists "file://c.md", old_row. split; [vm_compute; reflexivity|done].
Qed.

Lemma files_nodup : NoDup files.*1.
Proof. apply (bool_decide_unpack (NoDup files.*1)). vm_compute. exact I. Qed.

Lemma ingestion_run : run_filesystem_ingestion settings "tnt_a" files start = (final, inr report).
Proof.
  rewrite (surjective_pairing (run_filesystem_ingestion settings "tnt_a" files start)).
  apply (f_equal2 pair); [reflexivity|vm_compute; reflexivity].
Qed.

Lemma search_after_ingestion_witness :
  ∃ docs, (load_filesystem_documents files ()).2 = inr docs ∧
    ∀ c, c ∈ srs_chunks found_ → ∃ raw row, raw ∈ docs ∧ raw_tenant_id raw = "tnt_a" ∧
      live (cs_db final) "tnt_a" (raw_source_uri raw) = Some row ∧ rch_document_id c = dcr_id row ∧
      dcr_content_hash row = raw_content_hash raw ∧
      (changed "tnt_a" (cs_db start) raw →
         rch_content c ∈ chk_content <$> chunks_of settings raw ∧
         overlaps (raw_acl_group_ids raw) (srq_acl_group_ids request) = true).
Proof.
  exact (search_after_ingestion settings rts "tnt_a" files start final report 9 request _ found_
    start_unique start_owned files_nodup ingestion_run eq_refl search_run).
Defined.
End Witness.
