(* ===== verification/MockIdp.v ===== *)
(** mock-idp: the user directory (state.py), the tokens it mints and verifies
    (tokens.py) and its endpoints (main.py). *)
From S2P Require Import Prelude PyStr Json Http.

(** ** JSON Web Tokens

    PyJWT with HS256, shared by the issuer and by the services that verify
    locally: [jwt_encode payload key], and [jwt_verify token key issuer audience
    now], which answers the payload or an [InvalidTokenError]. *)
Class JwtCodec := {
  jwt_encode : pydict → string → string;
  jwt_verify : string → string → string → option string → float64 → exn + pydict
}.

(** The claim sets the laws speak of: times in whole seconds, a subject that is a
    string, and no claim PyJWT would check further. *)
Definition plain_claims (claims : pydict) : bool :=
  let whole k := match dict_get k claims with None | Some (JInt _) => true | _ => false end in
  json_plain (JObj claims) && whole "exp" && whole "iat" &&
  match dict_get "sub" claims with None | Some (JStr _) => true | _ => false end &&
  negb (dict_mem "nbf" claims) && negb (dict_mem "jti" claims).

(** The audience: one must match when one is expected, none may be there when
    none is. *)
Definition audience_ok (audience : option string) (claims : pydict) : bool :=
  let aud := from_option id JNull (dict_get "aud" claims) in
  match audience with
  | None => negb (truthy aud)
  | Some a =>
      truthy aud &&
      match aud with
      | JStr s => String.eqb s a
      | JArr l => forallb (fun v => match v with JStr _ => true | _ => false end) l &&
                  existsb (fun v => json_in_strs v [a]) l
      | _ => false
      end
  end.

Definition claim_time (k : string) (claims : pydict) : option float64 :=
  match dict_get k claims with Some (JInt z) => Some (f64_of_Z z) | _ => None end.

(** What PyJWT checks besides the signature: issuer, audience, expiry and the
    time of issue. *)
Definition registered_claims_ok (issuer : string) (audience : option string) (now : float64)
    (claims : pydict) : bool :=
  bool_decide (dict_get "iss" claims = Some (JStr issuer)) && audience_ok audience claims &&
  match claim_time "exp" claims with Some exp => f64_ltb now exp | None => true end &&
  match claim_time "iat" claims with Some iat => f64_leb iat now | None => true end.

Class JwtCodecLaws `{JwtCodec} : Prop := {
  jwt_verify_ok claims key issuer audience now :
    plain_claims claims = true → registered_claims_ok issuer audience now claims = true →
    jwt_verify (jwt_encode claims key) key issuer audience now = inr claims;
  jwt_verify_bad claims key issuer audience now :
    plain_claims claims = true → registered_claims_ok issuer audience now claims = false →
    ∃ msg, jwt_verify (jwt_encode claims key) key issuer audience now = inl (InvalidTokenError msg)
}.

(** A concrete codec: the token is the text of the key and the claims. *)
Definition coded_jwt : JwtCodec := {|
  jwt_encode claims key := @json_text coded_text (JArr [JStr key; JObj claims]);
  jwt_verify token key issuer audience now :=
    match @json_parse coded_text token with
    | Some (JArr [JStr k; JObj claims]) =>
        if String.eqb k key && registered_claims_ok issuer audience now claims
        then inr claims else inl (InvalidTokenError "not valid")
    | _ => inl (InvalidTokenError "not a token")
    end |}.

Lemma coded_verify claims key issuer audience now :
  @jwt_verify coded_jwt (@jwt_encode coded_jwt claims key) key issuer audience now =
  if registered_claims_ok issuer audience now claims then inr claims
  else inl (InvalidTokenError "not valid").
Proof.
  unfold jwt_verify, jwt_encode, coded_jwt. unfold json_parse, json_text, coded_text.
  rewrite string_to_Z_to_string, decode_encode, String.eqb_refl. done.
Qed.

#[export] Instance coded_jwt_laws : @JwtCodecLaws coded_jwt.
Proof.
  split; intros claims key issuer audience now _ Hok; rewrite coded_verify, Hok; [done|by eexists].
Qed.

(** ** config.py *)

(* @ mock_idp/config.py:8-32 Settings *)
Record IdpSettings := MkIdpSettings {
  ips_jwt_signing_secret : string;
  ips_jwt_issuer : string;
  ips_login_token_ttl_seconds : float64;
  ips_exchange_token_ttl_seconds : float64;
  ips_eval_tenant_ids : string
}.

(* @ mock_idp/config.py:30-32 Settings.eval_tenant_id_set *)
Definition eval_tenant_id_set (settings : IdpSettings) : list string :=
  List.filter (fun t => negb (String.eqb t ""))
    (str_strip <$> str_split_on "," (ips_eval_tenant_ids settings)).

(** ** state.py *)

Abbreviation UserDirectory := (list (string * json)).

(** [{u["user_id"]: u for u in data["users"]}], [data] the loaded YAML; an id that is
    not a string can never be looked up. *)
(* @ mock_idp/state.py:21-23 UserDirectory._load *)
Definition load_directory {S} (data : json) : py S UserDirectory :=
  let! users := (let! v := jget "users" data in py_iter v) in
  foldM (fun directory u =>
    let! id := jget "user_id" u in
    ret (match id with JStr k => dict_set k u directory | _ => directory end)) [] users.

(* @ mock_idp/state.py:25-26 UserDirectory.get *)
Definition directory_get (directory : UserDirectory) (user_id : string) : option json :=
  dict_get user_id directory.

(** ** tokens.py *)

(** [int(x)] of a float that is finite. *)
Definition int_of_float {S} (x : float64) : py S Z :=
  match f64_trunc x with Some z => ret z | None => raise (ValueError "cannot convert float to integer") end.

Definition invalid_token {S A} (prefix : string) (r : exn + A) : py S A :=
  match r with
  | inr claims => ret claims
  | inl (InvalidTokenError msg) => raise (TokenError (prefix +:+ msg))
  | inl e => raise e
  end.

Section Idp.
  Context {X : Type} `{WallClock X, JwtCodec}.
  Variable settings : IdpSettings.

Definition login_claims (user : json) (now ttl : Z) : py X pydict :=
  let! sub := jget "user_id" user in
  let! tenant_id := jget "tenant_id" user in
  let! employee_id := jget_opt "employee_id" user in
  let! role := jget "role" user in
  let! permissions := jget_default "permissions" (JArr []) user in
  let! scope_context := jget_default "scope_context" (JObj []) user in
  let! acl_group_ids := jget_default "acl_group_ids" (JArr []) user in
  ret [("iss", JStr (ips_jwt_issuer settings)); ("sub", sub); ("tenant_id", tenant_id);
       ("employee_id", employee_id); ("roles", JArr [role]); ("permissions", permissions);
       ("scope_context", scope_context); ("acl_group_ids", acl_group_ids);
       ("iat", JInt now); ("exp", JInt (now + ttl))].

(* @ mock_idp/tokens.py:23-38 mint_login_token *)
Definition mint_login_token (user : json) : py X (string * Z) :=
  let! now := (let! t := time_time in int_of_float t) in
  let! ttl := int_of_float (ips_login_token_ttl_seconds settings) in
  let! payload := login_claims user now ttl in
  ret (jwt_encode payload (ips_jwt_signing_secret settings), ttl).

(* @ mock_idp/tokens.py:41-48 verify_subject_token *)
Definition verify_subject_token (token : string) : py X pydict :=
  let! now := time_time in
  invalid_token "invalid subject_token: "
    (jwt_verify token (ips_jwt_signing_secret settings) (ips_jwt_issuer settings) None now).

(* @ mock_idp/tokens.py:56-69 mint_exchange_token: the payload *)
Definition exchange_claims (subject_claims : pydict) (audience scope : string) (now ttl : Z) : py X pydict :=
  let! sub := jget "sub" (JObj subject_claims) in
  let! tenant_id := jget "tenant_id" (JObj subject_claims) in
  let! employee_id := jget_opt "employee_id" (JObj subject_claims) in
  ret [("iss", JStr (ips_jwt_issuer settings)); ("sub", sub); ("tenant_id", tenant_id);
       ("employee_id", employee_id); ("aud", JStr audience); ("scope", JStr scope);
       ("iat", JInt now); ("exp", JInt (now + ttl))].

(* @ mock_idp/tokens.py:51-70 mint_exchange_token *)
Definition mint_exchange_token (subject_claims : pydict) (audience scope : string) : py X (string * Z) :=
  let! now := (let! t := time_time in int_of_float t) in
  let! ttl := int_of_float (ips_exchange_token_ttl_seconds settings) in
  let! payload := exchange_claims subject_claims audience scope now ttl in
  ret (jwt_encode payload (ips_jwt_signing_secret settings), ttl).

(* @ mock_idp/tokens.py:73-88 verify_exchange_token *)
Definition verify_exchange_token (token audience : string) : py X pydict :=
  let! now := time_time in
  invalid_token "invalid access_token: "
    (jwt_verify token (ips_jwt_signing_secret settings) (ips_jwt_issuer settings) (Some audience) now).

(** ** main.py *)

Variable directory : UserDirectory.

Definition http_error {A} (status : Z) (detail : string) : py X A :=
  raise (HTTPException status (JStr detail) []).

(** [user_id = body.get("user_id"); user = directory.get(user_id) if user_id else None]. *)
Definition find_user (body : list (string * string)) : py X json :=
  match (user_id ← dict_get "user_id" body;
         if String.eqb user_id "" then None else directory_get directory user_id) with
  | Some user => ret user
  | None => http_error 401 "unknown user_id"
  end.

Definition token_response (access_token : string) (ttl : Z) : json :=
  JObj [("access_token", JStr access_token); ("token_type", JStr "bearer"); ("expires_in", JInt ttl)].

(* @ mock_idp/main.py:34-44 token *)
Definition token (body : list (string * string)) : py X json :=
  let! user := find_user body in
  let! '(access_token, ttl) := mint_login_token user in
  ret (token_response access_token ttl).

(** [v in s] for a set of strings; a list or an object is not hashable. *)
Definition json_in_set {S} (v : json) (s : list string) : py S bool :=
  match v with
  | JArr _ | JObj _ => raise (TypeError "unhashable type")
  | _ => ret (json_in_strs v s)
  end.

(* @ mock_idp/main.py:47-69 eval_impersonate *)
Definition eval_impersonate `{FloatRepr} (body : list (string * string)) : py X json :=
  let! user := find_user body in
  let! tenant_id := jget "tenant_id" user in
  let! allowed := json_in_set tenant_id (eval_tenant_id_set settings) in
  if allowed : bool then
    let! '(access_token, ttl) := mint_login_token user in
    ret (token_response access_token ttl)
  else
    http_error 403 ("impersonation is only permitted for tenants in " +:+
                    json_repr (j_strs (sorted_set (eval_tenant_id_set settings)))).

Definition token_error_401 {A} (m : py X A) : py X A :=
  try_except m (fun e => match e with TokenError detail => Some (http_error 401 detail) | _ => None end).

(** [directory.get(claims["sub"])]: a subject that is not a string is not there. *)
Definition subject_user (claims : pydict) : py X (option json) :=
  let! sub := jget "sub" (JObj claims) in
  match sub with
  | JStr s => ret (directory_get directory s)
  | JArr _ | JObj _ => raise (TypeError "unhashable type")
  | _ => ret None
  end.

(* @ mock_idp/main.py:72-106 token_exchange *)
Definition token_exchange (grant_type subject_token subject_token_type audience scope : string)
    : py X json :=
  if negb (String.eqb grant_type "urn:ietf:params:oauth:grant-type:token-exchange")
  then http_error 400 "unsupported grant_type"
  else if negb (String.eqb subject_token_type "urn:ietf:params:oauth:token-type:jwt")
  then http_error 400 "unsupported subject_token_type"
  else
    let! claims := token_error_401 (verify_subject_token subject_token) in
    let! user := subject_user claims in
    match user with
    | None => http_error 401 "subject no longer exists"
    | Some _ =>
        let! '(access_token, ttl) := mint_exchange_token claims audience scope in
        ret (JObj [("access_token", JStr access_token);
                   ("issued_token_type", JStr "urn:ietf:params:oauth:token-type:jwt");
                   ("token_type", JStr "bearer"); ("expires_in", JInt ttl); ("scope", JStr scope)])
    end.

(* @ mock_idp/main.py:114-130 userinfo *)
Definition userinfo (authorization : option string) : py X json :=
  match authorization with
  | Some h =>
      if str_startswith h "Bearer " then
        let! claims := token_error_401 (verify_subject_token (str_removeprefix h "Bearer ")) in
        let! sub := jget "sub" (JObj claims) in
        let! tenant_id := jget "tenant_id" (JObj claims) in
        let! employee_id := jget_opt "employee_id" (JObj claims) in
        let! roles := jget_default "roles" (JArr []) (JObj claims) in
        let! permissions := jget_default "permissions" (JArr []) (JObj claims) in
        let! scope_context := jget_default "scope_context" (JObj []) (JObj claims) in
        let! acl_group_ids := jget_default "acl_group_ids" (JArr []) (JObj claims) in
        ret (JObj [("sub", sub); ("tenant_id", tenant_id); ("employee_id", employee_id);
                   ("roles", roles); ("permissions", permissions); ("scope_context", scope_context);
                   ("acl_group_ids", acl_group_ids)])
      else http_error 401 "missing bearer token"
  | None => http_error 401 "missing bearer token"
  end.
End Idp.
