(* ===== verification/BusinessApi.v ===== *)
(** mock-business-api: the business state (state.py), preview tokens
    (preview_tokens.py), its idempotency layer (idempotency.py), the checks it
    makes on its own (auth.py, token_verification.py), failure injection and the
    HR and payroll adapters (api/).

    Every handler runs without giving up the event loop, the simulated hang
    aside, which comes before it reads any state: a handler is one step. *)
From S2P Require Import Prelude PyStr Json Http Contracts Wire Authz MockIdp.

(** [asyncio.sleep(n)]. *)
Class AsyncSleep (X : Type) := async_sleep : Z → py X unit.

(** [f"{x:+.1f}"]. *)
Class FloatFormat := fmt_signed1 : float64 → string.

(** ** The state *)

(* @ mock_business_api/preview_tokens.py:18-25 PreviewEntry *)
Record PreviewEntry := MkPreviewEntry {
  pe_action : string;
  pe_params : pydict;
  pe_tenant_id : string;
  pe_requires_approval : bool;
  pe_expires_at : float64;
  pe_consumed : bool
}.
#[export] Instance eta_PreviewEntry : EtaRec PreviewEntry := fun x =>
  MkPreviewEntry (pe_action x) (pe_params x) (pe_tenant_id x) (pe_requires_approval x)
    (pe_expires_at x) (pe_consumed x).

(** The contents of the two seed files. *)
Record BusinessSeed := MkBusinessSeed {
  seed_leave_balances : gmap string Z;
  seed_leave_requests : list json;
  seed_users : UserDirectory
}.

(** [BusinessState], [PreviewTokenStore] and [IdempotencyStore], which live on
    [app.state]. *)
Record BizState (X : Type) := MkBizState {
  bz_leave_balances : gmap string Z;
  bz_leave_requests : list json;
  bz_users : UserDirectory;
  bz_tokens : gmap string PreviewEntry;
  bz_store : gmap (string * string) ExecuteResponse;
  bz_ext : X
}.
Arguments MkBizState {X}.
Arguments bz_leave_balances {X}.
Arguments bz_leave_requests {X}.
Arguments bz_users {X}.
Arguments bz_tokens {X}.
Arguments bz_store {X}.
Arguments bz_ext {X}.
#[export] Instance eta_BizState {X} : EtaRec (BizState X) := fun x =>
  MkBizState (bz_leave_balances x) (bz_leave_requests x) (bz_users x) (bz_tokens x) (bz_store x)
    (bz_ext x).

(* @ mock_business_api/config.py:8-24 Settings *)
Record BizSettings := MkBizSettings {
  bzs_preview_token_ttl_seconds : float64;
  bzs_jwt_signing_secret : string;
  bzs_jwt_issuer : string
}.

Definition http_error {S A} (status : Z) (detail : string) : py S A :=
  raise (HTTPException status (JStr detail) []).

(** ** auth.py *)

(* @ mock_business_api/auth.py:27-31 REQUIRED_PERMISSIONS *)
Definition REQUIRED_PERMISSIONS : list (string * string) :=
  [("get_leave_balance", "leave.balance.read"); ("submit_leave_request", "leave.request.create");
   ("adjust_payroll", "payroll.adjust")].

(* @ mock_business_api/auth.py:37-40 TOKEN_EXCHANGE_REQUIRED_SCOPES *)
Definition TOKEN_EXCHANGE_REQUIRED_SCOPES : list (string * string) :=
  [("submit_leave_request", "leave:write"); ("adjust_payroll", "payroll:write")].

(* @ mock_business_api/auth.py:45-45 SELF_SCOPED_ACTIONS *)
Definition SELF_SCOPED_ACTIONS : list string := ["get_leave_balance"; "submit_leave_request"].

(* @ mock_business_api/auth.py:48-54 ActorHeaders *)
Record ActorHeaders := MkActorHeaders {
  ah_trace_id : string;
  ah_tenant_id : string;
  ah_actor_id : string;
  ah_actor_type : string;
  ah_idempotency_key : option string
}.

Abbreviation headers := (list (string * string)).

Section Auth.
  Context {X : Type} `{JwtCodec, WallClock X}.
  Variable settings : BizSettings.
  Abbreviation W := (BizState X).

Definition on_ext {A} : py X A → py W A := zoom bz_ext (fun x w => w <| bz_ext := x |>).

(* @ mock_business_api/auth.py:57-88 extract_actor_headers *)
Definition extract_actor_headers (hs : headers) (require_idempotency : bool) : py W ActorHeaders :=
  let trace_id := request_header hs "X-Trace-Id" in
  let tenant_id := request_header hs "X-Tenant-Id" in
  let actor_id := request_header hs "X-Actor-Id" in
  let actor_type := request_header hs "X-Actor-Type" in
  let idempotency_key := request_header hs "Idempotency-Key" in
  let missing :=
    (fst <$> List.filter (fun nv => negb (opt_truthy nv.2))
      [("X-Trace-Id", trace_id); ("X-Tenant-Id", tenant_id); ("X-Actor-Id", actor_id);
       ("X-Actor-Type", actor_type)])
    ++ (if require_idempotency && negb (opt_truthy idempotency_key) then ["Idempotency-Key"] else []) in
  match missing with
  | _ :: _ => http_error 400 ("missing required headers: " +:+ str_join ", " missing)
  | [] => ret (MkActorHeaders (str_or trace_id "") (str_or tenant_id "") (str_or actor_id "")
                 (str_or actor_type "") idempotency_key)
  end.

(** [x in v]. *)
Definition py_in {S} (x : string) (v : json) : py S bool :=
  match v with
  | JArr l => ret (existsb (fun y => json_in_strs y [x]) l)
  | JObj kvs => ret (dict_mem x kvs)
  | JStr s => ret (str_contains x s)
  | _ => raise (TypeError "argument is not iterable")
  end.

(* @ mock_business_api/auth.py:91-107 authorize *)
Definition authorize (h : ActorHeaders) (action : string) : py W json :=
  if negb (String.eqb (ah_actor_type h) "agent")
  then http_error 403 "only actor_type=agent may call this API"
  else
    let! users := gets bz_users in
    match directory_get users (ah_actor_id h) with
    | None => http_error 403 "unknown actor for this tenant"
    | Some user =>
        let! tenant_id := jget "tenant_id" user in
        if negb (json_in_strs tenant_id [ah_tenant_id h])
        then http_error 403 "unknown actor for this tenant"
        else
          match dict_get action REQUIRED_PERMISSIONS with
          | None => raise (KeyError action)
          | Some required_permission =>
              let! held := (let! v := jget_default "permissions" (JArr []) user in
                            py_in required_permission v) in
              if held : bool then ret user
              else http_error 403 ("actor lacks required permission: " +:+ required_permission)
          end
    end.

(** ** token_verification.py *)

(* @ mock_business_api/token_verification.py:23-34 verify_exchange_token *)
Definition verify_exchange_token (token : string) : py X pydict :=
  let! now := time_time in
  match jwt_verify token (bzs_jwt_signing_secret settings) (bzs_jwt_issuer settings)
          (Some "business-api") now with
  | inr claims => ret claims
  | inl (InvalidTokenError msg) => raise (TokenVerificationError ("invalid access_token: " +:+ msg))
  | inl e => raise e
  end.

(** [claims.get("scope", "").split()]. *)
Definition scope_words {S} (claims : pydict) : py S (list string) :=
  match from_option id (JStr "") (dict_get "scope" claims) with
  | JStr s => ret (str_split_ws s)
  | _ => raise (OtherException "AttributeError" "object has no attribute 'split'")
  end.

(** [claims.get(k) != v]. *)
Definition claim_is (k v : string) (claims : pydict) : bool :=
  json_in_strs (from_option id JNull (dict_get k claims)) [v].

(* @ mock_business_api/auth.py:110-140 verify_token_exchange *)
Definition verify_token_exchange (hs : headers) (h : ActorHeaders) (action : string) : py W unit :=
  match dict_get action TOKEN_EXCHANGE_REQUIRED_SCOPES with
  | None => ret tt
  | Some required_scope =>
      match request_header hs "Authorization" with
      | Some auth_header =>
          if str_startswith auth_header "Bearer " then
            let! claims := try_except
              (on_ext (verify_exchange_token (str_removeprefix auth_header "Bearer ")))
              (fun e => match e with
                        | TokenVerificationError detail => Some (http_error 401 detail)
                        | _ => None
                        end) in
            let! words := scope_words claims in
            if negb (str_in required_scope words)
            then http_error 403 ("access_token missing required scope: " +:+ required_scope)
            else if negb (claim_is "sub" (ah_actor_id h) claims) ||
                    negb (claim_is "tenant_id" (ah_tenant_id h) claims)
            then http_error 403 "access_token identity does not match X-Actor-Id/X-Tenant-Id"
            else ret tt
          else http_error 401 ("missing token-exchange access_token for scope " +:+ required_scope)
      | None => http_error 401 ("missing token-exchange access_token for scope " +:+ required_scope)
      end
  end.

(* @ mock_business_api/auth.py:143-150 enforce_self_scope *)
Definition enforce_self_scope (user : json) (action employee_id : string) : py W unit :=
  if negb (str_in action SELF_SCOPED_ACTIONS) then ret tt
  else
    let! own := jget_opt "employee_id" user in
    if json_in_strs own [employee_id] then ret tt
    else http_error 403 ("actor may only act on their own employee record for " +:+ action).
End Auth.

(** ** failure_injection.py *)

Inductive Phase := PREVIEW | EXECUTE | QUERY.

(* @ mock_business_api/failure_injection.py:16-45 maybe_simulate_failure *)
Definition maybe_simulate_failure {X} `{AsyncSleep X} (hs : headers) (phase : Phase) : py (BizState X) unit :=
  match request_header hs "X-Simulate" with
  | None => ret tt
  | Some simulate =>
      if String.eqb simulate "" then ret tt
      else if String.eqb simulate "timeout" then on_ext (async_sleep 600)
      else if String.eqb simulate "error_500" then http_error 500 "simulated internal error"
      else if String.eqb simulate "rate_limit"
      then raise (HTTPException 429 (JStr "simulated rate limit") [("Retry-After", "5")])
      else if String.eqb simulate "partial_failure"
      then match phase with EXECUTE => http_error 502 "simulated partial failure" | _ => ret tt end
      else http_error 400 ("unknown X-Simulate value: " +:+ repr_str simulate)
  end.

(** ** state.py, preview_tokens.py, idempotency.py *)

Section State.
  Context {X : Type} `{WallClock X, Uuid X}.
  Variable settings : BizSettings.
  Abbreviation W := (BizState X).

(* @ mock_business_api/state.py:34-42 BusinessState._load *)
Definition load (seed : BusinessSeed) : py W unit :=
  modify (fun w => w <| bz_leave_balances := seed_leave_balances seed |>
                     <| bz_leave_requests := seed_leave_requests seed |>
                     <| bz_users := seed_users seed |>).

(* @ mock_business_api/state.py:44-46 BusinessState.reset *)
Definition reset (seed : BusinessSeed) : py W unit :=
  modify (fun w => w <| bz_leave_requests := [] |>) ;!
  load seed.

(* @ mock_business_api/state.py:48-53 BusinessState.deduct_leave *)
Definition deduct_leave (employee_id : string) (days : Z) : py W Z :=
  let! balances := gets bz_leave_balances in
  let new_balance := (from_option id 0 (balances !! employee_id) - days)%Z in
  modify (fun w => w <| bz_leave_balances ::= <[employee_id := new_balance]> |>) ;!
  ret new_balance.

(* @ mock_business_api/state.py:55-57 BusinessState.record_leave_request *)
Definition record_leave_request (record : json) : py W unit :=
  modify (fun w => w <| bz_leave_requests ::= (fun l => l ++ [record]) |>).

(* @ mock_business_api/preview_tokens.py:34-46 PreviewTokenStore.issue *)
Definition issue (action : string) (params : pydict) (tenant_id : string) (requires_approval : bool)
    : py W string :=
  let! token := on_ext (uuid_id "prv_") in
  let! now := on_ext time_time in
  modify (fun w => w <| bz_tokens ::= <[token :=
    MkPreviewEntry action params tenant_id requires_approval
      (f64_add now (bzs_preview_token_ttl_seconds settings)) false]> |>) ;!
  ret token.

(* @ mock_business_api/preview_tokens.py:48-68 PreviewTokenStore.consume *)
Definition consume (token tenant_id action : string) : py W PreviewEntry :=
  let! tokens := gets bz_tokens in
  match tokens !! token with
  | None => http_error 400 "invalid preview_token"
  | Some entry =>
      if negb (String.eqb (pe_tenant_id entry) tenant_id) then http_error 400 "invalid preview_token"
      else if negb (String.eqb (pe_action entry) action)
      then http_error 400 "preview_token was issued for a different action"
      else if pe_consumed entry then http_error 409 "preview_token already used"
      else
        let! now := on_ext time_time in
        if f64_ltb (pe_expires_at entry) now then http_error 410 "preview_token expired"
        else
          let entry := entry <| pe_consumed := true |> in
          modify (fun w => w <| bz_tokens ::= <[token := entry]> |>) ;!
          ret entry
  end.

(* @ mock_business_api/idempotency.py:22-24 IdempotencyStore.get *)
Definition idempotency_get (tenant_id key : string) : py W (option ExecuteResponse) :=
  gets (fun w => bz_store w !! (tenant_id, key)).

(* @ mock_business_api/idempotency.py:26-28 IdempotencyStore.put *)
Definition idempotency_put (tenant_id key : string) (response : ExecuteResponse) : py W unit :=
  modify (fun w => w <| bz_store ::= <[(tenant_id, key) := response]> |>).
End State.

(** ** contracts/business_api.py: the requests *)

Abbreviation PreviewRequest := pydict.

(* @ contracts/business_api.py:41-43 ExecuteRequest *)
Record ExecuteRequest := MkExecuteRequest {
  exq_preview_token : string;
  exq_approval_id : option string
}.

(** ** api/hr.py, api/payroll.py *)

(* @ mock_business_api/api/hr.py:42-42 LEAVE_DAYS_HIGH_RISK_THRESHOLD *)
Definition LEAVE_DAYS_HIGH_RISK_THRESHOLD : Z := 5.

Section Handlers.
  Context {X : Type} `{JwtCodec, WallClock X, Uuid X, AsyncSleep X, Pydantic, FloatFormat}.
  Variable settings : BizSettings.
  Abbreviation W := (BizState X).

(** [Model.model_validate(params)], as [validate_params] reads it. *)
Definition validated (m : ParamsModel) (params : pydict) : py W pydict :=
  model_validate (enum_value m) (validate_params m) (JObj params).

(** The attributes of a validated parameter model. *)
Definition p_str (k : string) (params : pydict) : string :=
  match dict_get k params with Some (JStr s) => s | _ => "" end.
Definition p_int (k : string) (params : pydict) : Z :=
  match dict_get k params with Some (JInt z) => z | _ => 0 end.
Definition p_float (k : string) (params : pydict) : float64 :=
  match dict_get k params with Some (JFloat f) => f | _ => f64_zero end.

(* @ mock_business_api/api/hr.py:57-70 query_get_leave_balance *)
Definition query_get_leave_balance (body : PreviewRequest) (hs : headers) : py W json :=
  let! h := extract_actor_headers hs false in
  maybe_simulate_failure hs QUERY ;!
  let! user := authorize h "get_leave_balance" in
  let! params := validated GetLeaveBalanceParams body in
  let employee_id := p_str "employee_id" params in
  enforce_self_scope user "get_leave_balance" employee_id ;!
  let! balances := gets bz_leave_balances in
  match balances !! employee_id with
  | None => http_error 404 "unknown employee_id"
  | Some balance => ret (JObj [("employee_id", JStr employee_id); ("leave_balance", JInt balance)])
  end.

(* @ mock_business_api/api/hr.py:73-123 preview_submit_leave_request *)
Definition preview_submit_leave_request (body : PreviewRequest) (hs : headers) : py W PreviewResponse :=
  let! h := extract_actor_headers hs false in
  maybe_simulate_failure hs PREVIEW ;!
  let! user := authorize h "submit_leave_request" in
  verify_token_exchange settings hs h "submit_leave_request" ;!
  let! params := validated SubmitLeaveRequestParams body in
  let employee_id := p_str "employee_id" params in
  let leave_days := p_int "leave_days" params in
  enforce_self_scope user "submit_leave_request" employee_id ;!
  let! balances := gets bz_leave_balances in
  let balance := from_option id 0%Z (balances !! employee_id) in
  let validation_errors :=
    if (balance <? leave_days)%Z
    then ["insufficient leave balance: " +:+ Z_to_string balance +:+ " available, " +:+
          Z_to_string leave_days +:+ " requested"]
    else [] in
  let risk_level := if (LEAVE_DAYS_HIGH_RISK_THRESHOLD <? leave_days)%Z then HIGH else MEDIUM in
  let requires_approval := bool_decide (risk_level = HIGH) in
  let! token := issue settings "submit_leave_request" params (ah_tenant_id h) requires_approval in
  ret {| pvw_action := "submit_leave_request"; pvw_risk_level := risk_level;
         pvw_requires_approval := requires_approval;
         pvw_effects :=
           [MkMutationEffect "leave_balance" (Some employee_id) None (JInt balance)
              (JInt (balance - leave_days));
            MkMutationEffect "leave_request" None (Some "create") JNull JNull];
         pvw_reversible := true; pvw_preview_token := token;
         pvw_validation_errors := validation_errors |}.

(** The checks every execute starts with: the stored response of the key, or the
    consumed preview. *)
Definition admit_execute (action : string) (body : ExecuteRequest) (hs : headers)
    : py W (string * string * (ExecuteResponse + PreviewEntry)) :=
  let! h := extract_actor_headers hs true in
  maybe_simulate_failure hs EXECUTE ;!
  let! _ := authorize h action in
  match ah_idempotency_key h with
  | None => raise AssertionError
  | Some key =>
      let! existing := idempotency_get (ah_tenant_id h) key in
      match existing with
      | Some response => ret (ah_tenant_id h, key, inl response)
      | None =>
          let! entry := consume (exq_preview_token body) (ah_tenant_id h) action in
          if pe_requires_approval entry && negb (opt_truthy (exq_approval_id body))
          then http_error 400 "approval_id required — this action needs approval"
          else ret (ah_tenant_id h, key, inr entry)
      end
  end.

(** The response of an executed action, which is remembered under its key. *)
Definition executed (action tenant_id key business_ref : string) : py W ExecuteResponse :=
  let! now := on_ext now_utc in
  let response := MkExecuteResponse action "executed" (Some business_ref) (Some now) in
  idempotency_put tenant_id key response ;!
  ret response.

Definition leave_record (request_id : string) (params : pydict) (approval_id : option string) : json :=
  JObj [("request_id", JStr request_id); ("employee_id", JStr (p_str "employee_id" params));
        ("leave_days", JInt (p_int "leave_days" params));
        ("start_date", JStr (p_str "start_date" params)); ("approval_id", j_opt_str approval_id)].

(* @ mock_business_api/api/hr.py:126-168 execute_submit_leave_request *)
Definition execute_submit_leave_request (body : ExecuteRequest) (hs : headers) : py W ExecuteResponse :=
  let! '(tenant_id, key, admitted) := admit_execute "submit_leave_request" body hs in
  match admitted with
  | inl existing => ret existing
  | inr entry =>
      let! params := validated SubmitLeaveRequestParams (pe_params entry) in
      let! _ := deduct_leave (p_str "employee_id" params) (p_int "leave_days" params) in
      let! request_id := on_ext (uuid_id "lvr_") in
      record_leave_request (leave_record request_id params (exq_approval_id body)) ;!
      executed "submit_leave_request" tenant_id key request_id
  end.

(* @ mock_business_api/api/payroll.py:43-77 preview_adjust_payroll *)
Definition preview_adjust_payroll (body : PreviewRequest) (hs : headers) : py W PreviewResponse :=
  let! h := extract_actor_headers hs false in
  maybe_simulate_failure hs PREVIEW ;!
  let! _ := authorize h "adjust_payroll" in
  verify_token_exchange settings hs h "adjust_payroll" ;!
  let! params := validated AdjustPayrollParams body in
  let! token := issue settings "adjust_payroll" params (ah_tenant_id h) true in
  ret {| pvw_action := "adjust_payroll"; pvw_risk_level := HIGH; pvw_requires_approval := true;
         pvw_effects :=
           [MkMutationEffect "payroll" (Some (p_str "employee_id" params)) (Some "adjust") JNull
              (JStr (fmt_signed1 (p_float "adjustment_percent" params) +:+ "%"))];
         pvw_reversible := false; pvw_preview_token := token; pvw_validation_errors := [] |}.

(* @ mock_business_api/api/payroll.py:80-110 execute_adjust_payroll *)
Definition execute_adjust_payroll (body : ExecuteRequest) (hs : headers) : py W ExecuteResponse :=
  let! '(tenant_id, key, admitted) := admit_execute "adjust_payroll" body hs in
  match admitted with
  | inl existing => ret existing
  | inr entry =>
      let! adjustment_id := on_ext (uuid_id "pra_") in
      executed "adjust_payroll" tenant_id key adjustment_id
  end.

(** ** main.py: the routes *)

Inductive ApiRequest :=
  | QueryLeaveBalance (body : PreviewRequest) (hs : headers)
  | PreviewLeave (body : PreviewRequest) (hs : headers)
  | ExecuteLeave (body : ExecuteRequest) (hs : headers)
  | PreviewPayroll (body : PreviewRequest) (hs : headers)
  | ExecutePayroll (body : ExecuteRequest) (hs : headers)
  | ResetState.

Inductive ApiAnswer :=
  | Balance (j : json) | Previewed (p : PreviewResponse) | Executed (e : ExecuteResponse) | WasReset.

Definition answer {A} (f : A → ApiAnswer) (m : py W A) : py W ApiAnswer := let! a := m in ret (f a).

Definition serve (seed : BusinessSeed) (r : ApiRequest) : py W ApiAnswer :=
  match r with
  | QueryLeaveBalance body hs => answer Balance (query_get_leave_balance body hs)
  | PreviewLeave body hs => answer Previewed (preview_submit_leave_request body hs)
  | ExecuteLeave body hs => answer Executed (execute_submit_leave_request body hs)
  | PreviewPayroll body hs => answer Previewed (preview_adjust_payroll body hs)
  | ExecutePayroll body hs => answer Executed (execute_adjust_payroll body hs)
  | ResetState => answer (fun _ => WasReset) (reset seed)
  end.

(** The requests of a client, one after the other, whatever they answer. *)
Fixpoint serve_all (seed : BusinessSeed) (rs : list ApiRequest) (w : W) : W :=
  match rs with
  | [] => w
  | r :: rs' => serve_all seed rs' (serve seed r w).1
  end.
End Handlers.
