(* ===== verification/BusinessProps.v ===== *)
(** What the business API promises whatever its callers do: the leave books
    balance, every recorded request was previewed by the employee it is for and
    approved when it is long, and an execute repeated under its key answers what
    it answered before and changes nothing. *)
From S2P Require Import Prelude PyStr Json Http Contracts Wire Authz MockIdp BusinessApi.

(** Ids, clocks and sleeping do not raise. *)
Class TotalEnv (X : Type) `{WallClock X, Uuid X, AsyncSleep X} : Prop := {
  uuid_total (x : X) : ∃ x' h, uuid4_hex x = (x', inr h);
  time_total (x : X) : ∃ x' t, time_time x = (x', inr t);
  now_total (x : X) : ∃ x' t, now_utc x = (x', inr t);
  sleep_total n (x : X) : ∃ x', async_sleep n x = (x', inr tt)
}.

(** An ISO date reads as itself. *)
Class DateLaws `{Pydantic} : Prop :=
  lax_date_iso j d : lax_date j = Some d → lax_date (JStr d) = Some d.

#[export] Instance strict_dates : @DateLaws strict_pydantic.
Proof. by intros [] d. Qed.

(** Everything but the surroundings is the same. *)
Record same_core {X} (w w' : BizState X) : Prop := {
  sc_balances : bz_leave_balances w' = bz_leave_balances w;
  sc_requests : bz_leave_requests w' = bz_leave_requests w;
  sc_users : bz_users w' = bz_users w;
  sc_tokens : bz_tokens w' = bz_tokens w;
  sc_store : bz_store w' = bz_store w
}.
#[export] Instance same_core_preorder {X} : PreOrder (@same_core X).
Proof. split; [by intros w; split|]. intros a b c [] []. split; congruence. Qed.

Lemma frames_of {E S A} (R : S → S → Prop) (m : M E S A) s s' r : frames R m → m s = (s', r) → R s s'.
Proof. intros Hm Hr. specialize (Hm s). by rewrite Hr in Hm. Qed.

Lemma frames_bind_inl {E S A B} (R : S → S → Prop) (m : M E S A) (k : A → M E S B) s s' e :
  bind m k s = (s', inl e) →
  m s = (s', inl e) ∨ ∃ s1 a, m s = (s1, inr a) ∧ k a s1 = (s', inl e).
Proof. unfold bind. destruct (m s) as [s1 [e'|a]]; [intros [= -> ->]; by left|]. intros Hk. right. by eauto. Qed.

Section Checks.
  Context {X : Type} `{JwtCodec, WallClock X, Uuid X, AsyncSleep X, Pydantic, FloatFormat}.
  Abbreviation W := (BizState X).
  Variable settings : BizSettings.

Lemma on_ext_core {A} (m : py X A) : frames same_core (on_ext m).
Proof. intros w. unfold on_ext, zoom. by destruct (m (bz_ext w)). Qed.

Lemma http_error_core {A} n d : frames same_core (http_error (A := A) n d : py W A).
Proof. apply frames_raise, _. Qed.
#[local] Hint Resolve on_ext_core http_error_core : frames.

Ltac core := repeat first
  [ apply frames_bind; [apply _| |intros ?] | apply frames_try; [apply _| |intros ? ? ?]
  | solve [eauto with frames typeclass_instances] | apply frames_ret, _ | apply frames_raise, _
  | apply frames_gets, _ | case_match; simplify_eq ].

Lemma jget_core k j : frames same_core (jget k j : py W json).
Proof. unfold jget. core. Qed.
Lemma jget_opt_core k j : frames same_core (jget_opt k j : py W json).
Proof. unfold jget_opt. core. Qed.
Lemma jget_default_core k d j : frames same_core (jget_default k d j : py W json).
Proof. unfold jget_default. core. Qed.
#[local] Hint Resolve jget_core jget_opt_core jget_default_core : frames.

Lemma extract_core hs b : frames same_core (extract_actor_headers hs b : py W ActorHeaders).
Proof. unfold extract_actor_headers. core. Qed.

Lemma simulate_core hs p : frames same_core (maybe_simulate_failure hs p : py W unit).
Proof. unfold maybe_simulate_failure. core. Qed.

Lemma authorize_core h a : frames same_core (authorize h a : py W json).
Proof. unfold authorize, py_in. core. Qed.

Lemma verify_core hs h a : frames same_core (verify_token_exchange settings hs h a : py W unit).
Proof. unfold verify_token_exchange, scope_words. core. Qed.

Lemma self_scope_core u a e : frames same_core (enforce_self_scope u a e : py W unit).
Proof. unfold enforce_self_scope. core. Qed.

Lemma validated_core m p : frames same_core (validated m p : py W pydict).
Proof. unfold validated, model_validate. core. Qed.

(** What a check that passes has established. *)
Definition actor_of (hs : headers) : ActorHeaders :=
  MkActorHeaders (str_or (request_header hs "X-Trace-Id") "") (str_or (request_header hs "X-Tenant-Id") "")
    (str_or (request_header hs "X-Actor-Id") "") (str_or (request_header hs "X-Actor-Type") "")
    (request_header hs "Idempotency-Key").

Lemma extract_returns hs b (w w' : W) h :
  extract_actor_headers hs b w = (w', inr h) → h = actor_of hs.
Proof. unfold extract_actor_headers. destruct (_ ++ _); [by intros [= _ <-]|done]. Qed.

(** The actor a request names. *)
Definition names_actor (hs : headers) (actor : string) : Prop := request_header hs "X-Actor-Id" = Some actor.

Lemma extract_actor hs b (w w' : W) h :
  extract_actor_headers hs b w = (w', inr h) → names_actor hs (ah_actor_id h).
Proof.
  unfold extract_actor_headers, names_actor. destruct (_ ++ _) eqn:Hm; [|done]. intros [= _ <-]. cbn.
  apply app_eq_nil in Hm as [Hm _]. destruct (request_header hs "X-Actor-Id") as [actor|]; [|exfalso; cbn in Hm].
  - destruct (str_eqb_spec actor "") as [->|Hne]; [|unfold str_or, opt_truthy; destruct actor; done].
    exfalso. revert Hm. cbn. by destruct (opt_truthy _), (opt_truthy _).
  - by destruct (opt_truthy _), (opt_truthy _).
Qed.

Lemma authorize_returns h a (w w' : W) user :
  authorize h a w = (w', inr user) → directory_get (bz_users w) (ah_actor_id h) = Some user.
Proof.
  unfold authorize. destruct (negb _); [done|]. unfold bind at 1, gets.
  destruct (directory_get _ _) as [u|]; [|done]. intros Hb.
  apply bind_returns in Hb as (w1 & t & _ & Hb). destruct (negb _); [done|].
  destruct (dict_get a REQUIRED_PERMISSIONS); [|done].
  apply bind_returns in Hb as (w2 & [] & _ & Hb); [by injection Hb as _ <-|done].
Qed.

(** The employee record of a user. *)
Definition employee_of (user : json) (employee_id : string) : Prop :=
  ∃ kvs, user = JObj kvs ∧ dict_get "employee_id" kvs = Some (JStr employee_id).

Lemma self_scope_returns u a e (w w' : W) :
  str_in a SELF_SCOPED_ACTIONS = true → enforce_self_scope u a e w = (w', inr tt) → employee_of u e.
Proof.
  unfold enforce_self_scope. intros ->. cbn [negb]. intros Hb.
  apply bind_returns in Hb as (w1 & own & Ho & Hb). destruct (json_in_strs own [e]) eqn:Hown; [|done].
  unfold jget_opt in Ho. destruct u as [| | | | | |kvs]; try done. injection Ho as _ <-. exists kvs.
  split; [done|]. destruct (dict_get "employee_id" kvs) as [v|]; [|done].
  destruct v; try done. cbn in Hown. rewrite orb_false_r in Hown. by apply String.eqb_eq in Hown as ->.
Qed.

Lemma validated_returns m p (w w' : W) params :
  validated m p w = (w', inr params) → validate_params m (JObj p) = Some params.
Proof. unfold validated, model_validate. destruct (validate_params m (JObj p)); [|done]. by intros [= _ <-]. Qed.

Lemma issue_spec a p t b (w w' : W) r :
  issue settings a p t b w = (w', r) →
  (same_core w w' ∧ ∃ e, r = inl e) ∨
  ∃ token at_, r = inr token ∧ bz_tokens w' = <[token := MkPreviewEntry a p t b at_ false]> (bz_tokens w) ∧
    bz_leave_balances w' = bz_leave_balances w ∧ bz_leave_requests w' = bz_leave_requests w ∧
    bz_users w' = bz_users w ∧ bz_store w' = bz_store w.
Proof.
  unfold issue. intros Hi. unfold bind at 1 in Hi.
  destruct (on_ext (uuid_id "prv_") w) as [w1 [e|token]] eqn:Hu; apply (frames_of _ _ _ _ _ (on_ext_core _)) in Hu.
  { injection Hi as <- <-. left. by eauto. }
  unfold bind at 1 in Hi. destruct (on_ext time_time w1) as [w2 [e|now]] eqn:Ht;
    apply (frames_of _ _ _ _ _ (on_ext_core _)) in Ht; pose proof (transitivity Hu Ht) as [].
  { injection Hi as <- <-. left. split; [by split|by eauto]. }
  injection Hi as <- <-. right. exists token, (f64_add now (bzs_preview_token_ttl_seconds settings)).
  cbn. split; [done|]. by rewrite sc_tokens0.
Qed.

(** Consuming a token marks it, or changes nothing. *)
Lemma consume_spec tok t a (w w' : W) r :
  consume tok t a w = (w', r) →
  match r with
  | inl _ => same_core w w'
  | inr entry => ∃ e0, bz_tokens w !! tok = Some e0 ∧ pe_tenant_id e0 = t ∧ pe_action e0 = a ∧
      pe_consumed e0 = false ∧ entry = e0 <| pe_consumed := true |> ∧
      bz_tokens w' = <[tok := entry]> (bz_tokens w) ∧
      bz_leave_balances w' = bz_leave_balances w ∧ bz_leave_requests w' = bz_leave_requests w ∧
      bz_users w' = bz_users w ∧ bz_store w' = bz_store w
  end.
Proof.
  unfold consume, bind at 1, gets. destruct (bz_tokens w !! tok) as [e0|] eqn:Htok; [|by intros [= <- <-]].
  destruct (str_eqb_spec (pe_tenant_id e0) t) as [Ht|]; [|by intros [= <- <-]].
  destruct (str_eqb_spec (pe_action e0) a) as [Ha|]; [|by intros [= <- <-]]. cbn [negb].
  destruct (pe_consumed e0) eqn:Hc; [by intros [= <- <-]|]. unfold bind at 1.
  destruct (on_ext time_time w) as [w1 [e|now]] eqn:Hn; apply (frames_of _ _ _ _ _ (on_ext_core _)) in Hn.
  { by intros [= <- <-]. }
  destruct (f64_ltb _ now); [by intros [= <- <-]|]. intros [= <- <-]. destruct Hn. exists e0. cbn.
  by rewrite sc_tokens0.
Qed.

#[local] Hint Resolve extract_core simulate_core authorize_core verify_core self_scope_core validated_core : frames.

(** ** What each handler does *)

Lemma query_core body hs : frames same_core (query_get_leave_balance body hs : py W json).
Proof. unfold query_get_leave_balance. core. Qed.

(** A preview that is answered has put one token on file, for parameters that
    are valid, and for the actor's own employee record. *)
Definition previewed_leave (body : PreviewRequest) (hs : headers) (w w' : W) (params : pydict) : Prop :=
  validate_params SubmitLeaveRequestParams (JObj body) = Some params ∧
  (∃ actor user, names_actor hs actor ∧ directory_get (bz_users w) actor = Some user ∧
                 employee_of user (p_str "employee_id" params)) ∧
  ∃ token tenant at_, bz_tokens w' = <[token := MkPreviewEntry "submit_leave_request" params tenant
      (5 <? p_int "leave_days" params)%Z at_ false]> (bz_tokens w) ∧
    bz_leave_balances w' = bz_leave_balances w ∧ bz_leave_requests w' = bz_leave_requests w ∧
    bz_users w' = bz_users w ∧ bz_store w' = bz_store w.

(** One check of a handler: it raised and changed nothing, or passed and changed
    nothing. *)
Lemma bind_core {A B} (m : py W A) (k : A → py W B) w0 w w' r :
  frames same_core m → same_core w0 w → bind m k w = (w', r) →
  (same_core w0 w' ∧ ∃ e, r = inl e) ∨ ∃ w1 a, m w = (w1, inr a) ∧ same_core w0 w1 ∧ k a w1 = (w', r).
Proof.
  intros Hm Hc Hb. unfold bind in Hb. destruct (m w) as [w1 [e|a]] eqn:He;
    apply (frames_of _ _ _ _ _ Hm) in He as Hs; pose proof (transitivity Hc Hs) as Hc1.
  - injection Hb as <- <-. left. by eauto.
  - right. by exists w1, a.
Qed.

Tactic Notation "check" hyp(Hp) "from" hyp(Hc) "by" uconstr(lem) "as" ident(w1) simple_intropattern(a) ident(Ha) ident(Hc1) :=
  eapply bind_core in Hp as [[? [? ->]]|(w1 & a & Ha & Hc1 & Hp)];
    [first [done | by left]| |apply lem|exact Hc].

Lemma preview_leave_spec body hs (w w' : W) r :
  preview_submit_leave_request settings body hs w = (w', r) →
  match r with
  | inl _ => same_core w w'
  | inr _ => ∃ params, previewed_leave body hs w w' params
  end.
Proof.
  intros Hp. unfold preview_submit_leave_request in Hp. assert (Hc : same_core w w) by done.
  check Hp from Hc by extract_core as w1 h Hh Hc1.
  check Hp from Hc1 by simulate_core as w2 [] Hk2 Hc2.
  check Hp from Hc2 by authorize_core as w3 user Hu Hc3.
  check Hp from Hc3 by verify_core as w4 [] Hk4 Hc4.
  check Hp from Hc4 by validated_core as w5 params Hv Hc5.
  check Hp from Hc5 by self_scope_core as w6 [] Hs Hc6.
  check Hp from Hc6 by (frames_gets _) as w7 balances Hk7 Hc7.
  pose proof Hh as Hactor%extract_actor. apply authorize_returns in Hu. apply validated_returns in Hv.
  apply self_scope_returns in Hs; [|done]. unfold bind in Hp.
  destruct (issue _ _ _ _ _ w7) as [w8 r8] eqn:Hi.
  apply issue_spec in Hi as [[Hc8 [e ->]]|(token & at_ & -> & Htok & Hb & Hr & Hus & Hst)].
  - injection Hp as <- <-. by etrans.
  - injection Hp as <- <-. exists params. destruct Hc2, Hc7. split; [done|].
    split; [exists (ah_actor_id h), user; split; [done|]; split; [congruence|done]|]. exists token, (ah_tenant_id h), at_.
    split; [|split_and!; congruence]. rewrite Htok, sc_tokens1. do 2 f_equal. unfold LEAVE_DAYS_HIGH_RISK_THRESHOLD.
    by destruct (5 <? _)%Z.
Qed.

(** A payroll preview puts a payroll token on file, or nothing. *)
Lemma preview_payroll_spec body hs (w w' : W) r :
  preview_adjust_payroll settings body hs w = (w', r) →
  same_core w w' ∨ ∃ token params tenant at_,
    bz_tokens w' = <[token := MkPreviewEntry "adjust_payroll" params tenant true at_ false]> (bz_tokens w) ∧
    bz_leave_balances w' = bz_leave_balances w ∧ bz_leave_requests w' = bz_leave_requests w ∧
    bz_users w' = bz_users w ∧ bz_store w' = bz_store w.
Proof.
  intros Hp. unfold preview_adjust_payroll in Hp. assert (Hc : same_core w w) by done.
  check Hp from Hc by extract_core as w1 h Hk1 Hc1.
  check Hp from Hc1 by simulate_core as w2 [] Hk2 Hc2.
  check Hp from Hc2 by authorize_core as w3 user Hk3 Hc3.
  check Hp from Hc3 by verify_core as w4 [] Hk4 Hc4.
  check Hp from Hc4 by validated_core as w5 params Hk5 Hc5.
  unfold bind in Hp. destruct (issue _ _ _ _ _ w5) as [w8 r8] eqn:Hi.
  apply issue_spec in Hi as [[Hc8 [e ->]]|(token & at_ & -> & Htok & Hb & Hr & Hus & Hst)].
  - injection Hp as <- <-. left. by etrans.
  - injection Hp as <- <-. destruct Hc5. right. exists token, params, (ah_tenant_id h), at_.
    split; [by rewrite Htok, sc_tokens0|]. split_and!; congruence.
Qed.

(** What execute needs before it does anything. *)
Definition admitted (action : string) (body : ExecuteRequest) (hs : headers) (w w' : W)
    (tenant key : string) (entry : PreviewEntry) : Prop :=
  ∃ e0, bz_tokens w !! exq_preview_token body = Some e0 ∧ pe_tenant_id e0 = tenant ∧
    pe_action e0 = action ∧ pe_consumed e0 = false ∧ entry = e0 <| pe_consumed := true |> ∧
    (pe_requires_approval e0 = true → opt_truthy (exq_approval_id body) = true) ∧
    bz_store w !! (tenant, key) = None ∧
    bz_tokens w' = <[exq_preview_token body := entry]> (bz_tokens w) ∧
    bz_leave_balances w' = bz_leave_balances w ∧ bz_leave_requests w' = bz_leave_requests w ∧
    bz_users w' = bz_users w ∧ bz_store w' = bz_store w.

(** A refused execute changes nothing, or has used up its token. *)
Definition burned (w w' : W) : Prop :=
  same_core w w' ∨ ∃ tok e0, bz_tokens w !! tok = Some e0 ∧ pe_consumed e0 = false ∧
    bz_tokens w' = <[tok := e0 <| pe_consumed := true |>]> (bz_tokens w) ∧
    bz_leave_balances w' = bz_leave_balances w ∧ bz_leave_requests w' = bz_leave_requests w ∧
    bz_users w' = bz_users w ∧ bz_store w' = bz_store w.

Lemma admit_spec action body hs (w w' : W) r :
  admit_execute action body hs w = (w', r) →
  match r with
  | inl _ => burned w w'
  | inr (tenant, key, done_or) =>
      tenant = ah_tenant_id (actor_of hs) ∧ request_header hs "Idempotency-Key" = Some key ∧
      match done_or with
      | inl resp => same_core w w' ∧ bz_store w !! (tenant, key) = Some resp
      | inr entry => admitted action body hs w w' tenant key entry
      end
  end.
Proof.
  intros Hp. unfold admit_execute in Hp. assert (Hc : same_core w w) by done.
  check Hp from Hc by extract_core as w1 h Hh Hc1.
  check Hp from Hc1 by simulate_core as w2 [] Hk2 Hc2.
  check Hp from Hc2 by authorize_core as w3 user Hk3 Hc3.
  apply extract_returns in Hh as ->. change (ah_idempotency_key (actor_of hs)) with (request_header hs "Idempotency-Key") in Hp.
  destruct (request_header hs "Idempotency-Key") as [key|]; [|injection Hp as <- <-; by left].
  unfold bind at 1, idempotency_get, gets in Hp. destruct Hc3.
  set (tenant := ah_tenant_id (actor_of hs)) in *. clearbody tenant.
  destruct (bz_store w3 !! (tenant, key)) as [resp|] eqn:Hst.
  { injection Hp as <- <-. split; [done|]. split; [done|]. split; [by split|]. congruence. }
  unfold bind in Hp. destruct (consume _ _ _ w3) as [w4 r4] eqn:Hcons. apply consume_spec in Hcons.
  destruct r4 as [e|entry].
  { injection Hp as <- <-. left. etrans; [|exact Hcons]. by split. }
  destruct Hcons as (e0 & Htok & Hten & Hact & Hcon & -> & Ht' & Hb' & Hr' & Hu' & Hs').
  destruct (pe_requires_approval _ && _) eqn:Happ; injection Hp as <- <-.
  - right. exists (exq_preview_token body), e0. split_and!; try congruence.
  - split; [done|]. split; [done|]. exists e0. split_and!; try done; try congruence.
    + intros Hreq. cbn in Happ. rewrite Hreq in Happ. by destruct (opt_truthy _).
    + by rewrite Ht', sc_tokens0.
Qed.

(** ** The books as an abstract machine

    What a request may do to the state, labelled with the leave it previewed and
    the headers it came with. *)
Inductive book_step (seed : BusinessSeed) (w w' : W) : option (headers * pydict) → Prop :=
  | book_check : burned w w' → book_step seed w w' None
  | book_preview body hs params :
      previewed_leave body hs w w' params → book_step seed w w' (Some (hs, params))
  | book_payroll_preview token params tenant at_ :
      bz_tokens w' = <[token := MkPreviewEntry "adjust_payroll" params tenant true at_ false]> (bz_tokens w) →
      bz_leave_balances w' = bz_leave_balances w → bz_leave_requests w' = bz_leave_requests w →
      bz_users w' = bz_users w → bz_store w' = bz_store w → book_step seed w w' None
  | book_payroll token e0 tenant key resp :
      bz_tokens w !! token = Some e0 → pe_action e0 = "adjust_payroll" → pe_consumed e0 = false →
      bz_store w !! (tenant, key) = None →
      bz_tokens w' = <[token := e0 <| pe_consumed := true |>]> (bz_tokens w) →
      bz_leave_balances w' = bz_leave_balances w → bz_leave_requests w' = bz_leave_requests w →
      bz_users w' = bz_users w → bz_store w' = <[(tenant, key) := resp]> (bz_store w) →
      book_step seed w w' None
  | book_leave token e0 tenant key resp params request_id approval_id :
      bz_tokens w !! token = Some e0 → pe_action e0 = "submit_leave_request" → pe_consumed e0 = false →
      pe_tenant_id e0 = tenant → (pe_requires_approval e0 = true → opt_truthy approval_id = true) →
      validate_params SubmitLeaveRequestParams (JObj (pe_params e0)) = Some params →
      bz_store w !! (tenant, key) = None →
      bz_tokens w' = <[token := e0 <| pe_consumed := true |>]> (bz_tokens w) →
      bz_leave_balances w' = <[p_str "employee_id" params :=
        (from_option id 0 (bz_leave_balances w !! p_str "employee_id" params) - p_int "leave_days" params)%Z]>
        (bz_leave_balances w) →
      bz_leave_requests w' = bz_leave_requests w ++ [leave_record request_id params approval_id] →
      bz_users w' = bz_users w → bz_store w' = <[(tenant, key) := resp]> (bz_store w) →
      book_step seed w w' None
  | book_reset :
      bz_leave_balances w' = seed_leave_balances seed → bz_leave_requests w' = seed_leave_requests seed →
      bz_users w' = seed_users seed → bz_tokens w' = bz_tokens w → bz_store w' = bz_store w →
      book_step seed w w' None.

Context `{!TotalEnv X}.

Lemma on_ext_total {A} (m : py X A) (w : W) :
  (∀ x, ∃ x' a, m x = (x', inr a)) → ∃ x a, on_ext m w = (w <| bz_ext := x |>, inr a).
Proof. intros Hm. unfold on_ext, zoom. destruct (Hm (bz_ext w)) as (x & a & ->). by exists x, a. Qed.

Lemma uuid_id_total p (x : X) : ∃ x' a, uuid_id p x = (x', inr a).
Proof. unfold uuid_id, bind. destruct (uuid_total x) as (x' & h & ->). by eexists _, _. Qed.

Lemma executed_run action tenant key ref (w : W) :
  ∃ x resp, executed action tenant key ref w =
    (w <| bz_ext := x |> <| bz_store ::= <[(tenant, key) := resp]> |>, inr resp) ∧
    exr_business_ref resp = Some ref.
Proof.
  unfold executed. destruct (on_ext_total now_utc w now_total) as (x & now & Hn).
  rewrite (bind_inr _ _ _ _ _ Hn). by eexists _, _.
Qed.

Lemma execute_payroll_spec seed body hs (w w' : W) r :
  execute_adjust_payroll body hs w = (w', r) → book_step seed w w' None.
Proof.
  unfold execute_adjust_payroll, bind at 1. destruct (admit_execute _ _ _ w) as [w1 r1] eqn:Ha.
  apply admit_spec in Ha. destruct r1 as [e|[[tenant key] [resp|entry]]].
  - intros [= <- <-]. by apply book_check.
  - intros [= <- <-]. apply book_check. left. by apply Ha.
  - destruct Ha as (_ & _ & e0 & Htok & _ & Hact & Hcon & -> & _ & Hst & Ht' & Hb' & Hr' & Hu' & Hs').
    destruct (on_ext_total (uuid_id "pra_") w1 (uuid_id_total _)) as (x & ref & Hu).
    rewrite (bind_inr _ _ _ _ _ Hu).
    destruct (executed_run "adjust_payroll" tenant key ref (w1 <| bz_ext := x |>)) as (x' & resp & -> & _).
    intros [= <- <-]. eapply (book_payroll _ _ _ _ e0 tenant key resp); try done. cbn. by rewrite Hs'.
Qed.

Lemma execute_leave_spec seed body hs (w w' : W) r :
  execute_submit_leave_request body hs w = (w', r) → book_step seed w w' None.
Proof.
  unfold execute_submit_leave_request, bind at 1. destruct (admit_execute _ _ _ w) as [w1 r1] eqn:Ha.
  apply admit_spec in Ha. destruct r1 as [e|[[tenant key] [resp|entry]]].
  - intros [= <- <-]. by apply book_check.
  - intros [= <- <-]. apply book_check. left. by apply Ha.
  - destruct Ha as (_ & _ & e0 & Htok & Hten & Hact & Hcon & -> & Happ & Hst & Ht' & Hb' & Hr' & Hu' & Hs').
    unfold bind at 1. destruct (validated _ _ w1) as [w2 [e|params]] eqn:Hv;
      pose proof (frames_of _ _ _ _ _ (validated_core _ _) Hv) as [].
    { intros [= <- <-]. apply book_check. right. exists (exq_preview_token body), e0. split_and!; congruence. }
    apply validated_returns in Hv. unfold deduct_leave. rewrite bind_assoc. unfold bind at 1, gets.
    rewrite bind_assoc. unfold bind at 1, modify. unfold bind at 1, ret.
    set (w3 := upd bz_leave_balances _ w2).
    destruct (on_ext_total (uuid_id "lvr_") w3 (uuid_id_total _)) as (x & ref & Hu).
    rewrite (bind_inr _ _ _ _ _ Hu). unfold record_leave_request, bind at 1, modify.
    set (w4 := upd bz_leave_requests _ _).
    destruct (executed_run "submit_leave_request" tenant key ref w4) as (x' & resp & -> & _).
    intros [= <- <-].
    eapply (book_leave _ _ _ _ e0 tenant key resp params ref (exq_approval_id body)); try done; cbn; try congruence.
    by rewrite sc_tokens0.
Qed.

(** Every request is a step of the machine. *)
Definition label (r : ApiRequest) (res : exn + ApiAnswer) : option (headers * pydict) :=
  match r, res with
  | PreviewLeave body hs, inr _ => pair hs <$> validate_params SubmitLeaveRequestParams (JObj body)
  | _, _ => None
  end.

Lemma answer_returns {A} (f : A → ApiAnswer) (m : py W A) w w' r :
  answer f m w = (w', r) → ∃ r', m w = (w', r') ∧ r = match r' with inl e => inl e | inr a => inr (f a) end.
Proof. unfold answer, bind. destruct (m w) as [w1 [e|a]]; intros [= <- <-]; by eexists. Qed.

Lemma serve_step seed r (w w' : W) res :
  serve settings seed r w = (w', res) → book_step seed w w' (label r res).
Proof.
  intros Hs. destruct r as [body hs|body hs|body hs|body hs|body hs|]; cbn [serve] in Hs;
    apply answer_returns in Hs as (r' & Hs & ->); cbn [label].
  - apply (frames_of _ _ _ _ _ (query_core body hs)) in Hs. apply book_check. by left.
  - apply preview_leave_spec in Hs. destruct r' as [e|p]; cbn [label].
    + apply book_check. by left.
    + destruct Hs as (params & Hs). pose proof Hs as [-> _]. by eapply book_preview, Hs.
  - by eapply execute_leave_spec.
  - apply preview_payroll_spec in Hs as [Hs|(token & params & tenant & at_ & ? & ? & ? & ? & ?)].
    + apply book_check. by left.
    + by eapply book_payroll_preview.
  - by eapply execute_payroll_spec.
  - injection Hs as <- <-. by apply book_reset.
Qed.

(** ** The balance *)

Definition days_of (employee : string) (r : json) : Z :=
  match r with
  | JObj kvs => if String.eqb (p_str "employee_id" kvs) employee then p_int "leave_days" kvs else 0
  | _ => 0
  end.

Definition books_total (balances : gmap string Z) (requests : list json) (employee : string) : Z :=
  (from_option id 0 (balances !! employee) + sumZ (days_of employee <$> requests))%Z.

Definition ledger (w : W) : string → Z := books_total (bz_leave_balances w) (bz_leave_requests w).

Definition seed_ledger (seed : BusinessSeed) : string → Z :=
  books_total (seed_leave_balances seed) (seed_leave_requests seed).

Lemma ledger_same (w w' : W) e :
  bz_leave_balances w' = bz_leave_balances w → bz_leave_requests w' = bz_leave_requests w →
  ledger w' e = ledger w e.
Proof. unfold ledger. by intros -> ->. Qed.

Lemma ledger_step seed w w' lab e :
  book_step seed w w' lab → ledger w e = seed_ledger seed e → ledger w' e = seed_ledger seed e.
Proof.
  intros Hstep Hl. destruct Hstep.
  - rewrite <- Hl. match goal with Hb : burned _ _ |- _ => destruct Hb as [[]|(tok & e0 & _ & _ & _ & Hb & Hr & _)] end;
      by apply ledger_same.
  - rewrite <- Hl. match goal with Hp : previewed_leave _ _ _ _ _ |- _ =>
      destruct Hp as (_ & _ & tok & t & at_ & _ & Hb & Hr & _) end. by apply ledger_same.
  - rewrite <- Hl. by apply ledger_same.
  - rewrite <- Hl. by apply ledger_same.
  - rewrite <- Hl. unfold ledger, books_total.
    match goal with Hb : bz_leave_balances w' = _, Hr : bz_leave_requests w' = _ |- _ => rewrite Hb, Hr end.
    rewrite fmap_app, sumZ_app. set (who := p_str "employee_id" params). set (n := p_int "leave_days" params).
    assert (Hn : sumZ (days_of e <$> [leave_record request_id params approval_id])
              = if String.eqb who e then n else 0%Z).
    { cbn. fold who n. destruct (String.eqb who e); lia. }
    rewrite Hn. destruct (str_eqb_spec who e) as [->|Hne].
    + rewrite lookup_insert_eq. cbn. lia.
    + rewrite lookup_insert_ne by done. lia.
  - unfold ledger, seed_ledger. congruence.
Qed.

(** The state the service starts in. *)
Definition started (seed : BusinessSeed) (w : W) : Prop :=
  bz_leave_balances w = seed_leave_balances seed ∧ bz_leave_requests w = seed_leave_requests seed ∧
  bz_users w = seed_users seed ∧ bz_tokens w = ∅.

(** C14: The leave books balance. Whatever requests are served, in whatever order —
    refused, replayed, burned or executed ones, resets included — every
    employee's balance plus the days of the recorded requests is what the seed
    data gave: no day is lost, granted or deducted twice. *)
Theorem leave_ledger seed rs w e :
  started seed w → ledger (serve_all settings seed rs w) e = seed_ledger seed e.
Proof.
  intros (Hb & Hr & _). assert (Hl : ledger w e = seed_ledger seed e) by (unfold ledger; by rewrite Hb, Hr).
  clear Hb Hr. revert w Hl. induction rs as [|r rs IH]; intros w Hl; [done|]. cbn [serve_all]. apply IH.
  destruct (serve settings seed r w) as [w1 res] eqn:Hs. apply serve_step in Hs. by eapply ledger_step.
Qed.

(** ** Where records come from *)

Definition is_pending (kv : string * PreviewEntry) : Prop :=
  pe_action kv.2 = "submit_leave_request" ∧ pe_consumed kv.2 = false.
#[local] Instance is_pending_dec kv : Decision (is_pending kv).
Proof. unfold is_pending. apply _. Defined.

(** The leave previews that can still be executed. *)
Definition pending (tokens : gmap string PreviewEntry) : list pydict :=
  (fun kv => pe_params kv.2) <$> map_to_list (filter is_pending tokens).

Lemma pending_spend tokens tok e0 e1 :
  tokens !! tok = Some e0 → is_pending (tok, e0) → ¬ is_pending (tok, e1) →
  pe_params e0 :: pending (<[tok := e1]> tokens) ≡ₚ pending tokens.
Proof.
  intros Htok Hp Hn. unfold pending. rewrite map_filter_insert_False, map_filter_delete by done.
  rewrite <- (map_to_list_delete (filter is_pending tokens) tok e0); [done|].
  by apply map_lookup_filter_Some.
Qed.

Lemma map_to_list_mono (m1 m2 : gmap string PreviewEntry) : m1 ⊆ m2 → map_to_list m1 ⊆+ map_to_list m2.
Proof. apply map_to_list_submseteq. Qed.

Lemma pending_drop tokens tok e1 : ¬ is_pending (tok, e1) → pending (<[tok := e1]> tokens) ⊆+ pending tokens.
Proof.
  intros Hn. unfold pending. rewrite map_filter_insert_False, map_filter_delete by done.
  apply fmap_submseteq, map_to_list_mono, delete_subseteq.
Qed.

Lemma pending_add tokens tok e1 :
  is_pending (tok, e1) → pending (<[tok := e1]> tokens) ⊆+ pe_params e1 :: pending tokens.
Proof.
  intros Hp. unfold pending. rewrite map_filter_insert_True by done.
  rewrite <- insert_delete_eq, map_to_list_insert by apply lookup_delete_eq. cbn.
  apply submseteq_skip, fmap_submseteq, map_to_list_mono, delete_subseteq.
Qed.

(** A record carries the parameters of a preview, and an approval when it is for
    more than five days. *)
Definition recorded (params : pydict) (r : json) : Prop :=
  ∃ request_id approval_id,
    r = JObj [("request_id", JStr request_id); ("employee_id", JStr (p_str "employee_id" params));
              ("leave_days", JInt (p_int "leave_days" params)); ("start_date", JStr (p_str "start_date" params));
              ("approval_id", from_option JStr JNull approval_id)] ∧
    ((5 < p_int "leave_days" params)%Z → ∃ approval, approval_id = Some approval ∧ approval ≠ "").

(** The employee of the parameters is the one of the user the request's X-Actor-Id
    names. *)
Definition own_leave (seed : BusinessSeed) (p : headers * pydict) : Prop :=
  ∃ actor user, request_header p.1 "X-Actor-Id" = Some actor ∧
    dict_get actor (seed_users seed) = Some (JObj user) ∧
    dict_get "employee_id" user = Some (JStr (p_str "employee_id" p.2)).

Definition valid_leave (e0 : PreviewEntry) : Prop :=
  (∃ raw, validate_params SubmitLeaveRequestParams raw = Some (pe_params e0)) ∧
  pe_requires_approval e0 = (5 <? p_int "leave_days" (pe_params e0))%Z.

(** The invariant, [log] being the previews answered so far. *)
Record accounted (seed : BusinessSeed) (log : list (headers * pydict)) (w : W) : Prop := {
  ac_users : bz_users w = seed_users seed;
  ac_tokens tok e0 : bz_tokens w !! tok = Some e0 → pe_action e0 = "submit_leave_request" → valid_leave e0;
  ac_log : Forall (own_leave seed) log;
  ac_records : ∃ done new, bz_leave_requests w = seed_leave_requests seed ++ new ∧
    Forall2 recorded done new ∧ pending (bz_tokens w) ++ done ⊆+ snd <$> log
}.

Context `{!PydanticLaws, !DateLaws}.

(** A validated request validates to itself. *)
Lemma leave_revalidates raw p :
  validate_params SubmitLeaveRequestParams raw = Some p →
  validate_params SubmitLeaveRequestParams (JObj p) = Some p.
Proof.
  intros Hv. apply d_obj_Some in Hv as (kvs & -> & Hv). option_steps Hv. injection Hv as <-.
  match goal with He : required "employee_id" _ _ = Some _, Hn : required "leave_days" _ _ = Some _,
    Hd : required "start_date" _ _ = Some _ |- _ =>
      apply required_Some in He as [? He]; apply required_Some in Hn as [? Hn];
      apply required_Some in Hd as [? Hd]; rename Hn into Hdays, Hd into Hdate end.
  apply bind_Some in Hdays as (z & _ & Hz). destruct (0 <? z)%Z eqn:Hpos; [|done]. injection Hz as <-.
  unfold validate_params, d_obj. cbn. rewrite lax_int_int. cbn. rewrite Hpos. cbn.
  by rewrite (lax_date_iso _ _ Hdate).
Qed.

Lemma accounted_same seed log (w w' : W) :
  bz_leave_requests w' = bz_leave_requests w → bz_users w' = bz_users w → bz_tokens w' = bz_tokens w →
  accounted seed log w → accounted seed log w'.
Proof. intros Hr Hu Ht [? ? ? ?]. split; rewrite ?Hr, ?Hu, ?Ht; done. Qed.

(** Spending a token, or putting one of another action on file, keeps it. *)
Lemma accounted_tokens seed log (w w' : W) tok e1 :
  bz_leave_requests w' = bz_leave_requests w → bz_users w' = bz_users w →
  bz_tokens w' = <[tok := e1]> (bz_tokens w) → ¬ is_pending (tok, e1) →
  (pe_action e1 = "submit_leave_request" → valid_leave e1) →
  accounted seed log w → accounted seed log w'.
Proof.
  intros Hr Hu Ht Hn Hv [H1' H2' H3' (done & new & Hreq & Hrec & Hsub)]. split.
  - congruence.
  - intros tok' e. rewrite Ht. intros [[<- <-]|[_ Hk]]%lookup_insert_Some; [done|by eapply H2'].
  - done.
  - exists done, new. rewrite Hr, Ht. split; [done|]. split; [done|].
    etrans; [|exact Hsub]. apply submseteq_app; [by apply pending_drop|done].
Qed.

Lemma accounted_step seed log w w' lab :
  book_step seed w w' lab → accounted seed log w → accounted seed (log ++ option_list lab) w'.
Proof.
  intros Hstep Ha. destruct Hstep as [Hb|body hs params (Hval & (actor & user & Hactor & Huser & kvs & -> & Hemp) & token & tenant & at_ & Ht & _ & Hr & Hu & _)
    |token params tenant at_ Ht _ Hr Hu _|token e0 tenant key resp Htok Hact _ _ Ht _ Hr Hu _
    |token e0 tenant key resp params request_id approval_id Htok Hact Hcon _ Happ Hval _ Ht _ Hr Hu _
    |_ Hr Hu Ht _]; cbn [option_list]; rewrite ?app_nil_r.
  - destruct Hb as [[]|(tok & e0 & Htok & Hcon & Ht & _ & Hr & Hu & _)]; [by eapply accounted_same|].
    eapply accounted_tokens; [exact Hr|exact Hu|exact Ht|by intros [_ ?]| |exact Ha].
    intros Hact. by apply (ac_tokens _ _ _ Ha tok e0).
  - destruct Ha as [H1' H2' H3' (done & new & Hreq & Hrec & Hsub)]. split.
    + congruence.
    + intros tok e. rewrite Ht. intros [[<- <-]|[_ Hk]]%lookup_insert_Some; [|by eapply H2'].
      intros _. split; [by eexists|done].
    + apply Forall_app_2; [done|]. constructor; [|done]. exists actor, kvs.
      split; [done|]. split; [by rewrite <- H1'|done].
    + exists done, new. split; [congruence|]. split; [done|]. rewrite Ht, fmap_app.
      etrans; [apply submseteq_app; [by apply pending_add|done]|]. cbn.
      rewrite <- Permutation_cons_append. by apply submseteq_skip.
  - eapply accounted_tokens; [exact Hr|exact Hu|exact Ht|by intros [? _]|done|exact Ha].
  - eapply accounted_tokens; [exact Hr|exact Hu|exact Ht|by intros [_ ?]| |exact Ha].
    intros Hact'. cbn in Hact'. congruence.
  - destruct Ha as [H1' H2' H3' (done & new & Hreq & Hrec & Hsub)].
    destruct (H2' _ _ Htok Hact) as [[raw Hraw] Happr].
    apply leave_revalidates in Hraw. rewrite Hraw in Hval. injection Hval as <-. split.
    + congruence.
    + intros tok e. rewrite Ht. intros [[<- <-]|[_ Hk]]%lookup_insert_Some; [|by eapply H2'].
      intros _. by apply (H2' token e0).
    + done.
    + exists (done ++ [pe_params e0]), (new ++ [leave_record request_id (pe_params e0) approval_id]).
      split; [by rewrite Hr, Hreq, app_assoc|]. split.
      * apply Forall2_app; [done|]. constructor; [|constructor]. exists request_id, approval_id.
        split; [by destruct approval_id|]. intros Hlong. rewrite Happr, (proj2 (Z.ltb_lt _ _) Hlong) in Happ. specialize (Happ eq_refl).
        destruct approval_id as [approval|]; [|done]. exists approval. split; [done|]. by intros ->.
      * etrans; [|exact Hsub]. rewrite app_assoc, <- Permutation_cons_append, app_comm_cons, Ht.
        rewrite (pending_spend (bz_tokens w) token e0); [done|done|by split|by intros [_ ?]].
  - destruct Ha as [H1' H2' H3' (done & new & Hreq & Hrec & Hsub)]. split; [done|by rewrite Ht|done|].
    exists [], []. split; [by rewrite Hr, app_nil_r|]. split; [constructor|].
    rewrite app_nil_r, Ht. etrans; [|exact Hsub]. by apply submseteq_inserts_r.
Qed.

(** The leave previews a sequence of requests is answered. *)
Fixpoint previews (seed : BusinessSeed) (rs : list ApiRequest) (w : W) : list (headers * pydict) :=
  match rs with
  | [] => []
  | r :: rs' =>
      option_list (label r (serve settings seed r w).2) ++ previews seed rs' (serve settings seed r w).1
  end.

(** C25: No leave is recorded that was not previewed for the employee it is for.
    After any requests from the start, the recorded requests are those of the
    seed data and new ones; the new ones carry the parameters of previews that
    were answered, each preview used at most once; each of those previews was for
    the employee record of its caller, the user of the directory whom the request's
    X-Actor-Id header names; and a record of more than five days has an approval
    id. *)
Theorem leave_records_previewed seed rs w :
  started seed w →
  ∃ previewed new, bz_leave_requests (serve_all settings seed rs w) = seed_leave_requests seed ++ new ∧
    Forall2 recorded previewed new ∧ previewed ⊆+ snd <$> previews seed rs w ∧
    Forall (own_leave seed) (previews seed rs w).
Proof.
  intros (_ & Hr & Hu & Ht).
  assert (Ha : accounted seed [] w).
  { split; [done|by rewrite Ht|done|]. exists [], []. rewrite Hr, Ht, app_nil_r.
    split; [done|]. split; [constructor|]. unfold pending. rewrite map_filter_empty, map_to_list_empty. done. }
  assert (Hall : accounted seed ([] ++ previews seed rs w) (serve_all settings seed rs w)).
  { clear Hr Hu Ht. revert w Ha. generalize (@nil (headers * pydict)) as log. induction rs as [|r rs IH]; intros log w Ha.
    - by rewrite app_nil_r.
    - cbn [previews serve_all]. rewrite app_assoc. apply IH.
      destruct (serve settings seed r w) as [w1 res] eqn:Hs. apply serve_step in Hs.
      by eapply accounted_step. }
  destruct Hall as [_ _ Hlog (done & new & Hreq & Hrec & Hsub)]. exists done, new.
  split; [done|]. split; [done|]. split; [|done]. etrans; [|exact Hsub]. by apply submseteq_inserts_l.
Qed.

(** ** Repeating an execute *)

Lemma extract_again hs b (w w' w2 : W) h :
  extract_actor_headers hs b w = (w', inr h) → extract_actor_headers hs b w2 = (w2, inr h).
Proof. unfold extract_actor_headers. destruct (_ ++ _); [by intros [= _ <-]|done]. Qed.

Lemma simulate_again hs p (w w' w2 : W) :
  maybe_simulate_failure hs p w = (w', inr ()) →
  ∃ x, maybe_simulate_failure hs p w2 = (w2 <| bz_ext := x |>, inr ()).
Proof.
  assert (Hid : ∀ w : W, w <| bz_ext := bz_ext w |> = w) by (by intros []).
  assert (Hret : ∃ x, (w2, inr ()) = (w2 <| bz_ext := x |>, inr () : exn + unit))
    by (exists (bz_ext w2); by rewrite Hid).
  unfold maybe_simulate_failure. destruct (request_header hs "X-Simulate") as [s|]; [|done].
  destruct (String.eqb s ""); [done|]. destruct (String.eqb s "timeout").
  { intros _. destruct (on_ext_total (async_sleep 600) w2) as (x & [] & Hx); [|by exists x].
    intros x. destruct (sleep_total 600 x) as [x' Hx]. by eexists _, _. }
  repeat (destruct (String.eqb s _); [try done|]); [|done]. by destruct p.
Qed.

Lemma authorize_again h a (w w' w2 : W) u :
  authorize h a w = (w', inr u) → bz_users w2 = bz_users w → authorize h a w2 = (w2, inr u).
Proof.
  unfold authorize. destruct (negb _); [done|]. unfold bind at 1, gets. intros Ha Hu.
  unfold bind at 1, gets. rewrite Hu. destruct (directory_get _ _) as [v|]; [|done].
  unfold bind, jget, jget_default, py_in, http_error, ret, raise in *. clear Hu.
  repeat (case_in Ha; try done); by simplify_eq/=.
Qed.

Lemma book_step_keeps seed (w w' : W) lab t k resp :
  book_step seed w w' lab → bz_users w = seed_users seed → bz_store w !! (t, k) = Some resp →
  bz_users w' = seed_users seed ∧ bz_store w' !! (t, k) = Some resp.
Proof.
  intros Hstep Hu Hs. destruct Hstep as [Hb|body hs params (_ & _ & token & tenant & at_ & _ & _ & _ & Hu' & Hs')
    |token params tenant at_ _ _ _ Hu' Hs'|token e0 tenant key resp' _ _ _ Hnone _ _ _ Hu' Hs'
    |token e0 tenant key resp' params request_id approval_id _ _ _ _ _ _ Hnone _ _ _ Hu' Hs'
    |_ _ Hu' _ Hs'].
  - destruct Hb as [[]|(tok & e0 & _ & _ & _ & _ & _ & Hu' & Hs')]; split; congruence.
  - split; congruence.
  - split; congruence.
  - split; [congruence|]. rewrite Hs'. apply lookup_insert_Some. right. split; [congruence|done].
  - split; [congruence|]. rewrite Hs'. apply lookup_insert_Some. right. split; [congruence|done].
  - split; congruence.
Qed.

(** The response of an executed request is on file under its key. *)
Lemma execute_leave_stored body hs (w w1 : W) resp :
  execute_submit_leave_request body hs w = (w1, inr resp) →
  ∃ key, request_header hs "Idempotency-Key" = Some key ∧
    bz_store w1 !! (ah_tenant_id (actor_of hs), key) = Some resp.
Proof.
  unfold execute_submit_leave_request, bind at 1. destruct (admit_execute _ _ _ w) as [w0 r0] eqn:Ha.
  apply admit_spec in Ha. destruct r0 as [e|[[tenant key] [resp0|entry]]]; [done| |].
  - destruct Ha as (-> & Hk & [] & Hst). intros [= <- <-]. exists key. split; [done|congruence].
  - destruct Ha as (-> & Hk & _). intros Hb.
    apply bind_returns in Hb as (w2 & params & _ & Hb). apply bind_returns in Hb as (w3 & z & _ & Hb).
    apply bind_returns in Hb as (w4 & ref & _ & Hb). apply bind_returns in Hb as (w5 & [] & _ & Hb).
    destruct (executed_run "submit_leave_request" (ah_tenant_id (actor_of hs)) key ref w5) as (x & resp' & Hx & _).
    rewrite Hx in Hb. injection Hb as <- <-. exists key. split; [done|]. cbn. apply lookup_insert_eq.
Qed.

(** The checks an answered execute has passed. *)
Lemma execute_leave_checks body hs (w w1 : W) resp :
  execute_submit_leave_request body hs w = (w1, inr resp) →
  ∃ h user wa wb wc, extract_actor_headers hs true w = (wa, inr h) ∧
    maybe_simulate_failure hs EXECUTE wa = (wb, inr ()) ∧
    authorize h "submit_leave_request" wb = (wc, inr user) ∧ bz_users wb = bz_users w.
Proof.
  intros Hx. apply bind_returns in Hx as (w0 & r0 & Ha & _). unfold admit_execute in Ha.
  apply bind_returns in Ha as (wa & h & Hh & Ha). apply bind_returns in Ha as (wb & [] & Hs & Ha).
  apply bind_returns in Ha as (wc & user & Hau & _). exists h, user, wa, wb, wc.
  pose proof (frames_of _ _ _ _ _ (extract_core _ _) Hh) as [].
  pose proof (frames_of _ _ _ _ _ (simulate_core _ _) Hs) as []. split_and!; congruence.
Qed.

Lemma serve_all_keeps seed rs t k resp : ∀ w : W,
  bz_users w = seed_users seed → bz_store w !! (t, k) = Some resp →
  bz_users (serve_all settings seed rs w) = seed_users seed ∧
  bz_store (serve_all settings seed rs w) !! (t, k) = Some resp.
Proof.
  induction rs as [|r rs IH]; intros w Hu Hs; [done|]. cbn [serve_all].
  destruct (serve settings seed r w) as [w2 res] eqn:Hserve. apply serve_step in Hserve.
  destruct (book_step_keeps _ _ _ _ _ _ _ Hserve Hu Hs). by apply IH.
Qed.

Lemma execute_leave_users body hs (w w1 : W) r :
  execute_submit_leave_request body hs w = (w1, r) → bz_users w1 = bz_users w.
Proof.
  intros Hx. apply (execute_leave_spec (MkBusinessSeed ∅ [] (bz_users w))) in Hx.
  destruct Hx as [[[]|(? & ? & ? & ? & ? & ? & ? & ? & ?)]|? ? ? (? & ? & ? & ? & ? & ? & ? & ? & ? & ?)| | | |];
    cbn in *; congruence.
Qed.

(** An executed leave request can be repeated. Once an execute has answered,
    the same request headers — tenant, actor and idempotency key — get the same
    answer from any execute body, after any other requests, a reset included;
    and repeating it deducts nothing, records nothing and spends no token. *)
Theorem execute_replays seed body body' hs rs w w1 resp :
  bz_users w = seed_users seed →
  execute_submit_leave_request body hs w = (w1, inr resp) →
  ∃ x, serve settings seed (ExecuteLeave body' hs) (serve_all settings seed rs w1) =
    ((serve_all settings seed rs w1) <| bz_ext := x |>, inr (Executed resp)).
Proof.
  intros Hu Hx. pose proof (execute_leave_stored _ _ _ _ _ Hx) as (key & Hk & Hst).
  destruct (execute_leave_checks _ _ _ _ _ Hx) as (h & user & wa & wb & wc & Hh & Hs & Hau & Hub).
  apply execute_leave_users in Hx. rewrite <- Hx in Hu.
  destruct (serve_all_keeps seed rs _ _ _ w1 Hu Hst) as [Hu2 Hst2].
  set (w2 := serve_all settings seed rs w1) in *. clearbody w2.
  destruct (simulate_again hs EXECUTE wa wb w2 Hs) as [x Hs2]. exists x.
  pose proof (extract_again _ _ _ _ w2 _ Hh) as Hh2.
  assert (Hau2 : authorize h "submit_leave_request" (w2 <| bz_ext := x |>) = (w2 <| bz_ext := x |>, inr user))
    by (eapply authorize_again; [exact Hau|cbn; congruence]).
  apply extract_returns in Hh as ->.
  assert (Hadmit : admit_execute "submit_leave_request" body' hs w2
            = (w2 <| bz_ext := x |>, inr (ah_tenant_id (actor_of hs), key, inl resp))).
  { unfold admit_execute. rewrite (bind_inr _ _ _ _ _ Hh2), (bind_inr _ _ _ _ _ Hs2), (bind_inr _ _ _ _ _ Hau2).
    change (ah_idempotency_key (actor_of hs)) with (request_header hs "Idempotency-Key"). rewrite Hk.
    unfold bind, idempotency_get, gets. cbn [bz_store upd]. by rewrite Hst2. }
  cbn [serve]. unfold answer, execute_submit_leave_request. rewrite bind_assoc.
  by rewrite (bind_inr _ _ _ _ _ Hadmit).
Qed.
End Checks.

(** ** At a concrete service

    One employee with eight days, who previews seven, executes with an approval,
    and tries again. *)
Module Witness.
#[export] Instance demo_uuid : Uuid nat := fun n =>
  (S n, inr (Z_to_string (10000000000000000000000 + Z.of_nat n))).
#[export] Instance demo_clock : WallClock nat := {|
  time_time n := (n, inr (f64_of_Z 1000));
  now_utc n := (n, inr "2026-02-01T00:00:00Z") |}.
#[export] Instance demo_sleep : AsyncSleep nat := fun _ n => (n, inr tt).
#[export] Instance demo_total : TotalEnv nat.
Proof. split; intros; cbn; by eauto. Qed.
#[export] Instance demo_jwt : JwtCodec := coded_jwt.
#[export] Instance demo_pydantic : Pydantic := strict_pydantic.
#[export] Instance demo_format : FloatFormat := fun _ => "+0.0".

Definition settings : BizSettings := MkBizSettings (f64_of_Z 300) "secret" "duta-demo".

Definition budi : json := JObj [("user_id", JStr "usr_budi"); ("tenant_id", JStr "tnt_demo");
  ("employee_id", JStr "emp_001"); ("permissions", JArr [JStr "leave.request.create"])].

Definition seed : BusinessSeed := MkBusinessSeed {[ "emp_001" := 8%Z ]} [] [("usr_budi", budi)].

Definition access_token : string := jwt_encode
  [("iss", JStr "duta-demo"); ("sub", JStr "usr_budi"); ("tenant_id", JStr "tnt_demo");
   ("aud", JStr "business-api"); ("scope", JStr "leave:write"); ("iat", JInt 990); ("exp", JInt 1050)] "secret".

Definition hs : headers :=
  [("x-trace-id", "trc_1"); ("x-tenant-id", "tnt_demo"); ("x-actor-id", "usr_budi"); ("x-actor-type", "agent");
   ("idempotency-key", "key_1"); ("authorization", "Bearer " +:+ access_token)].

Definition leave : PreviewRequest :=
  [("employee_id", JStr "emp_001"); ("leave_days", JInt 7); ("start_date", JStr "2026-03-01")].

Definition start : BizState nat := MkBizState (seed_leave_balances seed) [] (seed_users seed) ∅ ∅ 0%nat.

Definition token : string := "prv_10000000000000000000".

Definition requests : list ApiRequest :=
  [PreviewLeave leave hs; ExecuteLeave (MkExecuteRequest token (Some "apr_1")) hs;
   ExecuteLeave (MkExecuteRequest token None) hs].

Lemma start_started : started seed start.
Proof. by split_and!. Qed.

Example books_after :
  let w := serve_all settings seed requests start in
  bz_leave_balances w !! "emp_001" = Some 1%Z ∧ length (bz_leave_requests w) = 1%nat ∧
  length (previews settings seed requests start) = 1%nat.
Proof. vm_compute. by split_and!. Qed.

Lemma leave_ledger_witness :
  started seed start ∧
  ledger (serve_all settings seed requests start) "emp_001" = seed_ledger seed "emp_001".
Proof. exact (conj start_started (leave_ledger settings seed requests start "emp_001" start_started)). Defined.

Lemma leave_records_previewed_witness :
  started seed start ∧
  ∃ previewed new,
    bz_leave_requests (serve_all settings seed requests start) = seed_leave_requests seed ++ new ∧
    Forall2 recorded previewed new ∧ previewed ⊆+ snd <$> previews settings seed requests start ∧
    Forall (own_leave seed) (previews settings seed requests start).
Proof. exact (conj start_started (leave_records_previewed settings seed requests start start_started)). Defined.

Definition previewed_ : BizState nat := serve_all settings seed [PreviewLeave leave hs] start.
Definition body : ExecuteRequest := MkExecuteRequest token (Some "apr_1").
Definition response : ExecuteResponse :=
  MkExecuteResponse "submit_leave_request" "executed" (Some "lvr_10000000000000000000") (Some "2026-02-01T00:00:00Z").
Definition paid : BizState nat := (execute_submit_leave_request body hs previewed_).1.

Lemma execute_run : execute_submit_leave_request body hs previewed_ = (paid, inr response).
Proof.
  rewrite (surjective_pairing (execute_submit_leave_request body hs previewed_)).
  apply (f_equal2 pair); [reflexivity|vm_compute; reflexivity].
Qed.

Lemma execute_replays_witness :
  execute_submit_leave_request body hs previewed_ = (paid, inr response) ∧
  ∃ x, serve settings seed (ExecuteLeave (MkExecuteRequest "other" None) hs)
         (serve_all settings seed [ResetState] paid) =
    ((serve_all settings seed [ResetState] paid) <| bz_ext := x |>, inr (Executed response)).
Proof.
  assert (Hu : bz_users previewed_ = seed_users seed) by (vm_compute; reflexivity).
  exact (conj execute_run (execute_replays settings seed body (MkExecuteRequest "other" None) hs [ResetState]
    previewed_ paid response Hu execute_run)).
Defined.
End Witness.
