(* ===== verification/IdentityProps.v ===== *)
(** Tokens across services: what mock-idp mints for an exchange is what
    mock-business-api accepts — for its audience, its scope, its subject and its
    lifetime, and for nothing else — and the two kinds of token cannot stand in
    for each other. *)
From S2P Require Import Prelude PyStr Json Http Contracts Wire Authz MockIdp BusinessApi BusinessProps.

Section Identity.
  Context {X : Type} `{WallClock X, Uuid X, AsyncSleep X, JwtCodecLaws, FloatRepr}.
  Variables (idp : IdpSettings) (biz : BizSettings) (directory : UserDirectory).

(** The two services are configured alike. *)
Definition same_issuer : Prop :=
  bzs_jwt_signing_secret biz = ips_jwt_signing_secret idp ∧ bzs_jwt_issuer biz = ips_jwt_issuer idp.

(** Between the second of issue and the end of the lifetime. *)
Definition in_lifetime (issued ttl : Z) (t : float64) : bool :=
  f64_ltb t (f64_of_Z (issued + ttl)) && f64_leb (f64_of_Z issued) t.

(** What mock-business-api says to a token exchanged for [subject] of [tenant]:
    nothing, or the status of its refusal. *)
Definition verdict (audience scope action : string) (subject tenant : json) (live : bool) (h : ActorHeaders)
    : option Z :=
  match dict_get action TOKEN_EXCHANGE_REQUIRED_SCOPES with
  | None => None
  | Some required =>
      if negb (String.eqb audience "business-api" && live) then Some 401%Z
      else if negb (str_in required (str_split_ws scope)) then Some 403%Z
      else if negb (json_in_strs subject [ah_actor_id h] && json_in_strs tenant [ah_tenant_id h])
      then Some 403%Z
      else None
  end.

Definition answers (v : option Z) (r : exn + unit) : Prop :=
  match v with
  | None => r = inr tt
  | Some status => ∃ detail, r = inl (HTTPException status (JStr detail) [])
  end.

Definition exchange_payload (sub tenant employee : json) (audience scope : string) (now ttl : Z) : pydict :=
  [("iss", JStr (ips_jwt_issuer idp)); ("sub", sub); ("tenant_id", tenant); ("employee_id", employee);
   ("aud", JStr audience); ("scope", JStr scope); ("iat", JInt now); ("exp", JInt (now + ttl))].

Lemma jget_returns {S} k j (s s' : S) v :
  jget k j s = (s', inr v) → s' = s ∧ ∃ kvs, j = JObj kvs ∧ dict_get k kvs = Some v.
Proof.
  unfold jget. destruct j as [| | | | | |kvs]; try done.
  destruct (dict_get k kvs) as [v'|] eqn:Hk; [|done]. intros [= <- <-]. split; [done|]. by exists kvs.
Qed.

Lemma mint_exchange_returns claims audience scope (x x' : X) tok ttl :
  mint_exchange_token idp claims audience scope x = (x', inr (tok, ttl)) →
  ∃ sub tenant employee now, dict_get "sub" claims = Some sub ∧ dict_get "tenant_id" claims = Some tenant ∧
    employee = from_option id JNull (dict_get "employee_id" claims) ∧
    tok = jwt_encode (exchange_payload sub tenant employee audience scope now ttl) (ips_jwt_signing_secret idp).
Proof.
  unfold mint_exchange_token, exchange_claims. intros Hb.
  apply bind_returns in Hb as (x1 & now & _ & Hb). apply bind_returns in Hb as (x2 & ttl' & _ & Hb).
  apply bind_returns in Hb as (x3 & payload & Hp & Hb). injection Hb as _ <- ->.
  apply bind_returns in Hp as (x4 & sub & Hs & Hp). apply jget_returns in Hs as (_ & kvs & [= <-] & Hs).
  apply bind_returns in Hp as (x5 & tenant & Ht & Hp). apply jget_returns in Ht as (_ & kvs & [= <-] & Ht).
  apply bind_returns in Hp as (x6 & employee & He & Hp). injection He as _ <-. injection Hp as _ <-.
  by exists sub, tenant, (from_option id JNull (dict_get "employee_id" claims)), now.
Qed.

Lemma plain_get kvs k v : json_plain (JObj kvs) = true → dict_get k kvs = Some v → json_plain v = true.
Proof.
  cbn. intros [Hall _]%andb_true_iff Hk. apply dict_get_In in Hk.
  rewrite forallb_forall in Hall. by apply (Hall (k, v)), list_elem_of_In.
Qed.

Lemma plain_get_opt kvs k :
  json_plain (JObj kvs) = true → json_plain (from_option id JNull (dict_get k kvs)) = true.
Proof. intros Hp. destruct (dict_get k kvs) as [v|] eqn:Hk; [by eapply plain_get|done]. Qed.

Lemma exchange_payload_plain sub tenant employee audience scope now ttl :
  json_plain tenant = true → json_plain employee = true →
  plain_claims (exchange_payload (JStr sub) tenant employee audience scope now ttl) = true.
Proof.
  intros Ht He. unfold plain_claims, exchange_payload. cbn -[bool_decide]. by rewrite Ht, He.
Qed.

Lemma exchange_registered sub tenant employee audience scope now ttl a t :
  registered_claims_ok (ips_jwt_issuer idp) (Some a) t (exchange_payload sub tenant employee audience scope now ttl)
  = String.eqb audience a && negb (String.eqb audience "") && in_lifetime now ttl t.
Proof.
  unfold registered_claims_ok, audience_ok, claim_time, in_lifetime, exchange_payload. cbn.
  rewrite bool_decide_eq_true_2 by done. cbn. destruct (String.eqb audience ""); cbn; [by rewrite andb_false_r|].
  rewrite andb_true_r. destruct (String.eqb audience a); cbn; done.
Qed.

Definition access_token_of (response : json) : option string :=
  match response with
  | JObj kvs => match dict_get "access_token" kvs with Some (JStr tok) => Some tok | _ => None end
  | _ => None
  end.

(** A granted exchange: whose token it was and what was minted. *)
Lemma token_exchange_returns grant subject_token ttype audience scope (x x' : X) response :
  token_exchange idp directory grant subject_token ttype audience scope x = (x', inr response) →
  ∃ claims t0 sub user tenant now ttl,
    jwt_verify subject_token (ips_jwt_signing_secret idp) (ips_jwt_issuer idp) None t0 = inr claims ∧
    dict_get "sub" claims = Some (JStr sub) ∧ directory_get directory sub = Some user ∧
    dict_get "tenant_id" claims = Some tenant ∧
    access_token_of response = Some (jwt_encode
      (exchange_payload (JStr sub) tenant (from_option id JNull (dict_get "employee_id" claims)) audience scope now ttl)
      (ips_jwt_signing_secret idp)).
Proof.
  unfold token_exchange. destruct (negb _); [done|]. destruct (negb _); [done|]. intros Hb.
  apply bind_returns in Hb as (x1 & claims & Hc & Hb). apply bind_returns in Hb as (x2 & user & Hu & Hb).
  destruct user as [user|]; [|done]. apply bind_returns in Hb as (x3 & [tok ttl] & Hm & Hb). injection Hb as _ <-.
  assert (Hv : ∃ t0, jwt_verify subject_token (ips_jwt_signing_secret idp) (ips_jwt_issuer idp) None t0 = inr claims).
  { unfold token_error_401, try_except, verify_subject_token, bind, invalid_token in Hc.
    destruct (time_time x) as [x4 [e|t0]]; [by destruct e|]. exists t0.
    destruct (jwt_verify _ _ _ _ _) as [e|cl]; [by destruct e|]. by injection Hc as _ <-. }
  destruct Hv as [t0 Hv]. unfold subject_user in Hu. apply bind_returns in Hu as (x5 & subj & Hj & Hu).
  apply jget_returns in Hj as (_ & kvs & [= <-] & Hj). destruct subj as [| | | |sub| |]; try done.
  injection Hu as _ Hu. apply mint_exchange_returns in Hm as (sub' & tenant & employee & now & Hs & Ht & -> & ->).
  rewrite Hj in Hs. injection Hs as <-. by exists claims, t0, sub, user, tenant, now, ttl.
Qed.


(** ** Two kinds of token *)

(** The users of the directory, as the seed file has them. *)
Definition directory_plain : Prop :=
  ∀ id user, directory_get directory id = Some user →
    ∃ kvs, user = JObj kvs ∧ json_plain (JObj kvs) = true ∧ dict_get "user_id" kvs = Some (JStr id).

Lemma jget_default_plain k d kvs (x x' : X) v :
  json_plain (JObj kvs) = true → json_plain d = true →
  jget_default k d (JObj kvs) x = (x', inr v) → json_plain v = true.
Proof.
  intros Hp Hd. unfold jget_default. intros [= _ <-].
  destruct (dict_get k kvs) as [v|] eqn:Hk; [by eapply plain_get|done].
Qed.

(** A login token carries no audience. *)
Lemma mint_login_returns kvs id (x x' : X) tok ttl :
  json_plain (JObj kvs) = true → dict_get "user_id" kvs = Some (JStr id) →
  mint_login_token idp (JObj kvs) x = (x', inr (tok, ttl)) →
  ∃ payload, tok = jwt_encode payload (ips_jwt_signing_secret idp) ∧ plain_claims payload = true ∧
    json_plain (JObj payload) = true ∧ dict_get "aud" payload = None.
Proof.
  intros Hp Hid. unfold mint_login_token, login_claims. intros Hb.
  apply bind_returns in Hb as (x1 & now & _ & Hb). apply bind_returns in Hb as (x2 & ttl' & _ & Hb).
  apply bind_returns in Hb as (x3 & payload & Hl & Hb). injection Hb as _ <- ->.
  apply bind_returns in Hl as (y1 & sub & Hs & Hl). apply jget_returns in Hs as (_ & ? & [= <-] & Hs).
  rewrite Hid in Hs. injection Hs as <-.
  apply bind_returns in Hl as (y2 & tenant & Ht & Hl). apply jget_returns in Ht as (_ & ? & [= <-] & Ht).
  apply (plain_get _ _ _ Hp) in Ht.
  apply bind_returns in Hl as (y3 & emp & He & Hl). injection He as _ <-.
  pose proof (plain_get_opt kvs "employee_id" Hp) as He.
  apply bind_returns in Hl as (y4 & role & Hr & Hl). apply jget_returns in Hr as (_ & ? & [= <-] & Hr).
  apply (plain_get _ _ _ Hp) in Hr.
  apply bind_returns in Hl as (y5 & perms & Hpe & Hl). apply jget_default_plain in Hpe; [|done|done].
  apply bind_returns in Hl as (y6 & sc & Hsc & Hl). apply jget_default_plain in Hsc; [|done|done].
  apply bind_returns in Hl as (y7 & acl & Hacl & Hl). apply jget_default_plain in Hacl; [|done|done].
  injection Hl as _ <-. eexists. split; [done|]. unfold plain_claims. cbn -[bool_decide].
  rewrite Ht, He, Hr, Hpe, Hsc, Hacl. done.
Qed.

Lemma login_returns body (x x' : X) resp tok :
  directory_plain → token idp directory body x = (x', inr resp) → access_token_of resp = Some tok →
  ∃ payload, tok = jwt_encode payload (ips_jwt_signing_secret idp) ∧ plain_claims payload = true ∧
    json_plain (JObj payload) = true ∧ dict_get "aud" payload = None.
Proof.
  intros Hd. unfold token. intros Hb Htok.
  apply bind_returns in Hb as (x1 & user & Hu & Hb). apply bind_returns in Hb as (x2 & [tok' ttl] & Hm & Hb).
  injection Hb as _ <-. cbn in Htok. injection Htok as ->. unfold find_user in Hu.
  destruct (dict_get "user_id" body) as [id|]; cbn in Hu; [|done]. destruct (String.eqb id ""); [done|].
  destruct (directory_get directory id) as [user'|] eqn:Hdir; [|done]. injection Hu as _ <-.
  destruct (Hd id user' Hdir) as (kvs & -> & Hp & Hid). by eapply mint_login_returns.
Qed.

(** The audience alone decides. *)
Lemma refused_audience payload key issuer audience t :
  plain_claims payload = true → audience_ok audience payload = false →
  ∃ msg, jwt_verify (jwt_encode payload key) key issuer audience t = inl (InvalidTokenError msg).
Proof. intros Hp Ha. apply jwt_verify_bad; [done|]. unfold registered_claims_ok. by rewrite Ha, andb_false_r. Qed.

(** The two kinds of token cannot stand in for each other. A login token,
    presented to mock-business-api as an access token, is refused with 401 by
    every action that wants one, at any time; and the token mock-idp gives for
    it in an exchange, presented back to mock-idp, is refused with 401 by the
    user-info endpoint and by a second exchange, at any time. *)
Theorem token_kinds_disjoint body (x x' : X) resp login :
  same_issuer → directory_plain →
  token idp directory body x = (x', inr resp) → access_token_of resp = Some login →
  (∀ hs h action (w : BizState X) x2 t,
     is_Some (dict_get action TOKEN_EXCHANGE_REQUIRED_SCOPES) →
     request_header hs "Authorization" = Some ("Bearer " +:+ login) → time_time (bz_ext w) = (x2, inr t) →
     answers (Some 401%Z) (verify_token_exchange biz hs h action w).2) ∧
  (∀ grant ttype audience scope y y' resp' tok x3 x4 t,
     token_exchange idp directory grant login ttype audience scope y = (y', inr resp') →
     access_token_of resp' = Some tok → audience ≠ "" → time_time x3 = (x4, inr t) →
     (∃ d, (userinfo idp (Some ("Bearer " +:+ tok)) x3).2 = inl (HTTPException 401 (JStr d) [])) ∧
     (∀ audience' scope',
        ∃ d, (token_exchange idp directory grant tok ttype audience' scope' x3).2
             = inl (HTTPException 401 (JStr d) []))).
Proof.
  intros [Hsec Hiss] Hdir Hlogin Htok.
  destruct (login_returns _ _ _ _ _ Hdir Hlogin Htok) as (payload & -> & Hpc & Hplain & Haud). split.
  - intros hs h action w x2 t [required Hreq] Hhdr Htime.
    destruct (refused_audience payload (ips_jwt_signing_secret idp) (ips_jwt_issuer idp) (Some "business-api") t)
      as [msg Hbad]; [done|by unfold audience_ok; rewrite Haud|].
    unfold verify_token_exchange. rewrite Hreq, Hhdr, (startswith_app "Bearer "), (removeprefix_app "Bearer ").
    unfold bind at 1, try_except, on_ext, zoom, verify_exchange_token, bind at 1.
    rewrite Htime, Hsec, Hiss, Hbad. by eexists.
  - intros grant ttype audience scope y y' resp' tok x3 x4 t Hx Ha Hne Htime.
    apply token_exchange_returns in Hx as Hx'.
    destruct Hx' as (claims & t0 & sub & user & tenant & now & ttl & Hv & Hs & Hd & Ht & Ha').
    rewrite Ha in Ha'. injection Ha' as ->.
    assert (Hclaims : json_plain (JObj claims) = true).
    { destruct (registered_claims_ok (ips_jwt_issuer idp) None t0 payload) eqn:Hreg.
      - rewrite (jwt_verify_ok _ _ _ _ _ Hpc Hreg) in Hv. by injection Hv as <-.
      - destruct (jwt_verify_bad _ (ips_jwt_signing_secret idp) _ _ _ Hpc Hreg) as [msg Hbad]. congruence. }
    destruct (refused_audience (exchange_payload (JStr sub) tenant
        (from_option id JNull (dict_get "employee_id" claims)) audience scope now ttl)
      (ips_jwt_signing_secret idp) (ips_jwt_issuer idp) None t) as [msg Hbad].
    { apply exchange_payload_plain; [by eapply plain_get|by apply plain_get_opt]. }
    { unfold audience_ok. cbn. destruct (str_eqb_spec audience ""); done. }
    assert (Hver : ∀ tk, tk = jwt_encode (exchange_payload (JStr sub) tenant
        (from_option id JNull (dict_get "employee_id" claims)) audience scope now ttl) (ips_jwt_signing_secret idp) →
      token_error_401 (verify_subject_token idp tk) x3
        = (x4, inl (HTTPException 401 (JStr ("invalid subject_token: " +:+ msg)) []))).
    { intros tk ->. unfold token_error_401, try_except, verify_subject_token, bind. by rewrite Htime, Hbad. }
    split.
    + unfold userinfo. rewrite (startswith_app "Bearer "), (removeprefix_app "Bearer ").
      rewrite (bind_inl _ _ _ _ _ (Hver _ eq_refl)). by eexists.
    + intros audience' scope'. unfold token_exchange in Hx |- *.
      destruct (negb _); [done|]. destruct (negb _); [done|].
      rewrite (bind_inl _ _ _ _ _ (Hver _ eq_refl)). by eexists.
Qed.
End Identity.

(** ** At a concrete login *)
Module Witness.
Export BusinessProps.Witness.

Definition idp : IdpSettings := MkIdpSettings "secret" "duta-demo" (f64_of_Z 900) (f64_of_Z 60) "tnt_eval".
Definition user : json := JObj [("user_id", JStr "usr_budi"); ("tenant_id", JStr "tnt_demo");
  ("employee_id", JStr "emp_001"); ("role", JStr "employee"); ("permissions", JArr [JStr "leave.request.create"])].
Definition directory : UserDirectory := [("usr_budi", user)].

Definition login : exn + json := (MockIdp.token idp directory [("user_id", "usr_budi")] 0%nat).2.
Definition login_response : json := match login with inr r => r | inl _ => JNull end.
Definition login_token : string := from_option id "" (access_token_of login_response).

Definition grant : string := "urn:ietf:params:oauth:grant-type:token-exchange".
Definition jwt : string := "urn:ietf:params:oauth:token-type:jwt".

Definition exchanged : exn + json :=
  (token_exchange idp directory grant login_token jwt "business-api" "leave:write" 0%nat).2.
Definition exchange_response : json := match exchanged with inr r => r | inl _ => JNull end.

Lemma login_run : MockIdp.token idp directory [("user_id", "usr_budi")] 0%nat = (0%nat, inr login_response).
Proof. vm_compute. reflexivity. Qed.

Lemma exchange_run :
  token_exchange idp directory grant login_token jwt "business-api" "leave:write" 0%nat
  = (0%nat, inr exchange_response).
Proof. vm_compute. reflexivity. Qed.

Lemma directory_is_plain : directory_plain directory.
Proof.
  intros id u. cbn. destruct (str_eqb_spec id "usr_budi") as [->|]; [|done]. intros [= <-].
  eexists. split; [reflexivity|]. split; vm_compute; reflexivity.
Qed.


Lemma token_kinds_disjoint_witness :
  ∃ w : BizState nat, answers (Some 401%Z)
    (verify_token_exchange settings [("authorization", "Bearer " +:+ login_token)]
       (MkActorHeaders "t" "tnt_demo" "usr_budi" "agent" None) "submit_leave_request" w).2.
Proof.
  assert (Hi : same_issuer idp settings) by (split; reflexivity).
  assert (Ha : access_token_of login_response = Some login_token) by (vm_compute; reflexivity).
  exists start.
  exact (proj1 (token_kinds_disjoint idp settings directory [("user_id", "usr_budi")] 0%nat 0%nat login_response
    login_token Hi directory_is_plain login_run Ha) [("authorization", "Bearer " +:+ login_token)]
    (MkActorHeaders "t" "tnt_demo" "usr_budi" "agent" None) "submit_leave_request" start 0%nat (f64_of_Z 1000)
    (mk_is_Some _ _ eq_refl) eq_refl eq_refl).
Defined.
End Witness.
