(* ===== verification/EvalDb.v ===== *)
(** eval: settings ([config.py]), the [eval] schema (migrations 0006, 0011), the
    session and the statements ([persistence/db.py], [persistence/repository.py])
    and the golden set's loader ([datasets/loader.py]). *)
From S2P Require Import Prelude PyStr Json Http Contracts EvalGate.

(* @ eval_service/config.py:8-63 Settings *)
Record EvalSettings := MkEvalSettings {
  evs_max_retries : Z;
  evs_retry_backoff_seconds : float64;
  evs_smoke_per_tag_quota : Z;
  evs_smoke_sample_size : Z;
  evs_golden_set_path : string;
  evs_langfuse_public_key : string;
  evs_langfuse_secret_key : string;
  evs_reports_dir : string
}.

(** ** JSONB

    A JSONB column does not keep the order of an object's keys: they come back by
    length, then bytewise. Numbers are decimals, without a negative zero. *)
Definition jsonb_key_le (a b : string) : bool :=
  (slen a <? slen b)%Z || ((slen a =? slen b)%Z && String.leb a b).

Definition jsonb_sort {A} : list (string * A) → list (string * A) :=
  sort_by (fun a b => jsonb_key_le a.1 b.1).

Definition jsonb_float (f : float64) : float64 :=
  match f with SpecFloat.S754_zero _ => f64_zero | _ => f end.

Fixpoint jsonb_norm (j : json) : json :=
  match j with
  | JFloat f => JFloat (jsonb_float f)
  | JArr l => JArr (map jsonb_norm l)
  | JObj kvs => JObj (jsonb_sort (map (fun kv => (kv.1, jsonb_norm kv.2)) kvs))
  | _ => j
  end.

(** [CAST(:v AS jsonb)]. *)
Definition to_jsonb {S} (j : json) : py S json :=
  match cast_jsonb j with Some e => raise e | None => ret (jsonb_norm j) end.

(** ** Values bound to typed columns *)

Definition data_error {S A} : py S A := raise (OtherException "DataError" "invalid input for query argument").

(** [TEXT NOT NULL]. *)
Definition col_text {S} (j : json) : py S string :=
  match j with
  | JStr s => if no_nul s then ret s else data_error
  | JNull => raise (IntegrityError "not-null constraint")
  | _ => data_error
  end.

(** [TEXT]. *)
Definition col_opt_text {S} (j : json) : py S (option string) :=
  match j with JNull => ret None | _ => let! s := col_text j in ret (Some s) end.

(** [TEXT[] NOT NULL]. *)
Definition col_texts {S} (j : json) : py S (list string) :=
  match j with
  | JArr l => map_each col_text l
  | JNull => raise (IntegrityError "not-null constraint")
  | _ => data_error
  end.

(** [BOOLEAN NOT NULL]. *)
Definition col_bool {S} (j : json) : py S bool :=
  match j with
  | JBool b => ret b
  | JNull => raise (IntegrityError "not-null constraint")
  | _ => data_error
  end.

(** ** Tables *)

(* @ migrations/versions/0006_eval.py:28-34 eval.datasets *)
Record EvalDataset := MkEvalDataset {
  eds_name : string;
  eds_agent_id : string;
  eds_description : option string
}.

(* @ migrations/versions/0006_eval.py:70-83 eval.runs *)
Record EvalRun := MkEvalRun {
  evr_dataset_id : string;
  evr_agent_id : string;
  evr_agent_version : string;
  evr_prompt_version : string;
  evr_model_alias : string;
  evr_git_sha : string;
  evr_dataset_version : string;
  evr_scores : json;
  evr_passed : bool;
  evr_is_baseline : bool
}.
#[export] Instance eta_EvalRun : EtaRec EvalRun := fun x =>
  MkEvalRun (evr_dataset_id x) (evr_agent_id x) (evr_agent_version x) (evr_prompt_version x)
    (evr_model_alias x) (evr_git_sha x) (evr_dataset_version x) (evr_scores x) (evr_passed x)
    (evr_is_baseline x).

(* @ migrations/versions/0006_eval.py:91-101 eval.baseline_changes *)
Record BaselineChange := MkBaselineChange {
  blc_dataset_id : string;
  blc_agent_id : string;
  blc_from_run_id : option string;
  blc_to_run_id : string;
  blc_reason : string;
  blc_changed_by : string;
  blc_auto : bool
}.

(** A row of [eval.judge_cache]: item, response hash, judge model and metric, to
    the score and the judge's reason. *)
Abbreviation JudgeCache := (gmap (string * string * string * string) (float64 * option string)).

Record EvalDb := MkEvalDb {
  edb_datasets : gmap string EvalDataset;
  edb_items : gmap string EvalItem;
  edb_runs : gmap string EvalRun;
  edb_baseline_changes : gmap string BaselineChange;
  edb_judge_cache : JudgeCache
}.
#[export] Instance eta_EvalDb : EtaRec EvalDb := fun x =>
  MkEvalDb (edb_datasets x) (edb_items x) (edb_runs x) (edb_baseline_changes x) (edb_judge_cache x).

(** What a command of the service sees: the tables, the services it calls, its
    files and its output. *)
Record EvalState (X : Type) := MkEvalState {
  es_db : EvalDb;
  es_ext : X;
  es_files : gmap string string;
  es_stdout : list string
}.
Arguments MkEvalState {X}.
Arguments es_db {X}.
Arguments es_ext {X}.
Arguments es_files {X}.
Arguments es_stdout {X}.
#[export] Instance eta_EvalState {X} : EtaRec (EvalState X) := fun x =>
  MkEvalState (es_db x) (es_ext x) (es_files x) (es_stdout x).

(** The order in which [SELECT] without [ORDER BY] answers: the planner's. *)
Class ItemsScan := items_scan : gmap string EvalItem → list EvalItem.
Class ItemsScanLaws `{ItemsScan} : Prop :=
  items_scan_perm m : items_scan m ≡ₚ (map_to_list m).*2.

Section Repository.
  Context {X : Type}.
  Abbreviation W := (EvalState X).

(** One transaction; what the block does outside the database is not undone. *)
(* @ eval_service/persistence/db.py:13-21 session *)
Definition session {A} (body : py W A) : py W A :=
  fun s =>
    match body s with
    | (s', inr a) => (s', inr a)
    | (s', inl e) => (s' <| es_db := es_db s |>, inl e)
    end.

Definition in_ext {A} : py X A → py W A := zoom es_ext (fun x s => s <| es_ext := x |>).
Definition on_eval_db (f : EvalDb → EvalDb) : py W unit := modify (fun s => s <| es_db ::= f |>).
Definition print (line : string) : py W unit := modify (fun s => s <| es_stdout ::= (fun l => l ++ [line]) |>).
Definition write_text (path text : string) : py W unit := modify (fun s => s <| es_files ::= <[path := text]> |>).
Definition read_text (path : string) : py W string :=
  let! files := gets es_files in
  match files !! path with Some t => ret t | None => raise (OtherException "FileNotFoundError" path) end.

Definition fk_dataset (d : EvalDb) (dataset_id constraint : string) : py W unit :=
  match edb_datasets d !! dataset_id with Some _ => ret tt | None => raise (IntegrityError constraint) end.

(** ** persistence/repository.py *)

(* @ eval_service/persistence/repository.py:14-25 upsert_dataset *)
Definition upsert_dataset (dataset_id name agent_id : string) (description : option string) : py W unit :=
  let! d := gets es_db in
  if existsb (fun kv => String.eqb (eds_name kv.2) name && negb (String.eqb kv.1 dataset_id))
       (map_to_list (edb_datasets d))
  then raise (IntegrityError "datasets_name_key")
  else on_eval_db (fun d => d <| edb_datasets ::= <[dataset_id := MkEvalDataset name agent_id description]> |>).

(* @ eval_service/persistence/repository.py:28-74 upsert_item *)
Definition upsert_item (item : json) : py W unit :=
  let! id := jget "id" item in
  let! dataset_id := jget "dataset_id" item in
  let! question := jget "question" item in
  let! ground_truth := jget_opt "ground_truth" item in
  let! contexts := jget_opt "contexts" item in
  let! actor_user_id := jget "actor_user_id" item in
  let! actor_role := jget "actor_role" item in
  let! acl := jget_default "actor_acl_group_ids" (JArr []) item in
  let! required_tools := jget_default "expected_required_tools" (JArr []) item in
  let! forbidden_tools := jget_default "forbidden_tools" (JArr []) item in
  let! allowed_mutations := jget_default "allowed_mutations" (JArr []) item in
  let! should_refuse := jget_default "should_refuse" (JBool false) item in
  let! terms := jget_default "forbidden_output_terms" (JArr []) item in
  let! allowed_pii := jget_default "allowed_pii" (JArr []) item in
  let! expects_citation := jget_default "expects_citation" (JBool true) item in
  let! tags := jget_default "tags" (JArr []) item in
  let! difficulty := jget_opt "difficulty" item in
  let! source_trace := jget_opt "source_trace" item in
  let! id := col_text id in
  let! dataset_id := col_text dataset_id in
  let! question := col_text question in
  let! ground_truth := col_opt_text ground_truth in
  let! contexts := to_jsonb contexts in
  let! actor_user_id := col_text actor_user_id in
  let! actor_role := col_text actor_role in
  let! acl := col_texts acl in
  let! required_tools := col_texts required_tools in
  let! forbidden_tools := col_texts forbidden_tools in
  let! allowed_mutations := col_texts allowed_mutations in
  let! should_refuse := col_bool should_refuse in
  let! terms := col_texts terms in
  let! allowed_pii := col_texts allowed_pii in
  let! expects_citation := col_bool expects_citation in
  let! tags := col_texts tags in
  let! difficulty := col_opt_text difficulty in
  let! source_trace := col_opt_text source_trace in
  let! d := gets es_db in
  fk_dataset d dataset_id "items_dataset_id_fkey" ;!
  on_eval_db (fun d => d <| edb_items ::= <[id :=
    MkEvalItem id dataset_id question ground_truth contexts actor_user_id actor_role acl required_tools
      forbidden_tools allowed_mutations should_refuse terms allowed_pii expects_citation tags difficulty
      source_trace]> |>).

(* @ eval_service/persistence/repository.py:77-90 get_items *)
Definition get_items `{ItemsScan} (dataset_id : string) (item_ids : option (list string)) : py W (list EvalItem) :=
  gets (fun s => List.filter (fun i =>
    String.eqb (eit_dataset_id i) dataset_id &&
    match item_ids with Some ids => str_in (eit_id i) ids | None => true end)
    (items_scan (edb_items (es_db s)))).

(* @ eval_service/persistence/repository.py:93-127 insert_run *)
Definition insert_run (run_id dataset_id agent_id agent_version prompt_version model_alias git_sha
    dataset_version : string) (scores : json) (passed : bool) : py W unit :=
  let! scores := to_jsonb scores in
  let! d := gets es_db in
  match edb_runs d !! run_id with
  | Some _ => raise (IntegrityError "runs_pkey")
  | None =>
      fk_dataset d dataset_id "runs_dataset_id_fkey" ;!
      on_eval_db (fun d => d <| edb_runs ::= <[run_id :=
        MkEvalRun dataset_id agent_id agent_version prompt_version model_alias git_sha dataset_version
          scores passed false]> |>)
  end.

(* @ eval_service/persistence/repository.py:130-133 get_run *)
Definition get_run (run_id : string) : py W (option EvalRun) :=
  gets (fun s => edb_runs (es_db s) !! run_id).

(** [WHERE dataset_id = ... AND agent_id = ... AND is_baseline]. *)
Definition is_baseline_of (dataset_id agent_id : string) (r : EvalRun) : bool :=
  String.eqb (evr_dataset_id r) dataset_id && String.eqb (evr_agent_id r) agent_id && evr_is_baseline r.

(* @ eval_service/persistence/repository.py:136-147 get_baseline_run *)
Definition get_baseline_run (dataset_id agent_id : string) : py W (option (string * EvalRun)) :=
  gets (fun s => head (List.filter (fun kv => is_baseline_of dataset_id agent_id kv.2)
                         (map_to_list (edb_runs (es_db s))))).

(** The partial unique index on [(dataset_id, agent_id) WHERE is_baseline], for the
    row [run_id] about to become a baseline. *)
(* @ migrations/versions/0006_eval.py:87-87 runs_dataset_id_agent_id_idx *)
Definition other_baseline (d : EvalDb) (run_id : string) (r : EvalRun) : bool :=
  existsb (fun kv => negb (String.eqb kv.1 run_id) && is_baseline_of (evr_dataset_id r) (evr_agent_id r) kv.2)
    (map_to_list (edb_runs d)).

(* @ eval_service/persistence/repository.py:165-171 promote_baseline: the old baseline *)
Definition clear_baseline (dataset_id agent_id : string) : py W unit :=
  on_eval_db (fun d => d <| edb_runs ::= fmap (fun r =>
    if is_baseline_of dataset_id agent_id r then r <| evr_is_baseline := false |> else r) |>).

(* @ eval_service/persistence/repository.py:172-174 promote_baseline: the new baseline *)
Definition set_baseline (run_id : string) : py W unit :=
  let! d := gets es_db in
  match edb_runs d !! run_id with
  | None => ret tt
  | Some r =>
      if other_baseline d run_id r then raise (IntegrityError "runs_dataset_id_agent_id_idx")
      else on_eval_db (fun d => d <| edb_runs ::= <[run_id := r <| evr_is_baseline := true |>]> |>)
  end.

Definition run_exists (d : EvalDb) (run_id : string) : bool := bool_decide (is_Some (edb_runs d !! run_id)).

(* @ eval_service/persistence/repository.py:175-192 promote_baseline: the change *)
Definition insert_baseline_change (id : string) (row : BaselineChange) : py W unit :=
  let! d := gets es_db in
  if bool_decide (is_Some (edb_baseline_changes d !! id)) then raise (IntegrityError "baseline_changes_pkey")
  else
    fk_dataset d (blc_dataset_id row) "baseline_changes_dataset_id_fkey" ;!
    (if from_option (run_exists d) true (blc_from_run_id row) then ret tt
     else raise (IntegrityError "baseline_changes_from_run_id_fkey")) ;!
    (if run_exists d (blc_to_run_id row) then ret tt
     else raise (IntegrityError "baseline_changes_to_run_id_fkey")) ;!
    on_eval_db (fun d => d <| edb_baseline_changes ::= <[id := row]> |>).

(* @ eval_service/persistence/repository.py:150-192 promote_baseline *)
Definition promote_baseline (baseline_change_id dataset_id agent_id : string) (from_run_id : option string)
    (to_run_id reason changed_by : string) (auto : bool) : py W unit :=
  clear_baseline dataset_id agent_id ;!
  set_baseline to_run_id ;!
  insert_baseline_change baseline_change_id
    (MkBaselineChange dataset_id agent_id from_run_id to_run_id reason changed_by auto).

(* @ eval_service/persistence/repository.py:195-217 get_cached_judge_score *)
Definition get_cached_judge_score (item_id response_hash judge_model_version metric : string)
    : py W (option float64) :=
  gets (fun s => fst <$> edb_judge_cache (es_db s) !! (item_id, response_hash, judge_model_version, metric)).

(* @ eval_service/persistence/repository.py:220-246 put_cached_judge_score *)
Definition put_cached_judge_score (item_id response_hash judge_model_version metric : string)
    (score : float64) (reason : option string) : py W unit :=
  if from_option no_nul true reason && no_nul item_id then
    on_eval_db (fun d => d <| edb_judge_cache ::=
      <[(item_id, response_hash, judge_model_version, metric) := (score, reason)]> |>)
  else data_error.

(** ** datasets/loader.py *)

(* @ eval_service/datasets/loader.py:20-22 load_golden_set_file *)
Definition load_golden_set_file `{YamlLoad} (path : string) : py W json :=
  let! text := read_text path in
  match yaml_load text with Some j => ret j | None => raise (OtherException "YAMLError" path) end.

(** [{**item, "dataset_id": ...}]. *)
Definition with_dataset (dataset_id : string) (item : json) : py W json :=
  match item with
  | JObj kvs => ret (JObj (dict_set "dataset_id" (JStr dataset_id) kvs))
  | _ => raise (TypeError "object is not a mapping")
  end.

(* @ eval_service/datasets/loader.py:25-39 sync_golden_set *)
Definition sync_golden_set `{YamlLoad} (path : string) : py W (string * string * nat) :=
  let! raw := load_golden_set_file path in
  let! dataset := jget "dataset" raw in
  let! id := jget "id" dataset in
  let! name := jget "name" dataset in
  let! agent_id := jget "agent_id" dataset in
  let! description := jget_opt "description" dataset in
  let! dataset_id := col_text id in
  let! name := col_text name in
  let! agent_id := col_text agent_id in
  let! description := col_opt_text description in
  upsert_dataset dataset_id name agent_id description ;!
  let! items := (let! v := jget "items" raw in py_iter v) in
  for_each items (fun item => let! row := with_dataset dataset_id item in upsert_item row) ;!
  ret (dataset_id, agent_id, length items).
End Repository.
