(* ===== verification/EvalRun.v ===== *)
(** eval: the clients ([clients/gateway.py], [clients/mock_idp.py]), the judge with
    its cache ([metrics/judged.py]), one run ([runner.py]) and the commands that
    run it and gate it ([run.py], [gate/__main__.py]).

    [run_eval] gathers its items under a semaphore of [concurrency]; here they run
    one after the other. Items share nothing but the judge cache, whose key holds
    the item's id, so each item's result is the one it has alone, given the
    answers of the services. *)
From S2P Require Import Prelude PyStr Json Presidio Http Contracts Wire EvalGate EvalDb.

(** [asyncio.sleep(seconds)]. *)
Class SleepFor (X : Type) := sleep_for : float64 → py X unit.

(* @ eval_service/metrics/judged.py:33-33 METRIC_NAMES *)
Definition METRIC_NAMES : list string := ["faithfulness"; "answer_relevancy"; "context_precision"; "context_recall"].

(** Ragas: one metric over a [SingleTurnSample]. *)
Record SingleTurnSample := MkSingleTurnSample {
  sts_user_input : string;
  sts_response : string;
  sts_retrieved_contexts : list string;
  sts_reference : string
}.
Class Ragas (X : Type) := single_turn_ascore : string → SingleTurnSample → py X float64.

(** [sum(l)] on floats: compensated (Neumaier) summation, as CPython 3.12 computes it. *)
Definition f64_finite (f : float64) : bool :=
  match f with SpecFloat.S754_infinity _ | SpecFloat.S754_nan => false | _ => true end.

Fixpoint neumaier (total c : float64) (l : list float64) : float64 :=
  match l with
  | [] => if negb (f64_leb c f64_zero && f64_leb f64_zero c) && f64_finite c then f64_add total c else total
  | x :: l' =>
      let t := f64_add total x in
      let c' := if f64_leb (SpecFloat.SFabs x) (SpecFloat.SFabs total)
                then f64_add c (f64_add (f64_sub total t) x)
                else f64_add c (f64_add (f64_sub x t) total) in
      neumaier t c' l'
  end.

Definition py_sum (l : list float64) : float64 :=
  match l with [] => f64_zero | x :: l' => neumaier (f64_add f64_zero x) f64_zero l' end.

Definition f64_len {A} (l : list A) : float64 := f64_of_Z (Z.of_nat (length l)).

(** [{k: v for ...}]: a repeated key keeps its place and takes the last value. *)
Definition dict_of {A} (l : list (string * A)) : list (string * A) :=
  fold_left (fun d kv => dict_set kv.1 kv.2 d) l [].

(** ** runner.py: one item's result *)

(* @ eval_service/runner.py:37-53 ItemResult *)
Record ItemResult := MkItemResult {
  itr_item_id : string;
  itr_tags : list string;
  itr_error : option string;
  itr_deterministic : scores_of;
  itr_ragas_samples : list (string * list float64);
  itr_judge_errors : list string
}.
#[export] Instance eta_ItemResult : EtaRec ItemResult := fun x =>
  MkItemResult (itr_item_id x) (itr_tags x) (itr_error x) (itr_deterministic x) (itr_ragas_samples x)
    (itr_judge_errors x).

(* @ eval_service/runner.py:34-34 TIER_DEFAULT_K *)
Definition TIER_DEFAULT_K : list (string * Z) := [("smoke", 1%Z); ("full", 3%Z); ("nightly", 3%Z)].

(* @ eval_service/metrics/judged.py:31-31 JUDGE_MODEL_VERSION *)
Definition JUDGE_MODEL_VERSION : string := "eval-judge@qwen2.5-3b@v1".

(** [result.ragas_samples.setdefault(name, []).append(score)]. *)
Definition add_sample (samples : list (string * list float64)) (kv : string * float64)
    : list (string * list float64) :=
  dict_set kv.1 (from_option id [] (dict_get kv.1 samples) ++ [kv.2]) samples.

(** The score an item contributes to one specification. *)
(* @ eval_service/runner.py:139-141 aggregate_deterministic: one item *)
Definition spec_value (name : string) (kind : SpecKind) (r : ItemResult) : option float64 :=
  match itr_error r, dict_get name (itr_deterministic r) with
  | None, Some v => Some v
  | None, None => None
  | Some _, _ => match kind with mean_threshold => Some f64_zero | count_zero => None end
  end.

(* @ eval_service/runner.py:145-148 aggregate_deterministic: one metric *)
Definition aggregate_one (kind : SpecKind) (clean_values : list float64) : float64 :=
  match kind, clean_values with
  | mean_threshold, [] => f64_of_Z 1
  | mean_threshold, _ => f64_div (py_sum clean_values) (f64_len clean_values)
  | count_zero, [] => f64_zero
  | count_zero, _ => py_sum clean_values
  end.

(* @ eval_service/runner.py:131-149 aggregate_deterministic *)
Definition aggregate_deterministic (results : list ItemResult) : scores_of :=
  (fun '(name, (kind, _)) => (name, aggregate_one kind (omap (spec_value name kind) results))) <$>
    DETERMINISTIC_SPECS.

Definition item_samples (metric_name : string) (r : ItemResult) : option (string * list float64) :=
  match itr_error r with
  | Some _ => None
  | None => (fun l => (itr_item_id r, l)) <$> dict_get metric_name (itr_ragas_samples r)
  end.

(* @ eval_service/runner.py:152-162 _ragas_medians *)
Definition ragas_medians `{Numpy} (results : list ItemResult) : medians_of :=
  omap (fun metric_name =>
    match dict_of (omap (item_samples metric_name) results) with
    | [] => None
    | per_item => Some (metric_name, median_per_item per_item)
    end) METRIC_NAMES.

(** ** The scores document *)

Definition dump_floats (d : scores_of) : json := JObj ((fun kv => (kv.1, JFloat kv.2)) <$> d).

Definition dump_medians (m : medians_of) : json := JObj ((fun kv => (kv.1, dump_floats kv.2)) <$> m).

(* @ eval_service/runner.py:257-257 asdict *)
Definition dump_metric (m : MetricVerdict) : json :=
  JObj [("name", JStr (mv_name m)); ("passed", JBool (mv_passed m)); ("value", JFloat (mv_value m));
        ("detail", JStr (mv_detail m)); ("zero_tolerance", JBool (mv_zero_tolerance m));
        ("overridable", JBool (mv_overridable m))].

Definition dump_item_result (r : ItemResult) : json :=
  JObj [("tags", j_strs (itr_tags r)); ("deterministic", dump_floats (itr_deterministic r));
        ("ragas", JObj ((fun kv => (kv.1, JArr (JFloat <$> kv.2))) <$> itr_ragas_samples r));
        ("error", j_opt_str (itr_error r)); ("judge_errors", j_strs (itr_judge_errors r))].

(* @ eval_service/runner.py:240-259 scores_payload *)
Definition scores_payload (tier : string) (k : Z) (deterministic : scores_of) (medians : medians_of)
    (results : list ItemResult) (verdict : Verdict) : json :=
  JObj [("tier", JStr tier); ("k", JInt k); ("deterministic", dump_floats deterministic);
        ("ragas_medians", dump_medians medians);
        ("per_item", JObj (dict_of ((fun r => (itr_item_id r, dump_item_result r)) <$> results)));
        ("verdict", JObj [("passed", JBool (verdict_passed verdict));
                          ("metrics", JArr (dump_metric <$> verdict))])].

(** A score read back: JSON numbers used as floats. *)
Definition as_float {S} (j : json) : py S float64 :=
  match j with
  | JFloat f => ret f
  | JInt z => ret (f64_of_Z z)
  | _ => raise (TypeError "must be real number")
  end.

Definition as_items {S} (j : json) : py S pydict :=
  match j with
  | JObj kvs => ret kvs
  | _ => raise (OtherException "AttributeError" "object has no attribute 'get'")
  end.

Definition read_floats {S} (j : json) : py S scores_of :=
  let! kvs := as_items j in
  map_each (fun '(k, v) => let! f := as_float v in ret (k, f)) kvs.

(** [scores.get("ragas_medians")], with the falsy ones as [None]. *)
Definition read_medians {S} (scores : json) : py S (option medians_of) :=
  let! v := jget_opt "ragas_medians" scores in
  if truthy v then
    let! kvs := as_items v in
    let! m := map_each (fun '(k, v) => let! d := read_floats v in ret (k, d)) kvs in
    ret (Some m)
  else ret None.

Section Eval.
  Context {X : Type} `{HttpPost X, Uuid X, SleepFor X, Ragas X}.
  Context `{Pydantic, Sha256, YamlLoad, ItemsScan, Presidio, Numpy, FloatFixed, FloatRepr}.
  Variable settings : EvalSettings.
  Abbreviation W := (EvalState X).

(** ** The clients *)

(* @ eval_service/clients/mock_idp.py:16-20 MockIdpClient.impersonate *)
Definition impersonate (user_id : string) : py X json :=
  let! response := http_post IdentityProvider "/oauth/eval-impersonate" [] (JObj [("user_id", JStr user_id)]) in
  raise_for_status response ;!
  jget "access_token" (hr_json response).

(** [str(uuid.uuid4())]: the 32 hexadecimal digits in five groups. *)
Definition uuid_str (h : string) : string :=
  str_join "-" [str_slice h 0 8; str_slice h 8 12; str_slice h 12 16; str_slice h 16 20; str_slice h 20 32].

(** The retry loop: [retries_left] is [max_retries - attempt + 1]. *)
(* @ eval_service/clients/gateway.py:46-58 GatewayClient.invoke *)
Fixpoint gateway_attempts (headers : list (string * string)) (body : json) (retries_left : nat) (attempt : Z)
    : py X AgentInvokeResponse :=
  let! response := http_post PublicGateway "/v1/agent/invoke" headers body in
  if (hr_status_code response =? 200)%Z
  then model_validate "AgentInvokeResponse" validate_response (hr_json response)
  else match retries_left with
  | S n =>
      if ((hr_status_code response =? 429) || (hr_status_code response =? 503))%Z then
        sleep_for (f64_mul (evs_retry_backoff_seconds settings) (f64_of_Z attempt)) ;!
        gateway_attempts headers body n (attempt + 1)
      else raise (GatewayError (hr_status_code response) (hr_text response))
  | O => raise (GatewayError (hr_status_code response) (hr_text response))
  end.

(* @ eval_service/clients/gateway.py:38-58 GatewayClient.invoke *)
Definition gateway_invoke (token agent_id question : string) : py X AgentInvokeResponse :=
  let! h := uuid4_hex in
  let headers := [(header_name AUTHORIZATION, "Bearer " +:+ token);
                  (header_name IDEMPOTENCY_KEY, uuid_str h); (header_name EVAL_MODE, "true")] in
  let body := JObj [("agent_id", JStr agent_id);
                    ("input", JObj [("type", JStr "text"); ("content", JStr question)])] in
  gateway_attempts headers body (Z.to_nat (evs_max_retries settings)) 1.

(** ** metrics/judged.py *)

(* @ eval_service/metrics/judged.py:36-37 response_hash *)
Definition response_hash (text : string) : string := sha256 text.

(** The judge through its cache, for one metric. *)
(* @ eval_service/metrics/judged.py:102-121 JudgeRunner.score_item: one metric *)
Definition score_metric (item_id resp_hash : string) (sample : SingleTurnSample) (name : string)
    : py W float64 :=
  let! cached := get_cached_judge_score item_id resp_hash JUDGE_MODEL_VERSION name in
  match cached with
  | Some score => ret score
  | None =>
      let! score := in_ext (single_turn_ascore name sample) in
      put_cached_judge_score item_id resp_hash JUDGE_MODEL_VERSION name score None ;!
      ret score
  end.

(* @ eval_service/metrics/judged.py:80-122 JudgeRunner.score_item *)
Definition score_item (item_id question answer : string) (retrieved_contexts : list string)
    (reference : option string) : py W scores_of :=
  let resp_hash := response_hash answer in
  let sample := MkSingleTurnSample question answer
    (match retrieved_contexts with [] => [""] | l => l end) (str_or reference "") in
  map_each (fun name => let! score := score_metric item_id resp_hash sample name in ret (name, score))
    METRIC_NAMES.

(** ** runner.py *)

(** The [k] answers, or the error that ends the item. *)
(* @ eval_service/runner.py:76-88 run_item: the answers *)
Fixpoint ask (k : nat) (token agent_id question : string) : py W (string + list (AgentInvokeResponse * EvalDebugBundle)) :=
  match k with
  | O => ret (inr [])
  | S k' =>
      let! r := try_except
        (let! response := in_ext (gateway_invoke token agent_id question) in ret (inr response))
        (fun e => match e with
                  | GatewayError status detail =>
                      Some (ret (inl ("gateway call failed: HTTP " +:+ Z_to_string status +:+ ": " +:+ detail)))
                  | _ => None
                  end) in
      match r with
      | inl error => ret (inl error)
      | inr response =>
          match res_eval response with
          | None => ret (inl "no _eval bundle on response — eval mode was not honored")
          | Some bundle =>
              let! rest := ask k' token agent_id question in
              match rest with
              | inl error => ret (inl error)
              | inr l => ret (inr ((response, bundle) :: l))
              end
          end
      end
  end.

(** The deterministic metrics of the first answer. *)
(* @ eval_service/runner.py:90-102 run_item: the deterministic metrics *)
Definition deterministic_of (item : EvalItem) (primary : AgentInvokeResponse) (bundle : EvalDebugBundle)
    : py W scores_of :=
  let content := out_content (res_output primary) in
  let! pii := pii_leakage item content in
  ret ([("tool_selection_accuracy", tool_selection_accuracy item bundle);
        ("mutation_safety", mutation_safety item bundle);
        ("refusal_appropriateness", refusal_appropriateness item bundle)] ++
       match citation_validity item bundle (out_citations (res_output primary)) with
       | Some v => [("citation_validity", v)] | None => [] end ++
       [("capability_leak", f64_of_Z (capability_leak item bundle content)); ("pii_leakage", f64_of_Z pii)]).

(** The judge's scores of one answer, added to the result; any exception becomes a
    judge error. *)
(* @ eval_service/runner.py:104-126 run_item: one answer *)
Definition judge_response (item : EvalItem) (result : ItemResult) (r : AgentInvokeResponse * EvalDebugBundle)
    : py W ItemResult :=
  let b := r.2 in
  let contexts := omap (fun cid => dict_get cid (evb_retrieved_chunk_contents b)) (evb_chunks_in_prompt b) in
  try_except
    (let! scores := score_item (eit_id item) (eit_question item) (out_content (res_output r.1)) contexts
       (eit_ground_truth item) in
     ret (result <| itr_ragas_samples := fold_left add_sample scores (itr_ragas_samples result) |>))
    (fun e => Some (ret (result <| itr_judge_errors ::= (fun l => l ++ [exn_str e]) |>))).

(* @ eval_service/runner.py:56-128 run_item *)
Definition run_item (agent_id : string) (k : Z) (item : EvalItem) : py W ItemResult :=
  let result := MkItemResult (eit_id item) (eit_tags item) None [] [] [] in
  let! t := try_except
    (let! token := in_ext (impersonate (eit_actor_user_id item)) in ret (inr token))
    (fun e => if is_httpx_error e then Some (ret (inl ("impersonation failed: " +:+ exn_str e))) else None) in
  match t with
  | inl error => ret (result <| itr_error := Some error |>)
  | inr token =>
      let! answers := ask (Z.to_nat (Z.max k 1)) (py_str token) agent_id (eit_question item) in
      match answers with
      | inl error => ret (result <| itr_error := Some error |>)
      | inr [] => raise (OtherException "IndexError" "list index out of range")
      | inr (((primary, bundle) :: _) as responses) =>
          let! deterministic := deterministic_of item primary bundle in
          foldM (judge_response item) (result <| itr_deterministic := deterministic |>) responses
      end
  end.

(** What [run_eval] returns. *)
Record EvalOutcome := MkEvalOutcome {
  evo_run_id : string;
  evo_dataset_id : string;
  evo_agent_id : string;
  evo_verdict : Verdict;
  evo_scores : json
}.

(* @ eval_service/runner.py:165-172 _extract_ragas_medians_from_run *)
Definition extract_ragas_medians_from_run (run : option (string * EvalRun)) : py W (option medians_of) :=
  match run with None => ret None | Some (_, r) => read_medians (evr_scores r) end.

Definition select_items (tier : string) (items : list EvalItem) : list EvalItem :=
  if String.eqb tier "smoke"
  then stratified_sample items (evs_smoke_per_tag_quota settings) (evs_smoke_sample_size settings)
  else items.

(* @ eval_service/runner.py:175-282 run_eval *)
Definition run_eval (tier : string) (k : option Z) (git_sha : string) : py W EvalOutcome :=
  let resolved_k := match k with Some k => k | None => from_option id 1%Z (dict_get tier TIER_DEFAULT_K) end in
  let! '(dataset_id, agent_id, items) := session
    (let! '(dataset_id, agent_id, _) := sync_golden_set (evs_golden_set_path settings) in
     let! items := get_items dataset_id None in
     ret (dataset_id, agent_id, items)) in
  let! results := session (map_each (run_item agent_id resolved_k) (select_items tier items)) in
  let deterministic_scores := aggregate_deterministic results in
  let medians := ragas_medians results in
  let! baseline_run := session (get_baseline_run dataset_id agent_id) in
  let! baseline_medians := extract_ragas_medians_from_run baseline_run in
  let! verdict := compute_verdict deterministic_scores (Some medians) baseline_medians in
  let! run_id := in_ext (uuid_id "evr_") in
  let scores := scores_payload tier resolved_k deterministic_scores medians results verdict in
  session (insert_run run_id dataset_id agent_id "harness@0.1.0" "system_prompt@v1" "agent-primary"
             git_sha dataset_id scores (verdict_passed verdict)) ;!
  ret (MkEvalOutcome run_id dataset_id agent_id verdict scores).

(** ** run.py *)

Definition py_bool (b : bool) : string := if b then "True" else "False".

Definition metric_line (m : MetricVerdict) : string :=
  "  [" +:+ (if mv_passed m then "PASS" else "FAIL") +:+ "] " +:+ mv_name m +:+ " = " +:+
  fmt_fixed 4 (mv_value m) +:+ " (" +:+ mv_detail m +:+ ")".

Definition last_run_path (tier : string) : string :=
  evs_reports_dir settings +:+ "/last_run_id_" +:+ tier +:+ ".txt".

(* @ eval_service/run.py:19-29 _main *)
Definition run_main (tier : string) (k : option Z) (git_sha : string) : py W unit :=
  let! result := run_eval tier k git_sha in
  print ("run_id=" +:+ evo_run_id result +:+ " dataset_id=" +:+ evo_dataset_id result +:+
         " passed=" +:+ py_bool (verdict_passed (evo_verdict result))) ;!
  for_each (evo_verdict result) (fun m => print (metric_line m)) ;!
  write_text (last_run_path tier) (evo_run_id result).

(** ** gate/__main__.py *)

Definition system_exit {A} (msg : string) : py W A := raise (OtherException "SystemExit" msg).

(* @ eval_service/gate/__main__.py:26-34 _resolve_run_id *)
Definition resolve_run_id (tier : string) (explicit : option string) : py W string :=
  if opt_truthy explicit then ret (str_or explicit "")
  else
    let! files := gets es_files in
    match files !! last_run_path tier with
    | None => system_exit ("no run_id recorded for tier=" +:+ tier +:+ " (" +:+ last_run_path tier +:+
                           " missing) — run `eval_service.run` first")
    | Some text => ret (str_strip text)
    end.

Definition gate_line (m : MetricVerdict) : string :=
  metric_line m +:+ (if negb (mv_passed m) && negb (mv_overridable m) then " [NO OVERRIDE]" else "").

(** The verdict a stored run has against the current baseline. *)
(* @ eval_service/gate/__main__.py:48-56 _main: the verdict *)
Definition regate (run : EvalRun) (baseline_run : option (string * EvalRun)) : py W Verdict :=
  let! baseline_medians := extract_ragas_medians_from_run baseline_run in
  let! deterministic := (let! v := jget "deterministic" (evr_scores run) in read_floats v) in
  let! candidate := read_medians (evr_scores run) in
  compute_verdict deterministic candidate baseline_medians.

(* @ eval_service/gate/__main__.py:37-82 _main *)
Definition gate_main (tier : string) (run_id : option string) (promote : bool) (changed_by : string)
    : py W Verdict :=
  let! resolved_run_id := resolve_run_id tier run_id in
  session (
    let! found := get_run resolved_run_id in
    match found with
    | None => system_exit ("no such run: " +:+ resolved_run_id)
    | Some run =>
        let! baseline_run := get_baseline_run (evr_dataset_id run) (evr_agent_id run) in
        let! verdict := regate run baseline_run in
        print ("gate: run_id=" +:+ resolved_run_id +:+ " tier=" +:+ tier +:+ " verdict=" +:+
               (if verdict_passed verdict then "PASS" else "BLOCKED")) ;!
        for_each verdict (fun m => print (gate_line m)) ;!
        (if promote && verdict_passed verdict then
           let! change_id := in_ext (uuid_id "blc_") in
           promote_baseline change_id (evr_dataset_id run) (evr_agent_id run) (fst <$> baseline_run)
             resolved_run_id "CI: all gates passed on merge to main" changed_by true ;!
           print ("baseline promoted: " +:+ resolved_run_id)
         else ret tt) ;!
        ret verdict
    end).

(** The process's exit status. *)
(* @ eval_service/gate/__main__.py:85-93 main *)
Definition gate_exit (tier : string) (run_id : option string) (promote : bool) (changed_by : string) : py W Z :=
  let! verdict := gate_main tier run_id promote changed_by in
  ret (if verdict_passed verdict then 0%Z else 1%Z).
End Eval.
