(* ===== verification/EvalNightly.v ===== *)
(** eval: the report of a run ([report.py]) and the review of production traces
    ([nightly_sample.py], [clients/langfuse.py], [metrics/citation_support.py]).

    Langfuse, the judge's chat model, the [gh] command and the calendar are
    parameters. *)
From S2P Require Import Prelude PyStr Json Http Contracts Wire EvalGate EvalDb EvalRun.

(** [shutil.which("gh")] with [GITHUB_TOKEN], and [gh pr comment]. *)
Class GhCli (X : Type) := {
  gh_available : py X bool;
  gh_comment : string → string → py X unit
}.

(** [ChatOpenAI.ainvoke(prompt)]: the text of the answer. *)
Class JudgeLlm (X : Type) := judge_ainvoke : string → py X string.

(** A trace as Langfuse returns it. *)
Record LangfuseTrace := MkLangfuseTrace {
  lft_id : string;
  lft_input : json;
  lft_output : json;
  lft_metadata : json;
  lft_timestamp : string
}.

(** [fetch_traces(tags=..., from_timestamp=..., limit=..., order_by="timestamp.desc")]. *)
Class LangfuseApi (X : Type) := fetch_traces : string → string → Z → py X (list LangfuseTrace).

(** [(now(UTC) - timedelta(hours=h)).isoformat()], and the stamp of the report's name. *)
Class ReviewClock (X : Type) := {
  hours_ago_iso : float64 → py X string;
  now_stamp : py X string
}.

Definition nl : string := String "010" "".

(** ** [json.dumps(v, indent=2)] *)
Section Indent.
  Context `{FloatRepr}.

Fixpoint spaces (n : nat) : string := match n with O => "" | S n' => " " +:+ spaces n' end.

Fixpoint json_indent (level : nat) (j : json) : string :=
  let block (opening closing : string) (parts : list string) :=
    match parts with
    | [] => opening +:+ closing
    | _ => opening +:+ nl +:+ spaces (2 * S level) +:+
           str_join ("," +:+ nl +:+ spaces (2 * S level)) parts +:+ nl +:+ spaces (2 * level) +:+ closing
    end in
  match j with
  | JArr l => block "[" "]" (map (json_indent (S level)) l)
  | JObj kvs => block "{" "}" (map (fun kv => json_quote kv.1 +:+ ": " +:+ json_indent (S level) kv.2) kvs)
  | _ => json_dumps j
  end.
End Indent.

(** ** report.py *)
Section Report.
  Context {X : Type} `{GhCli X, FloatFixed, FloatRepr}.
  Variable settings : EvalSettings.
  Abbreviation W := (EvalState X).

(* @ eval_service/report.py:26-32 _resolve_run_id *)
Definition report_resolve_run_id (tier : string) (explicit : option string) : py W string :=
  if opt_truthy explicit then ret (str_or explicit "")
  else
    let! files := gets es_files in
    match files !! last_run_path settings tier with
    | None => system_exit ("no run_id recorded for tier=" +:+ tier +:+ " — run `eval_service.run` first")
    | Some text => ret (str_strip text)
    end.

Definition jget_text (k : string) (j : json) : py W string := let! v := jget k j in ret (py_str v).
Definition jget_truthy (k : string) (j : json) : py W bool := let! v := jget k j in ret (truthy v).

Definition metric_row (metric : json) : py W string :=
  let! passed := jget_truthy "passed" metric in
  let! status := (if passed then ret "✅"
                  else let! overridable := jget_truthy "overridable" metric in
                       ret (if negb overridable then "🚫 no override" else "⚠️ overridable")) in
  let! name := jget_text "name" metric in
  let! value := (let! v := jget "value" metric in as_float v) in
  let! detail := jget_text "detail" metric in
  ret ("| " +:+ name +:+ " | " +:+ status +:+ " | " +:+ fmt_fixed 4 value +:+ " | " +:+ detail +:+ " |").

(** The items whose run ended in an error. *)
Definition failing_items (per_item : pydict) : py W (list (string * string)) :=
  let! l := map_each (fun '(item_id, detail) =>
    let! error := jget_opt "error" detail in
    ret (if truthy error then Some (item_id, py_str error) else None)) per_item in
  ret (omap id l).

(* @ eval_service/report.py:35-69 render_markdown *)
Definition render_markdown (id : string) (run : EvalRun) : py W string :=
  let scores := evr_scores run in
  let! verdict := jget "verdict" scores in
  let! tier := jget_text "tier" scores in
  let! k := jget_text "k" scores in
  let! passed := jget_truthy "passed" verdict in
  let head :=
    ["## eval report — `" +:+ id +:+ "`"; "";
     "- dataset: `" +:+ evr_dataset_id run +:+ "` (version `" +:+ evr_dataset_version run +:+ "`)";
     "- agent: `" +:+ evr_agent_id run +:+ "` @ `" +:+ evr_agent_version run +:+ "` (prompt `" +:+
       evr_prompt_version run +:+ "`)";
     "- git sha: `" +:+ evr_git_sha run +:+ "`";
     "- tier: `" +:+ tier +:+ "`, k=" +:+ k;
     "- **verdict: " +:+ (if passed then "✅ PASS" else "❌ BLOCKED") +:+ "**"; "";
     "| metric | status | value | detail |"; "|---|---|---|---|"] in
  let! metrics := (let! v := jget "metrics" verdict in py_iter v) in
  let! rows := map_each metric_row metrics in
  let! per_item := (let! v := jget "per_item" scores in as_items v) in
  let! failing := failing_items per_item in
  let tail := match failing with
              | [] => []
              | _ => [""; "### items with a run error"; ""] ++
                     ((fun kv => "- `" +:+ kv.1 +:+ "`: " +:+ kv.2) <$> failing)
              end in
  ret (str_join nl (head ++ rows ++ tail)).

(* @ eval_service/report.py:72-77 _post_pr_comment *)
Definition post_pr_comment (pr_number body : string) : py W bool :=
  let! available := in_ext gh_available in
  if negb available
  then print "skipping PR comment: `gh` CLI or GITHUB_TOKEN not available" ;! ret false
  else in_ext (gh_comment pr_number body) ;! ret true.

(* @ eval_service/report.py:80-96 _main *)
Definition report_main (tier : string) (run_id comment_pr : option string) : py W unit :=
  let! resolved_run_id := report_resolve_run_id tier run_id in
  let! found := session (get_run resolved_run_id) in
  match found with
  | None => system_exit ("no such run: " +:+ resolved_run_id)
  | Some run =>
      let! markdown := render_markdown resolved_run_id run in
      write_text (evs_reports_dir settings +:+ "/" +:+ resolved_run_id +:+ ".md") markdown ;!
      write_text (evs_reports_dir settings +:+ "/" +:+ resolved_run_id +:+ ".json") (json_indent 0 (evr_scores run)) ;!
      print markdown ;!
      (if opt_truthy comment_pr then post_pr_comment (str_or comment_pr "") markdown ;! ret tt else ret tt)
  end.
End Report.

(** ** clients/langfuse.py *)

(** A chunk's fields as the trace's metadata holds them. *)
(* @ eval_service/clients/langfuse.py:24-28 CitedChunk *)
Record CitedChunk := MkCitedChunk {
  ccn_chunk_id : json;
  ccn_source_uri : json;
  ccn_content : json
}.

(* @ eval_service/clients/langfuse.py:31-37 ProductionTrace *)
Record ProductionTrace := MkProductionTrace {
  ptr_trace_id : string;
  ptr_question : string;
  ptr_answer : string;
  ptr_timestamp : string;
  ptr_cited_chunks : list CitedChunk
}.

Section Nightly.
  Context {X : Type} `{Ragas X, JudgeLlm X, LangfuseApi X, ReviewClock X}.
  Context `{Sha256, FloatFixed, FloatRepr}.
  Variable settings : EvalSettings.
  Abbreviation W := (EvalState X).

(* @ eval_service/clients/langfuse.py:40-46 _as_text *)
Definition as_text (value : json) : string := py_str value.

(* @ eval_service/clients/langfuse.py:49-57 LangfuseClient.__init__ *)
Definition langfuse_client : py W unit :=
  if String.eqb (evs_langfuse_public_key settings) "" || String.eqb (evs_langfuse_secret_key settings) ""
  then raise (ValueError "LANGFUSE_PUBLIC_KEY/LANGFUSE_SECRET_KEY are required")
  else ret tt.

Definition cited_chunk (c : json) : py W (option CitedChunk) :=
  match c with
  | JObj _ =>
      let! chunk_id := jget_default "chunk_id" (JStr "") c in
      let! source_uri := jget_default "source_uri" (JStr "") c in
      let! content := jget_default "content" (JStr "") c in
      ret (Some (MkCitedChunk chunk_id source_uri content))
  | _ => ret None
  end.

Definition production_trace (trace : LangfuseTrace) : py W (option ProductionTrace) :=
  match lft_input trace, lft_output trace with
  | JNull, _ | _, JNull => ret None
  | input, output =>
      let metadata := match lft_metadata trace with JObj kvs => JObj kvs | _ => JObj [] end in
      let! chunks := (let! v := jget_default "cited_chunks" (JArr []) metadata in py_iter v) in
      let! cited := map_each cited_chunk chunks in
      ret (Some (MkProductionTrace (lft_id trace) (as_text input) (as_text output) (lft_timestamp trace)
                   (omap id cited)))
  end.

(* @ eval_service/clients/langfuse.py:59-102 LangfuseClient.fetch_recent_traces *)
Definition fetch_recent_traces (agent_id since : string) (limit : Z) : py W (list ProductionTrace) :=
  let! data := in_ext (fetch_traces ("agent:" +:+ agent_id) since limit) in
  let! traces := map_each production_trace data in
  ret (omap id traces).

(** ** metrics/citation_support.py *)

(* @ eval_service/metrics/citation_support.py:27-27 METRIC_NAME *)
Definition CITATION_METRIC_NAME : string := "citation_support".

(* @ eval_service/metrics/citation_support.py:29-40 _PROMPT *)
Definition citation_prompt (answer chunk_content : string) : string :=
  "You are checking whether a source passage actually supports a claim." +:+ nl +:+ nl +:+
  "Claim (from an AI assistant's answer):" +:+ nl +:+ answer +:+ nl +:+ nl +:+
  "Source passage (what the claim cites as its basis):" +:+ nl +:+ chunk_content +:+ nl +:+ nl +:+
  "Does the source passage support the claim? Reply with exactly one line in this" +:+ nl +:+
  "format, nothing else:" +:+ nl +:+ "VERDICT: yes|no" +:+ nl.

Fixpoint parse_verdict_lines (lines : list string) : bool :=
  match lines with
  | [] => false
  | line :: lines' =>
      let line := str_lower (str_strip line) in
      if str_startswith line "verdict:" then str_contains "yes" line else parse_verdict_lines lines'
  end.

(* @ eval_service/metrics/citation_support.py:43-52 _parse_verdict *)
Definition parse_verdict (raw : string) : bool := parse_verdict_lines (str_splitlines raw).

(** One cited chunk, through the cache. *)
Definition chunk_supported (trace_id answer : string) (chunk : CitedChunk) : py W bool :=
  let cache_key := trace_id +:+ ":" +:+ py_str (ccn_chunk_id chunk) in
  let resp_hash := response_hash answer in
  let! cached := get_cached_judge_score cache_key resp_hash JUDGE_MODEL_VERSION CITATION_METRIC_NAME in
  match cached with
  | Some score => ret (f64_leb (f64_ratio 1 2) score)
  | None =>
      let! raw := in_ext (judge_ainvoke (citation_prompt answer (py_str (ccn_content chunk)))) in
      let supported := parse_verdict raw in
      put_cached_judge_score cache_key resp_hash JUDGE_MODEL_VERSION CITATION_METRIC_NAME
        (score_of supported) (Some (str_slice raw 0 500)) ;!
      ret supported
  end.

(* @ eval_service/metrics/citation_support.py:65-110 CitationSupportJudge.score *)
Definition citation_support (trace_id answer : string) (cited_chunks : list CitedChunk) : py W (option float64) :=
  match List.filter (fun c => truthy (ccn_content c)) cited_chunks with
  | [] => ret None
  | scoreable =>
      let! verdicts := map_each (chunk_supported trace_id answer) scoreable in
      ret (Some (f64_div (f64_of_Z (Z.of_nat (length (List.filter id verdicts)))) (f64_len verdicts)))
  end.

(** ** nightly_sample.py *)

(** The scores of a trace, by metric name in this order: citation_support,
    faithfulness, answer_relevancy. *)
Record TraceScores := MkTraceScores {
  tsc_citation_support : option float64;
  tsc_faithfulness : option float64;
  tsc_answer_relevancy : option float64
}.

(** pydantic's [retrieved_contexts: list[str]]. *)
Definition context_text (content : json) : py W string :=
  match content with JStr s => ret s | _ => raise (ValidationError "SingleTurnSample.retrieved_contexts") end.

(* @ eval_service/nightly_sample.py:39-87 _score_trace *)
Definition score_trace (trace : ProductionTrace) : py W TraceScores :=
  let! support := try_except
    (session (citation_support (ptr_trace_id trace) (ptr_answer trace) (ptr_cited_chunks trace)))
    (fun _ => Some (ret None)) in
  let! ragas_scores := try_except
    (session (
      let! contexts := map_each context_text
        (List.filter truthy (ccn_content <$> ptr_cited_chunks trace)) in
      score_item (ptr_trace_id trace) (ptr_question trace) (ptr_answer trace) contexts None))
    (fun _ => Some (ret [])) in
  ret (MkTraceScores support (dict_get "faithfulness" ragas_scores) (dict_get "answer_relevancy" ragas_scores)).

(* @ eval_service/nightly_sample.py:90-94 _overall *)
Definition overall_score (scores : TraceScores) : option float64 :=
  match omap id [tsc_citation_support scores; tsc_faithfulness scores; tsc_answer_relevancy scores] with
  | [] => None
  | applicable => Some (f64_div (py_sum applicable) (f64_len applicable))
  end.

Abbreviation ScoredTrace := (ProductionTrace * TraceScores * option float64)%type.

(* @ eval_service/nightly_sample.py:100-101 _fmt *)
Definition fmt_score (value : option float64) : string :=
  match value with None => "n/a" | Some v => fmt_fixed 2 v end.

(** [key a <= key b] for [key = (overall is None, overall or 0.0)], scores being
    numbers. *)
Definition rank_le (a b : option float64) : bool :=
  match a, b with
  | Some x, Some y => negb (f64_ltb y x)
  | Some _, None => true
  | None, Some _ => false
  | None, None => true
  end.

(* @ eval_service/nightly_sample.py:153-158 ranked *)
Definition rank_traces (surface : Z) (scored : list ScoredTrace) : list ScoredTrace :=
  let sorted := sort_by (fun a b : ScoredTrace => rank_le a.2 b.2) scored in
  let n := Z.of_nat (length sorted) in
  take (Z.to_nat (if (0 <=? surface)%Z then surface else n + surface)) sorted.

Definition report_row (st : ScoredTrace) : string :=
  let '(trace, scores, overall) := st in
  "| `" +:+ ptr_trace_id trace +:+ "` | " +:+ fmt_score overall +:+ " | " +:+
  fmt_score (tsc_citation_support scores) +:+ " | " +:+ fmt_score (tsc_faithfulness scores) +:+ " | " +:+
  fmt_score (tsc_answer_relevancy scores) +:+ " | " +:+
  str_slice (str_replace (ptr_question trace) nl " ") 0 80 +:+ " |".

Definition report_detail (st : ScoredTrace) : list string :=
  let '(trace, _, overall) := st in
  [nl +:+ "### `" +:+ ptr_trace_id trace +:+ "` (overall " +:+ fmt_score overall +:+ ")";
   nl +:+ "**Question:**" +:+ nl +:+ nl +:+ ptr_question trace +:+ nl;
   "**Answer:**" +:+ nl +:+ nl +:+ ptr_answer trace +:+ nl] ++
  match ptr_cited_chunks trace with
  | [] => ["**Cited chunks:** none"]
  | chunks => ("**Cited chunks:**" +:+ nl) ::
      ((fun c => "- `" +:+ py_str (ccn_chunk_id c) +:+ "` (" +:+ py_str (ccn_source_uri c) +:+ ")") <$> chunks)
  end.

(* @ eval_service/nightly_sample.py:104-133 _render_report *)
Definition render_report (agent_id since : string) (ranked : list ScoredTrace) : string :=
  str_join nl (
    ["# Production trace review — " +:+ agent_id; "";
     "Sampled since " +:+ since +:+ ". Lowest-scoring " +:+ Z_to_string (Z.of_nat (length ranked)) +:+
       " traces below, for **human review only** — §13.9: nothing here is auto-added to the golden set.";
     "";
     "| trace_id | overall | citation_support | faithfulness | answer_relevancy | question |";
     "|---|---|---|---|---|---|"] ++
    (report_row <$> ranked) ++ [""; "## Full text, lowest-scoring first"] ++ (ranked ≫= report_detail)).

(* @ eval_service/nightly_sample.py:136-165 run_nightly_sample *)
Definition run_nightly_sample (agent_id : string) (hours : float64) (limit surface : Z) : py W string :=
  langfuse_client ;!
  let! since := in_ext (hours_ago_iso hours) in
  let! traces := fetch_recent_traces agent_id since limit in
  let! scored := map_each (fun trace =>
    let! scores := score_trace trace in ret (trace, scores, overall_score scores)) traces in
  let ranked := rank_traces surface scored in
  let! stamp := in_ext now_stamp in
  let out_path := evs_reports_dir settings +:+ "/production_review_" +:+ agent_id +:+ "_" +:+ stamp +:+ ".md" in
  write_text out_path (render_report agent_id since ranked) ;!
  ret out_path.
End Nightly.
