(* ===== verification/EvalExample.v ===== *)
(** eval: a concrete surrounding — a golden set of two items, a gateway that answers
    and one that is down, a judge and a numpy — on which the component's theorems
    are evaluated. *)
From S2P Require Import Prelude PyStr Json Presidio Http Contracts Wire EvalGate EvalDb EvalRun EvalNightly.

#[export] Instance ex_pydantic : Pydantic := strict_pydantic.
#[export] Instance ex_sha : Sha256 := fun s => s.
#[export] Instance ex_scan : ItemsScan := fun m => (map_to_list m).*2.
#[export] Instance ex_pii : Presidio := {| analyze _ _ _ := inr []; anonymize t _ _ := inr t |}.
#[export] Instance ex_fixed : FloatFixed := fun _ _ => "0.0000".
#[export] Instance ex_repr : FloatRepr := fun _ => "0.0".

(** Means and medians of the first element, a generator that always draws the
    first element. *)
Definition first_or_zero (l : list float64) : float64 := from_option id f64_zero (head l).
#[export] Instance ex_numpy : Numpy := {|
  np_median := first_or_zero; np_mean := first_or_zero; np_percentile l _ := first_or_zero l;
  Rng := unit; default_rng _ := tt; rng_choice r l n := (r, repeat (first_or_zero l) n)
|}.

Definition bundle : EvalDebugBundle :=
  MkEvalDebugBundle [] [] [] [] [] [] [] false None [] "v1" "agent-primary" 0.
Definition response : AgentInvokeResponse :=
  MkAgentInvokeResponse "run_1" "conv_1" "trc_1" (MkAgentOutput "ok" []) (MkUsage 1 1 f64_zero) [] [] false (Some bundle).

(** The services: up ([true]) or down. *)
#[export] Instance ex_http : HttpPost bool := fun service _ _ _ up =>
  if up then (up, inr (MkHttpResponse 200 "" (match service with
    | PublicGateway => dump_response response
    | _ => JObj [("access_token", JStr "tok")] end) []))
  else (up, inl (HttpxError "connection refused")).

(** [uuid.uuid4()]: a fixed id. *)
#[export] Instance ex_uuid : Uuid bool := ret "0123456789abcdef0123456789abcdef".
#[export] Instance ex_sleep : SleepFor bool := fun _ => ret tt.

(** The judge: what it finds of an answer is in the question. *)
#[export] Instance ex_ragas : Ragas bool := fun _ sample =>
  ret (if String.eqb (sts_user_input sample) "rbac?" then f64_ratio 95 100 else f64_ratio 90 100).
#[export] Instance ex_llm : JudgeLlm bool := fun _ => ret "VERDICT: yes".
#[export] Instance ex_gh : GhCli bool := {| gh_available := ret false; gh_comment _ _ := ret tt |}.
#[export] Instance ex_langfuse : LangfuseApi bool := fun _ _ _ => ret [].
#[export] Instance ex_clock : ReviewClock bool := {| hours_ago_iso _ := ret "t0"; now_stamp := ret "t1" |}.

(** The golden set: the ids differ in length, as the platform's own do. *)
Definition golden_item (id question : string) : json :=
  JObj [("id", JStr id); ("question", JStr question); ("actor_user_id", JStr "usr_1");
        ("actor_role", JStr "employee"); ("expects_citation", JBool false);
        ("tags", JArr [JStr (if String.eqb question "rbac?" then "rbac" else "refusal")])].

Definition golden (ids : list (string * string)) : json :=
  JObj [("dataset", JObj [("id", JStr "ds"); ("name", JStr "golden"); ("agent_id", JStr "hr")]);
        ("items", JArr ((fun kv => golden_item kv.1 kv.2) <$> ids))].

(** Two texts: ids of one length, and ids of two. *)
#[export] Instance ex_yaml : YamlLoad := fun text =>
  Some (if String.eqb text "same" then golden [("it_1", "rbac?"); ("it_2", "refuse?")]
        else golden [("it_rbac_001", "rbac?"); ("it_ref_001", "refuse?")]).

Definition settings : EvalSettings :=
  MkEvalSettings 3 (f64_of_Z 2) 8 40 "golden_set.yaml" "pk" "sk" "reports".

Definition empty_tables : EvalDb := MkEvalDb ∅ ∅ ∅ ∅ ∅.

Definition start (text : string) : EvalState bool :=
  MkEvalState empty_tables true {["golden_set.yaml" := text]} [].
