(* ===== verification/EvalGateProps.v ===== *)
(** eval: what the release gate decides, and what the smoke sample guarantees.

    - [verdict_rules]: the verdict of a run's scores, rule by rule, and the
      failures nobody may override;
    - [stratified_sample_spec]: the sample keeps every tag's quota, has no item
      twice, and does not depend on the order the items are read in;
    - [outage_blocks_run]: an item whose calls failed blocks the run. *)
From S2P Require Import Prelude PyStr Json Presidio Http Contracts Wire Guardrails EvalGate EvalDb EvalRun EvalNightly EvalExample.

(** ** The verdict *)

(** A deterministic metric's rule, on the run's value. *)
Definition spec_ok (kind : SpecKind) (threshold : json) (value : float64) : bool :=
  match kind with
  | mean_threshold => f64_leb (threshold_value threshold) value
  | count_zero => f64_leb value (threshold_value threshold)
  end.

Definition spec_holds (scores : scores_of) (spec : string * (SpecKind * json)) : bool :=
  let '(name, (kind, threshold)) := spec in
  match dict_get name scores with Some v => spec_ok kind threshold v | None => false end.

Section Rules.
  Context `{Numpy}.

(** A judged metric: its floor, and its regression against the baseline. *)
Definition above_floor (candidate : medians_of) (goal : string * float64) : bool :=
  match from_option id [] (dict_get goal.1 candidate) with
  | [] => true
  | per_item => negb (f64_ltb (np_median per_item.*2) (f64_sub goal.2 (f64_ratio 1 10)))
  end.

Definition not_regressed (candidate : medians_of) (baseline : option medians_of) (goal : string * float64) : bool :=
  match from_option id [] (dict_get goal.1 candidate), baseline ≫= dict_get goal.1 with
  | [], _ | _, None => true
  | per_item, Some b => negb (f64_ltb (bootstrap_ci (paired_deltas per_item b)).2 CI_REGRESSION_THRESHOLD)
  end.

Definition zero_tolerance_holds (scores : scores_of) : bool :=
  forallb (spec_holds scores) (List.filter (fun spec => str_in spec.1 ZERO_TOLERANCE_DETERMINISTIC) DETERMINISTIC_SPECS).

Lemma omap_forallb {A B} (f : A → option B) (p : B → bool) (q : A → bool) l :
  (∀ a, from_option p true (f a) = q a) → forallb p (omap f l) = forallb q l.
Proof.
  intros Hq. induction l as [|a l IH]; cbn; [done|]. rewrite <- Hq, <- IH. by destruct (f a).
Qed.

Lemma filter_nil_forallb {A} (p : A → bool) l :
  List.filter p l = [] ↔ forallb (fun a => negb (p a)) l = true.
Proof. induction l as [|a l IH]; cbn; [done|]. destruct (p a); cbn; [by split|done]. Qed.
End Rules.

Section Verdict.
  Context {S : Type} `{Numpy, FloatFixed, FloatRepr}.

Lemma gate_deterministic_eval (scores : scores_of) (s : S) :
  gate_deterministic scores s =
    (s, match List.find (fun spec => negb (dict_mem spec.1 scores)) DETERMINISTIC_SPECS with
        | Some spec => inl (KeyError spec.1)
        | None => inr (omap (fun '(name, (kind, threshold)) =>
            gate_metric name kind threshold <$> dict_get name scores) DETERMINISTIC_SPECS)
        end).
Proof.
  unfold gate_deterministic. generalize DETERMINISTIC_SPECS as l.
  induction l as [|[name [kind thr]] l IH]; [done|]. cbn [map_each].
  unfold bind at 1. cbn [List.find fst]. unfold dict_mem.
  destruct (dict_get name scores) as [v|] eqn:E; cbn; [|done].
  unfold bind. rewrite IH. destruct (List.find _ _); [done|]. cbn. by rewrite E.
Qed.

Lemma gate_metric_passed name kind thr v : mv_passed (gate_metric name kind thr v) = spec_ok kind thr v.
Proof. by destruct kind. Qed.

Lemma ragas_metric_passed candidate baseline goal :
  from_option mv_passed true (gate_ragas_metric candidate baseline goal.1 goal.2) =
  above_floor candidate goal && not_regressed candidate baseline goal.
Proof.
  destruct goal as [name goal]. unfold gate_ragas_metric, above_floor, not_regressed, breaches_absolute_floor.
  cbn [fst snd]. destruct (from_option id [] (dict_get name candidate)) as [|p l]; [done|].
  destruct (f64_ltb _ _); [done|]. cbn [negb andb].
  destruct (baseline ≫= dict_get name) as [b|]; [|done].
  destruct (bootstrap_ci _) as [lo up]. done.
Qed.

Lemma ragas_metric_blocks candidate baseline goal :
  from_option (fun m => negb (negb (mv_passed m) && negb (mv_overridable m))) true
    (gate_ragas_metric candidate baseline goal.1 goal.2) = above_floor candidate goal.
Proof.
  destruct goal as [name goal]. unfold gate_ragas_metric, above_floor, breaches_absolute_floor.
  cbn [fst snd]. destruct (from_option id [] (dict_get name candidate)) as [|p l]; [done|].
  destruct (f64_ltb _ _); [done|]. destruct (baseline ≫= dict_get name) as [b|]; [|done].
  destruct (bootstrap_ci _) as [lo up]. by destruct (f64_ltb up _).
Qed.

Lemma deterministic_passed scores :
  List.find (fun spec => negb (dict_mem spec.1 scores)) DETERMINISTIC_SPECS = None →
  forallb mv_passed (omap (fun '(name, (kind, threshold)) =>
      gate_metric name kind threshold <$> dict_get name scores) DETERMINISTIC_SPECS) =
  forallb (spec_holds scores) DETERMINISTIC_SPECS.
Proof.
  generalize DETERMINISTIC_SPECS as l. induction l as [|[name [kind thr]] l IH]; [done|]. cbn. unfold dict_mem.
  destruct (dict_get name scores) as [v|] eqn:E; cbn; [|done]. intros Hf. rewrite <- IH by done.
  by destruct kind.
Qed.

Lemma deterministic_blocks scores :
  List.find (fun spec => negb (dict_mem spec.1 scores)) DETERMINISTIC_SPECS = None →
  forallb (fun m => negb (negb (mv_passed m) && negb (mv_overridable m)))
    (omap (fun '(name, (kind, threshold)) =>
      gate_metric name kind threshold <$> dict_get name scores) DETERMINISTIC_SPECS) =
  zero_tolerance_holds scores.
Proof.
  unfold zero_tolerance_holds. generalize DETERMINISTIC_SPECS as l.
  induction l as [|[name [kind thr]] l IH]; [done|]. cbn [omap list_omap List.find List.filter fst]. unfold dict_mem.
  destruct (dict_get name scores) as [v|] eqn:E; cbn [negb]; [|done]. intros Hf.
  change (forallb ?p (?x :: ?k)) with (p x && forallb p k). cbn [fmap option_fmap option_map forallb].
  rewrite IH by done. rewrite gate_metric_passed.
  change (mv_overridable (gate_metric name kind thr v)) with (negb (str_in name ZERO_TOLERANCE_DETERMINISTIC)).
  destruct (str_in name ZERO_TOLERANCE_DETERMINISTIC); cbn.
  - rewrite E. by destruct (spec_ok kind thr v).
  - by rewrite andb_false_r.
Qed.

(** The release gate. A run's verdict passes exactly when every deterministic
    metric meets its threshold and every judged metric with scores is above its
    floor and not significantly below the baseline; the failures no human may
    override are exactly the zero-tolerance metrics and the breached floors; and a
    score missing from the run raises KeyError instead of passing. *)
Theorem verdict_rules scores candidate baseline (s : S) :
  match compute_verdict scores candidate baseline s with
  | (s', inr v) =>
      s' = s ∧
      verdict_passed v =
        forallb (spec_holds scores) DETERMINISTIC_SPECS &&
        forallb (fun goal => above_floor (from_option id [] candidate) goal &&
                             not_regressed (from_option id [] candidate) baseline goal) RAGAS_TARGETS ∧
      (blocking_no_override v = [] ↔
        zero_tolerance_holds scores = true ∧
        forallb (above_floor (from_option id [] candidate)) RAGAS_TARGETS = true)
  | (s', inl e) => s' = s ∧ ∃ spec, spec ∈ DETERMINISTIC_SPECS ∧ dict_get spec.1 scores = None ∧ e = KeyError spec.1
  end.
Proof.
  unfold compute_verdict, bind. rewrite gate_deterministic_eval.
  destruct (List.find _ _) as [spec|] eqn:Hf.
  { apply find_some in Hf as [Hin%list_elem_of_In Hm]. split; [done|]. exists spec. unfold dict_mem in Hm.
    by destruct (dict_get spec.1 scores). }
  set (metrics := omap _ _). split; [done|].
  assert (∀ p q, (∀ goal, from_option p true (gate_ragas_metric (from_option id [] candidate) baseline goal.1 goal.2) = q goal) →
    forallb p (match candidate with None | Some [] => metrics | Some c => metrics ++ gate_ragas c baseline end) =
    forallb p metrics && forallb q RAGAS_TARGETS) as Hall.
  { intros p q Hq.
    assert (∀ c, from_option id [] candidate = c → forallb p (gate_ragas c baseline) = forallb q RAGAS_TARGETS) as Hr.
    { intros c <-. apply omap_forallb. intros [name goal]. apply (Hq (name, goal)). }
    destruct candidate as [[|m c]|]; [| |].
    - rewrite <- (Hr [] eq_refl). cbn. by rewrite andb_true_r.
    - by rewrite forallb_app, (Hr (m :: c) eq_refl).
    - rewrite <- (Hr [] eq_refl). cbn. by rewrite andb_true_r. }
  split.
  - etrans; [apply (Hall mv_passed _ (ragas_metric_passed _ _))|]. f_equal.
    by apply deterministic_passed.
  - unfold blocking_no_override. rewrite filter_nil_forallb.
    etrans; [by rewrite (Hall _ _ (ragas_metric_blocks _ _))|]. unfold metrics. rewrite deterministic_blocks by done.
    apply andb_true_iff.
Qed.
End Verdict.

(** ** Sorting by a key *)

Lemma leb_trans a b c : String.leb a b = true → String.leb b c = true → String.leb a c = true.
Proof.
  intros Hab Hbc. destruct String.le_po as [[_ Ht] _].
  by apply Is_true_eq_true, (Ht a b c); apply Is_true_eq_left.
Qed.

Lemma leb_connex a b : String.leb a b = false → String.leb b a = true.
Proof. destruct (String.leb_total a b); congruence. Qed.

(** Two ordered lists with the same elements are equal, when the order is
    antisymmetric on them. *)
Lemma ordered_perm_eq {A} (R : A → A → Prop) (l k : list A) :
  (∀ a b, a ∈ l → b ∈ l → R a b → R b a → a = b) →
  ordered R l → ordered R k → l ≡ₚ k → l = k.
Proof.
  revert k. induction l as [|a l IH]; intros [|b k] Hanti Hl Hk Hp.
  1: done. 1: by apply Permutation_nil_cons in Hp. 1: by apply symmetry, Permutation_nil_cons in Hp.
  destruct Hl as [Ha Hl], Hk as [Hb Hk]. assert (a = b) as ->.
  { assert (b ∈ a :: l) as [->|Hbl]%elem_of_cons by (rewrite Hp; constructor); [done|].
    assert (a ∈ b :: k) as [->|Hak]%elem_of_cons by (rewrite <- Hp; constructor); [done|].
    apply Hanti; [constructor|by constructor| |].
    - by eapply Forall_forall in Ha.
    - by eapply Forall_forall in Hb. }
  f_equal. apply IH; [|done|done|by apply Permutation_cons_inv in Hp].
  intros x y Hx Hy. apply Hanti; by constructor.
Qed.

(** ** The smoke sample *)

Definition carries (tag : string) (i : EvalItem) : bool := str_in tag (eit_tags i).

(** How many items of [l] carry [tag]. *)
Definition tag_count (tag : string) (l : list EvalItem) : nat := length (List.filter (carries tag) l).

Definition distinct_ids (l : list EvalItem) : Prop := NoDup (eit_id <$> l).

Lemma by_id_perm l : by_id l ≡ₚ l.
Proof. apply sort_by_perm. Qed.

Lemma by_id_ordered l : ordered (fun a b => String.leb (eit_id a) (eit_id b) = true) (by_id l).
Proof. apply (ordered_sort _ l); intros *; [apply leb_connex|apply leb_trans]. Qed.

Lemma same_item l a b : distinct_ids l → a ∈ l → b ∈ l → eit_id a = eit_id b → a = b.
Proof.
  intros Hd Ha Hb Heq. apply list_elem_of_lookup in Ha as [i Hi], Hb as [j Hj].
  assert (i = j) as ->; [|congruence].
  eapply NoDup_lookup; [exact Hd| |]; rewrite list_lookup_fmap; [by rewrite Hi|by rewrite Hj, Heq].
Qed.

Lemma by_id_proper items l k :
  distinct_ids items → (∀ i, i ∈ l → i ∈ items) → l ≡ₚ k → by_id l = by_id k.
Proof.
  intros Hd Hsub Hp. eapply ordered_perm_eq; [|apply by_id_ordered..|by rewrite !by_id_perm].
  intros a b Ha Hb Hab Hba. rewrite by_id_perm in Ha, Hb.
  eapply same_item; eauto using String.leb_antisym.
Qed.

Lemma elem_of_bucket items tag i : i ∈ bucket items tag ↔ i ∈ items ∧ carries tag i = true.
Proof.
  unfold bucket, carries. rewrite list_elem_of_bind. split.
  - intros (x & Hi & Hx). apply list_elem_of_fmap in Hi as (t & -> & Ht).
    apply list_elem_of_In, filter_In in Ht as [Ht ->%String.eqb_eq].
    split; [done|]. by apply str_in_spec, list_elem_of_In.
  - intros [Hi Ht%str_in_spec]. exists i. split; [|done]. apply list_elem_of_fmap. exists tag.
    split; [done|]. apply list_elem_of_In, filter_In. split; [by apply list_elem_of_In|apply String.eqb_refl].
Qed.

Section Claims.
  Variable items : list EvalItem.
  Hypothesis Hd : distinct_ids items.

(** A selection: items of the set, none twice. *)
Definition selection (sel : list EvalItem) : Prop := distinct_ids sel ∧ ∀ i, i ∈ sel → i ∈ items.

Lemma selection_snoc sel i : selection sel → i ∈ items → str_in (eit_id i) (selected_ids sel) = false →
  selection (sel ++ [i]).
Proof.
  intros [Hn Hs] Hi Hni%str_in_false. split.
  - unfold distinct_ids. rewrite fmap_app. apply NoDup_app. split; [done|]. split; [|apply NoDup_singleton].
    intros x Hx Hx'. apply list_elem_of_singleton in Hx' as ->. by apply Hni.
  - intros j [Hj| ->%list_elem_of_singleton]%elem_of_app; [by apply Hs|done].
Qed.

Lemma selected_item sel i : selection sel → i ∈ items → str_in (eit_id i) (selected_ids sel) = true → i ∈ sel.
Proof.
  intros [_ Hs] Hi (j & Heq & Hj)%str_in_spec%list_elem_of_fmap.
  by rewrite (same_item items i j Hd Hi (Hs j Hj) Heq).
Qed.

(** One tag's walk: it only adds items of its bucket, at most the quota, and it
    stops short of the quota only when the bucket is used up. *)
Lemma claim_quota_spec q added tagged sel :
  selection sel → (∀ i, i ∈ tagged → i ∈ items) → (0 ≤ added)%Z →
  ∃ new, claim_quota q added tagged sel = sel ++ new ∧ selection (sel ++ new) ∧
    (∀ i, i ∈ new → i ∈ tagged) ∧ (Z.of_nat (length new) ≤ Z.max 0 (q - added))%Z ∧
    ((q - added ≤ Z.of_nat (length new))%Z ∨ ∀ i, i ∈ tagged → i ∈ sel ++ new).
Proof.
  revert added sel. induction tagged as [|i tagged IH]; intros added sel Hsel Hsub Hadd; cbn.
  { exists []. rewrite app_nil_r. split; [done|]. split; [done|]. split; [by intros ? ?%not_elem_of_nil|].
    split; [cbn; lia|]. right. by intros ? ?%not_elem_of_nil. }
  destruct (Z.leb_spec q added) as [Hq|Hq].
  { exists []. rewrite app_nil_r. split; [done|]. split; [done|]. split; [by intros ? ?%not_elem_of_nil|].
    cbn. split; [lia|left; lia]. }
  assert (i ∈ items) as Hi by (apply Hsub; constructor).
  assert (∀ j, j ∈ tagged → j ∈ items) as Hsub' by (intros j Hj; apply Hsub; by constructor).
  destruct (str_in (eit_id i) (selected_ids sel)) eqn:Hin.
  - destruct (IH added sel Hsel Hsub' Hadd) as (new & -> & Hs & Hnew & Hlen & Hfull). exists new.
    split; [done|]. split; [done|]. split; [intros j Hj; constructor; by apply Hnew|]. split; [done|].
    destruct Hfull as [?|Hfull]; [by left|right]. intros j [->|Hj]%elem_of_cons; [|by apply Hfull].
    apply elem_of_app. left. by apply selected_item.
  - destruct (IH (added + 1)%Z (sel ++ [i])) as (new & -> & Hs & Hnew & Hlen & Hfull);
      [by apply selection_snoc|done|lia|]. exists (i :: new). rewrite <- app_assoc in *. cbn in *.
    split; [done|]. split; [done|]. split; [|split; [lia|]].
    + intros j [->|Hj]%elem_of_cons; [constructor|]. constructor. by apply Hnew.
    + destruct Hfull as [?|Hfull]; [left; lia|right]. intros j [->|Hj]%elem_of_cons; [|by apply Hfull].
      apply elem_of_app. right. constructor.
Qed.

Lemma tag_count_app tag l k : tag_count tag (l ++ k) = (tag_count tag l + tag_count tag k)%nat.
Proof. unfold tag_count. by rewrite List.filter_app, length_app. Qed.

Lemma tag_count_all tag l : (∀ i, i ∈ l → carries tag i = true) → tag_count tag l = length l.
Proof.
  unfold tag_count. induction l as [|i l IH]; intros Hl; cbn; [done|].
  rewrite (Hl i) by constructor. cbn. rewrite IH; [done|]. intros j Hj. apply Hl. by constructor.
Qed.

(** Containing every item with the tag is containing at least as many. *)
Lemma tag_count_incl tag l : selection l → (∀ i, i ∈ items → carries tag i = true → i ∈ l) →
  (tag_count tag items ≤ tag_count tag l)%nat.
Proof.
  intros [Hn _] Hincl. unfold tag_count. apply submseteq_length, NoDup_submseteq.
  - apply NoDup_ListNoDup, List.NoDup_filter, NoDup_ListNoDup. by eapply NoDup_fmap_1.
  - intros i Hi. apply list_elem_of_In, filter_In in Hi as [Hi Hc]. apply list_elem_of_In, filter_In. split; [|done].
    apply list_elem_of_In, Hincl; [by apply list_elem_of_In|done].
Qed.
End Claims.

Section Sample.
  Variable items : list EvalItem.
  Hypothesis Hd : distinct_ids items.

Abbreviation claims q tags sel :=
  (fold_left (fun selected tag => claim_quota q 0 (by_id (bucket items tag)) selected) tags sel).

Lemma tag_claim q tag sel : selection items sel →
  ∃ new, claim_quota q 0 (by_id (bucket items tag)) sel = sel ++ new ∧ selection items (sel ++ new) ∧
    (Z.of_nat (length new) ≤ Z.max 0 q)%Z ∧
    (Z.min q (Z.of_nat (tag_count tag items)) ≤ Z.of_nat (tag_count tag (sel ++ new)))%Z.
Proof.
  intros Hsel. destruct (claim_quota_spec items Hd q 0 (by_id (bucket items tag)) sel)
    as (new & Heq & Hs & Hnew & Hlen & Hfull); [done| |lia|].
  { intros i. rewrite by_id_perm, elem_of_bucket. tauto. }
  exists new. split; [done|]. split; [done|]. split; [lia|].
  destruct Hfull as [Hq|Hfull].
  - rewrite tag_count_app, (tag_count_all tag new); [lia|].
    intros i Hi%Hnew. rewrite by_id_perm, elem_of_bucket in Hi. tauto.
  - assert (tag_count tag items ≤ tag_count tag (sel ++ new))%nat; [|lia].
    apply (tag_count_incl items Hd); [done|]. intros i Hi Hc. apply Hfull. by rewrite by_id_perm, elem_of_bucket.
Qed.

(** Every tag walked has its quota, whatever the later tags add. *)
Lemma claims_spec q tags sel : selection items sel →
  ∃ new, claims q tags sel = sel ++ new ∧ selection items (sel ++ new) ∧
    (Z.of_nat (length new) ≤ Z.max 0 q * Z.of_nat (length tags))%Z ∧
    ∀ tag, tag ∈ tags →
      (Z.min q (Z.of_nat (tag_count tag items)) ≤ Z.of_nat (tag_count tag (sel ++ new)))%Z.
Proof.
  revert sel. induction tags as [|tag tags IH]; intros sel Hsel; cbn [fold_left].
  { exists []. rewrite app_nil_r. split; [done|]. split; [done|]. split; [cbn; lia|]. by intros ? ?%not_elem_of_nil. }
  destruct (tag_claim q tag sel Hsel) as (new & -> & Hs & Hlen & Hq).
  destruct (IH _ Hs) as (more & -> & Hs' & Hlen' & Hq'). exists (new ++ more). rewrite !app_assoc.
  split; [done|]. split; [done|]. split; [rewrite length_app; cbn [length]; lia|].
  intros t [->|Ht]%elem_of_cons; [|by apply Hq']. rewrite tag_count_app. lia.
Qed.

Lemma top_up_spec n remainder sel : selection items (sel ++ remainder) →
  ∃ new, top_up n remainder sel = sel ++ new ∧ selection items (sel ++ new) ∧
    (Z.of_nat (length (sel ++ new)) ≤ Z.max n (Z.of_nat (length sel)))%Z ∧
    (Z.min n (Z.of_nat (length (sel ++ remainder))) ≤ Z.of_nat (length (sel ++ new)))%Z.
Proof.
  revert sel. induction remainder as [|i l IH]; intros sel Hsel; cbn.
  { exists []. rewrite app_nil_r in *. split; [done|]. split; [done|]. lia. }
  destruct (Z.leb_spec n (Z.of_nat (length sel))).
  { exists []. rewrite app_nil_r in *. split; [done|]. split; [|lia].
    destruct Hsel as [Hn Hi]. split; [|intros j Hj; apply Hi, elem_of_app; by left].
    unfold distinct_ids in Hn. rewrite fmap_app in Hn. by apply NoDup_app in Hn as [? _]. }
  destruct (IH (sel ++ [i])) as (new & -> & Hs & Hlen & Hmin); [by rewrite <- app_assoc|].
  exists (i :: new). rewrite <- app_assoc in *. cbn in *. split; [done|]. split; [done|].
  rewrite !length_app in *. cbn in *. lia.
Qed.

Lemma remainder_selection sel : selection items sel →
  selection items (sel ++ by_id (List.filter (fun i => negb (str_in (eit_id i) (selected_ids sel))) items)).
Proof.
  intros [Hn Hs]. set (rest := List.filter _ _).
  assert (∀ i, i ∈ rest → i ∈ items ∧ eit_id i ∉ selected_ids sel) as Hr.
  { intros i Hi. apply list_elem_of_In, filter_In in Hi as [Hi%list_elem_of_In Hni%negb_true_iff%str_in_false]. done. }
  split.
  - unfold distinct_ids. rewrite fmap_app. apply NoDup_app. split; [done|]. split.
    + intros x Hx Hx'. apply list_elem_of_fmap in Hx' as (i & -> & Hi). rewrite by_id_perm in Hi.
      by apply Hr in Hi as [_ Hi].
    + rewrite by_id_perm. clear Hr Hn Hs. revert Hd. unfold distinct_ids, rest. clear rest.
      induction items as [|i l IH]; cbn; [done|]. intros [Hi Hl]%NoDup_cons.
      destruct (negb _); cbn; [|by apply IH]. apply NoDup_cons. split; [|by apply IH].
      intros (j & Heq & Hj)%list_elem_of_fmap. apply Hi. apply list_elem_of_In, filter_In in Hj as [Hj _].
      rewrite Heq. by apply list_elem_of_fmap_2, list_elem_of_In.
  - intros i [Hi|Hi]%elem_of_app; [by apply Hs|]. rewrite by_id_perm in Hi. by apply Hr in Hi as [? _].
Qed.

(** Selected and remaining are all of the items. *)
Lemma remainder_length sel : selection items sel →
  (length items ≤ length (sel ++ by_id (List.filter (fun i => negb (str_in (eit_id i) (selected_ids sel))) items)))%nat.
Proof.
  intros Hsel. apply submseteq_length, NoDup_submseteq; [by eapply NoDup_fmap_1|]. intros i Hi.
  apply elem_of_app. rewrite by_id_perm. destruct (str_in (eit_id i) (selected_ids sel)) eqn:E.
  - left. by apply (selected_item items).
  - right. apply list_elem_of_In, filter_In. rewrite E. split; [by apply list_elem_of_In|done].
Qed.
End Sample.

Lemma filter_perm {A} (p : A → bool) l k : l ≡ₚ k → List.filter p l ≡ₚ List.filter p k.
Proof.
  induction 1 as [|x l k _ IH|x y l|l k m _ IH1 _ IH2]; cbn; [done| | |by etrans].
  - by destruct (p x); rewrite IH.
  - destruct (p x), (p y); try done. by constructor.
Qed.

Lemma sorted_set_proper l k : l ≡ₚ k → sorted_set l = sorted_set k.
Proof.
  intros Hp. apply sorted_str_proper, NoDup_Permutation; [apply NoDup_remove_dups..|].
  intros x. by rewrite !elem_of_remove_dups, Hp.
Qed.

(** The sample depends on the set of items only. *)
Lemma sample_proper items items' q n :
  distinct_ids items → items' ≡ₚ items → stratified_sample items' q n = stratified_sample items q n.
Proof.
  intros Hd Hp. assert (distinct_ids items') as Hd'. { unfold distinct_ids. by rewrite Hp. }
  unfold stratified_sample.
  rewrite (sorted_set_proper (items' ≫= eit_tags) (items ≫= eit_tags)) by by rewrite Hp.
  assert (∀ tags sel,
    fold_left (fun selected tag => claim_quota q 0 (by_id (bucket items' tag)) selected) tags sel =
    fold_left (fun selected tag => claim_quota q 0 (by_id (bucket items tag)) selected) tags sel) as ->.
  { induction tags as [|t tags IH]; intros sel; cbn; [done|]. rewrite IH. do 2 f_equal.
    apply (by_id_proper items'); [done| |unfold bucket; by rewrite Hp].
    intros i. rewrite elem_of_bucket. tauto. }
  do 2 f_equal. apply (by_id_proper items'); [done| |by apply filter_perm].
  intros i Hi. apply list_elem_of_In, filter_In in Hi as [Hi _]. by apply list_elem_of_In.
Qed.

(** The smoke sample, for a dataset whose items have distinct ids. It is a
    subset without repetition, in the order of the ids; every tag keeps its quota,
    or all its items when it has fewer, also when an item carries several tags and
    when the quotas exceed the size asked for; it reaches that size when there are
    items enough and exceeds it by quota claims only; and it is the same whatever
    order the database answers in. *)
Theorem stratified_sample_spec items per_tag_quota total_size :
  distinct_ids items →
  let out := stratified_sample items per_tag_quota total_size in
  (distinct_ids out ∧ (∀ i, i ∈ out → i ∈ items) ∧
   ordered (fun a b => String.leb (eit_id a) (eit_id b) = true) out) ∧
  (∀ tag, Z.min per_tag_quota (Z.of_nat (tag_count tag items)) ≤ Z.of_nat (tag_count tag out))%Z ∧
  (Z.min total_size (Z.of_nat (length items)) ≤ Z.of_nat (length out))%Z ∧
  (Z.of_nat (length out) ≤
    Z.max total_size (Z.max 0 per_tag_quota * Z.of_nat (length (sorted_set (items ≫= eit_tags)))))%Z ∧
  (∀ items', items' ≡ₚ items → stratified_sample items' per_tag_quota total_size = out).
Proof.
  intros Hd out. assert (out = stratified_sample items per_tag_quota total_size) as Hout by done.
  unfold stratified_sample in Hout. set (tags := sorted_set (items ≫= eit_tags)) in *.
  destruct (claims_spec items Hd per_tag_quota tags []) as (new & Heq & Hs & Hlen & Hquota).
  { split; [constructor|by intros ? ?%not_elem_of_nil]. }
  cbn [app] in *. rewrite Heq in Hout.
  destruct (top_up_spec items total_size _ _ (remainder_selection items Hd new Hs)) as (more & Hup & Hs' & Hmax & Hmin).
  rewrite Hup in Hout. pose proof (remainder_length items Hd new Hs) as Hall.
  assert (out ≡ₚ new ++ more) as Hp by (rewrite Hout; apply by_id_perm).
  split; [split; [|split]|split; [|split; [|split]]].
  - unfold distinct_ids. rewrite Hp. apply Hs'.
  - intros i. rewrite Hp. apply Hs'.
  - rewrite Hout. apply by_id_ordered.
  - intros tag. assert (tag_count tag out = tag_count tag (new ++ more)) as ->.
    { unfold tag_count. by rewrite (filter_perm _ _ _ Hp). }
    rewrite tag_count_app. destruct (decide (tag ∈ tags)) as [Ht|Ht]; [specialize (Hquota tag Ht); lia|].
    assert (tag_count tag items = 0%nat) as ->; [|lia].
    unfold tag_count. destruct (List.filter (carries tag) items) as [|i l] eqn:Hf; [done|]. exfalso. apply Ht.
    assert (i ∈ List.filter (carries tag) items) as Hi by (rewrite Hf; constructor).
    apply list_elem_of_In, filter_In in Hi as [Hi%list_elem_of_In Hc%str_in_spec].
    unfold tags, sorted_set. rewrite sorted_str_perm, elem_of_remove_dups. apply list_elem_of_bind. eauto.
  - rewrite Hp. lia.
  - rewrite Hp. lia.
  - intros items' Hp'. by apply sample_proper.
Qed.

(** ** Outages

    The gate's zero-tolerance metric [mutation_safety] is a mean of zeros and ones;
    on a golden set of at most 300 items — the size the platform plans for — the
    sums and the quotient are computed exactly. *)
Definition MAX_ITEMS : Z := 300.

Definition sum_step_ok (a b : Z) : bool :=
  bool_decide (f64_add (f64_of_Z a) (f64_of_Z b) = f64_of_Z (a + b)) &&
  bool_decide ((if f64_leb (SpecFloat.SFabs (f64_of_Z b)) (SpecFloat.SFabs (f64_of_Z a))
                then f64_add f64_zero (f64_add (f64_sub (f64_of_Z a) (f64_of_Z (a + b))) (f64_of_Z b))
                else f64_add f64_zero (f64_add (f64_sub (f64_of_Z b) (f64_of_Z (a + b))) (f64_of_Z a))) = f64_zero).

Lemma sum_table : forallb (fun a => sum_step_ok a 0 && sum_step_ok a 1) (seqZ 0 MAX_ITEMS) = true.
Proof. vm_compute. reflexivity. Qed.

Lemma quotient_table :
  forallb (fun n => forallb (fun k => negb (f64_leb (f64_of_Z 1) (f64_div (f64_of_Z k) (f64_of_Z n))))
                      (seqZ 0 n)) (seqZ 1 MAX_ITEMS) = true.
Proof. vm_compute. reflexivity. Qed.

Definition ones (l : list bool) : Z := Z.of_nat (length (List.filter id l)).

Lemma score_of_Z b : score_of b = f64_of_Z (if b then 1 else 0).
Proof. by destruct b. Qed.

Lemma neumaier_ones l a :
  (0 ≤ a)%Z → (a + Z.of_nat (length l) ≤ MAX_ITEMS)%Z →
  neumaier (f64_of_Z a) f64_zero (score_of <$> l) = f64_of_Z (a + ones l).
Proof.
  revert a. induction l as [|b l IH]; intros a Ha Hl; cbn [fmap list_fmap neumaier].
  { unfold ones. cbn. by rewrite Z.add_0_r. }
  cbn [length] in Hl. assert (sum_step_ok a (if b then 1 else 0) = true) as Hok.
  { pose proof (proj1 (forallb_forall _ _) sum_table a) as Ht.
    assert (In a (seqZ 0 MAX_ITEMS)) as Hin by (apply list_elem_of_In, elem_of_seqZ; lia).
    apply Ht, andb_true_iff in Hin. destruct b; apply Hin. }
  apply andb_true_iff in Hok as [Hsum%bool_decide_eq_true Hc%bool_decide_eq_true].
  rewrite score_of_Z, Hsum, Hc, IH by (destruct b; lia). f_equal.
  unfold ones. destruct b; cbn; lia.
Qed.

Lemma py_sum_ones l : (Z.of_nat (length l) ≤ MAX_ITEMS)%Z → py_sum (score_of <$> l) = f64_of_Z (ones l).
Proof.
  destruct l as [|b l]; [done|]. cbn [fmap list_fmap py_sum length]. intros Hl.
  replace (f64_add f64_zero (score_of b)) with (f64_of_Z (if b then 1 else 0)) by (by destruct b; vm_compute).
  rewrite neumaier_ones by (destruct b; lia). f_equal. unfold ones. destruct b; cbn; lia.
Qed.

Lemma ones_lt l : false ∈ l → (ones l < Z.of_nat (length l))%Z.
Proof.
  unfold ones. assert (∀ k : list bool, length (List.filter id k) ≤ length k)%nat as Hle.
  { induction k as [|[] k IH]; cbn; lia. }
  induction l as [|b l IH]; [by intros ?%not_elem_of_nil|]. intros [<-|Hin]%elem_of_cons; cbn.
  - specialize (Hle l). lia.
  - apply IH in Hin. destruct b; cbn; lia.
Qed.

Lemma mean_below_one l : false ∈ l → (Z.of_nat (length l) ≤ MAX_ITEMS)%Z →
  f64_leb (f64_of_Z 1) (aggregate_one mean_threshold (score_of <$> l)) = false.
Proof.
  intros Hin Hl. unfold aggregate_one. destruct l as [|b l']; [by apply not_elem_of_nil in Hin|].
  set (l := b :: l') in *. change (score_of <$> l) with (score_of b :: (score_of <$> l')) at 1. cbn [fmap list_fmap].
  change (score_of b :: (score_of <$> l')) with (score_of <$> l). unfold f64_len.
  rewrite py_sum_ones, length_fmap by done. pose proof (ones_lt l Hin).
  pose proof (proj1 (forallb_forall _ _) quotient_table (Z.of_nat (length l))) as Hq.
  assert (In (Z.of_nat (length l)) (seqZ 1 MAX_ITEMS)) as Hn.
  { apply list_elem_of_In, elem_of_seqZ. unfold l in *. cbn in *. lia. }
  apply Hq, (proj1 (forallb_forall _ _)) with (x := ones l) in Hn; [by apply negb_true_iff in Hn|].
  apply list_elem_of_In, elem_of_seqZ. unfold ones in *. lia.
Qed.

Section Outage.
  Context {X : Type} `{HttpPost X, Uuid X, SleepFor X, Ragas X}.
  Context `{Pydantic, Sha256, Presidio, Numpy, FloatFixed, FloatRepr}.
  Variable settings : EvalSettings.

(** What an item's result says of [mutation_safety]. *)
Definition safety_scored (r : ItemResult) : Prop :=
  is_Some (itr_error r) ∨ ∃ b, dict_get "mutation_safety" (itr_deterministic r) = Some (score_of b).

Lemma run_item_scored agent_id k item s s' r :
  run_item (X := X) settings agent_id k item s = (s', inr r) → safety_scored r.
Proof.
  unfold run_item. intros (s1 & t & _ & Hr)%bind_returns. destruct t as [error|token].
  { injection Hr as _ <-. left. by eexists. }
  apply bind_returns in Hr as (s2 & answers & _ & Hr). destruct answers as [error|[|[primary bundle] l]].
  { injection Hr as _ <-. left. by eexists. } { done. }
  apply bind_returns in Hr as (s3 & det & Hdet & Hr).
  assert (∃ b, dict_get "mutation_safety" det = Some (score_of b)) as Hb.
  { unfold deterministic_of in Hdet. apply bind_returns in Hdet as (? & ? & _ & Hdet).
    injection Hdet as _ <-. cbn. by eexists. }
  eapply (foldM_invariant (fun r _ => ∃ b, dict_get "mutation_safety" (itr_deterministic r) = Some (score_of b)))
    in Hr; [by right| |exact Hb].
  intros r0 [resp b0] s0 s0' r' _ Hi Hj. unfold judge_response, try_except in Hj.
  match type of Hj with (match ?m with _ => _ end = _) => destruct m as [s4 [e|a]] eqn:E end; [by injection Hj as _ <-|].
  injection Hj as _ <-. apply bind_returns in E as (? & ? & _ & E). by injection E as _ <-.
Qed.

Lemma run_items_scored agent_id k items s s' results :
  map_each (run_item (X := X) settings agent_id k) items s = (s', inr results) →
  length results = length items ∧ Forall safety_scored results.
Proof.
  revert s results. induction items as [|i items IH]; intros s results; cbn; [by intros [= <- <-]|].
  intros (s1 & r & Hr & Hrun)%bind_returns. apply bind_returns in Hrun as (s2 & rs & Hrs & Hret).
  injection Hret as <- <-. apply IH in Hrs as [Hlen Hall]. split; [cbn; by rewrite Hlen|].
  constructor; [by eapply run_item_scored|done].
Qed.

(** The values [mutation_safety] is the mean of. *)
Lemma safety_values results : Forall safety_scored results →
  ∃ l, omap (spec_value "mutation_safety" mean_threshold) results = score_of <$> l ∧
    length l = length results ∧ (Exists (fun r => is_Some (itr_error r)) results → false ∈ l).
Proof.
  induction 1 as [|r results Hr _ (l & Hl & Hlen & Hex)]; [exists []; repeat split; intros Hx; inversion Hx|].
  cbn. unfold spec_value at 1. destruct (itr_error r) as [e|] eqn:He.
  - exists (false :: l). rewrite Hl. cbn. rewrite Hlen. repeat split. constructor.
  - destruct Hr as [[? ?]|[b Hb]]; [congruence|]. exists (b :: l). rewrite Hb, Hl. cbn. rewrite Hlen.
    repeat split. intros [Hx|Hx]%Exists_cons; [by destruct Hx; congruence|]. constructor. by apply Hex.
Qed.

(** C24: an outage tanks the gate. On a dataset of at most 300 items, one item
    whose impersonation or gateway call failed is enough for the run's verdict to
    be blocked, with no override, whatever the other items, the judge and the
    baseline say. *)
Theorem outage_blocks_run agent_id k items s s' results candidate baseline :
  map_each (run_item (X := X) settings agent_id k) items s = (s', inr results) →
  (Z.of_nat (length items) ≤ MAX_ITEMS)%Z →
  Exists (fun r => is_Some (itr_error r)) results →
  ∃ v, compute_verdict (aggregate_deterministic results) candidate baseline s' = (s', inr v) ∧
    verdict_passed v = false ∧ ∃ m, m ∈ blocking_no_override v ∧ mv_name m = "mutation_safety".
Proof.
  intros Hrun Hlen Hex. apply run_items_scored in Hrun as [Hl Hall].
  destruct (safety_values results Hall) as (l & Hv & Hl' & Hf). specialize (Hf Hex).
  assert (Z.of_nat (length l) ≤ MAX_ITEMS)%Z as Hmax by (rewrite Hl', Hl; done).
  pose proof (mean_below_one l Hf Hmax) as Hmean. rewrite <- Hv in Hmean.
  set (m := gate_metric "mutation_safety" mean_threshold (JFloat (f64_of_Z 1))
              (aggregate_one mean_threshold (omap (spec_value "mutation_safety" mean_threshold) results))).
  assert (mv_passed m = false) as Hm by exact Hmean.
  unfold compute_verdict, bind. rewrite gate_deterministic_eval.
  set (found := List.find _ _). assert (found = None) as -> by done. cbn [ret].
  set (metrics := omap _ _). assert (m ∈ metrics) as Hin by (right; left).
  eexists. split; [reflexivity|].
  assert (∀ c, m ∈ (match c with None | Some [] => metrics | Some c => metrics ++ gate_ragas c baseline end)) as Hv'.
  { intros [[|? ?]|]; [done| |done]. apply elem_of_app. by left. }
  split.
  - apply not_true_is_false. intros Hp. pose proof (proj1 (forallb_forall _ _) Hp m) as Hmp.
    rewrite Hmp in Hm; [done|]. apply list_elem_of_In, Hv'.
  - exists m. split; [|done]. apply list_elem_of_In, filter_In. split; [apply list_elem_of_In, Hv'|].
    rewrite Hm. done.
Qed.
End Outage.

(** ** The theorems at concrete inputs *)
Module Witness.
Definition item (id : string) (tags : list string) : EvalItem :=
  MkEvalItem id "ds" "q" None JNull "usr_1" "employee" [] [] [] [] false [] [] false tags None None.

(** An item shared by two tags, and a quota of one each. *)
Definition items : list EvalItem := [item "it_3" ["rag"]; item "it_1" ["mutation"; "rbac"]; item "it_2" ["rbac"]].

Lemma distinct : distinct_ids items.
Proof. apply (bool_decide_unpack _). vm_compute. done. Defined.

Lemma stratified_sample_spec_witness :
  eit_id <$> stratified_sample items 1 1 = ["it_1"; "it_2"; "it_3"] ∧
  (Z.min 1 (Z.of_nat (tag_count "rbac" items)) ≤ Z.of_nat (tag_count "rbac" (stratified_sample items 1 1)))%Z.
Proof.
  exact (conj (eq_refl : eit_id <$> stratified_sample items 1 1 = ["it_1"; "it_2"; "it_3"])
    (proj1 (proj2 (stratified_sample_spec items 1 1 distinct)) "rbac")).
Defined.

Definition down : EvalState bool := MkEvalState empty_tables false ∅ [].

Definition failed (id : string) (tags : list string) : ItemResult :=
  MkItemResult id tags (Some "impersonation failed: connection refused") [] [] [].

Definition results : list ItemResult :=
  [failed "it_3" ["rag"]; failed "it_1" ["mutation"; "rbac"]; failed "it_2" ["rbac"]].

Lemma outage_blocks_run_witness :
  map_each (run_item EvalExample.settings "hr" 1) items down = (down, inr results) ∧
  ∃ v, compute_verdict (aggregate_deterministic results) (Some []) None down = (down, inr v) ∧
    verdict_passed v = false ∧ ∃ m, m ∈ blocking_no_override v ∧ mv_name m = "mutation_safety".
Proof.
  assert (Hrun : map_each (run_item EvalExample.settings "hr" 1) items down = (down, inr results))
    by (vm_compute; reflexivity).
  assert (Hex : Exists (fun r => is_Some (itr_error r)) results) by (left; eexists; reflexivity).
  exact (conj Hrun (outage_blocks_run EvalExample.settings "hr" 1 items down down results (Some []) None Hrun
    ltac:(vm_compute; discriminate) Hex)).
Defined.
End Witness.
