(* ===== verification/EvalFrames.v ===== *)
(** eval: what the commands other than the gate leave alone — [keeps_runs], carried
    along every statement and every call by the [frames] rules. *)
From S2P Require Import Prelude PyStr Json Presidio Http Contracts Wire Guardrails EvalGate EvalDb EvalRun EvalNightly.

(** ** What the commands leave alone *)

(** Runs are kept as they are, the new ones are no baselines, and no baseline
    change is recorded. *)
Definition keeps_runs (d d' : EvalDb) : Prop :=
  (∀ id r, edb_runs d !! id = Some r → edb_runs d' !! id = Some r) ∧
  (∀ id r, edb_runs d' !! id = Some r → edb_runs d !! id = Some r ∨ evr_is_baseline r = false) ∧
  edb_baseline_changes d' = edb_baseline_changes d.

#[export] Instance keeps_runs_preorder : PreOrder keeps_runs.
Proof.
  split; [by repeat split; auto|]. intros d e f (H1 & H2 & H3) (K1 & K2 & K3). split; [auto|]. split; [|congruence].
  intros id r [Hr|?]%K2; [by apply H2|by right].
Qed.

Section Frames.
  Context {X : Type} (Q : EvalDb → EvalDb → Prop) `{!PreOrder Q}.
  Abbreviation W := (EvalState X).
  Abbreviation R := (fun s s' : W => Q (es_db s) (es_db s')).

#[export] Instance db_preorder : PreOrder R.
Proof. split; [by intros s|by intros s t u Hs Ht; etrans]. Qed.

Lemma frames_session {A} (m : py W A) : frames R m → frames R (session m).
Proof. intros Hm s. unfold session. specialize (Hm s). destruct (m s) as [s' [e|a]]; [done|exact Hm]. Qed.

Lemma frames_in_ext {A} (m : py X A) : frames R (in_ext m).
Proof. intros s. unfold in_ext, zoom. by destruct (m (es_ext s)). Qed.

Lemma frames_print line : frames R (print line).
Proof. by intros s. Qed.

Lemma frames_write_text path text : frames R (write_text path text).
Proof. by intros s. Qed.

Lemma frames_on_db f : (∀ d, Q d (f d)) → frames R (on_eval_db f).
Proof. intros Hf s. apply Hf. Qed.
End Frames.

(** Compose [frames] along a command: the combinators it shows, and its branches. *)
Ltac db_frames :=
  repeat first
    [ progress intros
    | lazymatch goal with
      | |- frames _ (bind _ _) => apply (frames_bind _)
      | |- frames _ (ret _) => apply (frames_ret _)
      | |- frames _ (raise _) => apply (frames_raise _)
      | |- frames _ (gets _) => apply (frames_gets _)
      | |- frames _ (try_except _ _) => apply (frames_try _)
      | |- frames _ (map_each _ _) => apply (frames_map_each _)
      | |- frames _ (foldM _ _ _) => apply (frames_foldM _)
      | |- frames _ (for_each _ _) => apply (frames_for_each _)
      | |- frames _ (session _) => apply (frames_session _)
      | |- frames _ (in_ext _) => apply (frames_in_ext _)
      | |- frames _ (print _) => apply (frames_print _)
      | |- frames _ (write_text _ _) => apply (frames_write_text _)
      | |- frames _ (match _ with _ => _ end) => case_match
      end
    | match goal with
      | H : Some _ = Some _ |- _ => injection H as <-
      | H : (match ?x with _ => _ end) = Some _ |- _ => destruct x; try discriminate H
      end
    | done ].

Section Keeps.
  Context {X : Type} `{HttpPost X, Uuid X, SleepFor X, Ragas X, GhCli X, JudgeLlm X, LangfuseApi X, ReviewClock X}.
  Context `{Pydantic, Sha256, YamlLoad, ItemsScan, Presidio, Numpy, FloatFixed, FloatRepr}.
  Variable settings : EvalSettings.
  Abbreviation W := (EvalState X).
  Abbreviation R := (fun s s' : W => keeps_runs (es_db s) (es_db s')).

Lemma keeps_same d d' : edb_runs d' = edb_runs d → edb_baseline_changes d' = edb_baseline_changes d → keeps_runs d d'.
Proof. intros Hr Hc. split; [by rewrite Hr|]. split; [|done]. rewrite Hr. auto. Qed.

Lemma columns_frames (j : json) :
  frames R (col_text j) ∧ frames R (col_opt_text j) ∧ frames R (col_texts j) ∧ frames R (col_bool j) ∧
  frames R (to_jsonb j).
Proof.
  assert (∀ v, frames R (col_text v)) as Ht by (intros v; unfold col_text, data_error; db_frames).
  split; [apply Ht|]. split; [|split; [|split]].
  - unfold col_opt_text. destruct j; try by apply (frames_ret _).
    all: apply (frames_bind _); [apply Ht|intros; apply (frames_ret _)].
  - unfold col_texts, data_error. destruct j; db_frames; apply Ht.
  - unfold col_bool, data_error. db_frames.
  - unfold to_jsonb. db_frames.
Qed.

Lemma json_frames (k : string) (d j : json) :
  frames R (jget k j) ∧ frames R (jget_opt k j) ∧ frames R (jget_default k d j) ∧ frames R (py_iter j).
Proof. unfold jget, jget_opt, jget_default, py_iter. split; [|split; [|split]]; db_frames. Qed.

Ltac run_frames := repeat first
  [ apply columns_frames | apply (json_frames _ JNull) | apply json_frames | progress db_frames ].

Lemma sync_frames path : frames R (sync_golden_set path).
Proof.
  unfold sync_golden_set, load_golden_set_file, read_text, with_dataset, upsert_item, fk_dataset, upsert_dataset.
  run_frames; apply (frames_on_db _); intros; by apply keeps_same.
Qed.

Lemma put_frames item_id h m metric score reason :
  frames R (put_cached_judge_score (X := X) item_id h m metric score reason).
Proof.
  unfold put_cached_judge_score, data_error. db_frames. apply (frames_on_db _); intros; by apply keeps_same.
Qed.

Lemma score_item_frames item_id question answer contexts reference :
  frames R (score_item item_id question answer contexts reference).
Proof.
  unfold score_item, score_metric, get_cached_judge_score. db_frames; apply put_frames.
Qed.

Lemma run_item_frames agent_id k item : frames R (run_item settings agent_id k item).
Proof.
  unfold run_item, judge_response, deterministic_of, pii_leakage, detect_pii.
  assert (∀ n token q, frames R (ask settings n token agent_id q)) as Hask.
  { induction n; intros; cbn [ask]; db_frames; apply IHn. }
  repeat first [apply Hask | apply score_item_frames | apply put_frames | progress db_frames].
Qed.

Lemma medians_frames scores : frames R (read_medians scores).
Proof. unfold read_medians, as_items, read_floats, as_items, as_float. run_frames. Qed.

Lemma verdict_frames det c b : frames R (compute_verdict (S := W) det c b).
Proof. unfold compute_verdict, gate_deterministic. db_frames. Qed.

Lemma insert_run_frames id ds ag av pv ma sha dv scores passed :
  frames R (insert_run id ds ag av pv ma sha dv scores passed).
Proof.
  intros s. unfold insert_run, to_jsonb, fk_dataset, on_eval_db, modify, bind, gets, raise, ret.
  destruct (cast_jsonb scores); [done|].
  destruct (edb_runs (es_db s) !! id) eqn:E; [done|]. destruct (edb_datasets _ !! ds); [|done]. cbn.
  split; [|split; [|done]].
  - intros j r Hj. cbn. rewrite lookup_insert_ne; [done|congruence].
  - intros j r. cbn. intros [[-> <-]|[_ ?]]%lookup_insert_Some; [by right|by left].
Qed.

Lemma run_eval_frames tier k git_sha : frames R (run_eval settings tier k git_sha).
Proof.
  unfold run_eval, get_items, get_baseline_run, extract_ragas_medians_from_run, uuid_id.
  repeat first [apply sync_frames | apply run_item_frames | apply medians_frames | apply verdict_frames
    | apply insert_run_frames | apply put_frames | progress db_frames].
Qed.

Lemma run_main_frames tier k git_sha : frames R (run_main settings tier k git_sha).
Proof. unfold run_main. repeat first [apply run_eval_frames | progress db_frames]. Qed.

Lemma report_main_frames tier run_id comment_pr : frames R (report_main settings tier run_id comment_pr).
Proof.
  unfold report_main, report_resolve_run_id, render_markdown, metric_row, failing_items, post_pr_comment, get_run,
    system_exit, jget_text, jget_truthy, as_float, as_items. run_frames.
Qed.

Lemma nightly_frames agent_id hours limit surface : frames R (run_nightly_sample settings agent_id hours limit surface).
Proof.
  unfold run_nightly_sample, langfuse_client, fetch_recent_traces, production_trace, cited_chunk, score_trace,
    citation_support, chunk_supported, context_text, get_cached_judge_score.
  repeat first [apply score_item_frames | apply put_frames | progress run_frames].
Qed.
End Keeps.
