(* ===== verification/EvalProps.v ===== *)
(** eval: runs, the gate and the baseline. [baseline_invariant]: whatever commands
    are run in whatever order, a dataset and agent have at most one baseline, and
    every baseline is a run that met every deterministic threshold and that a
    recorded change promoted. *)
From S2P Require Import Prelude PyStr Json Presidio Http Contracts Wire Guardrails EvalGate EvalDb EvalRun EvalNightly EvalExample EvalGateProps EvalFrames.

(** ** The gate *)

Section Gate.
  Context {X : Type} `{HttpPost X, Uuid X, SleepFor X, Ragas X, GhCli X, JudgeLlm X, LangfuseApi X, ReviewClock X}.
  Context `{Pydantic, Sha256, YamlLoad, ItemsScan, Presidio, Numpy, FloatFixed, FloatRepr}.
  Variable settings : EvalSettings.
  Abbreviation W := (EvalState X).

(** A run whose stored scores meet every deterministic threshold. *)
Definition meets_thresholds (r : EvalRun) : Prop :=
  ∃ (s : W) det, (let! v := jget "deterministic" (evr_scores r) in read_floats v) s = (s, inr det) ∧
    forallb (spec_holds det) DETERMINISTIC_SPECS = true.

(** A recorded change that made the run the baseline of its dataset and agent. *)
Definition promoted (d : EvalDb) (id : string) (r : EvalRun) : Prop :=
  ∃ cid c, edb_baseline_changes d !! cid = Some c ∧ blc_to_run_id c = id ∧
    blc_dataset_id c = evr_dataset_id r ∧ blc_agent_id c = evr_agent_id r.

Definition unique_baselines (d : EvalDb) : Prop :=
  ∀ i j r q, edb_runs d !! i = Some r → edb_runs d !! j = Some q →
    evr_is_baseline r = true → evr_is_baseline q = true →
    evr_dataset_id r = evr_dataset_id q → evr_agent_id r = evr_agent_id q → i = j.

Definition baselines_ok (d : EvalDb) : Prop :=
  unique_baselines d ∧
  ∀ id r, edb_runs d !! id = Some r → evr_is_baseline r = true → meets_thresholds r ∧ promoted d id r.

Lemma keeps_baselines_ok d d' : baselines_ok d → keeps_runs d d' → baselines_ok d'.
Proof.
  intros [Hu Hc] (Hold & Hnew & Hch). split.
  - intros i j r q Hi Hj Hr Hq. apply Hnew in Hi as [Hi|?]; [|congruence]. apply Hnew in Hj as [Hj|?]; [|congruence].
    eauto.
  - intros id r Hr Hb. apply Hnew in Hr as [Hr|?]; [|congruence]. destruct (Hc id r Hr Hb) as [Hm Hp].
    split; [done|]. unfold promoted. by rewrite Hch.
Qed.

Lemma is_baseline_of_spec ds ag r :
  is_baseline_of ds ag r = true ↔ evr_dataset_id r = ds ∧ evr_agent_id r = ag ∧ evr_is_baseline r = true.
Proof. unfold is_baseline_of. rewrite !andb_true_iff, !String.eqb_eq. tauto. Qed.

Definition cleared (ds ag : string) (r : EvalRun) : EvalRun :=
  if is_baseline_of ds ag r then r <| evr_is_baseline := false |> else r.

(** A run that stays a baseline when another pair's is cleared. *)
Lemma cleared_baseline ds ag r : evr_is_baseline (cleared ds ag r) = true →
  cleared ds ag r = r ∧ evr_is_baseline r = true ∧ ¬ (evr_dataset_id r = ds ∧ evr_agent_id r = ag).
Proof.
  unfold cleared. destruct (is_baseline_of ds ag r) eqn:E; [done|]. intros Hb. split; [done|]. split; [done|].
  intros [Hd Ha]. assert (is_baseline_of ds ag r = true); [by apply is_baseline_of_spec|congruence].
Qed.

Lemma insert_change_returns cid row (s s' : W) :
  insert_baseline_change cid row s = (s', inr tt) →
  edb_baseline_changes (es_db s) !! cid = None ∧ is_Some (edb_runs (es_db s) !! blc_to_run_id row) ∧
  edb_runs (es_db s') = edb_runs (es_db s) ∧
  edb_baseline_changes (es_db s') = <[cid := row]> (edb_baseline_changes (es_db s)).
Proof.
  unfold insert_baseline_change, bind, gets, fk_dataset, run_exists, on_eval_db, modify, raise, ret.
  case_bool_decide as Hc; [done|]. destruct (edb_datasets _ !! _); [|done].
  destruct (from_option _ true _); [|done]. case_bool_decide as Hr; [|done]. intros [= <-].
  repeat split; [|done]. by apply eq_None_not_Some.
Qed.

(** What a promotion that returns does to the tables. *)
Lemma promote_returns cid ds ag from to reason by_ auto (s s' : W) :
  promote_baseline cid ds ag from to reason by_ auto s = (s', inr tt) →
  ∃ r, edb_runs (es_db s) !! to = Some r ∧ edb_baseline_changes (es_db s) !! cid = None ∧
    other_baseline ((es_db s) <| edb_runs ::= fmap (cleared ds ag) |>) to (cleared ds ag r) = false ∧
    edb_runs (es_db s') =
      <[to := (cleared ds ag r) <| evr_is_baseline := true |>]> (cleared ds ag <$> edb_runs (es_db s)) ∧
    edb_baseline_changes (es_db s') =
      <[cid := MkBaselineChange ds ag from to reason by_ auto]> (edb_baseline_changes (es_db s)).
Proof.
  unfold promote_baseline. intros (s1 & [] & Hclear & Hp)%bind_returns. injection Hclear as <-.
  apply bind_returns in Hp as (s2 & [] & Hset & Hins). apply insert_change_returns in Hins as (Hcid & Hto & Hr & Hc).
  rewrite Hr, Hc. unfold set_baseline, bind, gets, on_eval_db, modify, raise, ret in Hset. cbn in Hset.
  rewrite lookup_fmap in Hset. destruct (edb_runs (es_db s) !! to) as [r|] eqn:Hrun; cbn in Hset.
  - destruct (other_baseline _ to _) eqn:Ho in Hset; [done|]. injection Hset as <-. by exists r.
  - injection Hset as <-. cbn in Hto. rewrite lookup_fmap, Hrun in Hto. by destruct Hto.
Qed.

Lemma no_other_baseline d id r : other_baseline d id r = false →
  ∀ j q, edb_runs d !! j = Some q → evr_is_baseline q = true →
    evr_dataset_id q = evr_dataset_id r → evr_agent_id q = evr_agent_id r → j = id.
Proof.
  unfold other_baseline. intros Ho j q Hj Hq Hd Ha. destruct (str_eqb_spec j id) as [|Hne]; [done|]. exfalso.
  assert (existsb (fun kv => negb (String.eqb kv.1 id) &&
    is_baseline_of (evr_dataset_id r) (evr_agent_id r) kv.2) (map_to_list (edb_runs d)) = true); [|congruence].
  apply existsb_exists. exists (j, q). split; [by apply list_elem_of_In, elem_of_map_to_list|]. cbn.
  apply andb_true_iff. split; [by apply negb_true_iff, String.eqb_neq|]. by apply is_baseline_of_spec.
Qed.

Lemma cleared_ids ds ag r : evr_dataset_id (cleared ds ag r) = evr_dataset_id r ∧
  evr_agent_id (cleared ds ag r) = evr_agent_id r ∧ evr_scores (cleared ds ag r) = evr_scores r.
Proof. unfold cleared. by destruct (is_baseline_of ds ag r). Qed.

Lemma promote_ok cid from to reason by_ auto (s s' : W) r :
  edb_runs (es_db s) !! to = Some r → meets_thresholds r → baselines_ok (es_db s) →
  promote_baseline cid (evr_dataset_id r) (evr_agent_id r) from to reason by_ auto s = (s', inr tt) →
  baselines_ok (es_db s').
Proof.
  intros Hto Hmeets [Hu Hc] Hp. apply promote_returns in Hp as (r' & Hr' & Hcid & Ho & Hruns & Hch).
  rewrite Hto in Hr'. injection Hr' as <-.
  set (ds := evr_dataset_id r) in *. set (ag := evr_agent_id r) in *.
  destruct (cleared_ids ds ag r) as (Hds & Hag & Hsc).
  assert (∀ j q, edb_runs (es_db s') !! j = Some q → evr_is_baseline q = true →
    (j = to ∧ q = (cleared ds ag r) <| evr_is_baseline := true |>) ∨
    (j ≠ to ∧ edb_runs (es_db s) !! j = Some q ∧ ¬ (evr_dataset_id q = ds ∧ evr_agent_id q = ag))) as Hcase.
  { intros j q. rewrite Hruns. intros [[-> <-]|[Hne Hj]]%lookup_insert_Some Hb; [by left|right].
    rewrite lookup_fmap in Hj. apply fmap_Some in Hj as (q0 & Hj & ->).
    apply cleared_baseline in Hb as (-> & Hb & Hno). done. }
  split.
  - intros i j p q Hi Hj Hbp Hbq Hd Ha.
    destruct (Hcase i p Hi Hbp) as [[-> ->]|(Hni & Hi' & Hpi)], (Hcase j q Hj Hbq) as [[-> ->]|(Hnj & Hj' & Hpj)];
      [done| | |by eapply Hu].
    + exfalso. apply Hpj. cbn -[cleared] in Hd, Ha. split; [by rewrite <- Hd, Hds|by rewrite <- Ha, Hag].
    + exfalso. apply Hpi. cbn -[cleared] in Hd, Ha. split; [by rewrite Hd, Hds|by rewrite Ha, Hag].
  - intros id q Hq Hb. destruct (Hcase id q Hq Hb) as [[-> ->]|(Hni & Hq' & Hno)].
    + split; [destruct Hmeets as (s0 & det & Hdet & Hspec); exists s0, det; cbn -[cleared]; by rewrite Hsc|].
      exists cid, (MkBaselineChange ds ag from to reason by_ auto). rewrite Hch. split; [by rewrite lookup_insert_eq|].
      cbn -[cleared]. by rewrite Hds, Hag.
    + destruct (Hc id q Hq' Hb) as [Hm (c & ch & Hcc & Hrest)]. split; [done|]. exists c, ch. split; [|done].
      rewrite Hch, lookup_insert_ne; [done|congruence].
Qed.

(** ** The commands *)

Abbreviation same_db := (fun s s' : W => eq (es_db s) (es_db s')).

Lemma regate_frames run base : frames same_db (regate run base).
Proof.
  unfold regate, extract_ragas_medians_from_run, read_medians, read_floats, as_items, as_float, jget, jget_opt,
    compute_verdict, gate_deterministic. db_frames.
Qed.

Lemma resolve_frames tier run_id : frames same_db (resolve_run_id settings tier run_id).
Proof. unfold resolve_run_id, system_exit. db_frames. Qed.

Lemma frames_db {A} (m : py W A) s s' r : frames same_db m → m s = (s', r) → es_db s' = es_db s.
Proof. intros Hm Heq. specialize (Hm s). by rewrite Heq in Hm. Qed.

Lemma verdict_passed_specs det candidate baseline (s s' : W) v :
  compute_verdict det candidate baseline s = (s', inr v) → verdict_passed v = true →
  s' = s ∧ forallb (spec_holds det) DETERMINISTIC_SPECS = true.
Proof.
  unfold compute_verdict. intros (s1 & metrics & Hm & Hret)%bind_returns Hp.
  rewrite gate_deterministic_eval in Hm. destruct (List.find _ _) eqn:Hf; [done|]. injection Hm as <- <-.
  injection Hret as <- <-. split; [done|]. rewrite <- deterministic_passed by done.
  destruct candidate as [[|? ?]|]; [done| |done].
  unfold verdict_passed in Hp. rewrite forallb_app in Hp. by apply andb_true_iff in Hp as [? _].
Qed.

Lemma read_det_pure run (s s' : W) r :
  (let! v := jget "deterministic" (evr_scores run) in read_floats v) s = (s', r) → s' = s.
Proof.
  assert (frames (fun s s' : W => eq s s') (let! v := jget "deterministic" (evr_scores run) in read_floats v)) as Hf.
  { unfold jget, read_floats, as_items, as_float.
    repeat first [progress intros | apply (frames_bind _) | apply (frames_ret _) | apply (frames_raise _)
      | apply (frames_map_each _) | case_match]. }
  intros Heq. specialize (Hf s). by rewrite Heq in Hf.
Qed.

Lemma regate_passed run base (s s' : W) v : regate run base s = (s', inr v) → verdict_passed v = true →
  meets_thresholds run.
Proof.
  unfold regate. intros (s1 & bm & _ & Hr)%bind_returns Hp. apply bind_returns in Hr as (s2 & det & Hdet & Hr).
  apply bind_returns in Hr as (s3 & cand & _ & Hr). pose proof (read_det_pure _ _ _ _ Hdet) as ->.
  exists s1, det. split; [done|]. by eapply verdict_passed_specs.
Qed.

(** What the gate command that returns has done to the tables: it found the run,
    and only a passing verdict under [--promote-baseline] changed anything. *)
Lemma gate_returns tier run_id promote changed_by (s s' : W) v :
  gate_main settings tier run_id promote changed_by s = (s', inr v) →
  ∃ id run base (s1 s2 : W), edb_runs (es_db s) !! id = Some run ∧
    base = head (List.filter (fun kv => is_baseline_of (evr_dataset_id run) (evr_agent_id run) kv.2)
                   (map_to_list (edb_runs (es_db s)))) ∧
    es_db s1 = es_db s ∧ regate run base s1 = (s2, inr v) ∧
    (promote && verdict_passed v = false ∧ es_db s' = es_db s ∨
     promote && verdict_passed v = true ∧ ∃ cid (s3 s4 : W), es_db s3 = es_db s ∧ es_db s' = es_db s4 ∧
       promote_baseline cid (evr_dataset_id run) (evr_agent_id run) (fst <$> base) id
         "CI: all gates passed on merge to main" changed_by true s3 = (s4, inr tt)).
Proof.
  unfold gate_main. intros (s1 & id & Hid & Hb)%bind_returns. apply (frames_db _ _ _ _ (resolve_frames _ _)) in Hid.
  unfold session in Hb. destruct (bind _ _ s1) as [s2 [e|v']] eqn:Hbody; [done|]. injection Hb as -> ->.
  apply bind_returns in Hbody as (sa & found & Hfound & Hbody). injection Hfound as <- <-.
  destruct (edb_runs (es_db s1) !! id) as [run|] eqn:Hrun; [|done].
  apply bind_returns in Hbody as (sb & base & Hbase & Hbody). injection Hbase as <- <-.
  apply bind_returns in Hbody as (sc & w & Hre & Hbody).
  pose proof (frames_db _ _ _ _ (regate_frames _ _) Hre) as Hdb.
  apply bind_returns in Hbody as (sd & [] & Hd & Hbody). injection Hd as <-.
  apply bind_returns in Hbody as (se & [] & He & Hbody). apply (frames_db (for_each w _)) in He; [|db_frames].
  apply bind_returns in Hbody as (sf & [] & Hf & Hbody). injection Hbody as <- <-.
  exists id, run, (head (List.filter (fun kv => is_baseline_of (evr_dataset_id run) (evr_agent_id run) kv.2)
                   (map_to_list (edb_runs (es_db s1))))), s1, sc.
  cbn in He. rewrite <- Hid. split; [done|]. split; [done|]. split; [done|]. split; [done|].
  destruct (promote && verdict_passed w) eqn:Hp; [right; split; [done|]|left; split; [done|]].
  - apply bind_returns in Hf as (sg & cid & Hg & Hf). apply (frames_db (in_ext _)) in Hg; [|db_frames].
    apply bind_returns in Hf as (sh & [] & Hh & Hf). injection Hf as <-. exists cid, sg, sh.
    split; [by rewrite Hg, He|]. done.
  - injection Hf as <-. by rewrite He.
Qed.

(** One run of one of the service's commands, whatever its outcome. *)
Inductive command (s : W) : W → Prop :=
  | run_command tier k git_sha : command s (run_main settings tier k git_sha s).1
  | gate_command tier run_id promote changed_by :
      command s (gate_main settings tier run_id promote changed_by s).1
  | report_command tier run_id comment_pr : command s (report_main settings tier run_id comment_pr s).1
  | nightly_command agent_id hours limit surface :
      command s (run_nightly_sample settings agent_id hours limit surface s).1.

Lemma gate_keeps_ok tier run_id promote changed_by (s : W) : baselines_ok (es_db s) →
  baselines_ok (es_db (gate_main settings tier run_id promote changed_by s).1).
Proof.
  intros Hok. destruct (gate_main _ _ _ _ _ s) as [s' [e|v]] eqn:Hg; cbn.
  - unfold gate_main, bind at 1 in Hg. destruct (resolve_run_id _ _ _ s) as [s1 [e1|id]] eqn:Hid;
      apply (frames_db _ _ _ _ (resolve_frames _ _)) in Hid; [injection Hg as <- _; by rewrite Hid|].
    unfold session in Hg. destruct (bind _ _ s1) as [s2 [e2|?]]; [|done]. injection Hg as <- _. cbn. by rewrite Hid.
  - apply gate_returns in Hg as (id & run & base & s1 & s2 & Hrun & _ & _ & Hre & [[_ Hdb]|[Hp Hprom]]);
      [by rewrite Hdb|]. destruct Hprom as (cid & s3 & s4 & Hdb3 & Hdb4 & Hpr).
    apply andb_true_iff in Hp as [_ Hp]. rewrite Hdb4. eapply promote_ok; [|by eapply regate_passed| |exact Hpr].
    + by rewrite Hdb3.
    + by rewrite Hdb3.
Qed.

(** C13: whatever commands are run in whatever order — runs, gates, promotions,
    reports, nightly samples, the failing ones included — a dataset and agent have
    at most one baseline, and every baseline is a run whose stored scores meet
    every deterministic threshold and that a recorded baseline change promoted for
    that dataset and agent. *)
Theorem baseline_invariant (s s' : W) :
  baselines_ok (es_db s) → rtc command s s' → baselines_ok (es_db s').
Proof.
  intros Hok. induction 1 as [s|s s1 s2 Hstep _ IH]; [done|]. apply IH. destruct Hstep.
  - eapply keeps_baselines_ok; [done|]. apply run_main_frames.
  - by apply gate_keeps_ok.
  - eapply keeps_baselines_ok; [done|]. apply report_main_frames.
  - eapply keeps_baselines_ok; [done|]. apply nightly_frames.
Qed.
End Gate.

(** ** The theorem at concrete inputs *)
Module Witness.
(** A run on the golden set of one length of ids, then its gate with promotion. *)
Definition after_run : EvalState bool := (run_main settings "smoke" None "sha" (start "same")).1.
Definition after_gate : EvalState bool := (gate_main settings "smoke" None true "ci" after_run).1.

Lemma no_runs : baselines_ok (X := bool) (es_db (start "same")).
Proof. split; [intros i j r q Hi|intros id r Hr]; discriminate. Defined.

Lemma baseline_invariant_witness :
  rtc (command settings) (start "same") after_gate ∧
  evr_is_baseline <$> edb_runs (es_db after_gate) !! "evr_0123456789abcdef0123" = Some true ∧
  baselines_ok (X := bool) (es_db after_gate).
Proof.
  assert (Hsteps : rtc (command settings) (start "same") after_gate).
  { exact (rtc_l _ _ after_run _ (run_command settings _ _ _ _) (rtc_l _ _ after_gate _ (gate_command settings _ _ _ _ _) (rtc_refl _ _))). }
  assert (Hbase : evr_is_baseline <$> edb_runs (es_db after_gate) !! "evr_0123456789abcdef0123" = Some true)
    by (vm_compute; reflexivity).
  exact (conj Hsteps (conj Hbase
    (baseline_invariant settings (start "same") after_gate no_runs Hsteps))).
Defined.
End Witness.
