(* ===== verification/RegateProps.v ===== *)
(** eval: gating a stored run again.

    [regate_agrees]: the gate recomputes the verdict the run itself computed, when
    the JSONB column gives the scores back as they were; [Witness.reordered_...]
    shows that it does not when the column reorders the items. *)
From S2P Require Import Prelude PyStr Json Presidio Http Contracts Wire Guardrails EvalGate EvalDb EvalRun EvalNightly EvalExample EvalGateProps EvalFrames EvalProps.

(** ** Documents through a JSONB column *)

Section Dict.
  Context {A : Type}.

Lemma dict_get_perm (k : string) (l l' : list (string * A)) :
  NoDup l.*1 → l ≡ₚ l' → dict_get k l = dict_get k l'.
Proof.
  intros Hn Hp. revert Hn. induction Hp as [|[h v] l l' _ IH|[h v] [h' v'] l|l m n Hlm IH1 _ IH2]; cbn; intros Hn.
  - done.
  - apply NoDup_cons in Hn as [_ Hn]. by rewrite IH.
  - apply NoDup_cons in Hn as [Hne _]. destruct (str_eqb_spec k h) as [<-|], (str_eqb_spec k h') as [<-|]; try done.
    exfalso. apply Hne. constructor.
  - rewrite IH1 by done. apply IH2. by rewrite <- Hlm.
Qed.

Lemma dict_get_jsonb_sort (k : string) (l : list (string * A)) :
  NoDup l.*1 → dict_get k (jsonb_sort l) = dict_get k l.
Proof. intros Hn. symmetry. apply dict_get_perm; [done|]. symmetry. apply sort_by_perm. Qed.

Lemma dict_get_fmap {B} (f : A → B) k (l : list (string * A)) :
  dict_get k ((fun kv => (kv.1, f kv.2)) <$> l) = f <$> dict_get k l.
Proof. induction l as [|[h v] l IH]; cbn; [done|]. by destruct (String.eqb k h). Qed.
End Dict.

Lemma omap_keys_nodup {A} (f : string → option (string * A)) l :
  NoDup l → (∀ x p, f x = Some p → p.1 = x) → NoDup (omap f l).*1.
Proof.
  intros Hn Hf. induction Hn as [|x l Hx _ IH]; cbn; [constructor|].
  destruct (f x) as [p|] eqn:E; [|done]. cbn. apply NoDup_cons. split; [|done]. rewrite (Hf _ _ E).
  intros (q & Heq & Hq)%list_elem_of_fmap. apply Hx. apply list_elem_of_omap in Hq as (y & Hy & Hfy).
  apply Hf in Hfy. congruence.
Qed.

(** Sorting by key commutes with a map on the values. *)
Lemma jsonb_sort_fmap {A B} (f : A → B) (l : list (string * A)) :
  jsonb_sort ((fun kv => (kv.1, f kv.2)) <$> l) = (fun kv => (kv.1, f kv.2)) <$> jsonb_sort l.
Proof.
  assert (∀ x (k : list (string * A)),
    insert_by (fun a b => jsonb_key_le a.1 b.1) (x.1, f x.2) ((fun kv => (kv.1, f kv.2)) <$> k) =
    (fun kv => (kv.1, f kv.2)) <$> insert_by (fun a b => jsonb_key_le a.1 b.1) x k) as Hins.
  { intros x k. induction k as [|y k IH]; cbn; [done|]. destruct (jsonb_key_le x.1 y.1); cbn; [done|]. by rewrite IH. }
  unfold jsonb_sort. induction l as [|x l IH]; [done|].
  change (sort_by ?le ((?g <$> x :: l))) with (insert_by le (g x) (sort_by le (g <$> l))). rewrite IH.
  apply (Hins x).
Qed.

Lemma jsonb_key_le_total a b : jsonb_key_le a b = false → jsonb_key_le b a = true.
Proof.
  unfold jsonb_key_le. intros [Hlt Heq]%orb_false_iff. apply Z.ltb_ge in Hlt. apply orb_true_iff.
  destruct (Z.eqb_spec (slen a) (slen b)) as [He|Hne]; [|left; apply Z.ltb_lt; lia].
  right. rewrite <- He, Z.eqb_refl. by apply leb_connex.
Qed.

Lemma ordered_sorted_id {A} (le : A → A → bool) l : ordered (fun a b => le a b = true) l → sort_by le l = l.
Proof.
  induction l as [|x l IH]; [done|]. intros [Hx Hl]. change (sort_by le (x :: l)) with (insert_by le x (sort_by le l)).
  rewrite IH by done. destruct l as [|y l]; cbn; [done|]. apply Forall_cons in Hx as [-> _]. done.
Qed.

Lemma norm_object kvs :
  jsonb_norm (JObj kvs) = JObj (jsonb_sort ((fun kv => (kv.1, jsonb_norm kv.2)) <$> kvs)).
Proof. done. Qed.

Lemma norm_field {S} k kvs v (s : S) : NoDup kvs.*1 → dict_get k kvs = Some v →
  jget k (jsonb_norm (JObj kvs)) s = (s, inr (jsonb_norm v)).
Proof.
  intros Hn Hk. rewrite norm_object. unfold jget. rewrite dict_get_jsonb_sort.
  - by rewrite dict_get_fmap, Hk.
  - by rewrite <- list_fmap_compose.
Qed.

Lemma norm_field_opt {S} k kvs v (s : S) : NoDup kvs.*1 → dict_get k kvs = Some v →
  jget_opt k (jsonb_norm (JObj kvs)) s = (s, inr (jsonb_norm v)).
Proof.
  intros Hn Hk. rewrite norm_object. unfold jget_opt. rewrite dict_get_jsonb_sort.
  - by rewrite dict_get_fmap, Hk.
  - by rewrite <- list_fmap_compose.
Qed.

(** Scores the column gives back as they are, up to the order of the keys. *)
Definition no_negative_zero (d : scores_of) : Prop := Forall (fun kv => jsonb_float kv.2 = kv.2) d.

Lemma norm_floats d : no_negative_zero d → jsonb_norm (dump_floats d) = dump_floats (jsonb_sort d).
Proof.
  intros Hd. unfold dump_floats. rewrite norm_object, <- list_fmap_compose, <- jsonb_sort_fmap. do 2 f_equal.
  induction Hd as [|[k f] d Hf _ IH]; cbn; [done|]. cbn in Hf. by rewrite Hf, IH.
Qed.

(** Reading back a dictionary of dumped values. *)
Lemma read_pairs {S B} (f : json → py S B) (enc : B → json) (l : list (string * B)) (s : S) :
  (∀ b s, f (enc b) s = (s, inr b)) →
  map_each (fun '(k, v) => let! d := f v in ret (k, d)) ((fun kv => (kv.1, enc kv.2)) <$> l) s = (s, inr l).
Proof.
  intros Hf. induction l as [|[k b] l IH]; [done|]. cbn [fmap list_fmap map_each fst snd].
  rewrite (bind_inr _ _ s s (k, b)); [|by rewrite (bind_inr _ _ s s b)].
  by rewrite (bind_inr _ _ s s l).
Qed.

Lemma read_dump_floats {S} d (s : S) : read_floats (dump_floats d) s = (s, inr d).
Proof. exact (read_pairs as_float JFloat d s (fun _ _ => eq_refl)). Qed.

(** Medians whose items are in the column's order. *)
Definition jsonb_stable (m : medians_of) : Prop :=
  Forall (fun kv => no_negative_zero kv.2 ∧ ordered (fun a b => jsonb_key_le a.1 b.1 = true) kv.2) m.

Lemma norm_medians m : jsonb_stable m → jsonb_norm (dump_medians m) = dump_medians (jsonb_sort m).
Proof.
  intros Hm. unfold dump_medians. rewrite norm_object, <- list_fmap_compose, <- jsonb_sort_fmap. do 2 f_equal.
  induction Hm as [|[k d] m [Hz Ho] _ IH]; cbn [fmap list_fmap fst snd compose]; [done|]. rewrite IH.
  cbn [fst snd] in *. rewrite norm_floats by done. unfold jsonb_sort. by rewrite (ordered_sorted_id _ d Ho).
Qed.

Definition opt_medians (m : medians_of) : option medians_of := match m with [] => None | _ => Some m end.

Lemma read_dump_medians {S} scores m (s : S) :
  jget_opt "ragas_medians" scores s = (s, inr (dump_medians m)) → read_medians scores s = (s, inr (opt_medians m)).
Proof.
  intros Hg. unfold read_medians, bind at 1. rewrite Hg.
  destruct m as [|[k d] m]; [done|]. unfold opt_medians. set (l := (k, d) :: m).
  change (truthy (dump_medians l)) with true. cbv iota. unfold dump_medians.
  pose proof (read_pairs read_floats dump_floats l s read_dump_floats) as Hl.
  unfold as_items, bind at 1. cbn [ret]. by rewrite (bind_inr _ _ s s l).
Qed.

(** ** Operations that neither read nor change the state *)

Section Pure.
  Context {S : Type}.

Definition pure_op {A} (m : py S A) : Prop := ∃ r, ∀ s, m s = (s, r).

Lemma pure_ret {A} (a : A) : pure_op (ret a).
Proof. by eexists. Qed.

Lemma pure_raise {A} e : pure_op (raise (A := A) e).
Proof. by eexists. Qed.

Lemma pure_bind {A B} (m : py S A) (k : A → py S B) : pure_op m → (∀ a, pure_op (k a)) → pure_op (bind m k).
Proof.
  intros [r Hr] Hk. destruct r as [e|a].
  - exists (inl e). intros s. unfold bind. by rewrite Hr.
  - destruct (Hk a) as [r Hka]. exists r. intros s. unfold bind. by rewrite Hr.
Qed.

Lemma pure_map_each {A B} (f : A → py S B) l : (∀ a, pure_op (f a)) → pure_op (map_each f l).
Proof.
  intros Hf. induction l as [|a l IH]; cbn; [apply pure_ret|].
  apply pure_bind; [done|]. intros b. apply pure_bind; [done|]. intros bs. apply pure_ret.
Qed.

Lemma pure_medians scores : pure_op (read_medians scores).
Proof.
  unfold read_medians, read_floats, as_items, as_float, jget_opt.
  repeat first [progress intros | apply pure_bind | apply pure_ret | apply pure_raise | apply pure_map_each
    | case_match].
Qed.

(** What a pure operation answers once it answers always. *)
Lemma pure_answer {A} (m : py S A) s s' r t : pure_op m → m s = (s', r) → s' = s ∧ m t = (t, r).
Proof. intros [r' Hr] Hm. rewrite Hr in Hm. injection Hm as <- <-. by rewrite Hr. Qed.
End Pure.

(** ** Gating a run again *)

(** What the theorem asks of a scores document: each metric's items in the
    column's key order, no negative zero. *)
Definition floats_kept (j : json) : bool :=
  match j with
  | JObj kvs => forallb (fun kv => match kv.2 with JFloat f => bool_decide (jsonb_float f = f) | _ => true end) kvs
  | _ => true
  end.

Fixpoint keys_ordered (keys : list string) : bool :=
  match keys with [] => true | k :: keys' => forallb (jsonb_key_le k) keys' && keys_ordered keys' end.

Definition medians_kept (j : json) : bool :=
  match j with
  | JObj kvs => forallb (fun kv => floats_kept kv.2 &&
      match kv.2 with JObj items => keys_ordered items.*1 | _ => true end) kvs
  | _ => true
  end.

Definition kept_by_jsonb (scores : json) : bool :=
  match scores with
  | JObj kvs => floats_kept (from_option id JNull (dict_get "deterministic" kvs)) &&
                medians_kept (from_option id JNull (dict_get "ragas_medians" kvs))
  | _ => false
  end.

Lemma floats_kept_spec d : floats_kept (dump_floats d) = true → no_negative_zero d.
Proof.
  intros Hk. apply Forall_forall. intros [k f] Hin. cbn in Hk.
  apply (proj1 (bool_decide_eq_true _)), (proj1 (forallb_forall _ _) Hk (k, JFloat f)).
  by apply list_elem_of_In, (list_elem_of_fmap_2 (fun kv : string * float64 => (kv.1, JFloat kv.2)) d (k, f)).
Qed.

Lemma keys_ordered_spec {A} (d : list (string * A)) : keys_ordered d.*1 = true →
  ordered (fun a b => jsonb_key_le a.1 b.1 = true) d.
Proof.
  induction d as [|[k v] d IH]; cbn; [done|]. intros [Hk Hd]%andb_true_iff. split; [|by apply IH].
  apply Forall_forall. intros [k' v'] Hin. apply (proj1 (forallb_forall _ _) Hk).
  by apply list_elem_of_In, (list_elem_of_fmap_2 fst d (k', v')).
Qed.

Lemma medians_kept_spec m : medians_kept (dump_medians m) = true → jsonb_stable m.
Proof.
  intros Hk. apply Forall_forall. intros [k d] Hin. cbn in Hk.
  pose proof (proj1 (forallb_forall _ _) Hk (k, dump_floats d)) as Hd. cbn in Hd.
  destruct (proj1 (andb_true_iff _ _) (Hd (proj1 (list_elem_of_In _ _)
    (list_elem_of_fmap_2 (fun kv : string * scores_of => (kv.1, dump_floats kv.2)) m (k, d) Hin)))) as [Hf Ho].
  split; [by apply floats_kept_spec|]. apply keys_ordered_spec. rewrite <- list_fmap_compose in Ho. exact Ho.
Qed.

Section Regate.
  Context {X : Type} `{HttpPost X, Uuid X, SleepFor X, Ragas X}.
  Context `{Pydantic, Sha256, YamlLoad, ItemsScan, Presidio, Numpy, FloatFixed, FloatRepr}.
  Variable settings : EvalSettings.
  Abbreviation W := (EvalState X).

(** The verdict looks scores up by name only. *)
Lemma compute_verdict_ext det det' c c' b (s : W) :
  (∀ n, dict_get n det = dict_get n det') →
  (∀ n, dict_get n (from_option id [] c) = dict_get n (from_option id [] c')) →
  compute_verdict det c b s = compute_verdict det' c' b s.
Proof.
  intros Hdet Hc.
  assert (gate_deterministic det s = gate_deterministic det' s) as Hg.
  { rewrite !gate_deterministic_eval. unfold dict_mem. cbn. by rewrite !Hdet. }
  assert (∀ c0, from_option id [] c = c0 →
    gate_ragas c0 b = gate_ragas (from_option id [] c') b) as Hr.
  { intros c0 <-. unfold gate_ragas, RAGAS_TARGETS, gate_ragas_metric. cbn [omap list_omap]. by rewrite !Hc. }
  assert (∀ (m : list MetricVerdict) c0, match c0 with None | Some [] => m | Some c1 => m ++ gate_ragas c1 b end =
    m ++ gate_ragas (from_option id [] c0) b) as Hm.
  { assert (gate_ragas [] b = []) as Hnil by reflexivity.
    intros m [[|? ?]|]; cbn [from_option id]; [by rewrite Hnil, app_nil_r|done|by rewrite Hnil, app_nil_r]. }
  unfold compute_verdict, bind. rewrite Hg. destruct (gate_deterministic det' s) as [s' [e|m]]; [done|].
  by rewrite !Hm, (Hr _ eq_refl).
Qed.

Lemma aggregate_keys results : NoDup (aggregate_deterministic results).*1.
Proof. apply (bool_decide_unpack _). vm_compute. done. Qed.

Lemma medians_keys results : NoDup (ragas_medians results).*1.
Proof.
  apply omap_keys_nodup.
  - apply (bool_decide_unpack _). vm_compute. done.
  - intros x p Hp. case_match; [done|]. by injection Hp as <-.
Qed.

Lemma insert_eval_run_returns id ds ag av pv ma sha dv scores passed (s s' : W) :
  insert_run id ds ag av pv ma sha dv scores passed s = (s', inr tt) →
  edb_runs (es_db s) !! id = None ∧
  es_db s' = (es_db s) <| edb_runs ::= <[id := MkEvalRun ds ag av pv ma sha dv (jsonb_norm scores) passed false]> |>.
Proof.
  unfold insert_run, to_jsonb, fk_dataset, on_eval_db, modify, bind, gets, raise, ret.
  destruct (cast_jsonb scores); [done|]. destruct (edb_runs (es_db s) !! id); [done|].
  destruct (edb_datasets _ !! ds); [|done]. by intros [= <-].
Qed.

(** The baseline [SELECT] finds is determined by the rows, when there is at most one. *)
Lemma baseline_lookup (d d' : EvalDb) ds ag : unique_baselines d → unique_baselines d' →
  (∀ id r, is_baseline_of ds ag r = true → edb_runs d' !! id = Some r ↔ edb_runs d !! id = Some r) →
  head (List.filter (fun kv => is_baseline_of ds ag kv.2) (map_to_list (edb_runs d'))) =
  head (List.filter (fun kv => is_baseline_of ds ag kv.2) (map_to_list (edb_runs d))).
Proof.
  intros Hu Hu' Hsame.
  assert (∀ e kv, kv ∈ List.filter (fun kv => is_baseline_of ds ag kv.2) (map_to_list (edb_runs e)) ↔
    edb_runs e !! kv.1 = Some kv.2 ∧ is_baseline_of ds ag kv.2 = true) as Hin.
  { intros e [id r]. by rewrite list_elem_of_In, filter_In, <- list_elem_of_In, elem_of_map_to_list. }
  pose proof (Hin d) as Hin1. pose proof (Hin d') as Hin2.
  destruct (List.filter _ (map_to_list (edb_runs d'))) as [|[i r] l'],
    (List.filter _ (map_to_list (edb_runs d))) as [|[j q] l]; cbn; [done| | |].
  - destruct (proj1 (Hin1 (j, q))) as [Hj Hb]; [constructor|]. cbn in *.
    assert ((j, q) ∈ []) as []%not_elem_of_nil. apply Hin2. split; [by apply Hsame|done].
  - destruct (proj1 (Hin2 (i, r))) as [Hi Hb]; [constructor|]. cbn in *.
    assert ((i, r) ∈ []) as []%not_elem_of_nil. apply Hin1. split; [by apply Hsame|done].
  - destruct (proj1 (Hin1 (j, q))) as [Hj Hbq]; [constructor|]. destruct (proj1 (Hin2 (i, r))) as [Hi Hbr]; [constructor|].
    cbn in *. apply Hsame in Hi; [|done]. pose proof Hbq as Hbq'. pose proof Hbr as Hbr'.
    apply is_baseline_of_spec in Hbq' as (Hd & Ha & Hq), Hbr' as (Hd' & Ha' & Hr).
    assert (i = j) as -> by (eapply Hu; eauto; congruence). congruence.
Qed.

Lemma print_all {A} (f : A → string) l (s : W) :
  ∃ s', for_each l (fun m => print (f m)) s = (s', inr tt) ∧ es_db s' = es_db s.
Proof.
  revert s. induction l as [|a l IH]; intros s; [by exists s|]. cbn. unfold bind, print, modify.
  destruct (IH (s <| es_stdout ::= fun l => l ++ [f a] |>)) as (s' & Hs & Hdb). by exists s'.
Qed.

(** What a run that returns computed and stored. *)
Lemma run_eval_returns tier k git_sha (s s1 : W) o :
  run_eval settings tier k git_sha s = (s1, inr o) →
  ∃ results resolved_k row bm (sb sc sd : W),
    let det := aggregate_deterministic results in
    let m := ragas_medians results in
    evo_scores o = scores_payload tier resolved_k det m results (evo_verdict o) ∧
    extract_ragas_medians_from_run
      (head (List.filter (fun kv => is_baseline_of (evo_dataset_id o) (evo_agent_id o) kv.2)
        (map_to_list (edb_runs (es_db sb))))) sb = (sc, inr bm) ∧
    compute_verdict det (Some m) bm sc = (sd, inr (evo_verdict o)) ∧
    edb_runs (es_db sb) !! evo_run_id o = None ∧
    edb_runs (es_db s1) = <[evo_run_id o := row]> (edb_runs (es_db sb)) ∧
    evr_dataset_id row = evo_dataset_id o ∧ evr_agent_id row = evo_agent_id o ∧
    evr_is_baseline row = false ∧ evr_scores row = jsonb_norm (evo_scores o).
Proof.
  unfold run_eval. intros (sa & [[ds ag] items] & _ & Hr)%bind_returns.
  apply bind_returns in Hr as (sb & results & _ & Hr).
  apply bind_returns in Hr as (sb' & base & Hbase & Hr). injection Hbase as <- <-.
  apply bind_returns in Hr as (sc & bm & Hbm & Hr). apply bind_returns in Hr as (sd & v & Hv & Hr).
  apply bind_returns in Hr as (se & id & Hid & Hr). apply (frames_db (in_ext _)) in Hid; [|db_frames].
  apply bind_returns in Hr as (sf & [] & Hins & Hr). injection Hr as <- <-.
  unfold session in Hins. destruct (insert_run _ _ _ _ _ _ _ _ _ _ se) as [sg [e|[]]] eqn:Hi; [done|].
  injection Hins as <-. apply insert_eval_run_returns in Hi as [Hnone Hdb].
  assert (es_db se = es_db sb) as Hse.
  { rewrite Hid. assert (frames (fun a b : W => eq (es_db a) (es_db b)) (compute_verdict (aggregate_deterministic results)
      (Some (ragas_medians results)) bm)) as Hf by (unfold compute_verdict, gate_deterministic; db_frames).
    rewrite (frames_db _ _ _ _ Hf Hv).
    match type of Hbm with extract_ragas_medians_from_run ?b _ = _ => destruct b as [[i r]|] end;
      [|by injection Hbm as <- _].
    by destruct (pure_answer _ _ _ _ sb (pure_medians (evr_scores r)) Hbm) as [-> _]. }
  rewrite Hse in Hnone, Hdb.
  eexists results, _, _, bm, sb, sc, sd. cbn [evo_scores evo_verdict evo_run_id evo_dataset_id evo_agent_id].
  split; [reflexivity|]. split; [exact Hbm|]. split; [exact Hv|]. split; [done|].
  rewrite Hdb. split; [reflexivity|]. done.
Qed.

Lemma payload_keys tier k det m results v kvs :
  scores_payload tier k det m results v = JObj kvs →
  NoDup kvs.*1 ∧ dict_get "deterministic" kvs = Some (dump_floats det) ∧
  dict_get "ragas_medians" kvs = Some (dump_medians m).
Proof.
  intros [= <-]. split; [|done]. cbn [fmap list_fmap fst]. apply (bool_decide_unpack _). vm_compute. done.
Qed.

Lemma gate_passes_through run_id run tier changed_by (s : W) v :
  run_id ≠ "" → edb_runs (es_db s) !! run_id = Some run →
  regate run (head (List.filter (fun kv => is_baseline_of (evr_dataset_id run) (evr_agent_id run) kv.2)
    (map_to_list (edb_runs (es_db s))))) s = (s, inr v) →
  ∃ s', gate_main settings tier (Some run_id) false changed_by s = (s', inr v) ∧ es_db s' = es_db s.
Proof.
  intros Hne Hrun Hre. unfold gate_main, resolve_run_id, opt_truthy, str_or.
  assert (String.eqb run_id "" = false) as -> by by apply String.eqb_neq.
  unfold bind at 1. cbn [negb ret]. unfold session, get_run, get_baseline_run. unfold bind at 1, gets at 1.
  rewrite Hrun. unfold bind at 1, gets at 1. rewrite (bind_inr _ _ _ _ _ Hre).
  match goal with |- context [print ?l] => set (line := l) end.
  assert (print line s = (s <| es_stdout ::= fun l => l ++ [line] |>, inr tt)) as Hline by done.
  rewrite (bind_inr _ _ _ _ _ Hline).
  destruct (print_all gate_line v (s <| es_stdout ::= fun l => l ++ [line] |>)) as (s' & Hall & Hdb).
  rewrite (bind_inr _ _ _ _ _ Hall). exists s'. split; [done|]. by rewrite Hdb.
Qed.

(** C30: re-gating agrees with the run. Gating a run that a tier's execution stored,
    without promoting — at once or after any changes that kept the run's row and
    the baseline — recomputes exactly the verdict the execution computed, from the
    stored scores alone, and leaves the tables as they are; provided the JSONB
    column returns each metric's items in the order the execution used and no
    score is a negative zero. *)
Theorem regate_agrees tier k git_sha gate_tier changed_by (s s1 s2 : W) o :
  run_eval settings tier k git_sha s = (s1, inr o) → kept_by_jsonb (evo_scores o) = true → evo_run_id o ≠ "" →
  unique_baselines (es_db s1) → unique_baselines (es_db s2) →
  edb_runs (es_db s2) !! evo_run_id o = edb_runs (es_db s1) !! evo_run_id o →
  (∀ id r, is_baseline_of (evo_dataset_id o) (evo_agent_id o) r = true →
    edb_runs (es_db s2) !! id = Some r ↔ edb_runs (es_db s1) !! id = Some r) →
  ∃ s3, gate_main settings gate_tier (Some (evo_run_id o)) false changed_by s2 = (s3, inr (evo_verdict o)) ∧
    es_db s3 = es_db s2.
Proof.
  intros Hrun Hkept Hne Hu1 Hu2 Hrow Hbase.
  apply run_eval_returns in Hrun as (results & rk & row & bm & sb & sc & sd & Hsc & Hbm & Hv & Hnone & Hruns & Hds & Hag & Hnb & Hscores).
  set (det := aggregate_deterministic results) in *. set (m := ragas_medians results) in *.
  destruct (evo_scores o) as [| | | | | | kvs] eqn:Hj; try done. symmetry in Hsc.
  apply payload_keys in Hsc as (Hnd & Hdet & Hm). cbn [kept_by_jsonb] in Hkept. rewrite Hdet, Hm in Hkept. apply andb_true_iff in Hkept as [Hz%floats_kept_spec Hst%medians_kept_spec].
  apply gate_passes_through with (run := row); [done|by rewrite Hrow, Hruns, lookup_insert_eq|].
  rewrite Hds, Hag. unfold regate.
  assert (head (List.filter (fun kv => is_baseline_of (evo_dataset_id o) (evo_agent_id o) kv.2)
      (map_to_list (edb_runs (es_db s2)))) =
    head (List.filter (fun kv => is_baseline_of (evo_dataset_id o) (evo_agent_id o) kv.2)
      (map_to_list (edb_runs (es_db sb))))) as ->.
  { assert (∀ id r, evr_is_baseline r = true →
      edb_runs (es_db s1) !! id = Some r ↔ edb_runs (es_db sb) !! id = Some r) as Hb1.
    { intros id r Hr. rewrite Hruns. destruct (decide (id = evo_run_id o)) as [->|Hid].
      - rewrite lookup_insert_eq, Hnone. split; [intros [= <-]; congruence|done].
      - by rewrite lookup_insert_ne by done. }
    apply baseline_lookup; [|done|].
    - intros i j r q Hi Hj' Hr Hq. apply Hb1 in Hi, Hj'; [|done..]. by eapply Hu1.
    - intros id r Hr. rewrite Hbase by done. apply Hb1. by apply is_baseline_of_spec in Hr as (_ & _ & ?). }
  set (base := head _) in *.
  assert (extract_ragas_medians_from_run base s2 = (s2, inr bm)) as Hbm2.
  { destruct base as [[i r]|]; [|by injection Hbm as _ <-].
    exact (proj2 (pure_answer _ _ _ _ s2 (pure_medians (evr_scores r)) Hbm)). }
  rewrite (bind_inr _ _ _ _ _ Hbm2), Hscores.
  assert ((let! v := jget "deterministic" (jsonb_norm (JObj kvs)) in read_floats v) s2 =
    (s2, inr (jsonb_sort det))) as Hd2.
  { rewrite (bind_inr _ _ _ _ _ (norm_field _ _ _ s2 Hnd Hdet)), norm_floats by done. apply read_dump_floats. }
  rewrite (bind_inr _ _ _ _ _ Hd2).
  assert (read_medians (jsonb_norm (JObj kvs)) s2 = (s2, inr (opt_medians (jsonb_sort m)))) as Hm2.
  { apply read_dump_medians. rewrite (norm_field_opt _ _ _ s2 Hnd Hm). by rewrite norm_medians. }
  rewrite (bind_inr _ _ _ _ _ Hm2).
  assert (compute_verdict det (Some m) bm s2 = (s2, inr (evo_verdict o))) as Hv2.
  { unfold compute_verdict, bind in *. rewrite gate_deterministic_eval in *.
    destruct (List.find _ _); [done|]. by injection Hv as _ <-. }
  rewrite <- Hv2. apply compute_verdict_ext.
  - intros n. apply dict_get_jsonb_sort, aggregate_keys.
  - intros n. assert (from_option id [] (opt_medians (jsonb_sort m)) = jsonb_sort m) as ->.
    { unfold opt_medians. by destruct (jsonb_sort m). }
    apply dict_get_jsonb_sort, medians_keys.
Qed.
End Regate.

(** ** The theorem at concrete inputs, and where its hypothesis fails *)
Module Witness.
(** The golden set whose ids have one length. *)
Definition ran := run_eval settings "smoke" None "sha" (start "same").
Definition outcome : EvalOutcome :=
  match ran.2 with inr o => o | inl _ => MkEvalOutcome "" "" "" [] JNull end.

Lemma returned {A} (p : EvalState bool * (exn + A)) d :
  match p.2 with inr _ => true | inl _ => false end = true →
  p = (p.1, inr match p.2 with inr o => o | inl _ => d end).
Proof. destruct p as [s [e|o]]; [discriminate|reflexivity]. Defined.

Lemma no_baselines (s : EvalState bool) :
  forallb (fun kv => negb (evr_is_baseline kv.2)) (map_to_list (edb_runs (es_db s))) = true →
  unique_baselines (es_db s).
Proof.
  intros Hall i j r q Hi _ Hr. exfalso. pose proof (proj1 (forallb_forall _ _) Hall (i, r)) as Hf.
  cbn in Hf. rewrite Hr in Hf. discriminate Hf. by apply list_elem_of_In, elem_of_map_to_list.
Defined.

Lemma regate_agrees_witness :
  verdict_passed (evo_verdict outcome) = true ∧ length (evo_verdict outcome) = 10%nat ∧
  ∃ s3, gate_main settings "smoke" (Some (evo_run_id outcome)) false "ci" ran.1 = (s3, inr (evo_verdict outcome)) ∧
    es_db s3 = es_db ran.1.
Proof.
  assert (Hrun : run_eval settings "smoke" None "sha" (start "same") = (ran.1, inr outcome)).
  { apply (returned ran (MkEvalOutcome "" "" "" [] JNull)). vm_compute. reflexivity. }
  assert (Hu : unique_baselines (es_db ran.1)) by (apply no_baselines; vm_compute; reflexivity).
  assert (Hkept : kept_by_jsonb (evo_scores outcome) = true) by (vm_compute; reflexivity).
  assert (Hpass : verdict_passed (evo_verdict outcome) = true) by (vm_compute; reflexivity).
  assert (Hlen : length (evo_verdict outcome) = 10%nat) by (vm_compute; reflexivity).
  assert (Hid : evo_run_id outcome ≠ "") by (vm_compute; discriminate).
  exact (conj Hpass (conj Hlen
    (regate_agrees settings "smoke" None "sha" "smoke" "ci" (start "same") ran.1 ran.1 outcome Hrun Hkept
      Hid Hu Hu eq_refl (fun _ _ _ => conj (fun h => h) (fun h => h))))).
Defined.

(** The golden set whose ids have two lengths, against a baseline: the run itself
    pairs the items in the order it ran them and passes; the stored scores come back
    in the column's order, the same resampling draws another item, and the gate
    blocks the run it has just passed. *)
Definition baseline_scores : json :=
  jsonb_norm (JObj [("ragas_medians", dump_medians ((fun metric =>
    (metric, [("it_rbac_001", f64_ratio 95 100); ("it_ref_001", f64_of_Z 1)])) <$> METRIC_NAMES))]).

Definition with_baseline : EvalState bool :=
  (start "two") <| es_db ::= (fun d => d <| edb_runs :=
    {["evr_0" := MkEvalRun "ds" "hr" "" "" "" "" "ds" baseline_scores true true]} |>) |>.

Definition passing := run_eval settings "smoke" None "sha" with_baseline.
Definition gated := gate_main settings "smoke" (Some "evr_0123456789abcdef0123") false "ci" passing.1.

Example reordered_scores_change_the_verdict :
  ((fun o => (evo_run_id o, verdict_passed (evo_verdict o))) <$> match passing.2 with inr o => Some o | _ => None end) =
    Some ("evr_0123456789abcdef0123", true) ∧
  (verdict_passed <$> match gated.2 with inr v => Some v | _ => None end) = Some false.
Proof. split; vm_compute; reflexivity. Qed.

(** A run over no items passes the gate. *)
Example empty_run_passes : ∀ s : unit,
  ∃ v, compute_verdict (aggregate_deterministic []) (Some (ragas_medians [])) None s = (s, inr v) ∧
    verdict_passed v = true.
Proof. intros s. eexists. split; [reflexivity|vm_compute; reflexivity]. Qed.
End Witness.
