(* ===== verification/TraceReview.v ===== *)
(** From a run to its review: agent-harness records a trace of every run
    ([record_run]), eval's nightly review reads it back from the same Langfuse
    server ([fetch_recent_traces]). *)
From S2P Require Import Prelude PyStr Json Presidio Http Tracing Contracts Wire Clients Authz Executor ExecutorProps.
From S2P Require Import Guardrails SemCache Graph GraphProps HarnessDb Runner RunnerProps.
From S2P Require Import EvalGate EvalDb EvalRun EvalNightly EvalExample EvalGateProps.

(** ** The server, as its readers see it *)

Definition api_trace (st : StoredTrace) : LangfuseTrace :=
  MkLangfuseTrace (trb_id (stt_body st)) (trb_input (stt_body st)) (trb_output (stt_body st))
    (trb_metadata (stt_body st)) (stt_timestamp st).

(** The traces with the tag that are not older than [since] (ISO timestamps of one
    form, compared as strings). *)
Definition selected (tag since : string) (traces : list (string * StoredTrace)) : list LangfuseTrace :=
  api_trace <$> List.filter (fun st => str_in tag (trb_tags (stt_body st)) && String.leb since (stt_timestamp st))
                  traces.*2.

(** [fetch_traces(tags, from_timestamp, limit, order_by="timestamp.desc")] returns
    the newest selected traces, all of them if there are no more than the limit. *)
Class LangfuseReader (Y : Type) `{LangfuseApi Y} := {
  reader_traces : Y → list (string * StoredTrace);
  fetch_selects tag since limit y y' l :
    fetch_traces tag since limit y = (y', inr l) →
    ∃ older, l ++ older ≡ₚ selected tag since (reader_traces y) ∧
      (older ≠ [] → Z.of_nat (length l) = limit) ∧
      (∀ t u, t ∈ l → u ∈ older → String.leb (lft_timestamp u) (lft_timestamp t) = true)
}.

Section Review.
  Context {X : Type} `{HttpPost X, Uuid X, PolicyResolver X, CacheIndex X, Checkpointer X, PerfCounter X,
                       AdminRedis X, LangfuseServer X}.
  Context `{Pydantic, JsonLoads, FloatParse, FloatRepr, Presidio, Sha256, !CheckpointerLaws X}.
  Context {Y : Type} `{LangfuseReader Y, Ragas Y, JudgeLlm Y, FloatFixed}.
  Variable app : AppState.
  Implicit Types (s : HarnessState X) (y : EvalState Y).

Lemma map_each_elem {E S A B} (f : A → M E S B) l w w' out x b :
  map_each f l w = (w', inr out) → x ∈ l → (∀ z, f x z = (z, inr b)) → b ∈ out.
Proof.
  intros Hrun Hx Hf. revert w out Hrun. induction l as [|a l IH]; intros w out; [by apply elem_of_nil in Hx|].
  cbn. unfold bind. destruct (f a w) as [w1 [e|c]] eqn:Ha; [done|].
  destruct (map_each f l w1) as [s2 [e|cs]] eqn:Hl; [done|]. intros [= -> <-].
  apply elem_of_cons in Hx as [->|Hx]; [rewrite Hf in Ha; injection Ha as _ <-; by left|right; exact (IH Hx _ _ Hl)].
Qed.

Lemma chunk_contents_has chunks chunk :
  chunk ∈ chunks → is_Some (dict_get (rcs_chunk_id chunk) (chunk_contents chunks)).
Proof.
  unfold chunk_contents. enough (∀ d, chunk ∈ chunks ∨ is_Some (dict_get (rcs_chunk_id chunk) d) →
    is_Some (dict_get (rcs_chunk_id chunk) (fold_left (fun d c => dict_set (rcs_chunk_id c) (rcs_content c) d) chunks d)))
    by auto.
  induction chunks as [|c chunks IH]; intros d Hd; cbn; [by destruct Hd as [Hd|Hd]; [apply elem_of_nil in Hd|]|].
  apply IH. destruct (str_eqb_spec (rcs_chunk_id chunk) (rcs_chunk_id c)) as [Heq|Hne].
  - right. rewrite Heq, dict_get_set_eq. by eexists.
  - rewrite dict_get_set_ne by done. destruct Hd as [[->|Hd]%elem_of_cons|Hd]; [done|by left|by right].
Qed.

(** The cited chunk eval reads for a citation of the run. *)
Definition reviewed_chunk (contents : list (string * string)) (c : Citation) : CitedChunk :=
  MkCitedChunk (JStr (cit_chunk_id c)) (JStr (cit_source_uri c))
    (JStr (from_option id "" (dict_get (cit_chunk_id c) contents))).

Lemma read_cited_chunks contents citations y :
  map_each (cited_chunk (X := Y)) (cited_chunk_of contents <$> citations) y =
  (y, inr (Some ∘ reviewed_chunk contents <$> citations)).
Proof.
  induction citations as [|c citations IH]; [done|]. cbn [fmap list_fmap map_each]. unfold bind at 1.
  replace (cited_chunk (cited_chunk_of contents c) y) with (y, @inr exn _ (Some (reviewed_chunk contents c))) by done.
  unfold bind. fold (map_each (cited_chunk (X := Y))). rewrite IH. done.
Qed.

(** What eval makes of the trace of a run that answered. *)
Lemma read_run_trace trace_id tenant_id user_id agent_id mode question answer hit contents citations timestamp y :
  production_trace (X := Y)
    (api_trace (MkStoredTrace (run_trace trace_id tenant_id user_id agent_id mode (JStr question) (JStr answer) hit
                                 (cited_chunk_of contents <$> citations)) timestamp)) y =
  (y, inr (Some (MkProductionTrace trace_id question answer timestamp (reviewed_chunk contents <$> citations)))).
Proof.
  unfold production_trace. cbn. unfold bind at 1. cbn. unfold bind. rewrite read_cited_chunks. unfold ret.
  do 4 f_equal. rewrite list_fmap_compose. induction (reviewed_chunk contents <$> citations) as [|c l IH]; [done|].
  cbn. by rewrite IH.
Qed.

(** A selected trace is fetched when everything selected fits in the limit. *)
Lemma fetch_recent_reads agent_id since limit y y' traces st p :
  fetch_recent_traces agent_id since limit y = (y', inr traces) →
  (Z.of_nat (length (selected ("agent:" +:+ agent_id) since (reader_traces (es_ext y)))) ≤ limit)%Z →
  api_trace st ∈ selected ("agent:" +:+ agent_id) since (reader_traces (es_ext y)) →
  (∀ z, production_trace (X := Y) (api_trace st) z = (z, inr (Some p))) → p ∈ traces.
Proof.
  unfold fetch_recent_traces, bind at 1, EvalDb.in_ext, zoom. intros Hrun Hlim Hin Hp.
  destruct (fetch_traces _ _ _ (es_ext y)) as [e [ex|data]] eqn:Hf; [done|].
  apply fetch_selects in Hf as (older & Hperm & Hfull & _).
  assert (older = []) as ->.
  { destruct older as [|u older]; [done|]. apply Permutation_length in Hperm. rewrite length_app in Hperm.
    specialize (Hfull ltac:(done)). cbn in Hperm. lia. }
  rewrite app_nil_r in Hperm. rewrite <- Hperm in Hin. unfold bind in Hrun.
  destruct (map_each production_trace data _) as [y1 [ex|found]] eqn:Hm; [done|]. injection Hrun as _ <-.
  pose proof (map_each_elem _ _ _ _ _ _ _ Hm Hin Hp) as Hfound. apply list_elem_of_omap. by exists (Some p).
Qed.

(** C34: The nightly review reads what the user asked and got. After a run that
    answered, a review of the agent that starts no later than the run's trace and
    may fetch everything selected finds a trace with the run's id whose question
    is the message as the user sent it, whose answer is the response's text, and
    whose cited chunks are the response's citations in order — with the content of
    a retrieved chunk, or, when the answer came from the semantic cache, with none. *)
Theorem review_reads_the_run request s s' resp since limit y y' traces :
  run_agent app request s = (s', inr resp) →
  reader_traces (es_ext y) = server_traces (hst_ext s') →
  (∀ st, dict_get (run_trace_id request) (server_traces (hst_ext s')) = Some st →
         String.leb since (stt_timestamp st) = true) →
  (Z.of_nat (length (selected ("agent:" +:+ run_agent_id request) since (reader_traces (es_ext y)))) ≤ limit)%Z →
  fetch_recent_traces (run_agent_id request) since limit y = (y', inr traces) →
  ∃ p, p ∈ traces ∧ ptr_trace_id p = res_trace_id resp ∧
    ptr_question p = ain_content (run_input request) ∧ ptr_answer p = out_content (res_output resp) ∧
    ∃ contents, ptr_cited_chunks p = reviewed_chunk contents <$> out_citations (res_output resp) ∧
      (res_cache_hit resp = true → contents = []) ∧
      (res_cache_hit resp = false →
       ∀ c, c ∈ out_citations (res_output resp) → is_Some (dict_get (cit_chunk_id c) contents)).
Proof.
  intros Hrun Hsame Hsince Hlim Hfetch.
  apply run_agent_answers in Hrun as (conversation_id & ms & state & x & _ & Hresp & Hcit & Hext).
  destruct Hresp as (_ & Htrace & _ & Htext & _ & _ & _ & Hcites & Hhit & _).
  set (contents := chunk_contents (st_retrieved_chunks state)).
  destruct (record_run_stored (run_trace_id request) (run_tenant_id request) (run_user_id request)
    (run_agent_id request) (enum_value (run_execution_mode request)) (st_model_alias (initial_state request))
    (JStr (ain_content (run_input request))) (j_opt_str (st_output_text state)) (st_input_tokens state)
    (st_output_tokens state) (st_cache_hit state) (cited_chunk_of contents <$> st_citations state) x)
    as ((timestamp & Hget) & _).
  change (record_run _ _ _ _ _ _ _ _ _ _ _ _ x) with (trace_run request state x) in Hget. rewrite <- Hext in Hget.
  rewrite <- Htext in Hget. cbn [j_opt_str] in Hget.
  eexists. split; [|split_and!; cycle 1].
  - eapply fetch_recent_reads; [exact Hfetch|exact Hlim| |intros z; apply read_run_trace].
    rewrite Hsame. apply list_elem_of_fmap. eexists. split; [reflexivity|].
    apply list_elem_of_In, filter_In. split; [|apply andb_true_iff; split; [|by apply (Hsince _ Hget)]].
    + apply list_elem_of_In, list_elem_of_fmap. eexists (_, _). split; [reflexivity|]. by apply dict_get_In.
    + cbn. by rewrite String.eqb_refl.
  - done.
  - done.
  - exists contents. rewrite Hcites, Hhit. split_and!; [done| |].
    + intros Hh. unfold citations_sound in Hcit. rewrite Hh in Hcit. unfold contents. by rewrite Hcit.
    + intros Hh c Hc. unfold citations_sound in Hcit. rewrite Hh in Hcit. rewrite Forall_forall in Hcit.
      destruct (Hcit c Hc) as (chunk & Hin & Hid & _). rewrite <- Hid. by apply chunk_contents_has.
  - done.
Qed.
End Review.

(** The theorem on one server that the harness writes to and eval reads: a message
    with an identity number, answered by way of a previewed mutation. *)
Module Witness.
#[local] Existing Instance plain_presidio.

Definition newest_first (l : list LangfuseTrace) : list LangfuseTrace :=
  sort_by (fun a b => String.leb (lft_timestamp b) (lft_timestamp a)) l.

#[local] Instance store_api : LangfuseApi LangfuseStore := fun tag since limit y =>
  (y, if (limit <? 0)%Z then inl (ValueError "limit")
      else inr (take (Z.to_nat limit) (newest_first (selected tag since (lst_traces y))))).

#[local, refine] Instance store_reader : LangfuseReader LangfuseStore := {| reader_traces := lst_traces |}.
Proof.
  intros tag since limit y y' l. unfold fetch_traces, store_api. destruct (limit <? 0)%Z eqn:Hl; [done|].
  intros [= _ <-]. set (sel := selected tag since (lst_traces y)). exists (drop (Z.to_nat limit) (newest_first sel)).
  split_and!.
  - rewrite take_drop. apply sort_by_perm.
  - intros Hne. rewrite length_take. assert (Z.to_nat limit < length (newest_first sel)); [|lia].
    destruct (decide (length (newest_first sel) ≤ Z.to_nat limit)); [|lia]. by rewrite drop_ge in Hne.
  - assert (Hord : ordered (fun a b => String.leb (lft_timestamp b) (lft_timestamp a) = true) (newest_first sel)).
    { apply (ordered_sort (fun a b => String.leb (lft_timestamp b) (lft_timestamp a)));
        intros *; [apply leb_connex|intros ? ?; by eapply leb_trans]. }
    rewrite <- (take_drop (Z.to_nat limit) (newest_first sel)) in Hord.
    apply ordered_app in Hord as (_ & _ & Hord). auto.
Defined.

Definition asking (text : string) : AgentRunRequest :=
  RunnerProps.Witness.request <| run_input := MkAgentInput text |>.

Definition ran (text : string) : HarnessState RunnerProps.Witness.env * (exn + AgentInvokeResponse) :=
  run_agent RunnerProps.Witness.app (asking text) (RunnerProps.Witness.before "submit_leave_request").

Lemma ran_message text resp :
  (ran text).2 = inr resp →
  run_agent RunnerProps.Witness.app (asking text) (RunnerProps.Witness.before "submit_leave_request") =
  ((ran text).1, inr resp).
Proof. unfold ran. by destruct (run_agent _ _ _) as [s r]; cbn; intros <-. Qed.

Definition message := "ajukan cuti, NIK 3174012345678901".

Definition reviews (r : HarnessState RunnerProps.Witness.env) : EvalState LangfuseStore :=
  MkEvalState empty_tables (RunnerProps.Witness.e_langfuse (hst_ext r)) ∅ [].

Lemma same_server r : reader_traces (es_ext (reviews r)) = server_traces (hst_ext r).
Proof. done. Qed.

Definition reviewer : EvalState LangfuseStore := reviews (ran message).1.

Lemma ran_answers : ∃ resp, (ran message).2 = inr resp.
Proof. vm_compute. by eexists. Qed.

Lemma trace_is_recent :
  match dict_get (run_trace_id (asking message)) (server_traces (hst_ext (ran message).1)) with
  | Some st => String.leb "2026-01-01T00:00:00Z" (stt_timestamp st) | None => true end = true.
Proof. vm_compute. reflexivity. Qed.

Lemma review_is_small :
  (Z.of_nat (length (selected ("agent:" +:+ run_agent_id (asking message)) "2026-01-01T00:00:00Z"
    (reader_traces (es_ext reviewer)))) <=? 200)%Z = true.
Proof. vm_compute. reflexivity. Qed.

Lemma review_returns :
  ∃ y' traces, fetch_recent_traces (run_agent_id (asking message)) "2026-01-01T00:00:00Z" 200 reviewer = (y', inr traces).
Proof. eexists _, _. vm_compute. reflexivity. Qed.
(** The run answers, and what the model was sent is masked; the review reads the
    number as the user typed it. *)
Lemma review_reads_the_run_witness :
  ∃ resp y' traces p,
    run_agent RunnerProps.Witness.app (asking message) (RunnerProps.Witness.before "submit_leave_request") =
      ((ran message).1, inr resp) ∧
    fetch_recent_traces (run_agent_id (asking message)) "2026-01-01T00:00:00Z" 200 reviewer = (y', inr traces) ∧
    p ∈ traces ∧ ptr_question p = message ∧ re_test NIK_RE (ptr_question p) = true ∧
    ptr_answer p = out_content (res_output resp).
Proof.
  destruct ran_answers as [resp Hresp%ran_message].
  destruct review_returns as (y' & traces & Hf).
  destruct (review_reads_the_run (Y := LangfuseStore) RunnerProps.Witness.app (asking message)
    (RunnerProps.Witness.before "submit_leave_request") (ran message).1 resp "2026-01-01T00:00:00Z" 200 reviewer y' traces
    Hresp (same_server (ran message).1)) as (p & Hp & _ & Hq & Ha & _).
  - intros st Hst. pose proof trace_is_recent as Hts. rewrite Hst in Hts. exact Hts.
  - apply Z.leb_le. exact review_is_small.
  - exact Hf.
  - assert (Hnik : re_test NIK_RE (ptr_question p) = true) by (rewrite Hq; vm_compute; reflexivity).
    exists resp, y', traces, p. exact (conj Hresp (conj Hf (conj Hp (conj Hq (conj Hnik Ha))))).
Defined.
End Witness.
