(* ===== verification/Boot.v ===== *)
(** agent-harness's process: its settings (config.py), what start-up makes of them
    (main.py), and the state the process keeps between requests — the kill-switch
    cache around the outside world — with the policy resolver start-up installed. *)
From S2P Require Import Prelude PyStr Json Presidio Http Tracing Contracts Wire Clients Authz Executor Guardrails SemCache.
From S2P Require Import Graph HarnessDb Runner.

(** ** config.py *)

(** The settings start-up reads; their environment variables are the record's
    fields in capitals. *)
(* @ harness/config.py:9-68 Settings *)
Record Settings := MkSettings {
  set_database_url : string;
  set_model_router_url : string;
  set_model_router_key : string;
  set_model_router_timeout_seconds : float64;
  set_retrieval_url : string;
  set_retrieval_timeout_seconds : float64;
  set_business_api_url : string;
  set_business_api_timeout_seconds : float64;
  set_mock_idp_url : string;
  set_mock_idp_timeout_seconds : float64;
  set_harness_audience : Audience;
  set_tools_dir : string;
  set_agents_dir : string;
  set_redis_url : string;
  set_semantic_cache_redis_url : string;
  set_semantic_cache_similarity_threshold : float64;
  set_semantic_cache_vector_dim : Z;
  set_embedding_model_alias : string;
  set_langfuse : LangfuseSettings;
  set_eval_tenant_ids : string
}.

(** The four without a default come from the environment. *)
(* @ harness/config.py:12-68 Settings: defaults *)
Definition default_settings (database_url model_router_key langfuse_public_key langfuse_secret_key : string) : Settings := {|
  set_database_url := database_url;
  set_model_router_url := "http://model-router:4000";
  set_model_router_key := model_router_key;
  set_model_router_timeout_seconds := f64_of_Z 90;
  set_retrieval_url := "http://retrieval-service:8082";
  set_retrieval_timeout_seconds := f64_of_Z 5;
  set_business_api_url := "http://mock-business-api:8084";
  set_business_api_timeout_seconds := f64_of_Z 10;
  set_mock_idp_url := "http://mock-idp:8087";
  set_mock_idp_timeout_seconds := f64_of_Z 10;
  set_harness_audience := INTERNAL;
  set_tools_dir := "/app/config/tools";
  set_agents_dir := "/app/config/agents";
  set_redis_url := "redis://redis:6379/2";
  set_semantic_cache_redis_url := "redis://redis:6379/0";
  set_semantic_cache_similarity_threshold := f64_ratio 95 100;
  set_semantic_cache_vector_dim := 1024;
  set_embedding_model_alias := "embedding-default";
  set_langfuse := MkLangfuseSettings langfuse_public_key langfuse_secret_key "http://langfuse:3000";
  set_eval_tenant_ids := "tnt_eval"
|}.

(* @ harness/config.py:77-83 Settings.database_url_psycopg *)
Definition database_url_psycopg (settings : Settings) : string :=
  str_replace (set_database_url settings) "postgresql+asyncpg://" "postgresql://".

(** ** main.py *)

(** What start-up needs of LangGraph: [AsyncPostgresSaver.from_conn_string(dsn)]
    and its [setup()]. *)
Class CheckpointerSetup (X : Type) := checkpointer_setup : string → py X unit.

(** The two directories, each file parsed or the exception it raised. *)
Record ConfigDir := MkConfigDir {
  cfg_tools : list (exn + ToolManifestEntry);
  cfg_agents : list (exn + AgentProfile)
}.

Section Lifespan.
  Context {X : Type} `{CacheSchema X, CheckpointerSetup X}.
  Variable model_json_schema : ParamsModel → json.
  Variable langgraph_recursion_limit : nat.

(* @ harness/main.py:26-85 lifespan *)
Definition lifespan (settings : Settings) (config : ConfigDir) : py X AppState :=
  ensure_index (set_semantic_cache_vector_dim settings) ;!
  let! tool_manifests := load_tool_manifests (cfg_tools config) (set_harness_audience settings) in
  let! agent_profiles := load_agent_profiles (cfg_agents config) (set_harness_audience settings) in
  checkpointer_setup (database_url_psycopg settings) ;!
  ret {| app_graph := {| gc_tool_manifests := tool_manifests; gc_agent_profiles := agent_profiles;
                         gc_embedding_model_alias := set_embedding_model_alias settings;
                         gc_similarity_threshold := set_semantic_cache_similarity_threshold settings;
                         gc_model_json_schema := model_json_schema;
                         gc_recursion_limit := langgraph_recursion_limit |};
         app_audience := set_harness_audience settings;
         app_eval_tenant_ids := set_eval_tenant_ids settings |}.
End Lifespan.

(** ** The process *)

(** Around the outside world, what [KillswitchChecker] remembers. *)
Abbreviation Process X := (KillswitchState X).

Section Process.
  Context {X : Type}.

Definition outside {A} : py X A → py (Process X) A := zoom ks_ext (fun x p => p <| ks_ext := x |>).

#[export] Instance process_http `{HttpPost X} : HttpPost (Process X) := fun svc path hs body =>
  outside (http_post svc path hs body).
#[export] Instance process_uuid `{Uuid X} : Uuid (Process X) := outside uuid4_hex.
#[export] Instance process_cache `{CacheIndex X} : CacheIndex (Process X) := {|
  ft_knn f v := outside (ft_knn f v);
  ft_keys f := outside (ft_keys f);
  cache_hset k e := outside (cache_hset k e);
  cache_expire k t := outside (cache_expire k t);
  cache_delete ks := outside (cache_delete ks)
|}.
#[export] Instance process_checkpointer `{Checkpointer X} : Checkpointer (Process X) := fun thread input =>
  outside (thread_input thread input).
#[export] Instance process_clock `{PerfCounter X} : PerfCounter (Process X) := outside elapsed_ms.
#[export] Instance process_redis `{AdminRedis X} : AdminRedis (Process X) := {|
  redis_set k v := outside (redis_set k v);
  redis_delete k := outside (redis_delete k)
|}.
#[export] Instance process_langfuse `{LangfuseSdk X} : LangfuseSdk (Process X) := {|
  lf_trace body p := p <| ks_ext ::= lf_trace body |>;
  lf_span id body p := p <| ks_ext ::= lf_span id body |>;
  lf_generation id body p := p <| ks_ext ::= lf_generation id body |>;
  lf_flush p := p <| ks_ext ::= lf_flush |>
|}.

(** [YamlPolicyResolver(tool_manifests=..., agent_profiles=..., killswitch=...)]. *)
(* @ harness/main.py:56-58 lifespan: policy_resolver *)
Definition policy_resolver `{KillswitchEnv X, Pydantic} (app : AppState) : PolicyResolver (Process X) :=
  resolve (gc_tool_manifests (app_graph app)) (gc_agent_profiles (app_graph app)).
End Process.
