(* ===== verification/BootProps.v ===== *)
(** What a booted agent-harness lets a run do: whatever a run is recorded to have
    done with a tool, the deployment, the agent's profile and the caller's
    permissions allowed. *)
From S2P Require Import Prelude PyStr Json Presidio Http Tracing Contracts Wire Clients Authz AuthzProps Executor ExecutorProps.
From S2P Require Import Guardrails SemCache Graph GraphProps HarnessDb Runner RunnerProps Boot.

(** ** The tools a run uses are tools its decision allows *)

Section Uses.
  Context {X : Type} `{HttpPost X, Uuid X, PolicyResolver X, CacheIndex X}.
  Context `{Pydantic, JsonLoads, FloatParse, FloatRepr, Presidio, Sha256}.
  Variable gc : GraphConfig.

Definition deployed_mutation (manifests : list (string * ToolManifestEntry)) (name : string) : Prop :=
  ∃ key tool, dict_get key manifests = Some tool ∧ tm_name tool = name ∧ tm_kind tool = MUTATION.

(** A call that did something did it with an allowed tool. *)
Definition outcome_allowed (cx : ToolContext) (o : ToolExecutionOutcome) : Prop :=
  (tir_status (teo_invocation o) = "ok" → tir_tool_name (teo_invocation o) ∈ tc_allowed_tools cx) ∧
  ∀ m, teo_mutation_request o = Some m →
    mrr_action_name m ∈ tc_allowed_tools cx ∧ deployed_mutation (tc_tool_manifests cx) (mrr_action_name m).

Lemma error_allowed cx tc name kind message : outcome_allowed cx (error_outcome tc name kind message).
Proof. by split. Qed.

Lemma ok_allowed cx id content name kind params summary :
  name ∈ tc_allowed_tools cx →
  outcome_allowed cx (MkToolExecutionOutcome id content (ok_invocation name kind params summary) None None None None).
Proof. by split. Qed.

Lemma execute_mutation_allowed cx tc tool params token t u tr :
  tm_name tool ∈ tc_allowed_tools cx → deployed_mutation (tc_tool_manifests cx) (tm_name tool) →
  returns (outcome_allowed cx) (execute_mutation (X := X) tc tool params token t u tr).
Proof.
  intros Hin Hdep. unfold execute_mutation.
  repeat first [ progress intros | apply returns_ret | apply returns_raise | apply returns_try | apply returns_bind
    | case_match; simplify_eq ]; (split; cbn; [done|by intros m [= <-]]) || by split.
Qed.

Lemma execute_tool_call_allowed cx tc : returns (outcome_allowed cx) (execute_tool_call (X := X) cx tc).
Proof.
  unfold execute_tool_call. destruct (dict_get _ _) as [tool|] eqn:Htool; [|apply returns_ret, error_allowed].
  destruct (str_in _ _) eqn:Hin; cbn [negb]; [|apply returns_ret, error_allowed]. apply str_in_spec in Hin.
  destruct (scoped_arguments _ _ _) as [denial|raw]; [apply returns_ret, error_allowed|].
  apply returns_bind. intros m. destruct (validate_params m _) as [params|]; [|apply returns_ret, error_allowed].
  destruct (String.eqb _ _).
  - unfold execute_search_public_faq. destruct (dict_get "query" params); [|apply returns_raise].
    apply returns_bind. intros r. by apply returns_ret, ok_allowed.
  - destruct (decide (tm_kind tool = READONLY)) as [_|Hkind].
    + unfold execute_readonly. apply returns_try.
      * apply returns_bind. intros r. destruct r; try apply returns_raise. by apply returns_ret, ok_allowed.
      * intros e k. destruct e; try done. intros [= <-]. apply returns_ret, error_allowed.
    + apply execute_mutation_allowed; [done|]. exists (tcs_name tc), tool. split_and!; [done|done|]. by destruct (tm_kind tool).
Qed.

(** *** Through the graph *)

(** [ok name]: the decisions the resolver takes for [ctx] may offer [name]. *)
Variable ctx : AuthorizationContext.
Variable ok : string → Prop.
Hypothesis decided : ∀ (x x' : X) pd, resolve_policy ctx x = (x', inr pd) → ∀ name, name ∈ pd_allowed_tools pd → ok name.

Definition records_allowed (s : AgentState) : Prop :=
  (∀ r, r ∈ st_tool_invocation_records s → tir_status r = "ok" → ok (tir_tool_name r)) ∧
  (∀ m, m ∈ st_mutation_request_records s → ok (mrr_action_name m) ∧ deployed_mutation (gc_tool_manifests gc) (mrr_action_name m)).

Definition state_allowed (s : AgentState) : Prop :=
  records_allowed s ∧ ∀ name, name ∈ st_allowed_tools s → ok name.

Definition context_of (s : AgentState) : AuthorizationContext :=
  MkAuthorizationContext (st_tenant_id s) (st_user_id s) (st_employee_id s) (st_roles s) (st_permissions s)
    (st_scope_context s) (st_agent_id s) (st_allow_mutations s).

Definition allowed_at (n : node) (s : AgentState) : Prop :=
  match n with Authorize => records_allowed s ∧ context_of s = ctx | _ => state_allowed s end.

Lemma record_outcome_allowed s o :
  state_allowed s → outcome_allowed (tool_context gc s) o → state_allowed (record_outcome s o).
Proof.
  intros [[Hr Hm] Ha] [Hok Hmut]. split; [split|exact Ha]; cbn.
  - intros r [?|Heq%list_elem_of_singleton]%elem_of_app Hst; [by apply Hr|]. subst r. by apply Ha, Hok.
  - intros m. destruct (teo_mutation_request o) as [m'|]; cbn; [|apply Hm].
    intros [?|Heq%list_elem_of_singleton]%elem_of_app; [by apply Hm|]. subst m.
    destruct (Hmut _ eq_refl) as [Hin Hdep]. split; [by apply Ha|done].
Qed.

#[local] Ltac node_cases :=
  repeat first
    [ progress intros
    | apply returns_ret; assumption
    | apply returns_raise | apply returns_bind | apply returns_try
    | case_match; simplify_eq ].

Lemma node_allowed n s : n ≠ Authorize → state_allowed s → returns state_allowed (run_node gc n s).
Proof.
  intros Hn Hs. destruct (decide (n = Act)) as [->|Hna].
  - intros x x' a. cbn. unfold act, bind. destruct (foldM _ _ _ x) as [x1 [e|acc]] eqn:Hf; [done|].
    intros [= <- <-]. enough (state_allowed acc ∧ tool_context gc acc = tool_context gc s) as [? _] by done.
    eapply (foldM_invariant (fun b _ => state_allowed b ∧ tool_context gc b = tool_context gc s)); [|by split|exact Hf].
    intros b tc y y' b' _ [Hb Hcx]. unfold bind.
    destruct (execute_tool_call _ tc y) as [y1 [e|o]] eqn:Ho; [done|]. intros [= <- <-].
    split; [|exact Hcx]. apply record_outcome_allowed; [done|]. rewrite Hcx. by apply (execute_tool_call_allowed _ _ _ _ _ Ho).
  - destruct n; cbn; try done;
    unfold input_guardrails, cache_lookup, retrieve, rag_guardrails, respond, output_guardrails, cache_write;
    cbv zeta; node_cases.
Qed.

Lemma authorize_allowed s : allowed_at Authorize s → returns state_allowed (authorize (X := X) s).
Proof.
  intros [Hr Hctx] x x' a. unfold authorize. fold (context_of s). rewrite Hctx. unfold bind.
  destruct (resolve_policy ctx x) as [x1 [e|pd]] eqn:Hpd; [done|]. intros [= <- <-]. split; [exact Hr|].
  cbn. by apply (decided x x1).
Qed.

Lemma ainvoke_allowed s :
  records_allowed s → context_of s = ctx → returns records_allowed (ainvoke gc s).
Proof.
  intros Hs Hctx. apply (drive_returns _ allowed_at); [|by split]. clear s Hs Hctx.
  intros n s Hs. assert (returns state_allowed (run_node gc n s)) as Hn.
  { destruct n; [by apply authorize_allowed|by apply node_allowed..]. }
  intros x x' a Ha. apply Hn in Ha. destruct (next_node n a) as [n'|] eqn:Hnext; [|apply Ha].
  apply next_not_authorize in Hnext. by destruct n'.
Qed.
End Uses.

(** ** The rows a run adds are those of its records *)

Section NewRows.
  Context {X : Type} `{HttpPost X, Uuid X, PolicyResolver X, CacheIndex X, Checkpointer X, PerfCounter X,
                       AdminRedis X, LangfuseSdk X}.
  Context `{Pydantic, JsonLoads, FloatParse, FloatRepr, Presidio, Sha256, !CheckpointerLaws X}.
  Variable app : AppState.

Definition new_rows {A} (tb : Table A) (rows : list A) (d d' : HarnessDb) : Prop :=
  ∀ id row, tb_rows tb d' !! id = Some row → tb_rows tb d !! id = Some row ∨ row ∈ rows.

Definition only_new {A} (tb : Table A) (rows : list A) (c c' : HarnessConn X) : Prop :=
  new_rows tb rows (hcn_db c) (hcn_db c').

#[local] Instance only_new_preorder {A} (tb : Table A) rows : PreOrder (only_new tb rows).
Proof.
  split; [intros c id row; by left|]. intros a b c Hab Hbc id row Hc.
  destruct (Hbc id row Hc) as [Hb|?]; [by apply Hab|by right].
Qed.

Lemma insert_new {A} (tb : Table A) `{!GrowingTable tb} rows i row :
  row ∈ rows → frames (only_new tb rows) (insert_row (X := X) tb i row).
Proof.
  intros Hrow c. unfold insert_row, bind, gets. do 2 (destruct (negb _); [reflexivity|]).
  destruct (tb_violates _ _ _); [reflexivity|]. destruct (tb_rows tb (hcn_db c) !! i); [reflexivity|]. cbn.
  intros id r. cbn. rewrite gt_get_put. destruct (decide (id = i)) as [->|Hne].
  - rewrite lookup_insert_eq. intros [= <-]. by right.
  - rewrite lookup_insert_ne by done. by left.
Qed.

Lemma insert_elsewhere {A B} (tb : Table A) (other : Table B) rows i row :
  (∀ f d, tb_rows tb (tb_put other f d) = tb_rows tb d) → frames (only_new tb rows) (insert_row (X := X) other i row).
Proof.
  intros Hother c. unfold insert_row, bind, gets. do 2 (destruct (negb _); [reflexivity|]).
  destruct (tb_violates _ _ _); [reflexivity|]. destruct (tb_rows other (hcn_db c) !! i); [reflexivity|]. cbn.
  intros id r. cbn. rewrite Hother. by left.
Qed.

Lemma on_conn_new {A B} (tb : Table A) rows (m : py X B) : frames (only_new tb rows) (on_conn m).
Proof. intros c. unfold on_conn, zoom. destruct (m (hcn_ext c)) as [x r]. intros id row. by left. Qed.

Lemma persist_mutation_new request m records :
  m ∈ records → frames (only_new mutation_requests_table (mutation_row request <$> records)) (persist_mutation (X := X) request m).
Proof. intros Hm. apply (insert_new mutation_requests_table). by apply (list_elem_of_fmap_2 (mutation_row request)). Qed.

Lemma persist_invocation_new request r records :
  r ∈ records →
  frames (only_new tool_invocations_table (invocation_row request <$> records)) (persist_invocation (X := X) request r).
Proof.
  intros Hr. apply (frames_bind _); [apply on_conn_new|]. intros i. apply (insert_new tool_invocations_table).
  by apply (list_elem_of_fmap_2 (invocation_row request)).
Qed.

(** The statements of a run, those of the table first. *)
#[local] Ltac new_rows :=
  repeat lazymatch goal with
    | |- ∀ _, _ => intro
    | |- frames _ (persist_mutation _ _) => apply persist_mutation_new; assumption
    | |- frames _ (persist_invocation _ _) => apply persist_invocation_new; assumption
    | |- frames _ (on_conn _) => apply on_conn_new
    | |- frames _ (insert_row _ _ _) => apply insert_elsewhere; reflexivity
    | |- frames _ (ret _) => apply (frames_ret _)
    | |- frames _ (gets _) => apply (frames_gets _)
    | |- frames _ (for_each _ _) => apply (frames_for_each _)
    | |- frames _ (bind _ _) => apply (frames_bind _)
    | |- frames _ (if _ then _ else _) => case_match
    end.
#[local] Ltac statements :=
  unfold persist_run, ensure_conversation, persist_event, persist_decision, insert_message, insert_agent_run,
    insert_guardrail_event, insert_authz_decision.

Lemma persist_run_mutations request c ms ev state :
  frames (only_new mutation_requests_table (mutation_row request <$> st_mutation_request_records state))
    (persist_run (X := X) app request c ms ev state).
Proof. statements. unfold persist_invocation, insert_tool_invocation. new_rows. Qed.

Lemma persist_run_invocations request c ms ev state :
  frames (only_new tool_invocations_table (invocation_row request <$> st_tool_invocation_records state))
    (persist_run (X := X) app request c ms ev state).
Proof. statements. unfold persist_mutation, insert_mutation_request. new_rows. Qed.

(** What a whole run leaves in the two tables. *)
Lemma run_agent_new_rows request (s s' : HarnessState X) r :
  run_agent app request s = (s', r) →
  hst_db s' = hst_db s ∨
  ∃ x0 x x' start state, thread_input x0 (initial_state request) x = (x', inr start) ∧
    (∃ y y', ainvoke (app_graph app) start y = (y', inr state)) ∧
    new_rows mutation_requests_table (mutation_row request <$> st_mutation_request_records state) (hst_db s) (hst_db s') ∧
    new_rows tool_invocations_table (invocation_row request <$> st_tool_invocation_records state) (hst_db s) (hst_db s').
Proof.
  rewrite run_agent_split. unfold bind. pose proof (graph_run_db app request s) as Hdb.
  destruct (graph_run app request s) as [s1 [e|[c state]]] eqn:Hg; cbn in Hdb; [intros [= <- <-]; by left|].
  unfold graph_run, bind in Hg. destruct (conversation_for request s) as [s2 [e|c2]]; [done|].
  unfold in_ext, zoom in Hg. destruct (thread_input _ _ _) as [x3 [e|start]] eqn:Hthread; [done|].
  destruct (ainvoke _ start _) as [x4 [e|st]] eqn:Hrun; [done|]. injection Hg as Hs1 <- <-.
  unfold conclude, bind at 1. pose proof (in_ext_db elapsed_ms s1) as Hdb0.
  destruct (in_ext elapsed_ms s1) as [s5 [e|ms]]; cbn in Hdb0; [intros [= <- <-]; left; congruence|].
  unfold bind at 1. destruct (eval_grant app request st s5) as [s6 [e|[bundle events]]] eqn:Hgr.
  { intros [= <- <-]. left. pose proof (eval_grant_pure app request st s5) as Hs. rewrite Hgr in Hs. cbn in Hs. subst. congruence. }
  apply eval_grant_spec in Hgr as (-> & _ & _). unfold bind at 1, tenant_session at 1.
  pose proof (persist_run_mutations request c2 ms events st (MkHarnessConn (Some (run_tenant_id request)) (hst_db s5) (hst_ext s5))) as Hm.
  pose proof (persist_run_invocations request c2 ms events st (MkHarnessConn (Some (run_tenant_id request)) (hst_db s5) (hst_ext s5))) as Hi.
  destruct (persist_run app request c2 ms events st _) as [k [e|[]]]; cbn -[build_response];
    [intros [= <- <-]; left; cbn; congruence|].
  unfold only_new in Hm, Hi. cbn in Hm, Hi. rewrite Hdb0, Hdb in Hm, Hi. intros Hb. right.
  assert (hst_db s' = hcn_db k) as ->.
  { unfold build_response in Hb. repeat case_match; by injection Hb as <- _. }
  eexists _, _, _, start, st. split_and!; [exact Hthread|by eexists _, _|exact Hm|exact Hi].
Qed.
End NewRows.

(** ** A booted harness *)

Lemma load_agent_profiles_audience {S} files audience (s s' : S) profiles :
  load_agent_profiles files audience s = (s', inr profiles) →
  ∀ id p, dict_get id profiles = Some p → ap_agent_id p = id ∧ ap_audience p = audience ∧ inr p ∈ files.
Proof.
  intros Hload. set (I := fun (acc : list (string * AgentProfile)) (_ : S) => ∀ id p, dict_get id acc = Some p →
    ap_agent_id p = id ∧ ap_audience p = audience ∧ inr p ∈ files).
  enough (I profiles s') as HI by exact HI.
  eapply (foldM_invariant I); [| |exact Hload]; [|done].
  intros b file t t' b' Hfile Hb. destruct file as [e|q]; [done|].
  destruct (decide (ap_audience q ≠ audience)) as [|Ha]; intros [= <- <-]; [done|]. apply dec_stable in Ha.
  intros id p. destruct (decide (id = ap_agent_id q)) as [->|Hn].
  - rewrite dict_get_set_eq. by intros [= <-].
  - rewrite dict_get_set_ne by done. apply Hb.
Qed.

Section Booted.
  Context {X : Type} `{CacheSchema X, CheckpointerSetup X, HttpPost X, Uuid X, CacheIndex X, Checkpointer X, PerfCounter X,
                       AdminRedis X, LangfuseSdk X, KillswitchEnv X, !CheckpointerLaws X}.
  Context `{Pydantic, JsonLoads, FloatParse, FloatRepr, Presidio, Sha256}.
  Variables (model_json_schema : ParamsModel → json) (langgraph_recursion_limit : nat).
  Variables (settings : Settings) (config : ConfigDir) (app : AppState).

#[local] Instance booted_resolver : PolicyResolver (Process X) := policy_resolver app.

#[local] Instance process_checkpointer_laws : CheckpointerLaws (Process X).
Proof.
  intros c input p p' start. unfold thread_input, process_checkpointer, outside, zoom.
  match goal with |- context [?f (ks_ext p)] => destruct (f (ks_ext p)) as [x [e|st]] eqn:E end; [done|].
  intros [= _ <-]. by eapply thread_input_fresh.
Qed.

(** What the deployment's files, its audience and the caller's request allow. *)
Definition may_use (request : AgentRunRequest) (name : string) (tool : ToolManifestEntry) : Prop :=
  ∃ profile,
    inr profile ∈ cfg_agents config ∧ ap_agent_id profile = run_agent_id request ∧
    ap_audience profile = set_harness_audience settings ∧ name ∈ ap_allowed_tools profile ∧
    inr tool ∈ cfg_tools config ∧ tm_name tool = name ∧ set_harness_audience settings ∈ tm_audience tool ∧
    (∀ p, p ∈ tm_required_permissions tool → p ∈ run_permissions request) ∧
    (tm_kind tool = MUTATION → opt_allow_mutations (run_options request) = true).

(** What start-up made of the files. *)
Lemma lifespan_loads (x x' : X) :
  lifespan model_json_schema langgraph_recursion_limit settings config x = (x', inr app) →
  (∀ name tool, dict_get name (gc_tool_manifests (app_graph app)) = Some tool →
     tm_name tool = name ∧ set_harness_audience settings ∈ tm_audience tool ∧ inr tool ∈ cfg_tools config) ∧
  (∀ id p, dict_get id (gc_agent_profiles (app_graph app)) = Some p →
     ap_agent_id p = id ∧ ap_audience p = set_harness_audience settings ∧ inr p ∈ cfg_agents config).
Proof.
  unfold lifespan. intros (x1 & [] & _ & (x2 & manifests & Htools & (x3 & profiles & Hagents & (x4 & [] & _ & Hret)
    %bind_returns)%bind_returns)%bind_returns)%bind_returns. injection Hret as _ <-. cbn. split.
  - by apply load_tool_manifests_audience in Htools as [_ ?].
  - by eapply load_agent_profiles_audience.
Qed.

Section Run.
  Variables (x0 x1 : X).
  Hypothesis booted : lifespan model_json_schema langgraph_recursion_limit settings config x0 = (x1, inr app).
  Variable request : AgentRunRequest.

(** The decision of a run names only tools it may use. *)
Lemma decision_may_use (p p' : Process X) pd :
  resolve_policy (context_of (initial_state request)) p = (p', inr pd) →
  ∀ name, name ∈ pd_allowed_tools pd → ∃ tool, may_use request name tool ∧
    dict_get name (gc_tool_manifests (app_graph app)) = Some tool.
Proof.
  destruct (lifespan_loads _ _ booted) as [Htools Hagents]. intros Hres name Hname.
  destruct (resolve_never_exceeds_ceiling _ _ _ _ _ _ _ Hres Hname) as (profile & tool & Hprof & Hcand & Hn & Hperm & Hmut).
  apply Hagents in Hprof as (Hid & Haud & Hin).
  unfold candidates in Hcand. apply list_elem_of_omap in Hcand as (key & Hkey & Htool).
  destruct (Htools key tool Htool) as (Hnt & Ht & Hint). rewrite Hn in Hnt. subst key.
  exists tool. split; [|done]. exists profile. split_and!; done.
Qed.

(** C15: A booted agent-harness records only authorized tool use. Whatever the
    model asks for, a run adds a mutation request, or a tool invocation that went
    through, only for a tool that the deployment's manifests declare for its
    audience, that the profile of the caller's agent - of the same audience -
    lists, all of whose required permissions are in the request, and, for a
    mutation, only when the request allows mutations. *)
Theorem booted_runs_are_authorized (s s' : HarnessState (Process X)) r :
  run_agent app request s = (s', r) →
  (∀ id row, hdb_mutation_requests (hst_db s') !! id = Some row →
     hdb_mutation_requests (hst_db s) !! id = Some row ∨
     ∃ tool, may_use request (mtr_action_name row) tool ∧ tm_kind tool = MUTATION ∧
       opt_allow_mutations (run_options request) = true) ∧
  (∀ id row, hdb_tool_invocations (hst_db s') !! id = Some row → tvr_status row = "ok" →
     hdb_tool_invocations (hst_db s) !! id = Some row ∨ ∃ tool, may_use request (tvr_tool_name row) tool).
Proof.
  intros [Hdb|(c & x & x' & start & state & Hthread & (y & y' & Hrun) & Hmut & Hinv)]%run_agent_new_rows.
  { rewrite Hdb. split; intros; by left. }
  apply thread_input_fresh in Hthread. destruct (lifespan_loads _ _ booted) as [Htools _].
  assert (records_allowed (app_graph app) (fun name => ∃ tool, may_use request name tool ∧
    dict_get name (gc_tool_manifests (app_graph app)) = Some tool) state) as [Hi Hm].
  { eapply (ainvoke_allowed (X := Process X) (app_graph app) (context_of (initial_state request))); [exact decision_may_use| | |exact Hrun];
      rewrite Hthread; [split; intros ? ?%elem_of_nil; done|done]. }
  split.
  - intros id row [?|Hin]%Hmut; [by left|right]. apply list_elem_of_fmap in Hin as (m & -> & Hin).
    destruct (Hm m Hin) as [(tool & Hmay & Hget) (key & tool' & Hkey & Hname & Hkind)]. cbn.
    destruct (Htools key tool' Hkey) as [Hk _]. rewrite Hname in Hk. subst key.
    assert (tool' = tool) as -> by congruence. exists tool. split_and!; [done|done|].
    destruct Hmay as (_ & _ & _ & _ & _ & _ & _ & _ & _ & Hallow). by apply Hallow.
  - intros id row Hrow Hok. destruct (Hinv id row Hrow) as [?|Hin]; [by left|right].
    apply list_elem_of_fmap in Hin as (rec & -> & Hin). destruct (Hi rec Hin Hok) as (tool & Hmay & _). by exists tool.
Qed.
End Run.
End Booted.

(** ** A deployment that boots and serves a run *)

Module Witness.
Import RunnerProps.Witness.

#[local] Instance env_schema : CacheSchema env := {|
  ft_info _ e := (e, inl (ResponseError "Unknown index name"));
  ft_create _ _ _ e := (e, inr tt) |}.
#[local] Instance env_setup : CheckpointerSetup env := fun dsn e =>
  (e, if String.eqb dsn "postgresql://agent_app@postgres/agent" then inr tt else inl (OtherException "OperationalError" dsn)).

Definition settings : Settings := default_settings "postgresql+asyncpg://agent_app@postgres/agent" "sk" "pk" "sk".
Definition external_tool : ToolManifestEntry := leave_tool <| tm_name := "search_public_faq" |> <| tm_audience := [EXTERNAL] |>.
Definition config : ConfigDir :=
  MkConfigDir [inr external_tool; inr leave_tool]
    [inr (MkAgentProfile "leave-bot" INTERNAL ["submit_leave_request"; "search_public_faq"] false 3600 8)].

Definition boot := lifespan (fun _ => JNull) 25 settings config (hst_ext (before "submit_leave_request")).
Definition booted_app : AppState := match boot.2 with inr a => a | inl _ => app end.

Lemma boots : boot = (boot.1, inr booted_app).
Proof. vm_compute. reflexivity. Qed.

#[local] Instance env_resolver : PolicyResolver (Process env) := booted_resolver booted_app.

Definition started : HarnessState (Process env) := MkHarnessState db (MkKillswitchState ∅ boot.1).
Definition served := run_agent booted_app request started.

Lemma booted_runs_are_authorized_witness :
  ∃ id row tool, hdb_mutation_requests (hst_db served.1) !! id = Some row ∧
    may_use settings config request (mtr_action_name row) tool ∧ tm_kind tool = MUTATION.
Proof.
  destruct (booted_runs_are_authorized (fun _ => JNull) 25 settings config booted_app _ _ boots request started served.1 served.2)
    as [Hmut _]; [apply surjective_pairing|].
  assert (∃ row, hdb_mutation_requests (hst_db served.1) !! "mrq_10000000000000000001" = Some row) as [row Hrow]
    by (vm_compute; by eexists).
  exists "mrq_10000000000000000001", row. destruct (Hmut _ _ Hrow) as [Hold|(tool & Hmay & Hkind & _)].
  - exact (match Hold in _ = o return match o with Some _ => _ | None => True end with eq_refl => Logic.I end).
  - exists tool. exact (conj Hrow (conj Hmay Hkind)).
Defined.
End Witness.
