(* ===== verification/Postgres.v ===== *)
(** PostgreSQL as the migrations see it: the schema definition statements they
    execute, as data, the catalogue those statements change, and what the
    catalogue says of a row — its constraints and its row-level security.

    The statements run as a superuser, whom PostgreSQL asks for no privilege;
    a name in a statement is schema-qualified. The roles of the cluster are those
    of the one database. *)
From S2P Require Import Prelude PyStr Json.

(** ** Statements *)

Inductive SqlType :=
  | TEXT | TEXT_ARRAY | JSONB | INT | BOOLEAN | TIMESTAMPTZ | DOUBLE_PRECISION
  | NUMERIC (precision scale : nat) | VECTOR (dimension : nat) | TSVECTOR.
#[export] Instance SqlType_eq_dec : EqDecision SqlType.
Proof. solve_decision. Defined.

(** A column: its type, [NOT NULL], and whether an [INSERT] that leaves it out
    gets a value, by [DEFAULT] or [GENERATED]. *)
Record Column := MkColumn {
  col_name : string;
  col_type : SqlType;
  col_not_null : bool;
  col_default : option string
}.
#[export] Instance Column_eq_dec : EqDecision Column.
Proof. solve_decision. Defined.

Abbreviation TableName := (string * string)%type.

Inductive TableConstraint :=
  | PRIMARY_KEY (columns : list string)
  | UNIQUE (columns : list string)
  | CHECK_IN (column : string) (values : list string)
  | REFERENCES (column : string) (target : TableName) (target_column : string).
#[export] Instance TableConstraint_eq_dec : EqDecision TableConstraint.
Proof. solve_decision. Defined.

(** An index: its method, its key as written, uniqueness, and the boolean column
    of its [WHERE]. *)
Record Index := MkIndex {
  idx_using : string;
  idx_columns : list string;
  idx_unique : bool;
  idx_where : option string
}.
#[export] Instance Index_eq_dec : EqDecision Index.
Proof. solve_decision. Defined.

(** The policies' expressions: [column = current_setting('name', true)]. *)
Record PolicyExpr := EqCurrentSetting { pol_column : string; pol_setting : string }.
#[export] Instance PolicyExpr_eq_dec : EqDecision PolicyExpr.
Proof. solve_decision. Defined.

Inductive Privilege := SELECT | INSERT | UPDATE | DELETE | USAGE | CREATE.
#[export] Instance Privilege_eq_dec : EqDecision Privilege.
Proof. solve_decision. Defined.
#[export] Instance Privilege_countable : Countable Privilege.
Proof.
  refine (inj_countable'
    (fun p => match p with SELECT => 0 | INSERT => 1 | UPDATE => 2 | DELETE => 3 | USAGE => 4 | CREATE => 5 end)
    (fun n => match n with 0 => SELECT | 1 => INSERT | 2 => UPDATE | 3 => DELETE | 4 => USAGE | _ => CREATE end) _).
  by intros [].
Defined.

Definition DML : list Privilege := [SELECT; INSERT; UPDATE; DELETE].

Record Role := MkRole {
  rol_login : bool;
  rol_password : option string;
  rol_superuser : bool;
  rol_createdb : bool;
  rol_createrole : bool;
  rol_bypassrls : bool
}.

Inductive Ddl :=
  | CREATE_SCHEMA_IF_NOT_EXISTS (schema : string)
  | DROP_SCHEMA_IF_EXISTS_CASCADE (schema : string)
  | CREATE_TABLE (name : TableName) (columns : list Column) (constraints : list TableConstraint)
  | DROP_TABLE_IF_EXISTS (name : TableName)
  | CREATE_INDEX (name : TableName) (index : Index)
  | ENABLE_RLS (name : TableName)
  | FORCE_RLS (name : TableName)
  | CREATE_POLICY (policy : string) (name : TableName) (expr : PolicyExpr)
  | CREATE_EXTENSION_IF_NOT_EXISTS (extension : string)
  | DROP_EXTENSION_IF_EXISTS (extension : string)
  | CREATE_ROLE_IF_NOT_EXISTS (role : string) (password_literal : string)
  | DROP_ROLE_IF_EXISTS (role : string)
  | GRANT_CONNECT (role : string)
  | REVOKE_CONNECT (role : string)
  | GRANT_ON_SCHEMA (privileges : list Privilege) (schema role : string)
  | REVOKE_ON_SCHEMA (privileges : list Privilege) (schema role : string)
  | GRANT_ON_ALL_TABLES (privileges : list Privilege) (schema role : string)
  | REVOKE_ALL_ON_ALL_TABLES (schema role : string)
  | DEFAULT_GRANT (owner schema : string) (privileges : list Privilege) (role : string)
  | DEFAULT_REVOKE (owner schema : string) (privileges : list Privilege) (role : string).

(** ** The catalogue *)

Record PgTable := MkPgTable {
  tab_owner : string;
  tab_columns : list Column;
  tab_constraints : list TableConstraint;
  tab_indexes : list Index;
  tab_rls : bool;
  tab_force : bool;
  tab_policies : list (string * PolicyExpr);
  tab_acl : gset (string * Privilege)
}.
#[export] Instance eta_PgTable : EtaRec PgTable := fun x =>
  MkPgTable (tab_owner x) (tab_columns x) (tab_constraints x) (tab_indexes x) (tab_rls x) (tab_force x)
    (tab_policies x) (tab_acl x).

Record Database := MkDatabase {
  dbs_schemas : gmap string string;
  dbs_schema_acl : gset (string * string * Privilege);
  dbs_tables : gmap TableName PgTable;
  dbs_extensions : gset string;
  dbs_roles : gmap string Role;
  dbs_connect : gset string;
  dbs_default_acl : gset (string * string * (string * Privilege))
}.
#[export] Instance eta_Database : EtaRec Database := fun x =>
  MkDatabase (dbs_schemas x) (dbs_schema_acl x) (dbs_tables x) (dbs_extensions x) (dbs_roles x) (dbs_connect x)
    (dbs_default_acl x).

Definition has_table (d : Database) (k : TableName) : bool := bool_decide (is_Some (dbs_tables d !! k)).

Definition references (k : TableName) (t : PgTable) : bool :=
  existsb (fun c => match c with REFERENCES _ target _ => bool_decide (target = k) | _ => false end)
    (tab_constraints t).

(** Whether another table has a foreign key to [k]. *)
Definition referenced (d : Database) (k : TableName) : bool :=
  existsb (fun kt => negb (bool_decide (kt.1 = k)) && references k kt.2) (map_to_list (dbs_tables d)).

(** The extension a column type comes from. *)
Definition type_extension (t : SqlType) : option string :=
  match t with VECTOR _ => Some "vector" | _ => None end.

Definition column_available (d : Database) (c : Column) : bool :=
  match type_extension (col_type c) with Some e => bool_decide (e ∈ dbs_extensions d) | None => true end.

Definition uses_extension (e : string) (t : PgTable) : bool :=
  existsb (fun c => bool_decide (type_extension (col_type c) = Some e)) (tab_columns t).

Definition column_of (columns : list Column) (name : string) : option Column :=
  List.find (fun c => String.eqb (col_name c) name) columns.

Definition has_column (columns : list Column) (name : string) : bool :=
  bool_decide (is_Some (column_of columns name)).

(** Whether the columns are a key some unique constraint declares. *)
Definition declares_key (t : PgTable) (columns : list string) : bool :=
  existsb (fun c => match c with
                    | PRIMARY_KEY l | UNIQUE l => bool_decide (l = columns)
                    | _ => false
                    end) (tab_constraints t).

(** A constraint's columns are the table's; a foreign key's target is a declared
    key of an existing table. *)
Definition constraint_valid (d : Database) (columns : list Column) (c : TableConstraint) : bool :=
  match c with
  | PRIMARY_KEY l | UNIQUE l => forallb (has_column columns) l
  | CHECK_IN col _ => has_column columns col
  | REFERENCES col target target_column =>
      has_column columns col &&
      match dbs_tables d !! target with Some t => declares_key t [target_column] | None => false end
  end.

Definition default_acl_for (d : Database) (owner schema : string) : gset (string * Privilege) :=
  list_to_set (snd <$> List.filter (fun x => String.eqb x.1.1 owner && String.eqb x.1.2 schema)
                         (elements (dbs_default_acl d))).

(** Whether anything in the database depends on the role: what it owns, and the
    privileges granted to it or by default. *)
Definition role_in_use (d : Database) (role : string) : bool :=
  existsb (fun kv => String.eqb kv.2 role) (map_to_list (dbs_schemas d))
  || existsb (fun x => String.eqb x.1.2 role) (elements (dbs_schema_acl d))
  || existsb (fun kv => String.eqb (tab_owner kv.2) role
                        || existsb (fun x => String.eqb x.1 role) (elements (tab_acl kv.2)))
       (map_to_list (dbs_tables d))
  || bool_decide (role ∈ dbs_connect d)
  || existsb (fun x => String.eqb x.1.1 role || String.eqb x.2.1 role) (elements (dbs_default_acl d)).

(** The value of a single-quoted literal's body: a doubled quote is a quote, a
    single one would have ended it. *)
Fixpoint read_literal (s : string) : option string :=
  match s with
  | EmptyString => Some EmptyString
  | String "'" (String "'" s') => String "'" <$> read_literal s'
  | String "'" _ => None
  | String c s' => String c <$> read_literal s'
  end.

(** ** Execution *)

Definition sql_error {A} (message : string) : py Database A := raise (OtherException "ProgrammingError" message).

Definition on_table (k : TableName) (f : PgTable → PgTable) : py Database unit :=
  let! d := get_state in
  if has_table d k then modify (fun d => d <| dbs_tables ::= alter f k |>)
  else sql_error "relation does not exist".

Definition needs_role (role : string) (m : py Database unit) : py Database unit :=
  let! d := get_state in
  if bool_decide (is_Some (dbs_roles d !! role)) then m else sql_error "role does not exist".

Definition needs_schema (schema : string) (m : py Database unit) : py Database unit :=
  let! d := get_state in
  if bool_decide (is_Some (dbs_schemas d !! schema)) then m else sql_error "schema does not exist".

Definition pairs (role : string) (privileges : list Privilege) : gset (string * Privilege) :=
  list_to_set (pair role <$> privileges).

Definition in_schema (schema : string) (f : PgTable → PgTable) (d : Database) : Database :=
  d <| dbs_tables ::= map_imap (fun k t => Some (if String.eqb k.1 schema then f t else t)) |>.

(** [CREATE TABLE]: the new table is the current user's, and gets the privileges
    the user's default ones give on new tables of the schema. *)
Definition create_table (current_user : string) (k : TableName) (columns : list Column)
    (constraints : list TableConstraint) : py Database unit :=
  let! d := get_state in
  if has_table d k then sql_error "relation already exists"
  else if negb (forallb (column_available d) columns) then sql_error "type does not exist"
  else if negb (forallb (constraint_valid d columns) constraints) then sql_error "invalid constraint"
  else modify (fun d => d <| dbs_tables ::= <[k := MkPgTable current_user columns constraints [] false false []
                                                     (default_acl_for d current_user k.1)]> |>).

(** A schema goes with its tables, the foreign keys to them, and its privileges. *)
Definition drop_schema (schema : string) (d : Database) : Database :=
  let outside := fun c => match c with REFERENCES _ target _ => negb (String.eqb target.1 schema) | _ => true end in
  MkDatabase (delete schema (dbs_schemas d))
    (filter (fun x => x.1.1 ≠ schema) (dbs_schema_acl d))
    (fmap (fun t => t <| tab_constraints ::= List.filter outside |>)
       (filter (fun kt => kt.1.1 ≠ schema) (dbs_tables d)))
    (dbs_extensions d) (dbs_roles d) (dbs_connect d)
    (filter (fun x => x.1.2 ≠ schema) (dbs_default_acl d)).

Definition schema_entries (schema role : string) (privileges : list Privilege) : gset (string * string * Privilege) :=
  list_to_set (pair (schema, role) <$> privileges).

Definition default_entries (owner schema role : string) (privileges : list Privilege)
    : gset (string * string * (string * Privilege)) :=
  list_to_set (pair (owner, schema) <$> (pair role <$> privileges)).

Definition exec (current_user : string) (statement : Ddl) : py Database unit :=
  match statement with
  | CREATE_SCHEMA_IF_NOT_EXISTS schema =>
      modify (fun d => d <| dbs_schemas ::= fun m => match m !! schema with
                                                     | Some _ => m
                                                     | None => <[schema := current_user]> m
                                                     end |>)
  | DROP_SCHEMA_IF_EXISTS_CASCADE schema =>
      modify (fun d => if bool_decide (is_Some (dbs_schemas d !! schema)) then drop_schema schema d else d)
  | CREATE_TABLE k columns constraints => needs_schema k.1 (create_table current_user k columns constraints)
  | DROP_TABLE_IF_EXISTS k =>
      let! d := get_state in
      if has_table d k && referenced d k then sql_error "cannot drop table: other objects depend on it"
      else modify (fun d => d <| dbs_tables ::= delete k |>)
  | CREATE_INDEX k index => on_table k (fun t => t <| tab_indexes ::= fun l => l ++ [index] |>)
  | ENABLE_RLS k => on_table k (fun t => t <| tab_rls := true |>)
  | FORCE_RLS k => on_table k (fun t => t <| tab_force := true |>)
  | CREATE_POLICY policy k expr =>
      let! d := get_state in
      match dbs_tables d !! k with
      | None => sql_error "relation does not exist"
      | Some t =>
          if existsb (fun p => String.eqb p.1 policy) (tab_policies t) then sql_error "policy already exists"
          else if negb (has_column (tab_columns t) (pol_column expr)) then sql_error "column does not exist"
          else on_table k (fun t => t <| tab_policies ::= fun l => l ++ [(policy, expr)] |>)
      end
  | CREATE_EXTENSION_IF_NOT_EXISTS e => modify (fun d => d <| dbs_extensions ::= fun s => {[e]} ∪ s |>)
  | DROP_EXTENSION_IF_EXISTS e =>
      let! d := get_state in
      if existsb (fun kt => uses_extension e kt.2) (map_to_list (dbs_tables d))
      then sql_error "cannot drop extension: other objects depend on it"
      else modify (fun d => d <| dbs_extensions ::= fun s => s ∖ {[e]} |>)
  | CREATE_ROLE_IF_NOT_EXISTS role password_literal =>
      (* the statement is the body of a DO block, between a pair of dollar quotes *)
      if str_contains "$$" password_literal then sql_error "syntax error"
      else match read_literal password_literal with
      | None => sql_error "syntax error"
      | Some password =>
          modify (fun d => d <| dbs_roles ::= fun m =>
            match m !! role with
            | Some _ => m
            | None => <[role := MkRole true (Some password) false false false false]> m
            end |>)
      end
  | DROP_ROLE_IF_EXISTS role =>
      let! d := get_state in
      if bool_decide (is_Some (dbs_roles d !! role)) && role_in_use d role
      then sql_error "role cannot be dropped because some objects depend on it"
      else modify (fun d => d <| dbs_roles ::= delete role |>)
  | GRANT_CONNECT role => needs_role role (modify (fun d => d <| dbs_connect ::= fun s => {[role]} ∪ s |>))
  | REVOKE_CONNECT role => needs_role role (modify (fun d => d <| dbs_connect ::= fun s => s ∖ {[role]} |>))
  | GRANT_ON_SCHEMA privileges schema role =>
      needs_schema schema (needs_role role
        (modify (fun d => d <| dbs_schema_acl ::= fun s => schema_entries schema role privileges ∪ s |>)))
  | REVOKE_ON_SCHEMA privileges schema role =>
      needs_schema schema (needs_role role
        (modify (fun d => d <| dbs_schema_acl ::= fun s => s ∖ schema_entries schema role privileges |>)))
  | GRANT_ON_ALL_TABLES privileges schema role =>
      needs_schema schema (needs_role role
        (modify (in_schema schema (fun t => t <| tab_acl ::= fun s => pairs role privileges ∪ s |>))))
  | REVOKE_ALL_ON_ALL_TABLES schema role =>
      needs_schema schema (needs_role role
        (modify (in_schema schema (fun t => t <| tab_acl ::= filter (fun x => x.1 ≠ role) |>))))
  | DEFAULT_GRANT owner schema privileges role =>
      needs_schema schema (needs_role role
        (modify (fun d => d <| dbs_default_acl ::= fun s => default_entries owner schema role privileges ∪ s |>)))
  | DEFAULT_REVOKE owner schema privileges role =>
      needs_schema schema (needs_role role
        (modify (fun d => d <| dbs_default_acl ::= fun s => s ∖ default_entries owner schema role privileges |>)))
  end.

(** ** Rows

    A timestamp is sent as a [datetime]; it is kept as its text. *)

Inductive SqlValue :=
  | VNull | VText (s : string) | VTexts (l : list string) | VJson (j : json) | VInt (z : Z)
  | VFloat (f : float64) | VBool (b : bool) | VVector (l : list float64).
#[export] Instance SqlValue_eq_dec : EqDecision SqlValue.
Proof. solve_decision. Defined.

Definition is_null (v : SqlValue) : bool := match v with VNull => true | _ => false end.

(** The columns an [INSERT] names, with their values. *)
Definition Row : Type := list (string * SqlValue).

Definition type_accepts (t : SqlType) (v : SqlValue) : bool :=
  match t, v with
  | _, VNull => true
  | TEXT, VText s => no_nul s
  | TEXT_ARRAY, VTexts l => forallb no_nul l
  | TIMESTAMPTZ, VText _ | BOOLEAN, VBool _ | DOUBLE_PRECISION, VFloat _ => true
  | NUMERIC precision scale, VFloat f => numeric_ok (Z.of_nat precision) (Z.of_nat scale) f
  | JSONB, VJson j => jsonb_ok j
  | INT, VInt z => ((- 2 ^ 31 <=? z) && (z <? 2 ^ 31))%Z
  | VECTOR n, VVector l => Nat.eqb (length l) n
  | _, _ => false
  end.

Definition primary (t : PgTable) (name : string) : bool :=
  existsb (fun c => match c with PRIMARY_KEY l => str_in name l | _ => false end) (tab_constraints t).

(** A column the [INSERT] leaves out gets its default, or null. *)
Definition cell_ok (t : PgTable) (row : Row) (c : Column) : bool :=
  match dict_get (col_name c) row with
  | Some v => type_accepts (col_type c) v
              && negb (is_null v && (col_not_null c || primary t (col_name c)))
  | None => match col_default c with Some _ => true | None => false end || negb (col_not_null c || primary t (col_name c))
  end.

Definition cell (row : Row) (name : string) : SqlValue := from_option id VNull (dict_get name row).

(** Two rows agree on a key when they have the same values there, none null. *)
Definition same_key (columns : list string) (a b : Row) : bool :=
  forallb (fun c => bool_decide (cell a c = cell b c) && negb (is_null (cell a c))) columns.

Definition constraint_holds (contents : TableName → list Row) (k : TableName) (row : Row) (c : TableConstraint)
    : bool :=
  match c with
  | PRIMARY_KEY l | UNIQUE l => negb (existsb (same_key l row) (contents k))
  | CHECK_IN col values => match cell row col with VNull => true | VText s => str_in s values | _ => false end
  | REFERENCES col target target_column =>
      is_null (cell row col)
      || existsb (fun r => bool_decide (cell r target_column = cell row col)) (contents target)
  end.

Definition satisfies_constraints (contents : TableName → list Row) (k : TableName) (t : PgTable) (row : Row) : bool :=
  forallb (cell_ok t row) (tab_columns t) && forallb (constraint_holds contents k row) (tab_constraints t).

(** ** Row-level security

    [current_setting(name, true)] is null when the setting is not set, and a
    comparison with null is not true. *)

Definition Settings : Type := gmap string string.

Definition policy_holds (settings : Settings) (row : Row) (p : PolicyExpr) : bool :=
  match cell row (pol_column p), settings !! pol_setting p with
  | VText v, Some s => String.eqb v s
  | _, _ => false
  end.

Definition is_superuser (d : Database) (role : string) : bool :=
  match dbs_roles d !! role with Some r => rol_superuser r | None => false end.

Definition bypasses (d : Database) (role : string) : bool :=
  match dbs_roles d !! role with Some r => rol_superuser r || rol_bypassrls r | None => false end.

(** Whether the role sees the row, and may write it: the policies have no
    [WITH CHECK] of their own, so their [USING] serves for both. Without a policy
    that holds, row security denies. *)
Definition row_visible (d : Database) (role : string) (settings : Settings) (t : PgTable) (row : Row) : bool :=
  bypasses d role || negb (tab_rls t) || (String.eqb (tab_owner t) role && negb (tab_force t))
  || existsb (fun p => policy_holds settings row p.2) (tab_policies t).

Definition may (d : Database) (role : string) (p : Privilege) (k : TableName) : bool :=
  match dbs_tables d !! k with
  | Some t => is_superuser d role
              || (bool_decide ((k.1, role, USAGE) ∈ dbs_schema_acl d)
                  && (String.eqb (tab_owner t) role || bool_decide ((role, p) ∈ tab_acl t)))
  | None => false
  end.

(** [INSERT] of a row that names its columns, as [role] under the settings. *)
Definition insert_accepted (d : Database) (role : string) (settings : Settings) (contents : TableName → list Row)
    (k : TableName) (row : Row) : bool :=
  match dbs_tables d !! k with
  | Some t => may d role INSERT k && row_visible d role settings t row && satisfies_constraints contents k t row
  | None => false
  end.
