(* ===== verification/Migrations.v ===== *)
(** The migrations (migrations/versions, migrations/env.py): each revision's
    statements, the role every service connects as, and their run in one
    transaction.

    Alembic is an interface: it says which revisions a command runs and in what
    order. The statements are PostgreSQL's ([Postgres]). [op.execute] passes its
    text through SQLAlchemy's [text()], an interface too: only the password of 0008
    can hold a colon. The offline mode, which prints the statements instead of
    running them, is left out. *)
From S2P Require Import Prelude PyStr Json Postgres.

(** ** Columns as the statements write them *)

Definition nullable (name : string) (type : SqlType) : Column := MkColumn name type false None.
Definition nullable_or (name : string) (type : SqlType) (default : string) : Column :=
  MkColumn name type false (Some default).
Definition required (name : string) (type : SqlType) : Column := MkColumn name type true None.
Definition required_or (name : string) (type : SqlType) (default : string) : Column :=
  MkColumn name type true (Some default).

(** ** versions *)

(* @ migrations/versions/0001_schemas.py:19-19 SCHEMAS *)
Definition SCHEMAS : list string := ["conversation"; "audit"; "catalog"; "jobs"; "eval"; "authz"].

(* @ migrations/versions/0001_schemas.py:22-24 upgrade *)
Definition upgrade_0001 : list Ddl := CREATE_SCHEMA_IF_NOT_EXISTS <$> SCHEMAS.

(* @ migrations/versions/0001_schemas.py:27-29 downgrade *)
Definition downgrade_0001 : list Ddl := DROP_SCHEMA_IF_EXISTS_CASCADE <$> reverse SCHEMAS.

(* @ migrations/versions/0002_conversation.py:22-33 _enable_tenant_rls *)
Definition _enable_tenant_rls_0002 (table : TableName) : list Ddl :=
  [ENABLE_RLS table; FORCE_RLS table;
   CREATE_POLICY "tenant_isolation" table (EqCurrentSetting "tenant_id" "app.tenant_id")].

(* @ migrations/versions/0002_conversation.py:36-95 upgrade *)
Definition upgrade_0002 : list Ddl :=
  [CREATE_TABLE ("conversation", "conversations")
     [nullable "id" TEXT; required "tenant_id" TEXT; required "user_id" TEXT; required "agent_id" TEXT;
      nullable "title" TEXT; required_or "created_at" TIMESTAMPTZ "now()";
      required_or "updated_at" TIMESTAMPTZ "now()"; nullable "archived_at" TIMESTAMPTZ]
     [PRIMARY_KEY ["id"]];
   CREATE_INDEX ("conversation", "conversations")
     (MkIndex "btree" ["tenant_id"; "user_id"; "updated_at DESC"] false None)] ++
  _enable_tenant_rls_0002 ("conversation", "conversations") ++
  [CREATE_TABLE ("conversation", "messages")
     [nullable "id" TEXT; required "conversation_id" TEXT; required "tenant_id" TEXT; required "role" TEXT;
      required "content" JSONB; required_or "citations" JSONB "'[]'";
      required_or "created_at" TIMESTAMPTZ "now()"]
     [PRIMARY_KEY ["id"]; REFERENCES "conversation_id" ("conversation", "conversations") "id";
      CHECK_IN "role" ["user"; "assistant"; "tool"; "system"]];
   CREATE_INDEX ("conversation", "messages") (MkIndex "btree" ["conversation_id"; "created_at"] false None)] ++
  _enable_tenant_rls_0002 ("conversation", "messages") ++
  [CREATE_TABLE ("conversation", "agent_runs")
     [nullable "id" TEXT; required "trace_id" TEXT; required "tenant_id" TEXT; nullable "conversation_id" TEXT;
      required "agent_id" TEXT; required "agent_version" TEXT; required "prompt_version" TEXT;
      required "execution_mode" TEXT; required "status" TEXT; required_or "input_tokens" INT "0";
      required_or "output_tokens" INT "0"; required_or "cost_usd" (NUMERIC 12 6) "0";
      required_or "cache_hit" BOOLEAN "false"; required_or "degraded" TEXT_ARRAY "'{}'";
      nullable "latency_ms" INT; nullable "error_code" TEXT; required_or "created_at" TIMESTAMPTZ "now()"]
     [PRIMARY_KEY ["id"]; REFERENCES "conversation_id" ("conversation", "conversations") "id";
      CHECK_IN "execution_mode" ["sync"; "async"]];
   CREATE_INDEX ("conversation", "agent_runs") (MkIndex "btree" ["tenant_id"; "created_at DESC"] false None);
   CREATE_INDEX ("conversation", "agent_runs") (MkIndex "btree" ["trace_id"] false None)] ++
  _enable_tenant_rls_0002 ("conversation", "agent_runs").

(* @ migrations/versions/0002_conversation.py:98-101 downgrade *)
Definition downgrade_0002 : list Ddl :=
  [DROP_TABLE_IF_EXISTS ("conversation", "agent_runs");
   DROP_TABLE_IF_EXISTS ("conversation", "messages");
   DROP_TABLE_IF_EXISTS ("conversation", "conversations")].

(* @ migrations/versions/0003_audit_core.py:20-28 _enable_tenant_rls *)
Definition _enable_tenant_rls_0003 (table : TableName) : list Ddl :=
  [ENABLE_RLS table; FORCE_RLS table;
   CREATE_POLICY "tenant_isolation" table (EqCurrentSetting "tenant_id" "app.tenant_id")].

(* @ migrations/versions/0003_audit_core.py:31-95 upgrade *)
Definition upgrade_0003 : list Ddl :=
  [CREATE_TABLE ("audit", "tool_invocations")
     [nullable "id" TEXT; required "run_id" TEXT; required "trace_id" TEXT; required "tenant_id" TEXT;
      required "tool_name" TEXT; required "tool_kind" TEXT; required "arguments" JSONB;
      nullable "result_summary" JSONB; required "status" TEXT; nullable "latency_ms" INT;
      required_or "created_at" TIMESTAMPTZ "now()"]
     [PRIMARY_KEY ["id"]; CHECK_IN "tool_kind" ["readonly"; "mutation"]];
   CREATE_INDEX ("audit", "tool_invocations") (MkIndex "btree" ["run_id"] false None)] ++
  _enable_tenant_rls_0003 ("audit", "tool_invocations") ++
  [CREATE_TABLE ("audit", "mutation_requests")
     [nullable "id" TEXT; required "run_id" TEXT; required "trace_id" TEXT; required "tenant_id" TEXT;
      required "actor_user_id" TEXT; required "action_name" TEXT; required "risk_level" TEXT;
      required "preview_payload" JSONB; nullable "approval_id" TEXT; nullable "approved_by" TEXT;
      nullable "approved_at" TIMESTAMPTZ; required "idempotency_key" TEXT; required "status" TEXT;
      nullable "executed_at" TIMESTAMPTZ; nullable "business_ref" TEXT;
      required_or "created_at" TIMESTAMPTZ "now()"]
     [PRIMARY_KEY ["id"];
      CHECK_IN "status" ["previewed"; "awaiting_approval"; "approved"; "rejected"; "executed"; "failed"; "expired"];
      UNIQUE ["tenant_id"; "idempotency_key"]]] ++
  _enable_tenant_rls_0003 ("audit", "mutation_requests") ++
  [CREATE_TABLE ("audit", "guardrail_events")
     [nullable "id" TEXT; required "run_id" TEXT; required "trace_id" TEXT; required "tenant_id" TEXT;
      required "stage" TEXT; required "rule_id" TEXT; required "severity" TEXT; required "action_taken" TEXT;
      nullable "detail" JSONB; required_or "created_at" TIMESTAMPTZ "now()"]
     [PRIMARY_KEY ["id"]; CHECK_IN "stage" ["input"; "output"];
      CHECK_IN "action_taken" ["allow"; "redact"; "block"; "flag"]]] ++
  _enable_tenant_rls_0003 ("audit", "guardrail_events").

(* @ migrations/versions/0003_audit_core.py:98-101 downgrade *)
Definition downgrade_0003 : list Ddl :=
  [DROP_TABLE_IF_EXISTS ("audit", "guardrail_events");
   DROP_TABLE_IF_EXISTS ("audit", "mutation_requests");
   DROP_TABLE_IF_EXISTS ("audit", "tool_invocations")].

(* @ migrations/versions/0004_jobs.py:18-26 _enable_tenant_rls *)
Definition _enable_tenant_rls_0004 (table : TableName) : list Ddl :=
  [ENABLE_RLS table; FORCE_RLS table;
   CREATE_POLICY "tenant_isolation" table (EqCurrentSetting "tenant_id" "app.tenant_id")].

(* @ migrations/versions/0004_jobs.py:29-67 upgrade *)
Definition upgrade_0004 : list Ddl :=
  [CREATE_TABLE ("jobs", "async_jobs")
     [nullable "id" TEXT; required "tenant_id" TEXT; required "user_id" TEXT; required "trace_id" TEXT;
      required_or "priority" TEXT "'standard'"; required "payload" JSONB; required "status" TEXT;
      required_or "attempts" INT "0"; nullable "result" JSONB; nullable "error" JSONB;
      nullable "callback_url" TEXT; nullable "callback_status" TEXT;
      required_or "created_at" TIMESTAMPTZ "now()"; nullable "started_at" TIMESTAMPTZ;
      nullable "completed_at" TIMESTAMPTZ]
     [PRIMARY_KEY ["id"]];
   CREATE_INDEX ("jobs", "async_jobs") (MkIndex "btree" ["tenant_id"; "status"; "created_at DESC"] false None)] ++
  _enable_tenant_rls_0004 ("jobs", "async_jobs") ++
  [CREATE_TABLE ("jobs", "idempotency_keys")
     [required "tenant_id" TEXT; required "idempotency_key" TEXT; required "request_hash" TEXT;
      nullable "response_body" JSONB; nullable "status_code" INT; required_or "created_at" TIMESTAMPTZ "now()"]
     [PRIMARY_KEY ["tenant_id"; "idempotency_key"]]] ++
  _enable_tenant_rls_0004 ("jobs", "idempotency_keys").

(* @ migrations/versions/0004_jobs.py:70-72 downgrade *)
Definition downgrade_0004 : list Ddl :=
  [DROP_TABLE_IF_EXISTS ("jobs", "idempotency_keys");
   DROP_TABLE_IF_EXISTS ("jobs", "async_jobs")].

(* @ migrations/versions/0005_catalog.py:32-43 _enable_tenant_rls *)
Definition _enable_tenant_rls_0005 (table : TableName) : list Ddl :=
  [ENABLE_RLS table; FORCE_RLS table;
   CREATE_POLICY "tenant_isolation" table (EqCurrentSetting "tenant_id" "app.tenant_id")].

(* @ migrations/versions/0005_catalog.py:46-109 upgrade *)
Definition upgrade_0005 : list Ddl :=
  [CREATE_EXTENSION_IF_NOT_EXISTS "vector";
   CREATE_TABLE ("catalog", "documents")
     [nullable "id" TEXT; required "tenant_id" TEXT; required "source" TEXT; required "source_uri" TEXT;
      nullable "title" TEXT; required "content_hash" TEXT; required_or "acl_group_ids" TEXT_ARRAY "'{}'";
      nullable "lang" TEXT; required_or "ingested_at" TIMESTAMPTZ "now()"; nullable "deleted_at" TIMESTAMPTZ]
     [PRIMARY_KEY ["id"]; UNIQUE ["tenant_id"; "source"; "source_uri"]]] ++
  _enable_tenant_rls_0005 ("catalog", "documents") ++
  [CREATE_TABLE ("catalog", "chunks")
     [nullable "id" TEXT; required "document_id" TEXT; required "tenant_id" TEXT;
      required_or "acl_group_ids" TEXT_ARRAY "'{}'"; required "content" TEXT;
      required "embedding" (VECTOR 1024); nullable_or "content_tsv" TSVECTOR "to_tsvector('simple', content)";
      nullable "section_path" TEXT; nullable "source_uri" TEXT; nullable "lang" TEXT;
      required "content_hash" TEXT; nullable "deleted_at" TIMESTAMPTZ;
      required_or "created_at" TIMESTAMPTZ "now()"]
     [PRIMARY_KEY ["id"]; REFERENCES "document_id" ("catalog", "documents") "id"];
   CREATE_INDEX ("catalog", "chunks") (MkIndex "hnsw" ["embedding vector_cosine_ops"] false None);
   CREATE_INDEX ("catalog", "chunks") (MkIndex "gin" ["content_tsv"] false None);
   CREATE_INDEX ("catalog", "chunks") (MkIndex "btree" ["tenant_id"] false None);
   CREATE_INDEX ("catalog", "chunks") (MkIndex "gin" ["acl_group_ids"] false None)] ++
  _enable_tenant_rls_0005 ("catalog", "chunks") ++
  [CREATE_TABLE ("catalog", "ingestion_runs")
     [nullable "id" TEXT; required "source" TEXT; required "tenant_id" TEXT; required "status" TEXT;
      nullable_or "docs_seen" INT "0"; nullable_or "docs_upserted" INT "0"; nullable_or "docs_deleted" INT "0";
      nullable_or "errors" INT "0"; required_or "started_at" TIMESTAMPTZ "now()";
      nullable "finished_at" TIMESTAMPTZ]
     [PRIMARY_KEY ["id"]]] ++
  _enable_tenant_rls_0005 ("catalog", "ingestion_runs").

(* @ migrations/versions/0005_catalog.py:112-116 downgrade *)
Definition downgrade_0005 : list Ddl :=
  [DROP_TABLE_IF_EXISTS ("catalog", "ingestion_runs");
   DROP_TABLE_IF_EXISTS ("catalog", "chunks");
   DROP_TABLE_IF_EXISTS ("catalog", "documents");
   DROP_EXTENSION_IF_EXISTS "vector"].

(* @ migrations/versions/0006_eval.py:25-103 upgrade *)
Definition upgrade_0006 : list Ddl :=
  [CREATE_TABLE ("eval", "datasets")
     [nullable "id" TEXT; required "name" TEXT; required "agent_id" TEXT; nullable "description" TEXT;
      required_or "created_at" TIMESTAMPTZ "now()"]
     [PRIMARY_KEY ["id"]; UNIQUE ["name"]];
   CREATE_TABLE ("eval", "items")
     [nullable "id" TEXT; required "dataset_id" TEXT; required "question" TEXT; nullable "ground_truth" TEXT;
      nullable "contexts" JSONB; required "actor_user_id" TEXT; required "actor_role" TEXT;
      required_or "actor_acl_group_ids" TEXT_ARRAY "'{}'";
      required_or "expected_required_tools" TEXT_ARRAY "'{}'"; required_or "forbidden_tools" TEXT_ARRAY "'{}'";
      required_or "allowed_mutations" TEXT_ARRAY "'{}'"; required_or "should_refuse" BOOLEAN "false";
      required_or "forbidden_output_terms" TEXT_ARRAY "'{}'"; required_or "allowed_pii" TEXT_ARRAY "'{}'";
      required_or "expects_citation" BOOLEAN "true"; required_or "tags" TEXT_ARRAY "'{}'";
      nullable "difficulty" TEXT; nullable "source_trace" TEXT; required_or "created_at" TIMESTAMPTZ "now()"]
     [PRIMARY_KEY ["id"]; REFERENCES "dataset_id" ("eval", "datasets") "id"];
   CREATE_INDEX ("eval", "items") (MkIndex "btree" ["dataset_id"; "tags"] false None);
   CREATE_TABLE ("eval", "runs")
     [nullable "id" TEXT; required "dataset_id" TEXT; required "agent_id" TEXT; required "agent_version" TEXT;
      required "prompt_version" TEXT; required "model_alias" TEXT; required "git_sha" TEXT;
      required "dataset_version" TEXT; required "scores" JSONB; required "passed" BOOLEAN;
      required_or "is_baseline" BOOLEAN "false"; required_or "created_at" TIMESTAMPTZ "now()"]
     [PRIMARY_KEY ["id"]; REFERENCES "dataset_id" ("eval", "datasets") "id"];
   CREATE_INDEX ("eval", "runs") (MkIndex "btree" ["dataset_id"; "agent_id"] true (Some "is_baseline"));
   CREATE_TABLE ("eval", "baseline_changes")
     [nullable "id" TEXT; required "dataset_id" TEXT; required "agent_id" TEXT; nullable "from_run_id" TEXT;
      required "to_run_id" TEXT; required "reason" TEXT; required "changed_by" TEXT;
      required_or "auto" BOOLEAN "false"; required_or "created_at" TIMESTAMPTZ "now()"]
     [PRIMARY_KEY ["id"]; REFERENCES "dataset_id" ("eval", "datasets") "id";
      REFERENCES "from_run_id" ("eval", "runs") "id"; REFERENCES "to_run_id" ("eval", "runs") "id"]].

(* @ migrations/versions/0006_eval.py:106-110 downgrade *)
Definition downgrade_0006 : list Ddl :=
  [DROP_TABLE_IF_EXISTS ("eval", "baseline_changes");
   DROP_TABLE_IF_EXISTS ("eval", "runs");
   DROP_TABLE_IF_EXISTS ("eval", "items");
   DROP_TABLE_IF_EXISTS ("eval", "datasets")].

(* @ migrations/versions/0007_authz.py:20-63 upgrade *)
Definition upgrade_0007 : list Ddl :=
  [CREATE_TABLE ("authz", "tool_overrides")
     [nullable "tool_name" TEXT; required_or "disabled" BOOLEAN "false"; nullable "reason" TEXT;
      required "changed_by" TEXT; required_or "changed_at" TIMESTAMPTZ "now()"]
     [PRIMARY_KEY ["tool_name"]];
   CREATE_TABLE ("audit", "authz_decisions")
     [nullable "id" TEXT; required "run_id" TEXT; required "trace_id" TEXT; required "tenant_id" TEXT;
      required "actor_user_id" TEXT; required "actor_roles" TEXT_ARRAY; required "agent_id" TEXT;
      required "audience" TEXT; required "tool_name" TEXT; required "decision" TEXT;
      nullable "deny_reason" TEXT; nullable "missing_permissions" TEXT_ARRAY; nullable "data_scope" TEXT;
      nullable "scope_satisfied" BOOLEAN; required_or "created_at" TIMESTAMPTZ "now()"]
     [PRIMARY_KEY ["id"]; CHECK_IN "audience" ["internal"; "external"]; CHECK_IN "decision" ["allow"; "deny"]];
   CREATE_INDEX ("audit", "authz_decisions") (MkIndex "btree" ["tenant_id"; "created_at DESC"] false None);
   CREATE_INDEX ("audit", "authz_decisions") (MkIndex "btree" ["actor_user_id"; "decision"; "created_at DESC"] false None);
   ENABLE_RLS ("audit", "authz_decisions");
   FORCE_RLS ("audit", "authz_decisions");
   CREATE_POLICY "tenant_isolation" ("audit", "authz_decisions") (EqCurrentSetting "tenant_id" "app.tenant_id")].

(* @ migrations/versions/0007_authz.py:66-68 downgrade *)
Definition downgrade_0007 : list Ddl :=
  [DROP_TABLE_IF_EXISTS ("audit", "authz_decisions");
   DROP_TABLE_IF_EXISTS ("authz", "tool_overrides")].

(* @ migrations/versions/0008_app_role.py:37-37 SCHEMAS *)
Definition SCHEMAS_0008 : list string := ["conversation"; "audit"; "catalog"; "jobs"; "eval"; "authz"].

(** SQLAlchemy's [text()], through which [op.execute] passes a statement, on a
    single-quoted literal within it: what is sent in the literal's place, a
    backslash before a colon having been read as an escape; [None] when something
    in it reads as a bind parameter [:name], for which the statement then lacks a
    value. Nothing but a colon is special. *)
Class SqlText := text_literal : string → option string.

Class SqlTextLaws `{SqlText} : Prop :=
  text_plain s : str_contains ":" s = false → text_literal s = Some s.

Section Rev0008.
  Context `{SqlText}.
  Variable current_user : string.

(** The grants of one schema: the tables it has, and the ones the same user
    creates later. *)
(* @ migrations/versions/0008_app_role.py:71-88 upgrade: the grants *)
Definition grants_0008 : list Ddl :=
  GRANT_CONNECT "agent_app" ::
  concat ((fun schema =>
    [GRANT_ON_SCHEMA [USAGE] schema "agent_app";
     GRANT_ON_ALL_TABLES DML schema "agent_app";
     DEFAULT_GRANT current_user schema DML "agent_app"]) <$> SCHEMAS_0008).

(* @ migrations/versions/0008_app_role.py:40-88 upgrade *)
Definition upgrade_0008 (APP_DB_PASSWORD : option string) : py Database unit :=
  match APP_DB_PASSWORD with
  | None | Some "" => raise (OtherException "RuntimeError" "APP_DB_PASSWORD must be set to run this migration")
  | Some password =>
      let escaped_password := str_replace password "'" "''" in
      match text_literal escaped_password with
      | None => raise (OtherException "StatementError" "A value is required for bind parameter")
      | Some literal =>
          exec current_user (CREATE_ROLE_IF_NOT_EXISTS "agent_app" literal) ;!
          for_each grants_0008 (exec current_user)
      end
  end.

(* @ migrations/versions/0008_app_role.py:91-108 downgrade *)
Definition downgrade_0008 : list Ddl :=
  concat ((fun schema =>
    [DEFAULT_REVOKE current_user schema DML "agent_app";
     REVOKE_ALL_ON_ALL_TABLES schema "agent_app";
     REVOKE_ON_SCHEMA [USAGE] schema "agent_app"]) <$> SCHEMAS_0008) ++
  [REVOKE_CONNECT "agent_app"; DROP_ROLE_IF_EXISTS "agent_app"].
End Rev0008.

(* @ migrations/versions/0009_public_schema_grant.py:33-34 upgrade *)
Definition upgrade_0009 : list Ddl := [GRANT_ON_SCHEMA [CREATE; USAGE] "public" "agent_app"].

(* @ migrations/versions/0009_public_schema_grant.py:37-38 downgrade *)
Definition downgrade_0009 : list Ddl := [REVOKE_ON_SCHEMA [CREATE; USAGE] "public" "agent_app"].

(* @ migrations/versions/0010_ingestion_errors.py:23-29 _enable_tenant_rls *)
Definition _enable_tenant_rls_0010 (table : TableName) : list Ddl :=
  [ENABLE_RLS table; FORCE_RLS table;
   CREATE_POLICY "tenant_isolation" table (EqCurrentSetting "tenant_id" "app.tenant_id")].

(* @ migrations/versions/0010_ingestion_errors.py:32-46 upgrade *)
Definition upgrade_0010 : list Ddl :=
  [CREATE_TABLE ("catalog", "ingestion_errors")
     [nullable "id" TEXT; required "ingestion_run_id" TEXT; required "tenant_id" TEXT;
      required "source_uri" TEXT; required "error_message" TEXT; required_or "created_at" TIMESTAMPTZ "now()"]
     [PRIMARY_KEY ["id"]; REFERENCES "ingestion_run_id" ("catalog", "ingestion_runs") "id"];
   CREATE_INDEX ("catalog", "ingestion_errors") (MkIndex "btree" ["ingestion_run_id"] false None)] ++
  _enable_tenant_rls_0010 ("catalog", "ingestion_errors").

(* @ migrations/versions/0010_ingestion_errors.py:49-50 downgrade *)
Definition downgrade_0010 : list Ddl :=
  [DROP_TABLE_IF_EXISTS ("catalog", "ingestion_errors")].

(* @ migrations/versions/0011_eval_judge_cache.py:24-38 upgrade *)
Definition upgrade_0011 : list Ddl :=
  [CREATE_TABLE ("eval", "judge_cache")
     [required "item_id" TEXT; required "response_hash" TEXT; required "judge_model_version" TEXT;
      required "metric" TEXT; required "score" DOUBLE_PRECISION; nullable "reason" TEXT;
      required_or "created_at" TIMESTAMPTZ "now()"]
     [PRIMARY_KEY ["item_id"; "response_hash"; "judge_model_version"; "metric"]]].

(* @ migrations/versions/0011_eval_judge_cache.py:41-42 downgrade *)
Definition downgrade_0011 : list Ddl :=
  [DROP_TABLE_IF_EXISTS ("eval", "judge_cache")].

(** ** The chain *)

(** A revision file. *)
Record Migration := MkMigration {
  mig_revision : string;
  mig_down_revision : option string;
  mig_upgrade : py Database unit;
  mig_downgrade : py Database unit
}.

(** The environment of the process: its variables, the directory of alembic.ini,
    what connecting with a URL raises ([None]: it reaches the database), and the
    role it connects as. *)
Record MigrationEnv := MkMigrationEnv {
  menv_current_user : string;
  menv_DATABASE_URL : option string;
  menv_APP_DB_PASSWORD : option string;
  menv_here : string;
  menv_connect : string → option exn
}.

Section Versions.
  Context `{SqlText}.
  Variable env : MigrationEnv.
  Abbreviation user := (menv_current_user env).

Definition statements (l : list Ddl) : py Database unit := for_each l (exec user).

Definition versions : list Migration :=
  [MkMigration "0001" None (statements upgrade_0001) (statements downgrade_0001);
   MkMigration "0002" (Some "0001") (statements upgrade_0002) (statements downgrade_0002);
   MkMigration "0003" (Some "0002") (statements upgrade_0003) (statements downgrade_0003);
   MkMigration "0004" (Some "0003") (statements upgrade_0004) (statements downgrade_0004);
   MkMigration "0005" (Some "0004") (statements upgrade_0005) (statements downgrade_0005);
   MkMigration "0006" (Some "0005") (statements upgrade_0006) (statements downgrade_0006);
   MkMigration "0007" (Some "0006") (statements upgrade_0007) (statements downgrade_0007);
   MkMigration "0008" (Some "0007") (upgrade_0008 user (menv_APP_DB_PASSWORD env))
     (statements (downgrade_0008 user));
   MkMigration "0009" (Some "0008") (statements upgrade_0009) (statements downgrade_0009);
   MkMigration "0010" (Some "0009") (statements upgrade_0010) (statements downgrade_0010);
   MkMigration "0011" (Some "0010") (statements upgrade_0011) (statements downgrade_0011)].
End Versions.

(** ** env.py *)

(** The database with Alembic's record of its revision. *)
Record Migrated := MkMigrated {
  mgd_db : Database;
  mgd_revision : option string
}.
#[export] Instance eta_Migrated : EtaRec Migrated := fun x => MkMigrated (mgd_db x) (mgd_revision x).

Definition in_database {A} : py Database A → py Migrated A := zoom mgd_db (fun d m => m <| mgd_db := d |>).

Inductive Command := UpgradeHead | DowngradeBase.

(** Alembic: the revision files a command runs, in order, from the recorded
    revision. *)
Class Alembic := { alembic_plan : Command → list Migration → option string → list Migration }.

(** One revision up or down, and the record that follows it. *)
Definition step_up (m : Migration) : py Migrated unit :=
  in_database (mig_upgrade m) ;! modify (fun s => s <| mgd_revision := Some (mig_revision m) |>).

Definition step_down (m : Migration) : py Migrated unit :=
  in_database (mig_downgrade m) ;! modify (fun s => s <| mgd_revision := mig_down_revision m |>).

(** *** configparser: the options of alembic.ini *)

(** The name in a reference [%(name)s] that starts the text, and what follows it. *)
Fixpoint reference_name (s : string) : option (string * string) :=
  match s with
  | String ")" (String "s" rest) => Some ("", rest)
  | "" | String ")" _ => None
  | String c s' => (fun p => (String c p.1, p.2)) <$> reference_name s'
  end.

Definition reference (s : string) : option (string * string) :=
  match s with
  | String "%" (String "(" s') =>
      match reference_name s' with Some ("", _) | None => None | Some p => Some p end
  | _ => None
  end.

(** The text without its references: each is cut out, from left to right. *)
Fixpoint drop_references (fuel : nat) (s : string) : string :=
  match fuel, s with
  | O, _ | _, "" => ""
  | S n, String c s' =>
      match reference s with Some (_, rest) => drop_references n rest | None => String c (drop_references n s') end
  end.

(** [BasicInterpolation.before_set]: beside [%%] and references, a value holds no
    percent sign. *)
Definition invalid_interpolation (value : string) : bool :=
  let unescaped := str_replace value "%%" "" in
  str_contains "%" (drop_references (String.length unescaped) unescaped).

(** [BasicInterpolation.before_get], to [levels] levels of references. *)
Fixpoint interpolate (levels : nat) (options : list (string * string)) (value : string) : exn + string :=
  match levels with
  | O => inl (OtherException "InterpolationDepthError" "Recursion limit exceeded in value substitution")
  | S levels' =>
      let go := fix go (fuel : nat) (rest : string) : exn + string :=
        match fuel, rest with
        | O, _ | _, "" => inr ""
        | S n, String "%" (String "%" rest') => sum_map id (String "%") (go n rest')
        | S n, String "%" _ =>
            match reference rest with
            | None => inl (OtherException "InterpolationSyntaxError" "'%' must be followed by '%' or '('")
            | Some (name, rest') =>
                match dict_get (str_lower name) options with
                | None => inl (OtherException "InterpolationMissingOptionError" "Bad value substitution")
                | Some v =>
                    match (if str_contains "%" v then interpolate levels' options v else inr v) with
                    | inl e => inl e
                    | inr text => sum_map id (String.append text) (go n rest')
                    end
                end
            end
        | S n, String c rest' => sum_map id (String c) (go n rest')
        end in
      go (String.length value) value
  end.

(** [configparser.MAX_INTERPOLATION_DEPTH]. *)
Definition MAX_INTERPOLATION_DEPTH : nat := 10.

Section Env.
  Context `{Alembic, SqlText}.

(** [config.set_main_option("sqlalchemy.url", value)]. *)
(* @ migrations/env.py:21-21 DATABASE_URL *)
Definition set_main_option (value : string) : option exn :=
  if invalid_interpolation value
  then Some (OtherException "ValueError" "invalid interpolation syntax")
  else None.

(** The section [[alembic]], with the default [here] and the option [env.py] set. *)
(* @ migrations/alembic.ini:1-5 *)
Definition alembic_section (here url : string) : list (string * string) :=
  [("here", here); ("script_location", "%(here)s"); ("prepend_sys_path", "."); ("path_separator", "os");
   ("version_path_separator", "os"); ("sqlalchemy.url", url)].

Definition run_migrations (command : Command) (files : list Migration) : py Migrated unit :=
  let! revision := gets mgd_revision in
  for_each (alembic_plan command files revision)
    (match command with UpgradeHead => step_up | DowngradeBase => step_down end).

(* @ migrations/env.py:44-53 run_migrations_online *)
Definition run_migrations_online (env : MigrationEnv) (url : string) (command : Command) (files : list Migration)
    : py Migrated unit :=
  match interpolate MAX_INTERPOLATION_DEPTH (alembic_section (menv_here env) url) url with
  | inl e => raise e
  | inr sqlalchemy_url =>
      match menv_connect env sqlalchemy_url with
      | Some e => raise e
      | None => atomically (run_migrations command files)
      end
  end.

(* @ migrations/env.py:14-21 DATABASE_URL *)
Definition alembic_main (env : MigrationEnv) (command : Command) : py Migrated unit :=
  match menv_DATABASE_URL env with
  | None | Some "" => raise (OtherException "RuntimeError" "DATABASE_URL is not set.")
  | Some database_url =>
      match set_main_option database_url with
      | Some e => raise e
      | None => run_migrations_online env database_url command (versions env)
      end
  end.
End Env.

(** Alembic's documentation: a chain of revisions is run upwards along its
    [down_revision] links, in whatever order the files are listed, and downwards
    the other way round. *)
Fixpoint linked (base : option string) (l : list Migration) : Prop :=
  match l with
  | [] => True
  | m :: l' => mig_down_revision m = base ∧ linked (Some (mig_revision m)) l'
  end.

Definition head_of (base : option string) (l : list Migration) : option string :=
  from_option (fun m => Some (mig_revision m)) base (last l).

Class AlembicLaws `{Alembic} : Prop := {
  plan_up files l : files ≡ₚ l → linked None l → NoDup (mig_revision <$> l) →
    alembic_plan UpgradeHead files None = l;
  plan_down files l : files ≡ₚ l → linked None l → NoDup (mig_revision <$> l) →
    alembic_plan DowngradeBase files (head_of None l) = reverse l
}.
