(* ===== verification/MigrationsProps.v ===== *)
(** The migrations: what [upgrade head] leaves, that [downgrade base] undoes it,
    and who may do what to which table afterwards. *)
From S2P Require Import Prelude PyStr Json Postgres Migrations.

#[local] Arguments str_in : simpl never.
#[local] Arguments SCHEMAS : simpl never.
#[local] Arguments pairs : simpl never.

(** ** Statement lists *)

Section Running.
  Variable user : string.
  Abbreviation runs l := (for_each l (exec user)).

Lemma for_each_app_inr {S A} (f : A → py S unit) l l' s s' r :
  for_each l f s = (s', inr tt) → for_each l' f s' = r → for_each (l ++ l') f s = r.
Proof.
  revert s. induction l as [|x l IH]; intros s; cbn; [by intros [= ->]|].
  unfold bind. destruct (f x s) as [s1 [e|[]]]; [done|]. apply IH.
Qed.

Lemma for_each_cons_inr {S A} (f : A → py S unit) x l s s' r :
  f x s = (s', inr tt) → for_each l f s' = r → for_each (x :: l) f s = r.
Proof. intros Hx Hl. cbn. unfold bind. by rewrite Hx. Qed.

Lemma for_each_snoc {S A} (f : A → py S unit) l x s s' r :
  for_each l f s = (s', inr tt) → f x s' = (r, inr tt) → for_each (l ++ [x]) f s = (r, inr tt).
Proof. intros Hl Hx. eapply for_each_app_inr; [done|]. by eapply for_each_cons_inr. Qed.

(** What undoes a list of statements undoes it after anything undone. *)
Lemma undo_app {A} (f : A → py Database unit) u1 u2 d1 d2 s s1 s2 :
  for_each u1 f s = (s1, inr tt) ∧ for_each d1 f s1 = (s, inr tt) →
  for_each u2 f s1 = (s2, inr tt) ∧ for_each d2 f s2 = (s1, inr tt) →
  for_each (u1 ++ u2) f s = (s2, inr tt) ∧ for_each (d2 ++ d1) f s2 = (s, inr tt).
Proof. intros [Hu1 Hd1] [Hu2 Hd2]. split; by eapply for_each_app_inr. Qed.

(** ** Table blocks

    A migration creates a table, its indexes, and, for a table of tenant data,
    its row-level security. *)
Record Block := MkBlock {
  blk_name : TableName;
  blk_columns : list Column;
  blk_constraints : list TableConstraint;
  blk_indexes : list Index;
  blk_tenant : bool
}.

Definition isolation : string * PolicyExpr := ("tenant_isolation", EqCurrentSetting "tenant_id" "app.tenant_id").

Definition block_statements (b : Block) : list Ddl :=
  CREATE_TABLE (blk_name b) (blk_columns b) (blk_constraints b) :: (CREATE_INDEX (blk_name b) <$> blk_indexes b) ++
  if blk_tenant b
  then [ENABLE_RLS (blk_name b); FORCE_RLS (blk_name b);
        CREATE_POLICY "tenant_isolation" (blk_name b) (EqCurrentSetting "tenant_id" "app.tenant_id")]
  else [].

(** The table a block leaves. *)
Definition built (b : Block) (acl : gset (string * Privilege)) : PgTable :=
  MkPgTable user (blk_columns b) (blk_constraints b) (blk_indexes b) (blk_tenant b) (blk_tenant b)
    (if blk_tenant b then [isolation] else []) acl.

Definition with_tables (f : gmap TableName PgTable → gmap TableName PgTable) (s : Database) : Database :=
  s <| dbs_tables ::= f |>.

Lemma with_tables_id s : with_tables (fun m => m) s = s.
Proof. by destruct s. Qed.

Definition holding (k : TableName) (t : PgTable) (m : gmap TableName PgTable) (s : Database) : Database :=
  with_tables (fun _ => <[k := t]> m) s.

Lemma on_table_runs k (f : PgTable → PgTable) s t m :
  on_table k f (holding k t m s) = (holding k (f t) m s, inr tt).
Proof.
  unfold on_table, get_state, bind, has_table, holding, with_tables, modify. cbn.
  rewrite lookup_insert_eq. cbn. by rewrite alter_insert_eq.
Qed.

Lemma indexes_run k l s t m :
  for_each (CREATE_INDEX k <$> l) (exec user) (holding k t m s) =
  (holding k (t <| tab_indexes ::= fun l0 => l0 ++ l |>) m s, inr tt).
Proof.
  revert t. induction l as [|i l IH]; intros t; cbn [fmap list_fmap].
  - cbn. unfold ret. do 2 f_equal. destruct t; cbn. by rewrite app_nil_r.
  - eapply for_each_cons_inr; [cbn [exec]; by apply on_table_runs|].
    rewrite IH. do 2 f_equal. destruct t; cbn. by rewrite <- app_assoc.
Qed.

(** What a block needs: its schema, its extension, and that it is well formed. *)
Record block_ready (b : Block) (s : Database) : Prop := {
  br_schema : is_Some (dbs_schemas s !! (blk_name b).1);
  br_new : dbs_tables s !! blk_name b = None;
  br_columns : forallb (column_available s) (blk_columns b) = true;
  br_constraints : forallb (constraint_valid s (blk_columns b)) (blk_constraints b) = true;
  br_tenant : blk_tenant b = true → has_column (blk_columns b) "tenant_id" = true
}.

Definition add_block (b : Block) (s : Database) : Database :=
  with_tables <[blk_name b := built b (default_acl_for s user (blk_name b).1)]> s.

Lemma block_runs b s : block_ready b s → runs (block_statements b) s = (add_block b s, inr tt).
Proof.
  intros [Hschema Hnew Hcols Hcons Htenant]. unfold block_statements.
  set (acl := default_acl_for s user (blk_name b).1).
  eapply for_each_cons_inr.
  { cbn [exec]. unfold needs_schema, get_state, bind. rewrite bool_decide_eq_true_2 by done.
    unfold create_table, get_state, bind, has_table. rewrite Hnew. cbn [is_Some].
    rewrite bool_decide_eq_false_2 by (by intros [? ?]). rewrite Hcols, Hcons. cbn [negb]. unfold modify. reflexivity. }
  eapply for_each_app_inr.
  { apply (indexes_run (blk_name b) (blk_indexes b) s
      (MkPgTable user (blk_columns b) (blk_constraints b) [] false false [] acl) (dbs_tables s)). }
  unfold add_block, built. destruct (blk_tenant b); [|reflexivity].
  eapply for_each_cons_inr; [cbn [exec]; by apply on_table_runs|].
  eapply for_each_cons_inr; [cbn [exec]; by apply on_table_runs|].
  eapply for_each_cons_inr; [|reflexivity].
  cbn [exec]. unfold get_state, bind.
  match goal with |- context [dbs_tables (holding ?k ?t ?m s)] => change (dbs_tables (holding k t m s)) with (<[k := t]> m) end.
  rewrite lookup_insert_eq. cbn [existsb tab_policies upd]. cbn. rewrite (Htenant eq_refl). cbn. apply on_table_runs.
Qed.

(** Foreign keys point at tables that exist. *)
Definition closed (s : Database) : Prop :=
  ∀ k t target, dbs_tables s !! k = Some t → references target t = true → is_Some (dbs_tables s !! target).

Lemma references_spec k t :
  references k t = true ↔ ∃ col tc, REFERENCES col k tc ∈ tab_constraints t.
Proof.
  unfold references. rewrite existsb_exists. split.
  - intros (c & Hc%list_elem_of_In & H). destruct c; try done. apply bool_decide_eq_true in H as ->. eauto.
  - intros (col & tc & Hin). eexists. split; [by apply list_elem_of_In|]. by apply bool_decide_eq_true.
Qed.

Lemma constraint_targets s cols l k col tc :
  forallb (constraint_valid s cols) l = true → REFERENCES col k tc ∈ l → is_Some (dbs_tables s !! k).
Proof.
  rewrite forallb_forall. intros H Hin%list_elem_of_In. specialize (H _ Hin). cbn in H.
  destruct (dbs_tables s !! k); [done|]. by rewrite andb_false_r in H.
Qed.

Lemma add_block_closed b s : block_ready b s → closed s → closed (add_block b s).
Proof.
  intros [_ Hnew _ Hcons _] Hcl k t target. unfold add_block, with_tables. cbn.
  intros [[<- <-]|[Hk Ht]]%lookup_insert_Some Href.
  - apply references_spec in Href as (col & tc & Hin). cbn in Hin.
    destruct (constraint_targets _ _ _ _ _ _ Hcons Hin) as [t' Ht'].
    destruct (decide (blk_name b = target)) as [->|Hne]; [rewrite lookup_insert_eq; eauto|].
    rewrite lookup_insert_ne by done. eauto.
  - destruct (Hcl _ _ _ Ht Href) as [t' Ht'].
    rewrite lookup_insert_ne by congruence. eauto.
Qed.

(** A new table is referenced by no other. *)
Lemma drop_block b s :
  block_ready b s → closed s → exec user (DROP_TABLE_IF_EXISTS (blk_name b)) (add_block b s) = (s, inr tt).
Proof.
  intros Hb Hcl. pose proof (br_new _ _ Hb) as Hnew. cbn [exec]. unfold get_state, bind.
  assert (referenced (add_block b s) (blk_name b) = false) as ->.
  { apply not_true_iff_false. unfold referenced. rewrite existsb_exists.
    intros ([k t] & Hin%list_elem_of_In%elem_of_map_to_list & Hr). cbn in Hr.
    apply andb_true_iff in Hr as [Hk Hr]. apply negb_true_iff, bool_decide_eq_false in Hk.
    unfold add_block, with_tables in Hin. cbn in Hin. rewrite lookup_insert_ne in Hin by done.
    destruct (Hcl _ _ _ Hin Hr) as [? Ht]. congruence. }
  rewrite andb_false_r. unfold modify, add_block, with_tables. cbn.
  destruct s; cbn in *. by rewrite delete_insert_id.
Qed.

Definition add_blocks (bs : list Block) (s : Database) : Database := foldl (fun s b => add_block b s) s bs.

Fixpoint blocks_ready (bs : list Block) (s : Database) : Prop :=
  match bs with
  | [] => True
  | b :: bs' => block_ready b s ∧ blocks_ready bs' (add_block b s)
  end.

Lemma blocks_undone bs s :
  blocks_ready bs s → closed s →
  (runs (concat (block_statements <$> bs)) s = (add_blocks bs s, inr tt) ∧
   runs (DROP_TABLE_IF_EXISTS ∘ blk_name <$> reverse bs) (add_blocks bs s) = (s, inr tt)) ∧
  closed (add_blocks bs s).
Proof.
  revert s. induction bs as [|b bs IH]; intros s; cbn [blocks_ready]; [intros _ Hcl; by repeat split|].
  intros [Hb Hbs] Hcl. destruct (IH _ Hbs (add_block_closed _ _ Hb Hcl)) as [IHu Hcl'].
  split; [|done]. cbn [fmap list_fmap concat]. rewrite reverse_cons, fmap_app.
  apply (undo_app _ _ _ [DROP_TABLE_IF_EXISTS (blk_name b)] _ s (add_block b s)); [|done].
  split; [by apply block_runs|]. eapply for_each_cons_inr; [by apply drop_block|done].
Qed.

(** The blocks of a migration's statements. *)
Fixpoint blocks_of (l : list Ddl) : list Block :=
  match l with
  | [] => []
  | CREATE_TABLE k columns constraints :: l' =>
      let here := fix here l0 b := match l0 with
        | CREATE_INDEX _ i :: l1 =>
            here l1 (MkBlock (blk_name b) (blk_columns b) (blk_constraints b) (blk_indexes b ++ [i]) (blk_tenant b))
        | ENABLE_RLS _ :: _ => MkBlock (blk_name b) (blk_columns b) (blk_constraints b) (blk_indexes b) true
        | _ => b
        end in
      here l' (MkBlock k columns constraints [] false) :: blocks_of l'
  | _ :: l' => blocks_of l'
  end.

(** ** Where the migrations stand

    Everything outside the six schemas is as it was in [d]; within them are the
    blocks' tables, each with the privileges [acl]. *)
Variable d : Database.

Definition find_block (bs : list Block) (k : TableName) : option Block :=
  List.find (fun b => bool_decide (blk_name b = k)) bs.

Definition created (schemas : list string) (m : gmap string string) : gmap string string :=
  foldl (fun m x => <[x := user]> m) m schemas.

Record stage (vector : bool) (bs : list Block) (acl : gset (string * Privilege)) (s : Database) : Prop := {
  stg_tables k : dbs_tables s !! k =
    if str_in k.1 SCHEMAS then (fun b => built b acl) <$> find_block bs k else dbs_tables d !! k;
  stg_schemas : dbs_schemas s = created SCHEMAS (dbs_schemas d);
  stg_default x : x ∈ SCHEMAS → default_acl_for s user x = acl;
  stg_vector : vector = true → "vector" ∈ dbs_extensions s;
  stg_closed : closed s
}.

Definition column_fits (vector : bool) (c : Column) : bool :=
  match type_extension (col_type c) with Some e => vector && String.eqb e "vector" | None => true end.

Definition constraint_fits (bs : list Block) (columns : list Column) (c : TableConstraint) : bool :=
  match c with
  | REFERENCES col target tc =>
      has_column columns col && str_in target.1 SCHEMAS &&
      match find_block bs target with Some b => declares_key (built b ∅) [tc] | None => false end
  | PRIMARY_KEY l | UNIQUE l => forallb (has_column columns) l
  | CHECK_IN col _ => has_column columns col
  end.

Definition block_fits (vector : bool) (bs : list Block) (b : Block) : bool :=
  str_in (blk_name b).1 SCHEMAS && bool_decide (find_block bs (blk_name b) = None)
  && forallb (column_fits vector) (blk_columns b) && forallb (constraint_fits bs (blk_columns b)) (blk_constraints b)
  && (negb (blk_tenant b) || has_column (blk_columns b) "tenant_id").

Fixpoint blocks_fit (vector : bool) (bs bs' : list Block) : bool :=
  match bs' with
  | [] => true
  | b :: bs'' => block_fits vector bs b && blocks_fit vector (bs ++ [b]) bs''
  end.

Lemma created_out x l m : x ∉ l → created l m !! x = m !! x.
Proof.
  unfold created. revert m. induction l as [|y l IH]; intros m; [done|]. cbn.
  intros [Hxy Hl]%not_elem_of_cons. rewrite (IH _ Hl). by rewrite lookup_insert_ne.
Qed.

Lemma created_in x l m : x ∈ l → created l m !! x = Some user.
Proof.
  revert m. induction l as [|y l IH]; intros m; [by intros ?%elem_of_nil|].
  intros Hx. change (created (y :: l) m) with (created l (<[y := user]> m)).
  destruct (decide (x ∈ l)) as [Hl|Hl]; [by apply IH|]. apply elem_of_cons in Hx as [->|]; [|done].
  by rewrite created_out, lookup_insert_eq.
Qed.

Lemma fits_ready vector bs acl s b : stage vector bs acl s → block_fits vector bs b = true → block_ready b s.
Proof.
  intros [Htab Hsch _ Hvec _] Hfit. unfold block_fits in Hfit.
  repeat (apply andb_true_iff in Hfit as [Hfit ?]). rename Hfit into Hin.
  apply str_in_spec in Hin as Hin'. split.
  - rewrite Hsch, created_in by done. eauto.
  - rewrite Htab, Hin. match goal with H : bool_decide (find_block _ _ = None) = true |- _ =>
      apply bool_decide_eq_true in H; by rewrite H end.
  - match goal with H : forallb (column_fits _) _ = true |- _ => rename H into Hcols end.
    apply forallb_forall. intros c Hc. rewrite forallb_forall in Hcols. specialize (Hcols c Hc).
    unfold column_fits, column_available in *. destruct (type_extension _); [|done].
    apply andb_true_iff in Hcols as [Hv ->%String.eqb_eq]. apply bool_decide_eq_true. by apply Hvec.
  - match goal with H : forallb (constraint_fits _ _) _ = true |- _ => rename H into Hcons end.
    apply forallb_forall. intros c Hc. rewrite forallb_forall in Hcons. specialize (Hcons c Hc).
    destruct c as [| | |col target tc]; try done. cbn [constraint_fits constraint_valid] in Hcons |- *.
    apply andb_true_iff in Hcons as [[? Ht]%andb_true_iff Hb]. apply andb_true_iff. split; [done|].
    rewrite Htab, Ht. destruct (find_block bs target); done.
  - intros Ht. match goal with H : negb _ || _ = true |- _ => by rewrite Ht in H end.
Qed.

Lemma find_block_app bs b k :
  find_block bs (blk_name b) = None →
  find_block (bs ++ [b]) k = if bool_decide (blk_name b = k) then Some b else find_block bs k.
Proof.
  unfold find_block. intros Hnone. induction bs as [|b' bs IH]; cbn; [done|]. cbn in Hnone.
  destruct (bool_decide (blk_name b' = blk_name b)) eqn:Hb; [done|]. apply bool_decide_eq_false in Hb.
  rewrite IH by done. repeat case_bool_decide; congruence.
Qed.

Lemma stage_add vector bs acl s b :
  stage vector bs acl s → block_fits vector bs b = true → stage vector (bs ++ [b]) acl (add_block b s).
Proof.
  intros Hs Hfit. pose proof (fits_ready _ _ _ _ _ Hs Hfit) as Hready. destruct Hs as [Htab Hsch Hdef Hvec Hcl].
  unfold block_fits in Hfit. rewrite !andb_true_iff in Hfit. destruct Hfit as [[[[Hin Hnew] _] _] _].
  apply bool_decide_eq_true in Hnew. split; try done.
  - intros k. unfold add_block, with_tables. cbn. rewrite find_block_app by done. case_bool_decide as Hk.
    + subst k. rewrite lookup_insert_eq, Hin. cbn. rewrite Hdef by by apply str_in_spec. done.
    + by rewrite lookup_insert_ne.
  - by apply add_block_closed.
Qed.

Lemma stage_blocks vector bs acl s bs' :
  stage vector bs acl s → blocks_fit vector bs bs' = true →
  blocks_ready bs' s ∧ stage vector (bs ++ bs') acl (add_blocks bs' s).
Proof.
  revert bs s. induction bs' as [|b bs' IH]; intros bs s Hs; cbn; [by rewrite app_nil_r|].
  intros [Hb Hbs]%andb_true_iff. destruct (IH _ _ (stage_add _ _ _ _ _ Hs Hb) Hbs) as [Hr Hs'].
  rewrite <- app_assoc in Hs'. split; [|done]. split; [by eapply fits_ready|done].
Qed.

(** A migration that is its blocks, undone by dropping them. *)
Lemma tables_migration vector bs acl s up down :
  stage vector bs acl s → concat (block_statements <$> blocks_of up) = up →
  DROP_TABLE_IF_EXISTS ∘ blk_name <$> reverse (blocks_of up) = down → blocks_fit vector bs (blocks_of up) = true →
  ∃ s', runs up s = (s', inr tt) ∧ runs down s' = (s, inr tt) ∧ stage vector (bs ++ blocks_of up) acl s' ∧
    s' = with_tables (fun _ => dbs_tables s') s.
Proof.
  intros Hs Hup Hdown Hfit. destruct (stage_blocks _ _ _ _ _ Hs Hfit) as [Hr Hs'].
  destruct (blocks_undone _ _ Hr (stg_closed _ _ _ _ Hs)) as [[Hu Hd] _].
  rewrite Hup in Hu. rewrite Hdown in Hd. eexists. split_and!; [done|done|done|].
  clear. generalize (blocks_of up). intros l. induction l as [|b l IH] using rev_ind; [by destruct s|].
  unfold add_blocks. rewrite foldl_app. cbn. change (foldl _ s l) with (add_blocks l s).
  rewrite IH. unfold add_block, with_tables. done.
Qed.
End Running.

(** ** The application role *)

Lemma read_escaped p : read_literal (str_replace p "'" "''") = Some p.
Proof.
  unfold str_replace. rewrite decide_False by done.
  induction p as [|c p IH]; [done|]. destruct (decide (c = "'"%char)) as [->|Hc].
  - change (replace_go "'" "''" 0 (String "'" p)) with (String "'" (String "'" (replace_go "'" "''" 0 p))).
    cbn [read_literal]. by rewrite IH.
  - assert (replace_go "'" "''" 0 (String c p) = String c (replace_go "'" "''" 0 p)) as ->.
    { cbn. destruct c as [[] [] [] [] [] [] [] []]; done. }
    cbn [read_literal]. rewrite IH. destruct c as [[] [] [] [] [] [] [] []]; done.
Qed.

Definition mentions_role (role : string) (d : Database) : Prop :=
  (∃ x o, dbs_schemas d !! x = Some o ∧ o = role) ∨
  (∃ x, x ∈ dbs_schema_acl d ∧ x.1.2 = role) ∨
  (∃ k t, dbs_tables d !! k = Some t ∧ (tab_owner t = role ∨ ∃ p, (role, p) ∈ tab_acl t)) ∨
  role ∈ dbs_connect d ∨
  (∃ x, x ∈ dbs_default_acl d ∧ (x.1.1 = role ∨ x.2.1 = role)).

Lemma role_in_use_spec d role : role_in_use d role = true ↔ mentions_role role d.
Proof.
  unfold role_in_use, mentions_role. rewrite !orb_true_iff, !existsb_exists, bool_decide_eq_true.
  repeat setoid_rewrite <- list_elem_of_In. repeat setoid_rewrite elem_of_elements.
  setoid_rewrite String.eqb_eq. setoid_rewrite orb_true_iff. setoid_rewrite String.eqb_eq.
  setoid_rewrite existsb_exists. repeat setoid_rewrite <- list_elem_of_In. repeat setoid_rewrite elem_of_elements.
  setoid_rewrite String.eqb_eq. split.
  - intros [[[[([x o] & Hx%elem_of_map_to_list & Ho)|H]|([k t] & Hk%elem_of_map_to_list & Ht)]|H]|H];
      [left; eauto|right; left; eauto| |do 3 right; by left|by do 4 right].
    right; right; left. exists k, t. split; [done|]. destruct Ht as [Ht|([r p] & Hp & Hr)]; [by left|].
    right. cbn in Hr. subst. eauto.
  - intros [(x & o & Hx & Ho)|[H|[(k & t & Hk & Ht)|[H|H]]]]; [|by left; left; left; right| |by left; right|by right].
    + do 4 left. exists (x, o). by rewrite elem_of_map_to_list.
    + left; left; right. exists (k, t). rewrite elem_of_map_to_list. split; [done|]. cbn.
      destruct Ht as [Ht|[p Hp]]; [by left|]. right. by exists (role, p).
Qed.

Section Role.
  Variable user : string.
  Abbreviation runs l := (for_each l (exec user)).
  Abbreviation APP := "agent_app".

Definition usable (ss : list string) (s : Database) : Prop :=
  is_Some (dbs_roles s !! APP) ∧ ∀ x, x ∈ ss → is_Some (dbs_schemas s !! x).

(** What the grants of 0008 on the schemas [ss] change, and their revocation. *)
Record granted (ss : list string) (s s' : Database) : Prop := {
  grt_schemas : dbs_schemas s' = dbs_schemas s;
  grt_extensions : dbs_extensions s' = dbs_extensions s;
  grt_roles : dbs_roles s' = dbs_roles s;
  grt_connect : dbs_connect s' = dbs_connect s;
  grt_acl y : y ∈ dbs_schema_acl s' ↔ y ∈ dbs_schema_acl s ∨ (y.1.2 = APP ∧ y.2 = USAGE ∧ y.1.1 ∈ ss);
  grt_default y : y ∈ dbs_default_acl s' ↔
    y ∈ dbs_default_acl s ∨ (y.1.1 = user ∧ y.2.1 = APP ∧ y.2.2 ∈ DML ∧ y.1.2 ∈ ss);
  grt_tables k : dbs_tables s' !! k =
    (fun t => if str_in k.1 ss then t <| tab_acl ::= fun a => pairs APP DML ∪ a |> else t) <$> dbs_tables s !! k
}.

Record revoked (ss : list string) (s s' : Database) : Prop := {
  rvk_schemas : dbs_schemas s' = dbs_schemas s;
  rvk_extensions : dbs_extensions s' = dbs_extensions s;
  rvk_roles : dbs_roles s' = dbs_roles s;
  rvk_connect : dbs_connect s' = dbs_connect s;
  rvk_acl y : y ∈ dbs_schema_acl s' ↔ y ∈ dbs_schema_acl s ∧ ¬ (y.1.2 = APP ∧ y.2 = USAGE ∧ y.1.1 ∈ ss);
  rvk_default y : y ∈ dbs_default_acl s' ↔
    y ∈ dbs_default_acl s ∧ ¬ (y.1.1 = user ∧ y.2.1 = APP ∧ y.2.2 ∈ DML ∧ y.1.2 ∈ ss);
  rvk_tables k : dbs_tables s' !! k =
    (fun t => if str_in k.1 ss then t <| tab_acl ::= filter (fun x => x.1 ≠ APP) |> else t) <$> dbs_tables s !! k
}.

Definition grant_one (x : string) : list Ddl :=
  [GRANT_ON_SCHEMA [USAGE] x APP; GRANT_ON_ALL_TABLES DML x APP; DEFAULT_GRANT user x DML APP].

Definition revoke_one (x : string) : list Ddl :=
  [DEFAULT_REVOKE user x DML APP; REVOKE_ALL_ON_ALL_TABLES x APP; REVOKE_ON_SCHEMA [USAGE] x APP].

Lemma needs_ok x m s : usable [x] s → needs_schema x (needs_role APP m) s = m s.
Proof.
  intros [Hr Hs]. unfold needs_schema, needs_role, get_state, bind.
  rewrite bool_decide_eq_true_2 by (apply Hs; by left). by rewrite bool_decide_eq_true_2.
Qed.

Lemma elem_of_default_entries y x :
  y ∈ default_entries user x APP DML ↔ y.1.1 = user ∧ y.2.1 = APP ∧ y.2.2 ∈ DML ∧ y.1.2 = x.
Proof.
  unfold default_entries. rewrite elem_of_list_to_set, list_elem_of_fmap. setoid_rewrite list_elem_of_fmap.
  split.
  - by intros (z & -> & p & -> & Hp).
  - destruct y as [[o x'] [r p]]. cbn. intros (-> & -> & H & ->). eexists. split; [done|]. by eexists.
Qed.

Lemma elem_of_schema_entries y x : y ∈ schema_entries x APP [USAGE] ↔ y.1.2 = APP ∧ y.2 = USAGE ∧ y.1.1 = x.
Proof.
  unfold schema_entries. destruct y as [[x' r] p]. cbn. rewrite union_empty_r_L, elem_of_singleton. naive_solver.
Qed.

Lemma in_schema_lookup x f s k :
  dbs_tables (in_schema x f s) !! k = (fun t => if String.eqb k.1 x then f t else t) <$> dbs_tables s !! k.
Proof. unfold in_schema. cbn. rewrite map_lookup_imap. by destruct (dbs_tables s !! k). Qed.

Lemma str_in_singleton x y : str_in x [y] = String.eqb x y.
Proof. unfold str_in. cbn. apply orb_false_r. Qed.

Lemma grant_one_runs x s : usable [x] s → ∃ s', runs (grant_one x) s = (s', inr tt) ∧ granted [x] s s'.
Proof.
  intros Hu. eexists. split.
  - eapply for_each_cons_inr; [cbn [exec]; by rewrite needs_ok|].
    eapply for_each_cons_inr; [cbn [exec]; by rewrite needs_ok|].
    eapply for_each_cons_inr; [cbn [exec]; by rewrite needs_ok|]. reflexivity.
  - split; try done.
    + intros y. cbn -[schema_entries default_entries]. rewrite elem_of_union, elem_of_schema_entries, list_elem_of_singleton. naive_solver.
    + intros y. cbn -[schema_entries default_entries]. rewrite elem_of_union, elem_of_default_entries, list_elem_of_singleton. naive_solver.
    + intros k. rewrite str_in_singleton. cbn. rewrite map_lookup_imap. by destruct (dbs_tables s !! k).
Qed.

Lemma revoke_one_runs x s : usable [x] s → ∃ s', runs (revoke_one x) s = (s', inr tt) ∧ revoked [x] s s'.
Proof.
  intros Hu. eexists. split.
  - eapply for_each_cons_inr; [cbn [exec]; by rewrite needs_ok|].
    eapply for_each_cons_inr; [cbn [exec]; by rewrite needs_ok|].
    eapply for_each_cons_inr; [cbn [exec]; by rewrite needs_ok|]. reflexivity.
  - split; try done.
    + intros y. cbn -[schema_entries default_entries]. rewrite elem_of_difference, elem_of_schema_entries, list_elem_of_singleton. naive_solver.
    + intros y. cbn -[schema_entries default_entries]. rewrite elem_of_difference, elem_of_default_entries, list_elem_of_singleton. naive_solver.
    + intros k. rewrite str_in_singleton. cbn. rewrite map_lookup_imap. by destruct (dbs_tables s !! k).
Qed.

Lemma str_in_cons x y l : str_in x (y :: l) = String.eqb x y || str_in x l.
Proof. reflexivity. Qed.

Lemma grants_run ss s : usable ss s → ∃ s', runs (concat (grant_one <$> ss)) s = (s', inr tt) ∧ granted ss s s'.
Proof.
  revert s. induction ss as [|x ss IH]; intros s [Hr Hs].
  - exists s. split; [done|]. split; try done; [set_solver..|]. intros k. by destruct (dbs_tables s !! k).
  - destruct (grant_one_runs x s) as (s1 & Hrun & H1).
    { split; [done|]. intros ? ->%list_elem_of_singleton. apply Hs. by left. }
    destruct (IH s1) as (s2 & Hrun2 & H2).
    { split; [by rewrite (grt_roles _ _ _ H1)|]. intros y Hy. rewrite (grt_schemas _ _ _ H1). apply Hs. by right. }
    exists s2. split; [by eapply for_each_app_inr|]. destruct H1 as [A1 B1 C1 D1 E1 F1 G1], H2 as [A2 B2 C2 D2 E2 F2 G2].
    split; try congruence.
    + intros y. rewrite E2, E1, list_elem_of_singleton, elem_of_cons. naive_solver.
    + intros y. rewrite F2, F1, list_elem_of_singleton, elem_of_cons. naive_solver.
    + intros k. rewrite G2, G1, str_in_singleton, str_in_cons. destruct (dbs_tables s !! k) as [t|]; [|done]. cbn.
      f_equal. destruct (String.eqb k.1 x), (str_in k.1 ss); cbn; try done.
      destruct t. cbn. f_equal. apply leibniz_equiv. set_solver.
Qed.

Lemma revokes_run ss s : usable ss s → ∃ s', runs (concat (revoke_one <$> ss)) s = (s', inr tt) ∧ revoked ss s s'.
Proof.
  revert s. induction ss as [|x ss IH]; intros s [Hr Hs].
  - exists s. split; [done|]. split; try done; [set_solver..|]. intros k. by destruct (dbs_tables s !! k).
  - destruct (revoke_one_runs x s) as (s1 & Hrun & H1).
    { split; [done|]. intros ? ->%list_elem_of_singleton. apply Hs. by left. }
    destruct (IH s1) as (s2 & Hrun2 & H2).
    { split; [by rewrite (rvk_roles _ _ _ H1)|]. intros y Hy. rewrite (rvk_schemas _ _ _ H1). apply Hs. by right. }
    exists s2. split; [by eapply for_each_app_inr|]. destruct H1 as [A1 B1 C1 D1 E1 F1 G1], H2 as [A2 B2 C2 D2 E2 F2 G2].
    split; try congruence.
    + intros y. rewrite E2, E1, list_elem_of_singleton, elem_of_cons. naive_solver.
    + intros y. rewrite F2, F1, list_elem_of_singleton, elem_of_cons. naive_solver.
    + intros k. rewrite G2, G1, str_in_singleton, str_in_cons. destruct (dbs_tables s !! k) as [t|]; [|done]. cbn.
      f_equal. destruct (String.eqb k.1 x), (str_in k.1 ss); cbn; try done.
      destruct t. cbn. f_equal. apply leibniz_equiv. set_solver.
Qed.

Definition same_elements (s s' : Database) : Prop :=
  dbs_schemas s = dbs_schemas s' ∧ dbs_extensions s = dbs_extensions s' ∧ dbs_roles s = dbs_roles s' ∧
  dbs_connect s = dbs_connect s' ∧ dbs_schema_acl s ≡ dbs_schema_acl s' ∧ dbs_default_acl s ≡ dbs_default_acl s' ∧
  ∀ k, dbs_tables s !! k = dbs_tables s' !! k.

Lemma same_elements_eq s s' : same_elements s s' → s = s'.
Proof.
  destruct s, s'. intros (H1 & H2 & H3 & H4 & H5 & H6 & H7). cbn in *.
  apply leibniz_equiv in H5, H6. apply map_eq in H7. by subst.
Qed.

(** Revoking what was granted to a role nothing mentioned restores the database. *)
Lemma revoke_granted ss s s1 s2 :
  ¬ mentions_role APP (s <| dbs_connect := ∅ |>) → granted ss s s1 → revoked ss s1 s2 → s2 = s.
Proof.
  intros Hno [A1 B1 C1 D1 E1 F1 G1] [A2 B2 C2 D2 E2 F2 G2]. unfold mentions_role in Hno.
  apply same_elements_eq. split_and!; try congruence.
  - intros y. rewrite E2, E1. split; [naive_solver|]. intros Hy. split; [by left|]. intros (Hr & _). apply Hno. eauto.
  - intros y. rewrite F2, F1. split; [naive_solver|]. intros Hy. split; [by left|]. intros (_ & Hr & _).
    apply Hno. do 4 right. eauto.
  - intros k. rewrite G2, G1. destruct (dbs_tables s !! k) as [t|] eqn:Ht; [|done]. cbn. f_equal.
    destruct (str_in k.1 ss); [|done]. destruct t as [o c cs i r f p acl]. cbn. f_equal. apply leibniz_equiv.
    intros [r' p']. rewrite elem_of_filter, elem_of_union. cbn. split.
    + intros [Hne [Hp%elem_of_list_to_set|H]]; [|done]. apply list_elem_of_fmap in Hp as (q & Hq & _). congruence.
    + intros Hin. split; [|by right]. intros ->. apply Hno. right; right; left. do 2 eexists. split; [done|]. eauto.
Qed.
End Role.

(** ** The chain of revisions *)

(** A step and the one that takes it back. *)
Definition undone (up down : py Database unit) (s s' : Database) : Prop :=
  up s = (s', inr tt) ∧ down s' = (s, inr tt).

Fixpoint climbs (l : list Migration) (s s' : Database) : Prop :=
  match l with
  | [] => s = s'
  | m :: l' => ∃ s1, undone (mig_upgrade m) (mig_downgrade m) s s1 ∧ climbs l' s1 s'
  end.

Lemma step_up_runs m s s' base :
  mig_upgrade m s = (s', inr tt) → step_up m (MkMigrated s base) = (MkMigrated s' (Some (mig_revision m)), inr tt).
Proof. intros H. unfold step_up, in_database, zoom, bind. cbn. by rewrite H. Qed.

Lemma step_down_runs m s s' r :
  mig_downgrade m s = (s', inr tt) → step_down m (MkMigrated s r) = (MkMigrated s' (mig_down_revision m), inr tt).
Proof. intros H. unfold step_down, in_database, zoom, bind. cbn. by rewrite H. Qed.

Lemma head_of_cons base m l : head_of base (m :: l) = head_of (Some (mig_revision m)) l.
Proof. unfold head_of. rewrite last_cons. by destruct (last l). Qed.

Lemma climbs_runs l base s s' :
  climbs l s s' → linked base l →
  for_each l step_up (MkMigrated s base) = (MkMigrated s' (head_of base l), inr tt) ∧
  for_each (reverse l) step_down (MkMigrated s' (head_of base l)) = (MkMigrated s base, inr tt).
Proof.
  revert base s. induction l as [|m l IH]; intros base s; cbn [climbs linked]; [by intros -> _|].
  intros (s1 & [Hu Hd] & Hl) [Hbase Hlink]. destruct (IH _ _ Hl Hlink) as [IHu IHd]. rewrite head_of_cons. split.
  - cbn. unfold bind. by rewrite (step_up_runs _ _ _ _ Hu).
  - rewrite reverse_cons. eapply for_each_snoc; [done|]. by rewrite (step_down_runs _ _ _ _ Hd), Hbase.
Qed.

(** ** The eleven revisions

    A database the platform has not touched: none of its schemas, no [agent_app],
    nothing left over that names them, and no table with a vector column. The
    [vector] extension itself may be there, as deploy/postgres/init.sql leaves it. *)
Record clean (user : string) (d : Database) : Prop := {
  cl_user : user ≠ "agent_app";
  cl_schemas x : x ∈ SCHEMAS → dbs_schemas d !! x = None;
  cl_public : is_Some (dbs_schemas d !! "public");
  cl_tables k t : dbs_tables d !! k = Some t → k.1 ∉ SCHEMAS ∧ uses_extension "vector" t = false;
  cl_closed : closed d;
  cl_role : dbs_roles d !! "agent_app" = None;
  cl_unmentioned : ¬ mentions_role "agent_app" d;
  cl_acl y : y ∈ dbs_schema_acl d → y.1.1 ∉ SCHEMAS;
  cl_default y : y ∈ dbs_default_acl d → y.1.2 ∉ SCHEMAS
}.

Definition app_role (password : string) : Role := MkRole true (Some password) false false false false.

Section Revisions.
  Context {sql_text : SqlText}.
  Variables (user : string) (d : Database).
  Hypothesis Hclean : clean user d.
  Abbreviation stage := (stage user d).
  Abbreviation statements l := (for_each l (exec user)).
  Abbreviation APP := "agent_app".
  Abbreviation ACL := (pairs APP DML).

(** *** 0001 *)

Record empty_schema (x : string) (s : Database) : Prop := {
  em_schema : dbs_schemas s !! x = None;
  em_tables k t : dbs_tables s !! k = Some t → k.1 ≠ x ∧ ∀ target, references target t = true → target.1 ≠ x;
  em_acl y : y ∈ dbs_schema_acl s → y.1.1 ≠ x;
  em_default y : y ∈ dbs_default_acl s → y.1.2 ≠ x
}.

Lemma filter_all {A} (p : A → bool) l : (∀ x, x ∈ l → p x = true) → List.filter p l = l.
Proof.
  induction l as [|x l IH]; intros H; cbn; [done|]. rewrite H by by left. f_equal. apply IH. intros y Hy. apply H. by right.
Qed.

Lemma schema_undone x s :
  empty_schema x s →
  let s' := s <| dbs_schemas ::= <[x := user]> |> in
  undone (exec user (CREATE_SCHEMA_IF_NOT_EXISTS x)) (exec user (DROP_SCHEMA_IF_EXISTS_CASCADE x)) s s'.
Proof.
  intros [Hs Ht Ha Hd]. split; cbn.
  - unfold modify. cbn. by rewrite Hs.
  - unfold modify. cbn. rewrite lookup_insert_eq. rewrite bool_decide_eq_true_2 by eauto. do 2 f_equal.
    apply same_elements_eq. split_and!; cbn; try done.
    + by rewrite delete_insert_id.
    + intros y. rewrite elem_of_filter. naive_solver.
    + intros y. rewrite elem_of_filter. naive_solver.
    + intros k. rewrite lookup_fmap. destruct (dbs_tables s !! k) as [t|] eqn:Hk.
      * destruct (Ht _ _ Hk) as [Hne Href]. rewrite (map_lookup_filter_Some_2 _ _ _ t) by done. cbn. f_equal.
        destruct t as [o c cs i r f p a]. cbn. f_equal. apply filter_all. intros [| | |col target tc] Hc; try done.
        apply negb_true_iff, String.eqb_neq, Href, references_spec. eauto.
      * by rewrite map_lookup_filter_None_2 by by left.
Qed.

Lemma schemas_undone l s :
  NoDup l → (∀ x, x ∈ l → empty_schema x s) →
  undone (statements (CREATE_SCHEMA_IF_NOT_EXISTS <$> l)) (statements (DROP_SCHEMA_IF_EXISTS_CASCADE <$> reverse l)) s
    (s <| dbs_schemas ::= created user l |>).
Proof.
  revert s. induction l as [|x l IH]; intros s; [intros _ _; by destruct s|].
  intros [Hx Hl]%NoDup_cons Hem. set (s1 := s <| dbs_schemas ::= <[x := user]> |>).
  destruct (schema_undone x s (Hem x ltac:(by left))) as [Hu Hd].
  assert (∀ y, y ∈ l → empty_schema y s1) as Hem1.
  { intros y Hy. destruct (Hem y ltac:(by right)) as [H1 H2 H3 H4]. split; try done. cbn.
    rewrite lookup_insert_ne; [done|]. intros ->. done. }
  rewrite reverse_cons, fmap_app. change (CREATE_SCHEMA_IF_NOT_EXISTS <$> x :: l)
    with ([CREATE_SCHEMA_IF_NOT_EXISTS x] ++ (CREATE_SCHEMA_IF_NOT_EXISTS <$> l)).
  eapply undo_app; [split; (eapply for_each_cons_inr; [done|reflexivity])|]. apply (IH s1 Hl Hem1).
Qed.

Lemma references_outside k t target : dbs_tables d !! k = Some t → references target t = true → target.1 ∉ SCHEMAS.
Proof. intros Hk Ht. destruct (cl_closed _ _ Hclean _ _ _ Hk Ht) as [t' Ht']. by destruct (cl_tables _ _ Hclean _ _ Ht'). Qed.

Lemma default_acl_none s x :
  dbs_default_acl s = dbs_default_acl d → x ∈ SCHEMAS → default_acl_for s user x = ∅.
Proof.
  intros Hs Hx. unfold default_acl_for. rewrite Hs.
  assert (List.filter (fun y : string * string * (string * Privilege) => String.eqb y.1.1 user && String.eqb y.1.2 x)
            (elements (dbs_default_acl d)) = []) as ->; [|done].
  apply elem_of_nil_inv. intros y [Hy%list_elem_of_In%elem_of_elements He]%list_elem_of_In%filter_In.
  apply andb_true_iff in He as [_ He%String.eqb_eq]. subst x. by apply (cl_default _ _ Hclean) in Hy.
Qed.

Lemma closed_same s s' : dbs_tables s' = dbs_tables s → closed s → closed s'.
Proof. unfold closed. by intros ->. Qed.

Lemma revision_0001 :
  ∃ s', undone (statements upgrade_0001) (statements downgrade_0001) d s' ∧ stage false [] ∅ s' ∧
    s' = d <| dbs_schemas ::= created user SCHEMAS |>.
Proof.
  eexists. split_and!; [|split|done].
  - apply (schemas_undone SCHEMAS d).
    + apply (bool_decide_unpack _). vm_compute. exact I.
    + intros x Hx. split.
      * by apply (cl_schemas _ _ Hclean).
      * intros k t Hk. split; [intros Heq; subst x; by destruct (cl_tables _ _ Hclean _ _ Hk)|].
        intros target Ht Heq. subst x. by eapply references_outside.
      * intros y Hy Heq. subst x. by apply (cl_acl _ _ Hclean) in Hy.
      * intros y Hy Heq. subst x. by apply (cl_default _ _ Hclean) in Hy.
  - intros k. cbn. destruct (str_in k.1 SCHEMAS) eqn:Hk; [|done]. apply str_in_spec in Hk.
    destruct (dbs_tables d !! k) as [t|] eqn:Ht; [|done]. by destruct (cl_tables _ _ Hclean _ _ Ht).
  - done.
  - intros x Hx. by apply default_acl_none.
  - done.
  - eapply closed_same; [|apply (cl_closed _ _ Hclean)]. done.
Qed.

(** *** The table migrations *)

(** What no migration but 0005, 0008 and 0009 changes. *)
Record untouched (s : Database) : Prop := {
  unt_acl : dbs_schema_acl s = dbs_schema_acl d;
  unt_roles : dbs_roles s = dbs_roles d;
  unt_connect : dbs_connect s = dbs_connect d;
  unt_default : dbs_default_acl s = dbs_default_acl d
}.

Lemma untouched_tables s s' : untouched s → s' = with_tables (fun _ => dbs_tables s') s → untouched s'.
Proof. intros [] ->. by split. Qed.

Lemma revision_0005 bs acl s :
  "vector" ∉ dbs_extensions d → stage false bs acl s → untouched s → dbs_extensions s = dbs_extensions d →
  existsb (fun b => uses_extension "vector" (built user b acl)) bs = false →
  blocks_fit user true bs (blocks_of upgrade_0005) = true →
  ∃ s', undone (statements upgrade_0005) (statements downgrade_0005) s s' ∧
    stage true (bs ++ blocks_of upgrade_0005) acl s' ∧ untouched s'.
Proof.
  intros Hvector Hs Hun Hext Huses Hfit.
  set (s1 := s <| dbs_extensions ::= fun e => {["vector"]} ∪ e |>).
  assert (stage true bs acl s1) as Hs1.
  { destruct Hs as [A B C _ D]. split; try done. intros _. cbn. set_solver. }
  destruct (tables_migration user d true bs acl s1 (tail upgrade_0005) (take 3 downgrade_0005) Hs1 eq_refl eq_refl Hfit)
    as (s' & Hu & Hd & Hs' & Heq).
  exists s'. split_and!; [|done|by eapply (untouched_tables s1); [destruct Hun; by split|]].
  apply (undo_app (exec user) [CREATE_EXTENSION_IF_NOT_EXISTS "vector"] (tail upgrade_0005)
    [DROP_EXTENSION_IF_EXISTS "vector"] (take 3 downgrade_0005) s s1 s'); [|by split].
  split; (eapply for_each_cons_inr; [|reflexivity]); cbn [exec]; [done|]. unfold get_state, bind.
  assert (existsb (fun kt => uses_extension "vector" kt.2) (map_to_list (dbs_tables s1)) = false) as ->.
  { apply not_true_iff_false. rewrite existsb_exists. intros ([k t] & Hk%list_elem_of_In%elem_of_map_to_list & Ht).
    cbn in Hk, Ht. rewrite (stg_tables _ _ _ _ _ _ Hs) in Hk. destruct (str_in k.1 SCHEMAS).
    - destruct (find_block bs k) as [b|] eqn:Hb; [|done]. injection Hk as <-.
      apply not_true_iff_false in Huses. apply Huses, existsb_exists. exists b. split; [|done].
      by apply List.find_some in Hb as [].
    - destruct (cl_tables _ _ Hclean _ _ Hk). congruence. }
  unfold modify. do 2 f_equal. destruct s. cbn in *. f_equal. apply leibniz_equiv. set_solver.
Qed.

(** *** 0008 and 0009 *)

Lemma unmentioned s bs :
  stage true bs ∅ s → untouched s → ¬ mentions_role APP s.
Proof.
  intros Hs [Ha _ Hc Hd] Hm. apply (cl_unmentioned _ _ Hclean). unfold mentions_role in *. rewrite Ha, Hc, Hd in Hm.
  destruct Hm as [(x & o & Hx & ->)|[Hm|[(k & t & Hk & Ht)|Hm]]].
  - left. rewrite (stg_schemas _ _ _ _ _ _ Hs) in Hx. destruct (decide (x ∈ SCHEMAS)) as [Hin|Hout].
    + rewrite created_in in Hx by done. injection Hx as ->. by destruct (cl_user _ _ Hclean).
    + rewrite created_out in Hx by done. by exists x, APP.
  - by right; left.
  - right; right; left. rewrite (stg_tables _ _ _ _ _ _ Hs) in Hk. destruct (str_in k.1 SCHEMAS); [|by eauto].
    destruct (find_block bs k) as [b|]; [|done]. injection Hk as <-. destruct Ht as [Ht|[p Hp]].
    + by destruct (cl_user _ _ Hclean).
    + by apply elem_of_empty in Hp.
  - by do 3 right.
Qed.

Lemma stage_granted bs s s' :
  stage true bs ∅ s → dbs_default_acl s = dbs_default_acl d → granted user SCHEMAS s s' → stage true bs ACL s'.
Proof.
  intros Hs Hun [Gs Ge Gr Gc Ga Gd Gt]. destruct Hs as [A B C D E]. split.
  - intros k. rewrite Gt, A. destruct (str_in k.1 SCHEMAS); [|by destruct (dbs_tables d !! k)].
    destruct (find_block bs k) as [b|]; [|done]. cbn. unfold built. by do 2 f_equal.
  - congruence.
  - intros x Hx. unfold default_acl_for. apply leibniz_equiv. intros [r p].
    rewrite elem_of_list_to_set, list_elem_of_fmap. split.
    + intros (y & Hy & Hin%list_elem_of_In%filter_In). destruct Hin as [Hin%list_elem_of_In%elem_of_elements He].
      apply andb_true_iff in He as [He1%String.eqb_eq He2%String.eqb_eq].
      apply Gd in Hin as [Hin|(_ & Hr & Hp & _)].
      * rewrite Hun in Hin. apply (cl_default _ _ Hclean) in Hin. congruence.
      * apply elem_of_list_to_set, list_elem_of_fmap. exists p. split; [|by rewrite <- Hy in Hp]. f_equal. by rewrite <- Hy in Hr.
    + intros (q & [= -> ->] & Hq)%elem_of_list_to_set%list_elem_of_fmap. exists (user, x, (APP, q)). split; [done|].
      apply list_elem_of_In, filter_In. split.
      * apply list_elem_of_In, elem_of_elements, Gd. right. done.
      * cbn. by rewrite !String.eqb_refl.
  - rewrite Ge. exact D.
  - intros k t target Hk Ht. rewrite Gt in *. destruct (dbs_tables s !! k) as [t0|] eqn:Hk0; [|done].
    assert (references target t0 = true) as Ht0.
    { cbn in Hk. injection Hk as <-. by destruct (str_in k.1 SCHEMAS). }
    destruct (E _ _ _ Hk0 Ht0) as [t1 Ht1]. rewrite Ht1. cbn. eauto.
Qed.

Lemma grants_0008_eq : grants_0008 user = GRANT_CONNECT APP :: concat (grant_one user <$> SCHEMAS).
Proof. reflexivity. Qed.

Lemma downgrade_0008_eq :
  downgrade_0008 user = concat (revoke_one user <$> SCHEMAS) ++ [REVOKE_CONNECT APP; DROP_ROLE_IF_EXISTS APP].
Proof. reflexivity. Qed.

(** The privileges 0008 leaves, and the password. *)
Record app_privileges (stored : string) (s : Database) : Prop := {
  app_is : dbs_roles s = <[APP := app_role stored]> (dbs_roles d);
  app_usage x : x ∈ SCHEMAS → (x, APP, USAGE) ∈ dbs_schema_acl s
}.

(** What the statement of 0008 makes of the password: what it raises, or the
    password the role gets. *)
Definition role_password (password : string) : exn + string :=
  match text_literal (str_replace password "'" "''") with
  | None => inl (OtherException "StatementError" "A value is required for bind parameter")
  | Some literal =>
      if str_contains "$$" literal then inl (OtherException "ProgrammingError" "syntax error")
      else match read_literal literal with
           | None => inl (OtherException "ProgrammingError" "syntax error")
           | Some stored => inr stored
           end
  end.

Lemma upgrade_0008_refused password s e :
  password ≠ "" → role_password password = inl e → upgrade_0008 user (Some password) s = (s, inl e).
Proof.
  intros Hpw He. unfold upgrade_0008, role_password in *. destruct password as [|c p]; [done|].
  destruct (text_literal _) as [literal|]; [|by injection He as <-]. unfold bind. cbn [exec].
  destruct (str_contains "$$" literal); [by injection He as <-|]. destruct (read_literal literal); [done|by injection He as <-].
Qed.

Lemma revision_0008 bs s password stored :
  stage true bs ∅ s → untouched s → password ≠ "" → role_password password = inr stored →
  ∃ s', undone (upgrade_0008 user (Some password)) (statements (downgrade_0008 user)) s s' ∧
    stage true bs ACL s' ∧ app_privileges stored s' ∧
    (∀ p, ("public", APP, p) ∉ dbs_schema_acl s').
Proof.
  intros Hs Hun Hpw Hstored. pose proof (unmentioned _ _ Hs Hun) as Hno.
  set (s1 := s <| dbs_roles ::= <[APP := app_role stored]> |>).
  set (s2 := s1 <| dbs_connect ::= fun c => {[APP]} ∪ c |>).
  assert (Husable : usable SCHEMAS s2).
  { split; [cbn; rewrite lookup_insert_eq; eauto|]. intros x Hx. cbn. rewrite (stg_schemas _ _ _ _ _ _ Hs).
    rewrite created_in by done. eauto. }
  destruct (grants_run user SCHEMAS s2 Husable) as (s' & Hgrant & Hg).
  assert (Husable' : usable SCHEMAS s').
  { destruct Husable. split; [by rewrite (grt_roles _ _ _ _ Hg)|by rewrite (grt_schemas _ _ _ _ Hg)]. }
  destruct (revokes_run user SCHEMAS s' Husable') as (s2' & Hrevoke & Hr).
  assert (s2' = s2) as ->.
  { eapply revoke_granted; [|exact Hg|exact Hr]. intros Hm. apply Hno. unfold mentions_role in *. cbn in Hm.
    destruct Hm as [?|[?|[?|[?|?]]]]; [by left|by right; left|by right; right; left|set_solver|by do 4 right]. }
  assert (Hnew : dbs_roles s !! APP = None).
  { rewrite (unt_roles _ Hun). apply (cl_role _ _ Hclean). }
  assert (Hs2 : stage true bs ∅ s2). { destruct Hs; by split. }
  assert (Hun2 : dbs_default_acl s2 = dbs_default_acl d) by apply (unt_default _ Hun).
  exists s'. split; [split|split_and!].
  - unfold upgrade_0008, role_password in *. destruct password as [|c p]; [done|].
    destruct (text_literal _) as [literal|]; [|done]. unfold bind. cbn [exec].
    destruct (str_contains "$$" literal); [done|]. destruct (read_literal literal); [|done]. injection Hstored as ->.
    unfold modify. rewrite grants_0008_eq. eapply for_each_cons_inr; [|exact Hgrant].
    cbn [exec]. unfold needs_role, get_state, bind.
    match goal with |- context [upd dbs_roles ?f s] =>
      replace (upd dbs_roles f s) with s1 by (unfold s1, upd; cbn; by rewrite Hnew) end.
    rewrite bool_decide_eq_true_2; [done|]. cbn. rewrite lookup_insert_eq. eauto.
  - rewrite downgrade_0008_eq. eapply for_each_app_inr; [exact Hrevoke|].
    eapply for_each_cons_inr; [|eapply for_each_cons_inr; [|reflexivity]].
    + cbn [exec]. unfold needs_role, get_state, bind. rewrite bool_decide_eq_true_2 by apply Husable.
      unfold modify. replace (upd dbs_connect _ s2) with s1; [reflexivity|]. apply same_elements_eq. split_and!; try done.
      cbn. apply leibniz_equiv. assert (APP ∉ dbs_connect s) by (intros Hin; apply Hno; do 3 right; by left). set_solver.
    + cbn [exec]. unfold get_state, bind.
      assert (role_in_use s1 APP = false) as ->.
      { apply not_true_iff_false. by rewrite role_in_use_spec. }
      rewrite andb_false_r. unfold modify. do 2 f_equal. unfold s1. destruct s. cbn in *. by rewrite delete_insert_id.
  - by eapply stage_granted.
  - split; [rewrite (grt_roles _ _ _ _ Hg); cbn; by rewrite (unt_roles _ Hun)|]. intros x Hx. apply (grt_acl _ _ _ _ Hg). by right.
  - intros p Hp. apply (grt_acl _ _ _ _ Hg) in Hp as [Hp|(_ & _ & Hp)].
    + apply Hno. right; left. eexists. by split.
    + by apply str_in_spec in Hp.
Qed.

Lemma revision_0009 bs s password :
  stage true bs ACL s → app_privileges password s → is_Some (dbs_schemas s !! "public") →
  (∀ p, ("public", APP, p) ∉ dbs_schema_acl s) →
  ∃ s', undone (statements upgrade_0009) (statements downgrade_0009) s s' ∧
    stage true bs ACL s' ∧ app_privileges password s'.
Proof.
  intros Hs [Happ Husage] Hpub Hno.
  set (s' := s <| dbs_schema_acl ::= fun a => schema_entries "public" APP [CREATE; USAGE] ∪ a |>).
  assert (Hu : ∀ m s0, dbs_roles s0 = dbs_roles s → dbs_schemas s0 = dbs_schemas s →
                 needs_schema "public" (needs_role APP m) s0 = m s0).
  { intros m s0 Hr Hsc. unfold needs_schema, needs_role, get_state, bind. rewrite Hsc.
    rewrite bool_decide_eq_true_2 by done. rewrite bool_decide_eq_true_2; [done|].
    rewrite Hr, Happ, lookup_insert_eq. eauto. }
  exists s'. split_and!.
  - split; (eapply for_each_cons_inr; [cbn [exec]; by rewrite Hu|]); [reflexivity|]. unfold for_each, ret. do 2 f_equal.
    apply same_elements_eq. split_and!; try done. cbn -[schema_entries]. intros [[x r] p]. specialize (Hno p).
    assert (∀ y, y ∈ schema_entries "public" APP [CREATE; USAGE] → y.1 = ("public", APP)) as He.
    { intros y (q & -> & _)%elem_of_list_to_set%list_elem_of_fmap. done. }
    rewrite elem_of_difference, elem_of_union. split; [naive_solver|]. intros Hin. split; [by right|].
    intros Hq%He. cbn in Hq. injection Hq as -> ->. done.
  - destruct Hs. by split.
  - split; [done|]. intros x Hx. cbn -[schema_entries]. apply elem_of_union. right. by apply Husage.
Qed.
End Revisions.

Lemma climbs_app l l' s s1 s' : climbs l s s1 → climbs l' s1 s' → climbs (l ++ l') s s'.
Proof.
  revert s. induction l as [|m l IH]; intros s; cbn; [by intros ->|].
  intros (s2 & Hu & Hl) Hl'. exists s2. split; [done|]. by apply IH.
Qed.

Definition core_blocks : list Block :=
  concat (blocks_of <$> [upgrade_0002; upgrade_0003; upgrade_0004; upgrade_0005; upgrade_0006; upgrade_0007]).

Definition all_blocks : list Block := core_blocks ++ blocks_of upgrade_0010 ++ blocks_of upgrade_0011.

Section Climb.
  Context {sql_text : SqlText} (env : MigrationEnv) (d : Database).
  Abbreviation user := (menv_current_user env).
  Hypothesis Hclean : clean user d.
  Abbreviation stage := (stage user d).
  Abbreviation ACL := (pairs "agent_app" DML).

(** The next migration creates tables only. *)
Lemma climb_tables vector bs acl s up down :
  stage vector bs acl s → concat (block_statements <$> blocks_of up) = up →
  DROP_TABLE_IF_EXISTS ∘ blk_name <$> reverse (blocks_of up) = down → blocks_fit user vector bs (blocks_of up) = true →
  ∃ s', undone (statements env up) (statements env down) s s' ∧ stage vector (bs ++ blocks_of up) acl s' ∧
    s' = with_tables (fun _ => dbs_tables s') s.
Proof.
  intros Hs Hu Hd Hf. destruct (tables_migration user d _ _ _ _ _ _ Hs Hu Hd Hf) as (s' & H1 & H2 & H3 & H4). by exists s'.
Qed.

Ltac next_tables H up down s' Hs' Heq :=
  destruct (climb_tables _ _ _ _ up down H) as (s' & ? & Hs' & Heq); [reflexivity|reflexivity|vm_compute; reflexivity|].

Lemma first_seven :
  "vector" ∉ dbs_extensions d →
  ∃ s, climbs (take 7 (versions env)) d s ∧ stage true core_blocks ∅ s ∧ untouched d s ∧ is_Some (dbs_schemas s !! "public").
Proof.
  intros Hvector. destruct (revision_0001 user d Hclean) as (s1 & H1 & Hs1 & Heq1).
  assert (untouched d s1 ∧ dbs_extensions s1 = dbs_extensions d) as [Hu1 He1] by (subst s1; by repeat split).
  next_tables Hs1 upgrade_0002 downgrade_0002 s2 Hs2 Heq2.
  next_tables Hs2 upgrade_0003 downgrade_0003 s3 Hs3 Heq3.
  next_tables Hs3 upgrade_0004 downgrade_0004 s4 Hs4 Heq4.
  assert (Hu4 : untouched d s4) by (eapply untouched_tables; [eapply untouched_tables; [by eapply untouched_tables|done]|done]).
  destruct (revision_0005 user d Hclean _ _ _ Hvector Hs4 Hu4) as (s5 & H5 & Hs5 & Hu5);
    [by rewrite Heq4, Heq3, Heq2|reflexivity|vm_compute; reflexivity|].
  next_tables Hs5 upgrade_0006 downgrade_0006 s6 Hs6 Heq6.
  next_tables Hs6 upgrade_0007 downgrade_0007 s7 Hs7 Heq7.
  exists s7. split_and!.
  - cbn [take versions climbs]. exists s1. split; [done|]. exists s2. split; [done|]. exists s3. split; [done|].
    exists s4. split; [done|]. exists s5. split; [done|]. exists s6. split; [done|]. by exists s7.
  - exact Hs7.
  - eapply untouched_tables; [by eapply untouched_tables|done].
  - rewrite (stg_schemas _ _ _ _ _ _ Hs7). rewrite created_out by by apply str_in_false.
    apply (cl_public _ _ Hclean).
Qed.

Lemma last_four s password stored :
  stage true core_blocks ∅ s → untouched d s → is_Some (dbs_schemas s !! "public") →
  menv_APP_DB_PASSWORD env = Some password → password ≠ "" → role_password password = inr stored →
  ∃ s', climbs (drop 7 (versions env)) s s' ∧ stage true all_blocks ACL s' ∧ app_privileges d stored s'.
Proof.
  intros Hs Hun Hpub Henv Hpw Hstored.
  destruct (revision_0008 user d Hclean _ _ _ _ Hs Hun Hpw Hstored) as (s8 & H8 & Hs8 & Happ8 & Hno).
  assert (is_Some (dbs_schemas s8 !! "public")) as Hpub8.
  { rewrite (stg_schemas _ _ _ _ _ _ Hs8). by rewrite <- (stg_schemas _ _ _ _ _ _ Hs). }
  destruct (revision_0009 user d _ _ _ Hs8 Happ8 Hpub8 Hno) as (s9 & H9 & Hs9 & Happ9).
  next_tables Hs9 upgrade_0010 downgrade_0010 s10 Hs10 Heq10.
  next_tables Hs10 upgrade_0011 downgrade_0011 s11 Hs11 Heq11.
  exists s11. split_and!.
  - cbn [drop versions climbs]. rewrite Henv. exists s8. split; [done|]. exists s9. split; [done|].
    exists s10. split; [done|]. by exists s11.
  - exact Hs11.
  - rewrite Heq11, Heq10. destruct Happ9. by split.
Qed.
End Climb.

Lemma for_each_raises {S A} (f : A → py S unit) l x l' s s1 s2 e :
  for_each l f s = (s1, inr tt) → f x s1 = (s2, inl e) → for_each (l ++ x :: l') f s = (s2, inl e).
Proof. intros Hl Hx. eapply for_each_app_inr; [done|]. cbn. unfold bind. by rewrite Hx. Qed.

Lemma startswith_dollar p : str_startswith (str_replace p "'" "''") "$" = str_startswith p "$".
Proof.
  unfold str_replace. rewrite decide_False by done. destruct p as [|c p]; [done|].
  destruct c as [[] [] [] [] [] [] [] []]; reflexivity.
Qed.

(** Doubling the quotes makes no pair of dollars. *)
Lemma dollars_escaped p : str_contains "$$" (str_replace p "'" "''") = str_contains "$$" p.
Proof.
  induction p as [|c p IH]; [done|].
  assert (Hcase : str_replace (String c p) "'" "''" =
    if decide (c = "'"%char) then String "'" (String "'" (str_replace p "'" "''")) else String c (str_replace p "'" "''")).
  { unfold str_replace. rewrite !decide_False by done. case_decide as Hc; [by subst|].
    destruct c as [[] [] [] [] [] [] [] []]; done. }
  rewrite Hcase. case_decide as Hc.
  - subst c. cbn [str_contains]. rewrite IH. destruct p; reflexivity.
  - cbn [str_contains]. rewrite IH. f_equal. pose proof (startswith_dollar p) as Hd.
    destruct (decide (c = "$"%char)) as [->|Hn]; [exact Hd|].
    destruct c as [[] [] [] [] [] [] [] []]; try reflexivity. done.
Qed.

(** ** The URL and the password

    Without a percent sign the URL reaches SQLAlchemy as it is; without a colon the
    role gets the password as it is. *)

Lemma percent_cons c s : str_contains "%" (String c s) = false ↔ c ≠ "%"%char ∧ str_contains "%" s = false.
Proof.
  cbn [str_contains]. unfold str_startswith. cbn [drop_prefix].
  destruct (decide ("%"%char = c)) as [<-|Hc]; [by split; [|intros [? _]]|]. split; [done|by intros [_ ?]].
Qed.

Lemma starts_percent c p s : c ≠ "%"%char → str_startswith (String c s) (String "%" p) = false.
Proof. intros Hc. unfold str_startswith. cbn [drop_prefix]. by rewrite decide_False by congruence. Qed.

(** A text up to one percent sign, and no further. *)
Lemma unescape_upto pre s :
  str_contains "%" pre = false → replace_go "%%" "" 0 s = s → replace_go "%%" "" 0 (pre +:+ s) = pre +:+ s.
Proof.
  intros Hpre Hs. induction pre as [|c pre IH]; [done|]. apply percent_cons in Hpre as [Hc Hpre].
  change (String c pre +:+ s) with (String c (pre +:+ s)). cbn [replace_go].
  rewrite starts_percent by done. by rewrite IH.
Qed.

Lemma reference_none c s : c ≠ "%"%char → reference (String c s) = None.
Proof. intros Hc. destruct c as [[] [] [] [] [] [] [] []]; done. Qed.

Lemma drop_references_upto pre s fuel :
  str_contains "%" pre = false → String.length pre ≤ fuel →
  drop_references fuel (pre +:+ s) = pre +:+ drop_references (fuel - String.length pre) s.
Proof.
  revert fuel. induction pre as [|c pre IH]; intros fuel Hpre Hf; [cbn; by rewrite Nat.sub_0_r|].
  apply percent_cons in Hpre as [Hc Hpre]. cbn [String.length] in Hf |- *. destruct fuel as [|fuel]; [lia|].
  change (String c pre +:+ s) with (String c (pre +:+ s)). cbn [drop_references].
  rewrite reference_none by done. by rewrite IH by (done || lia).
Qed.

Lemma percent_app a b : str_contains "%" (a +:+ b) = false → str_contains "%" a = false ∧ str_contains "%" b = false.
Proof.
  induction a as [|c a IH]; [done|]. change (String c a +:+ b) with (String c (a +:+ b)).
  intros [Hc H]%percent_cons. destruct (IH H) as [Ha Hb]. split; [|done]. by apply percent_cons.
Qed.

Lemma plain_option options n s : str_contains "%" s = false → interpolate (S n) options s = inr s ∧ invalid_interpolation s = false.
Proof.
  intros Hs. split.
  - cbn [interpolate]. induction s as [|c s IH]; [done|]. apply percent_cons in Hs as [Hc Hs]. specialize (IH Hs).
    cbn [String.length] in IH |- *. destruct c as [[] [] [] [] [] [] [] []]; try (by destruct Hc); by rewrite IH.
  - unfold invalid_interpolation, str_replace. rewrite decide_False by done.
    pose proof (unescape_upto s "" Hs eq_refl) as Hu. rewrite str_app_nil_r in Hu. rewrite Hu.
    pose proof (drop_references_upto s "" (String.length s) Hs ltac:(done)) as Hd. rewrite str_app_nil_r in Hd. rewrite Hd.
    rewrite Nat.sub_diag. cbn. by rewrite str_app_nil_r.
Qed.

(** A single percent sign is a syntax error, unless it starts a reference. *)
Lemma lone_percent pre post :
  str_contains "%" pre = false → str_contains "%" post = false → str_startswith post "(" = false →
  invalid_interpolation (pre +:+ String "%" post) = true.
Proof.
  intros Hpre Hpost Hparen. unfold invalid_interpolation, str_replace. rewrite decide_False by done.
  assert (Hu : replace_go "%%" "" 0 post = post).
  { pose proof (unescape_upto post "" Hpost eq_refl) as Hu. by rewrite str_app_nil_r in Hu. }
  rewrite (unescape_upto pre (String "%" post)); [|done|].
  2:{ cbn [replace_go]. rewrite Hu. destruct post as [|c post]; [done|]. apply percent_cons in Hpost as [Hc _].
      unfold str_startswith. cbn [drop_prefix]. rewrite decide_True by done. by rewrite decide_False by congruence. }
  assert (Hlen : ∀ a b, String.length (a +:+ b) = String.length a + String.length b).
  { clear. induction a as [|c a IH]; intros b; [done|]. cbn. by rewrite <- IH. }
  rewrite drop_references_upto by (done || (rewrite Hlen; lia)). rewrite Hlen. replace (_ + _ - _) with (S (String.length post)).
  2:{ cbn [String.length]. lia. }
  assert (Href : reference (String "%" post) = None).
  { destruct post as [|c post]; [done|]. unfold str_startswith in Hparen. cbn [drop_prefix] in Hparen.
    destruct (decide ("("%char = c)) as [|Hc]; [done|]. destruct c as [[] [] [] [] [] [] [] []]; try done. }
  cbn [drop_references]. rewrite Href. clear -Hpre. induction pre as [|c pre IH]; [done|].
  apply percent_cons in Hpre as [Hc Hpre]. change (String c pre +:+ ?s) with (String c (pre +:+ s)). cbn [str_contains].
  by rewrite IH, orb_true_r.
Qed.

(** ** The extension on the way up

    The first four revisions run alike with and without [vector]; the fifth creates
    it where it is missing. *)

Definition with_vector (s : Database) : Database := s <| dbs_extensions ::= fun e => {["vector"]} ∪ e |>.
Definition without_vector (s : Database) : Database := s <| dbs_extensions ::= fun e => e ∖ {["vector"]} |>.

(** A statement that creates schemas, tables, indexes or policies. *)
Definition creates (st : Ddl) : bool :=
  match st with
  | CREATE_SCHEMA_IF_NOT_EXISTS _ | CREATE_TABLE _ _ _ | CREATE_INDEX _ _ | ENABLE_RLS _ | FORCE_RLS _ | CREATE_POLICY _ _ _ => true
  | _ => false
  end.

#[local] Ltac same_catalogue s :=
  change (dbs_schemas (with_vector s)) with (dbs_schemas s) in *; change (dbs_tables (with_vector s)) with (dbs_tables s) in *;
  repeat match goal with |- context [has_table (with_vector s) ?k] => change (has_table (with_vector s) k) with (has_table s k) end.

Lemma creates_with_vector user st s s' :
  creates st = true → exec user st s = (s', inr tt) → exec user st (with_vector s) = (with_vector s', inr tt).
Proof.
  destruct st; try done; intros _; cbn [exec]; unfold needs_schema, on_table, create_table, get_state, bind, modify; cbn beta iota;
    same_catalogue s.
  - by intros [= <-].
  - case_bool_decide; [|done]. same_catalogue s. destruct (has_table s name); [done|].
    destruct (forallb (column_available s) columns) eqn:Hcols; [|done].
    assert (forallb (column_available (with_vector s)) columns = true) as ->.
    { apply forallb_forall. intros c Hc. rewrite forallb_forall in Hcols. specialize (Hcols c Hc).
      unfold column_available in *. destruct (type_extension _); [|done]. rewrite bool_decide_eq_true in *. cbn. set_solver. }
    change (constraint_valid (with_vector s) columns) with (constraint_valid s columns).
    destruct (forallb (constraint_valid s columns) constraints); [|done]. by intros [= <-].
  - destruct (has_table s name); [|done]. by intros [= <-].
  - destruct (has_table s name); [|done]. by intros [= <-].
  - destruct (has_table s name); [|done]. by intros [= <-].
  - destruct (dbs_tables s !! name) as [t|]; [|done]. destruct (existsb _ _); [done|]. destruct (has_column _ _); [|done].
    cbn [negb]. same_catalogue s. destruct (has_table s name); [|done]. by intros [= <-].
Qed.

Lemma all_create_with_vector user l s s' :
  forallb creates l = true → for_each l (exec user) s = (s', inr tt) →
  for_each l (exec user) (with_vector s) = (with_vector s', inr tt).
Proof.
  revert s. induction l as [|st l IH]; intros s; cbn [forallb for_each]; [by intros _ [= <-]|].
  intros [Hst Hl]%andb_true_iff. unfold bind. destruct (exec user st s) as [s1 [e|[]]] eqn:E; [done|].
  rewrite (creates_with_vector _ _ _ _ Hst E). by apply IH.
Qed.

(** Upwards only. *)
Fixpoint rises (l : list Migration) (s s' : Database) : Prop :=
  match l with
  | [] => s = s'
  | m :: l' => ∃ s1, mig_upgrade m s = (s1, inr tt) ∧ rises l' s1 s'
  end.

Lemma rises_runs l base s s' :
  rises l s s' → for_each l step_up (MkMigrated s base) = (MkMigrated s' (head_of base l), inr tt).
Proof.
  revert base s. induction l as [|m l IH]; intros base s; cbn [rises]; [by intros ->|].
  intros (s1 & Hu & Hl). rewrite head_of_cons. cbn. unfold bind. rewrite (step_up_runs _ _ _ _ Hu). by apply IH.
Qed.

Lemma climbs_rises l s s' : climbs l s s' → rises l s s'.
Proof.
  revert s. induction l as [|m l IH]; intros s; cbn; [done|]. intros (s1 & [Hu _] & Hl). exists s1. split; [done|]. by apply IH.
Qed.

Lemma rises_app l l' s s1 s' : rises l s s1 → rises l' s1 s' → rises (l ++ l') s s'.
Proof.
  revert s. induction l as [|m l IH]; intros s; cbn; [by intros ->|].
  intros (s2 & Hu & Hl) Hl'. exists s2. split; [done|]. by apply IH.
Qed.

Section Outcome.
  Context {alembic : Alembic} {alembic_laws : AlembicLaws} {sql_text : SqlText} {sql_text_laws : SqlTextLaws}.
  Context (env : MigrationEnv) (d : Database).
  Abbreviation user := (menv_current_user env).

Lemma clean_without : clean user d → clean user (without_vector d).
Proof. intros []. by split. Qed.

(** The first seven revisions from [d], by what they do without [vector]. *)
Lemma first_seven_rise s : climbs (take 7 (versions env)) (without_vector d) s → rises (take 7 (versions env)) d s.
Proof.
  intros Hs. destruct (decide ("vector" ∈ dbs_extensions d)) as [Hin|Hout].
  - assert (d = with_vector (without_vector d)) as Hd.
    { destruct d as [? ? ? e ? ? ?]. unfold with_vector, without_vector. cbn in *. f_equal. apply leibniz_equiv.
      intros x.
      rewrite elem_of_union, elem_of_difference, elem_of_singleton. destruct (decide (x = "vector")); naive_solver. }
    rewrite Hd. revert Hs. generalize (without_vector d). intros d0. cbn [take versions climbs rises mig_upgrade].
    intros (s1 & [H1 _] & s2 & [H2 _] & s3 & [H3 _] & s4 & [H4 _] & s5 & [H5 _] & s6 & [H6 _] & s7 & [H7 _] & <-).
    exists (with_vector s1). split; [by apply all_create_with_vector|].
    exists (with_vector s2). split; [by apply all_create_with_vector|].
    exists (with_vector s3). split; [by apply all_create_with_vector|].
    exists (with_vector s4). split; [by apply all_create_with_vector|].
    exists s5. split; [|by exists s6; split; [|exists s7]]. unfold Migrations.statements in *.
    assert (with_vector (with_vector s4) = with_vector s4) as Htwice.
    { destruct s4. unfold with_vector. cbn. by rewrite (assoc_L (∪)), union_idemp_L. }
    change upgrade_0005 with (CREATE_EXTENSION_IF_NOT_EXISTS "vector" :: tail upgrade_0005) in H5 |- *.
    cbn [for_each] in H5 |- *. unfold bind at 1. cbn [exec]. unfold modify at 1. fold (with_vector (with_vector s4)).
    rewrite Htwice. exact H5.
  - assert (without_vector d = d) as Hd.
    { destruct d. unfold without_vector. cbn in *. f_equal. apply leibniz_equiv. set_solver. }
    rewrite Hd in Hs. by apply climbs_rises.
Qed.

Lemma versions_linked : linked None (versions env).
Proof. repeat split. Qed.

Lemma versions_distinct : NoDup (mig_revision <$> versions env).
Proof. apply (bool_decide_unpack _). vm_compute. exact I. Qed.

Definition upgraded : Migrated * (exn + unit) := alembic_main env UpgradeHead (MkMigrated d None).

(** The URL SQLAlchemy is given. *)
Definition main_option (url : string) : exn + string :=
  match set_main_option url with
  | Some e => inl e
  | None => interpolate MAX_INTERPOLATION_DEPTH (alembic_section (menv_here env) url) url
  end.

Lemma main_runs command s url :
  menv_DATABASE_URL env = Some url → url ≠ "" →
  alembic_main env command s =
    match main_option url with
    | inl e => (s, inl e)
    | inr url' =>
        match menv_connect env url' with
        | Some e => (s, inl e)
        | None => atomically (run_migrations command (versions env)) s
        end
    end.
Proof.
  intros Hurl Hne. unfold alembic_main, main_option, run_migrations_online. rewrite Hurl. destruct url as [|c u]; [done|].
  destruct (set_main_option _); [done|]. destruct (interpolate _ _ _) as [e|url']; [done|]. by destruct (menv_connect env url').
Qed.

Lemma upgrade_steps s :
  mgd_revision s = None → run_migrations UpgradeHead (versions env) s = for_each (versions env) step_up s.
Proof.
  intros Hs. unfold run_migrations, gets, bind. rewrite Hs.
  by rewrite (plan_up (versions env) (versions env)) by (done || apply versions_linked || apply versions_distinct).
Qed.

Lemma downgrade_steps s :
  mgd_revision s = Some "0011" → run_migrations DowngradeBase (versions env) s = for_each (reverse (versions env)) step_down s.
Proof.
  intros Hs. unfold run_migrations, gets, bind. rewrite Hs.
  change (Some "0011") with (head_of None (versions env)).
  by rewrite (plan_down (versions env) (versions env)) by (done || apply versions_linked || apply versions_distinct).
Qed.

(** The database is reached. *)
Definition reached : Prop :=
  ∃ url url', menv_DATABASE_URL env = Some url ∧ url ≠ "" ∧ main_option url = inr url' ∧ menv_connect env url' = None.

Lemma reached_runs command s : reached → alembic_main env command s = atomically (run_migrations command (versions env)) s.
Proof. intros (url & url' & Hurl & Hne & Hopt & Hc). by rewrite (main_runs _ _ _ Hurl Hne), Hopt, Hc. Qed.

(** Where the migrated database stands. *)
Definition migrated (stored : string) : Prop :=
  ∃ s, stage user d true all_blocks (pairs "agent_app" DML) s ∧ app_privileges d stored s ∧
    upgraded = (MkMigrated s (Some "0011"), inr tt) ∧
    alembic_main env DowngradeBase (MkMigrated s (Some "0011")) = (MkMigrated (without_vector d) None, inr tt).

(** The whole chain, up and down again. *)
Lemma versions_climb password stored :
  clean user d → reached → menv_APP_DB_PASSWORD env = Some password → password ≠ "" →
  role_password password = inr stored → migrated stored.
Proof.
  intros Hclean%clean_without Hreach Hpass Hpw Hstored.
  destruct (first_seven env (without_vector d) Hclean) as (s7 & H7 & Hs7 & Hu7 & Hp7); [cbn; set_solver|].
  destruct (last_four env (without_vector d) Hclean _ _ _ Hs7 Hu7 Hp7 Hpass Hpw Hstored) as (s & H11 & Hs & Happ).
  pose proof (climbs_app _ _ _ _ _ H7 H11) as Hall. rewrite take_drop in Hall.
  pose proof (rises_app _ _ _ _ _ (first_seven_rise _ H7) (climbs_rises _ _ _ H11)) as Hrise. rewrite take_drop in Hrise.
  destruct (climbs_runs _ None _ _ Hall versions_linked) as [_ Hdown]. pose proof (rises_runs _ None _ _ Hrise) as Hup.
  exists s. split; [by destruct Hs|]. split; [by destruct Happ|]. unfold upgraded. rewrite !reached_runs by done.
  unfold atomically. rewrite upgrade_steps, downgrade_steps by done. split.
  - by rewrite Hup.
  - change (Some "0011") with (head_of None (versions env)). by rewrite Hdown.
Qed.

(** 0008 raises: the seven migrations before it are rolled back with it. *)
Lemma refused_at_0008 e :
  clean user d → reached → (∀ s, ∃ s', upgrade_0008 user (menv_APP_DB_PASSWORD env) s = (s', inl e)) →
  upgraded = (MkMigrated d None, inl e).
Proof.
  intros Hclean%clean_without Hreach Hraise.
  destruct (first_seven env (without_vector d) Hclean) as (s7 & H7 & _ & _ & _); [cbn; set_solver|].
  pose proof (rises_runs _ None _ _ (first_seven_rise _ H7)) as Hup.
  unfold upgraded. rewrite reached_runs by done. unfold atomically. rewrite upgrade_steps by done.
  destruct (Hraise s7) as [s8 H8].
  assert (for_each (versions env) step_up (MkMigrated d None) = (MkMigrated s8 (Some "0007"), inl e)) as Hrun.
  { refine (for_each_raises step_up (take 7 (versions env)) _ (drop 8 (versions env)) _ _ _ _ Hup _).
    unfold step_up, in_database, zoom, bind. cbn [mig_upgrade mgd_db]. by rewrite H8. }
  by rewrite Hrun.
Qed.

(** Once the database is reached, the password decides. *)
Lemma migration_cases :
  clean user d → reached →
  match menv_APP_DB_PASSWORD env with
  | None | Some "" =>
      upgraded = (MkMigrated d None,
        inl (OtherException "RuntimeError" "APP_DB_PASSWORD must be set to run this migration"))
  | Some password =>
      match role_password password with
      | inl e => upgraded = (MkMigrated d None, inl e)
      | inr stored => migrated stored
      end
  end.
Proof.
  intros Hclean Hreach. destruct (menv_APP_DB_PASSWORD env) as [[|c pw]|] eqn:Hpass;
    [apply refused_at_0008; [done..|]; intros s; rewrite Hpass; by eexists| |
     apply refused_at_0008; [done..|]; intros s; rewrite Hpass; by eexists].
  destruct (role_password (String c pw)) as [e|stored] eqn:Hr; [|by eapply versions_climb].
  apply refused_at_0008; [done..|]. intros s. rewrite Hpass. exists s. by apply upgrade_0008_refused.
Qed.

Lemma upgraded_reached m : upgraded = (m, inr tt) → reached.
Proof.
  intros Hup. destruct (menv_DATABASE_URL env) as [[|c u]|] eqn:Hurl;
    [by unfold upgraded, alembic_main in Hup; rewrite Hurl in Hup| |by unfold upgraded, alembic_main in Hup; rewrite Hurl in Hup].
  unfold upgraded in Hup. rewrite (main_runs _ _ _ Hurl) in Hup by done.
  destruct (main_option (String c u)) as [e|url'] eqn:Hopt; [done|]. destruct (menv_connect env url') eqn:Hc; [done|].
  by exists (String c u), url'.
Qed.

(** A password without a colon. *)
Lemma plain_password password :
  str_contains ":" password = false →
  role_password password = if str_contains "$$" password then inl (OtherException "ProgrammingError" "syntax error") else inr password.
Proof.
  intros Hp. unfold role_password. rewrite text_plain, dollars_escaped, read_escaped; [by destruct (str_contains "$$" password)|].
  clear -Hp. unfold str_replace. rewrite decide_False by done. induction password as [|c p IH]; [done|].
  cbn [str_contains] in Hp. apply orb_false_iff in Hp as [Hc Hp]. specialize (IH Hp).
  destruct c as [[] [] [] [] [] [] [] []]; try done; cbn [replace_go]; exact IH.
Qed.

End Outcome.

(** ** Who may see what *)

(** The tables without a tenant: the golden sets, and the operators' switches. *)
Definition org_wide : list TableName :=
  [("eval", "datasets"); ("eval", "items"); ("eval", "runs"); ("eval", "baseline_changes"); ("eval", "judge_cache");
   ("authz", "tool_overrides")].

Lemma blocks_tenancy b :
  b ∈ all_blocks →
  blk_tenant b = has_column (blk_columns b) "tenant_id" ∧ (blk_tenant b = false ↔ blk_name b ∈ org_wide) ∧
  (∀ c, column_of (blk_columns b) "tenant_id" = Some c → col_type c = TEXT).
Proof.
  intros Hb. assert (forallb (fun b => bool_decide (blk_tenant b = has_column (blk_columns b) "tenant_id") &&
    bool_decide (blk_tenant b = false ↔ blk_name b ∈ org_wide) &&
    match column_of (blk_columns b) "tenant_id" with Some c => bool_decide (col_type c = TEXT) | None => true end)
    all_blocks = true) as Hall by (vm_compute; reflexivity).
  rewrite forallb_forall in Hall. apply list_elem_of_In, Hall in Hb.
  rewrite !andb_true_iff, !bool_decide_eq_true in Hb. destruct Hb as [[H1 H2] H3]. split_and!; [done|done|].
  intros c Hc. rewrite Hc in H3. by apply bool_decide_eq_true in H3.
Qed.

(** Row security of a built table, for a role it binds. *)
Lemma built_row_visible user b acl d role settings row :
  blk_tenant b = true → bypasses d role = false →
  row_visible d role settings (built user b acl) row = true ↔
  ∃ tenant, settings !! "app.tenant_id" = Some tenant ∧ cell row "tenant_id" = VText tenant.
Proof.
  intros Hb Hrole. unfold row_visible, built. cbn. rewrite Hrole, Hb. cbn. rewrite andb_false_r, orb_false_r. cbn.
  unfold policy_holds. cbn. destruct (cell row "tenant_id"), (settings !! "app.tenant_id"); split;
    try (by intros (? & ? & ?)); try done.
  - intros ->%String.eqb_eq. eauto.
  - intros (? & [= ->] & [= ->]). by rewrite String.eqb_refl.
Qed.

Section Visibility.
  Context {alembic : Alembic} {alembic_laws : AlembicLaws} {sql_text : SqlText} {sql_text_laws : SqlTextLaws}.
  Context (env : MigrationEnv) (d : Database).

(** Where a migration that returned stands. *)
Lemma upgraded_stage m :
  clean (menv_current_user env) d → upgraded env d = (m, inr tt) →
  ∃ s password, m = MkMigrated s (Some "0011") ∧
    stage (menv_current_user env) d true all_blocks (pairs "agent_app" DML) s ∧ app_privileges d password s.
Proof.
  intros Hclean Hup. pose proof (migration_cases env d Hclean (upgraded_reached env d m Hup)) as Hout.
  destruct (menv_APP_DB_PASSWORD env) as [[|c' pw]|]; [by rewrite Hup in Hout| |by rewrite Hup in Hout].
  destruct (role_password _) as [e|stored]; [by rewrite Hup in Hout|].
  destruct Hout as (s & Hs & Happ & Hu & _). rewrite Hup in Hu. injection Hu as ->. by exists s, stored.
Qed.

(** The tables of the six schemas are the blocks'. *)
Lemma migrated_tables m :
  clean (menv_current_user env) d → upgraded env d = (m, inr tt) →
  bypasses (mgd_db m) "agent_app" = false ∧ is_superuser (mgd_db m) "agent_app" = false ∧
  ∀ k b, k.1 ∈ SCHEMAS → find_block all_blocks k = Some b →
    dbs_tables (mgd_db m) !! k = Some (built (menv_current_user env) b (pairs "agent_app" DML)) ∧
    (∀ p, p ∈ DML → may (mgd_db m) "agent_app" p k = true) ∧
    (k ∉ org_wide → ∀ role settings row, bypasses (mgd_db m) role = false →
       row_visible (mgd_db m) role settings (built (menv_current_user env) b (pairs "agent_app" DML)) row = true ↔
       ∃ tenant, settings !! "app.tenant_id" = Some tenant ∧ cell row "tenant_id" = VText tenant).
Proof.
  intros Hclean Hup. destruct (upgraded_stage m Hclean Hup) as (s & password & -> & Hs & [Hrole Husage]). cbn [mgd_db].
  split_and!; [unfold bypasses; by rewrite Hrole, lookup_insert_eq|unfold is_superuser; by rewrite Hrole, lookup_insert_eq|].
  intros k b Hin Hb. assert (Hk : dbs_tables s !! k = Some (built (menv_current_user env) b (pairs "agent_app" DML))).
  { rewrite (stg_tables _ _ _ _ _ _ Hs). apply str_in_spec in Hin as ->. by rewrite Hb. }
  apply List.find_some in Hb as [Hb <-%bool_decide_eq_true]. apply list_elem_of_In in Hb.
  destruct (blocks_tenancy _ Hb) as (_ & Horg & _). split; [done|]. split.
  - intros p Hp. unfold may. rewrite Hk. apply orb_true_iff. right. rewrite bool_decide_eq_true_2 by by apply Husage.
    rewrite bool_decide_eq_true_2; [apply orb_true_r|]. apply elem_of_list_to_set, list_elem_of_fmap. eauto.
  - intros Hout role settings row Hr. apply built_row_visible; [|done].
    destruct (blk_tenant b) eqn:Hbt; [done|]. by destruct Hout; apply Horg.
Qed.

End Visibility.

(** ** An Alembic that keeps its documentation *)

Section FollowLinks.

Fixpoint follow_links (fuel : nat) (base : option string) (files : list Migration) : list Migration :=
  match fuel with
  | O => []
  | S n => match List.find (fun m => bool_decide (mig_down_revision m = base)) files with
           | Some m => m :: follow_links n (Some (mig_revision m)) files
           | None => []
           end
  end.

Definition follow : Alembic := {|
  alembic_plan command files revision :=
    match command with
    | UpgradeHead => follow_links (length files) revision files
    | DowngradeBase => reverse (follow_links (length files) None files)
    end
|}.

Lemma linked_down base l m : linked base l → m ∈ l → mig_down_revision m = base ∨ ∃ r, r ∈ mig_revision <$> l ∧ mig_down_revision m = Some r.
Proof.
  revert base. induction l as [|m0 l IH]; intros base; [by intros _ ?%elem_of_nil|].
  cbn. intros [Hb Hl] [->|Hm]%elem_of_cons; [by left|]. right.
  destruct (IH _ Hl Hm) as [Hd|(r & Hr & Hd)]; (eexists; split; [|exact Hd]); by constructor.
Qed.

Lemma linked_unique base l m m' :
  linked base l → NoDup (mig_revision <$> l) → (∀ r, base = Some r → r ∉ mig_revision <$> l) →
  m ∈ l → m' ∈ l → mig_down_revision m = mig_down_revision m' → m = m'.
Proof.
  revert base. induction l as [|m0 l IH]; intros base; [by intros _ _ _ ?%elem_of_nil|].
  cbn [linked fmap list_fmap]. intros [Hb Hl] [H0 Hnd]%NoDup_cons Hbase.
  assert (∀ m1, m1 ∈ l → mig_down_revision m1 ≠ base) as Hne.
  { intros m1 Hm1 Heq. destruct (linked_down _ _ _ Hl Hm1) as [Hd|(r & Hr & Hd)]; rewrite Hd in Heq;
      apply (Hbase _ (eq_sym Heq)); constructor; done. }
  intros [->|Hm]%elem_of_cons [->|Hm']%elem_of_cons Heq; [done|..].
  - exfalso. apply (Hne _ Hm'). congruence.
  - exfalso. apply (Hne _ Hm). congruence.
  - eapply IH; [exact Hl|exact Hnd| |done..]. intros r [= <-]. done.
Qed.

Lemma follow_suffix files c pre l base :
  files ≡ₚ c → linked None c → NoDup (mig_revision <$> c) → c = pre ++ l → linked base l →
  follow_links (length l) base files = l.
Proof.
  intros Hp Hc Hnd. revert pre base. induction l as [|m l IH]; intros pre base Heq; [done|].
  cbn [linked length follow_links]. intros [Hb Hl].
  destruct (List.find (fun m => bool_decide (mig_down_revision m = base)) files) as [m'|] eqn:Hf.
  - apply List.find_some in Hf as [Hin Hd%bool_decide_eq_true].
    assert (m' = m) as ->.
    { eapply (linked_unique None c); [done|done|done| | |congruence].
      - rewrite <- Hp. by apply list_elem_of_In.
      - rewrite Heq. apply elem_of_app. right. by left. }
    f_equal. apply (IH (pre ++ [m])); [by rewrite <- app_assoc|done].
  - pose proof (List.find_none _ _ Hf m) as Hnone. cbn in Hnone. rewrite bool_decide_eq_true_2 in Hnone by done.
    discriminate Hnone. apply list_elem_of_In. rewrite Hp, Heq. apply elem_of_app. right. by left.
Qed.

#[local] Existing Instance follow.

Lemma follow_laws : AlembicLaws.
Proof.
  split; intros files l Hp Hl Hnd; cbn; rewrite (Permutation_length Hp);
    by rewrite (follow_suffix files l [] l None Hp Hl Hnd).
Qed.
End FollowLinks.

(** ** A [text()] that keeps its documentation

    A backslash escapes a colon; any other colon before a name is a parameter's. *)

Fixpoint documented_text (s : string) : option string :=
  match s with
  | "" => Some ""
  | String c s' =>
      if decide (c = "\"%char)
      then match s' with String ":" s'' => String ":" <$> documented_text s'' | _ => String c <$> documented_text s' end
      else if decide (c = ":"%char)
      then match s' with
           | String c' _ => if is_word c' then None else String c <$> documented_text s'
           | "" => Some ":"
           end
      else String c <$> documented_text s'
  end.

Lemma documented_laws : @SqlTextLaws documented_text.
Proof.
  intros s. unfold text_literal. induction s as [|c s IH]; [done|]. cbn [str_contains]. intros [Hc Hs]%orb_false_iff.
  specialize (IH Hs). unfold str_startswith in Hc. cbn [drop_prefix] in Hc.
  destruct (decide (":"%char = c)) as [|Hne]; [done|]. cbn [documented_text].
  rewrite (decide_False (P := c = ":"%char)) by congruence. rewrite IH. case_decide; [|done].
  destruct s as [|c' s]; [done|]. cbn [str_contains] in Hs. unfold str_startswith in Hs. cbn [drop_prefix] in Hs.
  destruct (decide (":"%char = c')) as [|Hne']; [done|]. destruct c' as [[] [] [] [] [] [] [] []]; done.
Qed.
