(* ===== verification/Platform.v ===== *)
(** agent-gateway and agent-harness as one system: the harness's routes behind
    FastAPI, the network between the two, and the gateway's handlers on top.

    The gateway's HTTP client ([HarnessHttp]) is implemented here by serializing
    the request, losing or delivering it, and running the harness's handler on the
    harness's own state. FastAPI's part is what it documents: a body that does not
    validate is a 422, a handler's HTTPException is its status, any other exception
    a 500, a returned model is serialized into a 200. *)
From S2P Require Import Prelude PyStr Json Presidio Http Tracing Contracts Wire Redis Quota JobsDb Gateway Clients.
From S2P Require Import Authz Executor Guardrails SemCache Graph HarnessDb Approvals Runner.

(** ** The bodies of the internal requests and answers *)

Section Bodies.
  Context `{Pydantic}.

(* @ gateway/clients/harness.py:35-45 decide_approval: the body *)
Definition dump_decision_request (r : ApprovalDecisionInternalRequest) : json :=
  JObj [("trace_id", JStr (adq_trace_id r)); ("tenant_id", JStr (adq_tenant_id r));
        ("approver_user_id", JStr (adq_approver_user_id r));
        ("approver_permissions", j_strs (adq_approver_permissions r));
        ("decision", JStr (enum_value (adq_decision r)))].

Definition validate_decision_request : json → option ApprovalDecisionInternalRequest :=
  d_obj ["trace_id"; "tenant_id"; "approver_user_id"; "approver_permissions"; "decision"] (fun kvs =>
    tr ← required "trace_id" d_str kvs; t ← required "tenant_id" d_str kvs;
    u ← required "approver_user_id" d_str kvs;
    ps ← default "approver_permissions" (d_list d_str) [] kvs;
    d ← required "decision" d_enum kvs;
    Some (MkApprovalDecisionInternalRequest tr t u ps d)).

(* @ gateway/clients/harness.py:47-63 set_tool_killswitch, set_agent_killswitch: the body *)
Definition dump_killswitch_request (r : KillswitchInternalRequest) : json :=
  JObj [("disabled", JBool (kir_disabled r)); ("reason", j_opt_str (kir_reason r));
        ("changed_by", JStr (kir_changed_by r))].

Definition validate_killswitch_request : json → option KillswitchInternalRequest :=
  d_obj ["disabled"; "reason"; "changed_by"] (fun kvs =>
    d ← required "disabled" lax_bool kvs; r ← default "reason" (d_opt d_str) None kvs;
    c ← required "changed_by" d_str kvs; Some (MkKillswitchInternalRequest d r c)).

Definition dump_decision_response (r : ApprovalDecisionResponse) : json :=
  JObj [("approval_id", JStr (apd_approval_id r)); ("status", JStr (apd_status r));
        ("mutation_status", JStr (apd_mutation_status r)); ("business_ref", j_opt_str (apd_business_ref r))].

Definition dump_killswitch_response (r : KillswitchResponse) : json :=
  JObj [("name", JStr (ksr_name r)); ("kind", JStr (ksr_kind r)); ("disabled", JBool (ksr_disabled r))].
End Bodies.

(** ** The network *)

(** What becomes of a call: it is delivered and answered, it never arrives, or it
    arrives and runs while the client has stopped waiting. *)
Inductive Fate := Delivered | Unreachable | TimedOut.

(** The harness's process, the fates of the calls to come ([Delivered] when none
    is left), and the gateway's other surroundings. *)
Record Net (X Y : Type) := MkNet {
  net_harness : HarnessState X;
  net_fates : list Fate;
  net_rest : Y
}.
Arguments MkNet {X Y}.
Arguments net_harness {X Y}.
Arguments net_fates {X Y}.
Arguments net_rest {X Y}.
#[export] Instance eta_Net {X Y} : EtaRec (Net X Y) := fun x => MkNet (net_harness x) (net_fates x) (net_rest x).

(** The text of a JSON body, as the server sends it. *)
Class ResponseText := response_text : json → string.

(** A NUL is escaped in JSON text. *)
Class ResponseTextLaws `{ResponseText} : Prop := response_text_plain j : no_nul (response_text j) = true.

Section Platform.
  Context {X Y : Type} `{HttpPost X, Uuid X, PolicyResolver X, CacheIndex X, Checkpointer X, PerfCounter X,
                         AdminRedis X, LangfuseSdk X, Uuid Y, Broker Y}.
  Context `{Pydantic, JsonLoads, FloatParse, FloatRepr, Presidio, Sha256, ResponseText}.
  Variable app : AppState.

Abbreviation N := (Net X Y).

Definition json_response (status : Z) (body : json) (hs : list (string * string)) : HttpResponse :=
  MkHttpResponse status (response_text body) body hs.

(** The answer to a handler's outcome. *)
Definition answer (outcome : exn + json) : HttpResponse :=
  match outcome with
  | inr body => json_response 200 body []
  | inl (HTTPException status detail hs) => json_response status (JObj [("detail", detail)]) hs
  | inl _ => MkHttpResponse 500 "Internal Server Error" JNull []
  end.

(** A route: its body is validated, its handler run, its answer serialized. *)
Definition serve {A B} (validate : json → option A) (handler : A → py (HarnessState X) B) (dump : B → json)
    (body : json) : HarnessState X → HarnessState X * HttpResponse :=
  fun s =>
    match validate body with
    | None => (s, json_response 422 (JObj [("detail", JStr (validation_text "body" body))]) [])
    | Some r => let '(s', outcome) := handler r s in (s', answer (sum_map id dump outcome))
    end.

(* @ harness/api/routes.py:23-23 create_run: the route *)
Definition serve_run : json → HarnessState X → HarnessState X * HttpResponse :=
  serve validate_run_request (create_run app) dump_response.

(* @ harness/api/routes.py:36-38 approval_decision: the route *)
Definition serve_decision (approval_id : string) : json → HarnessState X → HarnessState X * HttpResponse :=
  serve validate_decision_request (Approvals.approval_decision (gc_tool_manifests (app_graph app)) approval_id)
    dump_decision_response.

(* @ harness/api/routes.py:67-67 killswitch_tool: the route *)
Definition serve_killswitch_tool (tool_name : string) : json → HarnessState X → HarnessState X * HttpResponse :=
  serve validate_killswitch_request (killswitch_tool tool_name) dump_killswitch_response.

(* @ harness/api/routes.py:94-94 killswitch_agent: the route *)
Definition serve_killswitch_agent (agent_id : string) : json → HarnessState X → HarnessState X * HttpResponse :=
  serve validate_killswitch_request (killswitch_agent agent_id) dump_killswitch_response.

Definition next_fate (n : N) : Fate := from_option id Delivered (head (net_fates n)).

(** One call to the harness. *)
Definition call (handler : HarnessState X → HarnessState X * HttpResponse) : py N HttpResponse :=
  fun n =>
    let n1 := n <| net_fates ::= tail |> in
    match next_fate n with
    | Unreachable => (n1, inl (HttpxError "All connection attempts failed"))
    | TimedOut => (n1 <| net_harness := (handler (net_harness n)).1 |>, inl (HttpxTimeout ""))
    | Delivered => let '(h, r) := handler (net_harness n) in (n1 <| net_harness := h |>, inr r)
    end.

#[export] Instance platform_http : HarnessHttp N := {|
  post_runs r := call (serve_run (dump_run_request r));
  post_decision id r := call (serve_decision id (dump_decision_request r));
  post_killswitch_tool name r := call (serve_killswitch_tool name (dump_killswitch_request r));
  post_killswitch_agent id r := call (serve_killswitch_agent id (dump_killswitch_request r))
|}.

Definition on_rest {A} : py Y A → py N A := zoom net_rest (fun y n => n <| net_rest := y |>).

#[export] Instance platform_uuid : Uuid N := on_rest uuid4_hex.
#[export] Instance platform_broker : Broker N := fun exchange key message => on_rest (basic_publish exchange key message).
End Platform.
