(* ===== verification/PlatformProps.v ===== *)
(** The gateway and agent-harness together: what a request that is admitted
    leaves on both sides of the network, whatever becomes of the call. *)
From S2P Require Import Prelude PyStr Json Presidio Http Tracing Contracts Wire Redis Quota JobsDb Gateway GatewayProps.
From S2P Require Import Clients Authz Executor Guardrails SemCache Graph HarnessDb Approvals Runner RunnerProps Platform.

Section Across.
  Context {R X Y : Type} `{RedisLaws R}.
  Context `{HttpPost X, Uuid X, PolicyResolver X, CacheIndex X, Checkpointer X, PerfCounter X, AdminRedis X,
            LangfuseSdk X, !CheckpointerLaws X, Uuid Y, Broker Y, Jwt, Hashing}.
  Context `{PydanticLaws, JsonLoads, FloatParse, FloatRepr, Presidio, Sha256, ResponseText}.
  Variables (app : AppState) (settings : GatewaySettings).

#[local] Abbreviation N := (Net X Y).
#[local] Instance across_http : HarnessHttp N := platform_http app.
#[local] Instance across_uuid : Uuid N := platform_uuid.
#[local] Instance across_broker : Broker N := platform_broker.

Implicit Types (w : GatewayState R N) (h : HarnessState X).

Hypothesis ids : ∀ y : Y, ∃ y' i, uuid4_hex y = (y', inr i) ∧ no_nul i = true.
Hypothesis dates : ∀ f, no_nul (utc_isoformat f) = true.

(** The network raises [httpx.HTTPError]s only. *)
Lemma across_laws : ClientLaws (X := N).
Proof.
  split; [| |exact dates].
  - intros n. unfold uuid4_hex, across_uuid, platform_uuid, on_rest, zoom.
    destruct (ids (net_rest n)) as (y' & i & Hi & Htext). rewrite Hi. by eexists _, _.
  - intros n n' r e. unfold post_runs, across_http, platform_http, call. destruct (next_fate n); cbn.
    + by destruct (serve_run _ _ _).
    + by intros [= _ <-].
    + by intros [= _ <-].
Qed.
#[local] Existing Instance across_laws.

(** ** One call *)

Lemma create_run_answers request h h' resp :
  create_run app request h = (h', inr resp) → run_agent app request h = (h', inr resp).
Proof.
  unfold create_run, try_except. destruct (run_agent app request h) as [h1 [e|r]]; [|done]. by destruct e.
Qed.

(** An exception whose answer is not a 2xx: all but an HTTPException made to look like one. *)
Definition fails (e : exn) : Prop :=
  match e with HTTPException status _ _ => ¬ (200 ≤ status < 300)%Z | _ => True end.

(** What the client makes of a delivered call. *)
Definition read_run (response : HttpResponse) : py N AgentInvokeResponse :=
  raise_for_status response ;! model_validate "AgentInvokeResponse" validate_response (hr_json response).

Lemma read_failure e (n : N) : fails e → ∃ m, read_run (answer (inl e)) n = (n, inl (HttpxError m)).
Proof.
  intros He. unfold read_run, raise_for_status. destruct e; cbn in He |- *; try (eexists; reflexivity).
  destruct (Z.leb_spec 200 status_code), (Z.ltb_spec status_code 300); cbn; try (eexists; reflexivity). lia.
Qed.

Lemma read_response resp (n : N) :
  wf_response resp → read_run (answer (inr (dump_response resp))) n = (n, inr resp).
Proof.
  intros Hwf. unfold read_run. rewrite (bind_inr _ _ n n tt) by done. unfold model_validate. cbn [answer json_response hr_json].
  by rewrite response_round.
Qed.

Lemma read_run_pure response (n : N) : (read_run response n).1 = n.
Proof.
  unfold read_run, raise_for_status, bind, model_validate, raise, ret. destruct (_ && _); [|done]. by destruct (validate_response _).
Qed.

(** What the client sees, and what it leaves of agent-harness, by the call's fate. *)
Lemma harness_run_across request (n n' : N) outcome :
  wf_budget (run_budget request) → harness_run request n = (n', outcome) →
  let h := net_harness n in
  let '(h', r) := create_run app request h in
  match next_fate n with
  | Unreachable => net_harness n' = h ∧ ∃ m, outcome = inl (HttpxError m)
  | TimedOut => net_harness n' = h' ∧ ∃ m, outcome = inl (HttpxTimeout m)
  | Delivered => net_harness n' = h' ∧
      match r with inr resp => outcome = inr resp | inl e => fails e → ∃ m, outcome = inl (HttpxError m) end
  end.
Proof.
  intros Hb. cbn zeta. destruct (create_run app request (net_harness n)) as [h' r] eqn:Hrun.
  assert (Hserve : serve_run app (dump_run_request request) (net_harness n) = (h', answer (sum_map id dump_response r))).
  { unfold serve_run, serve. rewrite run_request_round by done. by rewrite Hrun. }
  change (harness_run request n) with (bind (post_runs request) read_run n).
  unfold bind, post_runs, across_http, platform_http, call. destruct (next_fate n).
  - rewrite Hserve. match goal with |- read_run ?resp ?n1 = _ → _ => pose proof (read_run_pure resp n1) as Hn end.
    intros Hread. rewrite Hread in Hn. cbn in Hn. split; [by rewrite Hn|].
    destruct r as [e|resp].
    + intros He. edestruct (read_failure e) as [m Hm]; [done|]. change (sum_map _ _ _) with (inl (B := json) e) in Hread.
      rewrite Hm in Hread. exists m. congruence.
    + apply create_run_answers in Hrun as Hwf%run_agent_wf. change (sum_map _ _ _) with (inr (A := exn) (dump_response resp)) in Hread.
      rewrite read_response in Hread by done. congruence.
  - intros [= <- <-]. split; [done|by eexists].
  - rewrite Hserve. intros [= <- <-]. split; [done|by eexists].
Qed.

(** ** A request from end to end *)

(** The row agent-harness keeps of a run. *)
Definition ledger_row (t run : string) (resp : AgentInvokeResponse) h h' : Prop :=
  hdb_agent_runs (hst_db h) !! run = None ∧
  ∃ row, hdb_agent_runs (hst_db h') !! run = Some row ∧ arr_tenant_id row = t ∧
    arr_input_tokens row = usg_input_tokens (res_usage resp) ∧
    arr_output_tokens row = usg_output_tokens (res_usage resp).

Lemma create_run_row request h h' resp :
  create_run app request h = (h', inr resp) → ledger_row (run_tenant_id request) (run_run_id request) resp h h'.
Proof.
  intros (c & ms & st & x & Hrec & Hresp & _)%create_run_answers%run_agent_answers.
  destruct (rd_run _ _ _ _ _ _ _ _ Hrec) as [Hnone Hsome].
  destruct Hresp as (_ & _ & _ & _ & Hin & Hout & _).
  split; [done|]. eexists. split; [exact Hsome|]. cbn. by rewrite Hin, Hout.
Qed.

(** Drawing an id is the gateway's own business. *)
Lemma fresh_run_id_across (n n' : N) run :
  uuid_id "run_" n = (n', inr run) → net_harness n' = net_harness n ∧ next_fate n' = next_fate n.
Proof.
  unfold uuid_id, bind, across_uuid, platform_uuid, on_rest, zoom, uuid4_hex.
  match goal with |- context [?f (net_rest n)] => destruct (f (net_rest n)) as [y [e|i]] end; by intros [= <- _].
Qed.

(** The caller's identity in a run's request. *)
Definition acts_as (auth : AuthContext) (request : AgentRunRequest) : Prop :=
  run_tenant_id request = au_tenant_id auth ∧ run_user_id request = au_user_id auth ∧
  run_permissions request = au_permissions auth ∧ run_roles request = au_roles auth ∧
  run_acl_group_ids request = au_acl_group_ids auth ∧ run_employee_id request = au_employee_id auth ∧
  run_scope_context request = au_scope_context auth ∧ run_subject_token request = Some (au_raw_token auth).

End Across.

(** ** The two services at work *)

Module Witness.
Import RunnerProps.Witness GatewayProps.Demo.

#[global] Instance demo_text : ResponseText := @json_text coded_text.

#[global] Instance demo_text_laws : @ResponseTextLaws demo_text.
Proof. intros j. apply no_nul_Z. Qed.

#[local] Abbreviation N := (Net RunnerProps.Witness.env Demo.env).
#[local] Instance harness_http : HarnessHttp N := across_http app.
#[local] Instance harness_uuid : Uuid N := across_uuid.
#[local] Instance harness_broker : Broker N := across_broker.

Definition ask : AgentInvokeRequest :=
  MkAgentInvokeRequest None "leave-bot" (MkAgentInput "ajukan cuti tujuh hari")
    (MkInvokeContext None None) (MkRunOptions false 1024 true).

Definition deployed (fates : list Fate) : GatewayState Store.store N :=
  MkGatewayState (MkQuotaState (∅ : Store.store) (f64_of_Z 1000) []) (MkJobsDb ∅ ∅ "now")
    (MkNet (before "submit_leave_request") fates (Demo.MkEnv [] [] [] 0)).

Definition charge (w : GatewayState Store.store N) : option Z :=
  counter (quota_key "tnt_a" "sync") (q_redis (gw_quota w)).

Lemma uncharged fates : charge (deployed fates) = Some 0%Z.
Proof. reflexivity. Qed.

Lemma deployed_admitted : admitted (X := N) (R := Store.store) settings Demo.hs GatewayProps.Witness.auth "k1" "trc_1".
Proof. by repeat split. Qed.

Lemma demo_ids (y : Demo.env) : ∃ y' i, uuid4_hex y = (y', inr i) ∧ no_nul i = true.
Proof. eexists _, _. split; [reflexivity|apply no_nul_Z]. Qed.

Lemma demo_dates f : no_nul (utc_isoformat f) = true.
Proof. reflexivity. Qed.

Definition run_request := build_run_request GatewayProps.Witness.auth "run_10000000000000000000" "trc_1" "sync" SYNC
  (request_tokens ask) (eval_mode_of Demo.hs) ask.

Lemma run_answers : match (create_run app run_request (before "submit_leave_request")).2 with
                    | inr _ => true | inl _ => false end = true.
Proof. vm_compute. reflexivity. Qed.

End Witness.
