(* ===== verification/PlatformJobs.v ===== *)
(** async-worker in the same system as agent-gateway and agent-harness: the worker
    calls the harness's routes over the network of [Platform], on the tables and
    the reservations the gateway left. What becomes of an accepted job, by what
    becomes of the worker's call. *)
From S2P Require Import Prelude PyStr Json Presidio Http Tracing Contracts Wire Redis Quota QuotaLedger JobsDb Gateway GatewayProps.
From S2P Require Import Clients Authz Executor Guardrails SemCache Graph HarnessDb Approvals Runner RunnerProps Platform PlatformProps.
From S2P Require AsyncWorker AsyncWorkerProps.

(** ** The worker on the network *)

Section WorkerNet.
  Import AsyncWorker.
  Context {X V : Type} `{HttpPost X, Uuid X, PolicyResolver X, CacheIndex X, Checkpointer X, PerfCounter X,
                         AdminRedis X, LangfuseSdk X, CallbackHttp V, Amqp V}.
  Context `{Pydantic, JsonLoads, FloatParse, FloatRepr, Presidio, Sha256, ResponseText}.
  Variable app : AppState.

(** Its [HarnessClient] posts to the same route as the gateway's; callbacks and the
    broker are elsewhere. *)
(* @ async_worker/clients/harness.py:29-33 HarnessClient.run: the request *)
Definition worker_http : RunsHttp (Net X V) := fun request => call (serve_run app (dump_run_request request)).
Definition worker_hooks : CallbackHttp (Net X V) := fun url headers body => on_rest (post_callback url headers body).
Definition worker_amqp : Amqp (Net X V) := {| amqp_publish p := on_rest (amqp_publish p); amqp_ack := on_rest amqp_ack |}.
End WorkerNet.

Section Jobs.
  Import AsyncWorker AsyncWorkerProps Platform.
  Context {R X V : Type} `{RedisLaws R}.
  Context `{HttpPost X, Uuid X, PolicyResolver X, CacheIndex X, Checkpointer X, PerfCounter X, AdminRedis X,
            LangfuseSdk X, !CheckpointerLaws X}.
  Context `{CallbackHttp V, Amqp V, !ReliableBroker V, Hmac, JsonText, !JsonTextLaws}.
  Context `{PydanticLaws, JsonLoads, FloatParse, FloatRepr, Presidio, Sha256, ResponseTextLaws}.
  Variables (app : AppState) (sender : WebhookSender) (key : string).

#[local] Abbreviation N := (Net X V).
#[local] Instance jobs_http : RunsHttp N := worker_http app.
#[local] Instance jobs_hooks : CallbackHttp N := worker_hooks.
#[local] Instance jobs_amqp : Amqp N := worker_amqp.

Implicit Types (v : WorkerState R N) (m : AsyncJobMessage) (h : HarnessState X).

#[local] Instance jobs_broker : ReliableBroker N.
Proof.
  split.
  - intros p n. cbn. unfold on_rest, zoom. destruct (publish_ok p (net_rest n)) as [x ->]. by eexists.
  - intros n. cbn. unfold on_rest, zoom. destruct (ack_ok (net_rest n)) as [x ->]. by eexists.
Qed.

(** ** The worker's call *)

(** An exception the harness answers with an error status. *)
Definition refuses (e : exn) : Prop :=
  match e with HTTPException status _ _ => (400 ≤ status)%Z | _ => True end.

Definition read_answer (response : HttpResponse) : py N AgentInvokeResponse :=
  if (500 <=? hr_status_code response)%Z
  then raise (HarnessError (hr_status_code response) (hr_text response) true)
  else if (400 <=? hr_status_code response)%Z
  then raise (HarnessError (hr_status_code response) (hr_text response) false)
  else model_validate "AgentInvokeResponse" validate_response (hr_json response).

(** What the client makes of a delivered call. *)
Definition read_as (r : exn + AgentInvokeResponse) (outcome : exn + AgentInvokeResponse) : Prop :=
  match r with
  | inr resp => outcome = inr resp
  | inl e => (∀ resp, outcome ≠ inr resp) ∧
      (refuses e → ∃ s d b, outcome = inl (HarnessError s d b) ∧ no_nul d = true)
  end.

Lemma read_answer_spec r (n : N) :
  (∀ resp, r = inr resp → wf_response resp) →
  ∃ outcome, read_answer (answer (sum_map id dump_response r)) n = (n, outcome) ∧ read_as r outcome.
Proof.
  intros Hwf. unfold read_answer. destruct r as [e|resp]; cbn [sum_map].
  - destruct e; cbn -[no_nul]; try (by eexists; split; [reflexivity|]; split; [done|by eexists _, _, _]).
    destruct (Z.leb_spec 500 status_code);
      [eexists; split; [reflexivity|]; split; [done|]; eexists _, _, _; split; [done|apply response_text_plain]|].
    destruct (Z.leb_spec 400 status_code);
      [eexists; split; [reflexivity|]; split; [done|]; eexists _, _, _; split; [done|apply response_text_plain]|].
    eexists. split; [reflexivity|]. split; [done|lia].
  - unfold model_validate. cbn [answer json_response hr_status_code hr_json Z.leb Z.compare Pos.compare Pos.compare_cont].
    rewrite response_round by by apply Hwf. by eexists.
Qed.

(** What the worker sees of a call, and what the call leaves of agent-harness. *)
Lemma worker_run_across request (n n' : N) outcome :
  wf_budget (run_budget request) → harness_run request n = (n', outcome) →
  let h := net_harness n in
  let '(h', r) := create_run app request h in
  match next_fate n with
  | Unreachable => net_harness n' = h ∧ ∃ d, outcome = inl (HarnessError 503 d true) ∧ no_nul d = true
  | TimedOut => net_harness n' = h' ∧ ∃ d, outcome = inl (HarnessError 504 d true) ∧ no_nul d = true
  | Delivered => net_harness n' = h' ∧ read_as r outcome
  end.
Proof.
  intros Hb. cbn zeta. destruct (create_run app request (net_harness n)) as [h' r] eqn:Hrun.
  assert (Hserve : serve_run app (dump_run_request request) (net_harness n) = (h', answer (sum_map id dump_response r))).
  { unfold serve_run, serve. rewrite run_request_round by done. by rewrite Hrun. }
  unfold harness_run, bind, try_except, post_run, jobs_http, worker_http, call. destruct (next_fate n).
  - rewrite Hserve. match goal with |- _ ?n1 = _ → _ => destruct (read_answer_spec r n1) as (o & Hread & Ho) end.
    { intros resp ->. by apply create_run_answers in Hrun as Hwf%run_agent_wf. }
    intros Heq. unfold read_answer in Hread. rewrite Hread in Heq. by injection Heq as <- <-.
  - intros [= <- <-]. split; [done|by eexists].
  - rewrite Hserve. intros [= <- <-]. split; [done|by eexists].
Qed.

(** ** Everything else leaves agent-harness alone *)

Definition same_harness v v' : Prop := net_harness (aw_ext v') = net_harness (aw_ext v).

#[local] Instance same_harness_preorder : PreOrder same_harness.
Proof. split; [done|]. intros a b c Hab Hbc. unfold same_harness in *. congruence. Qed.

Lemma ext_same {A} (call : py V A) : frames same_harness (in_ext (R := R) (on_rest (X := X) call)).
Proof.
  apply frames_zoom. intros v. unfold on_rest, zoom, same_harness. by destruct (call (net_rest (aw_ext v))).
Qed.

Lemma session_same {A} m (body : py JobsConn A) : frames same_harness (session (R := R) (X := N) m body).
Proof. by apply frames_zoom. Qed.

Lemma redis_same {A} (script : py R A) : frames same_harness (in_redis (X := N) script).
Proof. by apply frames_zoom. Qed.

Lemma modify_same (f : WorkerState R N → WorkerState R N) :
  (∀ v, aw_ext (f v) = aw_ext v) → frames (E := exn) same_harness (modify f).
Proof. intros Hf v. cbn. unfold same_harness. by rewrite Hf. Qed.

#[local] Hint Resolve ext_same session_same redis_same : frames.

#[local] Ltac framed :=
  repeat first
    [ progress intros
    | solve [eauto with frames typeclass_instances]
    | apply (frames_ret same_harness) | apply (frames_raise same_harness) | apply (frames_gets same_harness)
    | apply (frames_bind same_harness) | apply (frames_try same_harness)
    | case_match; simplify_eq ].
#[local] Hint Extern 1 (frames same_harness (modify _)) => apply modify_same; intros []; reflexivity : frames.

Lemma send_same url ref payload : frames same_harness (send (R := R) (X := N) sender url ref payload).
Proof.
  unfold send. generalize (webhook_headers sender ref (json_text (dump_webhook payload))) as hs.
  generalize (json_text (dump_webhook payload)) as text. intros text hs.
  assert (Honce : frames same_harness (deliver_once (R := R) (X := N) url hs text)).
  { unfold deliver_once. framed. }
  induction (whs_backoff sender) as [|pause l IH]; cbn [send_attempts]; unfold sleep; framed.
Qed.

#[local] Hint Resolve send_same : frames.

Lemma webhook_same m status result error :
  frames same_harness (send_terminal_webhook (R := R) (X := N) sender m status result error).
Proof. unfold send_terminal_webhook. framed. Qed.

#[local] Hint Resolve webhook_same : frames.

Lemma failed_same m s d b : frames same_harness (attempt_failed (R := R) (X := N) sender m s d b).
Proof. unfold attempt_failed, inc. framed. Qed.

Lemma succeeded_same m result : frames same_harness (attempt_succeeded (R := R) (X := N) sender m result).
Proof. unfold attempt_succeeded. framed. Qed.

Lemma publish_same p : frames same_harness (publish (R := R) (X := N) p).
Proof. unfold publish, amqp. apply (frames_bind same_harness); [exact (ext_same (amqp_publish p))|framed]. Qed.

Lemma ack_same : frames same_harness (ack (R := R) (X := N)).
Proof. unfold ack, amqp. apply (frames_bind same_harness); [exact (ext_same amqp_ack)|framed]. Qed.

#[local] Hint Resolve failed_same succeeded_same publish_same ack_same : frames.

(** An attempt's only dealing with agent-harness is its call. *)
Lemma process_job_harness m v :
  net_harness (aw_ext (process_job sender key m v).1) =
    match ready m (aw_db v) with
    | None => net_harness (aw_ext v)
    | Some _ => net_harness (harness_run (request_of key m) (aw_ext v)).1
    end.
Proof.
  unfold process_job.
  match goal with |- context [bind ?claim ?k v] => assert (Hc : ∃ d, claim v = (v <| aw_db := d |>,
    inr (match ready m (aw_db v) with Some _ => true | None => false end))) end.
  { unfold session, in_db, zoom, ready. rewrite session_claim. destruct (reaches _ _ _ _); by eexists. }
  destruct Hc as [d Hc]. rewrite (bind_inr _ _ _ _ _ Hc).
  destruct (ready m (aw_db v)) as [row|]; cbn [negb]; [|done].
  unfold bind at 1, try_except, bind at 1, in_ext, zoom. fold (request_of key m). cbn [aw_ext].
  change (aw_ext (v <| aw_db := d |>)) with (aw_ext v).
  destruct (harness_run (request_of key m) (aw_ext v)) as [x [e|result]]; cbn [fst snd].
  - destruct e; cbn [ret raise]; try done.
    exact (failed_same m status_code detail retriable (v <| aw_db := d |> <| aw_ext := x |>)).
  - exact (succeeded_same m result (v <| aw_db := d |> <| aw_ext := x |>)).
Qed.

Lemma handle_harness m body v :
  decode_message body = Some m →
  net_harness (aw_ext (handle sender key body v).1) = net_harness (aw_ext (process_job sender key m v).1).
Proof.
  intros Hdec. unfold handle. rewrite Hdec. unfold bind at 1, try_except, bind at 1.
  assert (Hretry : frames same_harness (schedule_retry (R := R) (X := N) m)) by (unfold schedule_retry; framed).
  assert (Hsend : ∀ o, frames same_harness ((match o with
    | ORETRY => schedule_retry (R := R) (X := N) m | ODEAD_LETTERED => publish_to_dlq m | _ => ret tt end) ;! ack)).
  { intros o. unfold publish_to_dlq. destruct o; framed. }
  assert (Hdlq : frames same_harness (publish_to_dlq (R := R) (X := N) m ;! ack ;! ret (@None JobOutcome))).
  { unfold publish_to_dlq. framed. }
  destruct (process_job sender key m v) as [v1 [e|o]]; cbn [ret fst]; [|exact (Hsend o v1)].
  pose proof (Hdlq v1) as Hv. destruct ((publish_to_dlq m ;! ack ;! ret None) v1) as [v2 [e'|[o|]]]; cbn [fst] in *; try exact Hv.
  etrans; [exact (Hsend o v2)|exact Hv].
Qed.

(** One delivery, on both sides of the network. *)
Lemma delivery_across m body v row :
  decode_message body = Some m → ready m (aw_db v) = Some row →
  ∃ v1 v' r sent x outcome,
    attempted key m v v1 r ∧ follow_up m r sent ∧ handle sender key body v = (v', inr tt) ∧
    aw_amqp v' = aw_amqp v ++ sent ++ [Acked] ∧ aw_db v' = aw_db v1 ∧ aw_redis v' = aw_redis v1 ∧
    harness_run (request_of key m) (aw_ext v) = (x, outcome) ∧ net_harness (aw_ext v') = net_harness x.
Proof.
  intros Hdec Hready. destruct (handle_run sender key m body v Hdec) as (v1 & v' & r & sent & Hatt & Hf & Hh & Hd & Hr & Ha).
  destruct (harness_run (request_of key m) (aw_ext v)) as [x outcome] eqn:Hrun.
  exists v1, v', r, sent, x, outcome. split_and!; try done.
  pose proof (handle_harness m body v Hdec) as Hn. rewrite Hh, process_job_harness, Hready, Hrun in Hn. exact Hn.
Qed.

(** ** A run that is on record cannot be answered again *)

Lemma create_run_stays request h id row :
  hdb_agent_runs (hst_db h) !! id = Some row → hdb_agent_runs (hst_db (create_run app request h).1) !! id = Some row.
Proof.
  intros Hrow. pose proof (run_agent_runs_stay app request h id row Hrow) as Hstay. unfold create_run, try_except.
  destruct (run_agent app request h) as [h1 [e|r]]; [|done]. by destruct e.
Qed.

(** An attempt without an answer settles nothing and does not make a job succeed. *)
Lemma attempt_unanswered m v v' r x outcome j :
  attempted key m v v' r → harness_run (request_of key m) (aw_ext v) = (x, outcome) → (∀ resp, outcome ≠ inr resp) →
  aw_redis v' = aw_redis v ∧
  ∀ row, jdb_async_jobs (aw_db v') !! j = Some row →
    jdb_async_jobs (aw_db v) !! j = Some row ∨ jrow_status row ≠ "succeeded".
Proof.
  intros Hatt Hcall Hnone.
  assert (Hput : ∀ row', aw_db v' = put_row (job_job_id m) row' (aw_db v) → jrow_status row' ≠ "succeeded" →
    ∀ row, jdb_async_jobs (aw_db v') !! j = Some row → jdb_async_jobs (aw_db v) !! j = Some row ∨ jrow_status row ≠ "succeeded").
  { intros row' -> Hs row. cbn. destruct (decide (job_job_id m = j)) as [->|Hne].
    - rewrite lookup_insert_eq. intros [= <-]. by right.
    - rewrite lookup_insert_ne by done. by left. }
  destruct Hatt as [Hr|row w' x' e Hr Hc He Hd Hq _|row w' x' res e Hr Hc _ _ _|row w' x' s d b Hr Hc _ Hd Hq _
                   |row w' x' res Hr Hc _ _ _ _|row w' x' s d Hr Hc _ _ Hd Hq _
                   |row row' w' x' s d b r Hr Hc _ _ Hann Hd Hq _|row row' w' x' res r Hr Hc _ _ _ _ _].
  - split; [done|]. by left.
  - split; [done|]. by eapply Hput.
  - rewrite Hcall in Hc. injection Hc as _ ->. by destruct (Hnone res).
  - split; [done|]. by eapply Hput.
  - rewrite Hcall in Hc. injection Hc as _ ->. by destruct (Hnone res).
  - split; [done|]. by eapply Hput.
  - split; [done|]. eapply Hput; [exact Hd|]. unfold announced in Hann. destruct r as [e|o].
    + by destruct Hann as [_ ->].
    + destruct Hann as [_ Hcb]. destruct (job_callback_url m); [by destruct Hcb as [? ->]|by subst].
  - rewrite Hcall in Hc. injection Hc as _ ->. by destruct (Hnone res).
Qed.

(** The run is on record, and its job has neither succeeded nor been settled. *)
Definition stuck (m : AsyncJobMessage) (run : AgentRunRow) (held : R) v : Prop :=
  hdb_agent_runs (hst_db (net_harness (aw_ext v))) !! run_run_id (job_run_request m) = Some run ∧
  aw_redis v = held ∧
  ∀ row, jdb_async_jobs (aw_db v) !! job_job_id m = Some row → jrow_status row ≠ "succeeded".

Lemma stuck_delivery m run held body v v' :
  decode_message body = Some m → stuck m run held v → handle sender key body v = (v', inr tt) → stuck m run held v'.
Proof.
  intros Hdec (Hrun & Hheld & Hrow) Hh.
  destruct (ready m (aw_db v)) as [row|] eqn:Hready.
  - destruct (delivery_across m body v row Hdec Hready)
      as (v1 & v2 & r & sent & x & outcome & Hatt & _ & Hh' & _ & Hd & Hr & Hcall & Hn).
    rewrite Hh in Hh'. injection Hh' as <-.
    assert (Hwf : wf_budget (run_budget (request_of key m))) by exact (proj1 (decode_message_wf _ _ Hdec)).
    pose proof (worker_run_across (request_of key m) (aw_ext v) x outcome Hwf Hcall) as Hacross. cbn zeta in Hacross.
    pose proof (create_run_stays (request_of key m) _ _ _ Hrun) as Hstay.
    destruct (create_run app (request_of key m) (net_harness (aw_ext v))) as [h' res] eqn:Hcreate. cbn in Hstay.
    assert (Hnone : ∀ resp, outcome ≠ inr resp).
    { intros resp ->. destruct (next_fate (aw_ext v)).
      - destruct Hacross as [_ Hres]. destruct res as [e|resp']; [by apply (proj1 Hres resp)|].
        apply create_run_row in Hcreate as [Hfree _]. change (run_run_id (request_of key m)) with (run_run_id (job_run_request m)) in Hfree.
        congruence.
      - by destruct Hacross as [_ (? & ? & _)].
      - by destruct Hacross as [_ (? & ? & _)]. }
    pose proof (attempt_unanswered _ _ _ _ _ _ (job_job_id m) Hatt Hcall Hnone) as [Hheld' Hrows]. split_and!.
    + rewrite Hn. destruct (next_fate (aw_ext v)); destruct Hacross as [-> _]; done.
    + by rewrite Hr, Hheld'.
    + rewrite Hd. intros row' Hrow'. destruct (Hrows row' Hrow') as [?|?]; [by apply Hrow|done].
  - destruct (handle_run sender key m body v Hdec) as (v1 & v2 & r & sent & Hatt & _ & Hh' & Hd & Hr & _).
    rewrite Hh in Hh'. injection Hh' as <-.
    pose proof (handle_harness m body v Hdec) as Hn. rewrite Hh, process_job_harness, Hready in Hn. cbn [fst] in Hn.
    destruct Hatt; try congruence. split_and!; [by rewrite Hn|by rewrite Hr|by rewrite Hd].
Qed.

(** ** A first attempt *)

(** The row of an attempt's job, before and after it. *)
Definition attempted_row (row row' : JobRow) (status : string) (result error : option json) : Prop :=
  jrow_tenant_id row' = jrow_tenant_id row ∧ jrow_attempts row' = (1 + jrow_attempts row)%Z ∧
  jrow_status row' = status ∧ jrow_result row' = result ∧ jrow_error row' = error.

Lemma announced_row m row row1 row2 r o status result error :
  announced m row1 row2 r o → attempted_row row row1 status result error → attempted_row row row2 status result error.
Proof.
  unfold announced. intros Hann Hrow. destruct r as [e|o'].
  - by destruct Hann as [_ ->].
  - destruct Hann as [_ Hcb]. destruct (job_callback_url m); [by destruct Hcb as [? ->]|by subst].
Qed.

Lemma job_error_ok s d b : no_nul d = true → jsonb_ok (job_error s d b) = true.
Proof. intros Hd. unfold job_error. cbn -[no_nul String.append]. by rewrite no_nul_app, no_nul_Z, Hd. Qed.

Lemma attempt_errs m v v' r sent x s d b row :
  attempted key m v v' r → follow_up m r sent → ready m (aw_db v) = Some row → job_attempts m = 0%Z →
  harness_run (request_of key m) (aw_ext v) = (x, inl (HarnessError s d b)) → no_nul d = true →
  aw_redis v' = aw_redis v ∧ ∃ row', aw_db v' = put_row (job_job_id m) row' (aw_db v) ∧
    attempted_row row row' (if b then "failed" else "dead_lettered") (jrow_result row) (Some (job_error s d b)) ∧
    (b = true → sent = [Published (retry_publication m 10)]).
Proof.
  intros Hatt Hf Hready Hfirst Hcall Hdoc%(job_error_ok s d b).
  destruct Hatt as [Hr|row1 w' x' e Hr Hc He Hd Hq _|row1 w' x' res e Hr Hc _ _ _|row1 w' x' s' d' b' Hr Hc Hno Hd Hq _
                   |row1 w' x' res Hr Hc _ _ _ _|row1 w' x' s' d' Hr Hc _ _ Hd Hq _
                   |row1 row' w' x' s' d' b' r Hr Hc Hb _ Hann Hd Hq _|row1 row' w' x' res r Hr Hc _ _ _ _ _];
    rewrite Hready in Hr; simplify_eq; rewrite Hcall in Hc; simplify_eq.
  - by destruct (He s d b).
  - congruence.
  - split; [done|]. eexists. split; [exact Hd|]. split; [done|]. intros _.
    inversion Hf as [? [?|?]|delay Hdelay| |]; simplify_eq. rewrite Hfirst in Hdelay. by injection Hdelay as <-.
  - destruct Hb as [->|Hb]; [|unfold MAX_ATTEMPTS in Hb; lia]. split; [done|]. exists row'. split; [exact Hd|].
    split; [|done]. by eapply announced_row.
Qed.

Lemma attempt_answers m v v' r sent x resp held row :
  attempted key m v v' r → follow_up m r sent → ready m (aw_db v) = Some row →
  harness_run (request_of key m) (aw_ext v) = (x, inr resp) → settled m resp (aw_redis v) = (held, inr tt) →
  aw_redis v' = held ∧ ∃ row', aw_db v' = put_row (job_job_id m) row' (aw_db v) ∧
    if jsonb_ok (dump_response resp)
    then attempted_row row row' "succeeded" (Some (dump_response resp)) (jrow_error row)
    else attempted_row row row' "running" (jrow_result row) (jrow_error row) ∧
      sent = [Published (dlq_publication (json_text (dump_job_message m)))].
Proof.
  intros Hatt Hf Hready Hcall Hset.
  destruct Hatt as [Hr|row1 w' x' e Hr Hc He Hd Hq _|row1 w' x' res e Hr Hc Hq _ _|row1 w' x' s' d' b' Hr Hc _ Hd Hq _
                   |row1 w' x' res Hr Hc Hq Hdoc Hd _|row1 w' x' s' d' Hr Hc _ _ Hd Hq _
                   |row1 row' w' x' s' d' b' r Hr Hc Hb _ Hann Hd Hq _|row1 row' w' x' res r Hr Hc Hq Hdoc Hann Hd _];
    rewrite Hready in Hr; simplify_eq; rewrite Hcall in Hc; simplify_eq; rewrite Hset in Hq; simplify_eq;
    (split; [done|]); rewrite Hdoc.
  - eexists. split; [exact Hd|]. split; [done|]. by inversion Hf.
  - exists row'. split; [exact Hd|]. by eapply announced_row.
Qed.

(** ** The rows of a job as its tenant reads them *)

Context {Y : Type} `{HarnessHttp Y, Uuid Y, Broker Y, Jwt, Hashing} {client_laws : ClientLaws (X := Y)}.
Variable settings : GatewaySettings.
Implicit Types (w : GatewayState R Y).

(** What agent-gateway answers about a job. *)
Definition job_reads hs (job : string) w (status : JobStatus) (result : option AgentInvokeResponse) (attempts : Z) : Prop :=
  ∃ answer, get_job settings job hs w = (w, inr answer) ∧
    jst_status answer = status ∧ jst_result answer = result ∧ jst_attempts answer = attempts.

Lemma row_reads hs auth job w row status result error :
  authenticate (gst_jwt_signing_secret settings) hs w = (w, inr auth) →
  jdb_async_jobs (gw_db w) !! job = Some row → jrow_tenant_id row = au_tenant_id auth → (0 ≤ jrow_attempts row)%Z →
  jrow_status row = enum_value status → stored validate_response (jrow_result row) result →
  stored validate_job_error (jrow_error row) error →
  job_reads hs job w status result (jrow_attempts row).
Proof.
  intros Hauth Hrow Ht Hn Hs Hres Herr. pose proof (get_job_tenant_scoped settings hs auth w job Hauth) as Hget.
  assert (Hown : own_job w (au_tenant_id auth) job = Some row).
  { unfold own_job. rewrite Hrow. cbn. by rewrite Ht, String.eqb_refl. }
  rewrite Hown in Hget.
  eexists. split; [apply (Hget status result error); [done|by rewrite Hs; apply enum_round|done|done]|done].
Qed.

Lemma stored_result resp : wf_response resp → stored validate_response (Some (dump_response resp)) (Some resp).
Proof. intros Hwf. split; [done|]. split; [by eexists|by apply response_round]. Qed.

Lemma stored_error s d b : ∃ e, stored validate_job_error (Some (job_error s d b)) (Some e).
Proof. eexists. split; [done|]. split; [by eexists|apply job_error_round]. Qed.

Lemma worker_settles t pool run est actual dl c (r : R) :
  GET (reservation_key t pool run) r = Some (VJson (reservation_payload est dl (quota_key t pool))) →
  counter (quota_key t pool) r = Some c →
  ∃ r', reconcile (reservation_key t pool run) actual r = (r', inr tt) ∧ counter (quota_key t pool) r' = Some (c + (actual - est))%Z.
Proof.
  intros Hk Hc. destruct (reconcile_script_present (reservation_key t pool run) actual r est dl (quota_key t pool) c)
    as (r' & Hrec & Hq & _ & _); [apply not_eq_sym, quota_key_not_reservation|done..|].
  exists r'. split; [|by apply counter_of_GET].
  change (worker_reconcile_script (reservation_key t pool run) actual r = (r', inr (actual - est)%Z)) in Hrec.
  unfold reconcile. by rewrite (bind_inr _ _ _ _ _ Hrec).
Qed.

(** ** A job from end to end *)

Definition fresh_row (t : string) (row : JobRow) : Prop :=
  jrow_tenant_id row = t ∧ jrow_attempts row = 0%Z ∧ jrow_result row = None ∧ jrow_error row = None.

(** The worker finds the tables and the reservations as the gateway left them. *)
Lemma accepted_ready auth trace b job w w1 v :
  enqueued auth trace b job w w1 → aw_db v = gw_db w1 →
  let m := job_message auth trace b job in
  wf_job_message m ∧ ∃ row, ready m (aw_db v) = Some row ∧ fresh_row (au_tenant_id auth) row.
Proof.
  intros (Hrow & _ & Hest & _) Hd. split; [split; [split; [by right|exact Hest]|done]|].
  eexists. split; [apply reaches_spec; rewrite Hd; split; [exact Hrow|by split]|done].
Qed.

(** A chain of deliveries that starts with the run on record ends without success. *)
Lemma stuck_chain m run v row :
  wf_job_message m → json_plain (dump_job_message m) = true → ready m (aw_db v) = Some row →
  stuck m run (aw_redis v) v →
  ∃ v' n row', drive sender key (S (Z.to_nat (MAX_ATTEMPTS - job_attempts m))) (json_text (dump_job_message m)) v = (v', inr n) ∧
    aw_redis v' = aw_redis v ∧ jdb_async_jobs (aw_db v') !! job_job_id m = Some row' ∧
    (jrow_status row' = "dead_lettered" ∨ jrow_status row' = "running").
Proof.
  intros Hwf Hplain Hready Hstuck. pose proof (retry_decodes _ Hwf Hplain) as Hdec.
  destruct (deliveries_end sender key _ m _ v row Hdec Hplain Hready eq_refl) as (v' & n & row' & Hdr & _ & _ & Hrow & _ & Hfin).
  exists v', n, row'. split; [done|].
  set (P m' := run_run_id (job_run_request m') = run_run_id (job_run_request m) ∧ job_job_id m' = job_job_id m).
  assert (Hkeep : ∀ m' body v1 v2, P m' → decode_message body = Some m' → stuck m run (aw_redis v) v1 →
            handle sender key body v1 = (v2, inr tt) → stuck m run (aw_redis v) v2).
  { intros m' body v1 v2 [Hr Hj] Hd Hs Hh. pose proof (stuck_delivery m' run (aw_redis v) body v1 v2 Hd) as Hstep.
    unfold stuck in *. rewrite Hr, Hj in Hstep. by apply Hstep. }
  destruct (drive_keeps sender key P _ _ m _ v v' n (fun m' Hm' => Hm') Hkeep (conj eq_refl eq_refl) Hdec Hplain Hstuck Hdr)
    as (_ & Hheld & Hnot).
  split; [done|]. split; [done|]. destruct Hfin as [Hs|[Hs|[Hs _]]]; [by apply Hnot in Hs|by left|by right].
Qed.

(** A first delivery without an answer. *)
Lemma refused_delivery hs auth w m v v1 v' r sent x s d b row :
  authenticate (gst_jwt_signing_secret settings) hs (w <| gw_db := aw_db v' |>) = (w <| gw_db := aw_db v' |>, inr auth) →
  ready m (aw_db v) = Some row → fresh_row (au_tenant_id auth) row → job_attempts m = 0%Z →
  attempted key m v v1 r → follow_up m r sent → aw_db v' = aw_db v1 → aw_redis v' = aw_redis v1 →
  harness_run (request_of key m) (aw_ext v) = (x, inl (HarnessError s d b)) → no_nul d = true →
  aw_redis v' = aw_redis v ∧
  job_reads hs (job_job_id m) (w <| gw_db := aw_db v' |>) (if b then FAILED else DEAD_LETTERED) None 1 ∧
  (b = true → sent = [Published (retry_publication m 10)] ∧
     ∃ row', ready (retried_message m) (aw_db v') = Some row' ∧ jrow_status row' = "failed").
Proof.
  intros Hauth Hready (Ht & Hn & Hres & _) Hfirst Hatt Hf Hd Hq Hcall Htext.
  destruct (attempt_errs _ _ _ _ _ _ _ _ _ _ Hatt Hf Hready Hfirst Hcall Htext) as (Hq1 & row' & Hd1 & (Ht' & Hn' & Hs' & Hres' & Herr') & Hsent).
  split; [congruence|]. rewrite Hd1 in Hd.
  assert (Hrow' : jdb_async_jobs (aw_db v') !! job_job_id m = Some row') by (rewrite Hd; cbn; by rewrite lookup_insert_eq).
  pose proof (proj1 (reaches_spec _ _ _ _ _) Hready) as (_ & Htm & _). split.
  - destruct (stored_error s d b) as [e He].
    replace 1%Z with (jrow_attempts row') by (rewrite Hn', Hn; done).
    eapply (row_reads hs auth); [exact Hauth|exact Hrow'|congruence|lia| |by rewrite Hres', Hres|rewrite Herr'; exact He].
    rewrite Hs'. by destruct b.
  - intros ->. split; [by apply Hsent|]. exists row'. split; [|done].
    apply reaches_spec. split; [exact Hrow'|]. split; [cbn; congruence|]. unfold claimable. by rewrite Hs'.
Qed.

(** A delivery with an answer. *)
Lemma answered_delivery hs auth b trace job w v v1 v' r sent x resp row deadline c :
  let m := job_message auth trace b job in
  authenticate (gst_jwt_signing_secret settings) hs (w <| gw_db := aw_db v' |>) = (w <| gw_db := aw_db v' |>, inr auth) →
  ready m (aw_db v) = Some row → fresh_row (au_tenant_id auth) row → wf_response resp →
  GET (reservation_key (au_tenant_id auth) "async" job) (aw_redis v)
    = Some (VJson (reservation_payload (request_tokens (jrq_base b)) deadline (quota_key (au_tenant_id auth) "async"))) →
  counter (quota_key (au_tenant_id auth) "async") (aw_redis v) = Some c →
  attempted key m v v1 r → follow_up m r sent → aw_db v' = aw_db v1 → aw_redis v' = aw_redis v1 →
  harness_run (request_of key m) (aw_ext v) = (x, inr resp) →
  (if jsonb_ok (dump_response resp)
   then job_reads hs job (w <| gw_db := aw_db v' |>) SUCCEEDED (Some resp) 1
   else job_reads hs job (w <| gw_db := aw_db v' |>) RUNNING None 1 ∧
     sent = [Published (dlq_publication (json_text (dump_job_message m)))]) ∧
  counter (quota_key (au_tenant_id auth) "async") (aw_redis v')
    = Some (c + (usg_input_tokens (res_usage resp) + usg_output_tokens (res_usage resp) - request_tokens (jrq_base b)))%Z.
Proof.
  intros m Hauth Hready (Ht & Hn & Hnone & Herr) Hwf Hres Hc Hatt Hf Hd Hq Hcall.
  destruct (worker_settles _ _ _ _ (usg_input_tokens (res_usage resp) + usg_output_tokens (res_usage resp)) _ _ _ Hres Hc)
    as (held & Hset & Hheld).
  destruct (attempt_answers m v v1 r sent x resp held row Hatt Hf Hready Hcall) as (Hq1 & row' & Hd1 & Hrow'); [exact Hset|].
  split; [|by rewrite Hq, Hq1]. rewrite Hd1 in Hd.
  destruct (jsonb_ok (dump_response resp)); [|destruct Hrow' as [Hrow' Hdlq]; split; [|exact Hdlq]];
    destruct Hrow' as (Ht' & Hn' & Hs' & Hres' & Herr'); replace 1%Z with (jrow_attempts row') by (rewrite Hn', Hn; done);
    (eapply (row_reads hs auth); [exact Hauth|cbn; rewrite Hd; cbn; apply lookup_insert_eq|congruence|lia|by rewrite Hs'| |by rewrite Herr', Herr]).
  - rewrite Hres'. by apply stored_result.
  - by rewrite Hres', Hnone.
Qed.

End Jobs.

(** ** A job whose answer is lost *)

Module Witness.
Import RunnerProps.Witness GatewayProps.Demo PlatformProps.Witness.
Import AsyncWorker Platform.

#[local] Existing Instances AsyncWorkerProps.Witness.env_hooks AsyncWorkerProps.Witness.env_amqp
  AsyncWorkerProps.Witness.env_broker AsyncWorkerProps.Witness.demo_hmac AsyncWorkerProps.Witness.demo_text
  GatewayProps.Witness.demo_client_laws.

#[local] Abbreviation N := (Net RunnerProps.Witness.env AsyncWorkerProps.Witness.env).
#[local] Instance net_http : RunsHttp N := worker_http app.
#[local] Instance net_hooks : CallbackHttp N := worker_hooks.
#[local] Instance net_amqp : Amqp N := worker_amqp.

Definition job : AgentJobRequest := MkAgentJobRequest ask BULK None None.
Definition submitted := submit_job settings job Demo.hs (Demo.world []).
Definition accepted : AgentJobAcceptedResponse :=
  match submitted.2 with inr reply => rp_body reply | inl _ => MkAgentJobAcceptedResponse "" "" "" end.
Definition message : AsyncJobMessage := job_message GatewayProps.Witness.auth "trc_1" job (acc_job_id accepted).

(** The worker, its deliveries and the fates of its calls. *)
Definition worker (fates : list Fate) : WorkerState Store.store N :=
  MkWorkerState (gw_db submitted.1) (q_redis (gw_quota submitted.1)) "2026-01-01T00:00:00Z" [] [] []
    (MkNet (before "submit_leave_request") fates (AsyncWorkerProps.Witness.MkEnv [] [])).

Definition deliver (fates : list Fate) :=
  handle (R := Store.store) (X := N) AsyncWorkerProps.Witness.sender "sk-async" (json_text (dump_job_message message)) (worker fates).

Lemma job_answers : match (create_run app (AsyncWorkerProps.request_of "sk-async" message) (before "submit_leave_request")).2 with
                    | inr _ => true | inl _ => false end = true.
Proof. vm_compute. reflexivity. Qed.

Lemma submitted_ok : submitted = (submitted.1, inr (MkReply 202 "trc_1" accepted)).
Proof. vm_compute. reflexivity. Qed.


(** Delivered at once, the same job succeeds. *)
Example answered_job_succeeds :
  jrow_status <$> jdb_async_jobs (aw_db (deliver []).1) !! acc_job_id accepted = Some "succeeded".
Proof. vm_compute. reflexivity. Qed.

(** With the first answer lost it is dead-lettered, its tokens still reserved. *)
Example lost_answer_loses_the_job :
  let v' := (AsyncWorkerProps.drive AsyncWorkerProps.Witness.sender "sk-async" 4
               (json_text (dump_job_message message)) (worker [TimedOut])).1 in
  jrow_status <$> jdb_async_jobs (aw_db v') !! acc_job_id accepted = Some "dead_lettered" ∧
  counter (quota_key "tnt_a" "async") (aw_redis v') = Some (request_tokens ask).
Proof. vm_compute. split; reflexivity. Qed.
End Witness.
